(* ===== verification/_CoqProject ===== *)
-Q . S2P
Prelude.v
Fifo.v
RingBuffer.v
DenseTable.v
Bytes.v
Text.v
Mmio.v
Tty.v
Klog.v
Input.v
Pmm.v
Heap.v
PageBitmap.v
PageTree.v
Paging.v
Tlb.v
Vmm.v
Report.v
ProcTable.v
Sched.v
Signal.v
Process.v
Switch.v
Pipe.v
Timer.v
Ipc.v
CapProtocol.v
CapDaemon.v
CapClient.v
Calls.v
CapServer.v
Waydroid.v
Initramfs.v
Elf.v
Rtc.v
Board.v
Power.v
Display.v
Ufs.v
Fingerprint.v
Audio.v
Radio.v
Sensors.v
X86.v
Acpi.v
Gdt.v
Idt.v
Apic.v
Irq.v
Smp.v
Pci.v
Cpu.v
Devfs.v
Procfs.v
Usb.v
SocMap.v
MobileBoot.v
InitProc.v
Embedder.v
App.v
Bridge.v
Compositor.v
Virtio.v
Arm64.v
Syscall.v
Exceptions.v
InitRun.v
ArmBoot.v
X86Boot.v
Layout.v
Boot.v
Tests.v
