(* ===== verification/Prelude.v ===== *)
(** * OmniOS: a Rocq model of the kernel, its user space and its application

    OmniOS is a small kernel in C for x86_64 and for the SM8250 board
    (src/kernel), user space programs in C (src/userspace: the init process, a
    capability service, a bridge to Android, a compositor and a Flutter embedder)
    and a system application in Dart (src/omnios_app).  At start-up [kmain] sets
    up memory, descriptor tables and interrupts and starts the init thread, which
    brings up the drivers and executes the init program; threads run under a
    round-robin scheduler and call the kernel through a table of system calls;
    programs ask the capability daemon for tokens over a socket; the compositor
    shows what the application draws, and the application sends its requests to
    the embedder.  This library translates these parts to executable Rocq
    definitions, one file per component, and proves what makes each of them
    correct.

    ** Conventions

    - Integers are [Z]; the width is written out where the code can wrap
      ([u8] .. [u64], [s32], [s64] of this file).
    - Arrays are lists with [l.[i]] and [l.[i <- x]]; an index outside an array,
      which C leaves undefined, is excluded by an invariant or shown in a lemma.
    - Memory that the code reaches through pointers (page tables, free lists,
      heap headers, loaded programs) is a function from addresses to values.
    - A call that can end in [kernel_panic] gives an [outcome]; a loop whose end
      depends on data takes fuel and gives an [option], and a theorem says how
      much fuel is enough.
    - printf and the messages on the console are left out, except where they are
      what the code is for or what a program on the console shows: the terminal,
      the kernel log, the panic, the reports, the lines of syscall.c and the output
      of the init program.
    - Hardware is an argument: [MmioDevice] (file Mmio) for memory-mapped
      registers, [X86Machine] (file X86) for ports, model-specific registers and
      the local APIC.  What a driver needs of its device is a class with laws
      taken from the device's documentation (Rtc: [KeepsTime], Apic: [IoApic],
      Irq: [HasPics], Pci: [PciHost]), and each has an instance.  Every access is
      logged, a copy to or from a device's memory as its range of bytes.
    - Libraries outside the repository are an argument too: [Library] (file
      Calls) answers every call of a user space program, and a theorem on a
      program ([traces]) says which calls it makes whatever the answers are.
    - Assembly is a list of instructions run on registers and memory.

    ** Files and the code they model

    Shared theory:
    - Prelude: integers, arrays, scans, outcomes, tactics, the hint databases.
    - Fifo, RingBuffer: bounded queues and their implementation with two
      indices; used by Tty, Klog, Input and Pipe.
    - DenseTable: tables whose first entries are in use and whose removal moves
      the last entry into the gap; used by Ipc and CapDaemon.
    - Bytes, Text: slices, C strings, little-endian words, printed numbers.
    - PageTree: four-level trees of page tables in physical memory, for any
      format of the entries; used by Paging and Arm64.
    - Mmio (bsp/sm8250/sm8250.h), X86 (arch/x86_64/io.h): access to hardware.
    - Calls: calls of user space programs to libraries and to the system.

    Memory:
    - Pmm (mm/pmm.c): free lists threaded through the free pages.
    - Heap, PageBitmap (mm/memory.c): first-fit heap; page bitmap.
    - Paging (arch/x86_64/paging.c): four-level page tables.
    - Tlb (arch/x86_64/paging.c): control registers and cached translations, with
      the processor filling and dropping entries at any time.
    - Vmm (mm/vmm.c): address spaces and page faults, over Pmm and Paging.

    Processes:
    - ProcTable, Process (proc/process.c): tables, creation, fork, wait.
    - Switch (proc/process.c): the x86_64 switch of registers, as instructions.
    - Sched (sched/sched.c), Signal (proc/signal.c), Timer (timer.c).
    - Pipe (ipc/pipe.c), Ipc (ipc/ipc.c).
    - Syscall (syscall.c): the dispatch of system calls over the components,
      with the execution of programs on both architectures.
    - Boot (kernel_main.c): start-up and the init thread, over the components.
    - Report: the functions of the kernel that only print.
    - Tests (tests/test_kernel.c, userspace/security/test_capability.c): the test
      programs run on the model, with their outcome.

    Programs and file systems:
    - Initramfs (fs/initramfs.c), Elf (fs/elf.c), Devfs (fs/devfs.c),
      Procfs (fs/procfs.c).

    Devices:
    - Tty (drivers/tty.c), Klog (klog.c), Pci and Virtio (drivers/pci.c,
      virtio.c).
    - Gdt, Idt, Apic, Irq, Smp, Cpu, Acpi, X86Boot (arch/x86_64/gdt.c, idt.c,
      apic.c, interrupts.c, smp.c, cpu.c, acpi.c, boot.S).
    - Arm64, Exceptions, ArmBoot (arch/arm64/arm64.c, exceptions.S and
      exceptions.c, boot.S).
    - SocMap (bsp/sm8250/sm8250.h): the register windows of the board and the
      windows each driver works in.
    - Layout: the structures and numbers of the headers, and their agreement with
      the offsets the components use.
    - Board (bsp/sm8250/sm8250.c) and the drivers of bsp/sm8250/drivers: Input,
      Rtc, Power (power_mgmt.c), Display (display_fb.c), Ufs, Fingerprint, Audio,
      Radio (modem_ril.c, wifi_bt.c, nfc.c), Sensors, Usb (usb_gadget.c,
      usb_otg.c); MobileBoot (init.c) starts them, but for the sensors.

    Capability service (userspace/security):
    - CapProtocol (capability_protocol.h), CapDaemon and CapServer
      (capability_daemon.c: messages and the poll loop; [main]), CapClient
      (capability_client.c).  The client is verified against the
      interface [CapService], which the daemon implements.
    - Waydroid (waydroid_binder.c, and the connection of capability_client.c).

    Other programs:
    - InitProc (userspace/init/init.c) over any kernel, InitRun over the kernel of
      the repository, through Exceptions and Syscall; Compositor
      (userspace/compositor/omnios-compositor.c), Embedder
      (userspace/flutter-embedder/embedder.c).
    - App (omnios_app/lib: models, services, navigation, lock screen) and Bridge
      (services/platform_bridge.dart), which is put together with Embedder.

    In every file the state of a component is a record with the static
    variables of its C file, and each function of the C file is the definition
    of the same name.

    ** What the theorems show

    - Refinement: page tables of both architectures are a finite map from pages
      to entries, on x86_64 outside the last top-level entry, which is recursive
      ([paging_map_page_refines], [paging_unmap_page_refines],
      [arm64_map_user_pages_refines]); the heap is a list of blocks under first
      fit and coalescing ([kmalloc_refines], [kfree_refines]); terminal, run
      queue and pipe are queues ([tty_refines_fifo], [sched_queue_refines],
      [pipe_stream]); the channel table and the daemon are maps
      ([ipc_refines_map], [handle_message_refines]); a switch of threads is a
      change of the set of suspended threads ([context_switch_refines]); the navigation of the
      application is a mode with an optional application ([navigation_refines]).
    - Safety and invariants: an allocation overlaps no other ([kmalloc_fresh]);
      the cached translations of a CPU agree with its tables ([tlb_coherent]); the
      drivers of the board stay in their own registers and memory as long as the
      transfers asked for fit ([drivers_isolated]);
      no token holds a right outside its owner's preset
      ([tokens_within_presets]); an interrupt line is delivered exactly when it has
      a handler and, behind the second controller, line 2 has one as well
      ([irq_masks_follow_handlers]); no handler of the compositor touches freed
      memory or leaves a listener in it ([handlers_keep_linked]); the start of the
      Android container leaks nothing ([waydroid_start_correct]), and the daemon
      nothing but connections beyond its table ([capd_main_closes]); the embedder
      keeps the read protocol of the display and ends with its closing calls
      ([embedder_run]); the registers of
      the power driver agree with its state ([power_registers_agree]).
    - Round trips: page allocation and release, cpio encoding and lookup,
      setting and reading the clock, writing and reading storage blocks, a
      supervisor call and its return ([svc_returns]), a request of the
      application to the embedder and its reply ([bridge_round_trip]).
    - Function: round robin, sleep and wake, signals, timers, fork and creation
      of processes, demand paging, loading of executables, and with all of
      them [execve_enters_program] and [execve_user_space]: a file of the archive
      ends up in memory and is entered at its entry point, on aarch64 under a
      table that maps exactly its stack and as many pages as the file is long.
    - Start-up: [start_reaches_kmain], [start_outcome], [kmain_reaches_idle],
      [mobile_boot_ready] and [init_thread_panics] follow the code from the
      entry to the init program, with any other CPUs entering meanwhile on x86_64;
      [init_run] says what appears on the console when the program runs.
    - Termination and bounds: the archive search on every input, the calendar
      conversion, the daemon's round, the walk over the ACPI tables, rectangles
      on the screen, the size of the embedder's window.
    - Lemmas that record where the code departs from its purpose stand beside
      the operation they are about (for instance [pmm_init_no_contiguous],
      [sched_sleep_alone], [revoke_needs_no_owner], [ap_race],
      [redirect_changes_vector], [slave_line_blocked], [storage_reaches_audio],
      [bss_unmapped], [higher_half_lost], [early_regions_empty], [page_desc_reserved],
      [svc_zero_refused], [any_pin_unlocks]).

    ** Fuel and bounds

    - [kmalloc]: more rounds than blocks; the list ends at address 0.
    - [initramfs_find]: two more than size / 110, the length of a header; every
      round advances by at least a header.
    - [epoch_to_time]: one round per 365 days and one more; 132 up to 2100.  The
      year is an [int], which instants from [end_of_years] on overflow.
    - [order_of]: 65 rounds; the size doubles in every one and a count above
      2^63 never ends ([order_of_least]).
    - [acpi_init]: one round per entry of the interrupt controller table; an
      entry of length 0 never ends ([zero_length_hangs]).
    - [mobile_boot_init]: enough for the calendar conversion of a 55-bit time, a
      hypothesis on the clock that keeps the year an [int].
    - [start] of ArmBoot: four instructions per word of the BSS and 22 more.
    - [apic_send_ipi], [smp_init], [kmain]: as many as the APIC needs to deliver, a
      hypothesis of their theorems.
    - Addresses below 2^47 or in the kernel half for mappings, archives below
      2^62 bytes, identifiers before they wrap around: as stated.

    ** Not modelled

    - The real-mode part of the SMP trampoline and the far jumps of
      arch/x86_64/boot.S, which only change the mode of the processor.
    - Functions the source calls and defines nowhere ([sched_create_thread],
      [process_exit], [process_get_current], [sys_brk], [context_switch] on
      aarch64) are parameters or left out.
    - Accesses of include files that no code uses (8, 16 and 64-bit
      memory-mapped access in io.h, [cpu_get_current], [page_to_block]), the
      endless loop of the idle thread, and the declarations of omnios_kernel.h
      for file systems, drivers and networks that have no implementation.
    - Prototypes, include lines and constants no operation reads.
    - Widgets and screens of the application, which only describe a layout to
      the Flutter framework; constant descriptions of the runtimes.
    - The tests of the interfaces without an implementation, build scripts and
      scripts/ota_update.sh, which is not a well-formed shell program. *)

From stdpp Require Import base numbers list option tactics.

Declare Scope omnios_scope.
Delimit Scope omnios_scope with omnios.

(** ** Machine integers

    A C integer of width [w] is a [Z]; unsigned arithmetic wraps with [wrap],
    signed narrowing conversions wrap with [swrap] (the two's complement
    behaviour of every compiler the Makefile names). *)

Definition wrap (w x : Z) : Z := (x mod 2 ^ w)%Z.
Definition swrap (w x : Z) : Z := ((x + 2 ^ (w - 1)) mod 2 ^ w - 2 ^ (w - 1))%Z.

Abbreviation u8 := (wrap 8).
Abbreviation u16 := (wrap 16).
Abbreviation u32 := (wrap 32).
Abbreviation u64 := (wrap 64).
Abbreviation s32 := (swrap 32).
Abbreviation s64 := (swrap 64).

(** C truth value of an integer. *)
Definition truthy (x : Z) : bool := negb (x =? 0)%Z.
(** C's integer value of a comparison. *)
Definition of_bool (b : bool) : Z := if b then 1%Z else 0%Z.

(** ** Status codes of include/omnios_kernel.h *)

Definition STATUS_SUCCESS : Z := 0%Z.
Definition STATUS_ERROR : Z := (-1)%Z.
Definition STATUS_TIMEOUT : Z := (-2)%Z.
Definition STATUS_INVALID : Z := (-4)%Z.
Definition STATUS_NOT_FOUND : Z := (-5)%Z.
Definition STATUS_NO_MEMORY : Z := (-7)%Z.
Definition STATUS_NOT_IMPLEMENTED : Z := (-8)%Z.
Definition STATUS_WOULD_BLOCK : Z := (-10)%Z.

Definition PAGE_SIZE : Z := 4096%Z.
Definition PAGE_SHIFT : Z := 12%Z.

(** ** Calls that may not return

    [kernel_panic] masks interrupts and halts for ever, so a call that may reach
    it either returns a value or halts the machine with the given message. *)

Inductive panic : Type :=
| PmmOom        (* "pmm_alloc_page: OOM" *)
| WalkFailed.   (* "paging_map_page: walk failed" *)

Inductive outcome (A : Type) : Type :=
| Done (a : A)
| Halted (why : panic).
Arguments Done {A} a.
Arguments Halted {A} why.

#[export] Instance outcome_ret : MRet outcome := fun A a => Done a.
#[export] Instance outcome_bind : MBind outcome :=
  fun A B k m => match m with Done a => k a | Halted w => Halted w end.

(** ** Arrays

    A C array is a list of its length; [l .[ i ]] reads index [i] and
    [l .[ i <- x ]] writes it.  The models guard every access as the source
    does; lemmas about an access carry its range. *)

Definition aget {A} `{Inhabited A} (l : list A) (i : Z) : A := l !!! Z.to_nat i.
Definition aset {A} (l : list A) (i : Z) (x : A) : list A := <[Z.to_nat i := x]> l.

Notation "l .[ i ]" := (aget l i) (at level 1, left associativity, format "l .[ i ]")
  : omnios_scope.
Notation "l .[ i <- x ]" := (aset l i x)
  (at level 1, left associativity, format "l .[ i  <-  x ]") : omnios_scope.

Open Scope omnios_scope.
Open Scope Z_scope.

(** ** First-fit scans

    [for (i = 0; i < MAX; i++) if (p(arr[i])) { found = i; break; }] *)

Fixpoint first_index {A} (p : A -> bool) (l : list A) : option nat :=
  match l with
  | [] => None
  | x :: l' => if p x then Some 0%nat else S <$> first_index p l'
  end.

(** ** C strings

    A [char] buffer is a list of character codes; the string it holds ends at
    the first NUL. *)

Fixpoint cstr (buf : list Z) : list Z :=
  match buf with
  | [] => []
  | c :: buf' => if c =? 0 then [] else c :: cstr buf'
  end.

Definition strlen (buf : list Z) : Z := Z.of_nat (length (cstr buf)).

(** [strcmp(a, b) == 0] *)
Definition streq (a b : list Z) : bool := bool_decide (cstr a = cstr b).

(** [strncpy(dst, src, n)]: at most [n] characters of [src], zero padded up to
    [n], the rest of [dst] untouched. *)
Definition strncpy (dst src : list Z) (n : nat) : list Z :=
  let s := take n (cstr src) in
  s ++ replicate (n - length s) 0 ++ drop n dst.

(** ** Memory

    Memory is a map from the address of a cell (a field of the size the code
    accesses it with) to its content. *)

Definition mem_write (m : Z -> Z) (a v : Z) : Z -> Z :=
  fun x => if x =? a then v else m x.

(** [memset(p, 0, n)] *)
Definition mem_zero (m : Z -> Z) (p n : Z) : Z -> Z :=
  fun x => if (p <=? x) && (x <? p + n) then 0 else m x.

(** [memcpy(d, p, n)] *)
Definition mem_copy (m : Z -> Z) (d p n : Z) : Z -> Z :=
  fun x => if (d <=? x) && (x <? d + n) then m (p + (x - d)) else m x.

(** ** Automation *)

Create HintDb omnios.
Create Rewrite HintDb omnios.

Ltac Zify.zify_post_hook ::= Z.div_mod_to_equations.

(** Split every boolean comparison of the goal and the context. *)
Ltac split_cmp :=
  repeat match goal with
  | |- context [?a =? ?b] => destruct (Z.eqb_spec a b)
  | |- context [?a <? ?b] => destruct (Z.ltb_spec a b)
  | |- context [?a <=? ?b] => destruct (Z.leb_spec a b)
  | H : context [?a =? ?b] |- _ => destruct (Z.eqb_spec a b)
  | H : context [?a <? ?b] |- _ => destruct (Z.ltb_spec a b)
  | H : context [?a <=? ?b] |- _ => destruct (Z.leb_spec a b)
  end.

(** ** Integer lemmas *)

Section integers.

Lemma wrap_small w x : 0 <= x < 2 ^ w -> wrap w x = x.
Proof. intros. by apply Z.mod_small. Qed.

Lemma wrap_range w x : 0 <= w -> 0 <= wrap w x < 2 ^ w.
Proof. intros. apply Z.mod_pos_bound. by apply Z.pow_pos_nonneg. Qed.

Lemma swrap_small w x :
  0 < w -> - 2 ^ (w - 1) <= x < 2 ^ (w - 1) -> swrap w x = x.
Proof.
  intros Hw Hx. unfold swrap.
  assert (2 ^ w = 2 * 2 ^ (w - 1)) as E.
  { rewrite <-Z.pow_succ_r by lia. f_equal. lia. }
  rewrite Z.mod_small; lia.
Qed.

Lemma wrap_wrap w x : 0 <= w -> wrap w (wrap w x) = wrap w x.
Proof. intros. apply wrap_small. by apply wrap_range. Qed.

(** Stepping an index of a circular buffer. *)
Lemma mod_step N i k :
  0 <= i < N -> 0 <= k <= N ->
  (i + k) mod N = if i + k <? N then i + k else i + k - N.
Proof.
  intros. destruct (Z.ltb_spec (i + k) N).
  - apply Z.mod_small; lia.
  - symmetry. apply (Z.mod_unique _ _ 1); lia.
Qed.

Lemma mod_dist N i j :
  0 <= i < N -> 0 <= j < N ->
  (i - j) mod N = if j <=? i then i - j else i - j + N.
Proof.
  intros. destruct (Z.leb_spec j i).
  - apply Z.mod_small; lia.
  - symmetry. apply (Z.mod_unique _ _ (-1)); lia.
Qed.

End integers.

#[export] Hint Resolve wrap_range : omnios.
#[export] Hint Rewrite @wrap_wrap using lia : omnios.

(** ** Bit lemmas *)

Lemma truthy_land_bit x n : 0 <= n -> truthy (Z.land x (2 ^ n)) = Z.testbit x n.
Proof.
  intros Hn. unfold truthy. destruct (Z.testbit x n) eqn:Hb.
  - destruct (Z.eqb_spec (Z.land x (2 ^ n)) 0) as [E|]; [|done].
    apply (f_equal (fun z => Z.testbit z n)) in E.
    rewrite Z.land_spec, Z.pow2_bits_true, Hb, Z.bits_0 in E by done. done.
  - rewrite (proj2 (Z.eqb_eq _ _)); [done|]. apply Z.bits_inj'. intros m Hm.
    rewrite Z.land_spec, Z.pow2_bits_eqb, Z.bits_0 by done.
    destruct (Z.eqb_spec n m) as [<-|]; [by rewrite Hb | by rewrite andb_false_r].
Qed.

Lemma wrap_testbit w x i : 0 <= w -> 0 <= i -> Z.testbit (wrap w x) i = (i <? w) && Z.testbit x i.
Proof.
  intros Hw Hi. unfold wrap. destruct (Z.ltb_spec i w).
  - rewrite Z.mod_pow2_bits_low by lia. done.
  - by rewrite Z.mod_pow2_bits_high by lia.
Qed.

(** Disjoint bits: the low [n] bits and the rest. *)
Lemma lor_low a b n : 0 <= n -> 0 <= b < 2 ^ n -> Z.lor (a * 2 ^ n) b = a * 2 ^ n + b.
Proof.
  intros Hn Hb. assert (Z.land (a * 2 ^ n) b = 0) as Hland.
  { apply Z.bits_inj'. intros i Hi. rewrite Z.land_spec, Z.bits_0.
    destruct (Z.ltb_spec i n).
    - by rewrite Z.mul_pow2_bits_low.
    - rewrite <-(Z.mod_small b (2 ^ n)) by done.
      rewrite Z.mod_pow2_bits_high by lia. apply andb_false_r. }
  rewrite <-Z.lxor_lor by done. symmetry. by apply Z.add_nocarry_lxor.
Qed.

(** The mask [2^n - 2^k] keeps the bits from [k] to [n - 1]. *)
Lemma land_mask p n k : 0 <= k <= n -> Z.land p (2 ^ n - 2 ^ k) = (p mod 2 ^ n) / 2 ^ k * 2 ^ k.
Proof.
  intros Hk. assert (2 ^ n - 2 ^ k = Z.ldiff (Z.ones n) (Z.ones k)) as ->.
  { rewrite Z.ldiff_ones_r, Z.shiftl_mul_pow2, Z.shiftr_div_pow2 by lia.
    rewrite Z.ones_equiv. replace (2 ^ n) with (2 ^ (n - k) * 2 ^ k)
      by (rewrite <-Z.pow_add_r by lia; f_equal; lia).
    assert (0 < 2 ^ k) by (apply Z.pow_pos_nonneg; lia).
    rewrite <-(Z.div_unique (Z.pred (2 ^ (n - k) * 2 ^ k)) (2 ^ k) (2 ^ (n - k) - 1) (2 ^ k - 1)); nia. }
  rewrite Z.ldiff_land, Z.land_assoc, <-Z.ldiff_land, Z.land_ones by lia.
  by rewrite Z.ldiff_ones_r, Z.shiftl_mul_pow2, Z.shiftr_div_pow2 by lia.
Qed.

(** [b |= 1 << n] and [b &= ~(1 << n)] on an 8-bit cell. *)
Lemma testbit_set_bit b n i :
  0 <= n < 8 -> 0 <= i < 8 ->
  Z.testbit (u8 (Z.lor b (Z.shiftl 1 n))) i = (n =? i) || Z.testbit b i.
Proof.
  intros Hn Hi. rewrite wrap_testbit, Z.lor_spec, Z.shiftl_1_l, Z.pow2_bits_eqb by lia.
  rewrite (proj2 (Z.ltb_lt _ _)) by lia. simpl. by rewrite orb_comm.
Qed.

Lemma testbit_clear_bit b n i :
  0 <= n < 8 -> 0 <= i < 8 ->
  Z.testbit (u8 (Z.land b (Z.lnot (Z.shiftl 1 n)))) i = negb (n =? i) && Z.testbit b i.
Proof.
  intros Hn Hi. rewrite wrap_testbit, Z.land_spec, Z.lnot_spec, Z.shiftl_1_l, Z.pow2_bits_eqb by lia.
  rewrite (proj2 (Z.ltb_lt _ _)) by lia. simpl. by rewrite andb_comm.
Qed.

(** ** Array lemmas *)

Section arrays.
Context {A : Type} `{Inhabited A}.
Implicit Types (l : list A) (i j : Z) (x : A).

Lemma length_aset l i x : length (aset l i x) = length l.
Proof. apply length_insert. Qed.

Lemma aget_aset_eq l i x :
  0 <= i < Z.of_nat (length l) -> aget (aset l i x) i = x.
Proof. intros. unfold aget, aset. apply list_lookup_total_insert_eq. lia. Qed.

Lemma aget_aset_ne l i j x :
  0 <= i -> 0 <= j -> i <> j -> aget (aset l i x) j = aget l j.
Proof.
  intros. unfold aget, aset. apply list_lookup_total_insert_ne. lia.
Qed.

Lemma aset_aset l i x y : aset (aset l i x) i y = aset l i y.
Proof. unfold aset. apply list_insert_insert_eq. Qed.

Lemma aget_lookup l i :
  0 <= i < Z.of_nat (length l) -> l !! Z.to_nat i = Some (aget l i).
Proof. intros. unfold aget. apply list_lookup_lookup_total_lt. lia. Qed.

Lemma aget_nat l (k : nat) : aget l (Z.of_nat k) = l !!! k.
Proof. unfold aget. by rewrite Nat2Z.id. Qed.

End arrays.

#[export] Hint Rewrite @length_aset @aset_aset : omnios.

(** ** Scan lemmas *)

Section scans.
Context {A : Type}.
Implicit Types (p : A -> bool) (l : list A).

Lemma first_index_Some p l i :
  first_index p l = Some i <->
  (exists x, l !! i = Some x /\ p x = true) /\
  (forall j y, (j < i)%nat -> l !! j = Some y -> p y = false).
Proof.
  revert i; induction l as [|a l IH]; intros i; simpl.
  - split; [done | intros [(x & Hx & _) _]; by rewrite lookup_nil in Hx].
  - destruct (p a) eqn:Ha.
    + split.
      * intros [= <-]. split; [by exists a | intros; lia].
      * intros [_ Hlt]. destruct i as [|i]; [done|].
        specialize (Hlt 0%nat a ltac:(lia) eq_refl). congruence.
    + destruct i as [|i].
      * split; [by destruct (first_index p l) |].
        intros [(x & [= <-] & Hx) _]. congruence.
      * rewrite fmap_Some. split.
        -- intros (k & Hk & [= <-]). apply IH in Hk as [Hx Hlt].
           split; [done|]. intros [|j] y Hj Hy; [by injection Hy as <- |].
           apply (Hlt j y); [lia | done].
        -- intros [Hx Hlt]. exists i. split; [|done]. apply IH.
           split; [done|]. intros j y Hj Hy. apply (Hlt (S j) y); [lia|done].
Qed.

Lemma first_index_None p l :
  first_index p l = None <-> Forall (fun x => p x = false) l.
Proof.
  induction l as [|a l IH]; simpl; [by split|].
  rewrite List.Forall_cons_iff. destruct (p a) eqn:Ha.
  - split; [done | by intros [? _]].
  - rewrite fmap_None, IH. tauto.
Qed.

Lemma first_index_lt p l i :
  first_index p l = Some i -> (i < length l)%nat.
Proof.
  intros [(x & Hx & _) _]%first_index_Some. by eapply lookup_lt_Some.
Qed.

End scans.

(** ** C string lemmas *)

Lemma cstr_no_nul s : Forall (fun c => c <> 0) s -> cstr s = s.
Proof.
  induction 1 as [|c s Hc _ IH]; simpl; [done|].
  destruct (Z.eqb_spec c 0); [done | by rewrite IH].
Qed.

Lemma cstr_nonzero s : Forall (fun c => c <> 0) (cstr s).
Proof.
  induction s as [|c s IH]; simpl; [constructor|].
  destruct (Z.eqb_spec c 0); by constructor.
Qed.

Lemma cstr_app_nul s r : Forall (fun c => c <> 0) s -> cstr (s ++ 0 :: r) = s.
Proof.
  induction 1 as [|c s Hc _ IH]; simpl; [done|].
  destruct (Z.eqb_spec c 0); [done | by rewrite IH].
Qed.

Lemma length_strncpy dst src n :
  (n <= length dst)%nat -> length (strncpy dst src n) = length dst.
Proof.
  intros. unfold strncpy.
  rewrite !length_app, length_replicate, length_drop, length_take. lia.
Qed.

(** A copied name that fits, into a buffer whose last byte is NUL, reads back. *)
Lemma cstr_strncpy dst src n :
  (length (cstr src) <= n)%nat -> dst !! n = Some 0 ->
  cstr (strncpy dst src n) = cstr src.
Proof.
  intros Hlen Hnul. unfold strncpy. rewrite take_ge by done.
  pose proof (cstr_nonzero src) as Hnz.
  destruct (n - length (cstr src))%nat as [|k] eqn:E; simpl.
  - rewrite (drop_S dst 0 n Hnul). by apply cstr_app_nul.
  - by apply cstr_app_nul.
Qed.
