(* ===== verification/Fifo.v ===== *)
(** * Bounded queues

    The abstract queue a circular buffer of the kernel promises to its client,
    the interface [BoundedFifo] that a component discharges, and the refinement
    theorem proved once against that interface: any sequence of puts and gets
    on the component returns what the abstract queue returns. *)

From stdpp Require Import base numbers list option tactics.
From S2P Require Import Prelude.

(** ** Abstract specification *)

Module FifoSpec.

(** A queue of at most [cap] elements that drops what does not fit. *)
Definition put {A} (cap : Z) (a : A) (q : list A) : list A :=
  if Z.of_nat (length q) <? cap then q ++ [a] else q.

Definition get {A} (q : list A) : option (A * list A) :=
  match q with [] => None | a :: q' => Some (a, q') end.

End FifoSpec.

(** ** Interface *)

Class BoundedFifo (S A : Type) (cap : Z) := {
  bf_wf : S -> Prop;
  bf_abs : S -> list A;
  bf_put : A -> S -> S;
  bf_get : S -> option (A * S);
  bf_put_wf a s : bf_wf s -> bf_wf (bf_put a s);
  bf_put_abs a s : bf_wf s -> bf_abs (bf_put a s) = FifoSpec.put cap a (bf_abs s);
  bf_get_wf a s s' : bf_wf s -> bf_get s = Some (a, s') -> bf_wf s';
  bf_get_abs s :
    bf_wf s ->
    prod_map id bf_abs <$> bf_get s = FifoSpec.get (bf_abs s);
}.

(** ** Runs of operations *)

Inductive fifo_op (A : Type) : Type :=
| FPut (a : A)
| FGet.
Arguments FPut {A} a.
Arguments FGet {A}.

Section runs.
Context {S A : Type} {cap : Z} `{!BoundedFifo S A cap}.
Implicit Types (s : S) (a : A) (ops : list (fifo_op A)).

(** Results of the gets of a run, and the final state. *)
Fixpoint run_impl ops s : list (option A) * S :=
  match ops with
  | [] => ([], s)
  | FPut a :: ops' => run_impl ops' (bf_put a s)
  | FGet :: ops' =>
      match bf_get s with
      | None => let '(r, s') := run_impl ops' s in (None :: r, s')
      | Some (a, s1) => let '(r, s') := run_impl ops' s1 in (Some a :: r, s')
      end
  end.

Fixpoint run_spec ops (q : list A) : list (option A) * list A :=
  match ops with
  | [] => ([], q)
  | FPut a :: ops' => run_spec ops' (FifoSpec.put cap a q)
  | FGet :: ops' =>
      match FifoSpec.get q with
      | None => let '(r, q') := run_spec ops' q in (None :: r, q')
      | Some (a, q1) => let '(r, q') := run_spec ops' q1 in (Some a :: r, q')
      end
  end.

(** Every run of the component is a run of the abstract queue. *)
Lemma run_refines ops s :
  bf_wf s ->
  (run_impl ops s).1 = (run_spec ops (bf_abs s)).1 /\
  bf_abs (run_impl ops s).2 = (run_spec ops (bf_abs s)).2 /\
  bf_wf (run_impl ops s).2.
Proof.
  revert s; induction ops as [|[a|] ops IH]; intros s Hs; simpl; [done| |].
  - rewrite <-bf_put_abs by done. apply IH. by apply bf_put_wf.
  - rewrite <-bf_get_abs by done.
    destruct (bf_get s) as [[a s1]|] eqn:E; simpl.
    + specialize (IH s1 (bf_get_wf _ _ _ Hs E)).
      destruct (run_impl ops s1), (run_spec ops (bf_abs s1)); simpl in *.
      destruct IH as (-> & ? & ?). done.
    + specialize (IH s Hs).
      destruct (run_impl ops s), (run_spec ops (bf_abs s)); simpl in *.
      destruct IH as (-> & ? & ?). done.
Qed.

(** What is put into an empty queue with room comes out in order. *)
Lemma run_round_trip s (l : list A) :
  bf_wf s -> bf_abs s = [] -> Z.of_nat (length l) <= cap ->
  (run_impl ((FPut <$> l) ++ replicate (length l) FGet) s).1 = Some <$> l.
Proof.
  intros Hs Hempty Hlen.
  rewrite (proj1 (run_refines _ s Hs)), Hempty.
  assert (forall q, Z.of_nat (length q + length l) <= cap ->
    (run_spec ((FPut <$> l) ++ replicate (length l) FGet) q).1
    = (run_spec (replicate (length l) FGet) (q ++ l)).1) as Hput.
  { assert (forall k q, Z.of_nat (length q + length l) <= cap ->
      (run_spec ((FPut <$> l) ++ k) q).1 = (run_spec k (q ++ l)).1) as Hk.
    { clear. induction l as [|a l IH]; intros k q Hq; simpl in *.
      - by rewrite app_nil_r.
      - unfold FifoSpec.put. destruct (Z.ltb_spec (Z.of_nat (length q)) cap); [|lia].
        rewrite IH by (rewrite length_app; simpl; lia). by rewrite <-app_assoc. }
    auto. }
  rewrite Hput by (simpl; lia). simpl. clear.
  assert (forall r, (run_spec (replicate (length l) FGet) (l ++ r)).1 = Some <$> l) as Hg.
  { induction l as [|a l IH]; intros r; simpl; [done|].
    specialize (IH r).
    destruct (run_spec (replicate (length l) FGet) (l ++ r)); simpl in *. by rewrite IH. }
  specialize (Hg []). by rewrite app_nil_r in Hg.
Qed.

End runs.
