(* ===== verification/RingBuffer.v ===== *)
(** * Circular buffers

    The pipe, the console TTY, the input event queue, the kernel log and the
    scheduler's runqueues all keep a fixed array with a write index [head] and
    a read index [tail].  This file has the theory they share: the contents of
    such a buffer as a list, what the two index updates do to it, and that the
    guarded updates are the [put] and [get] of the abstract queue of Fifo.v. *)

From stdpp Require Import base numbers list option tactics.
From S2P Require Import Prelude Fifo.

(** Number of elements between [tail] and [head] in a buffer of [N] slots. *)
Definition ring_len (N head tail : Z) : Z := (head - tail) mod N.

Definition ring_index (N tail : Z) (k : nat) : Z := (tail + Z.of_nat k) mod N.

(** The elements between [tail] and [head], oldest first. *)
Definition ring_contents {A} `{Inhabited A} (N : Z) (buf : list A) (head tail : Z)
  : list A :=
  (fun k => buf.[ring_index N tail k]) <$> seq 0 (Z.to_nat (ring_len N head tail)).

(** Indices in range and a buffer of [N] slots. *)
Definition ring_wf {A} (N : Z) (buf : list A) (head tail : Z) : Prop :=
  Z.of_nat (length buf) = N /\ 0 <= head < N /\ 0 <= tail < N.

Section ring.
Context {A : Type} `{Inhabited A}.
Implicit Types (buf : list A) (x : A) (head tail : Z).

Lemma ring_len_bound N head tail : 0 < N -> 0 <= ring_len N head tail < N.
Proof. intros. by apply Z.mod_pos_bound. Qed.

Lemma length_ring_contents N buf head tail :
  length (ring_contents N buf head tail) = Z.to_nat (ring_len N head tail).
Proof. unfold ring_contents. by rewrite length_fmap, length_seq. Qed.

Lemma ring_contents_bound N buf head tail :
  ring_wf N buf head tail ->
  Z.of_nat (length (ring_contents N buf head tail)) <= N - 1.
Proof.
  intros (? & ? & ?). rewrite length_ring_contents.
  pose proof (ring_len_bound N head tail). lia.
Qed.

Lemma ring_len_0 N head tail :
  0 <= head < N -> 0 <= tail < N -> ring_len N head tail = 0 <-> tail = head.
Proof.
  intros. unfold ring_len. rewrite mod_dist by done.
  destruct (Z.leb_spec tail head); lia.
Qed.

Lemma ring_empty N buf head tail :
  ring_wf N buf head tail ->
  ring_contents N buf head tail = [] <-> tail = head.
Proof.
  intros (Hl & Hh & Ht). rewrite <-(ring_len_0 N) by done.
  rewrite <-length_zero_iff_nil, length_ring_contents.
  pose proof (ring_len_bound N head tail). lia.
Qed.

(** The slot after [head] is [tail] exactly when [N - 1] slots are used. *)
Lemma ring_full N head tail :
  0 <= head < N -> 0 <= tail < N ->
  (head + 1) mod N = tail <-> ring_len N head tail = N - 1.
Proof.
  intros. unfold ring_len. rewrite mod_step, mod_dist by lia.
  destruct (Z.ltb_spec (head + 1) N), (Z.leb_spec tail head); lia.
Qed.

Lemma ring_len_push N head tail :
  0 <= head < N -> 0 <= tail < N -> (head + 1) mod N <> tail ->
  ring_len N ((head + 1) mod N) tail = ring_len N head tail + 1.
Proof.
  intros Hh Ht Hne. assert (0 < N) as HN by lia.
  pose proof (Z.mod_pos_bound (head + 1) N HN).
  revert Hne. unfold ring_len. rewrite !mod_dist by done.
  rewrite mod_step by lia.
  destruct (Z.ltb_spec (head + 1) N); repeat case_match; lia.
Qed.

Lemma ring_index_range N tail k : 0 < N -> 0 <= ring_index N tail k < N.
Proof. intros. by apply Z.mod_pos_bound. Qed.

(** The slot [ring_len] steps after [tail] is [head]. *)
Lemma ring_index_len N head tail :
  0 <= head < N -> 0 <= tail < N ->
  ring_index N tail (Z.to_nat (ring_len N head tail)) = head.
Proof.
  intros. unfold ring_index. pose proof (ring_len_bound N head tail).
  rewrite Z2Nat.id by lia. unfold ring_len in *.
  rewrite mod_step by lia. rewrite mod_dist in * by done.
  split_cmp; lia.
Qed.

Lemma ring_index_ne N head tail k :
  0 <= head < N -> 0 <= tail < N -> Z.of_nat k < ring_len N head tail ->
  ring_index N tail k <> head.
Proof.
  intros Hh Ht Hk. unfold ring_index. pose proof (ring_len_bound N head tail).
  rewrite mod_step by lia. unfold ring_len in Hk. rewrite mod_dist in Hk by done.
  destruct (Z.leb_spec tail head), (Z.ltb_spec (tail + Z.of_nat k) N); lia.
Qed.

(** Writing at [head] does not disturb the contents. *)
Lemma ring_contents_write N buf head tail x :
  ring_wf N buf head tail ->
  ring_contents N (buf.[head <- x]) head tail = ring_contents N buf head tail.
Proof.
  intros (Hl & Hh & Ht). unfold ring_contents.
  apply list_fmap_ext. intros i k Hk.
  apply lookup_seq in Hk as [-> Hi]. apply aget_aset_ne; [lia| |].
  - apply ring_index_range. lia.
  - intros E. apply (ring_index_ne N head tail (0 + i)%nat); [done..| |done].
    pose proof (ring_len_bound N head tail). lia.
Qed.

(** [buf[head] = x; head = (head + 1) % N] on a buffer that is not full. *)
Lemma ring_push N buf head tail x :
  ring_wf N buf head tail -> (head + 1) mod N <> tail ->
  ring_contents N (buf.[head <- x]) ((head + 1) mod N) tail
    = ring_contents N buf head tail ++ [x].
Proof.
  intros Hwf Hne. pose proof Hwf as (Hl & Hh & Ht).
  rewrite <-(ring_contents_write N buf head tail x) by done.
  unfold ring_contents at 1. rewrite ring_len_push by done.
  pose proof (ring_len_bound N head tail).
  rewrite Z2Nat.inj_add, seq_app, fmap_app by lia. f_equal. simpl.
  rewrite ring_index_len, aget_aset_eq by (done || lia). done.
Qed.

Lemma ring_wf_push N buf head tail x :
  ring_wf N buf head tail -> ring_wf N (buf.[head <- x]) ((head + 1) mod N) tail.
Proof.
  intros (? & ? & ?). unfold ring_wf. rewrite length_aset.
  repeat split; try lia; apply Z.mod_pos_bound; lia.
Qed.

Lemma ring_wf_pop N buf head tail :
  ring_wf N buf head tail -> ring_wf N buf head ((tail + 1) mod N).
Proof.
  intros (? & ? & ?). unfold ring_wf.
  repeat split; try lia; apply Z.mod_pos_bound; lia.
Qed.

(** [x = buf[tail]; tail = (tail + 1) % N] on a buffer that is not empty. *)
Lemma ring_pop N buf head tail :
  ring_wf N buf head tail -> tail <> head ->
  ring_contents N buf head tail
    = buf.[tail] :: ring_contents N buf head ((tail + 1) mod N).
Proof.
  intros (Hl & Hh & Ht) Hne. unfold ring_contents.
  assert (ring_len N head tail = 1 + ring_len N head ((tail + 1) mod N)) as ->.
  { assert (0 < N) as HN by lia. pose proof (Z.mod_pos_bound (tail + 1) N HN).
    unfold ring_len. rewrite !mod_dist by done. rewrite mod_step by lia.
    destruct (Z.ltb_spec (tail + 1) N); repeat case_match; lia. }
  pose proof (ring_len_bound N head ((tail + 1) mod N)).
  rewrite Z2Nat.inj_add, seq_app, fmap_app by lia. simpl. f_equal.
  - unfold ring_index. by rewrite Z.add_0_r, Z.mod_small.
  - change (Z.to_nat 1) with 1%nat. rewrite <-fmap_S_seq, <-list_fmap_compose.
    apply list_fmap_ext. intros i k _. simpl. f_equal. unfold ring_index.
    rewrite Zplus_mod_idemp_l. f_equal. lia.
Qed.

(** The full test of the source is the capacity test of the abstract queue. *)
Lemma ring_full_test N buf head tail :
  ring_wf N buf head tail ->
  ((head + 1) mod N =? tail)
    = negb (Z.of_nat (length (ring_contents N buf head tail)) <? N - 1).
Proof.
  intros (Hl & Hh & Ht). rewrite length_ring_contents.
  pose proof (ring_len_bound N head tail). rewrite Z2Nat.id by lia.
  pose proof (ring_full N head tail Hh Ht).
  destruct (Z.eqb_spec ((head + 1) mod N) tail), (Z.ltb_spec (ring_len N head tail) (N - 1));
    simpl; lia.
Qed.

Lemma ring_put N buf head tail x :
  ring_wf N buf head tail ->
  (if (head + 1) mod N =? tail then ring_contents N buf head tail
   else ring_contents N (buf.[head <- x]) ((head + 1) mod N) tail)
    = FifoSpec.put (N - 1) x (ring_contents N buf head tail).
Proof.
  intros Hwf. unfold FifoSpec.put. pose proof (ring_full_test _ _ _ _ Hwf) as Hf.
  destruct (Z.eqb_spec ((head + 1) mod N) tail); destruct (_ <? _);
    first [discriminate Hf | reflexivity | by apply ring_push].
Qed.

Lemma ring_get N buf head tail :
  ring_wf N buf head tail ->
  (if tail =? head then None
   else Some (buf.[tail], ring_contents N buf head ((tail + 1) mod N)))
    = FifoSpec.get (ring_contents N buf head tail).
Proof.
  intros Hwf. destruct (Z.eqb_spec tail head) as [E|E].
  - by rewrite (proj2 (ring_empty N buf head tail Hwf) E).
  - by rewrite (ring_pop N buf head tail).
Qed.

(** A buffer that overwrites its oldest element: the write, and the advance
    of [tail] when [head] catches up with it. *)
Lemma ring_push_overwrite N buf head tail x :
  ring_wf N buf head tail -> 1 < N ->
  let head' := (head + 1) mod N in
  let tail' := if head' =? tail then (tail + 1) mod N else tail in
  ring_wf N (buf.[head <- x]) head' tail' /\
  ring_contents N (buf.[head <- x]) head' tail' =
    (let l := ring_contents N buf head tail ++ [x] in
     drop (length l - Z.to_nat (N - 1)) l).
Proof.
  intros Hwf HN head' tail'. pose proof Hwf as (Hl & Hh & Ht).
  pose proof (ring_wf_push _ _ _ _ x Hwf) as Hwf'. fold head' in Hwf'.
  pose proof (ring_len_bound N head tail).
  subst tail'. destruct (Z.eqb_spec head' tail) as [E|E].
  - (* full: the write lands on the last free slot, then tail moves on *)
    pose proof E as Hfull. apply ring_full in Hfull; [|done..].
    split; [by apply ring_wf_pop |].
    set (buf' := buf.[head <- x]).
    assert (tail <> head) as Hne.
    { intros ->. unfold ring_len in Hfull. rewrite Z.sub_diag, Z.mod_0_l in Hfull; lia. }
    pose proof (ring_contents_write N buf head tail x Hwf) as Hw.
    assert (ring_wf N buf' head tail) as Hwf2.
    { split; [by unfold buf'; rewrite length_aset | done]. }
    pose proof (ring_pop N buf' head tail Hwf2 Hne) as Hp. fold buf' in Hw.
    rewrite <-Hw, Hp. simpl. rewrite length_app. simpl.
    replace (_ - _)%nat with 1%nat.
    2:{ apply (f_equal length) in Hp. simpl in Hp.
        rewrite !length_ring_contents in Hp. rewrite length_ring_contents. lia. }
    simpl. rewrite drop_0.
    pose proof (ring_push N buf' head ((tail + 1) mod N) x) as Hpush.
    assert (buf'.[head <- x] = buf') as Hid by apply aset_aset.
    rewrite Hid in Hpush. fold head' in Hpush. apply Hpush.
    + by apply ring_wf_pop.
    + rewrite E, mod_step by lia. destruct (Z.ltb_spec (tail + 1) N); lia.
  - split; [done|]. unfold head'. rewrite ring_push by done.
    rewrite length_app, length_ring_contents. simpl.
    assert (ring_len N head tail <> N - 1) by (rewrite <-ring_full; done).
    replace (_ - _)%nat with 0%nat by lia. by rewrite drop_0.
Qed.

End ring.

#[export] Hint Resolve ring_wf_push ring_wf_pop : omnios.
