(* ===== verification/DenseTable.v ===== *)
(** * Dense tables

    A C array with a count of the entries in use: entries are found by a key,
    appended at the end and removed by moving the last one into their slot.
    The channels of ipc.c and the tokens of the capability daemon are kept this
    way.  With distinct keys such a table is a finite map. *)

From stdpp Require Import base numbers list option tactics gmap.
From S2P Require Import Prelude.

(** The entries in use. *)
Definition live {A} (n : Z) (arr : list A) : list A := take (Z.to_nat n) arr.

(** Moving the last entry into the slot of another keeps the entries before it
    and drops just that one. *)
Lemma live_remove {A} `{Inhabited A} (n : Z) (arr l1 : list A) (a : A) (l2 : list A) :
  0 <= n <= Z.of_nat (length arr) -> live n arr = l1 ++ a :: l2 ->
  exists l2', live (n - 1) (arr.[Z.of_nat (length l1) <- arr.[n - 1]]) = l1 ++ l2' /\ l2' ≡ₚ l2.
Proof.
  intros Hn Hu.
  assert (length (live n arr) = Z.to_nat n) as Hlen by (unfold live; rewrite length_take; lia).
  rewrite Hu, length_app in Hlen. simpl in Hlen.
  pose proof (take_drop (Z.to_nat n) arr) as Hch. fold (live n arr) in Hch. rewrite Hu in Hch.
  set (rest := drop _ _) in Hch. rewrite <-Hch.
  unfold live, aset, aget. rewrite Nat2Z.id.
  replace (Z.to_nat (n - 1)) with (length l1 + length l2)%nat by lia.
  rewrite insert_app_l by (rewrite length_app; simpl; lia).
  rewrite insert_app_r_alt by lia. rewrite Nat.sub_diag. cbn [insert list_insert].
  destruct l2 as [|d l3 _] using rev_ind.
  - exists []. rewrite Nat.add_0_r, app_nil_r, <-app_assoc. by rewrite take_app_length.
  - exists (d :: l3). rewrite length_app. cbn [length].
    rewrite lookup_total_app_l by (rewrite !length_app; simpl; rewrite length_app; simpl; lia).
    assert ((l1 ++ a :: l3 ++ [d]) !!! (length l1 + (length l3 + 1))%nat = d) as ->.
    { apply list_lookup_total_correct. rewrite lookup_app_r by lia.
      replace (length l1 + (length l3 + 1) - length l1)%nat with (S (length l3)) by lia.
      simpl. by apply list_lookup_middle. }
    rewrite <-!app_assoc. simpl. rewrite <-app_assoc. simpl.
    replace (l1 ++ d :: l3 ++ d :: rest) with ((l1 ++ d :: l3) ++ d :: rest) by (by rewrite <-app_assoc).
    replace (length l1 + (length l3 + 1))%nat with (length (l1 ++ d :: l3))
      by (rewrite length_app; simpl; lia).
    rewrite take_app_length. split; [done|]. by rewrite Permutation_cons_append.
Qed.

Section table.
Context {A : Type} `{Inhabited A} (key : A -> Z).
Implicit Types (arr l : list A) (a : A) (n id : Z).

(** [for (i = 0; i < n; i++) if (arr[i].key == id) ...] *)
Definition find_key id n arr : option Z :=
  Z.of_nat <$> first_index (fun a => key a =? id) (live n arr).

Definition by_key l : gmap Z A := list_to_map ((fun a => (key a, a)) <$> l).

Record dense (cap n : Z) (arr : list A) : Prop := {
  de_length : Z.of_nat (length arr) = cap;
  de_count : 0 <= n <= cap;
  de_nodup : NoDup (key <$> live n arr);
}.

(** ** Maps of lists with distinct keys *)

Lemma by_key_fst l : ((fun a => (key a, a)) <$> l).*1 = key <$> l.
Proof. by rewrite <-list_fmap_compose. Qed.

Lemma by_key_lookup l id a :
  NoDup (key <$> l) -> by_key l !! id = Some a <-> a ∈ l /\ key a = id.
Proof.
  intros Hnd. unfold by_key. rewrite <-elem_of_list_to_map by (by rewrite by_key_fst).
  rewrite list_elem_of_fmap. split.
  - by intros (x & [= -> ->] & Hx).
  - intros [Ha <-]. by exists a.
Qed.

Lemma by_key_none l id : id ∉ (key <$> l) -> by_key l !! id = None.
Proof. intros Hid. apply not_elem_of_list_to_map_1. by rewrite by_key_fst. Qed.

Lemma by_key_size l : NoDup (key <$> l) -> size (by_key l) = length l.
Proof.
  intros Hnd. unfold by_key. rewrite map_size_list_to_map by (by rewrite by_key_fst).
  by rewrite length_fmap.
Qed.

Lemma by_key_perm l l' : NoDup (key <$> l) -> l ≡ₚ l' -> by_key l = by_key l'.
Proof.
  intros Hnd Hp. unfold by_key. apply list_to_map_proper; [by rewrite by_key_fst|]. by rewrite Hp.
Qed.

Lemma NoDup_middle (l1 l2 : list Z) (x : Z) :
  NoDup (l1 ++ x :: l2) -> (x ∉ l1 ++ l2) /\ NoDup (l1 ++ l2).
Proof. rewrite <-Permutation_middle. apply NoDup_cons. Qed.

(** Splitting a list at one of its entries. *)
Lemma by_key_split l1 a l2 :
  NoDup (key <$> l1 ++ a :: l2) ->
  by_key (l1 ++ a :: l2) = <[key a := a]> (by_key (l1 ++ l2)) /\ by_key (l1 ++ l2) !! key a = None.
Proof.
  intros Hnd. split.
  - rewrite (by_key_perm _ (a :: l1 ++ l2)); [done|done|]. by rewrite Permutation_middle.
  - apply by_key_none. rewrite !fmap_app, fmap_cons in *. by apply NoDup_middle in Hnd as [? _].
Qed.

(** Counting the entries with a property. *)
Lemma by_key_filter_size (P : A -> Prop) `{forall a, Decision (P a)} l :
  NoDup (key <$> l) ->
  size (filter (fun x : Z * A => P x.2) (by_key l)) = length (filter P l).
Proof.
  intros Hnd. induction l as [|a l IH]; [done|]. rewrite fmap_cons in Hnd.
  apply NoDup_cons in Hnd as [Ha Hnd]. specialize (IH Hnd).
  change (by_key (a :: l)) with (<[key a := a]> (by_key l)). rewrite filter_cons.
  destruct (decide (P a)) as [HP|HP].
  - rewrite map_filter_insert_True by done. rewrite map_size_insert_None; [by rewrite IH|].
    rewrite map_lookup_filter, by_key_none by done. done.
  - rewrite map_filter_insert_False by done. rewrite delete_id; [done|]. by apply by_key_none.
Qed.

(** ** Table operations *)

Section dense.
Context (cap n : Z) (arr : list A) (Hd : dense cap n arr).

Lemma live_split : arr = live n arr ++ drop (Z.to_nat n) arr /\ length (live n arr) = Z.to_nat n.
Proof. destruct Hd as [Hl Hc _]. unfold live. rewrite take_drop, length_take. split; [done|lia]. Qed.

Lemma dense_size : Z.of_nat (size (by_key (live n arr))) = n.
Proof. destruct live_split as [_ Hl]. destruct Hd as [_ ? ?]. rewrite by_key_size by done. lia. Qed.

Lemma find_key_cases id :
  (find_key id n arr = None /\ by_key (live n arr) !! id = None) \/
  (exists l1 a l2, live n arr = l1 ++ a :: l2 /\ find_key id n arr = Some (Z.of_nat (length l1)) /\
     key a = id /\ arr.[Z.of_nat (length l1)] = a /\ by_key (live n arr) !! id = Some a).
Proof.
  destruct live_split as [Hch _]. destruct Hd as [_ _ Hnd].
  unfold find_key. destruct (first_index _ (live n arr)) as [i|] eqn:E; simpl.
  - right. apply first_index_Some in E as [(a & Ha & Hid%Z.eqb_eq) _].
    exists (take i (live n arr)), a, (drop (S i) (live n arr)).
    pose proof (lookup_lt_Some _ _ _ Ha) as Hlt.
    assert (length (take i (live n arr)) = i) as Hi by (rewrite length_take; lia).
    split_and!; [by rewrite take_drop_middle|by rewrite Hi|done| |].
    + rewrite Hi, aget_nat, Hch. apply list_lookup_total_correct. by rewrite lookup_app_l.
    + apply by_key_lookup; [done|]. split; [|done]. by eapply list_elem_of_lookup_2.
  - left. split; [done|]. apply by_key_none. rewrite list_elem_of_fmap. intros (a & -> & Ha).
    apply first_index_None in E. rewrite Forall_forall in E. apply E in Ha. by rewrite Z.eqb_refl in Ha.
Qed.

(** [arr[i] = a'] with the key kept. *)
Lemma dense_update l1 a l2 a' :
  live n arr = l1 ++ a :: l2 -> key a' = key a ->
  let arr' := arr.[Z.of_nat (length l1) <- a'] in
  dense cap n arr' /\ live n arr' = l1 ++ a' :: l2 /\
  by_key (live n arr') = <[key a := a']> (by_key (live n arr)).
Proof.
  intros Hu Hid arr'. destruct live_split as [Hch Hlen]. destruct Hd as [Hl Hc Hnd].
  rewrite Hu in *.
  assert (live n arr' = l1 ++ a' :: l2) as Hu'.
  { unfold live, arr', aset. rewrite Nat2Z.id, Hch.
    rewrite insert_app_l by (rewrite length_app; simpl; lia). rewrite insert_app_r_alt by lia.
    rewrite Nat.sub_diag. simpl. rewrite <-Hlen, length_app. simpl.
    replace (length l1 + S (length l2))%nat with (length (l1 ++ a' :: l2)) by (by rewrite length_app).
    apply take_app_length. }
  assert ((key <$> l1 ++ a' :: l2) = (key <$> l1 ++ a :: l2)) as Hids
    by (by rewrite !fmap_app, !fmap_cons, Hid).
  split_and!; [split|done|].
  - unfold arr'. by rewrite length_aset.
  - done.
  - by rewrite Hu', Hids.
  - rewrite Hu'. destruct (by_key_split l1 a l2 Hnd) as [-> _].
    destruct (by_key_split l1 a' l2 ltac:(by rewrite Hids)) as [-> _].
    by rewrite Hid, insert_insert_eq.
Qed.

(** [arr[i] = arr[--n]] *)
Lemma dense_remove l1 a l2 :
  live n arr = l1 ++ a :: l2 ->
  let arr' := arr.[Z.of_nat (length l1) <- arr.[n - 1]] in
  dense cap (n - 1) arr' /\ live (n - 1) arr' ≡ₚ l1 ++ l2 /\
  by_key (live (n - 1) arr') = delete (key a) (by_key (live n arr)).
Proof.
  intros Hu arr'. destruct Hd as [Hl Hc Hnd].
  destruct (live_remove n arr l1 a l2 ltac:(lia) Hu) as (l2' & Hu' & Hp).
  assert (live (n - 1) arr' ≡ₚ l1 ++ l2) as Hp' by (unfold arr'; by rewrite Hu', Hp).
  rewrite Hu in *. destruct live_split as [_ Hlen]. rewrite Hu, length_app in Hlen. simpl in Hlen.
  assert (NoDup (key <$> l1 ++ l2)) as Hnd'.
  { rewrite fmap_app, fmap_cons in Hnd. rewrite fmap_app. by apply NoDup_middle in Hnd as [_ ?]. }
  split_and!; [split|done|].
  - unfold arr'. by rewrite length_aset.
  - lia.
  - by rewrite Hp'.
  - destruct (by_key_split l1 a l2 Hnd) as [-> Hnone]. rewrite delete_insert_id by done.
    symmetry. by apply by_key_perm.
Qed.

(** [arr[n++] = a] with a new key. *)
Lemma dense_append a :
  n < cap -> key a ∉ (key <$> live n arr) ->
  let arr' := arr.[n <- a] in
  dense cap (n + 1) arr' /\ live (n + 1) arr' = live n arr ++ [a] /\
  by_key (live (n + 1) arr') = <[key a := a]> (by_key (live n arr)).
Proof.
  intros Hroom Hnew arr'. destruct live_split as [Hch Hlen]. destruct Hd as [Hl Hc Hnd].
  assert (live (n + 1) arr' = live n arr ++ [a]) as Hu.
  { unfold live, arr', aset. replace (Z.to_nat (n + 1)) with (S (Z.to_nat n)) by lia.
    rewrite (take_S_r _ _ a).
    - by rewrite take_insert_ge by lia.
    - apply list_lookup_insert_eq. lia. }
  assert (NoDup (key <$> a :: live n arr)) as Hnd' by (rewrite fmap_cons; by apply NoDup_cons).
  assert (live n arr ++ [a] ≡ₚ a :: live n arr) as Hp by (by rewrite <-Permutation_cons_append).
  split_and!; [split|done|].
  - unfold arr'. by rewrite length_aset.
  - lia.
  - by rewrite Hu, Hp.
  - rewrite Hu. symmetry. by apply (by_key_perm (a :: live n arr)).
Qed.

End dense.
End table.
