(* ===== verification/Bytes.v ===== *)
(** * Byte buffers

    Slices of a buffer, little-endian fields, hexadecimal fields and C array
    reads that may leave the buffer; shared by the parsers of the kernel
    (initramfs, ELF, ACPI tables). *)

From stdpp Require Import base numbers list option tactics.
From S2P Require Import Prelude.

(** [n] bytes from offset [off]. *)
Definition slice {A} (off n : Z) (l : list A) : list A := take (Z.to_nat n) (drop (Z.to_nat off) l).

(** Reading [n] bytes at [off]; [None] when the read leaves the buffer. *)
Definition read_bytes (off n : Z) (l : list Z) : option (list Z) :=
  if (0 <=? off) && (off + n <=? Z.of_nat (length l)) then Some (slice off n l) else None.

(** Little-endian value of bytes. *)
Fixpoint le_value (bs : list Z) : Z :=
  match bs with
  | [] => 0
  | b :: bs' => b + 256 * le_value bs'
  end.

Definition read_le (off n : Z) (l : list Z) : option Z := le_value <$> read_bytes off n l.

(** The bytes of a value. *)
Fixpoint le_bytes (n : nat) (x : Z) : list Z :=
  match n with
  | O => []
  | S n' => x mod 256 :: le_bytes n' (x / 256)
  end.

Definition is_byte (b : Z) : Prop := 0 <= b < 256.

(** ** Copies between buffers and memory *)

(** [memcpy] of bytes to an address. *)
Definition mem_store (m : Z -> Z) (a : Z) (bs : list Z) : Z -> Z :=
  fun x => if (a <=? x) && (x <? a + Z.of_nat (length bs)) then bs !!! Z.to_nat (x - a) else m x.

(** The [n] bytes at an address. *)
Definition mem_load (m : Z -> Z) (a n : Z) : list Z := (fun i => m (a + i)) <$> seqZ 0 n.

Lemma mem_load_store m a bs : mem_load (mem_store m a bs) a (Z.of_nat (length bs)) = bs.
Proof.
  apply list_eq. intros i. unfold mem_load. rewrite list_lookup_fmap.
  destruct (decide (i < length bs)%nat) as [Hi|Hi].
  - rewrite lookup_seqZ_lt by lia. simpl. unfold mem_store.
    rewrite (proj2 (Z.leb_le _ _)), (proj2 (Z.ltb_lt _ _)) by lia. simpl.
    replace (Z.to_nat (a + (0 + Z.of_nat i) - a)) with i by lia.
    symmetry. by apply list_lookup_lookup_total_lt.
  - rewrite lookup_seqZ_ge, lookup_ge_None_2 by lia. done.
Qed.

Lemma mem_load_other m a bs b n :
  b + n <= a \/ a + Z.of_nat (length bs) <= b -> mem_load (mem_store m a bs) b n = mem_load m b n.
Proof.
  intros Hd. unfold mem_load. apply list_fmap_ext. intros i x Hx.
  apply lookup_seqZ in Hx as [-> Hi]. unfold mem_store.
  destruct (Z.leb_spec a (b + (0 + Z.of_nat i))), (Z.ltb_spec (b + (0 + Z.of_nat i)) (a + Z.of_nat (length bs)));
    simpl; done || lia.
Qed.

(** ** Slices *)

Section slices.
Context {A : Type}.
Implicit Types (l : list A).

Lemma length_slice off n l :
  0 <= off -> 0 <= n -> off + n <= Z.of_nat (length l) -> length (slice off n l) = Z.to_nat n.
Proof. intros. unfold slice. rewrite length_take, length_drop. lia. Qed.

Lemma slice_app_r l1 l2 off n :
  Z.of_nat (length l1) <= off -> slice off n (l1 ++ l2) = slice (off - Z.of_nat (length l1)) n l2.
Proof.
  intros. unfold slice. rewrite drop_app_ge by lia. do 2 f_equal. lia.
Qed.

Lemma slice_app_l l1 l2 off n :
  0 <= off -> 0 <= n -> off + n <= Z.of_nat (length l1) -> slice off n (l1 ++ l2) = slice off n l1.
Proof.
  intros. unfold slice. rewrite drop_app_le by lia. rewrite take_app_le; [done|]. rewrite length_drop. lia.
Qed.

Lemma slice_all l : slice 0 (Z.of_nat (length l)) l = l.
Proof. unfold slice. rewrite Nat2Z.id, drop_0. apply firstn_all. Qed.

Lemma slice_lookup off n l i :
  0 <= off -> 0 <= i < n -> slice off n l !! Z.to_nat i = l !! Z.to_nat (off + i).
Proof.
  intros. unfold slice. rewrite lookup_take_lt by lia. rewrite lookup_drop. f_equal. lia.
Qed.

End slices.

(** A slice that is exactly one of the concatenated parts. *)
Lemma slice_part {A} (l1 l2 l3 : list A) :
  slice (Z.of_nat (length l1)) (Z.of_nat (length l2)) (l1 ++ l2 ++ l3) = l2.
Proof.
  rewrite slice_app_r by lia. rewrite Z.sub_diag, slice_app_l by lia. apply slice_all.
Qed.

Lemma read_bytes_in off n l :
  0 <= off -> off + n <= Z.of_nat (length l) -> read_bytes off n l = Some (slice off n l).
Proof.
  intros. unfold read_bytes. rewrite (proj2 (Z.leb_le _ _)), (proj2 (Z.leb_le _ _)) by lia. done.
Qed.

(** ** Little-endian values *)

Lemma le_value_range bs : Forall is_byte bs -> 0 <= le_value bs < 256 ^ Z.of_nat (length bs).
Proof.
  induction 1 as [|b bs Hb _ IH]; [simpl; lia|]. unfold is_byte in Hb. cbn [length le_value].
  rewrite Nat2Z.inj_succ, Z.pow_succ_r by lia. lia.
Qed.

Lemma length_le_bytes n x : length (le_bytes n x) = n.
Proof. revert x. induction n as [|n IH]; intros x; simpl; [done|]. by rewrite IH. Qed.

Lemma le_bytes_bytes n x : Forall is_byte (le_bytes n x).
Proof.
  revert x. induction n as [|n IH]; intros x; simpl; constructor; [|done].
  unfold is_byte. by apply Z.mod_pos_bound.
Qed.

Lemma le_value_bytes n x : 0 <= x < 256 ^ Z.of_nat n -> le_value (le_bytes n x) = x.
Proof.
  revert x. induction n as [|n IH]; intros x Hx; simpl.
  - simpl in Hx. lia.
  - rewrite Nat2Z.inj_succ, Z.pow_succ_r in Hx by lia. rewrite IH; [lia|].
    split; [apply Z.div_pos; lia|]. apply Z.div_lt_upper_bound; lia.
Qed.

#[export] Hint Resolve le_bytes_bytes : omnios.
#[export] Hint Rewrite length_le_bytes : omnios.
