(* ===== verification/Text.v ===== *)
(** * Text

    The formatting the C library does for the kernel: numbers, padding and
    [snprintf], with what a reader gets back from a printed number; used by the
    /proc entries, the USB driver, the system calls and the init program. *)

From stdpp Require Import base numbers list option tactics strings.
From S2P Require Import Prelude.
Open Scope Z_scope.

Module Text.

Fixpoint chars (s : string) : list Z :=
  match s with
  | EmptyString => []
  | String c s' => Z.of_N (Ascii.N_of_ascii c) :: chars s'
  end.

Definition line (s : string) : list Z := chars s ++ [10].

(** "%llu": the digits of a number below [10 ^ fuel]. *)
Fixpoint dec_loop (fuel : nat) (n : Z) (acc : list Z) : list Z :=
  match fuel with
  | O => acc
  | S fuel' =>
      let acc' := (48 + n mod 10) :: acc in
      if n <? 10 then acc' else dec_loop fuel' (n / 10) acc'
  end.

Definition dec (n : Z) : list Z := dec_loop 20 n [].

(** "%ld" *)
Definition dec_signed (n : Z) : list Z := if n <? 0 then 45 :: dec (- n) else dec n.

(** "%llx": the digits of a number below [16 ^ fuel]. *)
Definition xdigit (d : Z) : Z := if d <? 10 then 48 + d else 87 + d.

Fixpoint hex_loop (fuel : nat) (n : Z) (acc : list Z) : list Z :=
  match fuel with
  | O => acc
  | S fuel' =>
      let acc' := xdigit (n mod 16) :: acc in
      if n <? 16 then acc' else hex_loop fuel' (n / 16) acc'
  end.

Definition hex (n : Z) : list Z := hex_loop 16 n [].

(** "%8llu" and "%02u" *)
Definition pad (c : Z) (w : nat) (l : list Z) : list Z := replicate (w - length l) c ++ l.

(** The value returned and the bytes stored from the start of the buffer. *)
Definition snprintf (size : Z) (text : list Z) : Z * list Z :=
  (Z.of_nat (length text),
   if size =? 0 then [] else take (Z.to_nat (size - 1)) text ++ [0]).

(** ** Reading numbers back *)

Definition digit (c : Z) : Prop := 48 <= c <= 57.

Definition value_of (l : list Z) : Z := fold_left (fun v c => v * 10 + (c - 48)) l 0.

Lemma fold_digits l : forall v,
  fold_left (fun v c => v * 10 + (c - 48)) l v = v * 10 ^ Z.of_nat (length l) + value_of l.
Proof.
  induction l as [|c l IH]; intros v; [unfold value_of; simpl; lia|].
  unfold value_of. cbn [fold_left length]. rewrite (IH (v * 10 + (c - 48))), (IH (0 * 10 + (c - 48))).
  rewrite Nat2Z.inj_succ, Z.pow_succ_r by lia. lia.
Qed.

Lemma dec_loop_spec fuel : forall n acc,
  0 <= n < 10 ^ Z.of_nat fuel -> (0 < fuel)%nat -> Forall digit acc ->
  Forall digit (dec_loop fuel n acc) /\
  value_of (dec_loop fuel n acc) = n * 10 ^ Z.of_nat (length acc) + value_of acc.
Proof.
  induction fuel as [|fuel IH]; intros n acc Hn Hf Ha; [lia|]. cbn [dec_loop].
  rewrite Nat2Z.inj_succ, Z.pow_succ_r in Hn by lia.
  assert (Forall digit ((48 + n mod 10) :: acc)) as Ha'.
  { constructor; [|done]. unfold digit. lia. }
  assert (value_of ((48 + n mod 10) :: acc) = (n mod 10) * 10 ^ Z.of_nat (length acc) + value_of acc) as Hv.
  { unfold value_of at 1. cbn [fold_left]. rewrite fold_digits. f_equal. f_equal. lia. }
  destruct (Z.ltb_spec n 10).
  - split; [done|]. rewrite Hv. by rewrite Z.mod_small by lia.
  - destruct (IH (n / 10) ((48 + n mod 10) :: acc)) as [H1 H2].
    + split; [apply Z.div_pos; lia|]. apply Z.div_lt_upper_bound; lia.
    + destruct fuel; [|lia]. simpl in Hn. lia.
    + done.
    + split; [done|]. rewrite H2, Hv. cbn [length]. rewrite Nat2Z.inj_succ, Z.pow_succ_r by lia.
      assert (n = 10 * (n / 10) + n mod 10) by lia. nia.
Qed.

(** A printed number reads back. *)
Lemma dec_value n : 0 <= n < 2 ^ 64 -> Forall digit (dec n) /\ value_of (dec n) = n.
Proof.
  intros Hn. destruct (dec_loop_spec 20 n []) as [H1 H2]; [simpl; lia|lia|constructor|].
  split; [done|]. unfold dec. rewrite H2. simpl. unfold value_of. simpl. lia.
Qed.

Lemma pad_two n : 0 <= n < 100 -> exists c1 c2, pad 48 2 (dec n) = [c1; c2] /\ digit c1 /\ digit c2 /\
  value_of [c1; c2] = n.
Proof.
  intros Hn. unfold dec. cbn [dec_loop]. destruct (Z.ltb_spec n 10).
  - exists 48, (48 + n mod 10). rewrite Z.mod_small by lia. unfold digit, value_of. simpl. repeat split; lia.
  - destruct (Z.ltb_spec (n / 10) 10); [|exfalso; assert (n / 10 < 10) by (apply Z.div_lt_upper_bound; lia); lia].
    exists (48 + (n / 10) mod 10), (48 + n mod 10). unfold digit, value_of. simpl.
    repeat split; lia.
Qed.

End Text.
