(* ===== verification/Mmio.v ===== *)
(** * Register access

    The SM8250 drivers reach their hardware through [read_reg] and
    [write_reg] (kernel/bsp/sm8250/sm8250.c), and with [memcpy] and [memset] to the
    memory of a device.  The hardware is a parameter: a
    type of device states with what a 32-bit read and a 32-bit write do to it.
    The state of a driver's run is the device and the log of its accesses, so
    that a theorem can say which registers a driver touches and in which order,
    whatever the device answers. *)

From stdpp Require Import base numbers list option tactics gmap.
From S2P Require Import Prelude.

Class MmioDevice (D : Type) := {
  dev_read : Z -> D -> Z * D;
  dev_write : Z -> Z -> D -> D;
}.

Inductive io_event : Type :=
| IoRead (addr val : Z)
| IoWrite (addr val : Z)
| IoCopy (addr len : Z).                 (* a transfer to or from the memory of a device *)

Record bus (D : Type) := mk_bus {
  bus_dev : D;
  bus_log : list io_event;
}.
Arguments mk_bus {D} _ _.
Arguments bus_dev {D} _.
Arguments bus_log {D} _.

(** Driver code is a state passing function over the bus. *)
Definition io (D A : Type) : Type := bus D -> A * bus D.

#[export] Instance io_ret D : MRet (io D) := fun A a b => (a, b).
#[export] Instance io_bind D : MBind (io D) :=
  fun A B k m b => let '(a, b') := m b in k a b'.

(** Run the head of a driver program. *)
Ltac io_run := unfold mbind, mret, io_bind, io_ret; cbv beta iota zeta.

Section access.
Context {D : Type} `{!MmioDevice D}.

(** [*(volatile uint32_t * )(base + off)] *)
Definition read_reg (base off : Z) : io D Z := fun b =>
  let addr := base + off in
  let '(v, d) := dev_read addr (bus_dev b) in
  (u32 v, mk_bus d (bus_log b ++ [IoRead addr (u32 v)])).

Definition write_reg (base off val : Z) : io D unit := fun b =>
  let addr := base + off in
  (tt, mk_bus (dev_write addr (u32 val) (bus_dev b))
              (bus_log b ++ [IoWrite addr (u32 val)])).

(** [memcpy] or [memset] of [len] bytes at [addr]; what is transferred is in the
    state of the driver. *)
Definition copy_mem (addr len : Z) : io D unit := fun b =>
  (tt, mk_bus (bus_dev b) (bus_log b ++ [IoCopy addr len])).

(** [for (int i = 0; i < n; i++) if (!(read_reg(base, off) & mask)) break;] *)
Fixpoint wait_clear (base off mask : Z) (n : nat) : io D unit :=
  match n with
  | O => mret ()
  | S n' =>
      v ← read_reg base off;
      if negb (truthy (Z.land v mask)) then mret () else wait_clear base off mask n'
  end.

(** The writes of a log, in order. *)
Definition writes_of (l : list io_event) : list (Z * Z) :=
  omap (fun e => match e with IoWrite a v => Some (a, v) | IoRead _ _ | IoCopy _ _ => None end) l.

Definition new_writes {A} (m : io D A) (b : bus D) : list (Z * Z) :=
  writes_of (drop (length (bus_log b)) (bus_log (m b).2)).

End access.

(** ** The writes of a program, whatever the device answers *)

Section emits.
Context {D : Type} `{!MmioDevice D}.

(** [m] makes exactly the writes [ws], in this order. *)
Definition emits {A} (m : io D A) (ws : list (Z * Z)) : Prop :=
  forall b, exists evs, bus_log (m b).2 = bus_log b ++ evs /\ writes_of evs = ws.

Lemma writes_of_app l1 l2 : writes_of (l1 ++ l2) = writes_of l1 ++ writes_of l2.
Proof. apply omap_app. Qed.

Lemma emits_ret {A} (a : A) : emits (mret a) [].
Proof. intros b. exists []. by rewrite app_nil_r. Qed.

Lemma emits_read base off : emits (read_reg base off) [].
Proof.
  intros b. unfold read_reg. destruct (dev_read (base + off) (bus_dev b)) as [v d]. by eexists [_].
Qed.

Lemma emits_write base off v : emits (write_reg base off v) [(base + off, u32 v)].
Proof. intros b. by exists [IoWrite (base + off) (u32 v)]. Qed.

Lemma emits_copy addr len : emits (copy_mem addr len) [].
Proof. intros b. by exists [IoCopy addr len]. Qed.

Lemma emits_bind {A B} (m : io D A) (k : A -> io D B) ws1 ws2 :
  emits m ws1 -> (forall a, emits (k a) ws2) -> emits (m ≫= k) (ws1 ++ ws2).
Proof.
  intros Hm Hk b. unfold mbind, io_bind. destruct (Hm b) as (e1 & E1 & <-).
  destruct (m b) as [a b1]. simpl in E1. destruct (Hk a b1) as (e2 & -> & <-).
  exists (e1 ++ e2). by rewrite E1, app_assoc, writes_of_app.
Qed.

Lemma emits_wait_clear base off mask n : emits (wait_clear base off mask n) [].
Proof.
  induction n as [|n IH]; [apply emits_ret|]. apply (emits_bind _ _ [] []); [apply emits_read|].
  intros v. destruct (negb _); [apply emits_ret|done].
Qed.

Lemma emits_new_writes {A} (m : io D A) ws b : emits m ws -> new_writes m b = ws.
Proof.
  intros Hm. destruct (Hm b) as (evs & E & <-). unfold new_writes. by rewrite E, drop_app_length.
Qed.
End emits.

Create HintDb mmio.
#[export] Hint Resolve emits_ret emits_read emits_write emits_copy emits_wait_clear : mmio.

(** Collect the writes of a straight-line program. *)
Ltac emits_run := repeat (first [apply emits_ret | apply emits_read | apply emits_write | apply emits_copy | apply emits_wait_clear
  | eapply emits_bind; [|intros ?]]); eauto with mmio.

(** ** The results of a program and the end of its writes *)

Section outcomes.
Context {D : Type} `{!MmioDevice D}.

(** Whatever the device answers, the result satisfies [P]. *)
Definition returns {A} (m : io D A) (P : A -> Prop) : Prop := forall b, P (m b).1.

Lemma returns_ret {A} (a : A) (P : A -> Prop) : P a -> returns (mret a) P.
Proof. intros H b. exact H. Qed.

Lemma returns_bind {A B} (m : io D A) (k : A -> io D B) P Q :
  returns m P -> (forall a, P a -> returns (k a) Q) -> returns (m ≫= k) Q.
Proof.
  intros Hm Hk b. unfold mbind, io_bind. specialize (Hm b). destruct (m b) as [a b']. exact (Hk a Hm b').
Qed.

Lemma returns_any {A B} (m : io D A) (k : A -> io D B) Q :
  (forall a, returns (k a) Q) -> returns (m ≫= k) Q.
Proof. intros Hk. apply (returns_bind m k (fun _ => True)); [done|]. intros a _. apply Hk. Qed.

Lemma read_range base off : returns (read_reg base off) (fun v => 0 <= v < 2 ^ 32).
Proof. intros b. unfold read_reg. destruct (dev_read _ _). apply (wrap_range 32). lia. Qed.

(** [m] makes some writes, the last of them [ws]. *)
Definition ends_with {A} (m : io D A) (ws : list (Z * Z)) : Prop :=
  forall b, exists evs pre, bus_log (m b).2 = bus_log b ++ evs /\ writes_of evs = pre ++ ws.

Lemma ends_emits {A} (m : io D A) ws : emits m ws -> ends_with m ws.
Proof. intros Hm b. destruct (Hm b) as (evs & E & Ew). by exists evs, []. Qed.

Lemma ends_emits_any {A} (m : io D A) ws : emits m ws -> ends_with m [].
Proof. intros Hm b. destruct (Hm b) as (evs & E & Ew). exists evs, ws. by rewrite app_nil_r. Qed.

Lemma ends_bind {A B} (m : io D A) (k : A -> io D B) P ws :
  ends_with m [] -> returns m P -> (forall a, P a -> ends_with (k a) ws) -> ends_with (m ≫= k) ws.
Proof.
  intros Hm Hr Hk b. unfold mbind, io_bind. destruct (Hm b) as (e1 & p1 & E1 & W1). specialize (Hr b).
  destruct (m b) as [a b1]. simpl in E1, Hr. destruct (Hk a Hr b1) as (e2 & p2 & -> & W2).
  exists (e1 ++ e2), (p1 ++ p2). rewrite E1, writes_of_app, W1, W2, app_nil_r. by rewrite <-!app_assoc.
Qed.

Lemma ends_bind_any {A B} (m : io D A) (k : A -> io D B) ws :
  ends_with m [] -> (forall a, ends_with (k a) ws) -> ends_with (m ≫= k) ws.
Proof. intros Hm Hk. apply (ends_bind m k (fun _ => True)); [done|done|]. intros a _. apply Hk. Qed.

Lemma ends_ret {A} (a : A) : ends_with (mret a) [].
Proof. apply ends_emits, emits_ret. Qed.

Lemma ends_read base off : ends_with (read_reg base off) [].
Proof. apply ends_emits, emits_read. Qed.

Lemma ends_write base off v : ends_with (write_reg base off v) [].
Proof. eapply ends_emits_any, emits_write. Qed.

Lemma ends_copy addr len : ends_with (copy_mem addr len) [].
Proof. apply ends_emits, emits_copy. Qed.

Lemma ends_wait_clear base off mask n : ends_with (wait_clear base off mask n) [].
Proof. apply ends_emits, emits_wait_clear. Qed.
End outcomes.

#[export] Hint Resolve ends_ret ends_read ends_write ends_copy ends_wait_clear : mmio.

(** Follow a program that makes some writes. *)
Ltac ends_run := repeat (first [eapply ends_bind_any; [|intros ?] | solve [eauto with mmio nocore] | progress case_match]).

(** A device that stores what is written to it, for concrete runs. *)
#[export] Instance ram_device : MmioDevice (gmap Z Z) := {|
  dev_read a d := (default 0 (d !! a), d);
  dev_write a v d := <[a := v]> d;
|}.

(** ** The addresses a program touches *)

Section within.
Context {D : Type} `{!MmioDevice D}.

(** The bytes an access reaches: where they start and how many they are. *)
Definition event_addr (e : io_event) : Z := match e with IoRead a _ | IoWrite a _ | IoCopy a _ => a end.
Definition event_len (e : io_event) : Z := match e with IoRead _ _ | IoWrite _ _ => 4 | IoCopy _ n => n end.

(** Whatever the device answers, [m] reads and writes only ranges of bytes in [P]. *)
Definition within {A} (P : Z -> Z -> Prop) (m : io D A) : Prop :=
  forall b, exists evs, bus_log (m b).2 = bus_log b ++ evs /\ Forall (fun e => P (event_addr e) (event_len e)) evs.

Lemma within_ret {A} P (a : A) : within P (mret a).
Proof. intros b. exists []. by rewrite app_nil_r. Qed.

Lemma within_read (P : Z -> Z -> Prop) base off : P (base + off) 4 -> within P (read_reg base off).
Proof.
  intros HP b. unfold read_reg. destruct (dev_read (base + off) (bus_dev b)) as [v d].
  eexists [_]. split; [done|]. by repeat constructor.
Qed.

Lemma within_write (P : Z -> Z -> Prop) base off v : P (base + off) 4 -> within P (write_reg base off v).
Proof. intros HP b. exists [IoWrite (base + off) (u32 v)]. split; [done|]. by repeat constructor. Qed.

Lemma within_copy (P : Z -> Z -> Prop) addr len : P addr len -> within P (copy_mem addr len).
Proof. intros HP b. exists [IoCopy addr len]. split; [done|]. by repeat constructor. Qed.

Lemma within_bind {A B} P (m : io D A) (k : A -> io D B) :
  within P m -> (forall a, within P (k a)) -> within P (m ≫= k).
Proof.
  intros Hm Hk b. unfold mbind, io_bind. destruct (Hm b) as (e1 & E1 & H1).
  destruct (m b) as [a b1]. simpl in E1. destruct (Hk a b1) as (e2 & -> & H2).
  exists (e1 ++ e2). rewrite E1, app_assoc. split; [done|]. by apply Forall_app.
Qed.

(** The rest of a program knows that what it read is a 32-bit value. *)
Lemma within_read_bind {B} (P : Z -> Z -> Prop) base off (k : Z -> io D B) :
  P (base + off) 4 -> (forall v, 0 <= v < 2 ^ 32 -> within P (k v)) -> within P (read_reg base off ≫= k).
Proof.
  intros HP Hk b. unfold mbind, io_bind. destruct (within_read P base off HP b) as (e1 & E1 & H1).
  pose proof (read_range base off b) as Hr. destruct (read_reg base off b) as [v b1]. simpl in E1, Hr.
  destruct (Hk v Hr b1) as (e2 & -> & H2). exists (e1 ++ e2). rewrite E1, app_assoc. split; [done|]. by apply Forall_app.
Qed.

Lemma within_wait_clear (P : Z -> Z -> Prop) base off mask n : P (base + off) 4 -> within P (wait_clear base off mask n).
Proof.
  intros HP. induction n as [|n IH]; [apply within_ret|]. apply within_bind; [by apply within_read|].
  intros v. destruct (negb _); [apply within_ret|done].
Qed.

Lemma within_mono {A} (P Q : Z -> Z -> Prop) (m : io D A) : (forall a n, P a n -> Q a n) -> within P m -> within Q m.
Proof. intros HPQ Hm b. destruct (Hm b) as (e & E & H). exists e. split; [done|]. eapply Forall_impl; [exact H|]. auto. Qed.
End within.

(** Show that a driver program stays within a set of addresses that is decided by
    evaluation, but for its transfers. *)
Ltac within_run :=
  repeat match goal with
  | |- within _ (mret _) => apply within_ret
  | |- within _ (read_reg _ _) => apply within_read; reflexivity
  | |- within _ (write_reg _ _ _) => apply within_write; reflexivity
  | |- within _ (wait_clear _ _ _ _) => apply within_wait_clear; reflexivity
  | |- within _ (read_reg _ _ ≫= _) => apply within_read_bind; [reflexivity|intros ? ?]
  | |- within _ (_ ≫= _) => apply within_bind; [|intros ?]
  | |- within _ (if ?b then _ else _) => destruct b eqn:?
  | |- within _ (match ?x with _ => _ end) => destruct x
  | |- within _ (let _ := _ in _) => cbv zeta
  end.
