(* ===== verification/Tty.v ===== *)
(** * Console TTY (kernel/drivers/tty.c)

    The console device: an input buffer of 4096 characters filled by
    [tty_input_put] and drained by [tty_input_get], with echo to the console.
    The console output ([putchar]) is the list [tty_output] of the state. *)

From stdpp Require Import base numbers list option tactics.
From S2P Require Import Prelude RingBuffer Fifo.

Module Tty.

Definition TTY_BUF_SIZE : Z := 4096.

Record tty_device_t := mk_tty {
  initialized : Z;
  input_buf : list Z;
  input_head : Z;
  input_tail : Z;
  echo : Z;
  line_buffer : Z;
}.

(** The device and the characters written to the console so far. *)
Record tty_state := mk_state {
  console_tty : tty_device_t;
  tty_output : list Z;
}.

Definition zeroed_tty : tty_device_t :=
  mk_tty 0 (replicate (Z.to_nat TTY_BUF_SIZE) 0) 0 0 0 0.

Definition tty_init (s : tty_state) : tty_state :=
  mk_state (mk_tty 1 (input_buf zeroed_tty) 0 0 1 1) (tty_output s).

Definition tty_putchar (c : Z) (s : tty_state) : tty_state :=
  mk_state (console_tty s) (tty_output s ++ [c]).

(** Writes the characters of [str] up to its NUL. *)
Fixpoint tty_puts (str : list Z) (s : tty_state) : tty_state :=
  match str with
  | [] => s
  | c :: str' => if c =? 0 then s else tty_puts str' (tty_putchar c s)
  end.

(** The loop of [tty_readline] breaks in its first iteration, whatever
    [bufsize] is; the caller's buffer is returned with the value. *)
Definition tty_readline (s : tty_state) (buf : list Z) (bufsize : Z) : Z * list Z :=
  if negb (truthy (initialized (console_tty s))) then (0, buf)
  else let i := 0 in (s32 i, buf.[i <- 0]).

Definition tty_input_put (c : Z) (s : tty_state) : tty_state :=
  let t := console_tty s in
  if negb (truthy (initialized t)) then s else
  let next := (input_head t + 1) mod TTY_BUF_SIZE in
  if next =? input_tail t then s else
  let t' := mk_tty (initialized t) ((input_buf t).[input_head t <- c]) next
                   (input_tail t) (echo t) (line_buffer t) in
  let s' := mk_state t' (tty_output s) in
  if truthy (echo t) then tty_putchar c s' else s'.

(** [None] is the return value 0; [Some (c, s)] is 1 with [*c] written. *)
Definition tty_input_get (s : tty_state) : option (Z * tty_state) :=
  let t := console_tty s in
  if input_tail t =? input_head t then None else
  Some ((input_buf t).[input_tail t],
        mk_state (mk_tty (initialized t) (input_buf t) (input_head t)
                         ((input_tail t + 1) mod TTY_BUF_SIZE) (echo t) (line_buffer t))
                 (tty_output s)).

(** ** Invariant and abstraction *)

Definition tty_wf (s : tty_state) : Prop :=
  initialized (console_tty s) = 1 /\
  ring_wf TTY_BUF_SIZE (input_buf (console_tty s))
    (input_head (console_tty s)) (input_tail (console_tty s)).

Definition tty_pending (s : tty_state) : list Z :=
  ring_contents TTY_BUF_SIZE (input_buf (console_tty s))
    (input_head (console_tty s)) (input_tail (console_tty s)).

Lemma tty_init_wf s : tty_wf (tty_init s) /\ tty_pending (tty_init s) = [].
Proof. split; [|done]. split; [done|]. unfold ring_wf; simpl. unfold TTY_BUF_SIZE. lia. Qed.

Lemma tty_putchar_wf c s : tty_wf s -> tty_wf (tty_putchar c s).
Proof. done. Qed.

Lemma tty_input_put_wf c s : tty_wf s -> tty_wf (tty_input_put c s).
Proof.
  intros [Hi Hr]. unfold tty_input_put. rewrite Hi. simpl.
  case_match; [done|]. case_match; (split; [done|by apply ring_wf_push]).
Qed.

Lemma tty_input_put_pending c s :
  tty_wf s ->
  tty_pending (tty_input_put c s) = FifoSpec.put 4095 c (tty_pending s).
Proof.
  intros [Hi Hr]. unfold tty_pending at 2.
  rewrite <-(ring_put TTY_BUF_SIZE _ _ _ c Hr). unfold tty_input_put. rewrite Hi. simpl.
  case_match; [done|]. by case_match.
Qed.

Lemma tty_input_get_wf c s s' : tty_wf s -> tty_input_get s = Some (c, s') -> tty_wf s'.
Proof.
  intros [Hi Hr]. unfold tty_input_get. case_match; [done|].
  intros [= <- <-]. split; [done|]. by apply ring_wf_pop.
Qed.

Lemma tty_input_get_pending s :
  tty_wf s ->
  prod_map id tty_pending <$> tty_input_get s = FifoSpec.get (tty_pending s).
Proof.
  intros [Hi Hr]. unfold tty_pending at 2. rewrite <-ring_get by done.
  unfold tty_input_get. by case_match.
Qed.

#[export] Instance tty_fifo : BoundedFifo tty_state Z 4095 := {|
  bf_wf := tty_wf;
  bf_abs := tty_pending;
  bf_put := tty_input_put;
  bf_get := tty_input_get;
  bf_put_wf := tty_input_put_wf;
  bf_put_abs := tty_input_put_pending;
  bf_get_wf := tty_input_get_wf;
  bf_get_abs := tty_input_get_pending;
|}.

(** ** Properties *)

(** C20: after [tty_init], any sequence of [tty_input_put] and
    [tty_input_get] calls returns exactly what a queue bounded to 4095
    characters returns: nothing is reordered, duplicated or lost except the
    characters put when 4095 are pending. *)
Theorem tty_refines_fifo (ops : list (fifo_op Z)) (s : tty_state) :
  (run_impl ops (tty_init s)).1 = (run_spec (cap := 4095) ops []).1 /\
  tty_pending (run_impl ops (tty_init s)).2 = (run_spec (cap := 4095) ops []).2.
Proof.
  destruct (tty_init_wf s) as [Hwf Hp].
  destruct (@run_refines _ _ _ tty_fifo ops (tty_init s) Hwf) as (H1 & H2 & _).
  simpl in *. rewrite Hp in *. done.
Qed.

(** With echo on, a character is written to the console exactly when it is
    accepted into the buffer. *)
Lemma tty_echo c s :
  tty_wf s -> echo (console_tty s) = 1 ->
  tty_output (tty_input_put c s) =
    tty_output s ++ (if Z.of_nat (length (tty_pending s)) <? 4095 then [c] else []).
Proof.
  intros [Hi Hr] He. unfold tty_input_put. rewrite Hi, He, (ring_full_test _ _ _ _ Hr).
  change (TTY_BUF_SIZE - 1) with 4095. fold (tty_pending s). simpl.
  destruct (_ <? _); simpl; [done | by rewrite app_nil_r].
Qed.

Lemma tty_puts_output str s :
  tty_output (tty_puts str s) = tty_output s ++ cstr str /\
  console_tty (tty_puts str s) = console_tty s.
Proof.
  revert s. induction str as [|c str IH]; intros s; simpl.
  - by rewrite app_nil_r.
  - destruct (c =? 0); [by rewrite app_nil_r|].
    destruct (IH (tty_putchar c s)) as [-> ->]. simpl. by rewrite <-app_assoc.
Qed.

End Tty.
