(* ===== verification/Klog.v ===== *)
(** * Kernel log (kernel/klog.c)

    A circular character buffer of 32768 slots that overwrites its oldest
    characters: [klog_write] and [__klog_putchar] append, [klog_read] drains
    into the caller's buffer and [klog_clear] empties it. *)

From stdpp Require Import base numbers list option tactics.
From S2P Require Import Prelude Fifo RingBuffer.

Module Klog.

Definition KLOG_SIZE : Z := 32768.

Record klog_state := mk_klog {
  klog_buffer : list Z;
  klog_head : Z;
  klog_tail : Z;
  klog_initialized : Z;
}.

Definition klog_init (s : klog_state) : klog_state :=
  mk_klog (replicate (Z.to_nat KLOG_SIZE) 0) 0 0 1.

(** One iteration of the loop of [klog_write], and the body of
    [__klog_putchar]. *)
Definition klog_append (c : Z) (s : klog_state) : klog_state :=
  let buf := (klog_buffer s).[klog_head s <- c] in
  let head := (klog_head s + 1) mod KLOG_SIZE in
  let tail := if head =? klog_tail s then (klog_tail s + 1) mod KLOG_SIZE
              else klog_tail s in
  mk_klog buf head tail (klog_initialized s).

Fixpoint klog_write_loop (msg : list Z) (s : klog_state) : klog_state :=
  match msg with
  | [] => s
  | c :: msg' => klog_write_loop msg' (klog_append c s)
  end.

Definition klog_write (msg : list Z) (s : klog_state) : klog_state :=
  if negb (truthy (klog_initialized s)) then s else
  if strlen msg =? 0 then s else klog_write_loop (cstr msg) s.

Definition klog_putchar (c : Z) (s : klog_state) : klog_state :=
  if negb (truthy (klog_initialized s)) then s else klog_append c s.

(** [klog_printf] formats nothing and writes nothing. *)
Definition klog_printf (fmt : list Z) (s : klog_state) : klog_state := s.

(** [n] is what is left of [bufsize - 1]; the list is what was copied. *)
Fixpoint klog_read_loop (n : nat) (s : klog_state) : list Z * klog_state :=
  match n with
  | O => ([], s)
  | S n' =>
      if klog_tail s =? klog_head s then ([], s) else
      let c := (klog_buffer s).[klog_tail s] in
      let s' := mk_klog (klog_buffer s) (klog_head s)
                        ((klog_tail s + 1) mod KLOG_SIZE) (klog_initialized s) in
      let '(l, s'') := klog_read_loop n' s' in (c :: l, s'')
  end.

(** [None] for [buf] is a NULL pointer.  The caller's buffer comes back with
    the copied characters and their NUL over its prefix. *)
Definition klog_read (buf : option (list Z)) (bufsize : Z) (s : klog_state)
  : Z * option (list Z) * klog_state :=
  if negb (truthy (klog_initialized s)) then (0, buf, s) else
  match buf with
  | None => (0, buf, s)
  | Some b =>
      if bufsize =? 0 then (0, buf, s) else
      let '(l, s') := klog_read_loop (Z.to_nat (bufsize - 1)) s in
      (s32 (Z.of_nat (length l)), Some (l ++ 0 :: drop (S (length l)) b), s')
  end.

Definition klog_clear (s : klog_state) : klog_state :=
  mk_klog (replicate (Z.to_nat KLOG_SIZE) 0) 0 0 (klog_initialized s).

(** ** Invariant and abstraction *)

Definition klog_wf (s : klog_state) : Prop :=
  klog_initialized s = 1 /\
  ring_wf KLOG_SIZE (klog_buffer s) (klog_head s) (klog_tail s).

Definition klog_text (s : klog_state) : list Z :=
  ring_contents KLOG_SIZE (klog_buffer s) (klog_head s) (klog_tail s).

(** The last [n] elements of a list. *)
Definition last_n {A} (n : nat) (l : list A) : list A := drop (length l - n) l.

Lemma last_n_snoc {A} n (l r : list A) :
  (length r <= n)%nat -> last_n n (last_n n l ++ r) = last_n n (l ++ r).
Proof.
  intros Hr. unfold last_n. rewrite !length_app, length_drop.
  destruct (decide (length l <= n)%nat) as [Hl|Hl].
  - replace (length l - n)%nat with 0%nat by lia. rewrite drop_0. f_equal. lia.
  - rewrite (drop_app_le _ r) by (rewrite length_drop; lia).
    rewrite (drop_app_le l r) by lia. rewrite drop_drop. repeat f_equal. lia.
Qed.

Lemma last_n_app_r {A} n (l r : list A) :
  (n <= length r)%nat -> last_n n (l ++ r) = last_n n r.
Proof.
  intros. unfold last_n. rewrite length_app, drop_app_ge by lia. f_equal. lia.
Qed.

Lemma last_n_all {A} n (l : list A) : (length l <= n)%nat -> last_n n l = l.
Proof. intros. unfold last_n. by replace (length l - n)%nat with 0%nat by lia. Qed.

Lemma replicate_ring_wf : ring_wf KLOG_SIZE (replicate (Z.to_nat KLOG_SIZE) 0) 0 0.
Proof. unfold ring_wf. rewrite length_replicate. by unfold KLOG_SIZE. Qed.

Lemma klog_init_wf s : klog_wf (klog_init s) /\ klog_text (klog_init s) = [].
Proof. split; [split; [done | apply replicate_ring_wf] | done]. Qed.

Lemma klog_clear_wf s :
  klog_wf s -> klog_wf (klog_clear s) /\ klog_text (klog_clear s) = [].
Proof. intros [? _]. split; [split; [done | apply replicate_ring_wf] | done]. Qed.

Lemma klog_append_spec c s :
  klog_wf s ->
  klog_wf (klog_append c s) /\
  klog_text (klog_append c s) = last_n (Z.to_nat (KLOG_SIZE - 1)) (klog_text s ++ [c]).
Proof.
  intros [Hi Hr].
  destruct (ring_push_overwrite KLOG_SIZE _ _ _ c Hr) as [Hwf Hc]; [done|].
  split; [by split|]. exact Hc.
Qed.

Lemma klog_text_bound s :
  klog_wf s -> (length (klog_text s) <= Z.to_nat (KLOG_SIZE - 1))%nat.
Proof. intros [_ Hr]. pose proof (ring_contents_bound _ _ _ _ Hr). unfold klog_text. lia. Qed.

Lemma klog_write_loop_spec msg s :
  klog_wf s ->
  klog_wf (klog_write_loop msg s) /\
  klog_text (klog_write_loop msg s)
    = last_n (Z.to_nat (KLOG_SIZE - 1)) (klog_text s ++ msg).
Proof.
  revert s. induction msg as [|c msg IH]; intros s Hs; simpl.
  - split; [done|]. rewrite app_nil_r, last_n_all; [done|]. by apply klog_text_bound.
  - destruct (klog_append_spec c s Hs) as [Hwf Ht].
    destruct (IH _ Hwf) as [Hwf' ->]. split; [done|]. rewrite Ht.
    set (n := Z.to_nat (KLOG_SIZE - 1)).
    replace (klog_text s ++ c :: msg) with ((klog_text s ++ [c]) ++ msg) by by rewrite <-app_assoc.
    destruct (decide (length msg <= n)%nat); [by apply last_n_snoc|].
    rewrite !(last_n_app_r _ _ msg) by lia. done.
Qed.

Lemma klog_read_loop_spec n s :
  klog_wf s ->
  (klog_read_loop n s).1 = take n (klog_text s) /\
  klog_text (klog_read_loop n s).2 = drop n (klog_text s) /\
  klog_wf (klog_read_loop n s).2.
Proof.
  revert s. induction n as [|n IH]; intros s Hs; simpl; [done|].
  pose proof Hs as [Hi Hr]. destruct (Z.eqb_spec (klog_tail s) (klog_head s)) as [E|E].
  - assert (klog_text s = []) as Ht by by apply ring_empty.
    simpl. rewrite Ht. done.
  - set (s' := mk_klog _ _ _ _).
    assert (klog_wf s') as Hs' by (split; [done | by apply ring_wf_pop]).
    destruct (IH s' Hs') as (H1 & H2 & H3).
    assert (klog_text s = (klog_buffer s).[klog_tail s] :: klog_text s') as ->
      by by apply ring_pop.
    destruct (klog_read_loop n s'); simpl in *. by rewrite H1.
Qed.

(** ** Properties *)

(** Writing a message keeps the log well formed and leaves in it the
    last 32767 characters of the old text followed by the message. *)
Theorem klog_write_text msg s :
  klog_wf s ->
  klog_wf (klog_write msg s) /\
  klog_text (klog_write msg s)
    = last_n (Z.to_nat (KLOG_SIZE - 1)) (klog_text s ++ cstr msg).
Proof.
  intros Hs. unfold klog_write. rewrite (proj1 Hs). simpl.
  destruct (Z.eqb_spec (strlen msg) 0) as [E|E]; [|by apply klog_write_loop_spec].
  split; [done|]. unfold strlen in E.
  rewrite (nil_length_inv (cstr msg)) by lia.
  rewrite app_nil_r, last_n_all; [done|]. by apply klog_text_bound.
Qed.

(** [klog_read] copies the oldest [bufsize - 1] characters (or all of
    them), NUL-terminates the copy inside the buffer, returns their number and
    removes exactly them from the log. *)
Theorem klog_read_drains b bufsize s :
  klog_wf s -> 0 < bufsize <= 2 ^ 31 -> Z.of_nat (length b) = bufsize ->
  exists b' s',
    klog_read (Some b) bufsize s
      = (Z.of_nat (length (take (Z.to_nat (bufsize - 1)) (klog_text s))), Some b', s') /\
    take (Z.to_nat (bufsize - 1)) (klog_text s) ++ [0] `prefix_of` b' /\
    length b' = length b /\
    klog_text s' = drop (Z.to_nat (bufsize - 1)) (klog_text s) /\
    klog_wf s'.
Proof.
  intros Hs Hb Hlen. unfold klog_read. rewrite (proj1 Hs). simpl.
  destruct (Z.eqb_spec bufsize 0); [lia|].
  destruct (klog_read_loop_spec (Z.to_nat (bufsize - 1)) s Hs) as (H1 & H2 & H3).
  destruct (klog_read_loop _ s) as [l s'] eqn:E. simpl in H1, H2, H3. rewrite <-H1.
  assert (length l <= Z.to_nat (bufsize - 1))%nat as Hl
    by (rewrite H1, length_take; lia).
  eexists _, s'. rewrite swrap_small by lia. split; [reflexivity|].
  split; [|split; [|done]].
  - exists (drop (S (length l)) b). by rewrite <-app_assoc.
  - rewrite length_app. simpl. rewrite length_drop. lia.
Qed.

(** *** Witnesses *)

Definition empty_log : klog_state := klog_init (mk_klog [] 0 0 0).

Lemma klog_write_text_witness :
  klog_text (klog_write [104; 105; 0] empty_log)
    = last_n (Z.to_nat (KLOG_SIZE - 1)) (klog_text empty_log ++ [104; 105]).
Proof.
  exact (proj2 (klog_write_text [104; 105; 0] empty_log (proj1 (klog_init_wf (mk_klog [] 0 0 0))))).
Defined.

Lemma klog_read_drains_witness :
  exists b' s', klog_read (Some [7; 7; 7; 7]) 4 empty_log = (0, Some b', s') /\ length b' = 4%nat.
Proof.
  destruct (klog_init_wf (mk_klog [] 0 0 0)) as [Hwf Htxt].
  destruct (klog_read_drains [7; 7; 7; 7] 4 empty_log Hwf) as (b' & s' & E & _ & Hl & _);
    [lia|reflexivity|].
  change (klog_text empty_log = []) in Htxt. rewrite Htxt in E. exists b', s'. split; [exact E|exact Hl].
Defined.

End Klog.
