(* ===== verification/Input.v ===== *)
(** * Input event queue (kernel/bsp/sm8250/drivers/input.c)

    Touch and key events are pushed into a queue of 256 slots and read back by
    [input_read_event]; [input_poll] samples the PMIC button register first. *)

From stdpp Require Import base numbers list option tactics gmap.
From S2P Require Import Prelude Fifo RingBuffer Mmio.

Module Input.

Definition MAX_EVENTS : Z := 256.
Definition SM8250_PMIC_BASE : Z := 0x0AF0000.

Definition INPUT_TOUCH_DOWN : Z := 1.
Definition INPUT_TOUCH_MOVE : Z := 2.
Definition INPUT_TOUCH_UP : Z := 3.
Definition INPUT_KEY_DOWN : Z := 4.
Definition INPUT_KEY_UP : Z := 5.

Record input_event_t := mk_event {
  ev_type : Z;
  ev_code : Z;
  ev_x : Z;
  ev_y : Z;
  ev_value : Z;
  ev_timestamp : Z;
}.

#[export] Instance input_event_inhabited : Inhabited input_event_t :=
  populate (mk_event 0 0 0 0 0 0).

Record input_state := mk_input {
  event_queue : list input_event_t;
  event_head : Z;
  event_tail : Z;
  input_ready : Z;
}.

(** The statically initialised variables of the file. *)
Definition input_boot : input_state :=
  mk_input (replicate (Z.to_nat MAX_EVENTS) inhabitant) 0 0 0.

Definition input_init (s : input_state) : Z * input_state :=
  (0, mk_input (event_queue s) (event_head s) (event_tail s) 1).

Definition push_event (ev : input_event_t) (s : input_state) : input_state :=
  let next := (event_head s + 1) mod MAX_EVENTS in
  if next =? event_tail s then s else
  mk_input ((event_queue s).[event_head s <- ev]) next (event_tail s) (input_ready s).

(** [None] is the return value 0; [Some (ev, s)] is 1 with [*ev] written. *)
Definition input_read_event (s : input_state) : option (input_event_t * input_state) :=
  if event_tail s =? event_head s then None else
  Some ((event_queue s).[event_tail s],
        mk_input (event_queue s) (event_head s)
                 ((event_tail s + 1) mod MAX_EVENTS) (input_ready s)).

Definition input_touch_event (type x y : Z) (s : input_state) : input_state :=
  if negb (truthy (input_ready s)) then s else
  let value := if type =? INPUT_TOUCH_DOWN then 1
               else if type =? INPUT_TOUCH_UP then 0 else 0 in
  push_event (mk_event (u32 type) 0 x y value 0) s.

Definition input_key_event (keycode down : Z) (s : input_state) : input_state :=
  if negb (truthy (input_ready s)) then s else
  let type := if truthy down then INPUT_KEY_DOWN else INPUT_KEY_UP in
  push_event (mk_event type (u32 keycode) 0 0 (if truthy down then 1 else 0) 0) s.

Section buttons.
Context {D : Type} `{!MmioDevice D}.

Definition input_check_buttons (s : input_state) : io D input_state :=
  pmic_sts ← read_reg SM8250_PMIC_BASE 0x4400;
  let s1 := if truthy (Z.land pmic_sts 0x01) then input_key_event 116 1 s else s in
  let s2 := if truthy (Z.land pmic_sts 0x02) then input_key_event 114 1 s1 else s1 in
  let s3 := if truthy (Z.land pmic_sts 0x04) then input_key_event 115 1 s2 else s2 in
  mret s3.

Definition input_poll (s : input_state) : io D (Z * input_state) :=
  s' ← input_check_buttons s;
  mret (of_bool (negb (event_head s' =? event_tail s')), s').

End buttons.

(** ** Invariant and abstraction *)

Definition input_wf (s : input_state) : Prop :=
  ring_wf MAX_EVENTS (event_queue s) (event_head s) (event_tail s).

Definition input_pending (s : input_state) : list input_event_t :=
  ring_contents MAX_EVENTS (event_queue s) (event_head s) (event_tail s).

Lemma input_boot_wf : input_wf input_boot /\ input_pending input_boot = [].
Proof. by vm_compute. Qed.

Lemma push_event_wf ev s : input_wf s -> input_wf (push_event ev s).
Proof. intros Hs. unfold push_event. case_match; [done|]. by apply ring_wf_push. Qed.

Lemma push_event_pending ev s :
  input_wf s -> input_pending (push_event ev s) = FifoSpec.put 255 ev (input_pending s).
Proof.
  intros Hs. unfold input_pending at 2. rewrite <-(ring_put MAX_EVENTS _ _ _ ev Hs).
  unfold push_event. by case_match.
Qed.

Lemma push_event_ready ev s : input_ready (push_event ev s) = input_ready s.
Proof. unfold push_event. by case_match. Qed.

Lemma input_read_event_wf ev s s' :
  input_wf s -> input_read_event s = Some (ev, s') -> input_wf s'.
Proof.
  intros Hs. unfold input_read_event. case_match; [done|].
  intros [= <- <-]. by apply ring_wf_pop.
Qed.

Lemma input_read_event_pending s :
  input_wf s ->
  prod_map id input_pending <$> input_read_event s = FifoSpec.get (input_pending s).
Proof.
  intros Hs. unfold input_pending at 2. rewrite <-ring_get by done.
  unfold input_read_event. by case_match.
Qed.

#[export] Instance input_fifo : BoundedFifo input_state input_event_t 255 := {|
  bf_wf := input_wf;
  bf_abs := input_pending;
  bf_put := push_event;
  bf_get := input_read_event;
  bf_put_wf := push_event_wf;
  bf_put_abs := push_event_pending;
  bf_get_wf := input_read_event_wf;
  bf_get_abs := input_read_event_pending;
|}.

(** ** Properties *)

(** The events pushed into a queue with room are read back in order and
    unchanged, and no other event is read. *)
Theorem input_round_trip (evs : list input_event_t) :
  Z.of_nat (length evs) <= 255 ->
  (run_impl ((FPut <$> evs) ++ replicate (length evs) FGet) input_boot).1 = Some <$> evs.
Proof.
  destruct input_boot_wf as [Hwf Hp]. intros Hlen.
  by apply (@run_round_trip _ _ _ input_fifo input_boot evs).
Qed.

Lemma input_key_event_pending keycode down s :
  input_wf s -> input_ready s = 1 ->
  input_wf (input_key_event keycode down s) /\
  input_ready (input_key_event keycode down s) = 1 /\
  input_pending (input_key_event keycode down s) =
    FifoSpec.put 255
      (mk_event (if truthy down then INPUT_KEY_DOWN else INPUT_KEY_UP) (u32 keycode) 0 0
                (of_bool (truthy down)) 0)
      (input_pending s).
Proof.
  intros Hs Hr. unfold input_key_event. rewrite Hr. simpl.
  rewrite push_event_ready, push_event_pending by done.
  split_and!; [by apply push_event_wf | done | done].
Qed.

Definition key_down (code : Z) : input_event_t := mk_event INPUT_KEY_DOWN code 0 0 1 0.

(** The key events the three low bits of the PMIC status ask for. *)
Definition button_events (sts : Z) : list input_event_t :=
  (if Z.testbit sts 0 then [key_down 116] else []) ++
  (if Z.testbit sts 1 then [key_down 114] else []) ++
  (if Z.testbit sts 2 then [key_down 115] else []).

(** On an initialised queue a poll reads the PMIC button register
    once, pushes one key-down event for each button whose bit is set (power,
    volume down, volume up, in that order) and reports whether events are
    pending. *)
Theorem input_poll_spec {D} `{!MmioDevice D} (s : input_state) (b : bus D) :
  input_wf s -> input_ready s = 1 ->
  let sts := (read_reg SM8250_PMIC_BASE 0x4400 b).1 in
  let '((ret, s'), b') := input_poll s b in
  input_pending s' = foldl (fun q ev => FifoSpec.put 255 ev q) (input_pending s)
                           (button_events sts) /\
  input_wf s' /\
  ret = of_bool (negb (bool_decide (input_pending s' = []))) /\
  bus_log b' = bus_log b ++ [IoRead (SM8250_PMIC_BASE + 0x4400) sts].
Proof.
  intros Hs Hr. unfold input_poll, input_check_buttons, read_reg. io_run.
  destruct (dev_read _ (bus_dev b)) as [v d]. simpl fst. io_run.
  rewrite (truthy_land_bit (u32 v) 0 ltac:(done) : truthy (Z.land (u32 v) 1) = _).
  rewrite (truthy_land_bit (u32 v) 1 ltac:(done) : truthy (Z.land (u32 v) 2) = _).
  rewrite (truthy_land_bit (u32 v) 2 ltac:(done) : truthy (Z.land (u32 v) 4) = _).
  assert (forall code (bt : bool) s0, input_wf s0 -> input_ready s0 = 1 ->
    let s1 := if bt then input_key_event code 1 s0 else s0 in
    input_wf s1 /\ input_ready s1 = 1 /\
    input_pending s1 = foldl (fun q ev => FifoSpec.put 255 ev q) (input_pending s0)
                             (if bt then [key_down (u32 code)] else [])) as Hstep.
  { intros code [] s0 H0 H1; [|done]. simpl.
    destruct (input_key_event_pending code 1 s0 H0 H1) as (? & ? & ->). done. }
  destruct (Hstep 116 (Z.testbit (u32 v) 0) s Hs Hr) as (W1 & R1 & P1).
  destruct (Hstep 114 (Z.testbit (u32 v) 1) _ W1 R1) as (W2 & R2 & P2).
  destruct (Hstep 115 (Z.testbit (u32 v) 2) _ W2 R2) as (W3 & R3 & P3).
  set (s3 := if Z.testbit (u32 v) 2 then _ else _) in *.
  split_and!; [| done | | done].
  - unfold button_events. rewrite !foldl_app. rewrite P3, P2, P1. done.
  - f_equal. f_equal. rewrite Z.eqb_sym.
    pose proof (ring_empty _ _ _ _ W3) as He. fold (input_pending s3) in He.
    case_bool_decide; destruct (Z.eqb_spec (event_tail s3) (event_head s3));
      [done | exfalso; tauto..| done].
Qed.

(** *** Witnesses *)

Lemma input_round_trip_witness :
  (run_impl [FPut (key_down 116); FPut (key_down 114); FGet; FGet] input_boot).1
    = [Some (key_down 116); Some (key_down 114)].
Proof. apply (input_round_trip [key_down 116; key_down 114]). simpl. lia. Defined.

(** Power and volume-up held. *)
Lemma input_poll_spec_witness :
  let b := mk_bus (<[SM8250_PMIC_BASE + 0x4400 := 5]> (∅ : gmap Z Z)) [] in
  input_pending (input_poll (input_init input_boot).2 b).1.2 = [key_down 116; key_down 115].
Proof.
  intros b. pose proof (input_poll_spec (input_init input_boot).2 b) as H.
  destruct (input_poll (input_init input_boot).2 b) as [[ret s'] b'] eqn:E.
  destruct H as (H & _); [apply input_boot_wf|reflexivity|].
  simpl. etransitivity; [exact H|]. vm_compute. reflexivity.
Defined.

End Input.
