(* ===== verification/Pmm.v ===== *)
(** * Physical memory manager (kernel/mm/pmm.c, kernel/mm/pmm.h)

    Free blocks of [2^i] pages are kept on eleven singly linked lists whose
    links live in the first word of the free blocks themselves; memory is the
    map [pmem] from addresses to the 64-bit word stored there. *)

From stdpp Require Import base numbers list option tactics sets.
From S2P Require Import Prelude.

Module Pmm.

Definition PMM_MAX_ORDER : Z := 10.
Definition PMM_NUM_ORDERS : nat := 11.
Definition MAX_ZONES : nat := 4.
Definition PMM_REGION_USABLE : Z := 1.

Record memory_region_t := mk_region {
  base : Z;
  length_ : Z;
  type : Z;
}.

Record phys_zone_t := mk_zone {
  free_lists : list Z;     (* heads, 0 is NULL *)
  free_count : Z;
  total_pages : Z;
  node_id : Z;
}.

#[export] Instance zone_inhabited : Inhabited phys_zone_t :=
  populate (mk_zone (replicate PMM_NUM_ORDERS 0) 0 0 0).

Record pmm_state := mk_pmm {
  zones : list phys_zone_t;
  zone_count : Z;
  total_memory : Z;
  used_memory : Z;
  pmem : Z -> Z;
}.

(** The static variables before [pmm_init]; the memory is arbitrary. *)
Definition pmm_boot (m : Z -> Z) : pmm_state :=
  mk_pmm (replicate MAX_ZONES inhabitant) 0 0 0 m.

(** ** Field updates *)

Definition flist (zi i : Z) (s : pmm_state) : Z := (free_lists (zones s).[zi]).[i].

Definition set_zone (zi : Z) (z : phys_zone_t) (s : pmm_state) : pmm_state :=
  mk_pmm ((zones s).[zi <- z]) (zone_count s) (total_memory s) (used_memory s) (pmem s).

Definition set_flist (zi i v : Z) (s : pmm_state) : pmm_state :=
  let z := (zones s).[zi] in
  set_zone zi (mk_zone ((free_lists z).[i <- v]) (free_count z) (total_pages z) (node_id z)) s.

Definition add_free_count (zi d : Z) (s : pmm_state) : pmm_state :=
  let z := (zones s).[zi] in
  set_zone zi (mk_zone (free_lists z) (u64 (free_count z + d)) (total_pages z) (node_id z)) s.

Definition add_used (d : Z) (s : pmm_state) : pmm_state :=
  mk_pmm (zones s) (zone_count s) (total_memory s) (u64 (used_memory s + d)) (pmem s).

Definition add_total (d : Z) (s : pmm_state) : pmm_state :=
  mk_pmm (zones s) (zone_count s) (u64 (total_memory s + d)) (used_memory s) (pmem s).

Definition set_mem (m : Z -> Z) (s : pmm_state) : pmm_state :=
  mk_pmm (zones s) (zone_count s) (total_memory s) (used_memory s) m.

(** ** Buddy helpers *)

Definition order_to_pages (order : Z) : Z := u64 (Z.shiftl 1 order).

(** [b->next = zone->free_lists[i]; zone->free_lists[i] = b] *)
Definition push_block (zi i b : Z) (s : pmm_state) : pmm_state :=
  set_flist zi i b (set_mem (mem_write (pmem s) b (flist zi i s)) s).

(** ** Allocation from a zone *)

(** The [for] loop of [buddy_alloc] up to the first non-empty list, [n] is what
    is left of [PMM_MAX_ORDER + 1 - i]. *)
Fixpoint buddy_search (zi : Z) (n : nat) (i : Z) (s : pmm_state) : option Z :=
  match n with
  | O => None
  | S n' => if flist zi i s =? 0 then buddy_search zi n' (i + 1) s else Some i
  end.

(** The [while (i > order)] loop: the upper half of the block goes to the list
    below, [n] times. *)
Fixpoint buddy_split (zi : Z) (n : nat) (order block : Z) (s : pmm_state) : pmm_state :=
  match n with
  | O => s
  | S n' =>
      let i := order + Z.of_nat n' in
      let buddy_phys := u64 (block + Z.shiftl 1 (i + PAGE_SHIFT)) in
      buddy_split zi n' order block (push_block zi i buddy_phys s)
  end.

Definition buddy_alloc (zi order : Z) (s : pmm_state) : Z * pmm_state :=
  match buddy_search zi (Z.to_nat (PMM_MAX_ORDER + 1 - order)) order s with
  | None => (0, s)
  | Some i =>
      let block := flist zi i s in
      let s1 := set_flist zi i (pmem s block) s in
      let s2 := buddy_split zi (Z.to_nat (i - order)) order block s1 in
      let s3 := add_free_count zi (- order_to_pages order) s2 in
      let s4 := add_used (u64 (order_to_pages order * PAGE_SIZE)) s3 in
      (block, set_mem (mem_zero (pmem s4) block (order_to_pages order * PAGE_SIZE)) s4)
  end.

Definition buddy_free (zi phys order : Z) (s : pmm_state) : pmm_state :=
  let s1 := push_block zi order phys s in
  let s2 := add_free_count zi (order_to_pages order) s1 in
  add_used (- u64 (order_to_pages order * PAGE_SIZE)) s2.

(** ** Public API *)

Definition page_align_down (x : Z) : Z := Z.land x (Z.lnot (PAGE_SIZE - 1)).
Definition page_align_up (x : Z) : Z := page_align_down (u64 (x + PAGE_SIZE - 1)).

(** The [while (addr < aligned_base + aligned_length)] loop of [pmm_init]; the
    sum is taken at 64 bits.  The loop body runs at most
    [aligned_length / PAGE_SIZE] times. *)
Fixpoint pmm_add_pages (n : nat) (addr limit : Z) (s : pmm_state) : pmm_state :=
  match n with
  | O => s
  | S n' =>
      if addr <? limit then
        pmm_add_pages n' (u64 (addr + PAGE_SIZE)) limit (buddy_free 0 addr 0 s)
      else s
  end.

Definition pmm_add_region (r : memory_region_t) (s : pmm_state) : pmm_state :=
  if negb (type r =? PMM_REGION_USABLE) then s else
  let aligned_base := page_align_up (base r) in
  let aligned_length := page_align_down (u64 (length_ r - (aligned_base - base r))) in
  if aligned_base <? 0x1000000 then s else
  let s1 := add_total aligned_length s in
  pmm_add_pages (Z.to_nat (aligned_length / PAGE_SIZE)) aligned_base
    (u64 (aligned_base + aligned_length)) s1.

Definition pmm_init (regions : list memory_region_t) (s : pmm_state) : pmm_state :=
  let s1 := mk_pmm (replicate MAX_ZONES inhabitant) 1 (total_memory s) (used_memory s) (pmem s) in
  foldl (fun s r => pmm_add_region r s) s1 regions.

Definition pmm_alloc_page (s : pmm_state) : outcome (Z * pmm_state) :=
  let '(phys, s') := buddy_alloc 0 0 s in
  if phys =? 0 then Halted PmmOom else Done (phys, s').

(** [while (total < count) { total <<= 1; order++; }] on 64-bit [total].  With
    [count <= 2^63] the loop ends after at most 63 rounds; above, [total]
    becomes 0 and it never ends, which the fuel reports as [None]. *)
Fixpoint order_loop (fuel : nat) (total order count : Z) : option Z :=
  match fuel with
  | O => None
  | S fuel' =>
      if total <? count then order_loop fuel' (u64 (Z.shiftl total 1)) (order + 1) count
      else Some order
  end.

Definition order_of (count : Z) : option Z := order_loop 65 1 0 count.

(** [None]: the call does not return. *)
Definition pmm_alloc_pages (count : Z) (s : pmm_state) : option (Z * pmm_state) :=
  order ← order_of count; Some (buddy_alloc 0 order s).

(** The value stored through [out] is the second component. *)
Definition pmm_alloc_contiguous (count : Z) (s : pmm_state) : option (Z * Z * pmm_state) :=
  '(out, s') ← pmm_alloc_pages count s;
  Some (if out =? 0 then -1 else 0, out, s').

Definition pmm_free_page (phys : Z) (s : pmm_state) : pmm_state :=
  if phys =? 0 then s else buddy_free 0 (page_align_down phys) 0 s.

Definition pmm_free_pages (phys count : Z) (s : pmm_state) : option pmm_state :=
  if phys =? 0 then Some s else
  order ← order_of count; Some (buddy_free 0 (page_align_down phys) order s).

Definition pmm_get_free_count (s : pmm_state) : Z := free_count (zones s).[0].
Definition pmm_get_total_memory (s : pmm_state) : Z := total_memory s.
Definition pmm_node_for_address (phys : Z) : Z := 0.

(** [None] is NULL, [Some i] is [&zones[i]]. *)
Definition pmm_get_zone (node : Z) (s : pmm_state) : option Z :=
  if zone_count s <=? node then None else Some node.

(** ** Abstraction: the pages on the free lists *)

(** The addresses of the pages of a block of order [i] at [a]. *)
Definition pages (a : Z) (i : nat) : list Z :=
  (fun k => a + PAGE_SIZE * Z.of_nat k) <$> seq 0 (2 ^ i).

(** [bl] lists the blocks of order [k], [k + 1], ... *)
Fixpoint pages_from (k : nat) (bl : list (list Z)) : list Z :=
  match bl with
  | [] => []
  | l :: bl' => (l ≫= fun a => pages a k) ++ pages_from (S k) bl'
  end.

Definition free_pages (bl : list (list Z)) : list Z := pages_from 0 bl.

(** The list threaded through memory from [h]. *)
Fixpoint chain (m : Z -> Z) (h : Z) (l : list Z) : Prop :=
  match l with
  | [] => h = 0
  | a :: l' => h = a /\ a <> 0 /\ chain m (m a) l'
  end.

Definition valid_page (p : Z) : Prop := 0 < p < 2 ^ 64 /\ p mod PAGE_SIZE = 0.

(** The free lists of zone [zi] hold the blocks [bl], which do not overlap. *)
Record lists_inv (zi : Z) (s : pmm_state) (bl : list (list Z)) : Prop := {
  li_zi : 0 <= zi < Z.of_nat (length (zones s));
  li_lists : length (free_lists (zones s).[zi]) = PMM_NUM_ORDERS;
  li_bl : length bl = PMM_NUM_ORDERS;
  li_chain i l : bl !! i = Some l -> chain (pmem s) (flist zi (Z.of_nat i) s) l;
  li_nodup : NoDup (free_pages bl);
  li_valid : Forall valid_page (free_pages bl);
}.

(** ... and [free_count] is their number of pages. *)
Record pmm_inv (zi : Z) (s : pmm_state) (bl : list (list Z)) : Prop := {
  pi_lists : lists_inv zi s bl;
  pi_count : free_count (zones s).[zi] = Z.of_nat (length (free_pages bl));
}.

(** *** Pages of blocks *)

Ltac page_lia := unfold PAGE_SIZE, PAGE_SHIFT, PMM_MAX_ORDER in *; lia.

Lemma pages_0 a : pages a 0 = [a].
Proof. unfold pages. simpl. f_equal. page_lia. Qed.

Lemma length_pages a i : length (pages a i) = (2 ^ i)%nat.
Proof. unfold pages. by rewrite length_fmap, length_seq. Qed.

Lemma pages_S a i :
  pages a (S i) = pages a i ++ pages (a + Z.shiftl 1 (Z.of_nat i + PAGE_SHIFT)) i.
Proof.
  unfold pages. replace (2 ^ S i)%nat with (2 ^ i + 2 ^ i)%nat by (simpl; lia).
  rewrite seq_app, fmap_app. f_equal.
  replace (0 + 2 ^ i)%nat with (2 ^ i + 0)%nat by lia.
  rewrite <-fmap_add_seq, <-list_fmap_compose. apply list_fmap_ext.
  intros _ k _. simpl. rewrite Z.shiftl_1_l. unfold PAGE_SIZE, PAGE_SHIFT.
  rewrite Z.pow_add_r, Nat2Z.inj_add, Nat2Z.inj_pow by lia. change (2 ^ 12) with 4096.
  change (Z.of_nat 2) with 2. lia.
Qed.

Lemma elem_of_pages x a i :
  x ∈ pages a i <-> exists k, 0 <= k < 2 ^ Z.of_nat i /\ x = a + PAGE_SIZE * k.
Proof.
  unfold pages. rewrite list_elem_of_fmap. split.
  - intros (k & -> & Hk). apply elem_of_seq in Hk. exists (Z.of_nat k). split; [|done].
    pose proof (Nat2Z.inj_pow 2 i). lia.
  - intros (k & Hk & ->). exists (Z.to_nat k). split; [page_lia|]. apply elem_of_seq.
    pose proof (Nat2Z.inj_pow 2 i). lia.
Qed.

Lemma pages_head a i : a ∈ pages a i.
Proof. apply elem_of_pages. exists 0. split; [|page_lia]. split; [lia|]. by apply Z.pow_pos_nonneg; lia. Qed.

Lemma pages_from_insert k bl i l a :
  bl !! i = Some l ->
  pages_from k (<[i := a :: l]> bl) ≡ₚ pages a (k + i) ++ pages_from k bl.
Proof.
  revert k i. induction bl as [|l' bl IH]; intros k [|i] Hi; simpl in *; try done.
  - injection Hi as ->. rewrite Nat.add_0_r. by rewrite <-app_assoc.
  - rewrite (IH (S k) i Hi). replace (k + S i)%nat with (S k + i)%nat by lia.
    by rewrite Permutation_app_swap_app.
Qed.

Lemma free_pages_push bl i l a :
  bl !! i = Some l -> free_pages (<[i := a :: l]> bl) ≡ₚ pages a i ++ free_pages bl.
Proof. apply (pages_from_insert 0). Qed.

Lemma free_pages_pop bl i l a :
  bl !! i = Some (a :: l) -> free_pages bl ≡ₚ pages a i ++ free_pages (<[i := l]> bl).
Proof.
  intros Hi. rewrite <-(free_pages_push (<[i := l]> bl) i l a).
  - by rewrite list_insert_insert_eq, list_insert_id.
  - apply list_lookup_insert_eq. by eapply lookup_lt_Some.
Qed.

Lemma free_pages_block bl i l a :
  bl !! i = Some l -> a ∈ l -> a ∈ free_pages bl.
Proof.
  intros Hi Ha. apply list_elem_of_lookup in Ha as [j Hj]. unfold free_pages.
  assert (forall k, a ∈ pages_from k bl) as Hk; [|apply Hk].
  revert i Hi. induction bl as [|l' bl IH]; intros [|i] Hi k; simpl in *; try done;
    apply elem_of_app.
  - injection Hi as ->. left. apply list_elem_of_bind. exists a. split; [apply pages_head|].
    apply list_elem_of_lookup. eauto.
  - right. by eapply IH.
Qed.

(** *** Chains *)

Lemma chain_ext m m' h l :
  (forall a, a ∈ l -> m' a = m a) -> chain m h l -> chain m' h l.
Proof.
  revert h. induction l as [|a l IH]; intros h Hm; simpl; [done|].
  intros (-> & Ha & Hc). split_and!; [done..|].
  rewrite (Hm a) by set_solver. apply IH; [|done]. intros b Hb. apply Hm. set_solver.
Qed.

Lemma chain_head m h l : chain m h l -> h <> 0 -> exists l', l = h :: l' /\ chain m (m h) l'.
Proof. destruct l as [|a l]; simpl; [done|]. intros (-> & ? & ?) _. eauto. Qed.

(** *** Fields after an update *)

Section fields.
Context (zi : Z) (s : pmm_state).
Hypothesis Hzi : 0 <= zi < Z.of_nat (length (zones s)).
Hypothesis Hlists : length (free_lists (zones s).[zi]) = PMM_NUM_ORDERS.

Lemma flist_set_eq (i : nat) v :
  (i < PMM_NUM_ORDERS)%nat -> flist zi (Z.of_nat i) (set_flist zi (Z.of_nat i) v s) = v.
Proof.
  intros Hi. unfold flist, set_flist, set_zone. simpl.
  rewrite aget_aset_eq by done. simpl. apply aget_aset_eq. lia.
Qed.

Lemma flist_set_ne (i j : nat) v :
  i <> j ->
  flist zi (Z.of_nat j) (set_flist zi (Z.of_nat i) v s) = flist zi (Z.of_nat j) s.
Proof.
  intros Hij. unfold flist, set_flist, set_zone. simpl.
  rewrite aget_aset_eq by done. simpl. apply aget_aset_ne; lia.
Qed.

Lemma set_flist_shape i v :
  length (zones (set_flist zi i v s)) = length (zones s) /\
  length (free_lists (zones (set_flist zi i v s)).[zi]) = PMM_NUM_ORDERS /\
  free_count (zones (set_flist zi i v s)).[zi] = free_count (zones s).[zi].
Proof.
  unfold set_flist, set_zone. simpl. rewrite length_aset, aget_aset_eq by done.
  simpl. by rewrite length_aset.
Qed.

Lemma add_free_count_shape d :
  length (zones (add_free_count zi d s)) = length (zones s) /\
  free_lists (zones (add_free_count zi d s)).[zi] = free_lists (zones s).[zi] /\
  free_count (zones (add_free_count zi d s)).[zi] = u64 (free_count (zones s).[zi] + d).
Proof.
  unfold add_free_count, set_zone. simpl. by rewrite length_aset, aget_aset_eq.
Qed.
End fields.

(** *** Push, pop and split preserve the lists *)

Lemma push_block_inv zi s bl (i : nat) b l :
  lists_inv zi s bl -> bl !! i = Some l ->
  NoDup (pages b i ++ free_pages bl) -> Forall valid_page (pages b i) ->
  lists_inv zi (push_block zi (Z.of_nat i) b s) (<[i := b :: l]> bl).
Proof.
  intros [Hzi Hls Hbl Hch Hnd Hv] Hi Hnd' Hv'.
  assert (i < PMM_NUM_ORDERS)%nat as Hlt by (rewrite <-Hbl; by eapply lookup_lt_Some).
  assert (forall j l', bl !! j = Some l' -> b ∉ l') as Hfresh.
  { intros j l' Hj Hin. apply NoDup_app in Hnd' as (_ & Hd & _).
    apply (Hd b); [apply pages_head | by eapply free_pages_block]. }
  set (s1 := set_mem (mem_write (pmem s) b (flist zi (Z.of_nat i) s)) s).
  destruct (set_flist_shape zi s1 Hzi Hls (Z.of_nat i) b) as (H1 & H2 & _).
  split.
  - unfold push_block. fold s1. rewrite H1. done.
  - done.
  - by rewrite length_insert.
  - intros j lj Hj. unfold push_block. fold s1.
    destruct (decide (i = j)) as [<-|Hne].
    + rewrite list_lookup_insert_eq in Hj by (by eapply lookup_lt_Some).
      injection Hj as <-. rewrite flist_set_eq by done. simpl. split; [done|].
      split. { rewrite Forall_forall in Hv'. destruct (Hv' b); [apply pages_head|lia]. }
      unfold mem_write at 2. rewrite Z.eqb_refl.
      apply chain_ext with (pmem s); [|by apply Hch].
      intros a Ha. unfold mem_write. destruct (Z.eqb_spec a b) as [->|]; [|done].
      by destruct (Hfresh i l Hi).
    + rewrite list_lookup_insert_ne in Hj by done. rewrite flist_set_ne by done.
      apply chain_ext with (pmem s); [|by apply Hch].
      intros a Ha. simpl. unfold mem_write. destruct (Z.eqb_spec a b) as [->|]; [|done].
      by destruct (Hfresh j lj Hj).
  - by rewrite (free_pages_push bl i l b Hi).
  - rewrite (free_pages_push bl i l b Hi). by apply Forall_app.
Qed.

Lemma pop_block_inv zi s bl (i : nat) b l :
  lists_inv zi s bl -> bl !! i = Some (b :: l) ->
  lists_inv zi (set_flist zi (Z.of_nat i) (pmem s b) s) (<[i := l]> bl) /\
  flist zi (Z.of_nat i) s = b.
Proof.
  intros [Hzi Hls Hbl Hch Hnd Hv] Hi.
  assert (i < PMM_NUM_ORDERS)%nat as Hlt by (rewrite <-Hbl; by eapply lookup_lt_Some).
  destruct (Hch i _ Hi) as (Hhd & Hb & Hc).
  destruct (set_flist_shape zi s Hzi Hls (Z.of_nat i) (pmem s b)) as (H1 & H2 & _).
  split; [|done]. pose proof (free_pages_pop bl i l b Hi) as Hp. split.
  - by rewrite H1.
  - done.
  - by rewrite length_insert.
  - intros j lj Hj. destruct (decide (i = j)) as [<-|Hne].
    + rewrite list_lookup_insert_eq in Hj by (by eapply lookup_lt_Some).
      injection Hj as <-. by rewrite flist_set_eq.
    + rewrite list_lookup_insert_ne in Hj by done. rewrite flist_set_ne by done. by apply Hch.
  - rewrite Hp in Hnd. by apply NoDup_app in Hnd as (_ & _ & ?).
  - rewrite Hp in Hv. by apply Forall_app in Hv as [_ ?].
Qed.

(** The lists only depend on the heads and on the words of the free pages. *)
Lemma lists_inv_ext zi s s' bl :
  lists_inv zi s bl ->
  length (zones s') = length (zones s) ->
  free_lists (zones s').[zi] = free_lists (zones s).[zi] ->
  (forall a, a ∈ free_pages bl -> pmem s' a = pmem s a) ->
  lists_inv zi s' bl.
Proof.
  intros [Hzi Hls Hbl Hch Hnd Hv] Hz Hf Hm. split; try congruence.
  intros i l Hi. unfold flist. rewrite Hf. apply chain_ext with (pmem s); [|by apply Hch].
  intros a Ha. apply Hm. by eapply free_pages_block.
Qed.

Lemma buddy_split_inv zi n (o : nat) b s bl :
  lists_inv zi s bl -> (o + n <= 10)%nat ->
  NoDup (pages b (o + n) ++ free_pages bl) -> Forall valid_page (pages b (o + n)) ->
  let s' := buddy_split zi n (Z.of_nat o) b s in
  exists bl',
    lists_inv zi s' bl' /\
    pages b (o + n) ++ free_pages bl ≡ₚ pages b o ++ free_pages bl' /\
    free_count (zones s').[zi] = free_count (zones s).[zi] /\
    used_memory s' = used_memory s /\
    (forall x, x ∉ pages b (o + n) -> pmem s' x = pmem s x).
Proof.
  revert s bl. induction n as [|n IH]; intros s bl Hinv Hle Hnd Hv; simpl.
  - exists bl. rewrite Nat.add_0_r. done.
  - rewrite Nat.add_succ_r in *. rewrite pages_S in *.
    rewrite <-Nat2Z.inj_add in *.
    set (bd := b + Z.shiftl 1 (Z.of_nat (o + n) + PAGE_SHIFT)) in *.
    apply Forall_app in Hv as [Hv1 Hv2].
    assert (u64 bd = bd) as ->.
    { apply wrap_small. rewrite Forall_forall in Hv2.
      destruct (Hv2 bd); [apply pages_head|lia]. }
    pose proof (li_bl _ _ _ Hinv) as Hbl.
    destruct (lookup_lt_is_Some_2 bl (o + n)) as [l Hl];
      [rewrite Hbl; unfold PMM_NUM_ORDERS; lia|].
    assert (NoDup (pages bd (o + n) ++ free_pages bl)) as Hnd2.
    { rewrite <-app_assoc in Hnd. by apply NoDup_app in Hnd as (_ & _ & ?). }
    pose proof (push_block_inv zi s bl (o + n) bd l Hinv Hl Hnd2 Hv2) as Hinv'.
    pose proof (free_pages_push bl (o + n) l bd Hl) as Hp.
    destruct (set_flist_shape zi (set_mem (mem_write (pmem s) bd (flist zi (Z.of_nat (o + n)) s)) s)
      (li_zi _ _ _ Hinv) (li_lists _ _ _ Hinv) (Z.of_nat (o + n)) bd) as (_ & _ & Hc).
    destruct (IH _ _ Hinv') as (bl' & Hi' & Hperm & Hcnt & Hused & Hfr); [lia| |done|].
    { rewrite Hp. by rewrite <-app_assoc in Hnd. }
    exists bl'. split_and!; [done| | |done|].
    + by rewrite <-app_assoc, <-Hp.
    + by rewrite Hcnt.
    + intros x Hx. apply not_elem_of_app in Hx as [Hx1 Hx2]. rewrite Hfr by done.
      simpl. unfold mem_write. destruct (Z.eqb_spec x bd) as [->|]; [|done].
      by destruct Hx2; apply pages_head.
Qed.

Lemma buddy_search_Some zi n i s j :
  buddy_search zi n i s = Some j -> i <= j < i + Z.of_nat n /\ flist zi j s <> 0.
Proof.
  revert i. induction n as [|n IH]; intros i; simpl; [done|].
  destruct (Z.eqb_spec (flist zi i s) 0).
  - intros H. apply IH in H. lia.
  - intros [= <-]. split; [lia|done].
Qed.

Lemma buddy_search_None zi n i s :
  buddy_search zi n i s = None ->
  forall j, i <= j < i + Z.of_nat n -> flist zi j s = 0.
Proof.
  revert i. induction n as [|n IH]; intros i Hn j Hj; simpl in *; [lia|].
  destruct (Z.eqb_spec (flist zi i s) 0); [|done].
  destruct (decide (i = j)) as [<-|]; [done|]. apply (IH (i + 1)); [done|lia].
Qed.

(** *** Bound on the number of free pages *)

Lemma valid_pages_bound l :
  NoDup l -> Forall valid_page l -> Z.of_nat (length l) < 2 ^ 52.
Proof.
  intros Hnd Hv. rewrite Forall_forall in Hv.
  assert (((fun p => p / PAGE_SIZE) <$> l) ⊆+ seqZ 1 (2 ^ 52 - 1)) as Hsub.
  { apply NoDup_submseteq.
    - apply NoDup_fmap_2_strong; [|done]. intros x y Hx Hy E.
      destruct (Hv x Hx), (Hv y Hy). unfold PAGE_SIZE in *. lia.
    - intros q (p & -> & Hp)%list_elem_of_fmap. apply elem_of_seqZ.
      destruct (Hv p Hp). unfold PAGE_SIZE in *. lia. }
  apply submseteq_length in Hsub. rewrite length_fmap, length_seqZ in Hsub.
  apply Nat2Z.inj_le in Hsub. rewrite Z2Nat.id in Hsub by lia. lia.
Qed.

Lemma order_to_pages_pow (o : nat) :
  (o <= 10)%nat -> order_to_pages (Z.of_nat o) = Z.of_nat (2 ^ o).
Proof.
  intros. unfold order_to_pages. rewrite Z.shiftl_1_l, Nat2Z.inj_pow. apply wrap_small.
  split; [apply Z.pow_nonneg; lia|]. apply Z.pow_lt_mono_r; lia.
Qed.

(** An address in the range of a block lies in one of its pages. *)
Lemma block_range_pages b (o : nat) a :
  b mod PAGE_SIZE = 0 -> a mod PAGE_SIZE = 0 ->
  b <= a < b + Z.of_nat (2 ^ o) * PAGE_SIZE -> a ∈ pages b o.
Proof.
  intros Hb Ha Hr. apply elem_of_pages. exists ((a - b) / PAGE_SIZE).
  pose proof (Nat2Z.inj_pow 2 o). unfold PAGE_SIZE in *. lia.
Qed.

Lemma page_align_down_spec x : page_align_down x = PAGE_SIZE * (x / PAGE_SIZE).
Proof.
  unfold page_align_down. rewrite <-Z.ldiff_land.
  change (PAGE_SIZE - 1) with (Z.ones 12). rewrite Z.ldiff_ones_r by lia.
  rewrite Z.shiftl_mul_pow2, Z.shiftr_div_pow2 by lia. unfold PAGE_SIZE.
  change (2 ^ 12) with 4096. lia.
Qed.

Lemma page_align_down_id x : x mod PAGE_SIZE = 0 -> page_align_down x = x.
Proof. intros. rewrite page_align_down_spec. page_lia. Qed.

Lemma pages_aligned b (o : nat) x :
  b mod PAGE_SIZE = 0 -> x ∈ pages b o -> page_align_down x = x.
Proof.
  intros Hb (k & _ & ->)%elem_of_pages. apply page_align_down_id. page_lia.
Qed.

Lemma block_align_down b (o : nat) x :
  b mod PAGE_SIZE = 0 -> b <= x < b + Z.of_nat (2 ^ o) * PAGE_SIZE ->
  page_align_down x ∈ pages b o.
Proof.
  intros Hb Hx. rewrite page_align_down_spec.
  apply block_range_pages; [done| |]; page_lia.
Qed.

Lemma free_block_valid zi s bl (i : nat) b l :
  lists_inv zi s bl -> bl !! i = Some (b :: l) -> Forall valid_page (pages b i) /\ valid_page b.
Proof.
  intros [_ _ _ _ _ Hv] Hi. rewrite (free_pages_pop bl i l b Hi) in Hv.
  apply Forall_app in Hv as [Hv _]. split; [done|].
  rewrite Forall_forall in Hv. apply Hv, pages_head.
Qed.

(** The state after the accounting and the [memset] of [buddy_alloc]. *)
Definition take_block (zi : Z) (o : nat) (b : Z) (s : pmm_state) : pmm_state :=
  let s3 := add_free_count zi (- order_to_pages (Z.of_nat o)) s in
  let s4 := add_used (u64 (order_to_pages (Z.of_nat o) * PAGE_SIZE)) s3 in
  set_mem (mem_zero (pmem s4) b (order_to_pages (Z.of_nat o) * PAGE_SIZE)) s4.

Lemma take_block_inv zi (o : nat) b s bl :
  lists_inv zi s bl -> (o <= 10)%nat -> b mod PAGE_SIZE = 0 ->
  NoDup (pages b o ++ free_pages bl) ->  Forall valid_page (pages b o) ->
  free_count (zones s).[zi] = Z.of_nat (length (pages b o ++ free_pages bl)) ->
  pmm_inv zi (take_block zi o b s) bl.
Proof.
  intros Hinv Ho Hb Hnd Hvb Hc. pose proof Hinv as [Hzi Hls Hbl Hch Hnd' Hv].
  destruct (add_free_count_shape zi s Hzi (- Z.of_nat (2 ^ o))) as (Hz1 & Hf1 & Hc1).
  unfold take_block. rewrite order_to_pages_pow by done. split.
  - apply lists_inv_ext with s; [done..|].
    intros a Ha. simpl. unfold mem_zero.
    destruct (Z.leb_spec b a), (Z.ltb_spec a (b + Z.of_nat (2 ^ o) * PAGE_SIZE)); try done.
    apply NoDup_app in Hnd as (_ & Hd & _). destruct (Hd a); [|done].
    apply block_range_pages; [done| |lia]. rewrite Forall_forall in Hv. by apply Hv.
  - etransitivity; [exact Hc1|]. rewrite Hc. pose proof (valid_pages_bound _ Hnd) as Hlt.
    rewrite length_app, length_pages in *. rewrite Forall_app in Hlt.
    specialize (Hlt (conj Hvb Hv)). rewrite wrap_small; lia.
Qed.

(** What [buddy_alloc] promises: it fails, changing nothing, only when no list
    of the order or above has a block; otherwise the pages of the block it
    returns leave the free pages, every other free page stays free, the block
    is zero and no word outside the free pages changes. *)
Definition alloc_post (zi : Z) (o : nat) (s : pmm_state) (bl : list (list Z))
    (r : Z * pmm_state) : Prop :=
  let '(b, s') := r in
  (b = 0 /\ s' = s /\ (forall j l, (o <= j)%nat -> bl !! j = Some l -> l = [])) \/
  (valid_page b /\ exists bl',
    pmm_inv zi s' bl' /\
    free_pages bl ≡ₚ pages b o ++ free_pages bl' /\
    used_memory s' = u64 (used_memory s + Z.of_nat (2 ^ o) * PAGE_SIZE) /\
    (forall x, b <= x < b + Z.of_nat (2 ^ o) * PAGE_SIZE -> pmem s' x = 0) /\
    (forall x, page_align_down x ∉ free_pages bl -> pmem s' x = pmem s x)).

Lemma buddy_alloc_found zi (o i : nat) s bl b l :
  pmm_inv zi s bl -> (o <= i <= 10)%nat -> bl !! i = Some (b :: l) ->
  alloc_post zi o s bl
    (b, take_block zi o b
          (buddy_split zi (i - o) (Z.of_nat o) b
             (set_flist zi (Z.of_nat i) (pmem s b) s))).
Proof.
  intros [Hinv Hc] Hi Hbl. right.
  destruct (pop_block_inv zi s bl i b l Hinv Hbl) as [Hinv1 _].
  destruct (free_block_valid zi s bl i b l Hinv Hbl) as [Hvb Hb].
  pose proof (free_pages_pop bl i l b Hbl) as Hpop.
  pose proof (li_nodup _ _ _ Hinv) as Hnd. rewrite Hpop in Hnd.
  destruct (set_flist_shape zi s (li_zi _ _ _ Hinv) (li_lists _ _ _ Hinv)
    (Z.of_nat i) (pmem s b)) as (_ & _ & Hcnt1).
  replace i with (o + (i - o))%nat in Hnd, Hvb, Hpop by lia.
  replace (o + (i - o))%nat with i in Hpop at 2 by lia.
  replace (o + (i - o))%nat with i in Hnd at 2 by lia.
  destruct (buddy_split_inv zi (i - o) o b _ _ Hinv1 ltac:(lia) Hnd Hvb)
    as (bl' & Hinv2 & Hperm & Hcnt2 & Hused & Hfr).
  assert (Forall valid_page (pages b o)) as Hvo.
  { pose proof Hvb as Hall. assert (pages b o ⊆ pages b (o + (i - o))) as Hsub.
    { intros x (k & Hk & ->)%elem_of_pages. apply elem_of_pages. exists k.
      split; [|done]. split; [lia|]. eapply Z.lt_le_trans; [apply Hk|].
      apply Z.pow_le_mono_r; lia. }
    rewrite Forall_forall in *. auto. }
  split; [done|]. exists bl'. rewrite <-Hperm.
  split_and!.
  - apply take_block_inv; [done|lia|apply Hb|by rewrite <-Hperm|done|].
    rewrite Hcnt2, Hcnt1, Hc, <-Hperm. by rewrite Hpop.
  - done.
  - simpl. rewrite Hused, order_to_pages_pow by lia. unfold wrap.
    by rewrite Z.add_mod_idemp_r.
  - intros x Hx. simpl. unfold mem_zero. rewrite order_to_pages_pow by lia.
    by rewrite (proj2 (Z.leb_le _ _)), (proj2 (Z.ltb_lt _ _)) by lia.
  - intros x Hx. simpl. unfold mem_zero. rewrite order_to_pages_pow by lia.
    rewrite Hpop, not_elem_of_app in Hx. destruct Hx as [Hx _].
    destruct (decide (b <= x < b + Z.of_nat (2 ^ o) * PAGE_SIZE)) as [Hin|Hout].
    + destruct Hx. apply block_align_down; [apply Hb|]. split; [lia|].
      pose proof (Nat.pow_le_mono_r 2 o (o + (i - o)) ltac:(lia) ltac:(lia)). page_lia.
    + destruct (Z.leb_spec b x), (Z.ltb_spec x (b + Z.of_nat (2 ^ o) * PAGE_SIZE));
        simpl; try lia; apply Hfr; contradict Hx;
        by rewrite (pages_aligned b (o + (i - o))) by (done || apply Hb).
Qed.

Lemma buddy_alloc_post zi (o : nat) s bl :
  pmm_inv zi s bl -> (o <= 10)%nat -> alloc_post zi o s bl (buddy_alloc zi (Z.of_nat o) s).
Proof.
  intros Hinv Ho. pose proof Hinv as [[_ _ Hbl Hch _ _] _]. unfold buddy_alloc.
  destruct (buddy_search _ _ _ _) as [i|] eqn:Hs.
  - apply buddy_search_Some in Hs as [Hi Hhd]. unfold PMM_MAX_ORDER in Hi.
    rewrite <-(Z2Nat.id i) in Hhd |- * by lia.
    destruct (lookup_lt_is_Some_2 bl (Z.to_nat i)) as [l Hl];
      [rewrite Hbl; unfold PMM_NUM_ORDERS; lia|].
    destruct (chain_head _ _ _ (Hch _ _ Hl) Hhd) as (l' & -> & _).
    replace (Z.to_nat (Z.of_nat (Z.to_nat i) - Z.of_nat o)) with (Z.to_nat i - o)%nat by lia.
    apply (buddy_alloc_found zi o (Z.to_nat i) s bl _ l'); [done|lia|done].
  - left. split_and!; [done..|]. intros j l Hj Hl.
    pose proof (lookup_lt_Some _ _ _ Hl) as Hlt. rewrite Hbl in Hlt. unfold PMM_NUM_ORDERS in Hlt.
    pose proof (Hch _ _ Hl) as Hc.
    rewrite (buddy_search_None _ _ _ _ Hs (Z.of_nat j)) in Hc
      by (unfold PMM_MAX_ORDER; lia).
    destruct l as [|a l]; [done|]. simpl in Hc. destruct Hc as (<- & ? & _). done.
Qed.

Lemma buddy_alloc_empty zi (o : nat) s bl :
  pmm_inv zi s bl -> (o <= 10)%nat ->
  (forall j l, (o <= j)%nat -> bl !! j = Some l -> l = []) ->
  buddy_alloc zi (Z.of_nat o) s = (0, s).
Proof.
  intros [[_ _ Hbl Hch _ _] _] Ho Hnil. unfold buddy_alloc.
  destruct (buddy_search _ _ _ _) as [i|] eqn:Hs; [exfalso|done].
  apply buddy_search_Some in Hs as [Hi Hhd]. unfold PMM_MAX_ORDER in Hi.
  destruct (lookup_lt_is_Some_2 bl (Z.to_nat i)) as [l Hl];
    [rewrite Hbl; unfold PMM_NUM_ORDERS; lia|].
  pose proof (Hch _ _ Hl) as Hc. rewrite Z2Nat.id in Hc by lia.
  rewrite (Hnil (Z.to_nat i) l) in Hc by (done || lia). done.
Qed.

Lemma free_pages_nil (bl : list (list Z)) :
  (forall j l, bl !! j = Some l -> l = []) -> free_pages bl = [].
Proof.
  intros Hnil. assert (Forall (fun l => l = []) bl) as Hall by by apply Forall_lookup.
  unfold free_pages. generalize 0%nat as k. clear Hnil.
  induction Hall as [|l bl -> _ IH]; intros k; simpl; [done|apply IH].
Qed.

(** A single page, as the clients of [pmm_alloc_page] see it. *)
Lemma pmm_alloc_page_post s bl :
  pmm_inv 0 s bl -> free_pages bl <> [] ->
  exists p s' bl', pmm_alloc_page s = Done (p, s') /\ valid_page p /\ pmm_inv 0 s' bl' /\
    free_pages bl ≡ₚ p :: free_pages bl' /\
    (forall x, p <= x < p + PAGE_SIZE -> pmem s' x = 0) /\
    (forall x, page_align_down x ∉ free_pages bl -> pmem s' x = pmem s x).
Proof.
  intros Hinv Hne. pose proof (buddy_alloc_post 0 0 s bl Hinv ltac:(lia)) as Hpost.
  unfold pmm_alloc_page. change (Z.of_nat 0) with 0 in Hpost.
  destruct (buddy_alloc 0 0 s) as [p s'].
  destruct Hpost as [(_ & _ & Hnil)|(Hv & bl' & Hinv' & Hp & _ & Hz & Hf)].
  - destruct Hne. apply free_pages_nil. intros j l. apply Hnil. lia.
  - exists p, s', bl'. rewrite (proj2 (Z.eqb_neq p 0)) by (destruct Hv; lia).
    rewrite pages_0 in Hp. change (2 ^ 0)%nat with 1%nat in Hz. rewrite Z.mul_1_l in Hz. done.
Qed.

(** What [buddy_free] promises for a block none of whose pages is free. *)
Definition free_post (zi : Z) (o : nat) (b : Z) (s : pmm_state) (bl : list (list Z))
    (s' : pmm_state) : Prop :=
  exists l, bl !! o = Some l /\
  pmm_inv zi s' (<[o := b :: l]> bl) /\
  used_memory s' = u64 (used_memory s - Z.of_nat (2 ^ o) * PAGE_SIZE) /\
  total_memory s' = total_memory s /\
  (forall x, x <> b -> pmem s' x = pmem s x).

Lemma buddy_free_post zi (o : nat) b s bl :
  pmm_inv zi s bl -> (o <= 10)%nat ->
  Forall valid_page (pages b o) -> NoDup (pages b o ++ free_pages bl) ->
  free_post zi o b s bl (buddy_free zi b (Z.of_nat o) s).
Proof.
  intros [Hinv Hc] Ho Hvb Hnd. pose proof Hinv as [Hzi Hls Hbl _ _ Hv].
  destruct (lookup_lt_is_Some_2 bl o) as [l Hl]; [rewrite Hbl; unfold PMM_NUM_ORDERS; lia|].
  exists l. split; [done|].
  pose proof (push_block_inv zi s bl o b l Hinv Hl Hnd Hvb) as Hinv'.
  destruct (set_flist_shape zi (set_mem (mem_write (pmem s) b (flist zi (Z.of_nat o) s)) s)
    Hzi Hls (Z.of_nat o) b) as (_ & _ & Hcnt).
  destruct (add_free_count_shape zi (push_block zi (Z.of_nat o) b s) (li_zi _ _ _ Hinv')
    (Z.of_nat (2 ^ o))) as (Hz1 & Hf1 & Hc1).
  unfold buddy_free. rewrite order_to_pages_pow by done. split_and!.
  - split.
    + by apply lists_inv_ext with (push_block zi (Z.of_nat o) b s).
    + change (free_count (zones (add_free_count zi (Z.of_nat (2 ^ o))
        (push_block zi (Z.of_nat o) b s))).[zi] = Z.of_nat (length (free_pages (<[o:=b :: l]> bl)))).
      rewrite Hc1. change (zones (push_block _ _ _ _)) with
        (zones (set_flist zi (Z.of_nat o) b
          (set_mem (mem_write (pmem s) b (flist zi (Z.of_nat o) s)) s))).
      rewrite Hcnt. change (zones (set_mem _ s)) with (zones s). rewrite Hc.
      rewrite (free_pages_push bl o l b Hl), length_app, length_pages.
      pose proof (valid_pages_bound _ Hnd) as Hlt. rewrite Forall_app in Hlt.
      specialize (Hlt (conj Hvb Hv)). rewrite length_app, length_pages in Hlt.
      rewrite wrap_small; lia.
  - simpl. pose proof (Nat.pow_le_mono_r 2 o 10 ltac:(lia) ltac:(lia)) as Hp.
    change (2 ^ 10)%nat with 1024%nat in Hp.
    rewrite (wrap_small 64 (Z.of_nat (2 ^ o) * PAGE_SIZE)) by page_lia. done.
  - done.
  - intros x Hx. simpl. unfold mem_write. by rewrite (proj2 (Z.eqb_neq _ _) Hx).
Qed.

(** *** The order of a page count *)

Lemma order_loop_spec fuel (o : nat) count :
  (o + fuel = 65)%nat -> (o <= 63)%nat ->
  (forall p : nat, (p < o)%nat -> 2 ^ Z.of_nat p < count) -> count <= 2 ^ 63 ->
  exists p : nat, order_loop fuel (2 ^ Z.of_nat o) (Z.of_nat o) count = Some (Z.of_nat p) /\
    count <= 2 ^ Z.of_nat p /\ (forall q : nat, (q < p)%nat -> 2 ^ Z.of_nat q < count).
Proof.
  revert o. induction fuel as [|fuel IH]; intros o Hf Ho Hlt Hc; [lia|]. simpl.
  destruct (Z.ltb_spec (2 ^ Z.of_nat o) count) as [Hl|Hge].
  - assert (o < 63)%nat as Ho'.
    { apply Nat.nle_gt. intros Hle. assert (o = 63%nat) as -> by lia. cbn in *. lia. }
    rewrite Z.shiftl_mul_pow2 by lia. change (2 ^ 1) with 2.
    rewrite (Z.mul_comm _ 2), <-Z.pow_succ_r, <-Nat2Z.inj_succ by lia.
    rewrite wrap_small by (split; [apply Z.pow_nonneg|apply Z.pow_lt_mono_r]; lia).
    replace (Z.of_nat o + 1) with (Z.of_nat (S o)) by lia.
    apply IH; [lia|lia| |done].
    intros p Hp. destruct (decide (p = o)) as [->|]; [done|]. apply Hlt. lia.
  - exists o. done.
Qed.

Lemma order_loop_zero fuel order count :
  0 < count -> order_loop fuel 0 order count = None.
Proof.
  intros Hc. revert order. induction fuel as [|fuel IH]; intros order; simpl; [done|].
  destruct (Z.ltb_spec 0 count); [apply IH|lia].
Qed.

Lemma order_loop_diverges fuel (o : nat) order count :
  (o <= 63)%nat -> 2 ^ 63 < count -> order_loop fuel (2 ^ Z.of_nat o) order count = None.
Proof.
  intros Ho Hc. revert o order Ho. induction fuel as [|fuel IH]; intros o order Ho; simpl; [done|].
  assert (2 ^ Z.of_nat o <= 2 ^ 63) by (apply Z.pow_le_mono_r; lia).
  destruct (Z.ltb_spec (2 ^ Z.of_nat o) count); [|lia].
  rewrite Z.shiftl_mul_pow2, (Z.mul_comm _ (2 ^ 1)), <-Z.pow_add_r by lia.
  destruct (decide (o = 63%nat)) as [->|Hne].
  - apply order_loop_zero. lia.
  - rewrite wrap_small by (split; [apply Z.pow_nonneg|apply Z.pow_lt_mono_r]; lia).
    replace (1 + Z.of_nat o) with (Z.of_nat (S o)) by lia. apply IH. lia.
Qed.

(** *** Initialisation *)

(** A zone whose free blocks are the single pages [l]. *)
Definition singles (l : list Z) : list (list Z) := l :: replicate 10 [].

Lemma free_pages_singles l : free_pages (singles l) = l.
Proof.
  unfold free_pages, singles. simpl. rewrite app_nil_r.
  induction l as [|a l IH]; simpl; [done|]. unfold mbind in IH. rewrite IH.
  f_equal. page_lia.
Qed.

(** [n] consecutive pages from [a]. *)
Definition page_run (a : Z) (n : nat) : list Z :=
  (fun k => a + PAGE_SIZE * Z.of_nat k) <$> seq 0 n.

Lemma page_run_S a n : page_run a (S n) = a :: page_run (a + PAGE_SIZE) n.
Proof.
  unfold page_run. simpl. f_equal; [page_lia|]. rewrite <-fmap_S_seq, <-list_fmap_compose.
  apply list_fmap_ext. intros _ k _. simpl. page_lia.
Qed.

Definition with_singles (s : pmm_state) (l : list Z) (s' : pmm_state) : Prop :=
  pmm_inv 0 s' (singles l) /\
  used_memory s' = u64 (used_memory s - PAGE_SIZE * Z.of_nat (length l)).

Lemma with_singles_free s0 l a s :
  with_singles s0 l s -> valid_page a -> a ∉ l -> NoDup l ->
  with_singles s0 (a :: l) (buddy_free 0 a 0 s).
Proof.
  intros [Hinv Hu] Hv Ha Hnd.
  destruct (buddy_free_post 0 0 a s (singles l)) as (l' & Hl & Hinv' & Hu' & _); [done|lia|..].
  - rewrite pages_0. by constructor.
  - rewrite pages_0, free_pages_singles. by constructor.
  - injection Hl as <-. split; [done|]. etransitivity; [exact Hu'|]. rewrite Hu. unfold wrap.
    rewrite Zminus_mod_idemp_l. f_equal. rewrite length_cons. change (2 ^ 0)%nat with 1%nat. lia.
Qed.

Lemma pmm_add_pages_inv s0 n a limit l s :
  with_singles s0 l s -> limit = a + PAGE_SIZE * Z.of_nat n ->
  0 < a -> a mod PAGE_SIZE = 0 -> limit < 2 ^ 64 -> NoDup (page_run a n ++ l) ->
  with_singles s0 (reverse (page_run a n) ++ l) (pmm_add_pages n a limit s).
Proof.
  revert a l s. induction n as [|n IH]; intros a l s Hs Hlim Ha Hal Hb Hnd; simpl; [done|].
  rewrite page_run_S in *. simpl in Hnd. apply NoDup_cons in Hnd as [Hni Hnd].
  rewrite (proj2 (Z.ltb_lt _ _)) by page_lia.
  rewrite wrap_small by page_lia. rewrite reverse_cons, <-app_assoc. simpl.
  apply IH; [|page_lia..|].
  - apply with_singles_free; [done|split; page_lia|set_solver|].
    by apply NoDup_app in Hnd as (_ & _ & ?).
  - rewrite <-Permutation_middle. by apply NoDup_cons.
Qed.

Definition region_base (r : memory_region_t) : Z := PAGE_SIZE * ((base r + PAGE_SIZE - 1) / PAGE_SIZE).

(** The pages a region contributes: the whole pages inside a usable region,
    when it starts at 16 MB or above. *)
Definition region_pages (r : memory_region_t) : list Z :=
  if (type r =? PMM_REGION_USABLE) && (0x1000000 <=? region_base r)
  then page_run (region_base r) (Z.to_nat ((base r + length_ r - region_base r) / PAGE_SIZE))
  else [].

Definition region_ok (r : memory_region_t) : Prop :=
  0 <= base r /\ PAGE_SIZE <= length_ r /\ base r + length_ r + PAGE_SIZE <= 2 ^ 64.

Lemma pmm_add_region_inv s0 r l s :
  with_singles s0 l s -> region_ok r -> NoDup (region_pages r ++ l) ->
  with_singles s0 (reverse (region_pages r) ++ l) (pmm_add_region r s).
Proof.
  intros Hs (Hb & Hl & Hlim) Hnd. unfold pmm_add_region, region_pages in *.
  destruct (type r =? PMM_REGION_USABLE); simpl in *; [|done].
  assert (page_align_up (base r) = region_base r) as ->.
  { unfold page_align_up. rewrite page_align_down_spec, wrap_small by page_lia. done. }
  rewrite Z.leb_antisym in *. destruct (Z.ltb_spec (region_base r) 0x1000000); simpl in *; [done|].
  assert (base r <= region_base r < base r + PAGE_SIZE) as Hr by (unfold region_base; page_lia).
  rewrite (wrap_small 64 (length_ r - _)) by page_lia. rewrite page_align_down_spec.
  set (n := (length_ r - (region_base r - base r)) / PAGE_SIZE) in *.
  replace ((base r + length_ r - region_base r) / PAGE_SIZE) with n in * by (unfold n; f_equal; lia).
  assert (0 <= n /\ region_base r + PAGE_SIZE * n <= base r + length_ r) as [Hn Hend]
    by (unfold n; page_lia).
  replace (PAGE_SIZE * n / PAGE_SIZE) with n by page_lia.
  apply pmm_add_pages_inv; [|rewrite wrap_small; page_lia|page_lia|unfold region_base; page_lia
    |rewrite wrap_small; page_lia|done].
  destruct Hs as [[[] Hc] Hu]. split; [split; [split|exact Hc]|exact Hu]; assumption.
Qed.

Lemma pmm_init_zone m :
  with_singles (pmm_boot m) [] (mk_pmm (replicate MAX_ZONES inhabitant) 1 0 0 m).
Proof.
  split; [|done]. split; [|done]. split; [simpl; lia|done..| | |].
  - intros i l Hi. do 11 (destruct i as [|i]; [by injection Hi as <-|]). done.
  - constructor.
  - constructor.
Qed.

Lemma pmm_add_regions_inv s0 rs l s :
  with_singles s0 l s -> Forall region_ok rs -> NoDup ((rs ≫= region_pages) ++ l) ->
  exists l', l' ≡ₚ (rs ≫= region_pages) ++ l /\
    with_singles s0 l' (foldl (fun s r => pmm_add_region r s) s rs).
Proof.
  revert l s. induction rs as [|r rs IH]; intros l s Hs Hok Hnd; simpl in *; [by exists l|].
  apply Forall_cons in Hok as [Hr Hok].
  assert (NoDup (region_pages r ++ l)) as Hnd1.
  { rewrite <-app_assoc, Permutation_app_swap_app in Hnd. by apply NoDup_app in Hnd as (_ & _ & ?). }
  destruct (IH _ _ (pmm_add_region_inv s0 r l s Hs Hr Hnd1) Hok) as (l' & Hp & Hs').
  - rewrite reverse_Permutation. by rewrite Permutation_app_swap_app, app_assoc.
  - exists l'. split; [|done]. rewrite Hp, reverse_Permutation.
    by rewrite Permutation_app_swap_app, app_assoc.
Qed.

Lemma pmm_init_singles m rs :
  Forall region_ok rs -> NoDup (rs ≫= region_pages) ->
  exists l, l ≡ₚ (rs ≫= region_pages) /\
    with_singles (pmm_boot m) l (pmm_init rs (pmm_boot m)).
Proof.
  intros Hok Hnd.
  destruct (pmm_add_regions_inv (pmm_boot m) rs [] _ (pmm_init_zone m) Hok) as (l & Hp & Hs).
  - by rewrite app_nil_r.
  - exists l. by rewrite app_nil_r in Hp.
Qed.

(** ** Properties *)

(** C5: [pmm_alloc_page] on consistent free lists either panics, and then
    there is no free page at all, or returns a free page: that page and no
    other leaves the free pages, it is zeroed, and memory outside the free
    pages is untouched. *)
Theorem pmm_alloc_page_correct s bl (Hinv : pmm_inv 0 s bl) :
  match pmm_alloc_page s with
  | Halted why => why = PmmOom /\ free_pages bl = []
  | Done (p, s') =>
      exists bl', pmm_inv 0 s' bl' /\ free_pages bl ≡ₚ p :: free_pages bl' /\
        pmm_get_free_count s' = pmm_get_free_count s - 1 /\
        (forall x, p <= x < p + PAGE_SIZE -> pmem s' x = 0) /\
        (forall x, page_align_down x ∉ free_pages bl -> pmem s' x = pmem s x)
  end.
Proof.
  destruct (decide (free_pages bl = [])) as [E|E].
  - pose proof (buddy_alloc_empty 0 0 s bl Hinv ltac:(lia)) as He. unfold pmm_alloc_page.
    change (Z.of_nat 0) with 0 in He. rewrite He; [done|]. intros j l _ Hl.
    destruct l as [|a l]; [done|]. assert (a ∈ free_pages bl) as Ha by (eapply free_pages_block; [done|left]).
    rewrite E in Ha. by apply not_elem_of_nil in Ha.
  - destruct (pmm_alloc_page_post s bl Hinv E) as (p & s' & bl' & -> & _ & Hinv' & Hp & Hz & Hf).
    exists bl'. split_and!; [done..| |done|done]. unfold pmm_get_free_count.
    rewrite (pi_count _ _ _ Hinv), (pi_count _ _ _ Hinv'), Hp. simpl. lia.
Qed.

(** The order computed for a page count of at most [2^63] is the least
    one whose block holds the pages; above [2^63] the shift wraps to 0 and the
    loop runs for ever, whatever the fuel. *)
Theorem order_of_least count (Hc : 1 <= count < 2 ^ 64) :
  (count <= 2 ^ 63 ->
    exists p : nat, order_of count = Some (Z.of_nat p) /\ count <= 2 ^ Z.of_nat p /\
      (forall q : nat, (q < p)%nat -> 2 ^ Z.of_nat q < count)) /\
  (2 ^ 63 < count -> forall fuel, order_loop fuel 1 0 count = None).
Proof.
  split.
  - intros Hle. apply (order_loop_spec 65 0); [lia..| |done]. intros p Hp. lia.
  - intros Hgt fuel. apply (order_loop_diverges fuel 0 0); [lia|done].
Qed.

Lemma order_of_bound count :
  1 <= count <= 1024 ->
  exists o : nat, order_of count = Some (Z.of_nat o) /\ (o <= 10)%nat /\ count <= 2 ^ Z.of_nat o.
Proof.
  intros Hc. destruct (order_loop_spec 65 0 count) as (p & Hp & Hle & Hlt); [lia..|].
  exists p. split_and!; [done| |done]. apply Nat.nlt_ge. intros H.
  specialize (Hlt 10%nat H). cbn in Hlt. lia.
Qed.

(** A successful [pmm_alloc_pages] of at most 1024 pages followed by
    [pmm_free_pages] of the same address and count gives back exactly the free
    pages, the free count and the used memory of before. *)
Theorem pmm_alloc_free_round_trip s bl count b s1
    (Hinv : pmm_inv 0 s bl) (Hc : 1 <= count <= 1024)
    (Hu : 0 <= used_memory s < 2 ^ 64)
    (Halloc : pmm_alloc_pages count s = Some (b, s1)) (Hb : b <> 0) :
  exists s2 bl2, pmm_free_pages b count s1 = Some s2 /\ pmm_inv 0 s2 bl2 /\
    free_pages bl2 ≡ₚ free_pages bl /\
    pmm_get_free_count s2 = pmm_get_free_count s /\
    used_memory s2 = used_memory s.
Proof.
  destruct (order_of_bound count Hc) as (o & Ho & Ho10 & _).
  unfold pmm_alloc_pages in Halloc. rewrite Ho in Halloc. injection Halloc as Halloc.
  pose proof (buddy_alloc_post 0 o s bl Hinv Ho10) as Hpost. rewrite Halloc in Hpost.
  destruct Hpost as [[? _]|(Hv & bl' & Hinv' & Hp & Hu1 & _)]; [done|].
  pose proof (li_nodup _ _ _ (pi_lists _ _ _ Hinv)) as Hnd. rewrite Hp in Hnd.
  pose proof (li_valid _ _ _ (pi_lists _ _ _ Hinv)) as Hva. rewrite Hp in Hva.
  apply Forall_app in Hva as [Hva _].
  destruct (buddy_free_post 0 o b s1 bl' Hinv' Ho10 Hva Hnd) as (l & Hl & Hinv2 & Hu2 & _).
  exists (buddy_free 0 b (Z.of_nat o) s1), (<[o := b :: l]> bl').
  unfold pmm_free_pages. rewrite (proj2 (Z.eqb_neq b 0) Hb), Ho. cbn [mbind option_bind].
  rewrite page_align_down_id by apply Hv.
  pose proof (free_pages_push bl' o l b Hl) as Hpush. rewrite <-Hp in Hpush.
  split_and!; [done..| |].
  - unfold pmm_get_free_count. by rewrite (pi_count _ _ _ Hinv), (pi_count _ _ _ Hinv2), Hpush.
  - rewrite Hu2, Hu1. unfold wrap. rewrite Zminus_mod_idemp_l.
    rewrite Z.add_simpl_r. by apply Z.mod_small.
Qed.

(** Initialising from non-overlapping regions gives consistent free
    lists whose free pages are exactly the whole pages of the usable regions
    that start at 16 MB or above, and counts them; [used_memory], which
    [buddy_free] decrements for every page added, ends at minus their size
    modulo [2^64]. *)
Theorem pmm_init_correct m rs
    (Hok : Forall region_ok rs) (Hnd : NoDup (rs ≫= region_pages)) :
  let s := pmm_init rs (pmm_boot m) in
  exists bl, pmm_inv 0 s bl /\ free_pages bl ≡ₚ rs ≫= region_pages /\
    pmm_get_free_count s = Z.of_nat (length (rs ≫= region_pages)) /\
    used_memory s = u64 (- (PAGE_SIZE * Z.of_nat (length (rs ≫= region_pages)))).
Proof.
  intros s. destruct (pmm_init_singles m rs Hok Hnd) as (l & Hp & Hinv & Hu).
  exists (singles l). rewrite free_pages_singles. rewrite <-Hp. split_and!; [done..| |done].
  unfold pmm_get_free_count, s. by rewrite (pi_count _ _ _ Hinv), free_pages_singles.
Qed.

(** Since [pmm_init] only fills the list of single pages and blocks are
    never merged, no request for two pages or more can be served afterwards,
    however much memory there is. *)
Theorem pmm_init_no_contiguous m rs count
    (Hok : Forall region_ok rs) (Hnd : NoDup (rs ≫= region_pages)) (Hc : 2 <= count <= 1024) :
  let s := pmm_init rs (pmm_boot m) in pmm_alloc_pages count s = Some (0, s).
Proof.
  intros s. destruct (pmm_init_singles m rs Hok Hnd) as (l & _ & Hinv & _). fold s in Hinv.
  destruct (order_of_bound count ltac:(lia)) as (o & Ho & Ho10 & Hle).
  unfold pmm_alloc_pages. rewrite Ho. simpl. f_equal.
  apply buddy_alloc_empty with (singles l); [done|done|]. intros j l' Hj Hl'.
  destruct j as [|j]; [|by apply lookup_replicate in Hl' as [-> _]].
  destruct o; [cbn in Hle; lia|lia].
Qed.

(** *** Witnesses: four free pages at 16 MB *)

Definition four_pages : pmm_state :=
  pmm_init [mk_region 0x1000000 0x4000 1] (pmm_boot (fun _ => 0)).

Definition four_blocks : list (list Z) :=
  singles [0x1003000; 0x1002000; 0x1001000; 0x1000000].

Lemma four_pages_inv : pmm_inv 0 four_pages four_blocks.
Proof.
  split; [split|]; [by vm_compute|done..| | | |done].
  - intros i l Hi. do 11 (destruct i as [|i]; [injection Hi as <-; by vm_compute|]). done.
  - by apply (bool_decide_unpack _); vm_compute.
  - repeat constructor.
Qed.

Lemma four_regions_ok :
  Forall region_ok [mk_region 0x1000000 0x4000 1] /\
  NoDup ([mk_region 0x1000000 0x4000 1] ≫= region_pages).
Proof.
  split; [constructor; [by vm_compute|constructor]|].
  by apply (bool_decide_unpack _); vm_compute.
Qed.

Lemma pmm_alloc_page_correct_witness :
  exists bl', pmm_inv 0 (snd (buddy_alloc 0 0 four_pages)) bl' /\
    free_pages four_blocks ≡ₚ 0x1003000 :: free_pages bl'.
Proof.
  pose proof (pmm_alloc_page_correct four_pages four_blocks four_pages_inv) as H.
  assert (fst (buddy_alloc 0 0 four_pages) = 0x1003000) as E by (vm_compute; reflexivity).
  unfold pmm_alloc_page in H. destruct (buddy_alloc 0 0 four_pages) as [p s'].
  simpl in E. subst p. simpl in H.
  destruct H as (bl' & H1 & H2 & _). exists bl'. split; assumption.
Defined.

Lemma order_of_least_witness : exists p : nat, order_of 600 = Some (Z.of_nat p) /\ 600 <= 2 ^ Z.of_nat p.
Proof.
  assert (1 <= 600 < 2 ^ 64) as Hr by lia.
  destruct (proj1 (order_of_least 600 Hr)) as (p & H1 & H2 & _); [lia|]. by exists p.
Defined.

Lemma pmm_alloc_free_round_trip_witness :
  exists s2 bl2, pmm_free_pages 0x1003000 1 (snd (buddy_alloc 0 0 four_pages)) = Some s2 /\
    pmm_inv 0 s2 bl2 /\ pmm_get_free_count s2 = pmm_get_free_count four_pages.
Proof.
  destruct (pmm_alloc_free_round_trip four_pages four_blocks 1 0x1003000
    (snd (buddy_alloc 0 0 four_pages)) four_pages_inv) as (s2 & bl2 & H1 & H2 & _ & H3 & _).
  - lia.
  - by vm_compute.
  - done.
  - done.
  - exists s2, bl2. split_and!; assumption.
Defined.

Lemma pmm_init_correct_witness :
  pmm_get_free_count four_pages = 4 /\
  exists bl, pmm_inv 0 four_pages bl.
Proof.
  destruct (pmm_init_correct (fun _ => 0) _ (proj1 four_regions_ok) (proj2 four_regions_ok))
    as (bl & H1 & _ & H2 & _). split; [exact H2|]. by exists bl.
Defined.

Lemma pmm_init_no_contiguous_witness : pmm_alloc_pages 4 four_pages = Some (0, four_pages).
Proof.
  apply (pmm_init_no_contiguous (fun _ => 0) _ 4 (proj1 four_regions_ok) (proj2 four_regions_ok)).
  lia.
Defined.

End Pmm.
