(* ===== verification/Heap.v ===== *)
(** * Kernel heap (kernel/mm/memory.c: kmalloc, kcalloc, krealloc, kfree)

    The heap is a doubly linked list of block headers laid out in memory; each
    header is followed by its payload.  The operations work on memory cells as
    the code does; they are proved to implement first-fit allocation with
    splitting and coalescing on the list of blocks that tiles the heap. *)

From stdpp Require Import base numbers list option tactics sets.
From S2P Require Import Prelude.

Module Heap.

Definition HEAP_SIZE : Z := 64 * 1024 * 1024.
Definition HEAP_MAGIC : Z := 0xDEADBEEF.
Definition MIN_BLOCK_SIZE : Z := 32.
Definition ALIGNMENT : Z := 8.

(** [sizeof(heap_block_t)] and the offsets of its fields on a 64-bit target. *)
Definition HDR : Z := 40.
Definition magic_ (b : Z) : Z := b.
Definition size_ (b : Z) : Z := b + 8.
Definition free_ (b : Z) : Z := b + 16.
Definition next_ (b : Z) : Z := b + 24.
Definition prev_ (b : Z) : Z := b + 32.

Record heap_state := mk_heap {
  heap_first : Z;        (* 0 is NULL *)
  heap_allocs : Z;
  heap_frees : Z;
  hmem : Z -> Z;
}.

(** ** kmalloc *)

(** [size = (size + ALIGNMENT - 1) & ~(ALIGNMENT - 1)], at least
    [MIN_BLOCK_SIZE]. *)
Definition round_size (size : Z) : Z :=
  let size := Z.land (u64 (size + ALIGNMENT - 1)) (Z.lnot (ALIGNMENT - 1)) in
  if size <? MIN_BLOCK_SIZE then MIN_BLOCK_SIZE else size.

(** The [while (block)] walk; [None] when the fuel does not reach its end,
    [Some None] when no block fits. *)
Fixpoint find_block (fuel : nat) (size block : Z) (m : Z -> Z) : option (option Z) :=
  match fuel with
  | O => None
  | S fuel' =>
      if block =? 0 then Some None
      else if truthy (m (free_ block)) && (size <=? m (size_ block)) then Some (Some block)
      else find_block fuel' size (m (next_ block)) m
  end.

Definition split_block (block size : Z) (m : Z -> Z) : Z -> Z :=
  let new_block := block + HDR + size in
  let m := mem_write m (magic_ new_block) HEAP_MAGIC in
  let m := mem_write m (size_ new_block) (u64 (m (size_ block) - size - HDR)) in
  let m := mem_write m (free_ new_block) 1 in
  let m := mem_write m (next_ new_block) (m (next_ block)) in
  let m := mem_write m (prev_ new_block) block in
  let m := if truthy (m (next_ block)) then mem_write m (prev_ (m (next_ block))) new_block else m in
  let m := mem_write m (next_ block) new_block in
  mem_write m (size_ block) size.

(** The body of the [if] once a block is found. *)
Definition take_block (block size : Z) (m : Z -> Z) : Z -> Z :=
  let m :=
    if u64 (size + HDR + MIN_BLOCK_SIZE) <? m (size_ block) then split_block block size m else m in
  let m := mem_write m (free_ block) 0 in
  mem_write m (magic_ block) HEAP_MAGIC.

(** [None]: out of fuel; otherwise the returned pointer, 0 for NULL. *)
Definition kmalloc (fuel : nat) (size : Z) (h : heap_state) : option (Z * heap_state) :=
  if size =? 0 then Some (0, h) else
  if heap_first h =? 0 then Some (0, h) else
  let size := round_size size in
  found ← find_block fuel size (heap_first h) (hmem h);
  match found with
  | None => Some (0, h)
  | Some block =>
      Some (block + HDR,
        mk_heap (heap_first h) (u32 (heap_allocs h + 1)) (heap_frees h)
          (take_block block size (hmem h)))
  end.

Definition kcalloc (fuel : nat) (num size : Z) (h : heap_state) : option (Z * heap_state) :=
  let total := u64 (num * size) in
  '(ptr, h') ← kmalloc fuel total h;
  Some (if ptr =? 0 then (ptr, h')
        else (ptr, mk_heap (heap_first h') (heap_allocs h') (heap_frees h')
                     (mem_zero (hmem h') ptr total))).

(** ** kfree *)

(** Block [a] takes over the size and the successor of the block [b] after it. *)
Definition absorb (a b : Z) (m : Z -> Z) : Z -> Z :=
  let m := mem_write m (size_ a) (u64 (m (size_ a) + HDR + m (size_ b))) in
  let m := mem_write m (next_ a) (m (next_ b)) in
  if truthy (m (next_ a)) then mem_write m (prev_ (m (next_ a))) a else m.

Definition merge_next (block : Z) (m : Z -> Z) : Z -> Z :=
  let n := m (next_ block) in
  if truthy n && truthy (m (free_ n)) then absorb block n m else m.

Definition merge_prev (block : Z) (m : Z -> Z) : Z -> Z :=
  let p := m (prev_ block) in
  if truthy p && truthy (m (free_ p)) then absorb p block m else m.

Definition kfree (ptr : Z) (h : heap_state) : heap_state :=
  if ptr =? 0 then h else
  let block := u64 (ptr - HDR) in
  if negb (hmem h (magic_ block) =? HEAP_MAGIC) then h else
  mk_heap (heap_first h) (heap_allocs h) (u32 (heap_frees h + 1))
    (merge_prev block (merge_next block (mem_write (hmem h) (free_ block) 1))).

(** ** krealloc *)

Definition krealloc (fuel : nat) (ptr size : Z) (h : heap_state) : option (Z * heap_state) :=
  if ptr =? 0 then kmalloc fuel size h else
  if size =? 0 then Some (0, kfree ptr h) else
  let block := u64 (ptr - HDR) in
  if negb (hmem h (magic_ block) =? HEAP_MAGIC) then Some (0, h) else
  let old_size := hmem h (size_ block) in
  '(new_ptr, h') ← kmalloc fuel size h;
  Some (if new_ptr =? 0 then (new_ptr, h') else
        (new_ptr, kfree ptr
          (mk_heap (heap_first h') (heap_allocs h') (heap_frees h')
             (mem_copy (hmem h') new_ptr ptr (if old_size <? size then old_size else size))))).

(** The first block, as [mm_init] writes it at [start]. *)
Definition heap_setup (start : Z) (m : Z -> Z) : heap_state :=
  let m := mem_write m (magic_ start) HEAP_MAGIC in
  let m := mem_write m (size_ start) (HEAP_SIZE - HDR) in
  let m := mem_write m (free_ start) 1 in
  let m := mem_write m (next_ start) 0 in
  let m := mem_write m (prev_ start) 0 in
  mk_heap start 0 0 m.

(** [mm_map_io], a stub that maps nothing. *)
Definition mm_map_io (phys_addr size : Z) : Z := 0.

(** ** Specification: the list of blocks *)

Record blk := mk_blk { bsize : Z; bfree : bool }.

(** Bytes the blocks take, headers included. *)
Fixpoint span (l : list blk) : Z :=
  match l with
  | [] => 0
  | k :: l' => HDR + bsize k + span l'
  end.

Definition alloc_in (size : Z) (k : blk) : list blk :=
  if size + HDR + MIN_BLOCK_SIZE <? bsize k
  then [mk_blk size false; mk_blk (bsize k - size - HDR) true]
  else [mk_blk (bsize k) false].

(** First fit: the blocks before, the block and the blocks after. *)
Fixpoint first_fit (size : Z) (l : list blk) : option (list blk * blk * list blk) :=
  match l with
  | [] => None
  | k :: l' =>
      if bfree k && (size <=? bsize k) then Some ([], k, l')
      else '(l1, k', l2) ← first_fit size l'; Some (k :: l1, k', l2)
  end.

Definition join_next (k : blk) (l2 : list blk) : list blk :=
  match l2 with
  | n :: l2' => if bfree n then mk_blk (bsize k + HDR + bsize n) true :: l2' else k :: l2
  | [] => [k]
  end.

Definition join_prev (l1 : list blk) (k : blk) : list blk :=
  match last l1 with
  | Some p => if bfree p then removelast l1 ++ [mk_blk (bsize p + HDR + bsize k) true]
              else l1 ++ [k]
  | None => [k]
  end.

(** Freeing the block [k] between [l1] and [l2]. *)
Definition free_in (l1 : list blk) (k : blk) (l2 : list blk) : list blk :=
  match join_next (mk_blk (bsize k) true) l2 with
  | k' :: l2' => join_prev l1 k' ++ l2'
  | [] => []
  end.

(** ** Representation *)

Definition hdr_at (m : Z -> Z) (b : Z) (k : blk) (nx pv : Z) : Prop :=
  m (magic_ b) = HEAP_MAGIC /\ m (size_ b) = bsize k /\ m (free_ b) = of_bool (bfree k) /\
  m (next_ b) = nx /\ m (prev_ b) = pv.

(** The address after [l], or [e] when [l] is empty. *)
Definition here (b e : Z) (l : list blk) : Z := match l with [] => e | _ :: _ => b end.

(** The blocks [l] tile memory from [b]; [pv] is the predecessor of the first
    and [e] the successor of the last. *)
Fixpoint seg (m : Z -> Z) (pv b : Z) (l : list blk) (e : Z) : Prop :=
  match l with
  | [] => True
  | k :: l' =>
      hdr_at m b k (here (b + HDR + bsize k) e l') pv /\
      seg m b (b + HDR + bsize k) l' e
  end.

(** Address of the last block. *)
Fixpoint last_addr (pv b : Z) (l : list blk) : Z :=
  match l with
  | [] => pv
  | k :: l' => last_addr b (b + HDR + bsize k) l'
  end.

Definition blk_ok (k : blk) : Prop := MIN_BLOCK_SIZE <= bsize k /\ bsize k mod ALIGNMENT = 0.

(** No two neighbours are both free. *)
Fixpoint coalesced (l : list blk) : Prop :=
  match l with
  | k :: l' => match l' with
               | n :: _ => (bfree k && bfree n = false) /\ coalesced l'
               | [] => True
               end
  | [] => True
  end.

Record heap_inv (h : heap_state) (l : list blk) : Prop := {
  hi_first : 0 < heap_first h;
  hi_align : heap_first h mod ALIGNMENT = 0;
  hi_end : heap_first h + span l < 2 ^ 63;
  hi_blocks : Forall blk_ok l;
  hi_nonempty : l <> [];
  hi_coalesced : coalesced l;
  hi_seg : seg (hmem h) 0 (heap_first h) l 0;
}.

(** Cell [x] is in the payload of an allocated block. *)
Fixpoint live (b : Z) (l : list blk) (x : Z) : Prop :=
  match l with
  | [] => False
  | k :: l' =>
      (bfree k = false /\ b + HDR <= x < b + HDR + bsize k) \/ live (b + HDR + bsize k) l' x
  end.

(** ** Lemmas *)

Ltac heap_unfold :=
  unfold magic_, size_, free_, next_, prev_, HDR, MIN_BLOCK_SIZE, ALIGNMENT in *.
Ltac heap_lia := heap_unfold; lia.

(** Resolve the cell comparisons of memory updates by arithmetic. *)
Ltac cells :=
  unfold mem_write;
  repeat match goal with
  | |- context [?x =? ?y] =>
      first [ replace (x =? y) with true by (symmetry; apply Z.eqb_eq; heap_lia)
            | replace (x =? y) with false by (symmetry; apply Z.eqb_neq; heap_lia) ]
  end.

Lemma align_down w : Z.land w (Z.lnot (ALIGNMENT - 1)) = w / 8 * 8.
Proof.
  rewrite <-Z.ldiff_land. change (ALIGNMENT - 1) with (Z.ones 3).
  rewrite Z.ldiff_ones_r, Z.shiftl_mul_pow2, Z.shiftr_div_pow2 by lia. done.
Qed.

Lemma round_size_spec size :
  0 < size -> size + ALIGNMENT <= 2 ^ 64 ->
  size <= round_size size /\ MIN_BLOCK_SIZE <= round_size size /\
  round_size size mod ALIGNMENT = 0 /\ round_size size < size + 40.
Proof.
  intros H0 H1. unfold round_size. rewrite align_down, wrap_small by heap_lia. heap_unfold.
  destruct (Z.ltb_spec ((size + 8 - 1) / 8 * 8) 32); lia.
Qed.

Lemma round_size_bounds size :
  MIN_BLOCK_SIZE <= round_size size < 2 ^ 64 /\ round_size size mod ALIGNMENT = 0.
Proof.
  unfold round_size. pose proof (wrap_range 64 (size + ALIGNMENT - 1) ltac:(lia)) as Hw.
  rewrite align_down. set (w := u64 _) in *. clearbody w. heap_unfold.
  destruct (Z.ltb_spec (w / 8 * 8) 32); lia.
Qed.

Lemma span_nonneg l : Forall blk_ok l -> 0 <= span l.
Proof. induction 1 as [|k l [Hk _] _ IH]; simpl; heap_lia. Qed.

Lemma span_mod l : Forall blk_ok l -> span l mod ALIGNMENT = 0.
Proof. induction 1 as [|k l [_ Hk] _ IH]; simpl; [done|heap_lia]. Qed.

Lemma span_app l1 l2 : span (l1 ++ l2) = span l1 + span l2.
Proof. induction l1 as [|k l1 IH]; simpl; lia. Qed.

Lemma here_app b e l1 l2 : here b e (l1 ++ l2) = here b (here b e l2) l1.
Proof. by destruct l1, l2. Qed.

Lemma last_addr_app pv b l1 l2 :
  last_addr pv b (l1 ++ l2) = last_addr (last_addr pv b l1) (b + span l1) l2.
Proof.
  revert pv b. induction l1 as [|k l1 IH]; intros pv b; simpl.
  - by rewrite Z.add_0_r.
  - rewrite IH. f_equal. lia.
Qed.

Lemma seg_app m pv b l1 l2 e :
  seg m pv b (l1 ++ l2) e <->
  seg m pv b l1 (here (b + span l1) e l2) /\ seg m (last_addr pv b l1) (b + span l1) l2 e.
Proof.
  revert pv b. induction l1 as [|k l1 IH]; intros pv b; simpl.
  - rewrite Z.add_0_r. tauto.
  - rewrite IH. rewrite !Z.add_assoc.
    replace (here (b + HDR + bsize k) e (l1 ++ l2))
      with (here (b + HDR + bsize k) (here (b + HDR + bsize k + span l1) e l2) l1); [tauto|].
    destruct l1, l2; simpl; by rewrite ?Z.add_0_r.
Qed.

(** A segment only depends on the cells it spans. *)
Lemma seg_frame m m' pv b l e :
  Forall blk_ok l -> (forall x, b <= x < b + span l -> m' x = m x) ->
  seg m pv b l e -> seg m' pv b l e.
Proof.
  intros Hok. revert pv b. induction Hok as [|k l [Hk _] Hok IH]; intros pv b Hm; simpl; [done|].
  pose proof (span_nonneg l Hok) as Hs. simpl in Hm. intros [Hh Hseg]. split.
  - destruct Hh as (? & ? & ? & ? & ?). repeat split; rewrite Hm; heap_lia || done.
  - apply IH; [|done]. intros x Hx. apply Hm. heap_lia.
Qed.

(** Changing the successor of the last block. *)
Lemma seg_last_next m m' pv b l e e' :
  Forall blk_ok l -> seg m pv b l e -> l <> [] ->
  (forall x, b <= x < b + span l -> x <> next_ (last_addr pv b l) -> m' x = m x) ->
  m' (next_ (last_addr pv b l)) = e' -> seg m' pv b l e'.
Proof.
  intros Hok. revert pv b. induction Hok as [|k l [Hk _] Hok IH]; intros pv b; [done|].
  pose proof (span_nonneg l Hok) as Hs. intros [Hh Hseg] _ Hm He. simpl in *.
  destruct Hh as (H1 & H2 & H3 & H4 & H5). destruct l as [|n l].
  - simpl in *. split; [|done]. repeat split; try done; rewrite Hm; heap_lia || done.
  - split; [|by apply IH; [| |intros x Hx Hn; apply Hm; [heap_lia|]|]].
    assert (forall x, b <= x < b + HDR -> m' x = m x) as Hb.
    { intros x Hx. apply Hm; [heap_lia|].
      assert (forall pv b l, Forall blk_ok l -> l <> [] -> b <= last_addr pv b l) as Hge.
      { clear. intros pv b l Hok. revert pv b.
        induction Hok as [|k l [Hk _] Hok IH]; intros pv b Hne; [done|]. simpl.
        destruct l as [|n l]; [simpl; lia|].
        specialize (IH b (b + HDR + bsize k) ltac:(done)). heap_lia. }
      specialize (Hge b (b + HDR + bsize k) (n :: l) Hok ltac:(done)). heap_lia. }
    repeat split; rewrite Hb; heap_lia || done.
Qed.

(** Changing the predecessor of the first block. *)
Lemma seg_first_prev m m' pv pv' b l e :
  Forall blk_ok l -> seg m pv b l e ->
  (forall x, b <= x < b + span l -> x <> prev_ b -> m' x = m x) ->
  (l <> [] -> m' (prev_ b) = pv') -> seg m' pv' b l e.
Proof.
  intros Hok Hseg Hm Hp. destruct Hok as [|k l [Hk _] Hok]; [done|].
  pose proof (span_nonneg l Hok) as Hs. simpl in *. destruct Hseg as [(H1 & H2 & H3 & H4 & H5) Hseg].
  split.
  - repeat split; try (by apply Hp); rewrite Hm; heap_lia || done.
  - apply seg_frame with m; [done| |done]. intros x Hx. apply Hm; heap_lia.
Qed.

(** *** First fit *)

Lemma find_block_first_fit fuel size m pv b l :
  Forall blk_ok l -> 0 < b -> seg m pv b l 0 -> (length l < fuel)%nat ->
  find_block fuel size (here b 0 l) m =
    Some ((fun '(l1, _, _) => b + span l1) <$> first_fit size l).
Proof.
  intros Hok. revert pv b fuel.
  induction Hok as [|k l [Hk _] Hok IH]; intros pv b fuel Hb Hseg Hf;
    (destruct fuel as [|fuel]; [simpl in Hf; lia|]); simpl; [done|].
  destruct Hseg as [(_ & Hs & Hfr & Hn & _) Hseg].
  rewrite (proj2 (Z.eqb_neq b 0)), Hs, Hfr, Hn by lia.
  replace (truthy (of_bool (bfree k))) with (bfree k) by (by destruct (bfree k)).
  destruct (bfree k && (size <=? bsize k)); simpl; [by rewrite Z.add_0_r|].
  simpl in Hf. rewrite (IH b) by (done || heap_lia).
  destruct (first_fit size l) as [[[l1 k'] l2]|]; simpl; [|done].
  do 2 f_equal. lia.
Qed.

Lemma first_fit_Some size l l1 k l2 :
  first_fit size l = Some (l1, k, l2) ->
  l = l1 ++ k :: l2 /\ bfree k = true /\ size <= bsize k /\
  Forall (fun k' => bfree k' = true -> bsize k' < size) l1.
Proof.
  revert l1. induction l as [|k' l IH]; intros l1; simpl; [done|].
  destruct (bfree k' && (size <=? bsize k')) eqn:E.
  - intros [= <- <- <-]. apply andb_prop in E as [? ?]. split_and!; [done..|lia|constructor].
  - destruct (first_fit size l) as [[[l1' k''] l2']|]; simpl; [|done].
    intros [= <- <- <-]. destruct (IH l1' eq_refl) as (-> & ? & ? & ?).
    split_and!; [done..|]. constructor; [|done]. intros Hk. rewrite Hk in E. simpl in E. lia.
Qed.

Lemma first_fit_None size l :
  first_fit size l = None -> Forall (fun k => bfree k = true -> bsize k < size) l.
Proof.
  induction l as [|k l IH]; simpl; [constructor|].
  destruct (bfree k && (size <=? bsize k)) eqn:E; [done|].
  destruct (first_fit size l) as [[[? ?] ?]|]; simpl; [done|]. intros _.
  constructor; [|by apply IH]. intros Hk. rewrite Hk in E. simpl in E. lia.
Qed.

(** *** Taking a block *)

Lemma split_block_cells m a size k nx pv :
  hdr_at m a k nx pv -> 0 <= size -> size + HDR <= bsize k < 2 ^ 63 ->
  nx = 0 \/ a + HDR + bsize k <= nx ->
  let nb := a + HDR + size in
  hdr_at (split_block a size m) a (mk_blk size (bfree k)) nb pv /\
  hdr_at (split_block a size m) nb (mk_blk (bsize k - size - HDR) true) nx a /\
  (nx <> 0 -> split_block a size m (prev_ nx) = nb) /\
  (forall x, x < a \/ a + HDR + bsize k <= x -> (nx <> 0 -> x <> prev_ nx) ->
    split_block a size m x = m x).
Proof.
  intros (H1 & H2 & H3 & H4 & H5) H0 Hs Hnx nb. unfold split_block. fold nb.
  assert (nb = a + HDR + size) as Hnb by done. clearbody nb.
  replace (mem_write m (magic_ nb) HEAP_MAGIC (size_ a)) with (bsize k) by (cells; done).
  rewrite (wrap_small 64) by heap_lia.
  set (m1 := mem_write (mem_write (mem_write m (magic_ nb) HEAP_MAGIC) (size_ nb) _) (free_ nb) 1).
  assert (m1 (next_ a) = nx) as -> by (unfold m1; cells; done).
  set (m2 := mem_write (mem_write m1 (next_ nb) nx) (prev_ nb) a).
  assert (m2 (next_ a) = nx) as -> by (unfold m2, m1; cells; done).
  unfold truthy. destruct (Z.eqb_spec nx 0) as [->|Hne]; simpl; unfold m2, m1;
    (split; [|split; [|split]]); try (repeat split; simpl; cells; done).
  - intros x Hx _. cells. done.
  - intros x Hx Hp. specialize (Hp Hne). cells. done.
Qed.

Lemma take_block_cells m a size k nx pv :
  hdr_at m a k nx pv -> 0 <= size <= bsize k -> bsize k < 2 ^ 63 ->
  nx = 0 \/ a + HDR + bsize k <= nx ->
  seg (take_block a size m) pv a (alloc_in size k) nx /\
  (nx <> 0 -> m (prev_ nx) = a ->
    take_block a size m (prev_ nx) = last_addr pv a (alloc_in size k)) /\
  (forall x, x < a \/ a + HDR + bsize k <= x -> (nx <> 0 -> x <> prev_ nx) ->
    take_block a size m x = m x).
Proof.
  intros Hh Hs Hb Hnx. pose proof Hh as (H1 & H2 & H3 & H4 & H5).
  unfold take_block, alloc_in. rewrite H2, wrap_small by heap_lia.
  destruct (Z.ltb_spec (size + HDR + MIN_BLOCK_SIZE) (bsize k)).
  - destruct (split_block_cells m a size k nx pv Hh) as (Ha & Hn & Hp & Hf); [heap_lia..|].
    destruct Ha as (A1 & A2 & A3 & A4 & A5), Hn as (N1 & N2 & N3 & N4 & N5).
    set (m' := split_block a size m) in *. clearbody m'. split; [|split].
    + repeat split; simpl in *; cells; done.
    + intros Hne _. simpl. transitivity (m' (prev_ nx)); [cells; done|by apply Hp].
    + intros x Hx Hx'. rewrite <-Hf by done. cells. done.
  - split; [|split].
    + repeat split; simpl; cells; done.
    + intros Hne Hpv. simpl. cells. done.
    + intros x Hx _. cells. done.
Qed.

Lemma hdr_here m pv b k l1 l2 e :
  seg m pv b (l1 ++ k :: l2) e ->
  seg m pv b l1 (b + span l1) /\
  hdr_at m (b + span l1) k (here (b + span l1 + HDR + bsize k) e l2) (last_addr pv b l1) /\
  seg m (b + span l1) (b + span l1 + HDR + bsize k) l2 e.
Proof. rewrite seg_app. simpl. tauto. Qed.

Lemma seg_first_prev_val m pv b l e : seg m pv b l e -> l <> [] -> m (prev_ b) = pv.
Proof. destruct l as [|k l]; [done|]. intros [(_ & _ & _ & _ & ?) _]. done. Qed.

Lemma span_alloc_in size k : span (alloc_in size k) = HDR + bsize k.
Proof. unfold alloc_in. destruct (_ <? _); simpl; lia. Qed.

Lemma alloc_in_ok size k :
  blk_ok k -> MIN_BLOCK_SIZE <= size -> size mod ALIGNMENT = 0 -> Forall blk_ok (alloc_in size k).
Proof.
  intros [Hk1 Hk2] H1 H2. unfold alloc_in. destruct (Z.ltb_spec (size + HDR + MIN_BLOCK_SIZE) (bsize k)).
  - repeat constructor; simpl; heap_lia.
  - by repeat constructor.
Qed.

Lemma take_block_seg m b l1 k l2 size :
  Forall blk_ok (l1 ++ k :: l2) -> 0 < b -> b + span (l1 ++ k :: l2) < 2 ^ 63 ->
  seg m 0 b (l1 ++ k :: l2) 0 -> 0 <= size <= bsize k ->
  let m' := take_block (b + span l1) size m in
  seg m' 0 b (l1 ++ alloc_in size k ++ l2) 0 /\
  (forall x, x < b + span l1 \/ b + span l1 + HDR + bsize k <= x ->
    x <> prev_ (b + span l1 + HDR + bsize k) -> m' x = m x).
Proof.
  intros Hok Hb Hend Hseg Hs m'. apply Forall_app in Hok as [Hok1 Hok2].
  apply Forall_cons in Hok2 as [Hk Hok2].
  rewrite span_app in Hend. simpl in Hend.
  pose proof (span_nonneg l1 Hok1). pose proof (span_nonneg l2 Hok2). destruct Hk as [Hk _].
  apply hdr_here in Hseg as (Hl1 & Hh & Hl2). set (a := b + span l1) in *.
  set (nx := here (a + HDR + bsize k) 0 l2) in *.
  assert (nx = 0 \/ a + HDR + bsize k <= nx) as Hnx by (unfold nx; destruct l2; simpl; heap_lia).
  destruct (take_block_cells m a size k nx _ Hh Hs) as (Hmid & Hpv & Hfr); [heap_lia|done|].
  fold m' in Hmid, Hpv, Hfr. split.
  - apply seg_app. split; [|apply seg_app; split].
    + apply seg_frame with m; [done| |].
      * intros x Hx. apply Hfr; [lia|]. heap_lia.
      * unfold alloc_in. by destruct (_ <? _).
    + fold a. by rewrite span_alloc_in, Z.add_assoc.
    + fold a. rewrite span_alloc_in, Z.add_assoc. apply seg_first_prev with m a; [done..| |].
      * intros x Hx Hne. apply Hfr; [lia|]. intros Hn0. unfold nx in *. destruct l2; simpl in *; [lia|done].
      * intros Hl. rewrite <-Hpv.
        -- unfold nx. by destruct l2.
        -- unfold nx. destruct l2; simpl; [done|heap_lia].
        -- apply (seg_first_prev_val m a _ l2 0) in Hl2; [|done].
           unfold nx. by destruct l2.
  - intros x Hx Hne. apply Hfr; [lia|]. intros Hn0. unfold nx in *. by destruct l2.
Qed.

(** *** Payload cells of allocated blocks *)

Lemma live_app b l1 l2 x : live b (l1 ++ l2) x <-> live b l1 x \/ live (b + span l1) l2 x.
Proof.
  revert b. induction l1 as [|k l1 IH]; intros b; simpl.
  - rewrite Z.add_0_r. tauto.
  - rewrite IH, !Z.add_assoc. tauto.
Qed.

Lemma live_bounds b l x :
  Forall blk_ok l -> live b l x -> b + HDR <= x < b + span l.
Proof.
  intros Hok. revert b. induction Hok as [|k l [Hk _] Hok IH]; intros b; simpl; [done|].
  pose proof (span_nonneg l Hok). intros [[_ Hx]|Hx]; [heap_lia|]. apply IH in Hx. heap_lia.
Qed.

Lemma live_position b l l1 k l2 x :
  Forall blk_ok l -> l = l1 ++ k :: l2 -> live b l x ->
  (bfree k = false /\ b + span l1 + HDR <= x < b + span l1 + HDR + bsize k) \/
  x < b + span l1 \/
  (b + span l1 + HDR + bsize k + HDR <= x /\ l2 <> []).
Proof.
  intros Hok -> Hx. apply Forall_app in Hok as [Hok1 [Hk Hok2]%Forall_cons].
  apply live_app in Hx as [Hx|[Hx|Hx]].
  - apply live_bounds in Hx; [|done]. lia.
  - auto.
  - right. right. pose proof (live_bounds _ _ _ Hok2 Hx). split; [lia|]. by destruct l2.
Qed.

Lemma live_merge b l1 k n l2 x :
  bfree k = true -> bfree n = true ->
  live b (l1 ++ k :: n :: l2) x ->
  live b (l1 ++ mk_blk (bsize k + HDR + bsize n) true :: l2) x.
Proof.
  intros Hk Hn. rewrite !live_app. simpl. rewrite Hk, Hn, !Z.add_assoc.
  intros [?|[[? _]|[[? _]|?]]]; [by left|done|done|by right; right].
Qed.

(** *** Coalescing *)

Lemma coalesced_cons k l :
  coalesced (k :: l) <->
  coalesced l /\ (forall n, head l = Some n -> bfree k && bfree n = false).
Proof.
  destruct l as [|n l]; simpl.
  - split; [|done]. split; done.
  - split; [intros [H1 H2]; split; [done|]; by intros ? [= <-]|].
    intros [H1 H2]. split; [by apply H2|done].
Qed.

Lemma coalesced_app l1 l2 :
  coalesced (l1 ++ l2) <->
  coalesced l1 /\ coalesced l2 /\
  (forall p n, last l1 = Some p -> head l2 = Some n -> bfree p && bfree n = false).
Proof.
  induction l1 as [|k l1 IH].
  - simpl. split; [intros ?; split_and!; done|tauto].
  - change ((k :: l1) ++ l2) with (k :: (l1 ++ l2)). rewrite !coalesced_cons, IH.
    destruct l1 as [|k' l1]; simpl.
    + split.
      * intros [(_ & H2 & H3) H4]. split_and!; [done..|]. intros p n [= <-]. apply H4.
      * intros ([_ H1] & H2 & H3). split_and!; [done..|]. intros n Hn. by apply H3.
    + split.
      * intros [(H1 & H2 & H3) H4]. split_and!; done.
      * intros ([H1 H2] & H3 & H4). split_and!; done.
Qed.

Lemma coalesced_alloc l1 k l2 size :
  bfree k = true -> coalesced (l1 ++ k :: l2) -> coalesced (l1 ++ alloc_in size k ++ l2).
Proof.
  intros Hk. rewrite !coalesced_app. intros (H1 & H2 & H3).
  apply coalesced_cons in H2 as [H2 H4]. rewrite Hk in H4.
  assert (coalesced (alloc_in size k)) as Ha by (unfold alloc_in; by destruct (_ <? _)).
  split_and!; [done..| |].
  - intros p n Hp Hn. destruct (bfree n) eqn:En; [exfalso|by rewrite andb_false_r].
    specialize (H4 n Hn). by rewrite En in H4.
  - intros p n _ Hn. unfold alloc_in in Hn. destruct (_ <? _); injection Hn as <-;
      by rewrite andb_false_r.
Qed.

(** *** kmalloc *)

Lemma first_nonempty h l : heap_inv h l -> here (heap_first h) 0 l = heap_first h.
Proof. intros [_ _ _ _ Hne _ _]. by destruct l. Qed.

(** What [kmalloc] does on the blocks. *)
Definition kmalloc_post (h : heap_state) (l : list blk) (size : Z) (r : Z * heap_state) : Prop :=
  let '(p, h') := r in
  match first_fit size l with
  | None => p = 0 /\ h' = h
  | Some (l1, k, l2) =>
      p = heap_first h + span l1 + HDR /\ heap_first h' = heap_first h /\
      heap_inv h' (l1 ++ alloc_in size k ++ l2) /\
      (forall x, live (heap_first h) l x -> hmem h' x = hmem h x)
  end.

Lemma kmalloc_refines_list fuel size h l :
  heap_inv h l -> 0 < size -> (length l < fuel)%nat ->
  exists r, kmalloc fuel size h = Some r /\ kmalloc_post h l (round_size size) r.
Proof.
  intros Hinv H0 Hf. pose proof (round_size_bounds size) as [[Hs1 Hs2] Hs3].
  pose proof Hinv as [Hfi Hal Hend Hok Hne Hco Hseg].
  unfold kmalloc. rewrite !(proj2 (Z.eqb_neq _ _)) by lia.
  pose proof (find_block_first_fit fuel (round_size size) _ 0 _ l Hok Hfi Hseg Hf) as Hfind.
  rewrite (first_nonempty h l Hinv) in Hfind. rewrite Hfind.
  destruct (first_fit (round_size size) l) as [[[l1 k] l2]|] eqn:E; simpl; last first.
  { eexists. split; [done|]. simpl. by rewrite E. }
  eexists. split; [done|]. simpl. rewrite E.
  destruct (first_fit_Some _ _ _ _ _ E) as (El & Hk & Hle & _).
  destruct (take_block_seg (hmem h) (heap_first h) l1 k l2 (round_size size)) as [Hseg' Hfr];
    rewrite <-?El; [done..|heap_lia|].
  split_and!; [done..| |].
  - split; simpl; [done..| | | | |done].
    + rewrite El in Hend. rewrite !span_app in *. rewrite span_alloc_in. simpl in Hend. lia.
    + rewrite El in Hok. apply Forall_app in Hok as [? [? ?]%Forall_cons].
      rewrite !Forall_app. split_and!; [done| |done]. by apply alloc_in_ok.
    + unfold alloc_in. by destruct l1, (_ <? _).
    + apply coalesced_alloc; [done|]. by rewrite <-El.
  - intros x Hx.
    destruct (live_position _ _ _ _ _ _ Hok El Hx) as [[? _]|[?|[? ?]]]; [congruence|..];
      apply Hfr; heap_lia.
Qed.

(** *** kfree *)

(** A header is rewritten in place. *)
Lemma seg_set_header m m' b l1 k k' l2 :
  Forall blk_ok (l1 ++ k :: l2) -> bsize k' = bsize k ->
  seg m 0 b (l1 ++ k :: l2) 0 ->
  m' (free_ (b + span l1)) = of_bool (bfree k') ->
  (forall x, x <> free_ (b + span l1) -> m' x = m x) ->
  seg m' 0 b (l1 ++ k' :: l2) 0.
Proof.
  intros [Hok1 [[Hk _] Hok2]%Forall_cons]%Forall_app Es (Hl1 & (H1 & H2 & H3 & H4 & H5) & Hl2)%hdr_here
    Hf Hm.
  apply seg_app. split.
  - apply seg_frame with m; [done| |done]. intros x Hx. apply Hm. heap_lia.
  - simpl. rewrite Es. split.
    + repeat split; try done; rewrite Hm; heap_lia || congruence.
    + apply seg_frame with m; [done| |done]. intros x Hx. apply Hm. heap_lia.
Qed.

Lemma absorb_cells m a k n nx pv :
  let b := a + HDR + bsize k in
  hdr_at m a k b pv -> hdr_at m b n nx a ->
  0 <= bsize k -> 0 <= bsize n -> bsize k + HDR + bsize n < 2 ^ 63 ->
  nx = 0 \/ b + HDR + bsize n <= nx ->
  hdr_at (absorb a b m) a (mk_blk (bsize k + HDR + bsize n) (bfree k)) nx pv /\
  (nx <> 0 -> absorb a b m (prev_ nx) = a) /\
  (forall x, x <> size_ a -> x <> next_ a -> (nx <> 0 -> x <> prev_ nx) -> absorb a b m x = m x).
Proof.
  intros b (H1 & H2 & H3 & H4 & H5) (N1 & N2 & N3 & N4 & N5) Hk Hn Hs Hnx.
  assert (b = a + HDR + bsize k) as Hb by done. clearbody b.
  unfold absorb. rewrite H2, N2, wrap_small by heap_lia.
  set (m1 := mem_write m (size_ a) (bsize k + HDR + bsize n)).
  assert (m1 (next_ b) = nx) as -> by (unfold m1; cells; done).
  assert (mem_write m1 (next_ a) nx (next_ a) = nx) as -> by (cells; done).
  unfold truthy. destruct (Z.eqb_spec nx 0) as [->|Hne]; simpl; unfold m1;
    (split; [|split]); try (repeat split; simpl; cells; done).
  - intros x Hx1 Hx2 _. cells. done.
  - intros x Hx1 Hx2 Hx3. specialize (Hx3 Hne). cells. done.
Qed.

Lemma absorb_seg m b l1 k n l2 :
  Forall blk_ok (l1 ++ k :: n :: l2) -> 0 < b -> b + span (l1 ++ k :: n :: l2) < 2 ^ 63 ->
  seg m 0 b (l1 ++ k :: n :: l2) 0 ->
  let a := b + span l1 in
  let m' := absorb a (a + HDR + bsize k) m in
  seg m' 0 b (l1 ++ mk_blk (bsize k + HDR + bsize n) (bfree k) :: l2) 0 /\
  (forall x, x <> size_ a -> x <> next_ a ->
     x <> prev_ (a + HDR + bsize k + HDR + bsize n) -> m' x = m x).
Proof.
  intros [Hok1 [[Hk _] [[Hn _] Hok2]%Forall_cons]%Forall_cons]%Forall_app Hb Hend Hseg a m'.
  rewrite span_app in Hend. simpl in Hend.
  pose proof (span_nonneg l1 Hok1). pose proof (span_nonneg l2 Hok2).
  apply hdr_here in Hseg as (Hl1 & Hh & Hhn & Hl2). fold a in Hl1, Hh, Hhn, Hl2.
  set (nx := here (a + HDR + bsize k + HDR + bsize n) 0 l2) in *.
  assert (nx = 0 \/ a + HDR + bsize k + HDR + bsize n <= nx) as Hnx
    by (unfold nx; destruct l2; simpl; heap_lia).
  destruct (absorb_cells m a k n nx _ Hh Hhn) as (Ha & Hp & Hf); [heap_lia..|].
  fold m' in Ha, Hp, Hf.
  assert (nx <> 0 -> nx = a + HDR + bsize k + HDR + bsize n) as Hnx' by (unfold nx; by destruct l2).
  split.
  - apply seg_app. split; [|simpl; split].
    + apply seg_frame with m; [done| |done]. intros x Hx. apply Hf; heap_lia.
    + fold a. rewrite !Z.add_assoc. exact Ha.
    + fold a. rewrite !Z.add_assoc. apply seg_first_prev with m (a + HDR + bsize k); [done..| |].
      * intros x Hx Hne. apply Hf; heap_lia || (intros Hn0; rewrite (Hnx' Hn0); done).
      * intros Hne. assert (nx <> 0) as Hn0 by (unfold nx; destruct l2; [done|simpl; heap_lia]).
        rewrite <-(Hnx' Hn0). by apply Hp.
  - intros x Hx1 Hx2 Hx3. apply Hf; [done..|]. intros Hn0. by rewrite (Hnx' Hn0).
Qed.

Definition freed (k : blk) : blk := mk_blk (bsize k) true.

(** The state of the list after each half of [kfree]. *)
Definition merged (m m' : Z -> Z) (b : Z) (l l' : list blk) : Prop :=
  seg m' 0 b l' 0 /\ Forall blk_ok l' /\ span l' = span l /\
  (forall x, live b l x -> live b l' x) /\ (forall x, live b l x -> m' x = m x).

Lemma absorb_merged m b l1 k n l2 :
  Forall blk_ok (l1 ++ k :: n :: l2) -> 0 < b -> b + span (l1 ++ k :: n :: l2) < 2 ^ 63 ->
  seg m 0 b (l1 ++ k :: n :: l2) 0 -> bfree k = true -> bfree n = true ->
  merged m (absorb (b + span l1) (b + span l1 + HDR + bsize k) m) b
    (l1 ++ k :: n :: l2) (l1 ++ mk_blk (bsize k + HDR + bsize n) true :: l2).
Proof.
  intros Hok Hb Hend Hseg Hk Hn.
  destruct (absorb_seg m b l1 k n l2 Hok Hb Hend Hseg) as [Hs Hf]. rewrite Hk in Hs.
  split_and!; [done| | | |].
  - apply Forall_app in Hok as [? [[? ?] [[? ?] ?]%Forall_cons]%Forall_cons].
    apply Forall_app. split; [done|]. constructor; [|done]. split; simpl; heap_lia.
  - rewrite !span_app. simpl. lia.
  - intros x. by apply live_merge.
  - intros x Hx. rewrite cons_middle, app_assoc in Hok, Hx.
    destruct (live_position b _ (l1 ++ [k]) n l2 x Hok eq_refl Hx) as [[? _]|Hx1]; [congruence|].
    rewrite <-app_assoc in Hok, Hx. simpl in Hok, Hx.
    destruct (live_position b _ l1 k (n :: l2) x Hok eq_refl Hx) as [[? _]|Hx2]; [congruence|].
    apply Forall_app in Hok as [? [[? _] [[? _] ?]%Forall_cons]%Forall_cons].
    rewrite span_app in Hx1. simpl in Hx1. apply Hf; heap_lia.
Qed.

Lemma merge_next_merged m b l1 k l2 :
  Forall blk_ok (l1 ++ k :: l2) -> 0 < b -> b + span (l1 ++ k :: l2) < 2 ^ 63 ->
  seg m 0 b (l1 ++ k :: l2) 0 -> bfree k = true ->
  merged m (merge_next (b + span l1) m) b (l1 ++ k :: l2) (l1 ++ join_next k l2).
Proof.
  intros Hok Hb Hend Hseg Hk. pose proof (hdr_here _ _ _ _ _ _ _ Hseg) as (_ & Hh & Hl2).
  assert (merged m m b (l1 ++ k :: l2) (l1 ++ k :: l2)) as Hid by (split_and!; auto).
  destruct Hh as (_ & _ & _ & Hn & _). unfold merge_next, join_next. rewrite Hn.
  destruct l2 as [|n l2]; simpl; [done|]. destruct Hl2 as [(_ & _ & Hf & _) _].
  apply Forall_app in Hok as Hok'. destruct Hok' as [Hok1 [[Hk0 _] _]%Forall_cons].
  pose proof (span_nonneg l1 Hok1). unfold truthy.
  rewrite (proj2 (Z.eqb_neq _ 0)), Hf by heap_lia.
  destruct (bfree n) eqn:En; simpl; [|done]. by apply absorb_merged.
Qed.

Lemma merge_prev_merged m b l1 k l2 :
  Forall blk_ok (l1 ++ k :: l2) -> 0 < b -> b + span (l1 ++ k :: l2) < 2 ^ 63 ->
  seg m 0 b (l1 ++ k :: l2) 0 -> bfree k = true ->
  merged m (merge_prev (b + span l1) m) b (l1 ++ k :: l2) (join_prev l1 k ++ l2).
Proof.
  intros Hok Hb Hend Hseg Hk. pose proof (hdr_here _ _ _ _ _ _ _ Hseg) as (Hl1 & Hh & _).
  assert (merged m m b (l1 ++ k :: l2) (l1 ++ k :: l2)) as Hid by (split_and!; auto).
  destruct Hh as (_ & _ & _ & _ & Hp). unfold merge_prev, join_prev. rewrite Hp.
  destruct l1 as [|p l1' _] using rev_ind; [done|].
  rewrite last_snoc, last_addr_app, removelast_last. simpl.
  rewrite <-app_assoc in *. simpl in *.
  pose proof Hok as [Hok1 [[Hp0 _] _]%Forall_cons]%Forall_app.
  pose proof (span_nonneg l1' Hok1).
  pose proof (hdr_here _ _ _ _ _ _ _ Hseg) as (_ & (_ & _ & Hf & _) & _).
  unfold truthy. rewrite (proj2 (Z.eqb_neq _ 0)), Hf by heap_lia.
  destruct (bfree p) eqn:Ep; simpl.
  - rewrite <-app_assoc. simpl. rewrite span_app. simpl.
    replace (b + (span l1' + (HDR + bsize p + 0))) with (b + span l1' + HDR + bsize p) by lia.
    by apply absorb_merged.
  - by rewrite <-!app_assoc.
Qed.

Lemma coalesced_free_in l1 k l2 :
  coalesced (l1 ++ k :: l2) -> coalesced (free_in l1 k l2).
Proof.
  rewrite coalesced_app, coalesced_cons. intros (H1 & [H2 _] & _).
  unfold free_in.
  assert (exists k' l2', join_next (mk_blk (bsize k) true) l2 = k' :: l2' /\
    coalesced l2' /\ (forall n, head l2' = Some n -> bfree n = false)) as (k' & l2' & -> & Hc & Hn).
  { unfold join_next. destruct l2 as [|n l2]; [by eexists _, _|].
    destruct (bfree n) eqn:En; eexists _, _; (split; [done|]).
    - apply coalesced_cons in H2 as [H2 H3]. split; [done|]. intros n' Hn'.
      specialize (H3 _ Hn'). by rewrite En in H3.
    - split; [done|]. by intros n' [= <-]. }
  assert (forall p, coalesced (p :: l2')) as Hp.
  { intros p. apply coalesced_cons. split; [done|]. intros n E. rewrite (Hn n E). apply andb_false_r. }
  unfold join_prev. destruct l1 as [|p l1 _] using rev_ind; [apply Hp|].
  rewrite last_snoc, removelast_last. apply coalesced_app in H1 as (H1 & _ & H3).
  destruct (bfree p) eqn:Ep; rewrite <-!app_assoc; simpl.
  - apply coalesced_app. split_and!; [done|apply Hp|]. intros q n Hq [= <-].
    specialize (H3 q p Hq eq_refl). simpl. by rewrite Ep, andb_true_r in *.
  - apply coalesced_app. split_and!; [done| |].
    + apply coalesced_cons. split; [apply Hp|]. intros n [= <-]. by rewrite Ep.
    + intros q n Hq [= <-]. by apply (H3 q p).
Qed.

Lemma kfree_list h l1 k l2 :
  heap_inv h (l1 ++ k :: l2) ->
  let h' := kfree (heap_first h + span l1 + HDR) h in
  heap_first h' = heap_first h /\ heap_inv h' (free_in l1 k l2) /\
  (forall x, live (heap_first h) (l1 ++ freed k :: l2) x ->
     live (heap_first h) (free_in l1 k l2) x /\ hmem h' x = hmem h x).
Proof.
  intros [Hfi Hal Hend Hok Hne Hco Hseg].
  pose proof Hok as [Hok1 [Hk Hok2]%Forall_cons]%Forall_app.
  pose proof (span_nonneg l1 Hok1) as Hs1.
  assert (heap_first h + span l1 + HDR <= heap_first h + span (l1 ++ k :: l2)) as Hin.
  { rewrite span_app. simpl. pose proof (span_nonneg l2 Hok2). destruct Hk. heap_lia. }
  pose proof (hdr_here _ _ _ _ _ _ _ Hseg) as (_ & (Hm & _) & _).
  unfold kfree. rewrite (proj2 (Z.eqb_neq _ 0)) by heap_lia.
  rewrite Z.add_simpl_r, wrap_small by heap_lia. rewrite Hm, Z.eqb_refl. cbn [negb].
  set (a := heap_first h + span l1) in *. set (m1 := mem_write (hmem h) (free_ a) 1).
  assert (forall x, live (heap_first h) (l1 ++ freed k :: l2) x -> m1 x = hmem h x) as Hf1.
  { intros x Hx. unfold m1, mem_write. destruct (Z.eqb_spec x (free_ a)) as [->|]; [exfalso|done].
    apply (live_position _ _ l1 (freed k) l2) in Hx; [|apply Forall_app; by split; [|constructor]|done].
    destruct Hk. unfold freed in Hx; simpl in Hx. heap_lia. }
  assert (seg m1 0 (heap_first h) (l1 ++ freed k :: l2) 0) as Hseg1.
  { apply seg_set_header with (hmem h) k; [done..| |]; unfold m1, mem_write.
    - by rewrite Z.eqb_refl.
    - intros x Hx. fold a in Hx. by rewrite (proj2 (Z.eqb_neq _ _) Hx). }
  assert (Forall blk_ok (l1 ++ freed k :: l2)) as Hok'.
  { apply Forall_app. split; [done|]. by constructor. }
  assert (span (l1 ++ freed k :: l2) = span (l1 ++ k :: l2)) as Es by (rewrite !span_app; done).
  destruct (merge_next_merged m1 _ l1 (freed k) l2 Hok' Hfi ltac:(by rewrite Es) Hseg1 eq_refl)
    as (Hseg2 & Hok2' & Es2 & Hl2 & Hf2). fold a in Hseg2, Hf2.
  assert (exists k' l2', join_next (freed k) l2 = k' :: l2' /\ bfree k' = true) as (k' & l2' & Ej & Hk').
  { unfold join_next. destruct l2 as [|n l2]; [by eexists _, _|].
    destruct (bfree n); by eexists _, _. }
  rewrite Ej in *. rewrite Es in Es2.
  destruct (merge_prev_merged _ _ l1 k' l2' Hok2' Hfi ltac:(by rewrite Es2) Hseg2 Hk')
    as (Hseg3 & Hok3 & Es3 & Hl3 & Hf3). fold a in Hseg3, Hf3.
  assert (free_in l1 k l2 = join_prev l1 k' ++ l2') as Ef
    by (unfold free_in; fold (freed k); by rewrite Ej).
  split; [done|]. rewrite Ef. split.
  - split; simpl; [done..|by rewrite Es3, Es2|done| | |done].
    + unfold join_prev. destruct (last l1) as [p|]; [destruct (bfree p)|]; by destruct (removelast l1), l1.
    + rewrite <-Ef. by apply coalesced_free_in.
  - intros x Hx. split; [by apply Hl3, Hl2|]. simpl. by rewrite Hf3, Hf2, Hf1 by auto.
Qed.

(** *** Allocation seen from outside *)

Lemma live_alloc_in b l1 k l2 size x :
  bfree k = true ->
  live b (l1 ++ k :: l2) x -> live b (l1 ++ alloc_in size k ++ l2) x.
Proof.
  intros Hk. rewrite !live_app. simpl. rewrite Hk, span_alloc_in, !Z.add_assoc.
  intros [?|[[? _]|?]]; [by left|done|by right; right].
Qed.

Lemma alloc_in_live b l1 k l2 size x :
  size <= bsize k -> b + span l1 + HDR <= x < b + span l1 + HDR + size ->
  live b (l1 ++ alloc_in size k ++ l2) x.
Proof.
  intros Hs Hx. rewrite !live_app. right. left. unfold alloc_in.
  destruct (_ <? _); simpl; left; (split; [done|lia]).
Qed.

Lemma free_not_live b l1 k l2 x :
  Forall blk_ok (l1 ++ k :: l2) -> bfree k = true ->
  b + span l1 <= x < b + span l1 + HDR + bsize k -> ~ live b (l1 ++ k :: l2) x.
Proof.
  intros Hok Hk Hx Hl.
  destruct (live_position _ _ _ _ _ _ Hok eq_refl Hl) as [[? _]|[?|[? _]]]; [congruence|heap_lia..].
Qed.

(** Writing into the payload of a block leaves the list alone. *)
Lemma seg_payload m m' b l1 k l2 :
  Forall blk_ok (l1 ++ k :: l2) -> seg m 0 b (l1 ++ k :: l2) 0 ->
  (forall x, x < b + span l1 + HDR \/ b + span l1 + HDR + bsize k <= x -> m' x = m x) ->
  seg m' 0 b (l1 ++ k :: l2) 0.
Proof.
  intros [Hok1 [[Hk _] Hok2]%Forall_cons]%Forall_app (Hl1 & (H1 & H2 & H3 & H4 & H5) & Hl2)%hdr_here Hm.
  apply seg_app. split; [|split].
  - apply seg_frame with m; [done| |done]. intros x Hx. apply Hm. heap_lia.
  - repeat split; rewrite Hm; heap_lia || done.
  - apply seg_frame with m; [done| |done]. intros x Hx. apply Hm. heap_lia.
Qed.

Lemma alloc_in_cons size k :
  exists k' r, alloc_in size k = k' :: r /\ bfree k' = false /\ bsize k' <= bsize k + 0 /\
    (size <= bsize k -> size <= bsize k').
Proof.
  unfold alloc_in. destruct (Z.ltb_spec (size + HDR + MIN_BLOCK_SIZE) (bsize k)).
  - eexists _, _. split_and!; [done..|simpl; heap_lia|done].
  - eexists _, _. split_and!; [done..|simpl; lia|done].
Qed.

(** Freeing what was just allocated restores the list. *)
Lemma free_in_alloc l1 k l2 size :
  bfree k = true -> coalesced (l1 ++ k :: l2) ->
  exists k' r, alloc_in size k = k' :: r /\ free_in l1 k' (r ++ l2) = l1 ++ k :: l2.
Proof.
  intros Hk. rewrite coalesced_app, coalesced_cons. intros (_ & [_ H2] & H3).
  assert (forall l2', join_prev l1 k ++ l2' = l1 ++ k :: l2') as Hp.
  { intros l2'. unfold join_prev. destruct l1 as [|p l1 _] using rev_ind; [done|].
    rewrite last_snoc in *. specialize (H3 p k eq_refl eq_refl). rewrite Hk, andb_true_r in H3.
    rewrite H3. by rewrite <-app_assoc. }
  assert (mk_blk (bsize k) true = k) as Ek by (destruct k; simpl in *; congruence).
  unfold alloc_in. destruct (_ <? _); eexists _, _; (split; [done|]); unfold free_in, join_next; simpl.
  - replace (size + HDR + (bsize k - size - HDR)) with (bsize k) by lia. rewrite Ek. apply Hp.
  - rewrite Ek. destruct l2 as [|n l2]; [apply Hp|].
    specialize (H2 n eq_refl). rewrite Hk in H2. simpl in H2. rewrite H2. apply Hp.
Qed.

(** An allocated block is still there after another one is taken. *)
Lemma locate_after_alloc l1 k l2 a1 f a2 size :
  l1 ++ k :: l2 = a1 ++ f :: a2 -> bfree k = false -> bfree f = true ->
  exists l1' l2', a1 ++ alloc_in size f ++ a2 = l1' ++ k :: l2' /\ span l1' = span l1.
Proof.
  intros E Hk Hf. apply List.app_eq_app in E as (t & [[-> E]|[-> E]]); destruct t as [|c t];
    simpl in E; injection E as E1 E2; subst; try congruence.
  - exists (a1 ++ alloc_in size c ++ t), l2. rewrite <-!app_assoc. split; [done|].
    rewrite !span_app, span_alloc_in. simpl. lia.
  - exists l1, (t ++ alloc_in size f ++ a2). by rewrite <-app_assoc.
Qed.

Lemma live_freed b l1 k l2 x :
  live b (l1 ++ k :: l2) x ->
  ~ (b + span l1 + HDR <= x < b + span l1 + HDR + bsize k) -> live b (l1 ++ freed k :: l2) x.
Proof.
  rewrite !live_app. simpl. intros [?|[[_ ?]|?]] Hn; [by left|lia|by right; right].
Qed.

Lemma heap_inv_payload h m' l l1 k l2 :
  heap_inv h l -> l = l1 ++ k :: l2 ->
  (forall x, x < heap_first h + span l1 + HDR \/ heap_first h + span l1 + HDR + bsize k <= x ->
     m' x = hmem h x) ->
  heap_inv (mk_heap (heap_first h) (heap_allocs h) (heap_frees h) m') l.
Proof.
  intros [? ? ? Hok ? ? Hseg] -> Hm. split; simpl; [done..|]. by apply seg_payload with (hmem h).
Qed.

Lemma mem_copy_out m d p n x : x < d \/ d + n <= x -> mem_copy m d p n x = m x.
Proof.
  intros. unfold mem_copy. destruct (Z.leb_spec d x), (Z.ltb_spec x (d + n)); simpl; done || lia.
Qed.

Lemma mem_copy_in m d p n i : 0 <= i < n -> mem_copy m d p n (d + i) = m (p + i).
Proof.
  intros. unfold mem_copy. destruct (Z.leb_spec d (d + i)), (Z.ltb_spec (d + i) (d + n)); simpl; try lia.
  f_equal. lia.
Qed.

(** What a client that writes its allocation and frees it relies on. *)
Lemma kmalloc_client fuel size h l :
  heap_inv h l -> 0 < size <= 2 ^ 64 - 8 -> (length l < fuel)%nat ->
  exists p h1, kmalloc fuel size h = Some (p, h1) /\
    ((p = 0 /\ h1 = h) \/
     0 < p /\ exists l', forall m',
       (forall x, x < p \/ p + size <= x -> m' x = hmem h1 x) ->
       let h2 := mk_heap (heap_first h1) (heap_allocs h1) (heap_frees h1) m' in
       heap_inv h2 l' /\ heap_inv (kfree p h2) l).
Proof.
  intros Hinv Hs Hf. destruct (kmalloc_refines_list fuel size h l Hinv ltac:(lia) Hf) as ([p h1] & E & Hpost).
  exists p, h1. split; [done|]. unfold kmalloc_post in Hpost.
  destruct (first_fit _ l) as [[[l1 k] l2]|] eqn:Ef; [right|by left].
  destruct Hpost as (-> & Ef1 & Hinv1 & _). destruct (first_fit_Some _ _ _ _ _ Ef) as (-> & Hk & Hle & _).
  pose proof Hinv as [Hfi _ _ [Hok1 _]%Forall_app _ Hco _].
  pose proof (span_nonneg l1 Hok1) as Hs1. split; [heap_lia|].
  destruct (free_in_alloc l1 k l2 (round_size size) Hk Hco) as (k' & r & Ea & Er).
  destruct (alloc_in_cons (round_size size) k) as (k'' & r' & Ea' & _ & _ & Hk'').
  rewrite Ea in Ea'. injection Ea' as <- <-. specialize (Hk'' Hle).
  destruct (round_size_spec size) as (Hr & _); [heap_lia..|].
  rewrite Ea in Hinv1. simpl in Hinv1. exists (l1 ++ k' :: r ++ l2). intros m' Hm' h2.
  assert (heap_inv h2 (l1 ++ k' :: r ++ l2)) as Hinv2.
  { apply heap_inv_payload with l1 k' (r ++ l2); [done..|]. intros x Hx. apply Hm'.
    rewrite Ef1 in Hx. lia. }
  split; [done|]. destruct (kfree_list h2 l1 k' (r ++ l2) Hinv2) as (_ & Hi & _).
  simpl in Hi. by rewrite Ef1, Er in Hi.
Qed.

(** ** Properties *)

(** C2: on a well-formed heap [kmalloc] returns (the walk ends within one
    step per block) and implements first fit on the list of blocks: the first
    free block that is large enough is split when the rest can hold a header
    and more than 32 bytes, the heap stays well formed with no two free
    neighbours, and the contents of every allocated block are untouched. *)
Theorem kmalloc_refines fuel size h l
    (Hinv : heap_inv h l) (Hsize : 0 < size) (Hfuel : (length l < fuel)%nat) :
  exists p h', kmalloc fuel size h = Some (p, h') /\
    match first_fit (round_size size) l with
    | None => p = 0 /\ h' = h
    | Some (l1, k, l2) =>
        p = heap_first h + span l1 + HDR /\
        heap_inv h' (l1 ++ alloc_in (round_size size) k ++ l2) /\
        (forall x, live (heap_first h) l x -> hmem h' x = hmem h x)
    end.
Proof.
  destruct (kmalloc_refines_list fuel size h l Hinv Hsize Hfuel) as ([p h'] & E & Hpost).
  exists p, h'. split; [done|]. unfold kmalloc_post in Hpost.
  destruct (first_fit _ l) as [[[l1 k] l2]|]; [|done]. tauto.
Qed.

(** A successful [kmalloc] of [size] bytes returns an 8-byte aligned
    pointer to at least [size] bytes inside the heap, none of which belongs to
    an allocation made before and all of which belong to one afterwards. *)
Theorem kmalloc_fresh fuel size h l p h'
    (Hinv : heap_inv h l) (Hsize : 0 < size <= 2 ^ 64 - 8) (Hfuel : (length l < fuel)%nat)
    (Hcall : kmalloc fuel size h = Some (p, h')) (Hp : p <> 0) :
  exists l', heap_inv h' l' /\ p mod ALIGNMENT = 0 /\
    heap_first h <= p /\ p + size <= heap_first h + span l /\
    (forall x, p <= x < p + size -> ~ live (heap_first h) l x /\ live (heap_first h) l' x) /\
    (forall x, live (heap_first h) l x -> live (heap_first h) l' x /\ hmem h' x = hmem h x).
Proof.
  destruct (kmalloc_refines_list fuel size h l Hinv ltac:(lia) Hfuel) as (r & E & Hpost).
  rewrite Hcall in E. injection E as <-. unfold kmalloc_post in Hpost.
  destruct (round_size_spec size) as (Hr & _); [heap_lia..|].
  destruct (first_fit _ l) as [[[l1 k] l2]|] eqn:E; [|by destruct Hpost].
  destruct Hpost as (-> & _ & Hinv' & Hfr). destruct (first_fit_Some _ _ _ _ _ E) as (-> & Hk & Hle & _).
  pose proof Hinv as [Hfi Hal Hend Hok _ _ _].
  pose proof Hok as [Hok1 [[Hk0 _] Hok2]%Forall_cons]%Forall_app.
  pose proof (span_nonneg l1 Hok1). pose proof (span_nonneg l2 Hok2). pose proof (span_mod l1 Hok1).
  eexists. split; [exact Hinv'|]. split_and!.
  - heap_lia.
  - heap_lia.
  - rewrite span_app. simpl. lia.
  - intros x Hx. split; [apply free_not_live; [done..|heap_lia]|apply alloc_in_live; lia].
  - intros x Hx. split; [by apply live_alloc_in|by apply Hfr].
Qed.

(** C19: freeing an allocated block implements coalescing on the list of
    blocks: it merges with a free successor and a free predecessor, the heap
    stays well formed with no two free neighbours, and every other allocation
    stays allocated with its contents. *)
Theorem kfree_refines h l1 k l2
    (Hinv : heap_inv h (l1 ++ k :: l2)) (Hk : bfree k = false) :
  let h' := kfree (heap_first h + span l1 + HDR) h in
  heap_inv h' (free_in l1 k l2) /\
  (forall x, live (heap_first h) (l1 ++ k :: l2) x ->
     ~ (heap_first h + span l1 + HDR <= x < heap_first h + span l1 + HDR + bsize k) ->
     live (heap_first h) (free_in l1 k l2) x /\ hmem h' x = hmem h x).
Proof.
  destruct (kfree_list h l1 k l2 Hinv) as (_ & Hi & Hl). split; [done|].
  intros x Hx Hn. apply Hl. revert Hx. rewrite !live_app. simpl.
  intros [?|[[_ ?]|?]]; [by left|lia|by right; right].
Qed.

(** [kfree] undoes [kmalloc]: the list of blocks, and with it the free
    space and its fragmentation, is exactly what it was. *)
Theorem kmalloc_kfree_round_trip fuel size h l p h'
    (Hinv : heap_inv h l) (Hsize : 0 < size) (Hfuel : (length l < fuel)%nat)
    (Hcall : kmalloc fuel size h = Some (p, h')) (Hp : p <> 0) :
  heap_inv (kfree p h') l.
Proof.
  destruct (kmalloc_refines_list fuel size h l Hinv Hsize Hfuel) as (r & E & Hpost).
  rewrite Hcall in E. injection E as <-. unfold kmalloc_post in Hpost.
  destruct (first_fit _ l) as [[[l1 k] l2]|] eqn:E; [|by destruct Hpost].
  destruct Hpost as (-> & Ef & Hinv' & _). destruct (first_fit_Some _ _ _ _ _ E) as (-> & Hk & _).
  destruct (free_in_alloc l1 k l2 (round_size size) Hk (hi_coalesced _ _ Hinv)) as (k' & r & Ea & Er).
  rewrite Ea in Hinv'. simpl in Hinv'. destruct (kfree_list h' l1 k' (r ++ l2) Hinv') as (_ & Hi & _).
  by rewrite Ef, Er in Hi.
Qed.

(** The rounding of the size wraps: a request within seven bytes of
    [2^64] is served as a request for 32 bytes. *)
Theorem kmalloc_size_overflow fuel size h (Hsize : 2 ^ 64 - 7 <= size < 2 ^ 64) :
  kmalloc fuel size h = kmalloc fuel 32 h.
Proof.
  unfold kmalloc. rewrite (proj2 (Z.eqb_neq size 0)) by lia. simpl (32 =? 0).
  assert (round_size size = 32) as ->; [|done].
  unfold round_size. rewrite align_down.
  assert (u64 (size + ALIGNMENT - 1) = size + 7 - 2 ^ 64) as ->.
  { unfold wrap. symmetry. apply Z.mod_unique with 1; heap_lia. }
  heap_unfold. destruct (Z.ltb_spec ((size + 7 - 2 ^ 64) / 8 * 8) 32); lia.
Qed.

(** [krealloc] of an allocated block to a non-zero size either fails
    and changes nothing, or moves it: the first [min(old, new)] bytes are at the
    new address, the old block is freed and the heap stays well formed. *)
Theorem krealloc_moves fuel size h l1 k l2
    (Hinv : heap_inv h (l1 ++ k :: l2)) (Hk : bfree k = false)
    (Hsize : 0 < size <= 2 ^ 64 - 8) (Hfuel : (length (l1 ++ k :: l2) < fuel)%nat) :
  let ptr := heap_first h + span l1 + HDR in
  exists p h', krealloc fuel ptr size h = Some (p, h') /\
    ((p = 0 /\ h' = h) \/
     exists l', heap_inv h' l' /\
       forall i, 0 <= i < Z.min (bsize k) size ->
         hmem h' (p + i) = hmem h (ptr + i) /\ live (heap_first h) l' (p + i)).
Proof.
  intros ptr. pose proof Hinv as [Hfi Hal Hend Hok _ _ Hseg].
  pose proof Hok as [Hok1 [[Hk0 _] Hok2]%Forall_cons]%Forall_app.
  pose proof (span_nonneg l1 Hok1) as Hs1. pose proof (span_nonneg l2 Hok2) as Hs2.
  rewrite span_app in Hend. simpl in Hend.
  pose proof (hdr_here _ _ _ _ _ _ _ Hseg) as (_ & (Hm & Hsz & _) & _).
  destruct (kmalloc_refines_list fuel size h _ Hinv ltac:(lia) Hfuel) as ([p h1] & E & Hpost).
  unfold krealloc. rewrite !(proj2 (Z.eqb_neq _ _)) by (unfold ptr; heap_lia).
  assert (u64 (ptr - HDR) = heap_first h + span l1) as -> by (rewrite wrap_small; unfold ptr; heap_lia).
  rewrite Hm, Hsz, Z.eqb_refl, E. cbn [negb mbind option_bind].
  set (n := if bsize k <? size then bsize k else size).
  assert (n = Z.min (bsize k) size) as Hn by (unfold n; destruct (Z.ltb_spec (bsize k) size); lia).
  clearbody n. unfold kmalloc_post in Hpost.
  destruct (first_fit _ _) as [[[a1 f] a2]|] eqn:Ef; last first.
  { destruct Hpost as [-> ->]. exists 0, h. split; [done|by left]. }
  destruct Hpost as (-> & Ef1 & Hinv1 & Hfr).
  destruct (first_fit_Some _ _ _ _ _ Ef) as (El & Hff & Hle & _).
  destruct (round_size_spec size) as (Hr & _); [heap_lia..|].
  rewrite El in Hok. pose proof Hok as [Hoka [[Hf0 _] _]%Forall_cons]%Forall_app.
  pose proof (span_nonneg a1 Hoka) as Hsa.
  rewrite (proj2 (Z.eqb_neq (heap_first h + span a1 + HDR) 0)) by heap_lia.
  eexists _, _. split; [done|]. right.
  destruct (alloc_in_cons (round_size size) f) as (k' & r & Ea & _ & _ & Hk').
  specialize (Hk' Hle).
  set (h2 := mk_heap _ _ _ (mem_copy (hmem h1) (heap_first h + span a1 + HDR) ptr n)).
  assert (heap_inv h2 (a1 ++ alloc_in (round_size size) f ++ a2)) as Hinv2.
  { apply heap_inv_payload with a1 k' (r ++ a2); [done|by rewrite Ea|].
    intros x Hx. apply mem_copy_out. rewrite Ef1 in Hx. lia. }
  destruct (locate_after_alloc l1 k l2 a1 f a2 (round_size size) El Hk Hff) as (l1' & l2' & Eloc & Esp).
  rewrite Eloc in Hinv2. destruct (kfree_list h2 l1' k l2' Hinv2) as (_ & Hi3 & Hl3).
  simpl in Hi3, Hl3. rewrite Ef1, Esp in Hi3, Hl3. exists (free_in l1' k l2'). split; [exact Hi3|].
  intros i Hi. destruct (Hl3 (heap_first h + span a1 + HDR + i)) as [Hlv Hmem].
  - apply live_freed.
    + rewrite <-Eloc. apply alloc_in_live; lia.
    + rewrite Esp. intros Hin. apply (free_not_live (heap_first h) a1 f a2
        (heap_first h + span a1 + HDR + i) Hok Hff); [heap_lia|].
      rewrite <-El. apply live_app. right. simpl. left. split; [done|lia].
  - split; [|done]. etransitivity; [exact Hmem|]. rewrite mem_copy_in by lia.
    apply Hfr. apply live_app. right. simpl. left. split; [done|unfold ptr; lia].
Qed.

(** *** Witnesses: the heap [mm_init] sets up, at 0x1000 *)

Lemma heap_setup_inv start m :
  0 < start -> start mod ALIGNMENT = 0 -> start + HEAP_SIZE < 2 ^ 63 ->
  heap_inv (heap_setup start m) [mk_blk (HEAP_SIZE - HDR) true].
Proof.
  intros H0 Hal Hend. split; simpl; [done..| | |done|done|].
  - unfold HEAP_SIZE in *. heap_lia.
  - constructor; [done|constructor].
  - repeat split; simpl; cells; done.
Qed.

Definition heap0 : heap_state := heap_setup 0x1000 (fun _ => 0).
Definition blocks0 : list blk := [mk_blk (HEAP_SIZE - HDR) true].
Definition blocks1 : list blk := [mk_blk 104 false; mk_blk (HEAP_SIZE - HDR - 104 - HDR) true].
Definition heap1 : heap_state := mk_heap 0x1000 1 0 (take_block 0x1000 104 (hmem heap0)).

Lemma heap0_inv : heap_inv heap0 blocks0.
Proof. by apply heap_setup_inv. Qed.

Lemma heap1_inv : kmalloc 3 100 heap0 = Some (0x1028, heap1) /\ heap_inv heap1 blocks1.
Proof.
  assert (kmalloc 3 100 heap0 = Some (0x1028, heap1)) as E by reflexivity.
  split; [done|]. destruct (kmalloc_refines_list 3 100 heap0 blocks0) as (r & E' & Hp);
    [apply heap0_inv|lia|simpl; lia|].
  rewrite E in E'. injection E' as <-. destruct Hp as (_ & _ & Hi & _). exact Hi.
Qed.

Lemma kmalloc_refines_witness :
  exists p h', kmalloc 3 100 heap0 = Some (p, h') /\ heap_inv h' blocks1.
Proof.
  destruct (kmalloc_refines 3 100 heap0 blocks0 heap0_inv) as (p & h' & E & H);
    [lia|simpl; lia|].
  exists p, h'. split; [exact E|]. destruct H as (_ & Hi & _). exact Hi.
Defined.

Lemma kmalloc_fresh_witness :
  exists l', heap_inv heap1 l' /\ live 0x1000 l' 0x1028.
Proof.
  destruct (kmalloc_fresh 3 100 heap0 blocks0 0x1028 heap1 heap0_inv) as (l' & Hi & _ & _ & _ & Hl & _);
    [lia|simpl; lia|apply heap1_inv|lia|].
  exists l'. split; [exact Hi|]. apply (Hl 0x1028). lia.
Defined.

Lemma kfree_refines_witness : heap_inv (kfree 0x1028 heap1) blocks0.
Proof.
  apply (kfree_refines heap1 [] (mk_blk 104 false) [mk_blk (HEAP_SIZE - HDR - 104 - HDR) true]
    (proj2 heap1_inv) eq_refl).
Defined.

Lemma kmalloc_kfree_round_trip_witness : heap_inv (kfree 0x1028 heap1) blocks0.
Proof.
  apply (kmalloc_kfree_round_trip 3 100 heap0 blocks0 0x1028 heap1 heap0_inv);
    [lia|simpl; lia|apply heap1_inv|lia].
Defined.

Lemma kmalloc_size_overflow_witness : kmalloc 3 (2 ^ 64 - 1) heap0 = kmalloc 3 32 heap0.
Proof. apply (kmalloc_size_overflow 3 (2 ^ 64 - 1) heap0). lia. Defined.

Lemma krealloc_moves_witness :
  exists p h', krealloc 3 0x1028 1000 heap1 = Some (p, h') /\
    ((p = 0 /\ h' = heap1) \/ exists l', heap_inv h' l').
Proof.
  destruct (krealloc_moves 3 1000 heap1 [] (mk_blk 104 false)
    [mk_blk (HEAP_SIZE - HDR - 104 - HDR) true] (proj2 heap1_inv) eq_refl)
    as (p & h' & E & [H|(l' & H & _)]); [lia|simpl; lia| |].
  - exists p, h'. split; [exact E|by left].
  - exists p, h'. split; [exact E|]. right. by exists l'.
Defined.

End Heap.
