(* ===== verification/PageBitmap.v ===== *)
(** * Page bitmap (kernel/mm/memory.c: mm_init, mm_alloc_page, mm_free_page)

    The older page allocator of the kernel: one bit per page, with the page
    descriptors allocated from the kernel heap of [Heap]. *)

From stdpp Require Import base numbers list option tactics sets.
From S2P Require Import Prelude Heap.

Module PageBitmap.

Definition MAX_PAGES : Z := 4096 * 1024 / PAGE_SIZE.

Record mm_state := mk_mm {
  total_memory : Z;
  used_memory : Z;
  total_pages : Z;
  free_pages : Z;
  page_bitmap : list Z;           (* MAX_PAGES / 8 bytes *)
  heap : Heap.heap_state;
}.

(** The static variables before [mm_init]: no heap yet. *)
Definition mm_boot (m : Z -> Z) : mm_state :=
  mk_mm 0 0 0 0 (replicate 128 0) (Heap.mk_heap 0 0 0 m).

(** [_page_bitmap[i / 8] & (1 << (i % 8))] *)
Definition page_used (bm : list Z) (i : Z) : bool :=
  truthy (Z.land (bm.[i / 8]) (Z.shiftl 1 (i mod 8))).

Definition set_page (bm : list Z) (i : Z) : list Z :=
  bm.[i / 8 <- u8 (Z.lor (bm.[i / 8]) (Z.shiftl 1 (i mod 8)))].

Definition clear_page (bm : list Z) (i : Z) : list Z :=
  bm.[i / 8 <- u8 (Z.land (bm.[i / 8]) (Z.lnot (Z.shiftl 1 (i mod 8))))].

(** Mark page [i] used and account for it. *)
Definition take_page (i : Z) (s : mm_state) : mm_state :=
  mk_mm (total_memory s) (u32 (used_memory s + PAGE_SIZE)) (total_pages s)
    (u32 (free_pages s - 1)) (set_page (page_bitmap s) i) (heap s).

Definition drop_page (i : Z) (s : mm_state) : mm_state :=
  mk_mm (total_memory s) (u32 (used_memory s - PAGE_SIZE)) (total_pages s)
    (u32 (free_pages s + 1)) (clear_page (page_bitmap s) i) (heap s).

Definition set_heap (h : Heap.heap_state) (s : mm_state) : mm_state :=
  mk_mm (total_memory s) (used_memory s) (total_pages s) (free_pages s) (page_bitmap s) h.

(** ** mm_init *)

(** The reservation loop; [n] bounds the rounds left. *)
Fixpoint reserve_pages (n : nat) (i : Z) (s : mm_state) : mm_state :=
  match n with
  | O => s
  | S n' => if i <? total_pages s then reserve_pages n' (i + 1) (take_page i s) else s
  end.

Definition reserved_pages : Z := 16 * 1024 * 1024 / PAGE_SIZE.

(** [heap_buffer] is the address of the static fallback buffer; [None] when the
    heap walk of [kmalloc] runs out of fuel. *)
Definition mm_init (fuel : nat) (heap_buffer total_memory_mb : Z) (s : mm_state) : option (Z * mm_state) :=
  let pages := u32 (total_memory_mb * 1024 * 1024) / PAGE_SIZE in
  let pages := if MAX_PAGES <? pages then MAX_PAGES else pages in
  let s1 := mk_mm total_memory_mb 0 pages pages (replicate 128 0) (heap s) in
  let s2 := reserve_pages (Z.to_nat reserved_pages) 0 s1 in
  '(p, h) ← Heap.kmalloc fuel Heap.HEAP_SIZE (heap s2);
  let start := if p =? 0 then heap_buffer else p in
  Some (STATUS_SUCCESS, set_heap (Heap.heap_setup start (Heap.hmem h)) s2).

(** ** Pages *)

(** The scan for a clear bit; [n] pages are left from [i]. *)
Fixpoint find_page (n : nat) (i : Z) (bm : list Z) : option Z :=
  match n with
  | O => None
  | S n' => if page_used bm i then find_page n' (i + 1) bm else Some i
  end.

(** [page_t]: offsets of its fields and its size. *)
Definition PAGE_T_SIZE : Z := 32.
Definition phys_addr_ (p : Z) : Z := p.
Definition virt_addr_ (p : Z) : Z := p + 8.
Definition flags_ (p : Z) : Z := p + 16.
Definition ref_count_ (p : Z) : Z := p + 20.
Definition pnext_ (p : Z) : Z := p + 24.

Definition init_page (page i flags : Z) (m : Z -> Z) : Z -> Z :=
  let m := mem_write m (phys_addr_ page) (u32 (i * PAGE_SIZE)) in
  let m := mem_write m (virt_addr_ page) 0 in
  let m := mem_write m (flags_ page) flags in
  let m := mem_write m (ref_count_ page) 1 in
  mem_write m (pnext_ page) 0.

Definition set_hmem (m : Z -> Z) (h : Heap.heap_state) : Heap.heap_state :=
  Heap.mk_heap (Heap.heap_first h) (Heap.heap_allocs h) (Heap.heap_frees h) m.

Definition mm_alloc_page (fuel : nat) (flags : Z) (s : mm_state) : option (Z * mm_state) :=
  if free_pages s =? 0 then Some (0, s) else
  match find_page (Z.to_nat (total_pages s)) 0 (page_bitmap s) with
  | None => Some (0, s)
  | Some i =>
      let s1 := take_page i s in
      '(page, h) ← Heap.kmalloc fuel PAGE_T_SIZE (heap s1);
      Some (if page =? 0 then (0, set_heap h s1)
            else (page, set_heap (set_hmem (init_page page i flags (Heap.hmem h)) h) s1))
  end.

Definition mm_free_page (page : Z) (s : mm_state) : Z * mm_state :=
  if page =? 0 then (STATUS_INVALID, s) else
  let m := Heap.hmem (heap s) in
  if 1 <? m (ref_count_ page) then
    (STATUS_SUCCESS,
     set_heap (set_hmem (mem_write m (ref_count_ page) (m (ref_count_ page) - 1)) (heap s)) s)
  else
    let page_idx := u32 (m (phys_addr_ page) / PAGE_SIZE) in
    let s1 := if page_idx <? total_pages s then drop_page page_idx s else s in
    (STATUS_SUCCESS, set_heap (Heap.kfree page (heap s1)) s1).

Definition mm_get_total_pages (s : mm_state) : Z := total_pages s.
Definition mm_get_free_pages (s : mm_state) : Z := free_pages s.
Definition mm_get_used_memory (s : mm_state) : Z := used_memory s / (1024 * 1024).

(** ** Invariant *)

(** Number of clear bits below [n]. *)
Fixpoint count_clear (bm : list Z) (n : nat) : Z :=
  match n with
  | O => 0
  | S n' => count_clear bm n' + of_bool (negb (page_used bm (Z.of_nat n')))
  end.

Definition clear_count (bm : list Z) (n : Z) : Z := count_clear bm (Z.to_nat n).

Record mm_inv (s : mm_state) (hl : list Heap.blk) : Prop := {
  mi_bitmap : length (page_bitmap s) = 128%nat;
  mi_total : 0 <= total_pages s <= MAX_PAGES;
  mi_free : free_pages s = clear_count (page_bitmap s) (total_pages s);
  mi_used : 0 <= used_memory s < 2 ^ 32;
  mi_heap : Heap.heap_inv (heap s) hl;
}.

(** ** Bits *)

Lemma page_used_testbit bm i :
  0 <= i -> page_used bm i = Z.testbit (bm.[i / 8]) (i mod 8).
Proof.
  intros. unfold page_used. rewrite Z.shiftl_1_l. apply truthy_land_bit. lia.
Qed.

Section bits.
Context (bm : list Z) (i j : Z).
Hypothesis Hlen : length bm = 128%nat.
Hypothesis Hi : 0 <= i < 1024.
Hypothesis Hj : 0 <= j < 1024.

Lemma page_used_set : page_used (set_page bm i) j = (i =? j) || page_used bm j.
Proof.
  rewrite !page_used_testbit by lia. unfold set_page.
  destruct (decide (i / 8 = j / 8)) as [E|E].
  - rewrite E, aget_aset_eq, testbit_set_bit by lia. f_equal.
    destruct (Z.eqb_spec (i mod 8) (j mod 8)), (Z.eqb_spec i j); lia.
  - rewrite aget_aset_ne by lia. destruct (Z.eqb_spec i j) as [->|]; [done|]. done.
Qed.

Lemma page_used_clear : page_used (clear_page bm i) j = negb (i =? j) && page_used bm j.
Proof.
  rewrite !page_used_testbit by lia. unfold clear_page.
  destruct (decide (i / 8 = j / 8)) as [E|E].
  - rewrite E, aget_aset_eq, testbit_clear_bit by lia. do 2 f_equal.
    destruct (Z.eqb_spec (i mod 8) (j mod 8)), (Z.eqb_spec i j); lia.
  - rewrite aget_aset_ne by lia. destruct (Z.eqb_spec i j) as [->|]; [done|]. done.
Qed.
End bits.

Lemma count_clear_ext bm bm' n :
  (forall k, 0 <= k < Z.of_nat n -> page_used bm' k = page_used bm k) ->
  count_clear bm' n = count_clear bm n.
Proof.
  induction n as [|n IH]; intros H; simpl; [done|]. rewrite IH, (H (Z.of_nat n)); [done|lia|].
  intros k Hk. apply H. lia.
Qed.

Lemma count_clear_flip bm bm' n i :
  0 <= i < Z.of_nat n -> page_used bm i = false -> page_used bm' i = true ->
  (forall k, 0 <= k < Z.of_nat n -> k <> i -> page_used bm' k = page_used bm k) ->
  count_clear bm n = count_clear bm' n + 1.
Proof.
  induction n as [|n IH]; intros Hi H1 H2 H; simpl; [lia|].
  destruct (decide (i = Z.of_nat n)) as [->|Hne].
  - rewrite H1, H2, (count_clear_ext bm bm'); [simpl; lia|]. intros k Hk. apply H; lia.
  - rewrite IH, (H (Z.of_nat n)); [lia|lia|lia|lia|done|done|]. intros k Hk. apply H. lia.
Qed.

Lemma clear_count_set bm n i :
  length bm = 128%nat -> n <= MAX_PAGES -> 0 <= i < n -> page_used bm i = false ->
  clear_count bm n = clear_count (set_page bm i) n + 1.
Proof.
  intros Hl Hn Hi Hu. change MAX_PAGES with 1024 in Hn.
  apply count_clear_flip with i; [lia|done| |].
  - by rewrite page_used_set, Z.eqb_refl by (done || lia).
  - intros k Hk Hne. rewrite page_used_set by (done || lia).
    by rewrite (proj2 (Z.eqb_neq i k)) by lia.
Qed.

Lemma find_page_Some n i bm j :
  find_page n i bm = Some j ->
  i <= j < i + Z.of_nat n /\ page_used bm j = false /\
  (forall k, i <= k < j -> page_used bm k = true).
Proof.
  revert i. induction n as [|n IH]; intros i; simpl; [done|].
  destruct (page_used bm i) eqn:E.
  - intros (H1 & H2 & H3)%IH. split_and!; [lia|lia|done|]. intros k Hk.
    destruct (decide (k = i)) as [->|]; [done|]. apply H3. lia.
  - intros [= <-]. split_and!; [lia|lia|done|lia].
Qed.

Lemma find_page_None n i bm :
  find_page n i bm = None -> forall k, i <= k < i + Z.of_nat n -> page_used bm k = true.
Proof.
  revert i. induction n as [|n IH]; intros i H k Hk; simpl in *; [lia|].
  destruct (page_used bm i) eqn:E; [|done].
  destruct (decide (k = i)) as [->|]; [done|]. apply (IH (i + 1)); [done|lia].
Qed.

Lemma clear_count_0 bm n :
  (forall k, 0 <= k < n -> page_used bm k = true) -> clear_count bm n = 0.
Proof.
  intros H. unfold clear_count. assert (forall k, 0 <= k < Z.of_nat (Z.to_nat n) -> page_used bm k = true)
    as H' by (intros; apply H; lia). clear H.
  induction (Z.to_nat n) as [|m IH]; simpl; [done|].
  rewrite H' by lia. rewrite IH; [done|]. intros k Hk. apply H'. lia.
Qed.

Lemma clear_count_range bm n : 0 <= n -> 0 <= clear_count bm n <= n.
Proof.
  intros Hn. unfold clear_count. replace n with (Z.of_nat (Z.to_nat n)) at 3 by lia. clear Hn.
  induction (Z.to_nat n) as [|m IH]; simpl count_clear; [lia|].
  destruct (page_used bm (Z.of_nat m)); simpl; lia.
Qed.

(** ** Reservation at start-up *)

Lemma reserve_pages_spec n i s :
  length (page_bitmap s) = 128%nat -> 0 <= i -> total_pages s <= MAX_PAGES ->
  free_pages s = total_pages s - Z.min i (total_pages s) ->
  total_pages s <= i + Z.of_nat n -> 0 <= total_pages s ->
  let s' := reserve_pages n i s in
  free_pages s' = 0 /\ total_pages s' = total_pages s /\ heap s' = heap s /\
  length (page_bitmap s') = 128%nat.
Proof.
  revert i s. induction n as [|n IH]; intros i s Hl Hi Ht Hf Hn H0; simpl.
  - split_and!; [lia|done..].
  - destruct (Z.ltb_spec i (total_pages s)).
    + change MAX_PAGES with 1024 in *.
      destruct (IH (i + 1) (take_page i s)) as (? & ? & ? & ?); simpl in *; try done; try lia.
      * unfold set_page. by rewrite length_aset.
      * rewrite wrap_small by lia. lia.
    + split_and!; [lia|done..].
Qed.

(** ** Allocation *)

Lemma init_page_frame page i flags m x :
  x < page \/ page + PAGE_T_SIZE <= x -> init_page page i flags m x = m x.
Proof.
  intros. unfold init_page, mem_write, phys_addr_, virt_addr_, flags_, ref_count_, pnext_, PAGE_T_SIZE in *.
  rewrite !(proj2 (Z.eqb_neq x _)) by lia. done.
Qed.

Lemma init_page_fields page i flags m :
  init_page page i flags m (phys_addr_ page) = u32 (i * PAGE_SIZE) /\
  init_page page i flags m (ref_count_ page) = 1 /\
  init_page page i flags m (flags_ page) = flags.
Proof.
  unfold init_page, mem_write, phys_addr_, virt_addr_, flags_, ref_count_, pnext_.
  split_and!; repeat match goal with |- context [?x =? ?y] =>
    first [replace (x =? y) with true by (symmetry; apply Z.eqb_eq; lia)
          |replace (x =? y) with false by (symmetry; apply Z.eqb_neq; lia)] end; done.
Qed.

(** What [mm_alloc_page] does to the bitmap when a page is free. *)
Definition takes_first_clear (s s' : mm_state) (i : Z) : Prop :=
  0 <= i < total_pages s /\ page_used (page_bitmap s) i = false /\
  (forall j, 0 <= j < i -> page_used (page_bitmap s) j = true) /\
  (forall j, 0 <= j < MAX_PAGES -> page_used (page_bitmap s') j = (i =? j) || page_used (page_bitmap s) j) /\
  total_pages s' = total_pages s /\ free_pages s' = free_pages s - 1.

Lemma take_page_first s hl i :
  mm_inv s hl -> find_page (Z.to_nat (total_pages s)) 0 (page_bitmap s) = Some i ->
  takes_first_clear s (take_page i s) i /\
  free_pages (take_page i s) = clear_count (page_bitmap (take_page i s)) (total_pages s) /\
  length (page_bitmap (take_page i s)) = 128%nat.
Proof.
  intros [Hbm Ht Hf Hu _] (H1 & H2 & H3)%find_page_Some.
  assert (0 <= i < total_pages s) as Hi by lia.
  pose proof (clear_count_set (page_bitmap s) (total_pages s) i Hbm ltac:(lia) Hi H2) as Hc.
  pose proof (clear_count_range (set_page (page_bitmap s) i) (total_pages s) ltac:(lia)) as Hr.
  change MAX_PAGES with 1024 in *.
  assert (free_pages (take_page i s) = free_pages s - 1) as Ef
    by (simpl; apply wrap_small; lia).
  unfold takes_first_clear. split_and!; try done; try lia.
  - intros j Hj. change MAX_PAGES with 1024 in Hj. apply page_used_set; done || lia.
  - rewrite Ef, Hf, Hc. simpl. lia.
  - simpl. unfold set_page. by rewrite length_aset.
Qed.

(** ** Properties *)

(** On a consistent bitmap and heap [mm_alloc_page] takes the lowest
    free page: it fails, changing nothing, only when every page is used;
    otherwise that page's bit and no other is set and the count follows, and
    the descriptor holds its address with one reference.  When the heap has no
    room for the descriptor the call fails and the page stays marked. *)
Theorem mm_alloc_page_correct fuel flags s hl
    (Hinv : mm_inv s hl) (Hfuel : (length hl < fuel)%nat) :
  exists p s', mm_alloc_page fuel flags s = Some (p, s') /\
    ((p = 0 /\ s' = s /\ (forall j, 0 <= j < total_pages s -> page_used (page_bitmap s) j = true)) \/
     exists i, takes_first_clear s s' i /\
       (p = 0 /\ heap s' = heap s \/
        Heap.hmem (heap s') (phys_addr_ p) = i * PAGE_SIZE /\
        Heap.hmem (heap s') (ref_count_ p) = 1 /\ exists hl', mm_inv s' hl')).
Proof.
  pose proof Hinv as [Hbm Ht Hf Hu Hh]. unfold mm_alloc_page.
  assert (free_pages s = 0 -> forall j, 0 <= j < total_pages s -> page_used (page_bitmap s) j = true) as H0.
  { intros E j Hj. destruct (page_used (page_bitmap s) j) eqn:Eu; [done|].
    pose proof (clear_count_set (page_bitmap s) (total_pages s) j Hbm ltac:(lia) Hj Eu).
    pose proof (clear_count_range (set_page (page_bitmap s) j) (total_pages s)). lia. }
  destruct (Z.eqb_spec (free_pages s) 0) as [E|E].
  { exists 0, s. split; [done|]. left. auto. }
  destruct (find_page _ _ _) as [i|] eqn:Ei; last first.
  { exists 0, s. split; [done|]. left. split_and!; [done..|]. intros j Hj.
    apply (find_page_None _ _ _ Ei). lia. }
  destruct (take_page_first s hl i Hinv Ei) as (Htk & Hcnt & Hlen).
  destruct (Heap.kmalloc_client fuel PAGE_T_SIZE (heap s) hl Hh) as (p & h1 & Em & Hp);
    [unfold PAGE_T_SIZE; lia|done|].
  change (heap (take_page i s)) with (heap s). rewrite Em. cbn [mbind option_bind].
  destruct Hp as [[-> ->]|[Hp (hl' & Hw)]].
  { eexists _, _. split; [done|]. right. exists i. split; [exact Htk|]. by left. }
  rewrite (proj2 (Z.eqb_neq p 0)) by lia. eexists _, _. split; [done|]. right. exists i.
  split; [exact Htk|]. right. simpl.
  destruct (init_page_fields p i flags (Heap.hmem h1)) as (-> & -> & _).
  destruct Htk as (Hi & _). change MAX_PAGES with 1024 in *.
  split_and!; [apply wrap_small; unfold PAGE_SIZE; lia|done|]. exists hl'.
  destruct (Hw (init_page p i flags (Heap.hmem h1))) as [Hi2 _].
  { intros x Hx. by apply init_page_frame. }
  split; simpl; [done..| |done]. apply wrap_range. lia.
Qed.

(** Freeing the page [mm_alloc_page] just returned clears its bit
    again, restores both counters and leaves the heap as it was. *)
Theorem mm_alloc_free_round_trip fuel flags s hl p s'
    (Hinv : mm_inv s hl) (Hfuel : (length hl < fuel)%nat)
    (Hcall : mm_alloc_page fuel flags s = Some (p, s')) (Hp : p <> 0) :
  exists s2, mm_free_page p s' = (STATUS_SUCCESS, s2) /\ mm_inv s2 hl /\
    free_pages s2 = free_pages s /\ used_memory s2 = used_memory s /\
    (forall j, 0 <= j < MAX_PAGES -> page_used (page_bitmap s2) j = page_used (page_bitmap s) j).
Proof.
  pose proof Hinv as [Hbm Ht Hf Hu Hh]. unfold mm_alloc_page in Hcall.
  destruct (Z.eqb_spec (free_pages s) 0); [congruence|].
  destruct (find_page _ _ _) as [i|] eqn:Ei; [|congruence].
  destruct (take_page_first s hl i Hinv Ei) as ((Hi & Hun & _ & Hus & _) & _ & Hlen).
  destruct (Heap.kmalloc_client fuel PAGE_T_SIZE (heap s) hl Hh) as (q & h1 & Em & Hq);
    [unfold PAGE_T_SIZE; lia|done|].
  change (heap (take_page i s)) with (heap s) in Hcall. rewrite Em in Hcall. cbn [mbind option_bind] in Hcall.
  destruct (Z.eqb_spec q 0); [injection Hcall as <- <-; done|]. injection Hcall as <- <-.
  destruct Hq as [[? _]|[Hq (hl' & Hw)]]; [done|].
  destruct (Hw (init_page q i flags (Heap.hmem h1))) as [_ Hi2].
  { intros x Hx. by apply init_page_frame. }
  unfold mm_free_page. rewrite (proj2 (Z.eqb_neq q 0)) by done. simpl.
  destruct (init_page_fields q i flags (Heap.hmem h1)) as (-> & -> & _). simpl.
  change MAX_PAGES with 1024 in *.
  assert (u32 (u32 (i * PAGE_SIZE) / PAGE_SIZE) = i) as ->.
  { rewrite (wrap_small 32 (i * PAGE_SIZE)) by (unfold PAGE_SIZE; lia).
    rewrite wrap_small; unfold PAGE_SIZE; lia. }
  rewrite (proj2 (Z.ltb_lt i _)) by lia.
  assert (forall j, 0 <= j < 1024 ->
    page_used (clear_page (set_page (page_bitmap s) i) i) j = page_used (page_bitmap s) j) as Hback.
  { intros j Hj. rewrite page_used_clear by (done || lia). rewrite (Hus j Hj : page_used (set_page _ _) _ = _).
    destruct (Z.eqb_spec i j) as [<-|]; simpl; [by rewrite Hun|done]. }
  pose proof (clear_count_range (page_bitmap s) (total_pages s) ltac:(lia)).
  assert (u32 (u32 (free_pages s - 1) + 1) = free_pages s) as E1.
  { rewrite (wrap_small 32 (free_pages s - 1)) by lia. rewrite wrap_small; lia. }
  assert (u32 (u32 (used_memory s + PAGE_SIZE) - PAGE_SIZE) = used_memory s) as E2.
  { unfold wrap. rewrite Zminus_mod_idemp_l, Z.add_simpl_r. by apply Z.mod_small. }
  eexists. split; [done|]. split; [|done]. split; simpl; [|done| | |done].
  - unfold clear_page. by rewrite length_aset.
  - rewrite E1, Hf. symmetry. apply count_clear_ext. intros k Hk. apply Hback. lia.
  - by rewrite E2.
Qed.

(** [mm_init] sizes the bitmap for 1024 pages and then reserves 4096 of
    them, so whatever the memory size no page is ever free and
    [mm_alloc_page] returns NULL. *)
Theorem mm_init_no_free_page fuel heap_buffer mb flags m (Hmb : 0 <= mb < 2 ^ 32) :
  exists s', mm_init fuel heap_buffer mb (mm_boot m) = Some (STATUS_SUCCESS, s') /\
    mm_get_free_pages s' = 0 /\ mm_alloc_page fuel flags s' = Some (0, s').
Proof.
  unfold mm_init. set (n := if _ <? _ then _ else _).
  assert (0 <= n <= MAX_PAGES) as Hn.
  { unfold n. pose proof (wrap_range 32 (mb * 1024 * 1024) ltac:(lia)). change MAX_PAGES with 1024.
    unfold PAGE_SIZE. destruct (Z.ltb_spec 1024 (u32 (mb * 1024 * 1024) / 4096)); lia. }
  set (s1 := mk_mm _ _ _ _ _ _).
  destruct (reserve_pages_spec (Z.to_nat reserved_pages) 0 s1) as (Hf & _ & Hh & _);
    [done|lia|apply Hn|simpl; lia| |apply Hn|].
  { change MAX_PAGES with 1024 in Hn. change (total_pages s1) with n.
    change (Z.of_nat (Z.to_nat reserved_pages)) with 4096. lia. }
  rewrite Hh. cbn [Heap.kmalloc]. change (heap s1) with (Heap.mk_heap 0 0 0 m).
  change (Heap.kmalloc fuel Heap.HEAP_SIZE (Heap.mk_heap 0 0 0 m))
    with (Some (0, Heap.mk_heap 0 0 0 m)).
  eexists. split; [reflexivity|].
  set (s2 := reserve_pages _ _ _) in *. clearbody s2.
  unfold mm_get_free_pages, mm_alloc_page. simpl. rewrite Hf. done.
Qed.

(** *** Witnesses *)

Definition two_pages : mm_state := mk_mm 0 0 2 2 (replicate 128 0) Heap.heap0.

Lemma two_pages_inv : mm_inv two_pages Heap.blocks0.
Proof. split; [done|by vm_compute|done|by vm_compute|apply Heap.heap0_inv]. Qed.

Lemma mm_alloc_page_correct_witness :
  exists p s', mm_alloc_page 3 7 two_pages = Some (p, s') /\ total_pages two_pages = 2.
Proof.
  destruct (mm_alloc_page_correct 3 7 two_pages Heap.blocks0 two_pages_inv) as (p & s' & E & _);
    [simpl; lia|]. exists p, s'. split; [exact E|reflexivity].
Defined.

Lemma mm_alloc_free_round_trip_witness :
  exists p s' s2, mm_alloc_page 3 7 two_pages = Some (p, s') /\
    mm_free_page p s' = (STATUS_SUCCESS, s2) /\ free_pages s2 = 2.
Proof.
  assert (fst <$> mm_alloc_page 3 7 two_pages = Some 0x1028) as Ep by (vm_compute; reflexivity).
  destruct (mm_alloc_page 3 7 two_pages) as [[p s']|] eqn:E; [|discriminate].
  destruct (mm_alloc_free_round_trip 3 7 two_pages Heap.blocks0 p s' two_pages_inv)
    as (s2 & H1 & _ & H2 & _); [simpl; lia|exact E| |].
  - simpl in Ep. injection Ep as ->. lia.
  - exists p, s', s2. split; [reflexivity|]. split; [exact H1|]. rewrite H2. reflexivity.
Defined.

Lemma mm_init_no_free_page_witness :
  exists s', mm_init 3 0x1000 4096 (mm_boot (fun _ => 0)) = Some (STATUS_SUCCESS, s') /\
    mm_get_free_pages s' = 0.
Proof.
  destruct (mm_init_no_free_page 3 0x1000 4096 7 (fun _ => 0)) as (s' & E & H & _); [lia|].
  exists s'. split; [exact E|exact H].
Defined.

End PageBitmap.
