(* ===== verification/PageTree.v ===== *)
(** * Four-level page tables in memory

    The theory the page tables of both processors share (arch/x86_64/paging.c
    and arch/arm64/arm64.c): tables of 512 entries of 8 bytes, found through
    four 9-bit indices of an address.  The processors differ in the format of
    an entry, which is a parameter.

    The invariant assigns every table page the one path of indices that leads
    to it from the root; under it, writing a leaf entry changes the translation
    of one page, and linking in a new empty table changes none. *)

From stdpp Require Import base numbers list option tactics.
From S2P Require Import Prelude Pmm.

(** ** Entries *)

Record format := mk_format {
  f_present : Z -> bool;     (* whether an entry is in use *)
  f_child : Z -> Z;          (* the table an entry points to *)
  f_link : Z -> Z;           (* the entry that points to a table *)
  f_frame : Z -> Prop;       (* pages that can hold a table *)
  f_top : Z -> Prop;         (* the entries of the root that lead to tables *)
}.

Class FormatAligned (F : format) : Prop :=
  fo_aligned c : f_frame F c -> c mod PAGE_SIZE = 0.

Class FormatOk (F : format) : Prop := {
  fo_format_aligned :: FormatAligned F;
  fo_zero : f_present F 0 = false;
  fo_present c : f_frame F c -> f_present F (f_link F c) = true;
  fo_child c : f_frame F c -> f_child F (f_link F c) = c;
}.

(** ** Addresses *)

(** The page number the four indices of an address select. *)
Definition vpage (virt : Z) : Z := (virt / PAGE_SIZE) mod 2 ^ 36.

Definition path_of (virt : Z) : list Z :=
  (fun k => Z.land (Z.shiftr virt k) 0x1FF) <$> [39; 30; 21; 12].

Lemma land_511 x : Z.land x 0x1FF = x mod 512.
Proof. change 0x1FF with (Z.ones 9). by rewrite Z.land_ones. Qed.

Lemma idx_range x : 0 <= Z.land x 0x1FF < 512.
Proof. rewrite land_511. lia. Qed.

Lemma path_of_eq v w : path_of v = path_of w <-> vpage v = vpage w.
Proof.
  unfold path_of, vpage, PAGE_SIZE. cbn [fmap list_fmap].
  rewrite !land_511, !Z.shiftr_div_pow2 by lia.
  change (2 ^ 39) with (4096 * 512 * 512 * 512). change (2 ^ 30) with (4096 * 512 * 512).
  change (2 ^ 21) with (4096 * 512). change (2 ^ 12) with 4096. change (2 ^ 36) with 68719476736.
  rewrite <-!Z.div_div by lia. generalize (v / 4096) (w / 4096). intros a b.
  split; [intros [= H1 H2 H3 H4]; lia|]. intros E.
  assert (a mod 512 = b mod 512) as -> by lia.
  assert ((a / 512) mod 512 = (b / 512) mod 512) as -> by lia.
  assert ((a / 512 / 512) mod 512 = (b / 512 / 512) mod 512) as -> by lia.
  assert ((a / 512 / 512 / 512) mod 512 = (b / 512 / 512 / 512) mod 512) as -> by lia.
  done.
Qed.

(** Entries of different tables, or different entries, are different cells. *)
Lemma entry_disjoint p q i j :
  p mod PAGE_SIZE = 0 -> q mod PAGE_SIZE = 0 -> 0 <= i < 512 -> 0 <= j < 512 ->
  p + 8 * i = q + 8 * j -> p = q /\ i = j.
Proof. unfold PAGE_SIZE. lia. Qed.

Lemma align_entry p i :
  p mod PAGE_SIZE = 0 -> 0 <= i < 512 -> Pmm.page_align_down (p + 8 * i) = p.
Proof. intros Ha Hi. rewrite Pmm.page_align_down_spec. unfold PAGE_SIZE in *. lia. Qed.

(** ** Walks *)

Section tree.
Context (F : format) `{!FormatAligned F}.
Implicit Types (m : Z -> Z) (own : Z -> option (list Z)) (l path : list Z).

(** The entry a path of indices leads to. *)
Fixpoint lk m (t : Z) (idxs : list Z) : option Z :=
  match idxs with
  | [] => None
  | i :: r =>
      let x := m (t + 8 * i) in
      if f_present F x then
        match r with
        | [] => Some x
        | _ :: _ => lk m (f_child F x) r
        end
      else None
  end.

(** The table a path of indices leads to. *)
Fixpoint reach m (t : Z) (idxs : list Z) : option Z :=
  match idxs with
  | [] => Some t
  | i :: r =>
      let x := m (t + 8 * i) in
      if f_present F x then reach m (f_child F x) r else None
  end.

Definition good_path l : Prop :=
  Forall (fun i => 0 <= i < 512) l /\ (forall i, head l = Some i -> f_top F i).

(** Every table page has one path from the root. *)
Record tree_inv m (root : Z) own : Prop := {
  tr_root : own root = Some [];
  tr_frame p path : own p = Some path -> f_frame F p;
  tr_child p path i :
    own p = Some path -> (length path < 3)%nat -> good_path (path ++ [i]) ->
    f_present F (m (p + 8 * i)) = true ->
    own (f_child F (m (p + 8 * i))) = Some (path ++ [i]);
}.

Lemma path_of_good virt : f_top F (Z.land (Z.shiftr virt 39) 0x1FF) -> good_path (path_of virt).
Proof.
  intros Ht. split; [repeat constructor; apply idx_range|]. simpl. by intros i [= <-].
Qed.

Lemma good_path_app l r : good_path (l ++ r) -> good_path l.
Proof.
  intros [H1 H2]. split; [by apply Forall_app in H1 as [? _]|]. by destruct l.
Qed.

Lemma good_middle l r j : good_path (l ++ j :: r) -> 0 <= j < 512.
Proof. intros [Hf _]. apply Forall_app in Hf as [_ Hf]. by inversion Hf. Qed.

Lemma good_last l j : good_path (l ++ [j]) -> 0 <= j < 512.
Proof. apply good_middle. Qed.

Lemma reach_snoc m t l i :
  reach m t (l ++ [i]) =
    t' ← reach m t l;
    if f_present F (m (t' + 8 * i)) then Some (f_child F (m (t' + 8 * i))) else None.
Proof.
  revert t. induction l as [|j l IH]; intros t; simpl; [by destruct (f_present _ _)|].
  destruct (f_present _ _); [apply IH|done].
Qed.

Lemma lk_reach m t l i :
  lk m t (l ++ [i]) =
    t' ← reach m t l;
    if f_present F (m (t' + 8 * i)) then Some (m (t' + 8 * i)) else None.
Proof.
  revert t. induction l as [|j l IH]; intros t; simpl; [done|].
  destruct (f_present _ _); [|done]. rewrite <-IH. by destruct (l ++ [i]) eqn:E; [destruct l|].
Qed.

Lemma own_aligned m root own p path : tree_inv m root own -> own p = Some path -> p mod PAGE_SIZE = 0.
Proof. intros Hinv Hp. by apply fo_aligned, (tr_frame _ _ _ Hinv p path). Qed.

Lemma reach_own m root own t path l t' :
  tree_inv m root own -> own t = Some path -> good_path (path ++ l) ->
  (length path + length l <= 3)%nat ->
  reach m t l = Some t' -> own t' = Some (path ++ l).
Proof.
  intros Hinv. revert t path. induction l as [|i l IH]; intros t path Ht Hg Hl; simpl.
  - intros [= <-]. by rewrite app_nil_r.
  - destruct (f_present _ _) eqn:E; [|done]. intros Hr.
    rewrite cons_middle, app_assoc. rewrite cons_middle, app_assoc in Hg. simpl in Hl.
    apply (IH (f_child F (m (t + 8 * i))) (path ++ [i])); [|done|rewrite length_app; simpl; lia|done].
    apply (tr_child _ _ _ Hinv); [done|lia|by apply good_path_app in Hg|done].
Qed.

Lemma reach_root m root own l t :
  tree_inv m root own -> good_path l -> (length l <= 3)%nat ->
  reach m root l = Some t -> own t = Some l.
Proof.
  intros Hinv Hg Hl Hr. apply (reach_own m root own root [] l t Hinv); [apply Hinv|done|simpl; lia|done].
Qed.

(** Memory that agrees on the tables gives the same invariant and the same
    translations. *)
Lemma lk_ext m m' root own q pq l :
  tree_inv m root own ->
  (forall q pq j, own q = Some pq -> 0 <= j < 512 -> m' (q + 8 * j) = m (q + 8 * j)) ->
  own q = Some pq -> (length pq + length l = 4)%nat -> good_path (pq ++ l) ->
  lk m' q l = lk m q l.
Proof.
  intros Hinv Hm. revert q pq. induction l as [|j l IH]; intros q pq Hq Hl Hg; simpl; [done|]. simpl in Hl.
  rewrite cons_middle, app_assoc in Hg. pose proof (good_path_app _ _ Hg) as Hgj.
  rewrite (Hm q pq j Hq (good_last pq j Hgj)).
  destruct (f_present _ (m (q + 8 * j))) eqn:Hp; [|reflexivity]. destruct l as [|k l]; [done|].
  apply (IH _ (pq ++ [j])); [|rewrite length_app; simpl in *; lia|done].
  apply (tr_child _ _ _ Hinv); [done|simpl in Hl; lia|done|done].
Qed.

Lemma reach_ext m m' root own q pq l :
  tree_inv m root own ->
  (forall q pq j, own q = Some pq -> (length pq < 3)%nat -> 0 <= j < 512 -> m' (q + 8 * j) = m (q + 8 * j)) ->
  own q = Some pq -> (length pq + length l <= 3)%nat -> good_path (pq ++ l) ->
  reach m' q l = reach m q l.
Proof.
  intros Hinv Hm. revert q pq. induction l as [|j l IH]; intros q pq Hq Hl Hg; simpl; [done|]. simpl in Hl.
  rewrite cons_middle, app_assoc in Hg. pose proof (good_path_app _ _ Hg) as Hgj.
  rewrite (Hm q pq j) by (done || lia || by apply (good_last pq)).
  destruct (f_present _ _) eqn:E; [|done]. apply (IH _ (pq ++ [j])).
  - apply (tr_child _ _ _ Hinv); [done|lia|done|done].
  - rewrite length_app. simpl. lia.
  - done.
Qed.

Lemma tree_ext m m' root own :
  tree_inv m root own ->
  (forall q pq j, own q = Some pq -> (length pq < 3)%nat -> 0 <= j < 512 -> m' (q + 8 * j) = m (q + 8 * j)) ->
  tree_inv m' root own.
Proof.
  intros [H1 H2 H3] Hm. split; [done..|]. intros q pq j Hq Hl Hg.
  rewrite (Hm q pq j) by (done || by apply (good_last pq)). by apply H3.
Qed.

(** ** Writing a leaf *)

Section leaf.
Context m (root : Z) own (p i x : Z) path.
Hypothesis Hinv : tree_inv m root own.
Hypothesis Hlen : length path = 3%nat.
Hypothesis Hgood : good_path (path ++ [i]).
Hypothesis Hreach : reach m root path = Some p.
Let m' := mem_write m (p + 8 * i) x.

Lemma leaf_own : own p = Some path.
Proof. apply (reach_root m root); [done|by apply good_path_app in Hgood|lia|done]. Qed.

Lemma leaf_interior q pq j :
  own q = Some pq -> (length pq < 3)%nat -> 0 <= j < 512 -> m' (q + 8 * j) = m (q + 8 * j).
Proof.
  intros Hq Hl Hj. unfold m', mem_write. destruct (Z.eqb_spec (q + 8 * j) (p + 8 * i)) as [E|]; [|done].
  apply entry_disjoint in E as [-> ->]; [|by apply (own_aligned m root own _ _ Hinv Hq)
    |by apply (own_aligned m root own _ _ Hinv leaf_own)|done|by apply (good_last path)].
  rewrite leaf_own in Hq. injection Hq as <-. lia.
Qed.

Lemma leaf_inv : tree_inv m' root own.
Proof. apply tree_ext with m; [done|apply leaf_interior]. Qed.

Lemma leaf_lk l j :
  length l = 3%nat -> good_path (l ++ [j]) ->
  lk m' root (l ++ [j]) =
    if decide (l ++ [j] = path ++ [i]) then (if f_present F x then Some x else None)
    else lk m root (l ++ [j]).
Proof.
  intros Hl3 Hg. rewrite !lk_reach. pose proof (good_path_app _ _ Hg) as Hgl.
  rewrite (reach_ext m m' root own root [] l Hinv leaf_interior)
    by (done || (simpl; lia) || apply (tr_root _ _ _ Hinv)).
  destruct (reach m _ l) as [t|] eqn:Et; simpl.
  - assert (own t = Some l) as Ht by (apply (reach_root m root); done || lia).
    unfold m', mem_write. case_decide as E.
    + apply app_inj_2 in E as [-> [= ->]]; [|done].
      rewrite Hreach in Et. injection Et as ->. by rewrite Z.eqb_refl.
    + destruct (Z.eqb_spec (t + 8 * j) (p + 8 * i)) as [Ec|]; [|done].
      apply entry_disjoint in Ec as [Ep Ei]; [|by apply (own_aligned m root own _ _ Hinv Ht)
        |by apply (own_aligned m root own _ _ Hinv leaf_own)|by apply (good_last l)|by apply (good_last path)].
      rewrite Ep, leaf_own in Ht. destruct E. congruence.
  - case_decide as E; [|done]. apply app_inj_2 in E as [-> _]; [|done]. congruence.
Qed.

Lemma leaf_outside y : own (Pmm.page_align_down y) = None -> m' y = m y.
Proof.
  intros Hy. unfold m', mem_write. destruct (Z.eqb_spec y (p + 8 * i)) as [->|]; [|done].
  rewrite align_entry, leaf_own in Hy; [done|by apply (own_aligned m root own _ _ Hinv leaf_own)
    |by apply (good_last path)].
Qed.
End leaf.

(** ** Linking in an empty table *)

Section create.
Context `{!FormatOk F}.
Context m (root : Z) own (t i c : Z) path.
Hypothesis Hinv : tree_inv m root own.
Hypothesis Hframe : f_frame F c.
Hypothesis Hfresh : own c = None.
Hypothesis Hlen : (length path < 3)%nat.
Hypothesis Hgood : good_path (path ++ [i]).
Hypothesis Hown : own t = Some path.
Hypothesis Habsent : f_present F (m (t + 8 * i)) = false.
Let m' := mem_write (mem_zero m c PAGE_SIZE) (t + 8 * i) (f_link F c).
Let own' := fun q => if q =? c then Some (path ++ [i]) else own q.

Lemma create_fresh q pq : own q = Some pq -> q <> c.
Proof. intros Hq ->. congruence. Qed.

(** Cells of the tables that were there. *)
Lemma create_cell q pq j :
  own q = Some pq -> 0 <= j < 512 ->
  m' (q + 8 * j) = if decide (q = t /\ j = i) then f_link F c else m (q + 8 * j).
Proof.
  intros Hq Hj. pose proof (create_fresh q pq Hq) as Hne.
  pose proof (own_aligned m root own q pq Hinv Hq) as Hfq.
  pose proof (own_aligned m root own t path Hinv Hown) as Hft.
  unfold m', mem_write. destruct (Z.eqb_spec (q + 8 * j) (t + 8 * i)) as [E|E].
  - apply entry_disjoint in E as [-> ->]; [|done|done|done|by apply (good_last path)].
    by rewrite decide_True.
  - rewrite decide_False by (intros [-> ->]; done). unfold mem_zero.
    pose proof (fo_aligned c Hframe) as Hc.
    destruct (Z.leb_spec c (q + 8 * j)), (Z.ltb_spec (q + 8 * j) (c + PAGE_SIZE)); simpl; try done.
    exfalso. unfold PAGE_SIZE in *. lia.
Qed.

(** Cells of the new table. *)
Lemma create_zero j : 0 <= j < 512 -> m' (c + 8 * j) = 0.
Proof.
  intros Hj. unfold m', mem_write.
  destruct (Z.eqb_spec (c + 8 * j) (t + 8 * i)) as [E|E].
  - apply entry_disjoint in E as [E _]; [|by apply fo_aligned|by apply (own_aligned m root own t path)|done
      |by apply (good_last path)].
    by destruct (create_fresh t path Hown).
  - unfold mem_zero, PAGE_SIZE.
    destruct (Z.leb_spec c (c + 8 * j)), (Z.ltb_spec (c + 8 * j) (c + 4096)); simpl; done || lia.
Qed.

Lemma create_inv : tree_inv m' root own'.
Proof.
  split; unfold own'.
  - pose proof (tr_root _ _ _ Hinv) as Hr. by rewrite (proj2 (Z.eqb_neq _ c) (create_fresh _ _ Hr)).
  - intros q pq Hq. destruct (Z.eqb_spec q c) as [->|Hne]; [done|by apply (tr_frame _ _ _ Hinv q pq)].
  - intros q pq j Hq Hl Hg Hp. pose proof (good_last pq j Hg) as Hj.
    destruct (Z.eqb_spec q c) as [->|Hne]; [by rewrite create_zero, fo_zero in Hp|].
    rewrite (create_cell q pq j Hq Hj) in *. destruct (decide (q = t /\ j = i)) as [[-> ->]|Hn].
    + rewrite fo_child, Z.eqb_refl by done. congruence.
    + pose proof (tr_child _ _ _ Hinv q pq j Hq Hl Hg Hp) as Hc.
      by rewrite (proj2 (Z.eqb_neq _ c) (create_fresh _ _ Hc)).
Qed.

Lemma create_lk q pq l :
  own q = Some pq -> (length pq + length l = 4)%nat -> good_path (pq ++ l) ->
  lk m' q l = lk m q l.
Proof.
  revert q pq. induction l as [|j l IH]; intros q pq Hq Hl Hg; simpl; [done|]. simpl in Hl.
  rewrite cons_middle, app_assoc in Hg. pose proof (good_path_app _ _ Hg) as Hgj.
  pose proof (good_last pq j Hgj) as Hj.
  rewrite (create_cell q pq j Hq Hj). case_decide as E.
  - destruct E as [-> ->]. rewrite Habsent, fo_present, fo_child by done.
    rewrite Hown in Hq. injection Hq as <-. destruct l as [|k l]; [simpl in Hl; lia|].
    simpl. rewrite create_zero; [by rewrite fo_zero|]. by apply good_middle in Hg.
  - destruct (f_present _ (m (q + 8 * j))) eqn:Hp; [|reflexivity]. destruct l as [|k l]; [done|].
    apply (IH _ (pq ++ [j])); [|rewrite length_app; simpl in *; lia|done].
    apply (tr_child _ _ _ Hinv); [done|simpl in Hl; lia|done|done].
Qed.

Lemma create_reach q pq l t' :
  own q = Some pq -> (length pq + length l <= 3)%nat -> good_path (pq ++ l) ->
  reach m q l = Some t' -> reach m' q l = Some t'.
Proof.
  revert q pq. induction l as [|j l IH]; intros q pq Hq Hl Hg; simpl; [done|]. simpl in Hl.
  rewrite cons_middle, app_assoc in Hg. pose proof (good_path_app _ _ Hg) as Hgj.
  destruct (f_present _ (m (q + 8 * j))) eqn:Hp; [|done].
  rewrite (create_cell q pq j Hq (good_last pq j Hgj)).
  rewrite decide_False by (intros [-> ->]; congruence). rewrite Hp.
  apply (IH _ (pq ++ [j])); [|rewrite length_app; simpl; lia|done].
  apply (tr_child _ _ _ Hinv); [done|lia|done|done].
Qed.

Lemma create_outside x : own' (Pmm.page_align_down x) = None -> m' x = m x.
Proof.
  unfold own'. destruct (Z.eqb_spec (Pmm.page_align_down x) c) as [|Hne]; [done|]. intros Hx.
  pose proof (own_aligned m root own t path Hinv Hown) as Hft.
  unfold m', mem_write, mem_zero. destruct (Z.eqb_spec x (t + 8 * i)) as [->|].
  - rewrite align_entry, Hown in Hx; [done|done|by apply (good_last path)].
  - destruct (Z.leb_spec c x), (Z.ltb_spec x (c + PAGE_SIZE)); simpl; try done.
    destruct Hne. pose proof (fo_aligned c Hframe). rewrite Pmm.page_align_down_spec. unfold PAGE_SIZE in *. lia.
Qed.

(** All of it: the new table is reached by its path, no translation changes,
    and only the pages of the tables are written. *)
Lemma create_table :
  reach m root path = Some t ->
  tree_inv m' root own' /\ own' c = Some (path ++ [i]) /\
  reach m' root (path ++ [i]) = Some c /\
  (forall l, length l = 4%nat -> good_path l -> lk m' root l = lk m root l) /\
  (forall x, own' (Pmm.page_align_down x) = None -> m' x = m x).
Proof.
  intros Hr. split_and!.
  - apply create_inv.
  - unfold own'. by rewrite Z.eqb_refl.
  - rewrite reach_snoc, (create_reach root [] path t); [|apply (tr_root _ _ _ Hinv)|simpl; lia
      |by apply good_path_app in Hgood|done]. simpl.
    rewrite (create_cell t path i Hown (good_last path i Hgood)), decide_True by done.
    by rewrite fo_present, fo_child.
  - intros l Hl Hg. apply (create_lk root []); [apply (tr_root _ _ _ Hinv)|simpl; lia|done].
  - apply create_outside.
Qed.
End create.
End tree.
