(* ===== verification/Paging.v ===== *)
(** * x86-64 page tables (kernel/arch/x86_64/paging.c, paging.h)

    The four-level walk over tables in physical memory, with the operations
    that map, unmap and translate.  The abstraction is a map from virtual pages
    to page table entries; the invariant is that of PageTree, for the format of
    an x86-64 entry.

    [aligned_alloc], which provides the pages for new tables, is not part of
    the repository and is a parameter; so is [PAGE_MASK], which paging.h defines
    as [~0xFFF] and include/omnios_kernel.h, included after it, as
    [0xFFFFF000]. *)

From stdpp Require Import base numbers list option tactics.
From S2P Require Import Prelude Pmm PageTree.

Module Paging.

Definition PTE_PRESENT : Z := 1.
Definition PTE_WRITABLE : Z := 2.
Definition PTE_USER : Z := 4.
Definition PTE_GLOBAL : Z := 256.
Definition PTE_NX : Z := 2 ^ 63.

Definition KERNEL_VMA_BASE : Z := 0xFFFFFFFF80000000.
Definition KERNEL_PML4_IDX : Z := 511.
Definition KERNEL_HEAP_BASE : Z := 0xFFFFFFFF90000000.
Definition USER_BASE : Z := 0x400000.

(** The two definitions of [PAGE_MASK]. *)
Definition PAGE_MASK_paging : Z := 2 ^ 64 - 4096.
Definition PAGE_MASK_kernel : Z := 0xFFFFF000.

(** The control registers and static variables the file uses; [H] is the state
    of [aligned_alloc]. *)
Record paging_state (H : Type) := mk_paging {
  pmm : Pmm.pmm_state;
  kernel_pml4_phys : Z;
  halloc : H;
  cr3 : Z;
  cr4 : Z;
  efer : Z;
  pcid_enabled : bool;
  early_mapped : bool;
}.
Arguments mk_paging {H}.
Arguments pmm {H}.
Arguments kernel_pml4_phys {H}.
Arguments halloc {H}.
Arguments cr3 {H}.
Arguments cr4 {H}.
Arguments efer {H}.
Arguments pcid_enabled {H}.
Arguments early_mapped {H}.

Definition pmem {H} (s : paging_state H) : Z -> Z := Pmm.pmem (pmm s).

Definition set_pmm {H} (p : Pmm.pmm_state) (s : paging_state H) : paging_state H :=
  mk_paging p (kernel_pml4_phys s) (halloc s) (cr3 s) (cr4 s) (efer s) (pcid_enabled s) (early_mapped s).

Definition set_pmem {H} (m : Z -> Z) (s : paging_state H) : paging_state H :=
  set_pmm (Pmm.set_mem m (pmm s)) s.

Definition set_halloc {H} (h : H) (s : paging_state H) : paging_state H :=
  mk_paging (pmm s) (kernel_pml4_phys s) h (cr3 s) (cr4 s) (efer s) (pcid_enabled s) (early_mapped s).

Definition present (pte : Z) : bool := truthy (Z.land pte PTE_PRESENT).

(** Pointer arithmetic on the higher-half window, and the physical address a
    pointer stands for: boot.S maps low memory one to one and again at
    [KERNEL_VMA_BASE]. *)
Definition phys_to_virt (phys : Z) : Z :=
  if KERNEL_VMA_BASE <=? phys then phys else u64 (phys + KERNEL_VMA_BASE).

Definition linear (va : Z) : Z := if KERNEL_VMA_BASE <=? va then va - KERNEL_VMA_BASE else va.

Definition pml4_idx (virt : Z) : Z := Z.land (Z.shiftr virt 39) 0x1FF.
Definition pdp_idx (virt : Z) : Z := Z.land (Z.shiftr virt 30) 0x1FF.
Definition pd_idx (virt : Z) : Z := Z.land (Z.shiftr virt 21) 0x1FF.
Definition pt_idx (virt : Z) : Z := Z.land (Z.shiftr virt 12) 0x1FF.

(** Physical address of [&phys_to_virt(table)->entries[idx]]. *)
Definition entry_addr (table idx : Z) : Z := linear (phys_to_virt table) + 8 * idx.

Section operations.
Context {H : Type} (aligned_alloc : H -> Z * H) (PAGE_MASK : Z).
Implicit Types (s : paging_state H).

(** One level of the walk: the table the entry points to, created when it is
    missing and [create] is set. *)
Definition next_table (create : bool) (table idx : Z) (s : paging_state H)
    : option Z * paging_state H :=
  let e := entry_addr table idx in
  if present (pmem s e) then (Some (Z.land (pmem s e) PAGE_MASK), s)
  else if negb create then (None, s)
  else
    let '(new_page, h) := aligned_alloc (halloc s) in
    let s1 := set_halloc h s in
    let s2 := set_pmem (mem_zero (pmem s1) (linear new_page) PAGE_SIZE) s1 in
    let pte := Z.lor (Z.land new_page PAGE_MASK) (Z.lor PTE_PRESENT (Z.lor PTE_WRITABLE PTE_USER)) in
    let s3 := set_pmem (mem_write (pmem s2) e pte) s2 in
    (Some (Z.land (pmem s3 e) PAGE_MASK), s3).

(** [None] is NULL, otherwise the physical address of the entry. *)
Definition walk (virt : Z) (create : bool) (s : paging_state H) : option Z * paging_state H :=
  match next_table create (kernel_pml4_phys s) (pml4_idx virt) s with
  | (None, s1) => (None, s1)
  | (Some pdp_table, s1) =>
      match next_table create pdp_table (pdp_idx virt) s1 with
      | (None, s2) => (None, s2)
      | (Some pd_table, s2) =>
          match next_table create pd_table (pd_idx virt) s2 with
          | (None, s3) => (None, s3)
          | (Some pt_table, s3) => (Some (entry_addr pt_table (pt_idx virt)), s3)
          end
      end
  end.

Definition leaf_pte (phys flags : Z) : Z :=
  let pte := Z.lor (Z.lor (Z.land phys PAGE_MASK) PTE_PRESENT) flags in
  if phys <? 0x100000000 then Z.lor pte PTE_GLOBAL else pte.

Definition paging_map_page (virt phys flags : Z) (s : paging_state H) : outcome (paging_state H) :=
  match walk virt true s with
  | (None, _) => Halted WalkFailed
  | (Some entry, s1) => Done (set_pmem (mem_write (pmem s1) entry (leaf_pte phys flags)) s1)
  end.

Definition paging_unmap_page (virt : Z) (s : paging_state H) : paging_state H :=
  match walk virt false s with
  | (None, s1) => s1
  | (Some entry, s1) =>
      if present (pmem s1 entry) then set_pmem (mem_write (pmem s1) entry 0) s1 else s1
  end.

Definition paging_virt_to_phys (virt : Z) (s : paging_state H) : Z :=
  match walk virt false s with
  | (None, _) => 0
  | (Some entry, s1) =>
      if present (pmem s1 entry)
      then Z.lor (Z.land (pmem s1 entry) PAGE_MASK) (Z.land virt 0xFFF) else 0
  end.

(** The loops over a region; [n] is the number of rounds left, which for
    [size <= 2^64 - 4096] is [size] rounded up to pages. *)
Fixpoint map_region_loop (n : nat) (virt phys flags : Z) (s : paging_state H)
    : outcome (paging_state H) :=
  match n with
  | O => Done s
  | S n' =>
      s1 ← paging_map_page virt phys flags s;
      map_region_loop n' (u64 (virt + PAGE_SIZE)) (u64 (phys + PAGE_SIZE)) flags s1
  end.

Definition rounds (size : Z) : nat := Z.to_nat ((size + PAGE_SIZE - 1) / PAGE_SIZE).

Definition paging_map_region (virt phys size flags : Z) (s : paging_state H)
    : outcome (paging_state H) := map_region_loop (rounds size) virt phys flags s.

Fixpoint unmap_region_loop (n : nat) (virt : Z) (s : paging_state H) : paging_state H :=
  match n with
  | O => s
  | S n' => unmap_region_loop n' (u64 (virt + PAGE_SIZE)) (paging_unmap_page virt s)
  end.

Definition paging_unmap_region (virt size : Z) (s : paging_state H) : paging_state H :=
  unmap_region_loop (rounds size) virt s.

Definition paging_switch (pml4 : Z) (s : paging_state H) : paging_state H :=
  mk_paging (pmm s) (kernel_pml4_phys s) (halloc s) pml4 (cr4 s) (efer s) (pcid_enabled s) (early_mapped s).

Definition paging_current_pml4 (s : paging_state H) : Z := cr3 s.

Definition paging_early_map (phys size : Z) (s : paging_state H) : outcome (paging_state H) :=
  let s1 := mk_paging (pmm s) (kernel_pml4_phys s) (halloc s) (cr3 s) (cr4 s) (efer s)
              (pcid_enabled s) true in
  paging_map_region phys phys size PTE_WRITABLE s1.

Definition paging_enable_pcid (s : paging_state H) : paging_state H :=
  mk_paging (pmm s) (kernel_pml4_phys s) (halloc s) (cr3 s) (Z.lor (cr4 s) (Z.shiftl 1 17))
    (efer s) true (early_mapped s).

Definition paging_init (s : paging_state H) : paging_state H :=
  let root := Z.land (cr3 s) PAGE_MASK in
  let m := mem_write (pmem s) (entry_addr root KERNEL_PML4_IDX)
             (Z.lor root (Z.lor PTE_PRESENT PTE_WRITABLE)) in
  let s1 := mk_paging (Pmm.set_mem m (pmm s)) root (halloc s) (cr3 s)
              (Z.lor (Z.lor (cr4 s) (Z.shiftl 1 20)) (Z.shiftl 1 21))
              (Z.lor (efer s) (Z.shiftl 1 11)) (pcid_enabled s) (early_mapped s) in
  paging_enable_pcid s1.
End operations.

(** ** The page source

    What the walk relies on: [aligned_alloc] returns a page-aligned page of the
    low two gigabytes (the part of memory both boot mappings cover) that is not
    in use, as long as it has room. *)

Definition frame (p : Z) : Prop := 0 <= p < 2 ^ 31 - PAGE_SIZE /\ p mod PAGE_SIZE = 0.

Class PageSource (H : Type) := {
  ps_alloc : H -> Z * H;
  ps_used : H -> Z -> Prop;
  ps_room : H -> Z;
  ps_pool : Z -> Prop;               (* the pages it may ever return *)
  ps_in_pool h : 0 < ps_room h -> ps_pool (ps_alloc h).1;
  ps_frame h : 0 < ps_room h -> frame (ps_alloc h).1;
  ps_fresh h : 0 < ps_room h -> ~ ps_used h (ps_alloc h).1;
  ps_used_after h q :
    0 < ps_room h -> ps_used (ps_alloc h).2 q <-> ps_used h q \/ q = (ps_alloc h).1;
  ps_room_after h : 0 < ps_room h -> ps_room (ps_alloc h).2 = ps_room h - 1;
}.

(** A source that hands out the pages from [h] up to 16 MB. *)
#[export] Instance bump_source : PageSource Z.
Proof.
  refine {|
    ps_alloc h := (PAGE_SIZE * h, h + 1);
    ps_used h q := exists k, 0 <= k < h /\ q = PAGE_SIZE * k;
    ps_room h := if 0 <=? h then 4096 - h else 0;
    ps_pool q := 0 <= q < 0x1000000;
  |}; simpl; unfold frame, PAGE_SIZE; intros h; destruct (Z.leb_spec 0 h); try lia.
  - intros _ (k & Hk & E). lia.
  - intros q _. split.
    + intros (k & Hk & ->). destruct (decide (k = h)) as [->|]; [by right|].
      left. exists k. split; [lia|done].
    + intros [(k & Hk & ->)| ->]; [exists k|exists h]; (split; [lia|done]).
  - intros _. destruct (Z.leb_spec 0 (h + 1)); lia.
Defined.

(** ** Specification: a map from virtual pages to entries *)

(** Addresses outside the last top-level entry.  [paging_init] makes that entry
    point to the top-level table itself, so the tables are no tree there; the
    window at [KERNEL_VMA_BASE] and the kernel heap at [KERNEL_HEAP_BASE] are the
    addresses left out. *)
Definition mappable (virt : Z) : Prop := pml4_idx virt <> KERNEL_PML4_IDX.

(** The entry the tables hold for an address, if it is present. *)
Definition lookup {H} (PAGE_MASK : Z) (s : paging_state H) (virt : Z) : option Z :=
  match walk (fun h => (0, h)) PAGE_MASK virt false s with
  | (Some e, s') => if present (pmem s' e) then Some (pmem s' e) else None
  | (None, _) => None
  end.

(** The format of an x86-64 entry. *)
Definition x86_format (PAGE_MASK : Z) : format :=
  mk_format present (fun x => Z.land x PAGE_MASK) (fun c => Z.lor c 7) frame
    (fun i => i <> KERNEL_PML4_IDX).

(** The tables form a tree, whose pages come from the page source. *)
Record pt_inv {H} `{!PageSource H} (PAGE_MASK : Z) (s : paging_state H)
    (own : Z -> option (list Z)) : Prop := {
  pt_tree : tree_inv (x86_format PAGE_MASK) (pmem s) (kernel_pml4_phys s) own;
  pt_used p path : own p = Some path -> ps_used (halloc s) p;
}.

(** ** Addresses and indices *)

Lemma entry_addr_frame p i : frame p -> entry_addr p i = p + 8 * i.
Proof.
  intros [Hp _]. unfold entry_addr, phys_to_virt, linear, KERNEL_VMA_BASE, PAGE_SIZE in *.
  rewrite (proj2 (Z.leb_gt _ p)) by lia. rewrite wrap_small by lia.
  rewrite (proj2 (Z.leb_le _ (p + _))) by lia. lia.
Qed.

Lemma linear_frame p : frame p -> linear p = p.
Proof.
  intros [Hp _]. unfold linear, KERNEL_VMA_BASE, PAGE_SIZE in *. by rewrite (proj2 (Z.leb_gt _ p)) by lia.
Qed.

Lemma low_mappable v : 0 <= v < 2 ^ 47 -> mappable v.
Proof.
  intros Hv. unfold mappable, pml4_idx, KERNEL_PML4_IDX. rewrite land_511, Z.shiftr_div_pow2 by lia.
  change (2 ^ 39) with 549755813888. lia.
Qed.

Lemma present_odd x : present x = Z.odd x.
Proof.
  unfold present, PTE_PRESENT. change 1 with (2 ^ 0) at 1. rewrite truthy_land_bit by done.
  by rewrite Z.bit0_odd.
Qed.

Lemma present_0 : present 0 = false.
Proof. done. Qed.

(** The indices of an address that lead to its last table, and all four. *)
Definition tables_of (virt : Z) : list Z := [pml4_idx virt; pdp_idx virt; pd_idx virt].

Lemma path_of_tables virt : path_of virt = tables_of virt ++ [pt_idx virt].
Proof. done. Qed.

Lemma mappable_good mask virt : mappable virt -> good_path (x86_format mask) (tables_of virt ++ [pt_idx virt]).
Proof. apply (path_of_good (x86_format mask) virt). Qed.

(** ** Refinement *)

Section refinement.
Context {H : Type} `{!PageSource H} (mask : Z).
Hypothesis mask_frame : forall p, frame p -> Z.land p mask = p.
Hypothesis mask_flags : Z.land 7 mask = 0.
Implicit Types (s : paging_state H) (own : Z -> option (list Z)).
Let F := x86_format mask.

#[local] Instance x86_format_aligned : FormatAligned F.
Proof. by intros c [_ Hc]. Qed.

#[local] Instance x86_format_ok : FormatOk F.
Proof.
  split; simpl.
  - apply _.
  - apply present_0.
  - intros c Hc. rewrite present_odd, <-Z.bit0_odd, Z.lor_spec. by rewrite orb_true_r.
  - intros c Hc. by rewrite Z.land_lor_distr_l, mask_flags, (mask_frame c Hc), Z.lor_0_r.
Qed.

Lemma own_frame s own q pq : pt_inv mask s own -> own q = Some pq -> frame q.
Proof. intros [Ht _] Hq. by apply (tr_frame _ _ _ _ Ht q pq). Qed.

Lemma next_ro al t i s :
  frame t ->
  next_table al mask false t i s =
    (if present (pmem s (t + 8 * i)) then Some (Z.land (pmem s (t + 8 * i)) mask) else None, s).
Proof.
  intros Ht. unfold next_table. rewrite entry_addr_frame by done. by destruct (present _).
Qed.

(** The read-only walk. *)
Lemma walk_ro al virt s own :
  pt_inv mask s own -> mappable virt ->
  walk al mask virt false s =
    ((fun t => t + 8 * pt_idx virt) <$> reach F (pmem s) (kernel_pml4_phys s) (tables_of virt), s).
Proof.
  intros [Hinv _] Hm. pose proof (mappable_good mask virt Hm) as Hg. unfold tables_of in *.
  assert (forall l t, reach F (pmem s) (kernel_pml4_phys s) l = Some t ->
    good_path F l -> (length l <= 3)%nat -> frame t) as Hf.
  { intros l t Hr Hgl Hl. apply (tr_frame _ _ _ _ Hinv t l). by apply (reach_root F _ _ _ _ _ Hinv). }
  assert (good_path F [pml4_idx virt; pdp_idx virt; pd_idx virt]) as Hg3 by by apply good_path_app in Hg.
  assert (good_path F [pml4_idx virt; pdp_idx virt]) as Hg2 by by apply (good_path_app F _ [pd_idx virt]).
  assert (good_path F [pml4_idx virt]) as Hg1 by by apply (good_path_app F _ [pdp_idx virt]).
  unfold walk. rewrite next_ro by apply (tr_frame _ _ _ _ Hinv _ [] (tr_root _ _ _ _ Hinv)).
  specialize (Hf [pml4_idx virt]) as F1. specialize (Hf [pml4_idx virt; pdp_idx virt]) as F2.
  specialize (Hf [pml4_idx virt; pdp_idx virt; pd_idx virt]) as F3. simpl in *.
  destruct (present (pmem s (_ + 8 * pml4_idx virt))); [|done].
  rewrite next_ro by (apply F1; done || lia).
  destruct (present (pmem s (_ + 8 * pdp_idx virt))); [|done].
  rewrite next_ro by (apply F2; done || lia).
  destruct (present (pmem s (_ + 8 * pd_idx virt))); [|done]. simpl.
  rewrite entry_addr_frame by (apply F3; done || lia). done.
Qed.

Lemma lookup_lk virt s own :
  pt_inv mask s own -> mappable virt ->
  lookup mask s virt = lk F (pmem s) (kernel_pml4_phys s) (path_of virt).
Proof.
  intros Hinv Hm. unfold lookup. rewrite (walk_ro _ virt s own Hinv Hm).
  rewrite path_of_tables, lk_reach. by destruct (reach _ _ _ _).
Qed.

(** Memory that agrees on the tables gives the same invariant and the same
    translations. *)
Lemma pt_inv_ext s s' own :
  pt_inv mask s own -> kernel_pml4_phys s' = kernel_pml4_phys s -> halloc s' = halloc s ->
  (forall q pq j, own q = Some pq -> 0 <= j < 512 -> pmem s' (q + 8 * j) = pmem s (q + 8 * j)) ->
  pt_inv mask s' own /\
  forall v, mappable v -> lookup mask s' v = lookup mask s v.
Proof.
  intros Hinv Hr Hh Hm. assert (pt_inv mask s' own) as Hinv'.
  { destruct Hinv as [H1 H2]. split; [|by rewrite Hh]. rewrite Hr.
    apply tree_ext with (pmem s); [done|]. intros q pq j Hq _. by apply (Hm q pq j). }
  split; [done|]. intros v Hv. rewrite (lookup_lk v s' own), (lookup_lk v s own) by done. rewrite Hr.
  apply (lk_ext F (pmem s) _ (kernel_pml4_phys s) own _ []);
    [apply Hinv|done|apply (tr_root _ _ _ _ (pt_tree _ _ _ Hinv))|done|by apply path_of_good].
Qed.

(** What a step may write: the pages of the tables it leaves behind, which
    are the old ones and pages of the source. *)
Definition footprint (own own' : Z -> option (list Z)) (s s' : paging_state H) : Prop :=
  pmm s' = Pmm.set_mem (pmem s') (pmm s) /\
  (forall x, own' (Pmm.page_align_down x) = None -> pmem s' x = pmem s x) /\
  (forall q, own' q = None -> own q = None) /\
  (forall q, own' q <> None -> own q <> None \/ ps_pool q).

Lemma footprint_refl own s : footprint own own s s.
Proof. split_and!; [by destruct s as [[]]|done..|auto]. Qed.

Lemma footprint_trans own1 own2 own3 s1 s2 s3 :
  footprint own1 own2 s1 s2 -> footprint own2 own3 s2 s3 -> footprint own1 own3 s1 s3.
Proof.
  intros (A1 & A2 & A3 & A4) (B1 & B2 & B3 & B4). split_and!.
  - by rewrite B1, A1.
  - intros x Hx. rewrite B2 by done. apply A2. auto.
  - auto.
  - intros q Hq. destruct (B4 q Hq); auto.
Qed.

(** Steps that add tables without changing any translation. *)
Definition grows (s s' : paging_state H) (n : Z) : Prop :=
  kernel_pml4_phys s' = kernel_pml4_phys s /\
  ps_room (halloc s) - n <= ps_room (halloc s') /\
  (forall v, mappable v ->
    lk F (pmem s') (kernel_pml4_phys s) (path_of v) =
    lk F (pmem s) (kernel_pml4_phys s) (path_of v)).

Lemma grows_refl s n : 0 <= n -> grows s s n.
Proof. intros. split_and!; [done|lia|done]. Qed.

Lemma grows_trans s1 s2 s3 n m :
  grows s1 s2 n -> grows s2 s3 m -> grows s1 s3 (n + m).
Proof.
  intros (H1 & H2 & H3) (H4 & H5 & H6). rewrite H1 in *. split_and!; [done|lia|].
  intros v Hv. by rewrite H6, H3.
Qed.

Lemma next_create s own t i path :
  pt_inv mask s own -> own t = Some path -> (length path < 3)%nat -> good_path F (path ++ [i]) ->
  0 < ps_room (halloc s) -> reach F (pmem s) (kernel_pml4_phys s) path = Some t ->
  exists c s' own', next_table ps_alloc mask true t i s = (Some c, s') /\
    pt_inv mask s' own' /\ own' c = Some (path ++ [i]) /\ grows s s' 1 /\
    footprint own own' s s' /\
    reach F (pmem s') (kernel_pml4_phys s) (path ++ [i]) = Some c.
Proof.
  intros Hinv Ht Hlen Hg Hroom Hr. unfold next_table. pose proof Hinv as [Htree Hused].
  rewrite entry_addr_frame by by apply (own_frame s own t path).
  destruct (present (pmem s (t + 8 * i))) eqn:Hp; cbn [negb].
  - eexists _, s, own. split; [done|]. split_and!; [done| |by apply grows_refl|apply footprint_refl|].
    + by apply (tr_child _ _ _ _ Htree).
    + rewrite reach_snoc, Hr. simpl. by rewrite Hp.
  - pose proof (ps_frame (halloc s) Hroom) as Hfc. pose proof (ps_fresh (halloc s) Hroom) as Hnu.
    pose proof (ps_in_pool (halloc s) Hroom) as Hpool.
    pose proof (ps_room_after (halloc s) Hroom) as Hra.
    pose proof (fun q => ps_used_after (halloc s) q Hroom) as Hua.
    destruct (ps_alloc (halloc s)) as [c h]. cbn [fst snd] in *.
    assert (own c = None) as Hfresh by (destruct (own c) eqn:Eo; [by destruct (Hnu (Hused c _ Eo))|done]).
    rewrite (linear_frame c Hfc), (mask_frame c Hfc).
    change (Z.lor PTE_PRESENT (Z.lor PTE_WRITABLE PTE_USER)) with 7.
    destruct (create_table F (pmem s) _ own t i c path Htree Hfc Hfresh Hlen Hg Ht Hp Hr)
      as (Htree' & Hc & Hrc & Hlk & Hout).
    eexists _, (set_halloc h (set_pmem (mem_write (mem_zero (pmem s) c PAGE_SIZE) (t + 8 * i) (Z.lor c 7)) s)),
      (fun q => if q =? c then Some (path ++ [i]) else own q).
    split; [reflexivity|].
    assert (Z.land (mem_write (mem_zero (pmem s) c PAGE_SIZE) (t + 8 * i) (Z.lor c 7) (t + 8 * i)) mask = c) as Ec.
    { unfold mem_write. rewrite Z.eqb_refl. by apply (fo_child (F := F)). }
    change (pmem (set_pmem _ (set_pmem _ (set_halloc h s)))) with
      (mem_write (mem_zero (pmem s) c PAGE_SIZE) (t + 8 * i) (Z.lor c 7)).
    rewrite Ec. split_and!; [|exact Hc| | |exact Hrc].
    + split; [exact Htree'|]. intros q pq. simpl. rewrite Hua.
      destruct (Z.eqb_spec q c) as [->|]; [by right|]. left. by apply (Hused q pq).
    + split_and!; [done|simpl; lia|]. intros v Hv. by apply Hlk; [|apply path_of_good].
    + split_and!; [done|exact Hout| |].
      * intros q. by destruct (q =? c).
      * intros q. destruct (Z.eqb_spec q c) as [->|]; auto.
Qed.

(** The creating walk. *)
Lemma walk_create virt s own :
  pt_inv mask s own -> mappable virt -> 3 <= ps_room (halloc s) ->
  exists p s' own', walk ps_alloc mask virt true s = (Some (p + 8 * pt_idx virt), s') /\
    pt_inv mask s' own' /\ grows s s' 3 /\ footprint own own' s s' /\
    reach F (pmem s') (kernel_pml4_phys s') (tables_of virt) = Some p.
Proof.
  intros Hinv Hm Hroom. pose proof (mappable_good mask virt Hm) as Hg. unfold walk, tables_of in *.
  assert (good_path F [pml4_idx virt; pdp_idx virt; pd_idx virt]) as Hg3 by by apply good_path_app in Hg.
  assert (good_path F [pml4_idx virt; pdp_idx virt]) as Hg2 by by apply (good_path_app F _ [pd_idx virt]).
  assert (good_path F [pml4_idx virt]) as Hg1 by by apply (good_path_app F _ [pdp_idx virt]).
  destruct (next_create s own _ (pml4_idx virt) [] Hinv (tr_root _ _ _ _ (pt_tree _ _ _ Hinv)))
    as (c1 & s1 & own1 & -> & Hinv1 & Ho1 & Gr1 & Fp1 & Hr1); [simpl; lia|done|lia|done|].
  pose proof Gr1 as (Er1 & Hroom1 & _).
  destruct (next_create s1 own1 c1 (pdp_idx virt) [pml4_idx virt] Hinv1 Ho1)
    as (c2 & s2 & own2 & -> & Hinv2 & Ho2 & Gr2 & Fp2 & Hr2);
    [simpl; lia|done|lia|by rewrite Er1|].
  pose proof Gr2 as (Er2 & Hroom2 & _).
  destruct (next_create s2 own2 c2 (pd_idx virt) [pml4_idx virt; pdp_idx virt] Hinv2 Ho2)
    as (c3 & s3 & own3 & -> & Hinv3 & Ho3 & Gr3 & Fp3 & Hr3);
    [simpl; lia|done|lia|by rewrite Er2|].
  pose proof Gr3 as (Er3 & _).
  rewrite entry_addr_frame by by apply (own_frame s3 own3 c3 _ Hinv3 Ho3).
  exists c3, s3, own3. split; [done|]. split_and!; [done| | |by rewrite Er3].
  - apply (grows_trans s s1 s3 1 2); [done|]. by apply (grows_trans s1 s2 s3 1 1).
  - apply (footprint_trans own own1 own3 s s1 s3); [done|].
    by apply (footprint_trans own1 own2 own3 s1 s2 s3).
Qed.

(** Writing the entry of an address whose tables are there. *)
Lemma write_entry virt x s own p :
  pt_inv mask s own -> mappable virt ->
  reach F (pmem s) (kernel_pml4_phys s) (tables_of virt) = Some p ->
  let s' := set_pmem (mem_write (pmem s) (p + 8 * pt_idx virt) x) s in
  pt_inv mask s' own /\ footprint own own s s' /\
  forall v, mappable v ->
    lookup mask s' v = if decide (vpage v = vpage virt) then (if present x then Some x else None)
                       else lookup mask s v.
Proof.
  intros Hinv Hm Hr s'. pose proof (mappable_good mask virt Hm) as Hg. pose proof Hinv as [Ht Hu].
  assert (pt_inv mask s' own) as Hinv'
    by (split; [by apply (leaf_inv F _ _ _ p (pt_idx virt) x (tables_of virt))|done]).
  split_and!; [done| |].
  - split_and!; [done| |done|auto]. intros y Hy.
    by apply (leaf_outside F (pmem s) (kernel_pml4_phys s) own p (pt_idx virt) x (tables_of virt)).
  - intros v Hv. rewrite (lookup_lk v s' own), (lookup_lk v s own) by done.
    rewrite (path_of_tables v).
    etransitivity; [apply (leaf_lk F (pmem s) (kernel_pml4_phys s) own p (pt_idx virt) x (tables_of virt) Ht eq_refl Hg Hr);
      [done|by apply mappable_good]|].
    rewrite <-!path_of_tables.
    destruct (decide (path_of v = path_of virt)) as [E|E], (decide (vpage v = vpage virt)) as [E'|E'];
      try done; by rewrite <-path_of_eq in E'.
Qed.

(** *** The operations as updates of the map *)

Lemma map_page_spec virt phys flags s own :
  pt_inv mask s own -> mappable virt -> 3 <= ps_room (halloc s) ->
  exists s' own', paging_map_page ps_alloc mask virt phys flags s = Done s' /\
    pt_inv mask s' own' /\ ps_room (halloc s) - 3 <= ps_room (halloc s') /\
    footprint own own' s s' /\
    forall v, mappable v ->
      lookup mask s' v =
        if decide (vpage v = vpage virt)
        then (if present (leaf_pte mask phys flags) then Some (leaf_pte mask phys flags) else None)
        else lookup mask s v.
Proof.
  intros Hinv Hm Hroom. unfold paging_map_page.
  destruct (walk_create virt s own Hinv Hm Hroom) as (p & s1 & own1 & -> & Hinv1 & (Er & Hr1 & Hlk) & Hfp & Hr).
  destruct (write_entry virt (leaf_pte mask phys flags) s1 own1 p Hinv1 Hm Hr) as (Hinv2 & Hfp2 & Hl).
  eexists _, own1. split; [done|]. split_and!; [done|done|by eapply footprint_trans|].
  intros v Hv. rewrite Hl by done. case_decide; [done|].
  rewrite (lookup_lk v s1 own1), (lookup_lk v s own) by done. by rewrite Er, Hlk.
Qed.

Lemma unmap_page_spec virt s own :
  pt_inv mask s own -> mappable virt ->
  pt_inv mask (paging_unmap_page ps_alloc mask virt s) own /\
  forall v, mappable v ->
    lookup mask (paging_unmap_page ps_alloc mask virt s) v =
      if decide (vpage v = vpage virt) then None else lookup mask s v.
Proof.
  intros Hinv Hm. unfold paging_unmap_page. rewrite (walk_ro _ virt s own Hinv Hm).
  assert (lookup mask s virt = None ->
    forall v, mappable v -> lookup mask s v = if decide (vpage v = vpage virt) then None else lookup mask s v)
    as Hnone.
  { intros Hn v Hv. case_decide as E; [|done]. rewrite <-Hn, !(lookup_lk _ s own) by done.
    by rewrite (proj2 (path_of_eq v virt) E). }
  assert (lookup mask s virt =
    p ← reach F (pmem s) (kernel_pml4_phys s) (tables_of virt);
    if present (pmem s (p + 8 * pt_idx virt)) then Some (pmem s (p + 8 * pt_idx virt)) else None) as Hl.
  { rewrite (lookup_lk virt s own) by done. by rewrite path_of_tables, lk_reach. }
  destruct (reach F (pmem s) (kernel_pml4_phys s) (tables_of virt)) as [p|] eqn:Hr; simpl in Hl |- *;
    [|auto].
  destruct (present (pmem s (p + 8 * pt_idx virt))) eqn:Hp; [|auto].
  destruct (write_entry virt 0 s own p Hinv Hm Hr) as (Hinv' & _ & Hl'). split; [done|exact Hl'].
Qed.
End refinement.

(** ** The two masks *)

Definition is_mask (mask : Z) : Prop := mask = PAGE_MASK_paging \/ mask = PAGE_MASK_kernel.

(** The bits a mask keeps are those from 12 to 63 or to 31. *)
Lemma is_mask_land mask p :
  is_mask mask -> exists n, (n = 64 \/ n = 32) /\ Z.land p mask = (p mod 2 ^ n) / 4096 * 4096.
Proof.
  intros [->| ->]; [exists 64|exists 32]; (split; [lia|]).
  - apply (land_mask p 64 12). lia.
  - apply (land_mask p 32 12). lia.
Qed.

Lemma mask_low32 mask p :
  is_mask mask -> 0 <= p < 2 ^ 32 -> Z.land p mask = p / 4096 * 4096.
Proof.
  intros Hm Hp. destruct (is_mask_land mask p Hm) as (n & [->| ->] & ->);
    by rewrite Z.mod_small by lia.
Qed.

Lemma is_mask_frame mask p : is_mask mask -> frame p -> Z.land p mask = p.
Proof. intros Hm [Hp Ha]. unfold PAGE_SIZE in *. rewrite mask_low32 by (done || lia). lia. Qed.

Lemma is_mask_flags mask : is_mask mask -> Z.land 7 mask = 0.
Proof. intros Hm. by rewrite mask_low32. Qed.

Lemma leaf_present mask phys flags : present (leaf_pte mask phys flags) = true.
Proof.
  rewrite present_odd, <-Z.bit0_odd. unfold leaf_pte, PTE_PRESENT.
  destruct (_ <? _); rewrite !Z.lor_spec; simpl; by rewrite ?orb_true_r.
Qed.

(** The frame a leaf entry holds. *)
Lemma leaf_frame mask phys flags :
  is_mask mask -> 0 <= flags < 4096 -> 0 <= phys ->
  Z.land (leaf_pte mask phys flags) mask = Z.land phys mask.
Proof.
  intros Hm Hf Hp. assert (Z.land flags mask = 0) as Ef by (rewrite mask_low32 by (done || lia); lia).
  assert (Z.land PTE_PRESENT mask = 0) as E1 by by rewrite mask_low32.
  assert (Z.land PTE_GLOBAL mask = 0) as E2 by by rewrite mask_low32.
  assert (Z.land (Z.land phys mask) mask = Z.land phys mask) as E3
    by by rewrite <-Z.land_assoc, Z.land_diag.
  unfold leaf_pte. destruct (_ <? _); rewrite !Z.land_lor_distr_l, ?E1, ?E2, ?E3, Ef, !Z.lor_0_r; done.
Qed.

Lemma virt_to_phys_lookup {H} `{!PageSource H} mask v (s : paging_state H) own :
  is_mask mask -> pt_inv mask s own -> mappable v ->
  paging_virt_to_phys ps_alloc mask v s =
    match lookup mask s v with
    | Some pte => Z.lor (Z.land pte mask) (Z.land v 0xFFF)
    | None => 0
    end.
Proof.
  intros Hm Hinv Hv. unfold paging_virt_to_phys, lookup.
  rewrite !(walk_ro mask _ v s own Hinv Hv). destruct (reach _ _ _ _) as [t|]; simpl; [|done].
  by destruct (present _).
Qed.

Lemma page_offset phys v :
  phys mod PAGE_SIZE = 0 -> Z.lor phys (Z.land v 0xFFF) = phys + v mod PAGE_SIZE.
Proof.
  intros Ha. change 0xFFF with (Z.ones 12). rewrite Z.land_ones by lia.
  unfold PAGE_SIZE in *. change (2 ^ 12) with 4096.
  replace phys with (phys / 4096 * 2 ^ 12) by lia. apply lor_low; lia.
Qed.

(** A run of pages maps page by page; earlier pages keep their translation. *)
Lemma map_region_spec {H} `{!PageSource H} mask n virt phys flags (s : paging_state H) own :
  is_mask mask -> pt_inv mask s own ->
  0 <= virt -> virt + PAGE_SIZE * Z.of_nat n <= 2 ^ 47 -> virt mod PAGE_SIZE = 0 ->
  0 <= phys -> phys + PAGE_SIZE * Z.of_nat n <= 2 ^ 64 ->
  3 * Z.of_nat n <= ps_room (halloc s) ->
  exists s' own', map_region_loop ps_alloc mask n virt phys flags s = Done s' /\
    pt_inv mask s' own' /\
    forall v, 0 <= v < 2 ^ 47 -> lookup mask s' v =
      if (virt <=? v) && (v <? virt + PAGE_SIZE * Z.of_nat n)
      then Some (leaf_pte mask (phys + PAGE_SIZE * ((v - virt) / PAGE_SIZE)) flags)
      else lookup mask s v.
Proof.
  intros Hm. pose proof low_mappable as Hmap.
  revert virt phys s own. induction n as [|n IH];
    intros virt phys s own Hinv Hv0 Hv1 Hva Hp0 Hp1 Hroom; simpl map_region_loop.
  - exists s, own. split; [done|]. split; [done|]. intros v Hv.
    destruct (Z.leb_spec virt v), (Z.ltb_spec v (virt + PAGE_SIZE * Z.of_nat 0)); simpl; done || lia.
  - destruct (map_page_spec mask (fun p => is_mask_frame mask p Hm) (is_mask_flags mask Hm)
      virt phys flags s own Hinv) as (s1 & own1 & -> & Hinv1 & Hr1 & _ & Hl1);
      [apply Hmap; unfold PAGE_SIZE in *; lia|lia|].
    cbn [mbind outcome_bind].
    assert (n = 0%nat \/ (0 < n)%nat) as [->|Hn] by lia.
    + simpl. exists s1, own1. split; [done|]. split; [done|]. intros v Hv. rewrite Hl1, leaf_present by auto.
      unfold vpage. unfold PAGE_SIZE in *.
      case_decide as E; destruct (Z.leb_spec virt v), (Z.ltb_spec v (virt + 4096 * Z.of_nat 1)); simpl;
        try lia; try done. do 2 f_equal. lia.
    + destruct (IH (u64 (virt + PAGE_SIZE)) (u64 (phys + PAGE_SIZE)) s1 own1 Hinv1)
        as (s2 & own2 & -> & Hinv2 & Hl2); rewrite ?wrap_small in * by (unfold PAGE_SIZE in *; lia);
        [unfold PAGE_SIZE in *; lia..|].
      exists s2, own2. split; [done|]. split; [done|]. intros v Hv. rewrite Hl2, Hl1, leaf_present by auto.
      unfold vpage. unfold PAGE_SIZE in *.
      destruct (Z.leb_spec (virt + 4096) v), (Z.ltb_spec v (virt + 4096 + 4096 * Z.of_nat n)); simpl;
        repeat case_decide; destruct (Z.leb_spec virt v), (Z.ltb_spec v (virt + 4096 * Z.of_nat (S n)));
        simpl; try lia; try done; do 2 f_equal; lia.
Qed.

(** ** Properties *)

(** C1: on well-formed tables, with either definition of [PAGE_MASK] and room for
    the three tables a walk may need, [paging_map_page] of an address outside the
    last top-level entry never panics and updates the translation like a map: the
    page of [virt] gets the new entry, every other page outside that entry keeps
    its own, and the tables stay well formed. *)
Theorem paging_map_page_refines {H} `{!PageSource H} mask virt phys flags (s : paging_state H) own
    (Hmask : is_mask mask) (Hinv : pt_inv mask s own) (Hvirt : mappable virt)
    (Hroom : 3 <= ps_room (halloc s)) :
  exists s' own', paging_map_page ps_alloc mask virt phys flags s = Done s' /\
    pt_inv mask s' own' /\
    forall v, mappable v ->
      lookup mask s' v =
        if decide (vpage v = vpage virt) then Some (leaf_pte mask phys flags) else lookup mask s v.
Proof.
  destruct (map_page_spec mask (fun p => is_mask_frame mask p Hmask) (is_mask_flags mask Hmask)
    virt phys flags s own Hinv Hvirt Hroom) as (s' & own' & E & Hi & _ & _ & Hl).
  exists s', own'. split; [done|]. split; [done|]. intros v Hv. by rewrite Hl, leaf_present.
Qed.

(** C33: outside the last top-level entry, [paging_unmap_page] removes the entry
    of the page of [virt] and nothing else. *)
Theorem paging_unmap_page_refines {H} `{!PageSource H} mask virt (s : paging_state H) own
    (Hinv : pt_inv mask s own) (Hvirt : mappable virt) :
  let s' := paging_unmap_page ps_alloc mask virt s in
  pt_inv mask s' own /\
  forall v, mappable v ->
    lookup mask s' v = if decide (vpage v = vpage virt) then None else lookup mask s v.
Proof. exact (unmap_page_spec mask virt s own Hinv Hvirt). Qed.

(** After [paging_map_region] of a lower-half range onto frames below
    4 GB, [paging_virt_to_phys] sends every address of the range to the address
    at the same offset of the physical range, and the translation of every
    lower-half address outside the pages of the range is unchanged. *)
Theorem paging_map_region_translates {H} `{!PageSource H} mask virt phys size flags
    (s : paging_state H) own
    (Hmask : is_mask mask) (Hinv : pt_inv mask s own)
    (Hvirt : 0 <= virt /\ virt mod PAGE_SIZE = 0) (Hphys : 0 <= phys /\ phys mod PAGE_SIZE = 0)
    (Hsize : 0 <= size) (Hvend : virt + size + PAGE_SIZE <= 2 ^ 47)
    (Hpend : phys + size + PAGE_SIZE <= 2 ^ 32)
    (Hflags : 0 <= flags < 4096) (Hroom : 3 * Z.of_nat (rounds size) <= ps_room (halloc s)) :
  exists s', paging_map_region ps_alloc mask virt phys size flags s = Done s' /\
    (forall off, 0 <= off < size ->
       paging_virt_to_phys ps_alloc mask (virt + off) s' = phys + off) /\
    (forall v, 0 <= v < 2 ^ 47 -> v < virt \/ virt + PAGE_SIZE * Z.of_nat (rounds size) <= v ->
       paging_virt_to_phys ps_alloc mask v s' = paging_virt_to_phys ps_alloc mask v s).
Proof.
  destruct Hvirt as [Hv0 Hva], Hphys as [Hp0 Hpa].
  assert (size <= PAGE_SIZE * Z.of_nat (rounds size) < size + PAGE_SIZE) as Hr
    by (unfold rounds, PAGE_SIZE in *; lia).
  destruct (map_region_spec mask (rounds size) virt phys flags s own Hmask Hinv)
    as (s' & own' & E & Hinv' & Hl); [unfold PAGE_SIZE in *; lia..|].
  exists s'. split; [exact E|].
  pose proof low_mappable as Hmap.
  split.
  - intros off Hoff.
    rewrite (virt_to_phys_lookup mask _ s' own') by (done || apply Hmap; unfold PAGE_SIZE in *; lia).
    rewrite Hl by (unfold PAGE_SIZE in *; lia).
    rewrite (proj2 (Z.leb_le _ _)), (proj2 (Z.ltb_lt _ _)) by lia. simpl.
    rewrite leaf_frame, mask_low32 by (done || unfold PAGE_SIZE in *; lia).
    rewrite page_offset by (unfold PAGE_SIZE in *; lia). unfold PAGE_SIZE in *. lia.
  - intros v Hv Hout. rewrite (virt_to_phys_lookup mask v s' own') by auto.
    rewrite (virt_to_phys_lookup mask v s own) by auto. rewrite Hl by done.
    destruct (Z.leb_spec virt v), (Z.ltb_spec v (virt + PAGE_SIZE * Z.of_nat (rounds size))); simpl;
      done || lia.
Qed.

(** With the mask of include/omnios_kernel.h a frame at or above 4 GB is
    silently truncated to 32 bits. *)
Lemma kernel_mask_truncates {H} `{!PageSource H} virt phys flags (s : paging_state H) own :
  pt_inv PAGE_MASK_kernel s own -> mappable virt -> 3 <= ps_room (halloc s) ->
  0 <= phys -> phys mod PAGE_SIZE = 0 -> 0 <= flags < 4096 ->
  exists s', paging_map_page ps_alloc PAGE_MASK_kernel virt phys flags s = Done s' /\
    paging_virt_to_phys ps_alloc PAGE_MASK_kernel virt s' = phys mod 2 ^ 32 + virt mod PAGE_SIZE.
Proof.
  intros Hinv Hv Hroom Hp Ha Hf. assert (is_mask PAGE_MASK_kernel) as Hm by by right.
  destruct (map_page_spec _ (fun p => is_mask_frame _ p Hm) (is_mask_flags _ Hm)
    virt phys flags s own Hinv Hv Hroom) as (s' & own' & E & Hi & _ & _ & Hl).
  exists s'. split; [done|]. rewrite (virt_to_phys_lookup _ virt s' own') by done.
  rewrite Hl, leaf_present, decide_True by done. rewrite leaf_frame by done.
  assert (Z.land phys PAGE_MASK_kernel = phys mod 2 ^ 32) as ->.
  { etransitivity; [apply (land_mask phys 32 12); lia|]. unfold PAGE_SIZE in *.
    change (2 ^ 32) with 4294967296. change (2 ^ 12) with 4096. lia. }
  apply page_offset. unfold PAGE_SIZE in *. change (2 ^ 32) with 4294967296. lia.
Qed.

(** [paging_init] replaces the higher-half entry by one that points to the
    top-level table itself: the window at [KERNEL_VMA_BASE], through which
    [phys_to_virt] reaches memory, then needs entry 510 of that table. *)
Lemma higher_half_lost {H} mask (s : paging_state H) :
  is_mask mask -> frame (cr3 s) -> present (pmem s (entry_addr (cr3 s) 510)) = false ->
  lookup mask (paging_init mask s) KERNEL_VMA_BASE = None.
Proof.
  intros Hm Hf Hp. unfold lookup, walk, paging_init, paging_enable_pcid. rewrite (is_mask_frame mask _ Hm Hf).
  pose proof Hf as [Hr Ha]. unfold PAGE_SIZE in Hr, Ha.
  assert (Z.lor (cr3 s) (Z.lor PTE_PRESENT PTE_WRITABLE) = cr3 s + 3) as El.
  { replace (cr3 s) with (cr3 s / 4096 * 2 ^ 12) at 1 by lia. change (Z.lor PTE_PRESENT PTE_WRITABLE) with 3.
    rewrite lor_low by lia. lia. }
  change (pml4_idx KERNEL_VMA_BASE) with KERNEL_PML4_IDX. change (pdp_idx KERNEL_VMA_BASE) with 510.
  unfold next_table at 1. rewrite El. cbn [kernel_pml4_phys pmem pmm]. unfold pmem. cbn [pmm Pmm.pmem Pmm.set_mem].
  unfold mem_write. rewrite Z.eqb_refl.
  assert (present (cr3 s + 3) = true) as -> by (rewrite present_odd; apply Z.odd_spec; exists (cr3 s / 2 + 1); lia).
  rewrite (mask_low32 mask (cr3 s + 3)) by (done || lia). replace ((cr3 s + 3) / 4096 * 4096) with (cr3 s) by lia.
  unfold next_table at 1. unfold pmem. cbn [pmm Pmm.pmem Pmm.set_mem].
  rewrite (proj2 (Z.eqb_neq _ _)) by (rewrite !entry_addr_frame by done; unfold KERNEL_PML4_IDX; lia).
  unfold pmem in Hp. by rewrite Hp.
Qed.

(** With the mask of paging.h the translation of a no-execute page carries bit
    63 of its entry. *)
Lemma paging_mask_keeps_nx {H} `{!PageSource H} virt phys (s : paging_state H) own :
  pt_inv PAGE_MASK_paging s own -> mappable virt -> 3 <= ps_room (halloc s) ->
  0 <= phys < 2 ^ 32 -> phys mod PAGE_SIZE = 0 ->
  exists s', paging_map_page ps_alloc PAGE_MASK_paging virt phys PTE_NX s = Done s' /\
    paging_virt_to_phys ps_alloc PAGE_MASK_paging virt s' = 2 ^ 63 + phys + virt mod PAGE_SIZE.
Proof.
  intros Hinv Hv Hroom Hp Ha. assert (is_mask PAGE_MASK_paging) as Hm by by left.
  destruct (map_page_spec _ (fun p => is_mask_frame _ p Hm) (is_mask_flags _ Hm)
    virt phys PTE_NX s own Hinv Hv Hroom) as (s' & own' & E & Hi & _ & _ & Hl).
  exists s'. split; [done|]. rewrite (virt_to_phys_lookup _ virt s' own') by done.
  rewrite Hl, leaf_present, decide_True by done. unfold leaf_pte.
  rewrite (proj2 (Z.ltb_lt phys _)) by lia. rewrite (mask_low32 _ phys) by done.
  replace (phys / 4096 * 4096) with phys by (unfold PAGE_SIZE in *; lia).
  rewrite !Z.land_lor_distr_l. rewrite (mask_low32 _ phys) by done.
  replace (phys / 4096 * 4096) with phys by (unfold PAGE_SIZE in *; lia).
  change (Z.land PTE_PRESENT PAGE_MASK_paging) with 0. change (Z.land PTE_GLOBAL PAGE_MASK_paging) with 0.
  change (Z.land PTE_NX PAGE_MASK_paging) with (1 * 2 ^ 63). rewrite !Z.lor_0_r.
  rewrite (Z.lor_comm phys), lor_low by lia. rewrite page_offset; unfold PAGE_SIZE in *; lia.
Qed.

(** *** Witnesses: one empty root table at 0x1000 *)

Definition empty_tables : paging_state Z :=
  mk_paging (Pmm.pmm_boot (fun _ => 0)) 0x1000 2 0x1000 0 0 false false.

Definition empty_own (q : Z) : option (list Z) := if q =? 0x1000 then Some [] else None.

Lemma empty_tables_inv mask : pt_inv mask empty_tables empty_own.
Proof.
  split; [split; [done| |done]|]; intros p path; unfold empty_own;
    (destruct (Z.eqb_spec p 0x1000) as [->|]; [|done]); intros _; [by vm_compute|by exists 1].
Qed.

Lemma paging_map_page_refines_witness :
  exists s', paging_map_page ps_alloc PAGE_MASK_kernel 0x400000 0x5000 PTE_USER empty_tables = Done s' /\
    lookup PAGE_MASK_kernel s' 0x400123 = Some (leaf_pte PAGE_MASK_kernel 0x5000 PTE_USER).
Proof.
  destruct (paging_map_page_refines PAGE_MASK_kernel 0x400000 0x5000 PTE_USER empty_tables empty_own)
    as (s' & own' & E & _ & Hl); [by right|apply empty_tables_inv|by vm_compute|by vm_compute|].
  exists s'. split; [exact E|]. rewrite Hl by (by vm_compute). reflexivity.
Defined.

Lemma paging_unmap_page_refines_witness :
  lookup PAGE_MASK_kernel (paging_unmap_page ps_alloc PAGE_MASK_kernel 0x400000 empty_tables) 0x400123
    = None.
Proof.
  destruct (paging_unmap_page_refines PAGE_MASK_kernel 0x400000 empty_tables empty_own)
    as [_ Hl]; [apply empty_tables_inv|by vm_compute|].
  rewrite Hl by (by vm_compute). reflexivity.
Defined.

Lemma paging_map_region_translates_witness :
  exists s', paging_map_region ps_alloc PAGE_MASK_paging 0x400000 0x8000 0x2800 PTE_WRITABLE empty_tables
      = Done s' /\
    paging_virt_to_phys ps_alloc PAGE_MASK_paging (0x400000 + 0x2345) s' = 0x8000 + 0x2345.
Proof.
  destruct (paging_map_region_translates PAGE_MASK_paging 0x400000 0x8000 0x2800 PTE_WRITABLE
    empty_tables empty_own) as (s' & E & Ht & _);
    [by left|apply empty_tables_inv|unfold PTE_WRITABLE, PAGE_SIZE; lia..|by vm_compute|].
  exists s'. split; [exact E|]. apply Ht. lia.
Defined.

End Paging.
