(* ===== verification/Tlb.v ===== *)
(** * The translation cache of the x86_64 kernel

    Models the parts of kernel/arch/x86_64/paging.c that concern the translation
    cache: the reads and writes of the control registers, [invlpg], [invpcid], and
    the operations on page tables together with the invalidations they make.  The
    tables themselves are the ones of Paging.

    The cache is a list of entries, each the translation of a page under a process
    context identifier.  The processor may enter a translation of the current
    tables or drop an entry at any moment; the instructions remove entries as the
    processor's manual documents.  [remote] is the cache of another processor that
    runs on the same tables.

    The theorem shows that with any number of mappings and unmappings, and the
    processor filling the cache at any moment, also between the write of an entry
    and its invalidation, the processor that makes the changes never uses a
    translation the tables do not hold. *)

From stdpp Require Import base numbers list option tactics relations.
From S2P Require Import Prelude Pmm PageTree Paging.
Import Paging.

Module Tlb.

(** ** The processor *)

Record entry := mk_entry {
  e_virt : Z;        (* an address of the page *)
  e_pcid : Z;
  e_pte : Z;
}.

Record machine (H : Type) := mk_machine {
  pg : paging_state H;
  tlb : list entry;
  remote : list entry;
}.
Arguments mk_machine {H}.
Arguments pg {H}.
Arguments tlb {H}.
Arguments remote {H}.

(** Bits of CR4. *)
Definition PGE : Z := 7.
Definition PCIDE : Z := 17.
Definition SMEP : Z := 20.

Section instructions.
Context {H : Type}.
Implicit Types (m : machine H) (s : paging_state H).

Definition set_pg s m : machine H := mk_machine s (tlb m) (remote m).
Definition keep (f : entry -> bool) m : machine H :=
  mk_machine (pg m) (filter (fun e => f e = true) (tlb m)) (remote m).

Definition set_regs (c3 c4 : Z) s : paging_state H :=
  mk_paging (pmm s) (kernel_pml4_phys s) (halloc s) c3 c4 (efer s) (pcid_enabled s) (early_mapped s).

Definition cur_pcid s : Z := if Z.testbit (cr4 s) PCIDE then Z.land (cr3 s) 0xFFF else 0.
Definition is_global s (e : entry) : bool := Z.testbit (cr4 s) PGE && Z.testbit (e_pte e) 8.
Definition same_page (virt : Z) (e : entry) : bool := vpage (e_virt e) =? vpage virt.

(** The translation the processor finds in the tables CR3 points to.  The tables
    lie in the low two gigabytes, where its mask and both masks of the source agree. *)
Definition cr3_frame s : Z := Z.land (cr3 s) (2 ^ 52 - 4096).
Definition hw_lookup (mask : Z) s (v : Z) : option Z :=
  lookup mask (mk_paging (pmm s) (cr3_frame s) (halloc s) (cr3 s) (cr4 s) (efer s) (pcid_enabled s) (early_mapped s)) v.

Definition get_cr3 m : Z := cr3 (pg m).
Definition read_cr4 m : Z := cr4 (pg m).

(** [mov %0, %cr3] *)
Definition set_cr3 (v : Z) m : machine H :=
  let s := pg m in
  let m' := set_pg (set_regs v (cr4 s) s) m in
  if Z.testbit (cr4 s) PCIDE then
    if Z.testbit v 63 then m'
    else keep (fun e => is_global s e || negb (e_pcid e =? Z.land v 0xFFF)) m'
  else keep (is_global s) m'.

(** [mov %0, %cr4] *)
Definition write_cr4 (v : Z) m : machine H :=
  let s := pg m in
  let m' := set_pg (set_regs (cr3 s) v s) m in
  if xorb (Z.testbit v PGE) (Z.testbit (cr4 s) PGE) || (Z.testbit (cr4 s) PCIDE && negb (Z.testbit v PCIDE))
  then keep (fun _ => false) m'
  else if Z.testbit v SMEP && negb (Z.testbit (cr4 s) SMEP)
  then keep (fun e => negb (e_pcid e =? cur_pcid s)) m'
  else m'.

(** [invlpg]: the entries of the page under the current identifier, and its
    global entries. *)
Definition invlpg (virt : Z) m : machine H :=
  keep (fun e => negb (same_page virt e && (is_global (pg m) e || (e_pcid e =? cur_pcid (pg m))))) m.

(** [invpcid] with its four types. *)
Definition invpcid (type addr pcid : Z) m : machine H :=
  let s := pg m in
  keep (fun e =>
    if type =? 0 then negb (same_page addr e && (e_pcid e =? pcid) && negb (is_global s e))
    else if type =? 1 then negb ((e_pcid e =? pcid) && negb (is_global s e))
    else if type =? 2 then false
    else is_global s e) m.

(** ** The operations *)

Definition paging_enable_pcid m : machine H :=
  let m1 := write_cr4 (Z.lor (read_cr4 m) (Z.shiftl 1 17)) m in
  set_pg (mk_paging (pmm (pg m1)) (kernel_pml4_phys (pg m1)) (halloc (pg m1)) (cr3 (pg m1)) (cr4 (pg m1))
    (efer (pg m1)) true (early_mapped (pg m1))) m1.

Definition paging_invalidate_tlb m : machine H :=
  if pcid_enabled (pg m) then invpcid 0 0 0 m else set_cr3 (get_cr3 m) m.

Definition paging_invalidate_tlb_entry (virt : Z) m : machine H := invlpg virt m.

Context (aligned_alloc : H -> Z * H) (mask : Z).

Definition map_page (virt phys flags : Z) m : outcome (machine H) :=
  s ← paging_map_page aligned_alloc mask virt phys flags (pg m);
  Done (paging_invalidate_tlb_entry virt (set_pg s m)).

Definition unmap_page (virt : Z) m : machine H :=
  match walk aligned_alloc mask virt false (pg m) with
  | (None, s1) => set_pg s1 m
  | (Some e, s1) =>
      if negb (present (pmem s1 e)) then set_pg s1 m
      else paging_invalidate_tlb_entry virt (set_pg (set_pmem (mem_write (pmem s1) e 0) s1) m)
  end.

Definition switch (pml4 : Z) m : machine H := set_cr3 pml4 m.

(** [paging_init], with the writes of the control registers in order. *)
Definition init m : machine H :=
  let s := pg m in
  let root := Z.land (get_cr3 m) mask in
  let t := mem_write (pmem s) (entry_addr root KERNEL_PML4_IDX) (Z.lor root (Z.lor PTE_PRESENT PTE_WRITABLE)) in
  let m1 := set_pg (mk_paging (Pmm.set_mem t (pmm s)) root (halloc s) (cr3 s) (cr4 s)
              (Z.lor (efer s) (Z.shiftl 1 11)) (pcid_enabled s) (early_mapped s)) m in
  let m2 := write_cr4 (Z.lor (Z.lor (read_cr4 m1) (Z.shiftl 1 20)) (Z.shiftl 1 21)) m1 in
  paging_invalidate_tlb (paging_enable_pcid m2).
End instructions.

(** ** Steps

    The state is the machine and the page whose entry has been written but not yet
    invalidated. *)
Section steps.
Context {H : Type} `{!PageSource H} (mask : Z).
Implicit Types (m : machine H).

Definition add (e : entry) m : machine H := mk_machine (pg m) (e :: tlb m) (remote m).
Definition add_remote (e : entry) m : machine H := mk_machine (pg m) (tlb m) (e :: remote m).

Inductive step : machine H * option Z -> machine H * option Z -> Prop :=
| step_fill m p v pte : hw_lookup mask (pg m) v = Some pte ->
    step (m, p) (add (mk_entry v (cur_pcid (pg m)) pte) m, p)
| step_fill_remote m p v pte : hw_lookup mask (pg m) v = Some pte ->
    step (m, p) (add_remote (mk_entry v (cur_pcid (pg m)) pte) m, p)
| step_drop m p f : step (m, p) (keep f m, p)
| step_map m virt phys flags s : mappable virt -> 3 <= ps_room (halloc (pg m)) ->
    paging_map_page ps_alloc mask virt phys flags (pg m) = Done s ->
    step (m, None) (set_pg s m, Some virt)
| step_unmap m virt : mappable virt -> is_Some (lookup mask (pg m) virt) ->
    step (m, None) (set_pg (paging_unmap_page ps_alloc mask virt (pg m)) m, Some virt)
| step_invlpg m virt : step (m, Some virt) (paging_invalidate_tlb_entry virt m, None).

(** A translation the processor may use for [v] without looking at the tables. *)
Definition cached m (v pte : Z) : Prop :=
  exists e, e ∈ tlb m /\ vpage (e_virt e) = vpage v /\
    (is_global (pg m) e = true \/ e_pcid e = cur_pcid (pg m)) /\ e_pte e = pte.

(** Every entry is of the current identifier and, but for the page being changed,
    the translation of the tables. *)
Definition entry_ok m (p : option Z) (e : entry) : Prop :=
  e_pcid e = cur_pcid (pg m) /\
  (mappable (e_virt e) ->
   (exists virt, p = Some virt /\ vpage (e_virt e) = vpage virt) \/ lookup mask (pg m) (e_virt e) = Some (e_pte e)).

(** The processor runs on well-formed kernel tables and its entries are right. *)
Record coherent (x : machine H * option Z) : Prop := {
  co_tables : exists own, pt_inv mask (pg x.1) own;
  co_root : cr3_frame (pg x.1) = kernel_pml4_phys (pg x.1);
  co_entries e : e ∈ tlb x.1 -> entry_ok x.1 x.2 e;
}.

(** ** The tables do not touch the control registers *)

Definition same_regs (s s' : paging_state H) : Prop :=
  cr3 s' = cr3 s /\ cr4 s' = cr4 s /\ kernel_pml4_phys s' = kernel_pml4_phys s.

Lemma same_regs_trans s1 s2 s3 : same_regs s1 s2 -> same_regs s2 s3 -> same_regs s1 s3.
Proof. unfold same_regs. intuition congruence. Qed.

Lemma next_table_regs al create t i (s : paging_state H) : same_regs s (next_table al mask create t i s).2.
Proof.
  unfold next_table. destruct (present _); [done|]. destruct (negb create); [done|]. by destruct (al (halloc s)).
Qed.

Lemma walk_regs al virt create (s : paging_state H) : same_regs s (walk al mask virt create s).2.
Proof.
  unfold walk.
  pose proof (next_table_regs al create (kernel_pml4_phys s) (pml4_idx virt) s) as H1.
  destruct (next_table _ _ _ _ _ s) as [[t1|] s1]; [|done].
  pose proof (next_table_regs al create t1 (pdp_idx virt) s1) as H2.
  destruct (next_table _ _ _ t1 _ s1) as [[t2|] s2]; [|by eapply same_regs_trans].
  pose proof (next_table_regs al create t2 (pd_idx virt) s2) as H3.
  destruct (next_table _ _ _ t2 _ s2) as [[t3|] s3]; eauto using same_regs_trans.
Qed.

Lemma walk_false_state al virt (s : paging_state H) : (walk al mask virt false s).2 = s.
Proof.
  assert (forall t i s', (next_table al mask false t i s').2 = s') as Hn.
  { intros t i s'. unfold next_table. by destruct (present _). }
  unfold walk. pose proof (Hn (kernel_pml4_phys s) (pml4_idx virt) s) as H1.
  destruct (next_table _ _ _ _ _ s) as [[t1|] s1]; [|done]. simpl in H1. subst s1.
  pose proof (Hn t1 (pdp_idx virt) s) as H2.
  destruct (next_table _ _ _ t1 _ s) as [[t2|] s2]; [|done]. simpl in H2. subst s2.
  pose proof (Hn t2 (pd_idx virt) s) as H3.
  by destruct (next_table _ _ _ t2 _ s) as [[t3|] s3].
Qed.

Lemma map_page_regs al virt phys flags (s s' : paging_state H) :
  paging_map_page al mask virt phys flags s = Done s' -> same_regs s s'.
Proof.
  unfold paging_map_page. pose proof (walk_regs al virt true s). by destruct (walk _ _ _ _ s) as [[e|] s1]; intros [= <-].
Qed.

Lemma unmap_page_regs al virt (s : paging_state H) : same_regs s (paging_unmap_page al mask virt s).
Proof.
  unfold paging_unmap_page. pose proof (walk_regs al virt false s).
  destruct (walk _ _ _ _ s) as [[e|] s1]; [|done]. by destruct (present _).
Qed.

Lemma same_regs_pcid (s s' : paging_state H) : same_regs s s' -> cur_pcid s' = cur_pcid s.
Proof. unfold cur_pcid. by intros (-> & -> & _). Qed.

Lemma same_regs_root (s s' : paging_state H) :
  same_regs s s' -> cr3_frame s = kernel_pml4_phys s -> cr3_frame s' = kernel_pml4_phys s'.
Proof. unfold cr3_frame. by intros (-> & _ & ->). Qed.

(** ** Translations are a matter of the page *)

Lemma mappable_page v w : vpage v = vpage w -> mappable v -> mappable w.
Proof. intros [= E _ _ _]%path_of_eq. unfold mappable, pml4_idx. by rewrite E. Qed.

Lemma lookup_page v w (s : paging_state H) own :
  pt_inv mask s own -> mappable v -> vpage v = vpage w -> lookup mask s v = lookup mask s w.
Proof.
  intros Hi Hv E. rewrite !(lookup_lk mask _ s own) by eauto using mappable_page.
  by apply path_of_eq in E as ->.
Qed.

Lemma hw_lookup_root (s : paging_state H) v :
  cr3_frame s = kernel_pml4_phys s -> hw_lookup mask s v = lookup mask s v.
Proof. unfold hw_lookup. intros ->. by destruct s. Qed.

(** ** Coherence is kept *)

Context (Hmask : is_mask mask).

(** A write of one entry makes no entry of another page wrong. *)
Lemma write_coherent m (s : paging_state H) virt :
  coherent (m, None) -> same_regs (pg m) s -> (exists own, pt_inv mask s own) ->
  (forall v, mappable v -> vpage v <> vpage virt -> lookup mask s v = lookup mask (pg m) v) ->
  coherent (set_pg s m, Some virt).
Proof.
  intros [_ Hr He] Hs Hi Hl. split; simpl in *; [done|by eapply same_regs_root|].
  intros e [Hp Hok]%He. split; simpl; [by rewrite (same_regs_pcid _ _ Hs)|]. intros Hm.
  destruct (decide (vpage (e_virt e) = vpage virt)) as [E|E]; [by left; eauto|].
  right. rewrite Hl by done. by destruct (Hok Hm) as [(? & [=] & _)|].
Qed.

Lemma step_coherent x y : step x y -> coherent x -> coherent y.
Proof.
  destruct 1 as [m p v pte Hl|m p v pte Hl|m p f|m virt phys flags s Hv Hroom E|m virt Hv Hs|m virt]; intros Hc.
  - destruct Hc as [Hi Hr He]. split; simpl in *; [done..|]. intros e [->|Hin]%elem_of_cons; [|by apply He].
    split; [done|]. intros _. right. by rewrite <-(hw_lookup_root _ _ Hr).
  - by destruct Hc as [Hi Hr He].
  - destruct Hc as [Hi Hr He]. split; simpl in *; [done..|]. intros e [_ Hin]%list_elem_of_filter. by apply He.
  - pose proof (co_tables _ Hc) as [own Hi]. simpl in Hi.
    destruct (map_page_spec mask (fun p => is_mask_frame mask p Hmask) (is_mask_flags mask Hmask)
      virt phys flags (pg m) own Hi Hv Hroom) as (s' & own' & E' & Hi' & _ & _ & Hl).
    rewrite E in E'. injection E' as <-.
    apply write_coherent; [done|by eapply map_page_regs|by exists own'|].
    intros v Hm Hne. rewrite Hl by done. by rewrite decide_False.
  - pose proof (co_tables _ Hc) as [own Hi]. simpl in Hi.
    destruct (unmap_page_spec mask virt (pg m) own Hi Hv) as [Hi' Hl].
    apply write_coherent; [done|apply unmap_page_regs|by exists own|].
    intros v Hm Hne. rewrite Hl by done. by rewrite decide_False.
  - destruct Hc as [Hi Hr He]. split; simpl in *; [done..|].
    intros e [Hk Hin]%list_elem_of_filter. destruct (He e Hin) as [Hp Hok]. split; simpl; [done|]. intros Hm.
    destruct (Hok Hm) as [(w & [= <-] & E)|]; [|by right]. exfalso. unfold same_page in Hk.
    by rewrite E, Hp, !Z.eqb_refl, orb_true_r in Hk.
Qed.

(** The operations of the source are sequences of steps. *)
Lemma map_page_steps virt phys flags m m' :
  mappable virt -> 3 <= ps_room (halloc (pg m)) -> map_page ps_alloc mask virt phys flags m = Done m' ->
  rtc step (m, None) (m', None).
Proof.
  intros Hv Hroom. unfold map_page. destruct (paging_map_page _ _ _ _ _ (pg m)) as [s|] eqn:E; [|done].
  intros [= <-]. eapply rtc_l; [by eapply step_map|]. apply rtc_once, step_invlpg.
Qed.

Lemma unmap_page_steps virt m own :
  pt_inv mask (pg m) own -> mappable virt -> rtc step (m, None) (unmap_page ps_alloc mask virt m, None).
Proof.
  intros Hi Hv. pose proof (step_unmap m virt Hv) as Hs. unfold unmap_page, paging_unmap_page, lookup in *.
  rewrite !(walk_ro mask _ virt (pg m) own Hi Hv) in *.
  destruct (reach _ _ _ _) as [t|]; simpl in *; [|by destruct m].
  destruct (present _); simpl; [|by destruct m].
  eapply rtc_l; [by apply Hs|]. apply rtc_once, step_invlpg.
Qed.

Lemma steps_coherent x y : rtc step x y -> coherent x -> coherent y.
Proof. induction 1; eauto using step_coherent. Qed.

Lemma coherent_cached m v pte : coherent (m, None) -> mappable v -> cached m v pte -> lookup mask (pg m) v = Some pte.
Proof.
  intros [[own Hi] _ He] Hv (e & Hin & E & _ & <-). destruct (He e Hin) as [_ Hok]. simpl in *.
  rewrite (lookup_page v (e_virt e) _ own) by done.
  by destruct (Hok (mappable_page _ _ (eq_sym E) Hv)) as [(? & [=] & _)|].
Qed.
End steps.

(** ** Properties *)

(** C14: Coherence of the cache is an invariant: it holds after any sequence of
    translations entered or dropped by the processor, writes of page table entries
    and their invalidations; [paging_map_page] and [paging_unmap_page] of addresses
    outside the last top-level entry are such sequences; and in a coherent state without a pending invalidation every cached
    translation of a page is the one the tables hold. *)
Theorem tlb_coherent {H} `{!PageSource H} mask (m : machine H)
    (Hmask : is_mask mask) (Hc : coherent mask (m, None)) :
  (forall y, rtc (step mask) (m, None) y -> coherent mask y) /\
  (forall virt phys flags, mappable virt -> 3 <= ps_room (halloc (pg m)) ->
     exists m', map_page ps_alloc mask virt phys flags m = Done m' /\ rtc (step mask) (m, None) (m', None)) /\
  (forall virt, mappable virt -> rtc (step mask) (m, None) (unmap_page ps_alloc mask virt m, None)) /\
  (forall v pte, mappable v -> cached m v pte -> lookup mask (pg m) v = Some pte).
Proof.
  split_and!.
  - intros y Hy. by eapply steps_coherent.
  - intros virt phys flags Hv Hroom. destruct (co_tables _ _ Hc) as [own Hi]. simpl in Hi.
    destruct (map_page_spec mask (fun p => is_mask_frame mask p Hmask) (is_mask_flags mask Hmask)
      virt phys flags (pg m) own Hi Hv Hroom) as (s' & _ & E & _).
    assert (map_page ps_alloc mask virt phys flags m = Done (paging_invalidate_tlb_entry virt (set_pg s' m))) as E1
      by (unfold map_page; by rewrite E).
    eexists. split; [exact E1|]. by eapply map_page_steps.
  - intros virt Hv. destruct (co_tables _ _ Hc) as [own Hi]. by eapply unmap_page_steps.
  - intros v pte. by apply coherent_cached.
Qed.

Section flushes.
Context {H : Type}.
Implicit Types (m : machine H).

(** With identifiers enabled, [paging_invalidate_tlb] uses type 0 of [invpcid]: it
    drops the entries of page 0 under identifier 0 and keeps every other. *)
Lemma invalidate_keeps m e :
  pcid_enabled (pg m) = true -> e ∈ tlb m -> vpage (e_virt e) <> 0 -> e ∈ tlb (paging_invalidate_tlb m).
Proof.
  intros Hp Hin Hne. unfold paging_invalidate_tlb. rewrite Hp. apply list_elem_of_filter. split; [|done].
  cbn. unfold same_page. change (vpage 0) with 0. by rewrite (proj2 (Z.eqb_neq _ _)) by done.
Qed.

(** Without them it drops every entry that is not global. *)
Lemma invalidate_reload m e :
  pcid_enabled (pg m) = false -> Z.testbit (cr4 (pg m)) PCIDE = false ->
  e ∈ tlb (paging_invalidate_tlb m) -> is_global (pg m) e = true.
Proof.
  intros Hp Hc. unfold paging_invalidate_tlb, set_cr3, get_cr3. rewrite Hp, Hc. by intros [He _]%list_elem_of_filter.
Qed.

(** As the source never sets the bit that makes pages global, a change of the
    address space drops every entry of identifier 0. *)
Lemma switch_flushes pml4 m e :
  Z.testbit (cr4 (pg m)) PGE = false -> Z.testbit pml4 63 = false -> Z.land pml4 0xFFF = 0 ->
  e ∈ tlb (switch pml4 m) -> e_pcid e <> 0.
Proof.
  intros Hg H63 Hp. unfold switch, set_cr3, is_global. rewrite Hg, H63, Hp.
  destruct (Z.testbit (cr4 (pg m)) PCIDE); intros [He _]%list_elem_of_filter; [|done].
  by destruct (Z.eqb_spec (e_pcid e) 0).
Qed.

Lemma keep_subset f m e : e ∈ tlb (keep f m) -> f e = true /\ e ∈ tlb m.
Proof. by intros ?%list_elem_of_filter. Qed.

Lemma write_cr4_subset v m e : e ∈ tlb (write_cr4 v m) -> e ∈ tlb m.
Proof. unfold write_cr4. repeat case_match; try (by intros [_ ?]%keep_subset); done. Qed.

Lemma enable_pcid_flag m : pcid_enabled (pg (paging_enable_pcid m)) = true.
Proof. done. Qed.

Lemma write_cr4_pg v m : pg (write_cr4 v m) = set_regs (cr3 (pg m)) v (pg m).
Proof. unfold write_cr4. by repeat case_match. Qed.

(** On the tables and registers the operations are the ones of Paging. *)
Lemma init_pg mask m : pg (init mask m) = Paging.paging_init mask (pg m).
Proof.
  unfold init, paging_invalidate_tlb. rewrite enable_pcid_flag. unfold paging_enable_pcid, read_cr4. cbn [pg keep invpcid set_pg].
  by rewrite !write_cr4_pg.
Qed.

Lemma unmap_pg al mask virt m : pg (unmap_page al mask virt m) = paging_unmap_page al mask virt (pg m).
Proof. unfold unmap_page, paging_unmap_page. destruct (walk _ _ _ _ _) as [[?|] ?]; [by destruct (present _)|done]. Qed.

(** Another processor keeps the translation of a page that has been unmapped. *)
Lemma remote_stale al mask virt m e : e ∈ remote m -> e ∈ remote (unmap_page al mask virt m).
Proof. intros He. unfold unmap_page. by destruct (walk _ _ _ _ _) as [[?|] ?]; [case_match|]. Qed.

(** After [paging_init] no entry made before it is left: setting the bit for
    supervisor execution prevention drops the entries of the identifier in use. *)
Lemma init_flushes mask m :
  Z.testbit (cr4 (pg m)) SMEP = false -> Z.testbit (cr4 (pg m)) PCIDE = false ->
  (forall e, e ∈ tlb m -> e_pcid e = 0) -> tlb (init mask m) = [].
Proof.
  intros Hs Hp He. apply elem_of_nil_inv. intros e Hin. unfold init in Hin.
  match type of Hin with e ∈ tlb (paging_invalidate_tlb (paging_enable_pcid ?m2)) =>
    assert (e ∈ tlb m2) as Hin2 end.
  { unfold paging_invalidate_tlb in Hin. rewrite enable_pcid_flag in Hin.
    apply keep_subset in Hin as [_ Hin]. by apply write_cr4_subset in Hin. }
  clear Hin. unfold write_cr4, read_cr4 in Hin2. cbn [pg set_pg cr4 cr3] in Hin2.
  destruct (_ || _); [by apply keep_subset in Hin2 as [? _]|].
  assert (Z.testbit (Z.lor (Z.lor (cr4 (pg m)) (Z.shiftl 1 20)) (Z.shiftl 1 21)) SMEP = true) as E
    by (rewrite !Z.lor_spec, Hs; done).
  rewrite E, Hs in Hin2. apply keep_subset in Hin2 as [Hk Hin]. unfold cur_pcid in Hk. cbn [cr4] in Hk.
  by rewrite Hp, (He e Hin) in Hk.
Qed.
End flushes.

(** *** Witness: an empty cache over an empty root table *)

Definition fresh : machine Z := mk_machine empty_tables [] [].

Lemma tlb_coherent_witness :
  exists m', map_page ps_alloc PAGE_MASK_kernel 0x400000 0x5000 PTE_USER fresh = Done m' /\
    coherent PAGE_MASK_kernel (m', None).
Proof.
  destruct (tlb_coherent PAGE_MASK_kernel fresh) as (Hinv & Hmap & _ & _).
  - by right.
  - split; [exists empty_own; apply empty_tables_inv|reflexivity|by intros e ?%elem_of_nil].
  - destruct (Hmap 0x400000 0x5000 PTE_USER) as (m' & E & Hs); [by vm_compute|by vm_compute|].
    exists m'. split; [exact E|]. by apply Hinv.
Defined.

End Tlb.
