(* ===== verification/Vmm.v ===== *)
(** * Virtual memory manager (kernel/mm/vmm.c, kernel/mm/vmm.h)

    Address spaces are [vm_space_t] structures in physical memory: the model
    keeps their fields in memory cells, so that what the code does to the pages
    around a structure is part of the model.  The static [kernel_space] is at a
    parameter address. *)

From stdpp Require Import base numbers list option tactics sets.
From S2P Require Import Prelude Pmm PageTree Paging.

Module Vmm.

Import Paging.

Definition VM_REGION_MAX : nat := 1024.
Definition VM_READ : Z := 1.
Definition VM_WRITE : Z := 2.
Definition VM_EXEC : Z := 4.
Definition VM_USER : Z := 8.

Definition PF_PRESENT : Z := 1.
Definition PF_WRITE : Z := 2.
Definition PF_USER : Z := 4.

(** Layout of [vm_region_t] (48 bytes) and [vm_space_t] on a 64-bit target. *)
Definition region (space : Z) (i : Z) : Z := space + 48 * i.
Definition r_start (r : Z) : Z := r.
Definition r_end (r : Z) : Z := r + 8.
Definition r_flags (r : Z) : Z := r + 16.
Definition r_id (r : Z) : Z := r + 24.
Definition r_phys_base (r : Z) : Z := r + 32.
Definition r_used (r : Z) : Z := r + 40.
Definition heap_start_ (space : Z) : Z := space + 49152.
Definition heap_end_ (space : Z) : Z := space + 49160.
Definition mmap_base_ (space : Z) : Z := space + 49168.
Definition region_count_ (space : Z) : Z := space + 49176.
Definition pml4_phys_ (space : Z) : Z := space + 49184.
Definition SIZEOF_VM_SPACE : Z := 49192.

Record vmm_state (H : Type) := mk_vmm {
  pg : paging_state H;
  current_space : Z;
  next_region_id : Z;
}.
Arguments mk_vmm {H}.
Arguments pg {H}.
Arguments current_space {H}.
Arguments next_region_id {H}.

Definition vmem {H} (s : vmm_state H) : Z -> Z := pmem (pg s).

Definition set_pg {H} (p : paging_state H) (s : vmm_state H) : vmm_state H :=
  mk_vmm p (current_space s) (next_region_id s).

Definition write {H} (a v : Z) (s : vmm_state H) : vmm_state H :=
  set_pg (set_pmem (mem_write (vmem s) a v) (pg s)) s.

Definition zero {H} (a n : Z) (s : vmm_state H) : vmm_state H :=
  set_pg (set_pmem (mem_zero (vmem s) a n) (pg s)) s.

(** [pmm_alloc_page] and [pmm_free_page] on the kernel's memory. *)
Definition alloc_page {H} (s : vmm_state H) : outcome (Z * vmm_state H) :=
  '(p, m) ← Pmm.pmm_alloc_page (pmm (pg s)); Done (p, set_pg (set_pmm m (pg s)) s).

Definition free_page {H} (p : Z) (s : vmm_state H) : vmm_state H :=
  set_pg (set_pmm (Pmm.pmm_free_page p (pmm (pg s))) (pg s)) s.

(** The first slot of a region table that satisfies a test. *)
Fixpoint find_region (test : Z -> bool) (space : Z) (n : nat) (i : Z) : option Z :=
  match n with
  | O => None
  | S n' => if test (region space i) then Some i else find_region test space n' (i + 1)
  end.

Section vmm.
Context {H : Type} (aligned_alloc : H -> Z * H) (PAGE_MASK kernel_space : Z).

Definition vmm_init (s : vmm_state H) : vmm_state H :=
  let s := zero kernel_space SIZEOF_VM_SPACE s in
  let s := write (pml4_phys_ kernel_space) (paging_current_pml4 (pg s)) s in
  let s := write (heap_start_ kernel_space) KERNEL_HEAP_BASE s in
  let s := write (heap_end_ kernel_space) KERNEL_HEAP_BASE s in
  mk_vmm (pg s) kernel_space (next_region_id s).

(** [pmm_alloc_page] panics instead of returning 0, so the two tests for a
    null page are the only branches not taken. *)
Definition vmm_create_space (s : vmm_state H) : outcome (Z * vmm_state H) :=
  '(space, s) ← alloc_page s;
  if space =? 0 then Done (0, s) else
  let s := zero space SIZEOF_VM_SPACE s in
  '(pml4_phys, s) ← alloc_page s;
  if pml4_phys =? 0 then Done (0, free_page space s) else
  let kernel_pml4 := linear KERNEL_VMA_BASE in
  let new_pml4 := linear (u64 (pml4_phys + KERNEL_VMA_BASE)) in
  let s := zero new_pml4 PAGE_SIZE s in
  let s := write (new_pml4 + 8 * KERNEL_PML4_IDX) (vmem s (kernel_pml4 + 8 * KERNEL_PML4_IDX)) s in
  let s := write (pml4_phys_ space) pml4_phys s in
  let s := write (heap_start_ space) 0x6000000000 s in
  let s := write (heap_end_ space) 0x6000000000 s in
  Done (space, write (mmap_base_ space) 0x7000000000 s).

Definition vmm_switch_space (space : Z) (s : vmm_state H) : vmm_state H :=
  if space =? 0 then s
  else mk_vmm (paging_switch (vmem s (pml4_phys_ space)) (pg s)) space (next_region_id s).

Definition pte_flags (flags : Z) : Z :=
  let f := PTE_PRESENT in
  let f := if truthy (Z.land flags VM_WRITE) then Z.lor f PTE_WRITABLE else f in
  let f := if truthy (Z.land flags VM_USER) then Z.lor f PTE_USER else f in
  if truthy (Z.land flags VM_EXEC) then f else Z.lor f PTE_NX.

(** The mapping loop, [n] pages from [virt] to the frames from [phys], or to
    newly allocated frames. *)
Fixpoint map_loop (n : nat) (fresh : bool) (virt phys flags : Z) (s : vmm_state H)
    : outcome (vmm_state H) :=
  match n with
  | O => Done s
  | S n' =>
      '(frame, s) ← (if fresh then alloc_page s else Done (phys, s));
      p ← paging_map_page aligned_alloc PAGE_MASK virt frame (pte_flags flags) (pg s);
      map_loop n' fresh (u64 (virt + PAGE_SIZE)) (u64 (phys + PAGE_SIZE)) flags (set_pg p s)
  end.

Definition is_active (space : Z) (s : vmm_state H) : bool :=
  (space =? current_space s) || (space =? kernel_space).

Definition record_region (space virt phys pages flags : Z) (s : vmm_state H) : vmm_state H :=
  match find_region (fun r => negb (truthy (vmem s (r_used r)))) space VM_REGION_MAX 0 with
  | None => s
  | Some i =>
      let r := region space i in
      let s := write (r_start r) virt s in
      let s := write (r_end r) (u64 (virt + pages * PAGE_SIZE)) s in
      let s := write (r_flags r) flags s in
      let s := write (r_id r) (next_region_id s) s in
      let s := mk_vmm (pg s) (current_space s) (u32 (next_region_id s + 1)) in
      let s := write (r_phys_base r) phys s in
      let s := write (r_used r) 1 s in
      write (region_count_ space) (u32 (vmem s (region_count_ space) + 1)) s
  end.

Definition vmm_map_pages (space virt phys pages flags : Z) (s : vmm_state H)
    : outcome (Z * vmm_state H) :=
  s ← (if is_active space s then map_loop (Z.to_nat pages) (phys =? 0) virt phys flags s else Done s);
  Done (0, record_region space virt phys pages flags s).

Fixpoint unmap_loop (n : nat) (virt : Z) (s : vmm_state H) : vmm_state H :=
  match n with
  | O => s
  | S n' =>
      unmap_loop n' (u64 (virt + PAGE_SIZE))
        (set_pg (paging_unmap_page aligned_alloc PAGE_MASK virt (pg s)) s)
  end.

Definition clear_region (space virt : Z) (s : vmm_state H) : vmm_state H :=
  match find_region (fun r => vmem s (r_start r) =? virt) space VM_REGION_MAX 0 with
  | None => s
  | Some i =>
      let s := write (r_used (region space i)) 0 s in
      write (region_count_ space) (u32 (vmem s (region_count_ space) - 1)) s
  end.

Definition vmm_unmap_pages (space virt pages : Z) (s : vmm_state H) : vmm_state H :=
  let s := if is_active space s then unmap_loop (Z.to_nat pages) virt s else s in
  clear_region space virt s.

(** The loop of [vmm_destroy_space] over the slots from [i]. *)
Fixpoint destroy_loop (n : nat) (space i : Z) (s : vmm_state H) : vmm_state H :=
  match n with
  | O => s
  | S n' =>
      let r := region space i in
      let s :=
        if truthy (vmem s (r_used r))
        then vmm_unmap_pages space (vmem s (r_start r))
               (u64 (vmem s (r_end r) - vmem s (r_start r)) / PAGE_SIZE) s
        else s in
      destroy_loop n' space (i + 1) s
  end.

Definition vmm_destroy_space (space : Z) (s : vmm_state H) : vmm_state H :=
  if (space =? 0) || (space =? kernel_space) then s else
  let s := destroy_loop VM_REGION_MAX space 0 s in
  free_page space (free_page (vmem s (pml4_phys_ space)) s).

Definition vmm_find_free_region (space size : Z) (s : vmm_state H) : Z :=
  let addr := vmem s (heap_end_ space) in
  let addr := if addr <? USER_BASE then USER_BASE else addr in
  Pmm.page_align_up addr.

Definition vmm_handle_page_fault (fault_addr error_code : Z) (s : vmm_state H)
    : outcome (Z * vmm_state H) :=
  let present := truthy (Z.land error_code PF_PRESENT) in
  let user := truthy (Z.land error_code PF_USER) in
  if negb present && negb user then
    '(phys, s) ← alloc_page s;
    p ← paging_map_page aligned_alloc PAGE_MASK (Z.land fault_addr (Z.lnot 0xFFF)) phys
          (Z.lor PTE_PRESENT (Z.lor PTE_WRITABLE PTE_NX)) (pg s);
    Done (0, set_pg p s)
  else Done (-1, s).

Definition vmm_alloc_kernel_heap (size : Z) (s : vmm_state H) : outcome (Z * vmm_state H) :=
  let size := Pmm.page_align_up size in
  let addr := vmem s (heap_end_ kernel_space) in
  '(_, s) ← vmm_map_pages kernel_space addr 0 (size / PAGE_SIZE) (Z.lor VM_READ VM_WRITE) s;
  Done (addr, write (heap_end_ kernel_space) (u64 (vmem s (heap_end_ kernel_space) + size)) s).

Definition vmm_free_kernel_heap (ptr size : Z) (s : vmm_state H) : vmm_state H := s.
End vmm.

(** ** Invariant: page allocator and page tables side by side *)

Record mem_inv {H} `{!PageSource H} (mask : Z) (s : vmm_state H) (bl : list (list Z))
    (own : Z -> option (list Z)) : Prop := {
  mv_pmm : Pmm.pmm_inv 0 (pmm (pg s)) bl;
  mv_pt : pt_inv mask (pg s) own;
  mv_sep q : q ∈ Pmm.free_pages bl -> own q = None /\ ~ ps_pool q;
}.

Section vmm_proofs.
Context {H : Type} `{!PageSource H} (mask : Z).
Hypothesis Hmask : is_mask mask.

(** Taking a page from the allocator changes no translation. *)
Lemma alloc_page_inv s bl own :
  mem_inv mask s bl own -> Pmm.free_pages bl <> [] ->
  exists p s' bl', alloc_page s = Done (p, s') /\ mem_inv mask s' bl' own /\
    Pmm.free_pages bl ≡ₚ p :: Pmm.free_pages bl' /\
    halloc (pg s') = halloc (pg s) /\
    (forall x, p <= x < p + PAGE_SIZE -> vmem s' x = 0) /\
    (forall v, mappable v -> lookup mask (pg s') v = lookup mask (pg s) v).
Proof.
  intros [Hpmm Hpt Hsep] Hne. unfold alloc_page.
  destruct (Pmm.pmm_alloc_page_post _ bl Hpmm Hne) as (p & m & bl' & -> & _ & Hpmm' & Hperm & Hz & Hfr).
  cbn [mbind outcome_bind].
  destruct (pt_inv_ext mask (pg s) (set_pmm m (pg s)) own Hpt eq_refl eq_refl) as [Hpt' Hl].
  { intros q pq j Hq Hj. apply Hfr. rewrite align_entry by (done || by apply (own_frame mask (pg s) own q pq Hpt Hq)).
    intros Hin. destruct (Hsep q Hin). congruence. }
  exists p, (set_pg (set_pmm m (pg s)) s), bl'. split; [done|]. split_and!; try done.
  split; [done..|]. intros q Hq. apply Hsep. rewrite Hperm. by right.
Qed.

(** Mapping a page leaves the page allocator alone. *)
Lemma map_page_inv virt phys flags s bl own :
  mem_inv mask s bl own -> mappable virt -> 3 <= ps_room (halloc (pg s)) ->
  exists p own', paging_map_page ps_alloc mask virt phys flags (pg s) = Done p /\
    mem_inv mask (set_pg p s) bl own' /\ footprint own own' (pg s) p /\
    forall v, mappable v ->
      lookup mask p v =
        if decide (vpage v = vpage virt) then Some (leaf_pte mask phys flags) else lookup mask (pg s) v.
Proof.
  intros [Hpmm Hpt Hsep] Hv Hroom.
  destruct (map_page_spec mask (fun p => is_mask_frame mask p Hmask) (is_mask_flags mask Hmask)
    virt phys flags (pg s) own Hpt Hv Hroom) as (p & own' & E & Hpt' & _ & Hfp & Hl).
  assert (forall q, q ∈ Pmm.free_pages bl -> own' q = None) as Hfree.
  { intros q Hq. destruct (Hsep q Hq) as [Ho Hn]. destruct (own' q) eqn:Eo; [|done].
    destruct Hfp as (_ & _ & _ & Hb). destruct (Hb q) as [?|?]; congruence || done. }
  exists p, own'. split; [done|]. split_and!; [|done|].
  - split; [|done|].
    + simpl. destruct Hfp as (-> & Hx & _). destruct Hpmm as [Hli Hc]. split; [|done].
      apply Pmm.lists_inv_ext with (pmm (pg s)); [done..|]. intros a Ha. simpl.
      apply Hx. pose proof (Pmm.li_valid _ _ _ Hli) as Hva. rewrite Forall_forall in Hva.
      destruct (Hva a Ha) as [_ Hal]. rewrite Pmm.page_align_down_id by done. by apply Hfree.
    + intros q Hq. split; [by apply Hfree|]. by apply Hsep.
  - intros v Hvm. by rewrite Hl, leaf_present.
Qed.

Lemma align_fault_page addr :
  0 <= addr -> vpage (Z.land addr (Z.lnot 0xFFF)) = vpage addr /\
  (mappable addr -> mappable (Z.land addr (Z.lnot 0xFFF))).
Proof.
  intros H0. change (Z.land addr (Z.lnot 0xFFF)) with (Pmm.page_align_down addr).
  rewrite Pmm.page_align_down_spec. unfold mappable, vpage, pml4_idx. rewrite !land_511, !Z.shiftr_div_pow2 by lia.
  unfold PAGE_SIZE. change (2 ^ 39) with (4096 * 134217728).
  rewrite <-!Z.div_div by lia. rewrite (Z.mul_comm 4096 (addr / 4096)), Z.div_mul by lia. done.
Qed.
End vmm_proofs.

Lemma find_region_spec test space n i :
  match find_region test space n i with
  | Some j => i <= j < i + Z.of_nat n /\ test (region space j) = true /\
              (forall k, i <= k < j -> test (region space k) = false)
  | None => forall k, i <= k < i + Z.of_nat n -> test (region space k) = false
  end.
Proof.
  revert i. induction n as [|n IH]; intros i; simpl; [lia|].
  destruct (test (region space i)) eqn:E.
  - split_and!; [lia|lia|done|lia].
  - specialize (IH (i + 1)). destruct (find_region test space n (i + 1)) as [j|].
    + destruct IH as (H1 & H2 & H3). split_and!; [lia|lia|done|]. intros k Hk.
      destruct (decide (k = i)) as [->|]; [done|]. apply H3. lia.
    + intros k Hk. destruct (decide (k = i)) as [->|]; [done|]. apply IH. lia.
Qed.

(** The cells of slot [i] after a region is recorded there. *)
Definition region_is (m : Z -> Z) (r virt phys pages flags id : Z) : Prop :=
  m (r_start r) = virt /\ m (r_end r) = u64 (virt + pages * PAGE_SIZE) /\ m (r_flags r) = flags /\
  m (r_id r) = id /\ m (r_phys_base r) = phys /\ m (r_used r) = 1.

(** ** Properties *)

(** A kernel-mode fault on a page that is not present is served by
    demand paging: a free page is taken from the physical allocator, arrives
    zeroed, and becomes the translation of exactly the faulting page, writable
    and not executable; allocator and page tables stay consistent and disjoint.
    Every other fault returns -1 and changes nothing. *)
Theorem vmm_page_fault_demand {H} `{!PageSource H} mask (s : vmm_state H) bl own fault_addr error_code
    (Hmask : is_mask mask) (Hinv : mem_inv mask s bl own) (Haddr : 0 <= fault_addr)
    (Hmap : mappable fault_addr) (Hfree : Pmm.free_pages bl <> [])
    (Hroom : 3 <= ps_room (halloc (pg s))) :
  if negb (Z.testbit error_code 0) && negb (Z.testbit error_code 2) then
    exists p s' bl' own', vmm_handle_page_fault ps_alloc mask fault_addr error_code s = Done (0, s') /\
      mem_inv mask s' bl' own' /\ Pmm.free_pages bl ≡ₚ p :: Pmm.free_pages bl' /\
      (forall x, p <= x < p + PAGE_SIZE -> vmem s' x = 0) /\
      (forall v, mappable v -> lookup mask (pg s') v =
         if decide (vpage v = vpage fault_addr)
         then Some (leaf_pte mask p (Z.lor PTE_PRESENT (Z.lor PTE_WRITABLE PTE_NX)))
         else lookup mask (pg s) v)
  else vmm_handle_page_fault ps_alloc mask fault_addr error_code s = Done (-1, s).
Proof.
  unfold vmm_handle_page_fault, PF_PRESENT, PF_USER.
  rewrite (truthy_land_bit error_code 0 ltac:(done) : truthy (Z.land error_code 1) = _).
  rewrite (truthy_land_bit error_code 2 ltac:(done) : truthy (Z.land error_code 4) = _).
  destruct (negb _ && negb _); [|done].
  destruct (alloc_page_inv mask s bl own Hinv Hfree)
    as (p & s1 & bl' & -> & Hinv1 & Hperm & Hh & Hz & Hl1). cbn [mbind outcome_bind].
  destruct (align_fault_page fault_addr Haddr) as [Hvp Hm].
  destruct (map_page_inv mask Hmask (Z.land fault_addr (Z.lnot 0xFFF)) p
    (Z.lor PTE_PRESENT (Z.lor PTE_WRITABLE PTE_NX)) s1 bl' own Hinv1 (Hm Hmap) ltac:(by rewrite Hh))
    as (p' & own' & -> & Hinv2 & Hfp & Hl2). cbn [mbind outcome_bind].
  exists p, (set_pg p' s1), bl', own'. split; [done|]. split_and!; [done|done| |].
  - intros x Hx. rewrite <-(Hz x Hx). destruct Hfp as (_ & Hf & _ & Hb). apply Hf.
    pose proof (Pmm.li_valid _ _ _ (Pmm.pi_lists _ _ _ (mv_pmm _ _ _ _ Hinv))) as Hva.
    rewrite Hperm in Hva. apply Forall_cons in Hva as [[_ Hpa] _].
    assert (Pmm.page_align_down x = p) as ->
      by (rewrite Pmm.page_align_down_spec; unfold PAGE_SIZE in *; lia).
    destruct (mv_sep _ _ _ _ Hinv p) as [Ho Hn]; [rewrite Hperm; left|].
    destruct (own' p) eqn:Eo; [|done]. destruct (Hb p) as [?|?]; congruence || done.
  - intros v Hv. simpl. rewrite Hl2, Hvp, Hl1 by done. done.
Qed.

(** [vmm_create_space] allocates one 4096-byte page for the 49192-byte
    [vm_space_t] and clears all of it, so that the contents of the eleven pages
    after it, in use by whoever owns them, are lost. *)
Theorem vmm_create_space_clears_neighbours {H} (s : vmm_state H) bl space m
    (Hinv : Pmm.pmm_inv 0 (pmm (pg s)) bl)
    (Hspace : Pmm.pmm_alloc_page (pmm (pg s)) = Done (space, m))
    (Htwo : (2 <= length (Pmm.free_pages bl))%nat)
    (Hlow : Forall (fun q => q < 2 ^ 31) (Pmm.free_pages bl))
    (Hused : Forall (fun q => q <= space \/ space + SIZEOF_VM_SPACE <= q) (Pmm.free_pages bl)) :
  exists s', vmm_create_space s = Done (space, s') /\
    forall x, space + PAGE_SIZE <= x < space + 49152 -> vmem s' x = 0.
Proof.
  assert (Pmm.free_pages bl <> []) as Hne by (intros E; rewrite E in Htwo; simpl in Htwo; lia).
  destruct (Pmm.pmm_alloc_page_post _ bl Hinv Hne) as (p & m1 & bl1 & E & [Hp0 Hpa] & Hinv1 & Hperm & _).
  rewrite Hspace in E. injection E as <- <-.
  unfold vmm_create_space, alloc_page. rewrite Hspace. cbn [mbind outcome_bind].
  rewrite (proj2 (Z.eqb_neq space 0)) by lia.
  pose proof (Pmm.li_nodup _ _ _ (Pmm.pi_lists _ _ _ Hinv)) as Hnd.
  rewrite Hperm in Htwo, Hlow, Hused, Hnd. simpl in Htwo.
  apply Forall_cons in Hlow as [_ Hlow], Hused as [_ Hused].
  apply NoDup_cons in Hnd as [Hni Hnd]. rewrite Forall_forall in Hlow, Hused.
  set (m2 := Pmm.set_mem (mem_zero (Pmm.pmem m) space SIZEOF_VM_SPACE) m).
  assert (Pmm.pmm_inv 0 m2 bl1) as Hinv2.
  { destruct Hinv1 as [Hli Hc]. split; [|done]. apply Pmm.lists_inv_ext with m; [done..|].
    intros a Ha. simpl. unfold mem_zero. destruct (Hused a Ha) as [Hle|Hge].
    - assert (a <> space) by (by intros ->). by rewrite (proj2 (Z.leb_gt space a)) by lia.
    - rewrite (proj2 (Z.ltb_ge a (space + SIZEOF_VM_SPACE))) by lia. by rewrite andb_false_r. }
  change (pmm (pg (zero space SIZEOF_VM_SPACE (set_pg (set_pmm m (pg s)) s)))) with m2.
  destruct (Pmm.pmm_alloc_page_post m2 bl1 Hinv2) as (q & m3 & bl2 & -> & [Hq0 Hqa] & _ & Hperm2 & _ & Hfr).
  { intros E. rewrite E in Htwo. simpl in Htwo. lia. }
  cbn [mbind outcome_bind]. rewrite (proj2 (Z.eqb_neq q 0)) by lia.
  assert (q ∈ Pmm.free_pages bl1) as Hq by (rewrite Hperm2; left).
  specialize (Hlow q Hq) as Hql. specialize (Hused q Hq) as Hqu.
  assert (q <> space) as Hqs by (by intros ->).
  assert (linear (u64 (q + KERNEL_VMA_BASE)) = q) as ->.
  { unfold linear, KERNEL_VMA_BASE. rewrite wrap_small by lia.
    rewrite (proj2 (Z.leb_le _ (q + _))) by lia. lia. }
  eexists. split; [reflexivity|]. intros x Hx.
  assert (Pmm.pmem m3 x = 0) as H3.
  { rewrite Hfr.
    - simpl. unfold mem_zero, SIZEOF_VM_SPACE, PAGE_SIZE in *.
      by rewrite (proj2 (Z.leb_le _ _)), (proj2 (Z.ltb_lt _ _)) by lia.
    - intros Hin. pose proof (Hused _ Hin) as Hb. rewrite Pmm.page_align_down_spec in Hb.
      unfold SIZEOF_VM_SPACE, PAGE_SIZE in *. lia. }
  unfold write, vmem, pmem, mem_write. simpl. unfold pmem. simpl.
  unfold mmap_base_, heap_end_, heap_start_, pml4_phys_, KERNEL_PML4_IDX, SIZEOF_VM_SPACE, PAGE_SIZE in *.
  rewrite !(proj2 (Z.eqb_neq x _)) by lia. unfold mem_zero, vmem, pmem. simpl.
  by destruct ((q <=? x) && (x <? q + 4096)).
Qed.

(** Mapping into an address space that is not active only records the
    region, in the first unused slot, with a new identifier and the count
    incremented, and touches no other cell; when the 1024 slots are in use the
    call still returns 0 and records nothing. *)
Theorem vmm_map_pages_records {H} (al : H -> Z * H) mask kernel_space space virt phys pages flags
    (s : vmm_state H) (Hact : is_active kernel_space space s = false) :
  exists s', vmm_map_pages al mask kernel_space space virt phys pages flags s = Done (0, s') /\
    ((s' = s /\ forall k, 0 <= k < 1024 -> truthy (vmem s (r_used (region space k))) = true) \/
     exists i, 0 <= i < 1024 /\ truthy (vmem s (r_used (region space i))) = false /\
       (forall k, 0 <= k < i -> truthy (vmem s (r_used (region space k))) = true) /\
       region_is (vmem s') (region space i) virt phys pages flags (next_region_id s) /\
       next_region_id s' = u32 (next_region_id s + 1) /\
       vmem s' (region_count_ space) = u32 (vmem s (region_count_ space) + 1) /\
       (forall x, x < region space i \/ region space i + 48 <= x -> x <> region_count_ space ->
          vmem s' x = vmem s x)).
Proof.
  unfold vmm_map_pages. rewrite Hact. cbn [mbind outcome_bind]. eexists. split; [reflexivity|].
  unfold record_region.
  pose proof (find_region_spec (fun r => negb (truthy (vmem s (r_used r)))) space VM_REGION_MAX 0) as Hfind.
  change (0 + Z.of_nat VM_REGION_MAX) with 1024 in Hfind.
  destruct (find_region _ _ _ _) as [i|]; [right|left].
  - destruct Hfind as (Hi & Hu & Hlt). exists i. split; [done|].
    split; [by apply negb_true_iff|]. split; [intros k Hk; apply negb_false_iff; by apply Hlt|].
    unfold region_is, write, vmem, pmem, mem_write. simpl. unfold pmem. simpl.
    unfold region_count_, region, r_used, r_phys_base, r_id, r_flags, r_end, r_start in *.
    repeat match goal with |- context [?x =? ?y] =>
      first [replace (x =? y) with true by (symmetry; apply Z.eqb_eq; lia)
            |replace (x =? y) with false by (symmetry; apply Z.eqb_neq; lia)] end.
    split_and!; try done. intros x Hx Hc. rewrite !(proj2 (Z.eqb_neq x _)) by lia. done.
  - split; [done|]. intros k Hk. apply negb_false_iff. by apply Hfind.
Qed.

(** *** Witnesses: four free pages at 16 MB and an empty root table *)

Definition vmm0 : vmm_state Z :=
  mk_vmm (mk_paging Pmm.four_pages 0x1000 2 0x1000 0 0 false false) 0 1.

Lemma four_pages_mem x : 0 <= x < 0x1000000 -> Pmm.pmem Pmm.four_pages x = 0.
Proof.
  intros Hx.
  assert (Pmm.pmem Pmm.four_pages =
    mem_write (mem_write (mem_write (mem_write (fun _ => 0) 0x1000000 0) 0x1001000 0x1000000)
      0x1002000 0x1001000) 0x1003000 0x1002000) as -> by reflexivity.
  unfold mem_write. by rewrite !(proj2 (Z.eqb_neq x _)) by lia.
Qed.

Lemma vmm0_inv mask : mem_inv mask vmm0 Pmm.four_blocks empty_own.
Proof.
  split; [apply Pmm.four_pages_inv| |].
  - pose proof (empty_tables_inv mask) as [[H1 H2 H3] Hu]. split; [split; [done..|]|done].
    intros p path i Hp _ Hg. unfold empty_own in Hp. destruct (Z.eqb_spec p 0x1000) as [->|]; [|done].
    pose proof (good_last _ path i Hg).
    change (pmem (pg vmm0)) with (Pmm.pmem Pmm.four_pages). by rewrite four_pages_mem by lia.
  - intros q Hq. unfold Pmm.four_blocks in Hq. rewrite Pmm.free_pages_singles in Hq.
    unfold empty_own. simpl. set_unfold in Hq. destruct (Z.eqb_spec q 0x1000); lia || (split; [done|lia]).
Qed.

Lemma vmm_page_fault_demand_witness :
  exists p s', vmm_handle_page_fault ps_alloc PAGE_MASK_paging 0x400123 0 vmm0 = Done (0, s') /\
    lookup PAGE_MASK_paging (pg s') 0x400456 =
      Some (leaf_pte PAGE_MASK_paging p (Z.lor PTE_PRESENT (Z.lor PTE_WRITABLE PTE_NX))).
Proof.
  destruct (vmm_page_fault_demand PAGE_MASK_paging vmm0 Pmm.four_blocks empty_own 0x400123 0)
    as (p & s' & bl' & own' & E & _ & _ & _ & Hl);
    [by left|apply vmm0_inv|lia|by vm_compute|by vm_compute|by vm_compute|].
  exists p, s'. split; [exact E|]. rewrite Hl by (by vm_compute). reflexivity.
Defined.

Lemma vmm_create_space_clears_neighbours_witness :
  exists s', vmm_create_space vmm0 = Done (0x1003000, s') /\ vmem s' 0x1005678 = 0.
Proof.
  assert (fst (Pmm.buddy_alloc 0 0 Pmm.four_pages) = 0x1003000) as Ef by (vm_compute; reflexivity).
  destruct (vmm_create_space_clears_neighbours vmm0 Pmm.four_blocks 0x1003000
    (snd (Pmm.buddy_alloc 0 0 Pmm.four_pages))) as (s' & E & Hz).
  - apply Pmm.four_pages_inv.
  - change (pmm (pg vmm0)) with Pmm.four_pages. unfold Pmm.pmm_alloc_page.
    destruct (Pmm.buddy_alloc 0 0 Pmm.four_pages) as [p m]. cbn [fst] in Ef. by subst p.
  - vm_compute. lia.
  - unfold Pmm.four_blocks. rewrite Pmm.free_pages_singles. repeat constructor.
  - unfold Pmm.four_blocks. rewrite Pmm.free_pages_singles. repeat (constructor; [lia|]). constructor.
  - exists s'. split; [exact E|]. apply Hz. unfold PAGE_SIZE. lia.
Defined.

Lemma vmm_map_pages_records_witness :
  exists s', vmm_map_pages ps_alloc PAGE_MASK_paging 0x20000 0x30000 0x400000 0 2 3 vmm0 = Done (0, s').
Proof.
  destruct (vmm_map_pages_records ps_alloc PAGE_MASK_paging 0x20000 0x30000 0x400000 0 2 3 vmm0)
    as (s' & E & _); [by vm_compute|]. exists s'. exact E.
Defined.

End Vmm.
