(* ===== verification/Report.v ===== *)
(** * Reports of the kernel

    Models the functions of the kernel that only print: [pmm_print_info] of
    kernel/mm/pmm.c, [vmm_print_regions] of kernel/mm/vmm.c, and the ones of
    arm64.c, virtio.c, sensors.c and usb_gadget.c.  The result is the text. *)

From stdpp Require Import base numbers list option tactics strings.
From S2P Require Import Prelude Text Pmm Paging Vmm.
Import Text.
Open Scope Z_scope.

Module Report.

Definition pmm_print_info (s : Pmm.pmm_state) : list Z :=
  chars "PMM: " ++ dec (Pmm.total_memory s / 1024 / 1024) ++ chars " MB total, " ++
  dec (u64 (Pmm.pmm_get_free_count s * PAGE_SIZE) / 1024 / 1024) ++ chars " MB free, " ++
  dec (Pmm.used_memory s / 1024 / 1024) ++ line " MB used".

(** The line of a region. *)
Definition region_line (m : Z -> Z) (r : Z) : list Z :=
  chars "  [" ++ dec (m (Vmm.r_id r)) ++ chars "] 0x" ++ hex (m (Vmm.r_start r)) ++ chars "-0x" ++ hex (m (Vmm.r_end r)) ++
  chars " flags=" ++ hex (m (Vmm.r_flags r)) ++ [10].

Definition is_used (m : Z -> Z) (space i : Z) : bool := truthy (m (Vmm.r_used (Vmm.region space i))).

Definition vmm_print_regions {H} (space : Z) (s : Vmm.vmm_state H) : list Z :=
  let m := Vmm.vmem s in
  chars "VMM regions (" ++ dec (m (Vmm.region_count_ space)) ++ line "):" ++
  (seqZ 0 (Z.of_nat Vmm.VM_REGION_MAX) ≫= fun i => if is_used m space i then region_line m (Vmm.region space i) else []).

Definition arm64_cpu_init : list Z := line "[CPU] ARM64 secondary CPU online".
Definition virtio_init : Z * list Z := (0, line "[VIRTIO] Transport initialized").
Definition mobile_sensors_set_thresholds (prox_cm light_lux : Z) : list Z := line "[SENSORS] Thresholds updated".
Definition adb_shell (cmd : list Z) : list Z := chars "[ADB] shell: " ++ cstr cmd ++ [10].

(** ** Properties of the text *)

Definition value_hex (l : list Z) : Z := fold_left (fun v c => v * 16 + (if c <? 58 then c - 48 else c - 87)) l 0.

Lemma xdigit_value d : 0 <= d < 16 -> (if xdigit d <? 58 then xdigit d - 48 else xdigit d - 87) = d.
Proof. intros Hd. unfold xdigit. split_cmp; lia. Qed.

Lemma fold_hex l : forall v,
  fold_left (fun v c => v * 16 + (if c <? 58 then c - 48 else c - 87)) l v = v * 16 ^ Z.of_nat (length l) + value_hex l.
Proof.
  induction l as [|c l IH]; intros v; [unfold value_hex; simpl; lia|].
  unfold value_hex. cbn [fold_left length]. rewrite IH, (IH (0 * 16 + _)).
  rewrite Nat2Z.inj_succ, Z.pow_succ_r by lia. lia.
Qed.

Lemma hex_loop_value fuel : forall n acc,
  0 <= n < 16 ^ Z.of_nat fuel -> (0 < fuel)%nat ->
  value_hex (hex_loop fuel n acc) = n * 16 ^ Z.of_nat (length acc) + value_hex acc.
Proof.
  induction fuel as [|fuel IH]; intros n acc Hn Hf; [lia|]. cbn [hex_loop].
  rewrite Nat2Z.inj_succ, Z.pow_succ_r in Hn by lia.
  assert (value_hex (xdigit (n mod 16) :: acc) = (n mod 16) * 16 ^ Z.of_nat (length acc) + value_hex acc) as Hv.
  { unfold value_hex at 1. cbn [fold_left]. rewrite fold_hex, xdigit_value by lia. f_equal. }
  destruct (Z.ltb_spec n 16).
  - rewrite Hv. by rewrite Z.mod_small by lia.
  - rewrite IH, Hv.
    + cbn [length]. rewrite Nat2Z.inj_succ, Z.pow_succ_r by lia. assert (n = 16 * (n / 16) + n mod 16) by lia. nia.
    + split; [apply Z.div_pos; lia|]. apply Z.div_lt_upper_bound; lia.
    + destruct fuel; [|lia]. simpl in Hn. lia.
Qed.

(** A printed number reads back. *)
Lemma hex_value n : 0 <= n < 2 ^ 64 -> value_hex (hex n) = n.
Proof. intros Hn. unfold hex. rewrite hex_loop_value by (simpl; lia). unfold value_hex. simpl. lia. Qed.

Definition newlines (l : list Z) : nat := length (filter (fun c => c = 10) l).

Lemma newlines_app l k : newlines (l ++ k) = (newlines l + newlines k)%nat.
Proof. unfold newlines. by rewrite filter_app, length_app. Qed.

Lemma hex_no_newline n : 0 <= n -> newlines (hex n) = 0%nat.
Proof.
  intros Hn. unfold hex. cut (forall f n acc, 0 <= n -> newlines acc = 0%nat -> newlines (hex_loop f n acc) = 0%nat).
  { intros Hl. by apply Hl. }
  induction f as [|f IH]; intros k acc Hk Ha; [done|]. cbn [hex_loop].
  assert (newlines (xdigit (k mod 16) :: acc) = 0%nat) as Hc.
  { unfold newlines. rewrite filter_cons_False; [done|]. unfold xdigit. split_cmp; lia. }
  destruct (_ <? 16); [done|]. apply IH; [apply Z.div_pos; lia|done].
Qed.

Lemma dec_no_newline n : 0 <= n -> newlines (dec n) = 0%nat.
Proof.
  intros Hn. unfold dec. cut (forall f n acc, 0 <= n -> newlines acc = 0%nat -> newlines (dec_loop f n acc) = 0%nat).
  { intros Hl. by apply Hl. }
  induction f as [|f IH]; intros k acc Hk Ha; [done|]. cbn [dec_loop].
  assert (newlines ((48 + k mod 10) :: acc) = 0%nat) as Hc.
  { unfold newlines. rewrite filter_cons_False; [done|]. lia. }
  destruct (_ <? 10); [done|]. apply IH; [apply Z.div_pos; lia|done].
Qed.

Lemma region_line_newline m r : (forall a, 0 <= m a) -> newlines (region_line m r) = 1%nat.
Proof.
  intros Hm. unfold region_line. rewrite !newlines_app, dec_no_newline, !hex_no_newline by done. reflexivity.
Qed.

(** The report of an address space is a heading and one line for each region in
    use. *)
Lemma print_regions_lines {H} space (s : Vmm.vmm_state H) :
  (forall a, 0 <= Vmm.vmem s a) ->
  newlines (vmm_print_regions space s) =
    S (length (filter (fun i => is_used (Vmm.vmem s) space i = true) (seqZ 0 (Z.of_nat Vmm.VM_REGION_MAX)))).
Proof.
  intros Hm. unfold vmm_print_regions. rewrite !newlines_app, dec_no_newline by done.
  change (newlines (chars "VMM regions (")) with 0%nat. change (newlines (line "):")) with 1%nat. cbn [Nat.add]. f_equal.
  generalize (seqZ 0 (Z.of_nat Vmm.VM_REGION_MAX)) as l. induction l as [|i l IH]; [done|].
  rewrite bind_cons, newlines_app, filter_cons.
  destruct (is_used _ _ i); [rewrite region_line_newline, decide_True by done|rewrite decide_False by done]; cbn [length]; by rewrite <-IH.
Qed.

End Report.
