(* ===== verification/ProcTable.v ===== *)
(** * Processes and threads (kernel/proc/process.h, lookups of process.c)

    The process table, the scheduler's per-CPU data and the two counters that
    hand out identifiers, as one state; a [thread_t *] is the pair of its slot
    in the process table and its index in that process. *)

From stdpp Require Import base numbers list option tactics.
From S2P Require Import Prelude.

Module Proc.

Definition MAX_PROCESSES : nat := 1024.
Definition MAX_THREADS : nat := 4096.
Definition PROC_NAME_LEN : nat := 64.
Definition MAX_OPEN_FILES : nat := 128.
Definition MAX_CPUS : nat := 256.
Definition MAX_RUNQUEUE_DEPTH : Z := 256.
Definition SIG_MAX : Z := 32.
Definition SIG_KILL : Z := 9.
Definition SIG_TERM : Z := 15.
Definition SIG_CHLD : Z := 17.

Inductive process_state_t :=
| PROC_CREATED
| PROC_RUNNING
| PROC_READY
| PROC_BLOCKED
| PROC_SLEEPING
| PROC_ZOMBIE
| PROC_TERMINATED.

#[export] Instance process_state_eq_dec : EqDecision process_state_t.
Proof. solve_decision. Defined.

(** The registers of [context_x86_64_t] and [context_arm64_t]. *)
Record context_x86_64_t := mk_x86 {
  r15 : Z; r14 : Z; r13 : Z; r12 : Z; r11 : Z; r10 : Z; r9 : Z; r8 : Z;
  rbp : Z; rdi : Z; rsi : Z; rdx : Z; rcx : Z; rbx : Z; rax : Z;
  rip : Z; cs : Z; rflags : Z; rsp : Z; ss : Z;
}.

Record context_arm64_t := mk_arm {
  xregs : list Z;          (* x[31] *)
  sp_el0 : Z;
  elr_el1 : Z;
  spsr_el1 : Z;
}.

(** [context_t]: one or the other, chosen by [__aarch64__]. *)
Inductive context_t :=
| X86 (c : context_x86_64_t)
| Arm (c : context_arm64_t).

Inductive arch := x86_64 | aarch64.

Definition zero_x86 : context_x86_64_t := mk_x86 0 0 0 0 0 0 0 0 0 0 0 0 0 0 0 0 0 0 0 0.
Definition zero_arm : context_arm64_t := mk_arm (replicate 31 0) 0 0 0.
Definition zero_context (a : arch) : context_t :=
  match a with x86_64 => X86 zero_x86 | aarch64 => Arm zero_arm end.

Record file_descriptor_t := mk_fd {
  fd : Z;
  ftype : Z;               (* 0=none, 1=pipe, 2=tty, 3=dev *)
  pipe_id : Z;
  private_data : Z;
  fflags : Z;
  fd_in_use : bool;
}.

Definition zero_fd : file_descriptor_t := mk_fd 0 0 0 0 0 false.
#[export] Instance fd_inhabited : Inhabited file_descriptor_t := populate zero_fd.

Record signal_info_t := mk_sig {
  pending : Z;
  blocked : Z;
  handlers : list Z;       (* SIG_MAX addresses *)
}.

Definition zero_sig : signal_info_t := mk_sig 0 0 (replicate (Z.to_nat SIG_MAX) 0).

(** [sched_next] is never read or written and is left out. *)
Record thread_t := mk_thread {
  tid : Z;
  tpid : Z;
  context : context_t;
  kernel_stack : Z;
  kernel_stack_top : Z;
  user_stack : Z;
  user_stack_top : Z;
  tstate : process_state_t;
  priority : Z;
  cpu_affinity : Z;
  wakeup_time : Z;
  total_ticks : Z;
  tsignals : signal_info_t;
  tused : bool;
}.

Definition zero_thread (a : arch) : thread_t :=
  mk_thread 0 0 (zero_context a) 0 0 0 0 PROC_CREATED 0 0 0 0 zero_sig false.
#[export] Instance thread_inhabited : Inhabited thread_t := populate (zero_thread x86_64).

(** [vm_space] is the address of the space, 0 for NULL. *)
Record process_t := mk_process {
  pid : Z;
  ppid : Z;
  name : list Z;           (* PROC_NAME_LEN characters *)
  pstate : process_state_t;
  vm_space : Z;
  thread_count : Z;
  threads : list thread_t; (* MAX_THREADS *)
  first_thread : Z;
  start_time : Z;
  cpu_time : Z;
  uid : Z;
  gid : Z;
  exit_code : Z;
  fds : list file_descriptor_t; (* MAX_OPEN_FILES *)
  psignals : signal_info_t;
  pused : bool;
}.

Definition zero_process (a : arch) : process_t :=
  mk_process 0 0 (replicate PROC_NAME_LEN 0) PROC_CREATED 0 0 (replicate MAX_THREADS (zero_thread a))
    0 0 0 0 0 0 (replicate MAX_OPEN_FILES zero_fd) zero_sig false.
#[export] Instance process_inhabited : Inhabited process_t := populate (zero_process x86_64).

(** Slot of the process and index of the thread. *)
Definition tref : Type := Z * Z.

(** [runqueue_t] of sched.h; [None] is NULL. *)
Record runqueue_t := mk_rq {
  queue : list (option tref);
  rhead : Z;
  rtail : Z;
  rcount : Z;
  rq_ticks : Z;
  cpu_index : Z;
}.

Definition zero_rq : runqueue_t :=
  mk_rq (replicate (Z.to_nat MAX_RUNQUEUE_DEPTH) None) 0 0 0 0 0.
#[export] Instance rq_inhabited : Inhabited runqueue_t := populate zero_rq.

(** The static variables of process.c and sched.c, and the clock. *)
Record kstate := mk_k {
  processes : list process_t;
  next_pid : Z;
  next_tid : Z;
  current_thread : option tref;
  runqueues : list runqueue_t;
  current_threads : list (option tref);
  tick_counter : Z;
  uptime_ms : Z;
}.

(** ** Field updates *)

Definition set_processes (l : list process_t) (s : kstate) : kstate :=
  mk_k l (next_pid s) (next_tid s) (current_thread s) (runqueues s) (current_threads s)
    (tick_counter s) (uptime_ms s).

Definition get_proc (i : Z) (s : kstate) : process_t := (processes s).[i].
Definition set_proc (i : Z) (p : process_t) (s : kstate) : kstate :=
  set_processes ((processes s).[i <- p]) s.

Definition with_threads (l : list thread_t) (p : process_t) : process_t :=
  mk_process (pid p) (ppid p) (name p) (pstate p) (vm_space p) (thread_count p) l (first_thread p)
    (start_time p) (cpu_time p) (uid p) (gid p) (exit_code p) (fds p) (psignals p) (pused p).

Definition with_fds (l : list file_descriptor_t) (p : process_t) : process_t :=
  mk_process (pid p) (ppid p) (name p) (pstate p) (vm_space p) (thread_count p) (threads p)
    (first_thread p) (start_time p) (cpu_time p) (uid p) (gid p) (exit_code p) l (psignals p) (pused p).

Definition with_signals (g : signal_info_t) (p : process_t) : process_t :=
  mk_process (pid p) (ppid p) (name p) (pstate p) (vm_space p) (thread_count p) (threads p)
    (first_thread p) (start_time p) (cpu_time p) (uid p) (gid p) (exit_code p) (fds p) g (pused p).

Definition with_exit (st : process_state_t) (code : Z) (p : process_t) : process_t :=
  mk_process (pid p) (ppid p) (name p) st (vm_space p) (thread_count p) (threads p)
    (first_thread p) (start_time p) (cpu_time p) (uid p) (gid p) code (fds p) (psignals p) (pused p).

Definition with_tstate (st : process_state_t) (t : thread_t) : thread_t :=
  mk_thread (tid t) (tpid t) (context t) (kernel_stack t) (kernel_stack_top t) (user_stack t)
    (user_stack_top t) st (priority t) (cpu_affinity t) (wakeup_time t) (total_ticks t)
    (tsignals t) (tused t).

Definition with_wakeup (w : Z) (t : thread_t) : thread_t :=
  mk_thread (tid t) (tpid t) (context t) (kernel_stack t) (kernel_stack_top t) (user_stack t)
    (user_stack_top t) (tstate t) (priority t) (cpu_affinity t) w (total_ticks t)
    (tsignals t) (tused t).

Definition with_ticks (n : Z) (t : thread_t) : thread_t :=
  mk_thread (tid t) (tpid t) (context t) (kernel_stack t) (kernel_stack_top t) (user_stack t)
    (user_stack_top t) (tstate t) (priority t) (cpu_affinity t) (wakeup_time t) n
    (tsignals t) (tused t).

Definition get_thread (r : tref) (s : kstate) : thread_t := (threads (get_proc r.1 s)).[r.2].

Definition set_thread (r : tref) (t : thread_t) (s : kstate) : kstate :=
  let p := get_proc r.1 s in set_proc r.1 (with_threads ((threads p).[r.2 <- t]) p) s.

Definition set_tstate (r : tref) (st : process_state_t) (s : kstate) : kstate :=
  set_thread r (with_tstate st (get_thread r s)) s.

(** ** Lookups *)

(** [None] is NULL, [Some i] is [&processes[i]]. *)
Definition proc_get (id : Z) (s : kstate) : option Z :=
  Z.of_nat <$> first_index (fun p => pused p && (s32 (pid p) =? id)) (processes s).

Definition proc_get_current (s : kstate) : option Z :=
  r ← current_thread s;
  Z.of_nat <$> first_index (fun p => pused p && (pid p =? tpid (get_thread r s))) (processes s).

Definition proc_set_current_thread (t : option tref) (s : kstate) : kstate :=
  mk_k (processes s) (next_pid s) (next_tid s) t (runqueues s) (current_threads s)
    (tick_counter s) (uptime_ms s).

(** The nested loops of [thread_get], from slot [i] on. *)
Fixpoint thread_get_from (id i : Z) (l : list process_t) : option tref :=
  match l with
  | [] => None
  | p :: l' =>
      if pused p then
        match first_index (fun t => tused t && (s32 (tid t) =? id)) (threads p) with
        | Some j => Some (i, Z.of_nat j)
        | None => thread_get_from id (i + 1) l'
        end
      else thread_get_from id (i + 1) l'
  end.

Definition thread_get (id : Z) (s : kstate) : option tref := thread_get_from id 0 (processes s).

(** ** Shape *)

(** The arrays have their lengths. *)
Record shape (s : kstate) : Prop := {
  sh_processes : length (processes s) = MAX_PROCESSES;
  sh_threads i : 0 <= i < 1024 -> length (threads (get_proc i s)) = MAX_THREADS;
  sh_runqueues : length (runqueues s) = MAX_CPUS;
  sh_current : length (current_threads s) = MAX_CPUS;
}.

Definition valid_ref (r : tref) : Prop := 0 <= r.1 < 1024 /\ 0 <= r.2 < 4096.

Lemma get_set_proc_eq i p s :
  length (processes s) = MAX_PROCESSES -> 0 <= i < 1024 -> get_proc i (set_proc i p s) = p.
Proof. intros Hl Hi. unfold get_proc, set_proc. simpl. apply aget_aset_eq. rewrite Hl. exact Hi. Qed.

Lemma get_set_proc_ne i j p s : 0 <= i -> 0 <= j -> i <> j -> get_proc j (set_proc i p s) = get_proc j s.
Proof. intros. unfold get_proc, set_proc. simpl. by apply aget_aset_ne. Qed.

Section thread_updates.
Context (s : kstate) (r : tref) (t : thread_t).
Hypothesis Hs : shape s.
Hypothesis Hr : valid_ref r.

Lemma set_thread_shape : shape (set_thread r t s).
Proof.
  destruct Hs as [H1 H2 H3 H4], Hr as [Hr1 Hr2]. split; try done.
  - unfold set_thread, set_proc. simpl. by rewrite length_aset.
  - intros i Hi. unfold set_thread. destruct (decide (i = r.1)) as [->|].
    + rewrite get_set_proc_eq by done. simpl. rewrite length_aset. by apply H2.
    + rewrite get_set_proc_ne by lia. by apply H2.
Qed.

Lemma get_set_thread_eq : get_thread r (set_thread r t s) = t.
Proof.
  destruct Hs as [H1 H2 _ _], Hr as [Hr1 Hr2]. unfold get_thread, set_thread.
  rewrite get_set_proc_eq by done. simpl. apply aget_aset_eq. rewrite H2 by done. exact Hr2.
Qed.

Lemma get_set_thread_ne r' : valid_ref r' -> r' <> r -> get_thread r' (set_thread r t s) = get_thread r' s.
Proof.
  destruct Hs as [H1 _ _ _], Hr as [Hr1 Hr2]. intros [Hr'1 Hr'2] Hne. unfold get_thread, set_thread.
  destruct (decide (r'.1 = r.1)) as [E|E].
  - rewrite E, get_set_proc_eq by done. simpl. apply aget_aset_ne; [lia|lia|].
    intros E2. apply Hne. destruct r, r'; simpl in *; congruence.
  - by rewrite get_set_proc_ne by lia.
Qed.
End thread_updates.

End Proc.
