(* ===== verification/Sched.v ===== *)
(** * Scheduler (kernel/sched/sched.c, sched.h)

    Per-CPU run queues of 256 thread pointers.  Every function takes the value
    of [smp_current_cpu()] as [cpu].  [context_switch] saves and restores
    registers only; the model's state after [sched_yield] is the one the next
    thread sees. *)

From stdpp Require Import base numbers list option tactics sets.
From S2P Require Import Prelude ProcTable.

Module Sched.

Import Proc.

Definition set_runqueue (i : Z) (rq : runqueue_t) (s : kstate) : kstate :=
  mk_k (processes s) (next_pid s) (next_tid s) (current_thread s) ((runqueues s).[i <- rq])
    (current_threads s) (tick_counter s) (uptime_ms s).

Definition set_current (cpu : Z) (t : option tref) (s : kstate) : kstate :=
  mk_k (processes s) (next_pid s) (next_tid s) (current_thread s) (runqueues s)
    ((current_threads s).[cpu <- t]) (tick_counter s) (uptime_ms s).

Definition sched_get_current_pid (cpu : Z) (s : kstate) : Z :=
  match (current_threads s).[cpu] with
  | None => 0
  | Some r => tpid (get_thread r s)
  end.

Definition sched_get_current_tid (cpu : Z) (s : kstate) : Z :=
  match (current_threads s).[cpu] with
  | None => 0
  | Some r => tid (get_thread r s)
  end.

Definition sched_current_thread (cpu : Z) (s : kstate) : option tref := (current_threads s).[cpu].

(** Index of the run queue [get_runqueue] returns. *)
Definition get_runqueue (cpu : Z) : Z := if Z.of_nat MAX_CPUS <=? cpu then 0 else cpu.

(** ** Queue operations *)

Definition rq_push (t : tref) (rq : runqueue_t) : runqueue_t :=
  mk_rq ((queue rq).[rtail rq <- Some t]) (rhead rq) ((rtail rq + 1) mod MAX_RUNQUEUE_DEPTH)
    (rcount rq + 1) (rq_ticks rq) (cpu_index rq).

Definition sched_add_thread (cpu : Z) (t : tref) (s : kstate) : kstate :=
  let i := get_runqueue cpu in
  let rq := (runqueues s).[i] in
  if MAX_RUNQUEUE_DEPTH <=? rcount rq then s
  else set_tstate t PROC_READY (set_runqueue i (rq_push t rq) s).

(** The inner loop of [sched_remove_thread]: [n] moves from position [j] on. *)
Fixpoint shift_queue (n : nat) (j head : Z) (q : list (option tref)) : list (option tref) :=
  match n with
  | O => q
  | S n' =>
      let from := (head + j + 1) mod MAX_RUNQUEUE_DEPTH in
      let to := (head + j) mod MAX_RUNQUEUE_DEPTH in
      shift_queue n' (j + 1) head (q.[to <- q.[from]])
  end.

(** The outer loop: the first position of [t] among the [n] left from [i]. *)
Fixpoint find_queue (t : tref) (n : nat) (i : Z) (rq : runqueue_t) : option Z :=
  match n with
  | O => None
  | S n' =>
      if bool_decide ((queue rq).[(rhead rq + i) mod MAX_RUNQUEUE_DEPTH] = Some t) then Some i
      else find_queue t n' (i + 1) rq
  end.

Definition rq_remove (t : tref) (rq : runqueue_t) : runqueue_t :=
  match find_queue t (Z.to_nat (rcount rq)) 0 rq with
  | None => rq
  | Some i =>
      mk_rq (shift_queue (Z.to_nat (rcount rq - 1 - i)) i (rhead rq) (queue rq)) (rhead rq)
        ((rtail rq - 1 + MAX_RUNQUEUE_DEPTH) mod MAX_RUNQUEUE_DEPTH) (rcount rq - 1)
        (rq_ticks rq) (cpu_index rq)
  end.

Definition sched_remove_thread (cpu : Z) (t : tref) (s : kstate) : kstate :=
  let i := get_runqueue cpu in set_runqueue i (rq_remove t (runqueues s).[i]) s.

Definition rq_pop (rq : runqueue_t) : runqueue_t :=
  mk_rq (queue rq) ((rhead rq + 1) mod MAX_RUNQUEUE_DEPTH) (rtail rq) (rcount rq - 1)
    (rq_ticks rq) (cpu_index rq).

Definition sched_pick_next (cpu : Z) (s : kstate) : option tref * kstate :=
  let i := get_runqueue cpu in
  let rq := (runqueues s).[i] in
  if rcount rq =? 0 then (None, s) else
  let next := (queue rq).[rhead rq] in
  let s := set_runqueue i (rq_pop rq) s in
  match next with
  | Some t =>
      if bool_decide (tstate (get_thread t s) = PROC_READY)
      then (Some t, set_tstate t PROC_RUNNING s) else (None, s)
  | None => (None, s)
  end.

(** ** Ticks, yield, sleep, wake *)

Definition sched_tick (cpu : Z) (s : kstate) : kstate :=
  let rq := (runqueues s).[cpu] in
  let rq' := mk_rq (queue rq) (rhead rq) (rtail rq) (rcount rq) (u64 (rq_ticks rq + 1)) (cpu_index rq) in
  let s := mk_k (processes s) (next_pid s) (next_tid s) (current_thread s) ((runqueues s).[cpu <- rq'])
             (current_threads s) (u64 (tick_counter s + 1)) (uptime_ms s) in
  match (current_threads s).[cpu] with
  | Some r => set_thread r (with_ticks (u64 (total_ticks (get_thread r s) + 1)) (get_thread r s)) s
  | None => s
  end.

Definition sched_yield (cpu : Z) (s : kstate) : kstate :=
  let current := (current_threads s).[cpu] in
  match sched_pick_next cpu s with
  | (None, s) =>
      match current with
      | Some c => set_tstate c PROC_RUNNING s
      | None => s
      end
  | (Some next, s) =>
      let s :=
        match current with
        | Some c =>
            if bool_decide (tstate (get_thread c s) = PROC_RUNNING)
            then sched_add_thread cpu c (set_tstate c PROC_READY s) else s
        | None => s
        end in
      set_current cpu (Some next) s
  end.

Definition sched_sleep (cpu ms : Z) (s : kstate) : kstate :=
  match sched_current_thread cpu s with
  | None => s
  | Some c =>
      let s := set_thread c (with_wakeup (u64 (uptime_ms s + ms)) (get_thread c s)) s in
      sched_yield cpu (set_tstate c PROC_SLEEPING s)
  end.

Definition sched_wake (cpu : Z) (t : option tref) (s : kstate) : kstate :=
  match t with
  | None => s
  | Some t =>
      if bool_decide (tstate (get_thread t s) = PROC_SLEEPING)
      then sched_add_thread cpu t (set_tstate t PROC_READY s) else s
  end.

(** ** Balancing and start-up *)

(** The loop of [sched_balance]: maximum and minimum count with their CPUs. *)
Fixpoint balance_loop (n : nat) (i max_count min_count max_cpu min_cpu : Z) (l : list runqueue_t)
    : Z * Z * Z * Z :=
  match n with
  | O => (max_count, min_count, max_cpu, min_cpu)
  | S n' =>
      let c := rcount l.[i] in
      let '(max_count, max_cpu) := if max_count <? c then (c, i) else (max_count, max_cpu) in
      let '(min_count, min_cpu) := if c <? min_count then (c, i) else (min_count, min_cpu) in
      balance_loop n' (i + 1) max_count min_count max_cpu min_cpu l
  end.

(** The migration the loop decides on is not carried out. *)
Definition sched_balance (ncpus : nat) (s : kstate) : kstate :=
  let '(max_count, min_count, max_cpu, min_cpu) :=
    balance_loop ncpus 0 0 0xFFFFFFFF 0 0 (runqueues s) in
  s.

Definition sched_init (ncpus : Z) (s : kstate) : kstate :=
  let rqs :=
    imap (fun i rq => if Z.of_nat i <? ncpus then
                        mk_rq (queue rq) (rhead rq) (rtail rq) (rcount rq) (rq_ticks rq) (Z.of_nat i)
                      else rq)
      (replicate MAX_CPUS zero_rq) in
  mk_k (processes s) (next_pid s) (next_tid s) (current_thread s) rqs
    (replicate MAX_CPUS None) 0 (uptime_ms s).

(** ** Abstraction: the queue as a list *)

Definition rq_list (rq : runqueue_t) : list (option tref) :=
  (fun k => (queue rq).[(rhead rq + Z.of_nat k) mod MAX_RUNQUEUE_DEPTH]) <$> seq 0 (Z.to_nat (rcount rq)).

Record rq_wf (rq : runqueue_t) : Prop := {
  rw_len : length (queue rq) = Z.to_nat MAX_RUNQUEUE_DEPTH;
  rw_head : 0 <= rhead rq < MAX_RUNQUEUE_DEPTH;
  rw_count : 0 <= rcount rq <= MAX_RUNQUEUE_DEPTH;
  rw_tail : rtail rq = (rhead rq + rcount rq) mod MAX_RUNQUEUE_DEPTH;
}.

(** Removing the first occurrence. *)
Definition remove_first (t : tref) (l : list (option tref)) : list (option tref) :=
  match first_index (fun y => bool_decide (y = Some t)) l with
  | Some i => delete i l
  | None => l
  end.

(** ** Queue lemmas *)

Ltac depth := unfold MAX_RUNQUEUE_DEPTH in *.

Lemma slot_inj h a b :
  0 <= a < MAX_RUNQUEUE_DEPTH -> 0 <= b < MAX_RUNQUEUE_DEPTH ->
  (h + a) mod MAX_RUNQUEUE_DEPTH = (h + b) mod MAX_RUNQUEUE_DEPTH -> a = b.
Proof. depth. lia. Qed.

Lemma slot_range h : 0 <= h mod MAX_RUNQUEUE_DEPTH < MAX_RUNQUEUE_DEPTH.
Proof. depth. lia. Qed.

Lemma rq_list_lookup rq k :
  (k < Z.to_nat (rcount rq))%nat ->
  rq_list rq !! k = Some (queue rq).[(rhead rq + Z.of_nat k) mod MAX_RUNQUEUE_DEPTH].
Proof.
  intros Hk. unfold rq_list. by rewrite list_lookup_fmap, lookup_seq_lt by done.
Qed.

Lemma length_rq_list rq : length (rq_list rq) = Z.to_nat (rcount rq).
Proof. unfold rq_list. by rewrite length_fmap, length_seq. Qed.

Lemma rq_count rq : rq_wf rq -> rcount rq = Z.of_nat (length (rq_list rq)).
Proof. intros [_ _ Hc _]. rewrite length_rq_list. lia. Qed.

Section queue.
Context (rq : runqueue_t).
Hypothesis Hwf : rq_wf rq.

Lemma queue_write_eq i v :
  (queue rq).[i mod MAX_RUNQUEUE_DEPTH <- v].[i mod MAX_RUNQUEUE_DEPTH] = v.
Proof.
  destruct Hwf as [Hl _ _ _]. pose proof (slot_range i). apply aget_aset_eq. rewrite Hl. depth. lia.
Qed.

Lemma rq_push_list t :
  rcount rq < MAX_RUNQUEUE_DEPTH ->
  rq_wf (rq_push t rq) /\ rq_list (rq_push t rq) = rq_list rq ++ [Some t].
Proof.
  intros Hlt. pose proof Hwf as [Hl Hh Hc Ht]. split.
  - split; simpl; [by rewrite length_aset|done|lia|]. rewrite Ht. depth. lia.
  - apply list_eq. intros k. destruct (decide (k < Z.to_nat (rcount rq))%nat) as [Hk|Hk].
    + rewrite lookup_app_l by by rewrite length_rq_list.
      rewrite !rq_list_lookup by (simpl; lia). f_equal. simpl. apply aget_aset_ne.
      * rewrite Ht. apply slot_range.
      * apply slot_range.
      * rewrite Ht. intros E. apply slot_inj in E; lia.
    + destruct (decide (k = Z.to_nat (rcount rq))) as [->|Hne].
      * rewrite lookup_app_r, length_rq_list, Nat.sub_diag by (rewrite length_rq_list; lia).
        rewrite rq_list_lookup by (simpl; lia). simpl. f_equal.
        rewrite Z2Nat.id, <-Ht by lia. apply aget_aset_eq. rewrite Hl, Ht. depth. lia.
      * rewrite !lookup_ge_None_2; [done| |].
        -- rewrite length_app, length_rq_list. simpl. lia.
        -- rewrite length_rq_list. simpl. lia.
Qed.

Lemma rq_pop_list :
  0 < rcount rq ->
  rq_wf (rq_pop rq) /\ rq_list rq = (queue rq).[rhead rq] :: rq_list (rq_pop rq).
Proof.
  intros H0. pose proof Hwf as [Hl Hh Hc Ht]. split.
  - split; simpl; [done|depth; lia|lia|]. rewrite Ht. depth. lia.
  - apply list_eq. intros [|k].
    + rewrite rq_list_lookup by lia. simpl. rewrite Z.add_0_r, Z.mod_small by done. done.
    + simpl. destruct (decide (S k < Z.to_nat (rcount rq))%nat) as [Hk|Hk].
      * rewrite !rq_list_lookup by (simpl; lia). simpl. do 2 f_equal. depth. lia.
      * rewrite !lookup_ge_None_2; [done|..]; rewrite length_rq_list; simpl; lia.
Qed.

Lemma shift_queue_length n j q : length (shift_queue n j (rhead rq) q) = length q.
Proof. revert j q. induction n as [|n IH]; intros j q; simpl; [done|]. by rewrite IH, length_aset. Qed.

Lemma shift_queue_get n j q k :
  length q = Z.to_nat MAX_RUNQUEUE_DEPTH -> 0 <= j -> j + Z.of_nat n < MAX_RUNQUEUE_DEPTH ->
  0 <= k < MAX_RUNQUEUE_DEPTH ->
  (shift_queue n j (rhead rq) q).[(rhead rq + k) mod MAX_RUNQUEUE_DEPTH] =
    if (j <=? k) && (k <? j + Z.of_nat n)
    then q.[(rhead rq + (k + 1)) mod MAX_RUNQUEUE_DEPTH]
    else q.[(rhead rq + k) mod MAX_RUNQUEUE_DEPTH].
Proof.
  revert j q. induction n as [|n IH]; intros j q Hl Hj Hn Hk; simpl shift_queue.
  - destruct (Z.leb_spec j k), (Z.ltb_spec k (j + Z.of_nat 0)); simpl; done || lia.
  - rewrite IH by (rewrite ?length_aset; done || lia).
    assert (forall c, 0 <= c < MAX_RUNQUEUE_DEPTH -> c <> j ->
      q.[(rhead rq + j) mod MAX_RUNQUEUE_DEPTH <- q.[(rhead rq + j + 1) mod MAX_RUNQUEUE_DEPTH]]
        .[(rhead rq + c) mod MAX_RUNQUEUE_DEPTH] = q.[(rhead rq + c) mod MAX_RUNQUEUE_DEPTH]) as Hne.
    { intros c Hc Hcj. apply aget_aset_ne; [apply slot_range..|]. clear IH Hl Hwf.
      intros E. apply slot_inj in E; [congruence|lia|done]. }
    destruct (decide (k = j)) as [->|Hkj].
    + rewrite (proj2 (Z.leb_gt (j + 1) j)), Z.leb_refl by lia.
      rewrite (proj2 (Z.ltb_lt j (j + Z.of_nat (S n)))) by lia. simpl.
      rewrite aget_aset_eq by (rewrite Hl; pose proof (slot_range (rhead rq + j)); depth; lia).
      by rewrite <-Z.add_assoc.
    + assert (j + 1 <= k < j + 1 + Z.of_nat n \/ k < j \/ j + Z.of_nat (S n) <= k) as [Hin|Hout] by lia.
      * rewrite !(proj2 (Z.leb_le _ k)), !(proj2 (Z.ltb_lt k _)) by lia. simpl. apply Hne; lia.
      * replace ((j + 1 <=? k) && (k <? j + 1 + Z.of_nat n)) with false
          by (clear -Hout; destruct (Z.leb_spec (j + 1) k), (Z.ltb_spec k (j + 1 + Z.of_nat n)); simpl; lia).
        replace ((j <=? k) && (k <? j + Z.of_nat (S n))) with false
          by (clear -Hout; destruct (Z.leb_spec j k), (Z.ltb_spec k (j + Z.of_nat (S n))); simpl; lia).
        by apply Hne.
Qed.

Lemma find_queue_first t n i :
  find_queue t n i rq =
    (fun j => i + Z.of_nat j) <$>
      first_index (fun y => bool_decide (y = Some t))
        ((fun k => (queue rq).[(rhead rq + (i + Z.of_nat k)) mod MAX_RUNQUEUE_DEPTH]) <$> seq 0 n).
Proof.
  revert i. induction n as [|n IH]; intros i; simpl; [done|]. rewrite Z.add_0_r.
  destruct (bool_decide _); simpl; [f_equal; lia|]. rewrite IH, <-fmap_S_seq, <-list_fmap_compose.
  replace ((fun k : nat => (queue rq).[(rhead rq + (i + 1 + Z.of_nat k)) mod MAX_RUNQUEUE_DEPTH]) <$> seq 0 n)
    with (((fun k : nat => (queue rq).[(rhead rq + (i + Z.of_nat k)) mod MAX_RUNQUEUE_DEPTH]) ∘ S) <$> seq 0 n).
  - destruct (first_index _ _) as [j|]; simpl; [|done]. f_equal. lia.
  - apply list_fmap_ext. intros _ k _. simpl. do 2 f_equal. lia.
Qed.

Lemma rq_remove_list t :
  rq_wf (rq_remove t rq) /\ rq_list (rq_remove t rq) = remove_first t (rq_list rq).
Proof.
  pose proof Hwf as [Hl Hh Hc Ht]. unfold rq_remove, remove_first. rewrite find_queue_first. simpl.
  change (first_index _ _) with (first_index (fun y => bool_decide (y = Some t)) (rq_list rq)).
  destruct (first_index _ (rq_list rq)) as [i|] eqn:E; simpl; [|done].
  apply first_index_lt in E. rewrite length_rq_list in E. split.
  - split; simpl; [by rewrite shift_queue_length|done|lia|]. rewrite Ht. depth. lia.
  - apply list_eq. intros k.
    destruct (decide (k < Z.to_nat (rcount rq) - 1)%nat) as [Hk|Hk]; last first.
    { rewrite !lookup_ge_None_2; [done| |].
      - rewrite length_delete by (apply lookup_lt_is_Some_2; rewrite length_rq_list; lia).
        rewrite length_rq_list. lia.
      - rewrite length_rq_list. simpl. lia. }
    rewrite rq_list_lookup by (simpl; lia). simpl.
    rewrite shift_queue_get by (done || depth; lia).
    destruct (Z.leb_spec (0 + Z.of_nat i) (Z.of_nat k)) as [Hik|Hik].
    + rewrite (proj2 (Z.ltb_lt _ _)) by lia. simpl.
      rewrite list_lookup_delete_ge, rq_list_lookup by lia.
      by replace (Z.of_nat (S k)) with (Z.of_nat k + 1) by lia.
    + simpl. rewrite list_lookup_delete_lt, rq_list_lookup by lia. done.
Qed.
End queue.

(** ** The scheduler's view of a CPU *)

(** Thread [c] runs on [cpu] and the ready threads [q] wait in this order. *)
Record sched_ok (cpu : Z) (s : kstate) (c : tref) (q : list tref) : Prop := {
  so_shape : shape s;
  so_cpu : 0 <= cpu < 256;
  so_rq : rq_wf (runqueues s).[cpu];
  so_queue : rq_list (runqueues s).[cpu] = Some <$> q;
  so_current : (current_threads s).[cpu] = Some c;
  so_distinct : NoDup (c :: q);
  so_valid : Forall valid_ref (c :: q);
  so_running : tstate (get_thread c s) = PROC_RUNNING;
  so_ready : Forall (fun r => tstate (get_thread r s) = PROC_READY) q;
}.

Lemma get_runqueue_cpu cpu : 0 <= cpu < 256 -> get_runqueue cpu = cpu.
Proof.
  intros. unfold get_runqueue. change (Z.of_nat MAX_CPUS) with 256.
  by rewrite (proj2 (Z.leb_gt 256 cpu)) by lia.
Qed.

Lemma get_set_tstate s r r' st :
  shape s -> valid_ref r -> valid_ref r' ->
  tstate (get_thread r' (set_tstate r st s)) = if decide (r' = r) then st else tstate (get_thread r' s).
Proof.
  intros Hs Hr Hr'. unfold set_tstate. destruct (decide (r' = r)) as [->|].
  - by rewrite get_set_thread_eq.
  - by rewrite get_set_thread_ne.
Qed.

Lemma get_set_runqueue s cpu rq :
  shape s -> 0 <= cpu < 256 -> (runqueues (set_runqueue cpu rq s)).[cpu] = rq.
Proof. intros [_ _ Hl _] Hc. simpl. apply aget_aset_eq. rewrite Hl. exact Hc. Qed.

Lemma get_set_current s cpu t :
  shape s -> 0 <= cpu < 256 -> (current_threads (set_current cpu t s)).[cpu] = t.
Proof. intros [_ _ _ Hl] Hc. simpl. apply aget_aset_eq. rewrite Hl. exact Hc. Qed.

Lemma shape_set_runqueue s cpu rq : shape s -> shape (set_runqueue cpu rq s).
Proof. intros [? ? ? ?]. split; try done. simpl. by rewrite length_aset. Qed.

Lemma shape_set_current s cpu t : shape s -> shape (set_current cpu t s).
Proof. intros [? ? ? ?]. split; try done. simpl. by rewrite length_aset. Qed.

Lemma shape_set_tstate s r st : shape s -> valid_ref r -> shape (set_tstate r st s).
Proof. intros. by apply set_thread_shape. Qed.

#[local] Hint Resolve shape_set_runqueue shape_set_current shape_set_tstate : omnios.

(** Appending to a queue that has room. *)
Lemma add_thread_effect cpu t s :
  shape s -> 0 <= cpu < 256 -> valid_ref t -> rq_wf (runqueues s).[cpu] ->
  rcount (runqueues s).[cpu] < MAX_RUNQUEUE_DEPTH ->
  let s' := sched_add_thread cpu t s in
  shape s' /\ rq_wf (runqueues s').[cpu] /\
  rq_list (runqueues s').[cpu] = rq_list (runqueues s).[cpu] ++ [Some t] /\
  current_threads s' = current_threads s /\
  (forall r, valid_ref r ->
     tstate (get_thread r s') = if decide (r = t) then PROC_READY else tstate (get_thread r s)).
Proof.
  intros Hs Hc Ht Hwf Hlt. unfold sched_add_thread. rewrite get_runqueue_cpu by done.
  rewrite (proj2 (Z.leb_gt _ _)) by lia.
  destruct (rq_push_list _ Hwf t Hlt) as [Hwf' Hl'].
  change (runqueues (set_tstate t PROC_READY ?x)) with (runqueues x).
  rewrite get_set_runqueue by done.
  split_and!; [auto with omnios|done|done|done|]. intros r Hr. rewrite get_set_tstate; auto with omnios.
Qed.

(** Taking the head of a queue of ready threads. *)
Lemma pick_next_effect cpu s n q :
  shape s -> 0 <= cpu < 256 -> rq_wf (runqueues s).[cpu] ->
  rq_list (runqueues s).[cpu] = Some n :: q -> valid_ref n ->
  tstate (get_thread n s) = PROC_READY ->
  exists s', sched_pick_next cpu s = (Some n, s') /\ shape s' /\
    rq_wf (runqueues s').[cpu] /\ rq_list (runqueues s').[cpu] = q /\
    rcount (runqueues s').[cpu] < MAX_RUNQUEUE_DEPTH /\
    current_threads s' = current_threads s /\
    (forall r, valid_ref r ->
       tstate (get_thread r s') = if decide (r = n) then PROC_RUNNING else tstate (get_thread r s)).
Proof.
  intros Hs Hc Hwf Hl Hn Hr. unfold sched_pick_next. rewrite get_runqueue_cpu by done.
  assert (0 < rcount (runqueues s).[cpu]) as H0.
  { pose proof (length_rq_list (runqueues s).[cpu]) as E. rewrite Hl in E. simpl in E. lia. }
  rewrite (proj2 (Z.eqb_neq _ 0)) by lia.
  destruct (rq_pop_list _ Hwf H0) as [Hwf' Hl']. rewrite Hl in Hl'. injection Hl' as <- Hq.
  change (tstate (get_thread n (set_runqueue cpu ?x s))) with (tstate (get_thread n s)).
  rewrite bool_decide_eq_true_2 by done. eexists. split; [done|].
  change (runqueues (set_tstate n PROC_RUNNING ?x)) with (runqueues x).
  rewrite get_set_runqueue by done.
  split_and!; [auto with omnios|done|done| |done|].
  - destruct Hwf as [_ _ ? _]. simpl. lia.
  - intros r Hr'. rewrite get_set_tstate; auto with omnios.
Qed.

Lemma NoDup_rotate (c : tref) l : NoDup (c :: l) -> NoDup (l ++ [c]).
Proof. by rewrite (Permutation_app_comm l [c]). Qed.

(** One [sched_yield] rotates the threads of a CPU. *)
Lemma sched_yield_rotates cpu s c q :
  sched_ok cpu s c q ->
  exists c' q', sched_ok cpu (sched_yield cpu s) c' q' /\ c' :: q' = q ++ [c].
Proof.
  intros [Hs Hcpu Hwf Hq Hcur Hd Hv Hrun Hrdy]. unfold sched_yield. rewrite Hcur.
  apply Forall_cons in Hv as [Hvc Hvq]. pose proof Hd as [Hnc Hdq]%NoDup_cons.
  destruct q as [|n q]; simpl in Hq.
  - unfold sched_pick_next. rewrite get_runqueue_cpu by done.
    assert (rcount (runqueues s).[cpu] = 0) as ->.
    { pose proof (length_rq_list (runqueues s).[cpu]) as E. rewrite Hq in E.
      destruct Hwf as [_ _ Hc _]. simpl in E. lia. }
    simpl. exists c, []. split; [|done]. split; auto with omnios.
    rewrite get_set_tstate by done. by rewrite decide_True.
  - apply Forall_cons in Hvq as [Hvn Hvq]. apply Forall_cons in Hrdy as [Hn Hrdy].
    apply NoDup_cons in Hdq as [Hnq Hdq]. apply not_elem_of_cons in Hnc as [Hcn Hcq].
    destruct (pick_next_effect cpu s n _ Hs Hcpu Hwf Hq Hvn Hn)
      as (s1 & -> & Hs1 & Hwf1 & Hq1 & Hlt1 & Hc1 & Ht1).
    rewrite (Ht1 c Hvc), decide_False, Hrun, bool_decide_eq_true_2 by done.
    destruct (add_thread_effect cpu c (set_tstate c PROC_READY s1)) as (Hs2 & Hwf2 & Hq2 & Hc2 & Ht2);
      [auto with omnios|done..|].
    change (runqueues (set_tstate c PROC_READY s1)) with (runqueues s1) in Hq2.
    set (s2 := sched_add_thread _ _ _) in *. exists n, (q ++ [c]). split; [|done].
    assert (forall r, valid_ref r -> r <> c -> r <> n -> tstate (get_thread r s2) = tstate (get_thread r s)) as Hoth.
    { intros r Hr Hrc Hrn. rewrite Ht2, decide_False by done.
      rewrite get_set_tstate, decide_False by done. by rewrite Ht1, decide_False. }
    split.
    + auto with omnios.
    + done.
    + exact Hwf2.
    + change (runqueues (set_current cpu (Some n) s2)) with (runqueues s2).
      rewrite Hq2, Hq1, fmap_app. done.
    + by apply get_set_current.
    + by apply (NoDup_rotate c (n :: q)).
    + constructor; [done|]. apply Forall_app. split; [done|by constructor].
    + change (get_thread n (set_current cpu (Some n) s2)) with (get_thread n s2).
      rewrite Ht2, decide_False by done. rewrite get_set_tstate, decide_False by done.
      by rewrite Ht1, decide_True.
    + apply Forall_app. split.
      * rewrite Forall_forall in Hrdy, Hvq |- *. intros r Hr. change (get_thread r (set_current cpu (Some n) s2))
          with (get_thread r s2). rewrite Hoth; [by apply Hrdy|by apply Hvq|by intros ->|by intros ->].
      * constructor; [|constructor]. change (get_thread c (set_current cpu (Some n) s2)) with (get_thread c s2).
        by rewrite Ht2, decide_True.
Qed.

Lemma yield_iter cpu s c q k :
  sched_ok cpu s c q -> (k <= length (c :: q))%nat ->
  exists c' q', sched_ok cpu (Nat.iter k (sched_yield cpu) s) c' q' /\
    c' :: q' = drop k (c :: q) ++ take k (c :: q).
Proof.
  intros Hok. induction k as [|k IH]; intros Hk.
  - exists c, q. split; [done|]. by rewrite app_nil_r.
  - destruct IH as (c1 & q1 & Hok1 & E1); [lia|].
    destruct (sched_yield_rotates _ _ _ _ Hok1) as (c2 & q2 & Hok2 & E2).
    exists c2, q2. split; [exact Hok2|]. rewrite E2. clear E2 Hok1 Hok2 Hok.
    destruct (lookup_lt_is_Some_2 (c :: q) k) as [y Hy]; [lia|].
    rewrite (drop_S _ _ _ Hy) in E1. simpl in E1. injection E1 as -> ->.
    rewrite (take_S_r _ _ _ Hy). by rewrite app_assoc.
Qed.

(** ** Properties *)

(** C6: round robin.  With [c] running and the ready threads [q] waiting
    on a CPU, the thread running after [k] yields is the [k]-th of [c :: q], the
    others wait in order behind it, and after one yield per thread the CPU is
    back where it started: every ready thread runs exactly once per round. *)
Theorem sched_round_robin cpu s c q k y
    (Hok : sched_ok cpu s c q) (Hy : (c :: q) !! k = Some y) :
  (exists q', sched_ok cpu (Nat.iter k (sched_yield cpu) s) y q') /\
  sched_ok cpu (Nat.iter (length (c :: q)) (sched_yield cpu) s) c q.
Proof.
  split.
  - pose proof (lookup_lt_Some _ _ _ Hy) as Hk.
    destruct (yield_iter cpu s c q k Hok ltac:(lia)) as (c' & q' & Hok' & E).
    rewrite (drop_S _ _ _ Hy) in E. injection E as -> _. by exists q'.
  - destruct (yield_iter cpu s c q (length (c :: q)) Hok ltac:(lia)) as (c' & q' & Hok' & E).
    rewrite drop_all, firstn_all in E. simpl in E. by injection E as -> ->.
Qed.

(** On a well-formed run queue, adding a thread appends it and marks it
    ready unless 256 threads wait already, when the call does nothing; removing
    a thread deletes its first occurrence and keeps the order of the rest. *)
Theorem sched_queue_refines cpu t s
    (Hs : shape s) (Hcpu : 0 <= cpu < 256) (Ht : valid_ref t) (Hwf : rq_wf (runqueues s).[cpu]) :
  (let s' := sched_add_thread cpu t s in
   if decide (rcount (runqueues s).[cpu] < MAX_RUNQUEUE_DEPTH) then
     rq_wf (runqueues s').[cpu] /\
     rq_list (runqueues s').[cpu] = rq_list (runqueues s).[cpu] ++ [Some t] /\
     tstate (get_thread t s') = PROC_READY
   else s' = s) /\
  (let s' := sched_remove_thread cpu t s in
   rq_wf (runqueues s').[cpu] /\
   rq_list (runqueues s').[cpu] = remove_first t (rq_list (runqueues s).[cpu])).
Proof.
  split.
  - case_decide as Hlt.
    + destruct (add_thread_effect cpu t s Hs Hcpu Ht Hwf Hlt) as (_ & Hw & Hl & _ & Hst).
      split_and!; [done..|]. by rewrite Hst, decide_True.
    + unfold sched_add_thread. rewrite get_runqueue_cpu by done.
      by rewrite (proj2 (Z.leb_le _ _)) by lia.
  - unfold sched_remove_thread. rewrite get_runqueue_cpu by done.
    cbv zeta. rewrite get_set_runqueue by done. by apply rq_remove_list.
Qed.

(** Changing only the bookkeeping fields of a thread. *)
Lemma set_wakeup_ok cpu s c q w :
  sched_ok cpu s c q ->
  sched_ok cpu (set_thread c (with_wakeup w (get_thread c s)) s) c q.
Proof.
  intros [Hs Hcpu Hwf Hq Hcur Hd Hv Hrun Hrdy]. pose proof Hv as [Hvc Hvq]%Forall_cons.
  split; try done.
  - by apply set_thread_shape.
  - by rewrite get_set_thread_eq.
  - rewrite Forall_forall in Hrdy, Hvq |- *. intros r Hr. rewrite get_set_thread_ne; auto.
    apply NoDup_cons in Hd as [Hn _]. by intros ->.
Qed.

(** Waking a sleeping thread puts it at the end of the queue. *)
Lemma sched_wake_ok cpu s n q c :
  sched_ok cpu s n q -> tstate (get_thread c s) = PROC_SLEEPING -> valid_ref c -> c ∉ n :: q ->
  rcount (runqueues s).[cpu] < MAX_RUNQUEUE_DEPTH ->
  sched_ok cpu (sched_wake cpu (Some c) s) n (q ++ [c]).
Proof.
  intros [Hs Hcpu Hwf Hq Hcur Hd Hv Hrun Hrdy] Hcs Hvc Hcnq Hroom. unfold sched_wake.
  rewrite bool_decide_eq_true_2 by done. apply Forall_cons in Hv as [Hvn Hvq].
  pose proof Hcnq as [Hcn Hcq]%not_elem_of_cons.
  destruct (add_thread_effect cpu c (set_tstate c PROC_READY s)) as (Hs5 & Hwf5 & Hq5 & Hc5 & Ht5);
    [by apply shape_set_tstate|done..|].
  assert (forall r, valid_ref r -> r <> c ->
    tstate (get_thread r (sched_add_thread cpu c (set_tstate c PROC_READY s))) = tstate (get_thread r s)) as Hoth.
  { intros r Hr Hrc. rewrite Ht5, decide_False by done. by rewrite get_set_tstate, decide_False. }
  split.
  - done.
  - done.
  - exact Hwf5.
  - rewrite Hq5, fmap_app. change (runqueues (set_tstate c PROC_READY s)) with (runqueues s). by rewrite Hq.
  - rewrite Hc5. exact Hcur.
  - apply (NoDup_rotate c (n :: q)). by constructor.
  - constructor; [done|]. apply Forall_app. split; [done|by constructor].
  - by rewrite Hoth.
  - apply Forall_app. split.
    + rewrite Forall_forall in Hrdy, Hvq |- *. intros r Hr. rewrite Hoth; [auto..|]. by intros ->.
    + constructor; [|constructor]. by rewrite Ht5, decide_True.
Qed.

(** With another thread ready, [sched_sleep] takes the running thread
    [c] off the CPU in state SLEEPING with its wake-up time set, the next thread
    runs, and [sched_wake] puts [c] back at the end of the queue. *)
Theorem sched_sleep_wake cpu s c n q ms
    (Hok : sched_ok cpu s c (n :: q)) :
  let s1 := sched_sleep cpu ms s in
  sched_ok cpu s1 n q /\ tstate (get_thread c s1) = PROC_SLEEPING /\
  sched_ok cpu (sched_wake cpu (Some c) s1) n (q ++ [c]).
Proof.
  intros s1. unfold s1, sched_sleep, sched_current_thread. rewrite (so_current _ _ _ _ Hok).
  apply (set_wakeup_ok _ _ _ _ (u64 (uptime_ms s + ms))) in Hok.
  set (s0 := set_thread c _ s) in *. clearbody s0. clear s s1.
  destruct Hok as [Hs Hcpu Hwf Hq Hcur Hd Hv Hrun Hrdy].
  apply Forall_cons in Hv as [Hvc [Hvn Hvq]%Forall_cons]. pose proof Hd as [Hnc Hdq]%NoDup_cons.
  apply Forall_cons in Hrdy as [Hn Hrdy]. pose proof Hdq as [Hnq Hdq']%NoDup_cons.
  apply not_elem_of_cons in Hnc as [Hcn Hcq].
  set (s2 := set_tstate c PROC_SLEEPING s0).
  assert (shape s2) as Hs2 by by apply shape_set_tstate.
  assert (forall r, valid_ref r -> tstate (get_thread r s2) =
    if decide (r = c) then PROC_SLEEPING else tstate (get_thread r s0)) as Ht2
    by (intros r Hr; by apply get_set_tstate).
  destruct (pick_next_effect cpu s2 n (Some <$> q) Hs2 Hcpu) as (s3 & E3 & Hs3 & Hwf3 & Hq3 & Hlt3 & Hc3 & Ht3);
    [done|done|done|by rewrite Ht2, decide_False|].
  unfold sched_yield. change ((current_threads s2).[cpu]) with ((current_threads s0).[cpu]).
  rewrite Hcur, E3. rewrite (Ht3 c Hvc), decide_False, Ht2, decide_True by done.
  rewrite bool_decide_eq_false_2 by done. set (s4 := set_current cpu (Some n) s3).
  assert (forall r, get_thread r s4 = get_thread r s3) as Hg by done.
  assert (Forall (fun r => tstate (get_thread r s3) = PROC_READY) q) as Hrdy3.
  { rewrite Forall_forall in Hrdy, Hvq |- *. intros r Hr.
    rewrite Ht3, decide_False, Ht2, decide_False by (by (intros -> || auto)). auto. }
  assert (sched_ok cpu s4 n q) as Hok4.
  { split; [by apply shape_set_current|done|exact Hwf3|exact Hq3|by apply get_set_current|done
      |by constructor| |exact Hrdy3]. rewrite Hg, Ht3, decide_True by done. done. }
  assert (tstate (get_thread c s4) = PROC_SLEEPING) as Hcs
    by by rewrite Hg, Ht3, decide_False, Ht2, decide_True.
  split_and!; [done|done|]. apply sched_wake_ok; [done|done|done| |done]. apply not_elem_of_cons. by split.
Qed.

(** With no other thread ready [sched_sleep] does not sleep: the caller goes on
    running at once. *)
Lemma sched_sleep_alone cpu s c ms :
  sched_ok cpu s c [] -> sched_ok cpu (sched_sleep cpu ms s) c [].
Proof.
  intros Hok. unfold sched_sleep, sched_current_thread. rewrite (so_current _ _ _ _ Hok).
  apply (set_wakeup_ok _ _ _ _ (u64 (uptime_ms s + ms))) in Hok. set (s0 := set_thread c _ s) in *.
  clearbody s0. destruct Hok as [Hs Hcpu Hwf Hq Hcur Hd Hv Hrun _]. apply Forall_cons in Hv as [Hvc _].
  unfold sched_yield. change ((current_threads (set_tstate c PROC_SLEEPING s0)).[cpu])
    with ((current_threads s0).[cpu]). rewrite Hcur. unfold sched_pick_next. rewrite get_runqueue_cpu by done.
  change (runqueues (set_tstate c PROC_SLEEPING s0)) with (runqueues s0).
  assert (rcount (runqueues s0).[cpu] = 0) as ->.
  { pose proof (length_rq_list (runqueues s0).[cpu]) as E. rewrite Hq in E.
    destruct Hwf as [_ _ Hc _]. simpl in E. lia. }
  simpl. split; auto with omnios.
  rewrite get_set_tstate by auto with omnios. by rewrite decide_True.
Qed.

(** *** Witnesses: three threads on CPU 0 *)

Definition boot : kstate :=
  sched_init 1 (mk_k (replicate MAX_PROCESSES (zero_process x86_64)) 1 1 None [] [] 0 0).

Definition three_threads : kstate :=
  set_current 0 (Some (0, 0))
    (set_tstate (0, 0) PROC_RUNNING (sched_add_thread 0 (2, 0) (sched_add_thread 0 (1, 0) boot))).

Lemma boot_shape : shape boot.
Proof.
  split; [exact (length_replicate MAX_PROCESSES (zero_process x86_64))| | |exact (length_replicate MAX_CPUS None)].
  2: { unfold boot, sched_init. cbn [runqueues]. by rewrite length_imap, length_replicate. }
  intros i Hi. unfold get_proc, aget. change (processes boot) with (replicate MAX_PROCESSES (zero_process x86_64)).
  rewrite lookup_total_replicate_2 by (unfold MAX_PROCESSES; lia).
  exact (length_replicate MAX_THREADS (zero_thread x86_64)).
Qed.

Lemma boot_queue : rq_wf (runqueues boot).[0] /\ rq_list (runqueues boot).[0] = [].
Proof. split; [split; [done|by vm_compute|by vm_compute|done]|done]. Qed.

Lemma valid_first i : 0 <= i < 1024 -> valid_ref (i, 0).
Proof. intros. split; simpl; lia. Qed.

Lemma three_threads_ok : sched_ok 0 three_threads (0, 0) [(1, 0); (2, 0)].
Proof.
  destruct boot_queue as [Hw0 Hq0]. pose proof boot_shape as Hs0.
  pose proof (valid_first 0 ltac:(lia)) as V0. pose proof (valid_first 1 ltac:(lia)) as V1.
  pose proof (valid_first 2 ltac:(lia)) as V2.
  unfold three_threads. generalize dependent boot. intros s0 Hw0 Hq0 Hs0.
  assert (forall rq, rq_wf rq -> (length (rq_list rq) < 10)%nat -> rcount rq < MAX_RUNQUEUE_DEPTH) as Hroom
    by (intros rq Hw Hl; rewrite (rq_count rq Hw); depth; lia).
  destruct (add_thread_effect 0 (1, 0) s0) as (Hs1 & Hw1 & Hq1 & Hc1 & Ht1);
    [done|lia|done|done|apply Hroom; [done|rewrite Hq0; simpl; lia]|].
  set (s1 := sched_add_thread 0 (1, 0) s0) in *. clearbody s1.
  destruct (add_thread_effect 0 (2, 0) s1) as (Hs2 & Hw2 & Hq2 & Hc2 & Ht2);
    [done|lia|done|done|apply Hroom; [done|rewrite Hq1, Hq0; simpl; lia]|].
  set (s2 := sched_add_thread 0 (2, 0) s1) in *. clearbody s2.
  assert (shape (set_tstate (0, 0) PROC_RUNNING s2)) as Hs3 by by apply shape_set_tstate.
  split.
  - by apply shape_set_current.
  - lia.
  - exact Hw2.
  - etransitivity; [exact Hq2|]. by rewrite Hq1, Hq0.
  - by apply get_set_current.
  - by apply (bool_decide_unpack _); vm_compute.
  - by repeat constructor.
  - change (tstate (get_thread (0, 0) (set_tstate (0, 0) PROC_RUNNING s2)) = PROC_RUNNING).
    by rewrite get_set_tstate, decide_True.
  - repeat constructor.
    + change (tstate (get_thread (1, 0) (set_tstate (0, 0) PROC_RUNNING s2)) = PROC_READY).
      rewrite get_set_tstate, decide_False by done. by rewrite Ht2, decide_False, Ht1, decide_True.
    + change (tstate (get_thread (2, 0) (set_tstate (0, 0) PROC_RUNNING s2)) = PROC_READY).
      rewrite get_set_tstate, decide_False by done. by rewrite Ht2, decide_True.
Qed.

Lemma sched_round_robin_witness :
  exists q', sched_ok 0 (Nat.iter 2 (sched_yield 0) three_threads) (2, 0) q'.
Proof.
  exact (proj1 (sched_round_robin 0 three_threads (0, 0) [(1, 0); (2, 0)] 2 (2, 0) three_threads_ok eq_refl)).
Defined.

Lemma sched_queue_refines_witness :
  rq_list (runqueues (sched_remove_thread 0 (1, 0) boot)).[0] = [].
Proof.
  destruct (sched_queue_refines 0 (1, 0) boot boot_shape) as [_ [_ H]];
    [lia|by apply valid_first|apply boot_queue|].
  etransitivity; [exact H|]. by rewrite (proj2 boot_queue).
Defined.

Lemma sched_sleep_wake_witness :
  sched_ok 0 (sched_wake 0 (Some (0, 0)) (sched_sleep 0 1000 three_threads)) (1, 0) [(2, 0); (0, 0)].
Proof.
  exact (proj2 (proj2 (sched_sleep_wake 0 three_threads (0, 0) (1, 0) [(2, 0)] 1000 three_threads_ok))).
Defined.

End Sched.
