(* ===== verification/Signal.v ===== *)
(** * Signals (kernel/proc/signal.c) and process exit (proc_exit of process.c)

    [proc_exit] does not return: it marks the current process and halts the
    CPU, so what may call it returns [Exited] with the state it leaves. *)

From stdpp Require Import base numbers list option tactics.
From S2P Require Import Prelude ProcTable.

Module Signal.

Import Proc.

Inductive call (A : Type) :=
| Returned (a : A) (s : kstate)
| Exited (s : kstate).
Arguments Returned {A} a s.
Arguments Exited {A} s.

(** ** Operations on one process: [None] is a NULL process *)

Definition signal_init_process (p : option Z) (s : kstate) : kstate :=
  match p with
  | None => s
  | Some i => set_proc i (with_signals zero_sig (get_proc i s)) s
  end.

Definition bad_signal (sig : Z) : bool := (sig <? 1) || (SIG_MAX <=? sig).

Definition send_bit (sig : Z) (g : signal_info_t) : signal_info_t :=
  mk_sig (Z.lor (pending g) (Z.shiftl 1 sig)) (blocked g) (handlers g).

Definition signal_send (id sig : Z) (s : kstate) : kstate :=
  if bad_signal sig then s else
  match proc_get id s with
  | None => s
  | Some i => set_proc i (with_signals (send_bit sig (psignals (get_proc i s))) (get_proc i s)) s
  end.

Definition update_signals (p : option Z) (sig : Z) (f : signal_info_t -> signal_info_t) (s : kstate)
    : kstate :=
  match p with
  | None => s
  | Some i =>
      if bad_signal sig then s
      else set_proc i (with_signals (f (psignals (get_proc i s))) (get_proc i s)) s
  end.

Definition signal_set_handler (p : option Z) (sig handler : Z) : kstate -> kstate :=
  update_signals p sig (fun g => mk_sig (pending g) (blocked g) ((handlers g).[sig <- handler])).

Definition signal_block (p : option Z) (sig : Z) : kstate -> kstate :=
  update_signals p sig (fun g => mk_sig (pending g) (Z.lor (blocked g) (Z.shiftl 1 sig)) (handlers g)).

Definition signal_unblock (p : option Z) (sig : Z) : kstate -> kstate :=
  update_signals p sig
    (fun g => mk_sig (pending g) (Z.land (blocked g) (Z.lnot (Z.shiftl 1 sig))) (handlers g)).

(** ** Exit *)

Definition proc_exit {A} (code : Z) (s : kstate) : call A :=
  match proc_get_current s with
  | None => Exited s
  | Some i =>
      let s := set_proc i (with_exit PROC_TERMINATED code (get_proc i s)) s in
      Exited (signal_send (s32 (ppid (get_proc i s))) SIG_CHLD s)
  end.

(** ** Delivery *)

Inductive delivery :=
| Nothing
| Terminate (sig : Z)
| Custom (sig : Z).

Definition clear_pending (sig : Z) (g : signal_info_t) : signal_info_t :=
  mk_sig (Z.land (pending g) (Z.lnot (Z.shiftl 1 sig))) (blocked g) (handlers g).

(** The [for] loop of [signal_check], [n] signals left from [sig]. *)
Fixpoint check_loop (n : nat) (sig : Z) (g : signal_info_t) : delivery * signal_info_t :=
  match n with
  | O => (Nothing, g)
  | S n' =>
      if negb (truthy (Z.land (pending g) (Z.shiftl 1 sig))) then check_loop n' (sig + 1) g
      else if truthy (Z.land (blocked g) (Z.shiftl 1 sig)) then check_loop n' (sig + 1) g
      else
        let g := clear_pending sig g in
        let handler := (handlers g).[sig] in
        if handler =? 1 then check_loop n' (sig + 1) g
        else if handler =? 0 then
          if (sig =? SIG_KILL) || (sig =? SIG_TERM) then (Terminate sig, g)
          else check_loop n' (sig + 1) g
        else (Custom sig, g)
  end.

Definition signal_check (p : option Z) (s : kstate) : call Z :=
  match p with
  | None => Returned 0 s
  | Some i =>
      let g := psignals (get_proc i s) in
      if pending g =? 0 then Returned 0 s else
      let '(d, g') := check_loop (Z.to_nat (SIG_MAX - 1)) 1 g in
      let s := set_proc i (with_signals g' (get_proc i s)) s in
      match d with
      | Nothing => Returned 0 s
      | Terminate sig => proc_exit (128 + sig) s
      | Custom sig => Returned sig s
      end
  end.

(** ** Specification of delivery *)

(** What a deliverable signal does with a given handler. *)
Definition action (handler sig : Z) : delivery :=
  if handler =? 1 then Nothing
  else if handler =? 0 then
    if (sig =? SIG_KILL) || (sig =? SIG_TERM) then Terminate sig else Nothing
  else Custom sig.

Definition deliverable (g : signal_info_t) (sig : Z) : bool :=
  Z.testbit (pending g) sig && negb (Z.testbit (blocked g) sig).

(** The lowest deliverable signal from [sig] on, among [n], that acts. *)
Fixpoint first_acting (n : nat) (sig : Z) (g : signal_info_t) : option Z :=
  match n with
  | O => None
  | S n' =>
      if deliverable g sig && negb (match action (handlers g).[sig] sig with Nothing => true | _ => false end)
      then Some sig else first_acting n' (sig + 1) g
  end.

(** Signals from [lo] up to the one that acts are consumed unless they are
    blocked. *)
Definition consumed (lo : Z) (g : signal_info_t) (d : option Z) (b : Z) : bool :=
  deliverable g b && (lo <=? b) && (b <? SIG_MAX) &&
  match d with Some a => b <=? a | None => true end.

Lemma truthy_bit x sig : 0 <= sig -> truthy (Z.land x (Z.shiftl 1 sig)) = Z.testbit x sig.
Proof. intros. rewrite Z.shiftl_1_l. by apply truthy_land_bit. Qed.

Lemma clear_pending_bit sig g b :
  0 <= sig -> 0 <= b ->
  Z.testbit (pending (clear_pending sig g)) b = Z.testbit (pending g) b && negb (sig =? b).
Proof.
  intros Hs Hb. simpl. rewrite Z.land_spec, Z.lnot_spec, Z.shiftl_1_l, Z.pow2_bits_eqb by lia. done.
Qed.

(** Scanning from [sig] only depends on the signals from [sig] on. *)
Lemma first_acting_ext n sig g g' :
  handlers g' = handlers g ->
  (forall b, sig <= b -> deliverable g' b = deliverable g b) ->
  first_acting n sig g' = first_acting n sig g.
Proof.
  intros Hh. revert sig. induction n as [|n IH]; intros sig Hd; simpl; [done|].
  rewrite Hh, (Hd sig) by lia. rewrite (IH (sig + 1)); [done|]. intros b Hb. apply Hd. lia.
Qed.

Lemma first_acting_range n sig g a :
  first_acting n sig g = Some a -> sig <= a < sig + Z.of_nat n.
Proof.
  revert sig. induction n as [|n IH]; intros sig; simpl; [done|].
  destruct (_ && _); [intros [= <-]; lia|]. intros H%IH. lia.
Qed.

Lemma deliverable_clear sig g b :
  0 <= sig -> 0 <= b -> deliverable (clear_pending sig g) b = deliverable g b && negb (sig =? b).
Proof.
  intros Hs Hb. unfold deliverable. rewrite clear_pending_bit by done.
  rewrite <-!andb_assoc. f_equal. apply andb_comm.
Qed.

Lemma consumed_skip sig g a b :
  deliverable g sig = false -> consumed sig g a b = consumed (sig + 1) g a b.
Proof.
  intros Hd. unfold consumed. destruct (Z.leb_spec sig b), (Z.leb_spec (sig + 1) b); try done; try lia.
  assert (b = sig) as -> by lia. by rewrite Hd.
Qed.

(** What a scan from [lo] that stops at [a] leaves behind. *)
Definition loop_post (lo : Z) (g : signal_info_t) (a : option Z) (r : delivery * signal_info_t) : Prop :=
  r.1 = match a with Some a => action (handlers g).[a] a | None => Nothing end /\
  blocked r.2 = blocked g /\ handlers r.2 = handlers g /\
  forall b, 0 <= b ->
    Z.testbit (pending r.2) b = Z.testbit (pending g) b && negb (consumed lo g a b).

(** A signal that is not deliverable is passed over. *)
Lemma loop_post_skip sig g a r :
  deliverable g sig = false -> loop_post (sig + 1) g a r -> loop_post sig g a r.
Proof.
  intros Hd (H1 & H2 & H3 & H4). split_and!; [done..|]. intros b Hb.
  by rewrite H4, (consumed_skip sig g a b Hd).
Qed.

(** A deliverable signal that does nothing is consumed. *)
Lemma loop_post_ignore n sig g r :
  0 <= sig < SIG_MAX -> deliverable g sig = true ->
  loop_post (sig + 1) (clear_pending sig g) (first_acting n (sig + 1) (clear_pending sig g)) r ->
  loop_post sig g (first_acting n (sig + 1) g) r.
Proof.
  intros Hs Ed. rewrite (first_acting_ext n (sig + 1) g (clear_pending sig g)); [|done|].
  2: { intros b Hb. rewrite deliverable_clear by lia. rewrite (proj2 (Z.eqb_neq sig b)) by lia.
       apply andb_true_r. }
  intros (H1 & H2 & H3 & H4). split_and!; [done..|]. intros b Hb. rewrite H4 by done.
  rewrite clear_pending_bit by lia. rewrite <-andb_assoc. f_equal.
  unfold consumed. rewrite deliverable_clear by lia.
  destruct (Z.eqb_spec sig b) as [<-|Hne]; simpl; rewrite ?andb_false_r, ?andb_true_r; simpl.
  - rewrite Ed, Z.leb_refl, (proj2 (Z.ltb_lt _ _)) by lia. simpl.
    destruct (first_acting n (sig + 1) g) as [a|] eqn:Ea; [|done].
    apply first_acting_range in Ea. by rewrite (proj2 (Z.leb_le _ _)) by lia.
  - destruct (Z.leb_spec sig b), (Z.leb_spec (sig + 1) b); done || lia.
Qed.

(** A deliverable signal that acts is consumed and ends the scan. *)
Lemma loop_post_act sig g :
  0 <= sig < SIG_MAX -> deliverable g sig = true ->
  loop_post sig g (Some sig) (action (handlers g).[sig] sig, clear_pending sig g).
Proof.
  intros Hs Ed. split_and!; [done..|]. intros b Hb. simpl snd. rewrite clear_pending_bit by lia.
  f_equal. f_equal. unfold consumed. destruct (Z.eqb_spec sig b) as [<-|].
  - rewrite Ed, !Z.leb_refl, (proj2 (Z.ltb_lt _ _)) by lia. done.
  - destruct (Z.leb_spec sig b), (Z.leb_spec b sig); rewrite ?andb_false_r; done || lia.
Qed.

Lemma check_loop_step n sig g :
  0 <= sig ->
  check_loop (S n) sig g =
    if deliverable g sig then
      match action (handlers g).[sig] sig with
      | Nothing => check_loop n (sig + 1) (clear_pending sig g)
      | d => (d, clear_pending sig g)
      end
    else check_loop n (sig + 1) g.
Proof.
  intros Hs. simpl. rewrite !truthy_bit by done. unfold deliverable, action.
  destruct (Z.testbit (pending g) sig), (Z.testbit (blocked g) sig); simpl; try done.
  destruct ((handlers g).[sig] =? 1); [done|]. destruct ((handlers g).[sig] =? 0); [|done].
  by destruct ((sig =? SIG_KILL) || (sig =? SIG_TERM)).
Qed.

(** The loop against its specification. *)
Lemma check_loop_spec n sig g :
  0 <= sig -> sig + Z.of_nat n = SIG_MAX ->
  loop_post sig g (first_acting n sig g) (check_loop n sig g).
Proof.
  revert sig g. induction n as [|n IH]; intros sig g Hs Hn.
  - split_and!; [done..|]. intros b Hb. unfold consumed. simpl.
    destruct (Z.leb_spec sig b), (Z.ltb_spec b SIG_MAX); simpl; rewrite ?andb_false_r; simpl;
      rewrite ?andb_true_r; done || lia.
  - rewrite check_loop_step by done. simpl first_acting. destruct (deliverable g sig) eqn:Ed; simpl.
    + pose proof (loop_post_act sig g ltac:(lia) Ed) as Hact.
      pose proof (loop_post_ignore n sig g _ ltac:(lia) Ed (IH (sig + 1) (clear_pending sig g) ltac:(lia) ltac:(lia))).
      by destruct (action (handlers g).[sig] sig).
    + apply loop_post_skip; [done|]. apply IH; lia.
Qed.

Lemma first_acting_acts n sig g a :
  first_acting n sig g = Some a -> action (handlers g).[a] a <> Nothing.
Proof.
  revert sig. induction n as [|n IH]; intros sig; simpl; [done|].
  destruct (deliverable g sig && _) eqn:E; [|apply IH]. intros [= <-] H.
  rewrite H in E. by rewrite andb_false_r in E.
Qed.

Lemma action_sig h sig :
  match action h sig with Nothing => True | Terminate a | Custom a => a = sig end.
Proof.
  unfold action. destruct (h =? 1); [done|]. destruct (h =? 0); [|done].
  by destruct ((sig =? SIG_KILL) || (sig =? SIG_TERM)).
Qed.

(** ** Properties *)

(** [signal_check] delivers the lowest pending, unblocked signal whose
    handler acts (a custom handler, or the default of SIGKILL and SIGTERM, which
    ends the current process with code 128 + signal); the signals it passes over
    because they are ignored are consumed with it, blocked ones and later ones
    stay pending, and nothing else of the process changes. *)
Theorem signal_check_delivers i s
    (Hlen : length (processes s) = MAX_PROCESSES) (Hi : 0 <= i < 1024)
    (Hpend : pending (psignals (get_proc i s)) <> 0) :
  let g := psignals (get_proc i s) in
  let a := first_acting 31 1 g in
  exists g', blocked g' = blocked g /\ handlers g' = handlers g /\
    (forall b, 0 <= b ->
      Z.testbit (pending g') b = Z.testbit (pending g) b && negb (consumed 1 g a b)) /\
    let s' := set_proc i (with_signals g' (get_proc i s)) s in
    signal_check (Some i) s =
      match a with
      | None => Returned 0 s'
      | Some sig =>
          match action (handlers g).[sig] sig with
          | Terminate _ => proc_exit (128 + sig) s'
          | _ => Returned sig s'
          end
      end.
Proof.
  intros g a. pose proof (check_loop_spec 31 1 g ltac:(lia) eq_refl) as Hpost. fold a in Hpost.
  unfold signal_check. fold g. rewrite (proj2 (Z.eqb_neq _ 0)) by done.
  change (Z.to_nat (SIG_MAX - 1)) with 31%nat.
  destruct (check_loop 31 1 g) as [d g'].
  destruct Hpost as (H1 & H2 & H3 & H4). cbn [fst snd] in *.
  exists g'. split_and!; [done..|]. rewrite H1.
  destruct a as [sig|] eqn:Ea; [|done]. unfold a in Ea.
  pose proof (first_acting_acts 31 1 g sig Ea) as Hact.
  pose proof (action_sig (handlers g).[sig] sig) as Hsig.
  destruct (action (handlers g).[sig] sig); [done| |]; by rewrite Hsig.
Qed.

(** A blocked signal, even SIGKILL, stays pending until it is unblocked. *)
Lemma blocked_stays_pending n sig g b :
  0 <= sig -> sig + Z.of_nat n = SIG_MAX -> 0 <= b -> Z.testbit (blocked g) b = true ->
  Z.testbit (pending (check_loop n sig g).2) b = Z.testbit (pending g) b.
Proof.
  intros Hs Hn Hb Hbl. destruct (check_loop_spec n sig g Hs Hn) as (_ & _ & _ & H4).
  rewrite H4 by done. unfold consumed, deliverable. rewrite Hbl, andb_false_r. simpl. apply andb_true_r.
Qed.

(** *** Witness: SIGCHLD is ignored by default and SIGUSR1 has a handler *)

Definition two_signals : kstate :=
  mk_k (replicate MAX_PROCESSES
          (with_signals (mk_sig (2 ^ 10 + 2 ^ 17) 0 ((replicate 32 0).[10 <- 0x5000])) (zero_process x86_64)))
    1 1 None [] [] 0 0.

Lemma signal_check_delivers_witness :
  exists g', signal_check (Some 0) two_signals
    = Returned 10 (set_proc 0 (with_signals g' (get_proc 0 two_signals)) two_signals).
Proof.
  destruct (signal_check_delivers 0 two_signals) as (g' & _ & _ & _ & H);
    [exact (length_replicate MAX_PROCESSES _)|lia|by vm_compute|].
  exists g'. exact H.
Defined.

End Signal.
