(* ===== verification/Process.v ===== *)
(** * Process creation and fork (kernel/proc/process.c)

    The operations that combine the process table, the scheduler, the physical
    page allocator and the virtual memory manager. *)

From stdpp Require Import base numbers list option tactics.
From S2P Require Import Prelude Pmm Paging Vmm ProcTable Sched Signal.

Module Process.

Import Proc Sched Signal.

(** The kernel state the operations share. *)
Record sys (H : Type) := mk_sys {
  ks : kstate;
  vs : Vmm.vmm_state H;
}.
Arguments mk_sys {H}.
Arguments ks {H}.
Arguments vs {H}.

Definition set_ks {H} (k : kstate) (s : sys H) : sys H := mk_sys k (vs s).

(** The string "unnamed". *)
Definition unnamed : list Z := [117; 110; 110; 97; 109; 101; 100; 0].

(** [pid = next_pid++; tid = next_tid++]. *)
Definition bump_ids (k : kstate) : kstate :=
  mk_k (processes k) (u32 (next_pid k + 1)) (u32 (next_tid k + 1)) (current_thread k) (runqueues k)
    (current_threads k) (tick_counter k) (uptime_ms k).

(** The entry context on each architecture. *)
Definition entry_context (a : arch) (entry arg stack : Z) : context_t :=
  match a with
  | aarch64 => Arm (mk_arm ((replicate 31 0).[0 <- arg]) 0 entry 0x3C5)
  | x86_64 => X86 (mk_x86 0 0 0 0 0 0 0 0 0 arg 0 0 0 0 0 entry 0x08 0x202 stack 0x10)
  end.

(** [pmm_alloc_pages(4)]; the order of 4 is 2, so the call returns. *)
Definition alloc_stack {H} (v : Vmm.vmm_state H) : Z * Vmm.vmm_state H :=
  match Pmm.pmm_alloc_pages 4 (Paging.pmm (Vmm.pg v)) with
  | Some (stack, m) => (stack, Vmm.set_pg (Paging.set_pmm m (Vmm.pg v)) v)
  | None => (0, v)
  end.

(** The first free slot of the process table. *)
Definition free_slot (k : kstate) : option Z :=
  Z.of_nat <$> first_index (fun p => negb (pused p)) (processes k).

(** ** proc_create *)

(** The thread before its stack is allocated, and after. *)
Definition new_thread (a : arch) (tid pid priority : Z) : thread_t :=
  mk_thread tid pid (zero_context a) 0 0 0 0 PROC_READY priority 0 0 0 zero_sig false.

Definition ready_thread (a : arch) (tid pid priority stack entry arg : Z) : thread_t :=
  let kernel_stack := u64 (stack + 4 * PAGE_SIZE) in
  mk_thread tid pid (entry_context a entry arg kernel_stack) kernel_stack stack 0 0 PROC_READY
    priority 0 0 0 zero_sig true.

(** The process entry around that thread; [used] and the count are set last. *)
Definition new_process (a : arch) (pid : Z) (nm : list Z) (space : Z) (t : thread_t)
    (count start : Z) (used : bool) : process_t :=
  mk_process pid 0 (strncpy (replicate PROC_NAME_LEN 0) nm (PROC_NAME_LEN - 1)) PROC_READY space count
    ((replicate MAX_THREADS (zero_thread a)).[0 <- t]) 0 start 0 0 0 0
    (replicate MAX_OPEN_FILES zero_fd) zero_sig used.

Definition proc_create {H} (a : arch) (cpu : Z) (nm : option (list Z)) (entry arg priority : Z)
    (s : sys H) : outcome (Z * sys H) :=
  match free_slot (ks s) with
  | None => Done (-1, s)
  | Some slot =>
      let k := ks s in
      let pid := next_pid k in
      let tid := next_tid k in
      let nm := default unnamed nm in
      '(space, v) ← Vmm.vmm_create_space (vs s);
      let '(stack, v) := alloc_stack v in
      if stack =? 0 then
        let t := new_thread a tid pid priority in
        Done (-1, mk_sys (set_proc slot (new_process a pid nm space t 0 0 false) (bump_ids k)) v)
      else
        let t := ready_thread a tid pid priority stack entry arg in
        let k := set_proc slot (new_process a pid nm space t 1 (uptime_ms k) true) (bump_ids k) in
        let k := signal_init_process (Some slot) k in
        Done (s32 pid, mk_sys (sched_add_thread cpu (slot, 0) k) v)
  end.

(** ** proc_wait *)

(** [None]: the loop goes round again, the process has not terminated yet. *)
Definition proc_wait (id : Z) (k : kstate) : option Z :=
  match proc_get id k with
  | None => Some (-1)
  | Some i => if bool_decide (pstate (get_proc i k) = PROC_TERMINATED) then Some 0 else None
  end.

(** ** proc_fork *)

(** [context.x[0] = 0]; [context_x86_64_t] has no such field, the function is
    only meaningful on aarch64. *)
Definition clear_x0 (c : context_t) : context_t :=
  match c with
  | Arm c => Arm (mk_arm ((xregs c).[0 <- 0]) (sp_el0 c) (elr_el1 c) (spsr_el1 c))
  | X86 c => X86 c
  end.

Definition fork_thread (tid pid : Z) (t : thread_t) : thread_t :=
  mk_thread tid pid (clear_x0 (context t)) (kernel_stack t) (kernel_stack_top t) (user_stack t)
    (user_stack_top t) (tstate t) (priority t) (cpu_affinity t) (wakeup_time t) (total_ticks t)
    (tsignals t) (tused t).

Definition fork_process (a : arch) (pid tid start space : Z) (parent : process_t) : process_t :=
  mk_process pid (Proc.pid parent) (name parent) PROC_READY space 1
    ((replicate MAX_THREADS (zero_thread a)).[0 <- fork_thread tid pid (threads parent).[0]])
    (first_thread parent) start (cpu_time parent) (uid parent) (gid parent) (exit_code parent)
    (fds parent) (psignals parent) true.

Definition proc_fork {H} (a : arch) (cpu : Z) (s : sys H) : outcome (Z * sys H) :=
  match proc_get_current (ks s) with
  | None => Done (-1, s)
  | Some pi =>
      match free_slot (ks s) with
      | None => Done (-1, s)
      | Some slot =>
          let k := ks s in
          let pid := next_pid k in
          '(space, v) ← Vmm.vmm_create_space (vs s);
          let child := fork_process a pid (next_tid k) (uptime_ms k) space (get_proc pi k) in
          let k := set_proc slot child (bump_ids k) in
          Done (s32 pid, mk_sys (sched_add_thread cpu (slot, 0) k) v)
      end
  end.

(** ** Userspace *)

(** [None] is a NULL process.  On aarch64 the address space's root becomes
    [ttbr0]. *)
Definition proc_setup_userspace {H} (a : arch) (p : option Z) (entry stack ttbr0 : Z) (s : sys H)
    : Z * sys H :=
  match p with
  | None => (-1, s)
  | Some i =>
      let t := get_thread (i, 0) (ks s) in
      if negb (tused t) then (-1, s) else
      let ctx :=
        match a, context t with
        | aarch64, Arm c => Arm (mk_arm (xregs c) stack entry 0x3C0)
        | x86_64, X86 c =>
            X86 (mk_x86 (r15 c) (r14 c) (r13 c) (r12 c) (r11 c) (r10 c) (r9 c) (r8 c) (rbp c) (rdi c)
                   (rsi c) (rdx c) (rcx c) (rbx c) (rax c) entry 0x23 0x202 stack 0x1B)
        | _, c => c
        end in
      let t' := mk_thread (tid t) (tpid t) ctx (kernel_stack t) (kernel_stack_top t) stack
                  (u64 (stack + 0x10000)) (tstate t) (priority t) (cpu_affinity t) (wakeup_time t)
                  (total_ticks t) (tsignals t) (tused t) in
      let space := vm_space (get_proc i (ks s)) in
      let v := match a with
               | aarch64 => if truthy space then Vmm.write (Vmm.pml4_phys_ space) ttbr0 (vs s) else vs s
               | x86_64 => vs s
               end in
      (0, mk_sys (set_thread (i, 0) t' (ks s)) v)
  end.

Definition proc_init (a : arch) (k : kstate) : kstate :=
  mk_k (replicate MAX_PROCESSES (zero_process a)) (next_pid k) (next_tid k) None (runqueues k)
    (current_threads k) (tick_counter k) (uptime_ms k).

(** ** Invariant: identifiers *)

Definition used_pid (k : kstate) (i id : Z) : Prop :=
  0 <= i < 1024 /\ pused (get_proc i k) = true /\ pid (get_proc i k) = id.

(** Process identifiers in use are distinct, below the counter and positive as
    an [int]. *)
Record pid_inv (k : kstate) : Prop := {
  pi_len : length (processes k) = MAX_PROCESSES;
  pi_next : 0 < next_pid k <= 2 ^ 31;
  pi_range i id : used_pid k i id -> 0 < id < next_pid k;
  pi_inj i j id : used_pid k i id -> used_pid k j id -> i = j;
}.

(** ** Identifier lemmas *)

Lemma get_proc_lookup k (i : nat) p : processes k !! i = Some p -> get_proc (Z.of_nat i) k = p.
Proof. intros E. unfold get_proc. rewrite aget_nat. by apply list_lookup_total_correct. Qed.

Lemma lookup_get_proc k i :
  length (processes k) = MAX_PROCESSES -> 0 <= i < 1024 ->
  processes k !! Z.to_nat i = Some (get_proc i k).
Proof. intros Hl Hi. apply aget_lookup. rewrite Hl. exact Hi. Qed.

Lemma free_slot_Some k slot :
  length (processes k) = MAX_PROCESSES -> free_slot k = Some slot ->
  0 <= slot < 1024 /\ pused (get_proc slot k) = false.
Proof.
  intros Hl. unfold free_slot. intros (j & Hj & ->)%fmap_Some.
  pose proof (first_index_lt _ _ _ Hj) as Hlt. apply first_index_Some in Hj as [(p & Hp & Hu) _].
  rewrite (get_proc_lookup k j p Hp). split; [|by apply negb_true_iff].
  rewrite Hl in Hlt. change 1024 with (Z.of_nat MAX_PROCESSES). lia.
Qed.

(** A process in use is found by its identifier. *)
Lemma proc_get_used k i id : pid_inv k -> used_pid k i id -> proc_get id k = Some i.
Proof.
  intros [Hl Hn Hr Hinj] Hu. pose proof (Hr i id Hu) as Hid. pose proof Hu as (Hi & Hus & Hp).
  unfold proc_get. rewrite <-(Z2Nat.id i) by lia. apply fmap_Some. exists (Z.to_nat i). split; [|done].
  apply first_index_Some. split.
  - exists (get_proc i k). split; [by apply lookup_get_proc|].
    rewrite Hus, Hp, swrap_small by lia. simpl. apply Z.eqb_refl.
  - intros j q Hj Hq. destruct (pused q) eqn:Eq; [simpl|done]. apply Z.eqb_neq. intros E.
    assert (j < MAX_PROCESSES)%nat as Hjl by (rewrite <-Hl; by eapply lookup_lt_Some).
    assert (used_pid k (Z.of_nat j) (pid q)) as Huq.
    { split_and!; [lia|change 1024 with (Z.of_nat MAX_PROCESSES); lia|..]; by rewrite (get_proc_lookup k j q Hq). }
    pose proof (Hr _ _ Huq) as Hq'. rewrite swrap_small in E by lia. rewrite E in Huq.
    pose proof (Hinj _ _ _ Hu Huq). lia.
Qed.

(** States that agree on slots and identifiers. *)
Definition same_ids (k k' : kstate) : Prop :=
  length (processes k') = length (processes k) /\ next_pid k' = next_pid k /\
  forall i, 0 <= i < 1024 ->
    pid (get_proc i k') = pid (get_proc i k) /\ pused (get_proc i k') = pused (get_proc i k).

Lemma pid_inv_same k k' : same_ids k k' -> pid_inv k -> pid_inv k'.
Proof.
  intros (Hl & Hn & Hs) [H1 H2 H3 H4].
  assert (forall i id, used_pid k' i id -> used_pid k i id) as Hback.
  { intros i id (Hi & Hu & Hp). destruct (Hs i Hi) as [E1 E2]. split_and!; congruence || lia. }
  split.
  - congruence.
  - by rewrite Hn.
  - intros i id Hu. rewrite Hn. eauto.
  - intros i j id Hu Hv. eauto.
Qed.

Lemma same_ids_trans k1 k2 k3 : same_ids k1 k2 -> same_ids k2 k3 -> same_ids k1 k3.
Proof.
  intros (A1 & A2 & A3) (B1 & B2 & B3). split_and!; [congruence..|]. intros i Hi.
  destruct (A3 i Hi), (B3 i Hi). split; congruence.
Qed.

Lemma same_ids_set_proc k i p :
  length (processes k) = MAX_PROCESSES -> 0 <= i < 1024 ->
  pid p = pid (get_proc i k) -> pused p = pused (get_proc i k) -> same_ids k (set_proc i p k).
Proof.
  intros Hl Hi Hp Hu. split_and!; [by apply length_aset|done|]. intros j Hj.
  destruct (decide (j = i)) as [->|]; [by rewrite get_set_proc_eq|by rewrite get_set_proc_ne by lia].
Qed.

Lemma same_ids_add_thread cpu t k :
  length (processes k) = MAX_PROCESSES -> 0 <= t.1 < 1024 -> same_ids k (sched_add_thread cpu t k).
Proof.
  intros Hl Ht. unfold sched_add_thread. destruct (_ <=? _); [done|].
  set (k1 := set_runqueue _ _ k). apply (same_ids_trans k k1); [done|].
  by apply same_ids_set_proc.
Qed.

(** A fresh process in a free slot. *)
Lemma pid_inv_insert k slot p :
  pid_inv k -> next_pid k < 2 ^ 31 -> 0 <= slot < 1024 -> pused (get_proc slot k) = false ->
  pid p = next_pid k -> pid_inv (set_proc slot p (bump_ids k)).
Proof.
  intros [Hl Hn Hr Hinj] Hlt Hslot Hfree Hp.
  assert (next_pid (set_proc slot p (bump_ids k)) = next_pid k + 1) as En
    by (simpl; apply wrap_small; lia).
  assert (forall i id, used_pid (set_proc slot p (bump_ids k)) i id ->
    (i = slot /\ id = next_pid k) \/ (i <> slot /\ used_pid k i id)) as Hcase.
  { intros i id (Hi & Hu & Hid). destruct (decide (i = slot)) as [->|Hne].
    - left. rewrite get_set_proc_eq in Hid by done. split; [done|congruence].
    - right. rewrite get_set_proc_ne in Hu, Hid by lia. done. }
  split.
  - simpl. by rewrite length_aset.
  - lia.
  - intros i id Hu. rewrite En. destruct (Hcase i id Hu) as [[_ ->]|[_ Hu']]; [lia|].
    specialize (Hr i id Hu'). lia.
  - intros i j id Hu Hv. destruct (Hcase i id Hu) as [[-> ->]|[_ Hu']], (Hcase j _ Hv) as [[-> E]|[_ Hv']].
    + done.
    + specialize (Hr _ _ Hv'). lia.
    + subst. specialize (Hr _ _ Hu'). lia.
    + by apply (Hinj i j id).
Qed.

(** ** Threads of a fresh process *)

Lemma shape_set_proc k i p :
  shape k -> 0 <= i < 1024 -> length (threads p) = MAX_THREADS -> shape (set_proc i p k).
Proof.
  intros [H1 H2 H3 H4] Hi Hp. split; try done.
  - unfold set_proc. cbn [processes set_processes]. by rewrite length_aset.
  - intros j Hj. destruct (decide (j = i)) as [->|].
    + by rewrite get_set_proc_eq.
    + rewrite get_set_proc_ne by lia. by apply H2.
Qed.

Lemma get_thread_set_proc k i j p :
  length (processes k) = MAX_PROCESSES -> 0 <= i < 1024 ->
  get_thread (i, j) (set_proc i p k) = (threads p).[j].
Proof. intros Hl Hi. unfold get_thread. cbn [fst snd]. by rewrite get_set_proc_eq. Qed.

(** A thread array with its first entry set. *)
Definition first_only (a : arch) (t : thread_t) : list thread_t :=
  (replicate MAX_THREADS (zero_thread a)).[0 <- t].

Lemma first_only_length a t : length (first_only a t) = MAX_THREADS.
Proof. unfold first_only. by rewrite length_aset, length_replicate. Qed.

Lemma first_only_0 a t : (first_only a t).[0] = t.
Proof.
  apply aget_aset_eq. rewrite length_replicate. change (Z.of_nat MAX_THREADS) with 4096. lia.
Qed.

(** Entering a process in a free slot and queueing its first thread. *)
Lemma enter_process cpu k slot p t a :
  pid_inv k -> shape k -> next_pid k < 2 ^ 31 -> 0 <= cpu < 256 -> rq_wf (runqueues k).[cpu] ->
  rcount (runqueues k).[cpu] < MAX_RUNQUEUE_DEPTH -> free_slot k = Some slot ->
  pid p = next_pid k -> pused p = true -> threads p = first_only a t ->
  let k' := sched_add_thread cpu (slot, 0) (set_proc slot p (bump_ids k)) in
  pid_inv k' /\ proc_get (next_pid k) k' = Some slot /\
  rq_list (runqueues k').[cpu] = rq_list (runqueues k).[cpu] ++ [Some (slot, 0)] /\
  get_thread (slot, 0) k' = with_tstate PROC_READY t /\
  (forall j, 0 <= j < 1024 -> j <> slot -> get_proc j k' = get_proc j k) /\
  get_proc slot k' = with_threads (first_only a (with_tstate PROC_READY t)) p.
Proof.
  intros Hinv Hsh Hnext Hcpu Hwf Hroom Hslot Hpid Hused Hthr k'. unfold k'. clear k'.
  destruct (free_slot_Some k slot (pi_len _ Hinv) Hslot) as [Hsl Hfree].
  set (k1 := set_proc slot p (bump_ids k)).
  assert (pid_inv k1) as Hinv1 by by apply pid_inv_insert.
  assert (shape k1) as Hsh1.
  { apply shape_set_proc; [by destruct Hsh; split|done|]. rewrite Hthr. apply first_only_length. }
  assert (same_ids k1 (sched_add_thread cpu (slot, 0) k1)) as Hsame
    by (apply same_ids_add_thread; [apply (sh_processes _ Hsh1)|done]).
  assert (pid_inv (sched_add_thread cpu (slot, 0) k1)) as Hinv2 by by apply (pid_inv_same k1).
  assert (get_proc slot k1 = p) as Hgp by (apply get_set_proc_eq; [apply (sh_processes _ Hsh)|done]).
  assert (valid_ref (slot, 0)) as Hvr by (split; cbn [fst snd]; lia).
  destruct (add_thread_effect cpu (slot, 0) k1 Hsh1 Hcpu Hvr Hwf Hroom) as (_ & _ & Hq & _).
  assert (sched_add_thread cpu (slot, 0) k1 =
    set_tstate (slot, 0) PROC_READY (set_runqueue cpu (rq_push (slot, 0) (runqueues k1).[cpu]) k1)) as Ek.
  { unfold sched_add_thread. rewrite get_runqueue_cpu by done.
    by rewrite (proj2 (Z.leb_gt MAX_RUNQUEUE_DEPTH (rcount (runqueues k1).[cpu]))) by exact Hroom. }
  set (k2 := set_runqueue cpu _ k1) in Ek.
  assert (get_thread (slot, 0) k2 = t) as Ht2.
  { change (get_thread (slot, 0) k2) with (get_thread (slot, 0) k1). unfold k1.
    rewrite get_thread_set_proc by (done || apply (sh_processes _ Hsh)). rewrite Hthr. apply first_only_0. }
  assert (shape k2) as Hsh2 by by apply shape_set_runqueue.
  assert (get_proc slot k2 = p) as Hgp2 by exact Hgp.
  split_and!; [done| |done| | |].
  - apply proc_get_used; [done|]. destruct Hsame as (_ & _ & Hs). destruct (Hs slot Hsl) as [E1 E2].
    split_and!; [lia|lia|by rewrite E2, Hgp|by rewrite E1, Hgp].
  - rewrite Ek. unfold set_tstate. rewrite get_set_thread_eq by done. by rewrite Ht2.
  - intros j Hj Hne. rewrite Ek. unfold set_tstate, set_thread. rewrite get_set_proc_ne by (cbn [fst]; lia).
    change (get_proc j k2) with (get_proc j k1). unfold k1. by rewrite get_set_proc_ne by lia.
  - rewrite Ek. unfold set_tstate, set_thread. cbn [fst snd].
    rewrite get_set_proc_eq by (done || apply (sh_processes _ Hsh2)).
    rewrite Ht2, Hgp2, Hthr. unfold first_only. by rewrite aset_aset.
Qed.

(** ** Properties *)

(** When a slot, an address space and a stack are available,
    [proc_create] returns the next process identifier; looking it up finds the
    new process, its first thread is ready at the entry point on its own stack
    and is appended to the run queue, every other process is untouched and
    identifiers stay unique. *)
Theorem proc_create_success {H} a cpu nm entry arg priority (s : sys H) slot space v1 stack v2
    (Hinv : pid_inv (ks s)) (Hshape : shape (ks s)) (Hnext : next_pid (ks s) < 2 ^ 31)
    (Hcpu : 0 <= cpu < 256) (Hwf : rq_wf (runqueues (ks s)).[cpu])
    (Hroom : rcount (runqueues (ks s)).[cpu] < MAX_RUNQUEUE_DEPTH)
    (Hslot : free_slot (ks s) = Some slot)
    (Hspace : Vmm.vmm_create_space (vs s) = Done (space, v1))
    (Hstack : alloc_stack v1 = (stack, v2)) (Hne : stack <> 0) :
  exists k', proc_create a cpu nm entry arg priority s = Done (next_pid (ks s), mk_sys k' v2) /\
    pid_inv k' /\ proc_get (next_pid (ks s)) k' = Some slot /\
    get_thread (slot, 0) k' =
      ready_thread a (next_tid (ks s)) (next_pid (ks s)) priority stack entry arg /\
    rq_list (runqueues k').[cpu] = rq_list (runqueues (ks s)).[cpu] ++ [Some (slot, 0)] /\
    (forall j, 0 <= j < 1024 -> j <> slot -> get_proc j k' = get_proc j (ks s)).
Proof.
  unfold proc_create. rewrite Hslot, Hspace. cbn [mbind outcome_bind]. rewrite Hstack.
  rewrite (proj2 (Z.eqb_neq stack 0) Hne).
  destruct (free_slot_Some _ slot (pi_len _ Hinv) Hslot) as [Hsl _].
  set (t := ready_thread _ _ _ _ _ _ _). set (p := new_process a _ _ space t 1 _ true).
  assert (signal_init_process (Some slot) (set_proc slot p (bump_ids (ks s))) =
    set_proc slot p (bump_ids (ks s))) as ->.
  { cbn [signal_init_process]. rewrite get_set_proc_eq by (done || apply (pi_len _ Hinv)).
    unfold set_proc. cbn [processes set_processes]. by rewrite aset_aset. }
  destruct (enter_process cpu (ks s) slot p t a) as (H1 & H2 & H3 & H4 & H5 & _); [done..|].
  eexists. split; [|split_and!; done].
  rewrite swrap_small by (pose proof (pi_next _ Hinv); lia). done.
Qed.

(** When no stack can be allocated, as after [pmm_init], where no block
    of four pages exists, [proc_create] returns -1 with the slot still free,
    but the address space it created stays allocated and the identifiers are
    consumed. *)
Theorem proc_create_no_stack {H} a cpu nm entry arg priority (s : sys H) slot space v1 v2
    (Hinv : pid_inv (ks s)) (Hnext : next_pid (ks s) < 2 ^ 31)
    (Hslot : free_slot (ks s) = Some slot)
    (Hspace : Vmm.vmm_create_space (vs s) = Done (space, v1))
    (Hstack : alloc_stack v1 = (0, v2)) :
  exists k', proc_create a cpu nm entry arg priority s = Done (-1, mk_sys k' v2) /\
    pid_inv k' /\ free_slot k' = Some slot /\ next_pid k' = next_pid (ks s) + 1 /\
    runqueues k' = runqueues (ks s) /\
    (forall j, 0 <= j < 1024 -> j <> slot -> get_proc j k' = get_proc j (ks s)).
Proof.
  unfold proc_create. rewrite Hslot, Hspace. cbn [mbind outcome_bind]. rewrite Hstack.
  cbn [Z.eqb]. destruct (free_slot_Some _ slot (pi_len _ Hinv) Hslot) as [Hsl Hfree].
  eexists. split; [reflexivity|]. split_and!.
  - by apply pid_inv_insert.
  - unfold free_slot in *. apply fmap_Some in Hslot as (j & Hj & ->). apply fmap_Some. exists j.
    split; [|done]. apply first_index_Some in Hj as [(q & Hq & _) Hlt]. apply first_index_Some.
    unfold set_proc. cbn [processes set_processes bump_ids]. unfold aset. rewrite Nat2Z.id. split.
    + eexists. split; [apply list_lookup_insert_eq; by eapply lookup_lt_Some|done].
    + intros m y Hm. rewrite list_lookup_insert_ne by lia. apply Hlt. lia.
  - cbn [next_pid set_proc set_processes bump_ids]. apply wrap_small. pose proof (pi_next _ Hinv). lia.
  - done.
  - intros j Hj Hne. by rewrite get_set_proc_ne by lia.
Qed.

(** [proc_fork] gives the child a new identifier with the parent's as
    its [ppid], the parent's name, open files and signal state, and a first
    thread that is the parent's with [x0] cleared, ready in the run queue; the
    parent is unchanged.  The thread's kernel stack is copied with it: parent
    and child share it. *)
Theorem proc_fork_child {H} a cpu (s : sys H) pi slot space v1
    (Hinv : pid_inv (ks s)) (Hshape : shape (ks s)) (Hnext : next_pid (ks s) < 2 ^ 31)
    (Hcpu : 0 <= cpu < 256) (Hwf : rq_wf (runqueues (ks s)).[cpu])
    (Hroom : rcount (runqueues (ks s)).[cpu] < MAX_RUNQUEUE_DEPTH)
    (Hcur : proc_get_current (ks s) = Some pi) (Hslot : free_slot (ks s) = Some slot)
    (Hspace : Vmm.vmm_create_space (vs s) = Done (space, v1)) :
  exists k', proc_fork a cpu s = Done (next_pid (ks s), mk_sys k' v1) /\
    pid_inv k' /\ proc_get (next_pid (ks s)) k' = Some slot /\
    (forall j, 0 <= j < 1024 -> j <> slot -> get_proc j k' = get_proc j (ks s)) /\
    let parent := get_proc pi (ks s) in
    let child := get_proc slot k' in
    let pt := (threads parent).[0] in
    let ct := get_thread (slot, 0) k' in
    ppid child = pid parent /\ name child = name parent /\ fds child = fds parent /\
    psignals child = psignals parent /\
    tpid ct = next_pid (ks s) /\ context ct = clear_x0 (context pt) /\ tstate ct = PROC_READY /\
    kernel_stack ct = kernel_stack pt.
Proof.
  unfold proc_fork. rewrite Hcur, Hslot, Hspace. cbn [mbind outcome_bind].
  set (p := fork_process _ _ _ _ _ _).
  destruct (enter_process cpu (ks s) slot p (fork_thread (next_tid (ks s)) (next_pid (ks s))
    (threads (get_proc pi (ks s))).[0]) a) as (H1 & H2 & H3 & H4 & H5 & H6); [done..|].
  eexists. split.
  { rewrite swrap_small by (pose proof (pi_next _ Hinv); lia). done. }
  split; [done|]. split; [done|]. split; [done|]. rewrite H4, H6. split_and!; reflexivity.
Qed.

(** *** Witnesses *)

(** Four single pages and one block of four. *)
Definition vs0 : Vmm.vmm_state Z :=
  Vmm.mk_vmm (Paging.mk_paging (Pmm.buddy_free 0 0x2000000 2 Pmm.four_pages) 0x1000 2 0x1000 0 0 false false) 0 1.

Lemma boot_pid_inv : pid_inv boot.
Proof.
  assert (forall i id, ~ used_pid boot i id) as Hno.
  { intros i id (Hi & Hu & _). unfold get_proc, aget in Hu.
    change (processes boot) with (replicate MAX_PROCESSES (zero_process x86_64)) in Hu.
    rewrite lookup_total_replicate_2 in Hu by (change 1024 with (Z.of_nat MAX_PROCESSES) in Hi; lia).
    discriminate. }
  split; [apply (sh_processes _ boot_shape)|simpl; lia| |]; intros; by edestruct Hno.
Qed.

Lemma boot_room : rcount (runqueues boot).[0] < MAX_RUNQUEUE_DEPTH.
Proof. destruct boot_queue as [Hw Hq]. rewrite (rq_count _ Hw), Hq. by vm_compute. Qed.

(** What a creation finds: the address of the stack it gets. *)
Definition found_stack (v : Vmm.vmm_state Z) : Z :=
  match Vmm.vmm_create_space v with
  | Done (_, v1) => (alloc_stack v1).1
  | Halted _ => -1
  end.

Lemma found_stack_inv (v : Vmm.vmm_state Z) (addr : Z) :
  found_stack v = addr -> 0 <= addr ->
  exists space v1 v2, Vmm.vmm_create_space v = Done (space, v1) /\ alloc_stack v1 = (addr, v2).
Proof.
  unfold found_stack. destruct (Vmm.vmm_create_space v) as [[space v1]|]; [|lia].
  intros <- _. exists space, v1, (alloc_stack v1).2. by rewrite <- surjective_pairing.
Qed.

Lemma vs0_stack : found_stack vs0 = 0x2000000.
Proof. vm_compute. reflexivity. Qed.

Lemma vmm0_stack : found_stack Vmm.vmm0 = 0.
Proof. vm_compute. reflexivity. Qed.

Lemma proc_create_success_witness :
  exists k' v', proc_create x86_64 0 None 0x100000 0 5 (mk_sys boot vs0) = Done (1, mk_sys k' v') /\
    proc_get 1 k' = Some 0.
Proof.
  destruct (found_stack_inv vs0 _ vs0_stack) as (space & v1 & v2 & E1 & E2); [lia|].
  destruct (proc_create_success x86_64 0 None 0x100000 0 5 (mk_sys boot vs0) 0 space v1 0x2000000 v2)
    as (k' & H1 & _ & H2 & _).
  - apply boot_pid_inv.
  - apply boot_shape.
  - simpl. lia.
  - lia.
  - apply boot_queue.
  - apply boot_room.
  - vm_compute. reflexivity.
  - exact E1.
  - exact E2.
  - lia.
  - exists k', v2. split; [exact H1|exact H2].
Defined.

Lemma proc_create_no_stack_witness :
  exists k' v', proc_create x86_64 0 None 0x100000 0 5 (mk_sys boot Vmm.vmm0) = Done (-1, mk_sys k' v') /\
    free_slot k' = Some 0.
Proof.
  destruct (found_stack_inv Vmm.vmm0 _ vmm0_stack) as (space & v1 & v2 & E1 & E2); [lia|].
  destruct (proc_create_no_stack x86_64 0 None 0x100000 0 5 (mk_sys boot Vmm.vmm0) 0 space v1 v2)
    as (k' & H1 & _ & H2 & _).
  - apply boot_pid_inv.
  - simpl. lia.
  - vm_compute. reflexivity.
  - exact E1.
  - exact E2.
  - exists k', v2. split; [exact H1|exact H2].
Defined.

(** Process 1 in slot 0, running its first thread. *)
Definition parent0 : process_t :=
  new_process aarch64 1 unnamed 0 (ready_thread aarch64 1 1 5 0x2000000 0x100000 0) 1 0 true.
Definition forking : kstate := proc_set_current_thread (Some (0, 0)) (set_proc 0 parent0 (bump_ids boot)).

Lemma forking_inv : pid_inv forking /\ shape forking.
Proof.
  assert (pused (get_proc 0 boot) = false) as Hf by (vm_compute; reflexivity).
  split.
  - apply (pid_inv_same (set_proc 0 parent0 (bump_ids boot))); [done|].
    apply pid_inv_insert; [apply boot_pid_inv|simpl; lia|lia|exact Hf|reflexivity].
  - assert (shape (set_proc 0 parent0 (bump_ids boot))) as [? ? ? ?]; [|by split].
    apply shape_set_proc; [destruct boot_shape; by split|lia|apply first_only_length].
Qed.

Lemma proc_fork_child_witness :
  exists k' v', proc_fork aarch64 0 (mk_sys forking vs0) = Done (2, mk_sys k' v') /\ proc_get 2 k' = Some 1.
Proof.
  destruct forking_inv as [Hinv Hsh].
  destruct (found_stack_inv vs0 _ vs0_stack) as (space & v1 & v2 & E1 & _); [lia|].
  destruct (proc_fork_child aarch64 0 (mk_sys forking vs0) 0 1 space v1) as (k' & H1 & _ & H2 & _).
  - exact Hinv.
  - exact Hsh.
  - change (2 < 2 ^ 31). lia.
  - lia.
  - apply boot_queue.
  - apply boot_room.
  - vm_compute. reflexivity.
  - vm_compute. reflexivity.
  - exact E1.
  - exists k', v1. split; [exact H1|exact H2].
Defined.

End Process.
