(* ===== verification/Switch.v ===== *)
(** * The context switch of the x86_64 kernel

    Models [context_switch] and [context_switch_to] of kernel/proc/process.c: the
    instructions of the two naked functions over the general registers, the flags,
    the stack pointer and memory.  The registers the compiler chooses for the two
    operands are arguments of the code.

    Memory is a map from addresses to 64-bit words: every access of this code is
    to a word, and the frames and slots the theorems speak of do not overlap.

    A suspended thread is the registers it continues with.  [context_switch] is
    proved to exchange the running thread for a suspended one, for any number of
    suspended threads.  A thread that [proc_create] has just made is not such a
    thread: its stack pointer is in another field of the context. *)

From stdpp Require Import base numbers list option tactics gmap.
From S2P Require Import Prelude ProcTable Process.
Import Proc Process.

Module Switch.

(** ** The machine *)

Inductive reg :=
| RAX | RBX | RCX | RDX | RSI | RDI | RBP | R8 | R9 | R10 | R11 | R12 | R13 | R14 | R15.

#[export] Instance reg_eq_dec : EqDecision reg.
Proof. solve_decision. Defined.

Record cpu := mk_cpu {
  gpr : reg -> Z;
  flags : Z;
  sp : Z;
  ip : Z;
  mem : Z -> Z;
}.

Inductive instr :=
| Pushfq
| Pushq (r : reg)
| StoreRsp (base : reg)      (* movq %rsp, 0(base) *)
| LoadRsp (base : reg)       (* movq 0(base), %rsp *)
| Popq (r : reg)
| Popfq
| Ret.

Definition push (v : Z) (c : cpu) : cpu :=
  mk_cpu (gpr c) (flags c) (u64 (sp c - 8)) (ip c) (mem_write (mem c) (u64 (sp c - 8)) v).

Definition exec (i : instr) (c : cpu) : cpu :=
  match i with
  | Pushfq => push (flags c) c
  | Pushq r => push (gpr c r) c
  | StoreRsp b => mk_cpu (gpr c) (flags c) (sp c) (ip c) (mem_write (mem c) (gpr c b) (sp c))
  | LoadRsp b => mk_cpu (gpr c) (flags c) (mem c (gpr c b)) (ip c) (mem c)
  | Popq r =>
      mk_cpu (fun x => if decide (x = r) then mem c (sp c) else gpr c x) (flags c) (u64 (sp c + 8)) (ip c) (mem c)
  | Popfq => mk_cpu (gpr c) (mem c (sp c)) (u64 (sp c + 8)) (ip c) (mem c)
  | Ret => mk_cpu (gpr c) (flags c) (u64 (sp c + 8)) (mem c (sp c)) (mem c)
  end.

Definition run (p : list instr) (c : cpu) : cpu := fold_left (fun c i => exec i c) p c.

(** ** The code *)

Definition save_regs : list instr :=
  [Pushfq; Pushq R15; Pushq R14; Pushq R13; Pushq R12;
   Pushq R11; Pushq R10; Pushq R9; Pushq R8;
   Pushq RBP; Pushq RDI; Pushq RSI; Pushq RDX;
   Pushq RCX; Pushq RBX; Pushq RAX].

Definition restore_regs : list instr :=
  [Popq RAX; Popq RBX; Popq RCX; Popq RDX;
   Popq RSI; Popq RDI; Popq RBP;
   Popq R8; Popq R9; Popq R10; Popq R11;
   Popq R12; Popq R13; Popq R14; Popq R15;
   Popfq; Ret].

Definition context_switch (old new : reg) : list instr :=
  save_regs ++ [StoreRsp old; LoadRsp new] ++ restore_regs.

Definition context_switch_to (new : reg) : list instr := LoadRsp new :: restore_regs.

(** ** Suspended threads *)

(** What a suspended thread continues with. *)
Record thread_regs := mk_tregs {
  t_gpr : reg -> Z;
  t_flags : Z;
  t_sp : Z;
  t_ip : Z;
}.

(** The registers the caller of [context_switch] sees when it returns. *)
Definition returning (c : cpu) : thread_regs := mk_tregs (gpr c) (flags c) (sp c + 8) (mem c (sp c)).

(** The machine runs with the registers of [t]. *)
Definition resumed (c : cpu) (t : thread_regs) : Prop :=
  (forall r, gpr c r = t_gpr t r) /\ flags c = t_flags t /\ sp c = t_sp t /\ ip c = t_ip t.

(** The order of the saved registers in memory, lowest address first. *)
Definition frame_regs : list reg :=
  [RAX; RBX; RCX; RDX; RSI; RDI; RBP; R8; R9; R10; R11; R12; R13; R14; R15].

(** The frame of [t]: 15 registers, the flags and the return address. *)
Definition base (t : thread_regs) : Z := t_sp t - 136.

Record frame_at (m : Z -> Z) (t : thread_regs) : Prop := {
  fr_gpr i r : frame_regs !! i = Some r -> m (base t + 8 * Z.of_nat i) = t_gpr t r;
  fr_flags : m (base t + 120) = t_flags t;
  fr_ip : m (base t + 128) = t_ip t;
}.

(** Memory keeps the suspended threads, each under the address of its context. *)
Definition holds (m : Z -> Z) (susp : gmap Z thread_regs) : Prop :=
  forall s t, susp !! s = Some t -> m s = base t /\ frame_at m t.

(** The frames lie in memory and apart from each other and from the contexts. *)
Record layout (susp : gmap Z thread_regs) : Prop := {
  l_range s t : susp !! s = Some t -> 0 <= base t /\ t_sp t < 2 ^ 64;
  l_slot s t s' t' : susp !! s = Some t -> susp !! s' = Some t' -> s + 8 <= base t' \/ t_sp t' <= s;
  l_frames s t s' t' : susp !! s = Some t -> susp !! s' = Some t' -> s <> s' ->
    t_sp t <= base t' \/ t_sp t' <= base t;
}.

(** ** Runs of pushes and pops *)

Lemma switch_run_app p q c : run (p ++ q) c = run q (run p c).
Proof. apply fold_left_app. Qed.

Definition push_all (vs : list Z) (c : cpu) : cpu := fold_left (fun c v => push v c) vs c.

Lemma push_all_spec vs c :
  8 * Z.of_nat (length vs) <= sp c < 2 ^ 64 ->
  let c' := push_all vs c in
  gpr c' = gpr c /\ flags c' = flags c /\ ip c' = ip c /\ sp c' = sp c - 8 * Z.of_nat (length vs) /\
  (forall i v, vs !! i = Some v -> mem c' (sp c - 8 * (Z.of_nat i + 1)) = v) /\
  (forall a, a < sp c' \/ sp c <= a -> mem c' a = mem c a).
Proof.
  revert c. induction vs as [|v vs IH]; intros c Hsp; cbn [push_all fold_left length] in *.
  - split_and!; [done..|lia|done|done].
  - assert (sp (push v c) = sp c - 8) as E by (apply wrap_small; lia).
    destruct (IH (push v c)) as (Hg & Hf & Hi & Hs & Hl & Ho); [lia|].
    change (fold_left _ vs (push v c)) with (push_all vs (push v c)).
    split_and!; [done..|lia| |].
    + intros [|i] w Hw; cbn in Hw.
      * simplify_eq. rewrite Ho by lia. cbn. unfold mem_write. rewrite wrap_small by lia.
        by rewrite (proj2 (Z.eqb_eq _ _)) by lia.
      * rewrite <-(Hl i w Hw). f_equal. lia.
    + intros a Ha. rewrite Ho by lia. cbn. unfold mem_write. rewrite wrap_small by lia.
      by rewrite (proj2 (Z.eqb_neq _ _)) by lia.
Qed.

Lemma pops_spec l c :
  NoDup l -> 0 <= sp c -> sp c + 8 * Z.of_nat (length l) < 2 ^ 64 ->
  let c' := run (Popq <$> l) c in
  mem c' = mem c /\ flags c' = flags c /\ ip c' = ip c /\ sp c' = sp c + 8 * Z.of_nat (length l) /\
  (forall i r, l !! i = Some r -> gpr c' r = mem c (sp c + 8 * Z.of_nat i)) /\
  (forall r, r ∉ l -> gpr c' r = gpr c r).
Proof.
  intros Hnd. revert c. induction Hnd as [|r l Hr Hnd IH]; intros c H0 Hsp;
    cbn [run fold_left fmap list_fmap length] in *.
  - split_and!; [done..|lia|done|done].
  - change (fold_left _ ?p (exec ?i c)) with (run p (exec i c)).
    assert (sp (exec (Popq r) c) = sp c + 8) as E by (apply wrap_small; lia).
    destruct (IH (exec (Popq r) c)) as (Hm & Hf & Hi & Hs & Hl & Ho); [lia..|].
    split_and!; [done..|lia| |].
    + intros [|i] x Hx; cbn in Hx.
      * simplify_eq. rewrite Ho by done. cbn. rewrite decide_True by done. f_equal. lia.
      * rewrite (Hl i x Hx), E. cbn. f_equal. lia.
    + intros x [Hx Hxl]%not_elem_of_cons. rewrite Ho by done. cbn. by rewrite decide_False.
Qed.

Lemma run_push l c g : g = gpr c -> run (Pushq <$> l) c = push_all (g <$> l) c.
Proof.
  intros ->. revert c. induction l as [|r l IH]; intros c; [done|].
  change (run (Pushq <$> l) (push (gpr c r) c) = push_all (gpr c <$> l) (push (gpr c r) c)). by rewrite IH.
Qed.

(** ** The two halves of a switch *)

Lemma frame_regs_NoDup : NoDup frame_regs.
Proof. apply (bool_decide_unpack _). by vm_compute. Qed.

Lemma frame_regs_all r : exists i, frame_regs !! i = Some r.
Proof. apply list_elem_of_lookup. destruct r; apply (bool_decide_unpack _); by vm_compute. Qed.

(** Saving leaves a frame from which the caller continues. *)
Lemma save_spec c :
  128 <= sp c -> sp c + 8 < 2 ^ 64 ->
  let c' := run save_regs c in
  gpr c' = gpr c /\ sp c' = base (returning c) /\ frame_at (mem c') (returning c) /\
  (forall a, a < base (returning c) \/ t_sp (returning c) <= a -> mem c' a = mem c a).
Proof.
  intros H0 H1. cbn zeta.
  assert (run save_regs c = push_all (flags c :: (gpr c <$> reverse frame_regs)) c) as ->.
  { change save_regs with (Pushfq :: (Pushq <$> reverse frame_regs)).
    exact (run_push (reverse frame_regs) (push (flags c) c) (gpr c) eq_refl). }
  destruct (push_all_spec (flags c :: (gpr c <$> reverse frame_regs)) c) as (Hg & _ & _ & Hs & Hl & Ho).
  { cbn. lia. }
  change (length _) with 16%nat in Hs.
  assert (base (returning c) = sp c - 128) as Hb by (unfold base; cbn; lia).
  split_and!; [done|lia| |].
  - split; rewrite Hb.
    + intros i r Hr. assert (i < 15)%nat as Hi by (apply lookup_lt_Some in Hr; exact Hr).
      etransitivity; [|apply (Hl (15 - i)%nat)]; [f_equal; lia|].
      replace (15 - i)%nat with (S (14 - i)) by lia. 
      change ((gpr c <$> reverse frame_regs) !! (14 - i)%nat = Some (gpr c r)).
      rewrite list_lookup_fmap, reverse_lookup by (cbn; lia).
      change (length frame_regs) with 15%nat. replace (15 - S (14 - i))%nat with i by lia. by rewrite Hr.
    + etransitivity; [|by apply (Hl 0%nat)]. f_equal. lia.
    + rewrite Ho by lia. cbn [returning t_ip]. f_equal. lia.
  - cbn [returning t_sp]. intros a Ha. apply Ho. lia.
Qed.

(** Restoring from a frame resumes its thread. *)
Lemma restore_spec c t :
  sp c = base t -> 0 <= base t -> t_sp t < 2 ^ 64 -> frame_at (mem c) t ->
  resumed (run restore_regs c) t /\ mem (run restore_regs c) = mem c.
Proof.
  intros Hs H0 H1 [Hg Hf Hi]. unfold base in *.
  change restore_regs with ((Popq <$> frame_regs) ++ [Popfq; Ret]). rewrite switch_run_app.
  destruct (pops_spec frame_regs c frame_regs_NoDup) as (Em & Ef & Ei & Es & El & _);
    change (length frame_regs) with 15%nat in *; [lia..|].
  remember (run (Popq <$> frame_regs) c) as c1 eqn:E1. clear E1.
  cbn [run fold_left exec gpr flags sp ip mem]. rewrite Em.
  assert (u64 (sp c1 + 8) = t_sp t - 8) as E2 by (rewrite wrap_small; lia). rewrite E2.
  split; [|done]. split_and!.
  - intros r. destruct (frame_regs_all r) as [i Hr]. cbn. rewrite (El i r Hr), <-(Hg i r Hr). f_equal. lia.
  - cbn. rewrite <-Hf. f_equal. lia.
  - cbn. rewrite wrap_small; lia.
  - cbn. rewrite <-Hi. f_equal. lia.
Qed.

Lemma frame_at_ext m m' t :
  (forall a, base t <= a < t_sp t -> m' a = m a) -> frame_at m t -> frame_at m' t.
Proof.
  intros He [Hg Hf Hi]. split; unfold base in *.
  - intros i r Hr. rewrite He; [by apply Hg|]. apply lookup_lt_Some in Hr. change (length frame_regs) with 15%nat in Hr. lia.
  - rewrite He by lia. done.
  - rewrite He by lia. done.
Qed.

(** ** Properties *)

(** The first half of [context_switch]: the running thread joins the suspended ones. *)
Lemma suspend_spec old c susp :
  holds (mem c) susp -> layout (<[gpr c old := returning c]> susp) ->
  let c1 := run (save_regs ++ [StoreRsp old]) c in
  gpr c1 = gpr c /\ holds (mem c1) (<[gpr c old := returning c]> susp).
Proof.
  intros Hh HL. set (all := <[gpr c old := returning c]> susp) in *. cbn zeta. rewrite switch_run_app.
  assert (all !! gpr c old = Some (returning c)) as Hold by apply lookup_insert_eq.
  destruct (l_range _ HL _ _ Hold) as [Hr0 Hr1]. unfold base in Hr0. cbn in Hr0, Hr1.
  destruct (save_spec c) as (Hg & Hs & Hf & Ho); [lia..|].
  remember (run save_regs c) as c1 eqn:E1. clear E1.
  cbn [run fold_left exec gpr mem]. rewrite Hg. split; [done|]. intros s t Hst.
  pose proof (l_slot _ HL _ _ _ _ Hold Hst) as Hslot.
  assert (forall a, base t <= a < t_sp t -> mem_write (mem c1) (gpr c old) (sp c1) a = mem c1 a) as Hw.
  { intros a Ha. unfold mem_write. by rewrite (proj2 (Z.eqb_neq _ _)) by lia. }
  destruct (decide (s = gpr c old)) as [->|Hne].
  - simplify_eq. split; [unfold mem_write; by rewrite Z.eqb_refl|]. by eapply frame_at_ext.
  - assert (susp !! s = Some t) as Hs' by (by rewrite <-(lookup_insert_ne susp (gpr c old) s (returning c)) by done).
    destruct (Hh s t Hs') as [Em Hft]. pose proof (l_frames _ HL _ _ _ _ Hold Hst (not_eq_sym Hne)) as Hd.
    pose proof (l_slot _ HL _ _ _ _ Hst Hold) as Hso. split.
    + unfold mem_write. rewrite (proj2 (Z.eqb_neq _ _)) by lia. rewrite Ho by lia. done.
    + eapply frame_at_ext; [exact Hw|]. eapply frame_at_ext; [|exact Hft]. intros a Ha. apply Ho. lia.
Qed.

(** The second half, which is [context_switch_to]. *)
Lemma resume_spec new c susp t :
  holds (mem c) susp -> layout susp -> susp !! gpr c new = Some t ->
  resumed (run (context_switch_to new) c) t /\ mem (run (context_switch_to new) c) = mem c.
Proof.
  intros Hh HL Ht. destruct (Hh _ _ Ht) as [Em Hf]. destruct (l_range _ HL _ _ Ht).
  change (run (context_switch_to new) c) with (run restore_regs (exec (LoadRsp new) c)).
  apply (restore_spec (exec (LoadRsp new) c) t); done.
Qed.

(** C13: [context_switch] exchanges threads: the running thread becomes the suspended
    thread of the old context, to continue behind its call with every register,
    the flags and the stack pointer it has now, the thread suspended under the
    new context runs with exactly what it was suspended with, and every other
    suspended thread stays as it is. *)
Theorem context_switch_refines old new c susp t
    (Hh : holds (mem c) susp)
    (HL : layout (<[gpr c old := returning c]> susp))
    (Ht : <[gpr c old := returning c]> susp !! gpr c new = Some t) :
  let c' := run (context_switch old new) c in
  resumed c' t /\ holds (mem c') (<[gpr c old := returning c]> susp).
Proof.
  destruct (suspend_spec old c susp Hh HL) as [Hg Hh1]. cbn zeta.
  change (context_switch old new) with ((save_regs ++ [StoreRsp old]) ++ context_switch_to new). rewrite switch_run_app.
  destruct (resume_spec new _ _ t Hh1 HL) as [Hr ->]; [by rewrite Hg|]. done.
Qed.

(** ** The context of a new thread *)

(** The words of a context, as the packed structure lays them out. *)
Definition context_words (c : context_x86_64_t) : list Z :=
  [r15 c; r14 c; r13 c; r12 c; r11 c; r10 c; r9 c; r8 c; rbp c; rdi c; rsi c; rdx c; rcx c; rbx c; rax c;
   rip c; cs c; rflags c; rsp c; ss c].

Definition context_at (m : Z -> Z) (a : Z) (c : context_x86_64_t) : Prop :=
  forall i w, context_words c !! i = Some w -> m (a + 8 * Z.of_nat i) = w.

(** The switch takes the stack pointer from the first word of the context, which is
    its r15: the first switch to a thread made by [proc_create] pops its registers
    from address 0 and continues at the word there, not at its entry. *)
Lemma new_thread_stack new c x entry arg stack :
  entry_context x86_64 entry arg stack = X86 x -> context_at (mem c) (gpr c new) x ->
  let c' := run (context_switch_to new) c in sp c' = 136 /\ ip c' = mem c 128.
Proof.
  intros [= <-] Hc. assert (mem c (gpr c new) = 0) as E.
  { rewrite <-(Hc 0%nat 0) by done. f_equal. lia. }
  cbn zeta. change (run (context_switch_to new) c) with (run restore_regs (exec (LoadRsp new) c)).
  cbn [exec]. rewrite E. split; reflexivity.
Qed.

(** [sched_yield] passes a null old context when no thread is current: the stack
    pointer is stored at address 0. *)
Lemma switch_from_null old c :
  gpr c old = 0 -> 128 <= sp c -> sp c + 8 < 2 ^ 64 ->
  mem (run (save_regs ++ [StoreRsp old]) c) 0 = sp c - 128.
Proof.
  intros E H0 H1. rewrite switch_run_app. destruct (save_spec c H0 H1) as (Hg & Hs & _).
  remember (run save_regs c) as c1 eqn:E1. clear E1. cbn [run fold_left exec mem]. rewrite Hg, E, Hs. unfold base. cbn. lia.
Qed.

(** *** Witness: two threads, with contexts at 0x1000 and 0x2000 *)

Definition thread_b : thread_regs := mk_tregs (fun r => if decide (r = R12) then 12 else 0) 0x202 0x9000 0x400100.

(** The memory in which [thread_b] is suspended. *)
Definition mem_b (a : Z) : Z :=
  if a =? 0x2000 then 0x9000 - 136 else if a =? 0x9000 - 136 + 88 then 12 else if a =? 0x9000 - 16 then 0x202 else
  if a =? 0x9000 - 8 then 0x400100 else if a =? 0x7F00 then 0x400200 else 0.

(** Thread A calls [context_switch] with the two contexts in rdi and rsi. *)
Definition cpu_a : cpu :=
  mk_cpu (fun r => if decide (r = RDI) then 0x1000 else if decide (r = RSI) then 0x2000 else 7) 0x246 0x7F00 0x400000 mem_b.

Lemma context_switch_refines_witness :
  let c' := run (context_switch RDI RSI) cpu_a in
  gpr c' R12 = 12 /\ ip c' = 0x400100 /\ sp c' = 0x9000 /\
  holds (mem c') (<[0x1000 := returning cpu_a]> {[0x2000 := thread_b]}).
Proof.
  destruct (context_switch_refines RDI RSI cpu_a {[0x2000 := thread_b]} thread_b) as [(Hg & _ & Hs & Hi) Hh].
  - intros s t [<- <-]%lookup_singleton_Some. split; [reflexivity|]. split; [|reflexivity..].
    intros i r Hr. do 15 (destruct i as [|i]; [injection Hr as <-; reflexivity|]). discriminate.
  - assert (forall s t, (<[0x1000 := returning cpu_a]> {[0x2000 := thread_b]} : gmap Z thread_regs) !! s = Some t ->
      s = 0x1000 /\ t = returning cpu_a \/ s = 0x2000 /\ t = thread_b) as Hall.
    { intros s t [[<- <-]|[_ [<- <-]%lookup_singleton_Some]]%lookup_insert_Some; auto. }
    split; repeat intro; repeat match goal with H : _ !! _ = Some _ |- _ => apply Hall in H end;
      unfold base in *; naive_solver lia.
  - reflexivity.
  - split_and!; [exact (Hg R12)|exact Hi|exact Hs|exact Hh].
Defined.

End Switch.
