(* ===== verification/Pipe.v ===== *)
(** * Pipes (kernel/ipc/pipe.c)

    The table of pipes, each a circular byte buffer with two open flags, and
    the descriptors [pipe_create] installs in the current process.  A pipe is a
    byte stream: what is read is what was accepted, in order, and the other
    pipes are not disturbed. *)

From stdpp Require Import base numbers list option tactics.
From S2P Require Import Prelude Fifo RingBuffer ProcTable.

Module Pipe.
Import Proc.

Definition PIPE_BUF_SIZE : Z := 4096.
Definition MAX_PIPES : nat := 64.

Record pipe_t := mk_pipe {
  buf : list Z;
  head : Z;
  tail : Z;
  read_open : Z;
  write_open : Z;
  in_use : Z;
}.

Definition zero_pipe : pipe_t := mk_pipe (replicate (Z.to_nat PIPE_BUF_SIZE) 0) 0 0 0 0 0.
#[export] Instance pipe_inhabited : Inhabited pipe_t := populate zero_pipe.

(** [_pipes] *)
Definition pipes : Type := list pipe_t.

Definition pipe_init (_ : pipes) : pipes := replicate MAX_PIPES zero_pipe.

Definition pipe_fd (i id flags : Z) (f : file_descriptor_t) : file_descriptor_t :=
  mk_fd i 1 id (private_data f) flags true.

(** The loop over the descriptors of the process, from index [i] on, with the
    values of [*read_fd] and [*write_fd]. *)
Fixpoint assign_fds (id i rfd wfd : Z) (l : list file_descriptor_t) : list file_descriptor_t * Z * Z :=
  match l with
  | [] => ([], rfd, wfd)
  | f :: l' =>
      if fd_in_use f then
        let '(r, a, b) := assign_fds id (i + 1) rfd wfd l' in (f :: r, a, b)
      else if rfd <? 0 then
        let '(r, a, b) := assign_fds id (i + 1) i wfd l' in (pipe_fd i id 0 f :: r, a, b)
      else if wfd <? 0 then
        let '(r, a, b) := assign_fds id (i + 1) rfd i l' in (pipe_fd i id 1 f :: r, a, b)
      else (l, rfd, wfd)
  end.

(** The result of a creation: the return value and the two out parameters. *)
Record created := mk_created { ret : Z; out_read : option Z; out_write : option Z }.

(** [None] is a NULL out pointer. *)
Definition pipe_create (read_fd write_fd : option Z) (ps : pipes) (k : kstate) : created * pipes * kstate :=
  match read_fd, write_fd with
  | Some _, Some _ =>
      match first_index (fun p => in_use p =? 0) ps with
      | None => (mk_created (-1) read_fd write_fd, ps, k)
      | Some id =>
          let id := Z.of_nat id in
          let ps1 := ps.[id <- mk_pipe (buf zero_pipe) 0 0 1 1 1] in
          match proc_get_current k with
          | None => (mk_created (-1) read_fd write_fd, ps1, k)
          | Some pi =>
              let p := get_proc pi k in
              let '(l, a, b) := assign_fds id 0 (-1) (-1) (fds p) in
              (mk_created 0 (Some a) (Some b), ps1, set_proc pi (with_fds l p) k)
          end
      end
  | _, _ => (mk_created (-1) read_fd write_fd, ps, k)
  end.

(** [pipe_id < 0 || pipe_id >= MAX_PIPES || !_pipes[pipe_id].in_use] *)
Definition bad_pipe (id : Z) (ps : pipes) : bool :=
  (id <? 0) || (Z.of_nat MAX_PIPES <=? id) || (in_use ps.[id] =? 0).

(** The copy loop of [pipe_write] over the bytes not yet written. *)
Fixpoint write_loop (data : list Z) (written : Z) (p : pipe_t) : Z * pipe_t :=
  match data with
  | [] => (written, p)
  | c :: data' =>
      let next := (head p + 1) mod PIPE_BUF_SIZE in
      if next =? tail p then (written, p)
      else write_loop data' (written + 1)
             (mk_pipe ((buf p).[head p <- c]) next (tail p) (read_open p) (write_open p) (in_use p))
  end.

(** [data] is an object of at least [len] bytes. *)
Definition pipe_write (id : Z) (data : list Z) (len : Z) (ps : pipes) : Z * pipes :=
  if bad_pipe id ps then (-1, ps)
  else if write_open ps.[id] =? 0 then (-1, ps)
  else let '(written, p) := write_loop (take (Z.to_nat len) data) 0 ps.[id] in
       (s32 written, ps.[id <- p]).

(** The copy loop of [pipe_read], at most [n] more bytes. *)
Fixpoint read_loop (n : nat) (p : pipe_t) : list Z * pipe_t :=
  match n with
  | O => ([], p)
  | S n' =>
      if tail p =? head p then ([], p)
      else
        let c := (buf p).[tail p] in
        let '(r, p') := read_loop n' (mk_pipe (buf p) (head p) ((tail p + 1) mod PIPE_BUF_SIZE)
                                        (read_open p) (write_open p) (in_use p)) in
        (c :: r, p')
  end.

(** The return value, the bytes stored from [buf] on, and the new table. *)
Definition pipe_read (id maxlen : Z) (ps : pipes) : Z * list Z * pipes :=
  if bad_pipe id ps then (-1, [], ps)
  else if read_open ps.[id] =? 0 then (-1, [], ps)
  else let '(r, p) := read_loop (Z.to_nat maxlen) ps.[id] in
       (s32 (Z.of_nat (length r)), r, ps.[id <- p]).

Definition pipe_close (id is_write : Z) (ps : pipes) : Z * pipes :=
  if bad_pipe id ps then (-1, ps)
  else
    let p := ps.[id] in
    let ro := if truthy is_write then read_open p else 0 in
    let wo := if truthy is_write then 0 else write_open p in
    let iu := if (ro =? 0) && (wo =? 0) then 0 else in_use p in
    (0, ps.[id <- mk_pipe (buf p) (head p) (tail p) ro wo iu]).

(** ** Invariant and abstraction *)

Definition pipe_ok (p : pipe_t) : Prop := ring_wf PIPE_BUF_SIZE (buf p) (head p) (tail p).
Definition pipe_bytes (p : pipe_t) : list Z := ring_contents PIPE_BUF_SIZE (buf p) (head p) (tail p).

Definition pipes_ok (ps : pipes) : Prop := length ps = MAX_PIPES /\ Forall pipe_ok ps.

(** The bytes waiting in pipe [id]. *)
Definition waiting (id : Z) (ps : pipes) : list Z := pipe_bytes ps.[id].

(** The pipes whose three flags are those of [p]. *)
Definition same_flags (p p' : pipe_t) : Prop :=
  read_open p' = read_open p /\ write_open p' = write_open p /\ in_use p' = in_use p.

(** A pipe with both ends open. *)
Definition open_pipe (id : Z) (ps : pipes) : Prop :=
  0 <= id < 64 /\ in_use ps.[id] <> 0 /\ read_open ps.[id] <> 0 /\ write_open ps.[id] <> 0.

(** One call of a client, on any pipe, and what it moved. *)
Inductive pipe_op :=
| PWrite (id : Z) (data : list Z)
| PRead (id maxlen : Z).

(** The bytes a sequence of calls put into and took out of pipe [id]. *)
Fixpoint run_pipe (id : Z) (ops : list pipe_op) (ps : pipes) : list Z * list Z * pipes :=
  match ops with
  | [] => ([], [], ps)
  | PWrite i data :: ops' =>
      let '(n, ps1) := pipe_write i data (Z.of_nat (length data)) ps in
      let '(w, r, ps') := run_pipe id ops' ps1 in
      ((if i =? id then take (Z.to_nat n) data else []) ++ w, r, ps')
  | PRead i maxlen :: ops' =>
      let '(_, bs, ps1) := pipe_read i maxlen ps in
      let '(w, r, ps') := run_pipe id ops' ps1 in
      (w, (if i =? id then bs else []) ++ r, ps')
  end.

(** ** Copy loops *)

Lemma write_loop_spec data n p :
  pipe_ok p ->
  let room := (4095 - length (pipe_bytes p))%nat in
  let r := write_loop data n p in
  r.1 = n + Z.of_nat (Nat.min (length data) room) /\ pipe_ok r.2 /\
  pipe_bytes r.2 = pipe_bytes p ++ take room data /\ same_flags p r.2.
Proof.
  cbv zeta. revert n p. induction data as [|c data IH]; intros n p Hp.
  - simpl. rewrite take_nil, app_nil_r. split_and!; [lia|done|done|done].
  - pose proof (ring_contents_bound _ _ _ _ Hp) as Hb. fold (pipe_bytes p) in Hb.
    pose proof (ring_full_test _ _ _ _ Hp) as Hf. fold (pipe_bytes p) in Hf. simpl.
    unfold PIPE_BUF_SIZE in Hb.
    destruct (Z.eqb_spec ((head p + 1) mod PIPE_BUF_SIZE) (tail p)) as [E|E].
    + assert (length (pipe_bytes p) = 4095%nat) as ->.
      { symmetry in Hf. apply negb_true_iff, Z.ltb_ge in Hf. unfold PIPE_BUF_SIZE in Hf. lia. }
      simpl. rewrite app_nil_r. split_and!; [lia|done|done|done].
    + symmetry in Hf. apply negb_false_iff, Z.ltb_lt in Hf. unfold PIPE_BUF_SIZE in Hf.
      specialize (IH (n + 1) (mk_pipe ((buf p).[head p <- c]) ((head p + 1) mod PIPE_BUF_SIZE) (tail p)
        (read_open p) (write_open p) (in_use p)) (ring_wf_push _ _ _ _ _ Hp)).
      revert IH. set (q := mk_pipe _ _ _ _ _ _).
      assert (pipe_bytes q = pipe_bytes p ++ [c]) as -> by (by apply ring_push).
      rewrite length_app. simpl length.
      destruct (4095 - length (pipe_bytes p))%nat as [|room] eqn:Er; [lia|].
      replace (4095 - (length (pipe_bytes p) + 1))%nat with room by lia.
      intros (-> & Hok & -> & Hs). simpl. rewrite <-app_assoc.
      split_and!; [lia|done|done|done].
Qed.

Lemma read_loop_spec n p :
  pipe_ok p ->
  let r := read_loop n p in
  r.1 = take n (pipe_bytes p) /\ pipe_ok r.2 /\
  pipe_bytes r.2 = drop n (pipe_bytes p) /\ same_flags p r.2.
Proof.
  cbv zeta. revert p. induction n as [|n IH]; intros p Hp; [done|]. simpl.
  destruct (Z.eqb_spec (tail p) (head p)) as [E|E].
  - assert (pipe_bytes p = []) as Hn by (by apply (ring_empty _ _ _ _ Hp)).
    simpl. rewrite Hn. done.
  - specialize (IH (mk_pipe (buf p) (head p) ((tail p + 1) mod PIPE_BUF_SIZE) (read_open p)
      (write_open p) (in_use p)) (ring_wf_pop _ _ _ _ Hp)).
    rewrite (surjective_pairing (read_loop n _)). simpl.
    destruct IH as (-> & Hok & -> & Hs).
    unfold pipe_bytes at 2 4. rewrite (ring_pop _ _ _ _ Hp E). done.
Qed.

(** ** Calls *)

Section table.
Context (ps : pipes) (Hps : pipes_ok ps).

Lemma pipe_at i : 0 <= i < 64 -> pipe_ok ps.[i].
Proof.
  destruct Hps as [Hl HF]. intros Hi. rewrite Forall_lookup in HF. apply (HF (Z.to_nat i)).
  apply aget_lookup. rewrite Hl. exact Hi.
Qed.

Lemma pipe_update i p : pipe_ok p -> pipes_ok ps.[i <- p].
Proof.
  destruct Hps as [Hl HF]. intros Hp. split; [by rewrite length_aset|]. by apply Forall_insert.
Qed.

Lemma pipe_aget_eq i p : 0 <= i < 64 -> (ps.[i <- p]).[i] = p.
Proof. destruct Hps as [Hl _]. intros. apply aget_aset_eq. rewrite Hl. by vm_compute. Qed.

(** What an update of pipe [i] that keeps its flags leaves of pipe [id]. *)
Lemma pipe_update_open i id p :
  0 <= i < 64 -> same_flags ps.[i] p -> open_pipe id ps -> open_pipe id ps.[i <- p].
Proof.
  intros Hi (H1 & H2 & H3) (Hid & Ho). split; [done|].
  destruct (decide (i = id)) as [->|].
  - rewrite pipe_aget_eq by done. by rewrite H1, H2, H3.
  - rewrite aget_aset_ne by lia. done.
Qed.

Lemma bad_pipe_false i : bad_pipe i ps = false -> 0 <= i < 64.
Proof. unfold bad_pipe. change (Z.of_nat MAX_PIPES) with 64. split_cmp; simpl; intros; done || lia. Qed.

End table.

(** What a call on pipe [i] does to pipe [id]. *)
Definition moves (id : Z) (ps ps' : pipes) (added removed : list Z) : Prop :=
  pipes_ok ps' /\ open_pipe id ps' /\ waiting id ps ++ added = removed ++ waiting id ps'.

Lemma moves_none id ps : pipes_ok ps -> open_pipe id ps -> moves id ps ps [] [].
Proof. intros. unfold moves. by rewrite app_nil_r. Qed.

Lemma moves_trans id ps1 ps2 ps3 a1 a2 r1 r2 :
  moves id ps1 ps2 a1 r1 -> moves id ps2 ps3 a2 r2 -> moves id ps1 ps3 (a1 ++ a2) (r1 ++ r2).
Proof.
  intros (_ & _ & H1) (Hok & Ho & H2). split_and!; [done|done|].
  by rewrite (app_assoc _ a1), H1, <-!app_assoc, H2.
Qed.

Lemma write_len (data : list Z) len : Z.of_nat (length data) < 2 ^ 31 -> 0 <= len <= Z.of_nat (length data) ->
  s32 len = len.
Proof. intros. apply swrap_small; [done|]. change (2 ^ (32 - 1)) with (2 ^ 31). lia. Qed.

Lemma pipe_write_moves i id data ps :
  pipes_ok ps -> open_pipe id ps -> Z.of_nat (length data) < 2 ^ 31 ->
  let r := pipe_write i data (Z.of_nat (length data)) ps in
  moves id ps r.2 (if i =? id then take (Z.to_nat r.1) data else []) [] /\
  (i = id -> r.1 = Z.of_nat (Nat.min (length data) (4095 - length (waiting id ps)))).
Proof.
  intros Hok Ho Hd. unfold pipe_write. cbv zeta.
  destruct (bad_pipe i ps) eqn:Eb; [|destruct (Z.eqb_spec (write_open ps.[i]) 0) as [Ew|Ew]].
  - simpl. rewrite take_0. split; [destruct (i =? id); by apply moves_none|]. intros ->.
    destruct Ho as (Hid & Hu & _). exfalso. revert Eb. unfold bad_pipe.
    change (Z.of_nat MAX_PIPES) with 64. split_cmp; simpl; done || lia.
  - simpl. rewrite take_0. split; [destruct (i =? id); by apply moves_none|]. intros ->.
    by destruct Ho as (_ & _ & _ & ?).
  - pose proof (bad_pipe_false ps i Eb) as Hi. rewrite Nat2Z.id, firstn_all.
    pose proof (write_loop_spec data 0 ps.[i] (pipe_at ps Hok i Hi)) as Hl. cbv zeta in Hl.
    destruct (write_loop data 0 ps.[i]) as [n p]. simpl in *. destruct Hl as (Hn & Hp & Hc & Hs).
    rewrite (write_len data n) by lia.
    split; [|intros ->; exact Hn]. split_and!.
    + by apply pipe_update.
    + by apply pipe_update_open.
    + unfold waiting. destruct (Z.eqb_spec i id) as [->|].
      * rewrite pipe_aget_eq by done. simpl. rewrite Hc. f_equal. subst n.
        replace (Z.to_nat (0 + _)) with (Nat.min (length data) (4095 - length (pipe_bytes ps.[id])))
          by lia.
        destruct (Nat.min_spec (length data) (4095 - length (pipe_bytes ps.[id]))) as [[? ->]|[? ->]];
          [|done].
        by rewrite firstn_all, take_ge by lia.
      * rewrite aget_aset_ne by (destruct Ho; lia). by rewrite app_nil_r.
Qed.

Lemma waiting_bound id ps : pipes_ok ps -> 0 <= id < 64 -> (length (waiting id ps) <= 4095)%nat.
Proof.
  intros Hok Hid. pose proof (ring_contents_bound _ _ _ _ (pipe_at ps Hok id Hid)) as Hb.
  fold (pipe_bytes ps.[id]) (waiting id ps) in Hb. unfold PIPE_BUF_SIZE in Hb. lia.
Qed.

Lemma pipe_read_moves i id maxlen ps :
  pipes_ok ps -> open_pipe id ps ->
  let r := pipe_read i maxlen ps in
  moves id ps r.2 [] (if i =? id then r.1.2 else []) /\
  (i = id -> r.1.2 = take (Z.to_nat maxlen) (waiting id ps) /\ r.1.1 = Z.of_nat (length r.1.2)).
Proof.
  intros Hok Ho. unfold pipe_read. cbv zeta.
  destruct (bad_pipe i ps) eqn:Eb; [|destruct (Z.eqb_spec (read_open ps.[i]) 0) as [Ew|Ew]].
  - simpl. split; [destruct (i =? id); by apply moves_none|]. intros ->.
    destruct Ho as (Hid & Hu & _). exfalso. revert Eb. unfold bad_pipe.
    change (Z.of_nat MAX_PIPES) with 64. split_cmp; simpl; done || lia.
  - simpl. split; [destruct (i =? id); by apply moves_none|]. intros ->.
    by destruct Ho as (_ & _ & ? & _).
  - pose proof (bad_pipe_false ps i Eb) as Hi.
    pose proof (read_loop_spec (Z.to_nat maxlen) ps.[i] (pipe_at ps Hok i Hi)) as Hl. cbv zeta in Hl.
    destruct (read_loop (Z.to_nat maxlen) ps.[i]) as [r p]. simpl in *.
    destruct Hl as (Hr & Hp & Hc & Hs). split.
    + split_and!; [by apply pipe_update|by apply pipe_update_open|].
      unfold waiting. rewrite app_nil_r. destruct (Z.eqb_spec i id) as [->|].
      * rewrite pipe_aget_eq by done. by rewrite Hr, Hc, take_drop.
      * by rewrite aget_aset_ne by (destruct Ho; lia).
    + intros ->. split; [exact Hr|]. apply swrap_small; [done|].
      pose proof (waiting_bound id ps Hok Hi). rewrite Hr, length_take.
      change (2 ^ (32 - 1)) with (2 ^ 31). unfold waiting in *. lia.
Qed.

Lemma run_pipe_moves id ops ps :
  pipes_ok ps -> open_pipe id ps ->
  Forall (fun o => match o with PWrite _ d => Z.of_nat (length d) < 2 ^ 31 | PRead _ _ => True end) ops ->
  moves id ps (run_pipe id ops ps).2 (run_pipe id ops ps).1.1 (run_pipe id ops ps).1.2.
Proof.
  intros Hok Ho HF. revert ps Hok Ho. induction HF as [|[i d|i m] ops Hd _ IH]; intros ps Hok Ho; simpl.
  - by apply moves_none.
  - destruct (pipe_write_moves i id d ps Hok Ho Hd) as [Hm _].
    destruct (pipe_write i d (Z.of_nat (length d)) ps) as [n ps1]. simpl in *.
    pose proof Hm as (Hok1 & Ho1 & _). specialize (IH ps1 Hok1 Ho1).
    destruct (run_pipe id ops ps1) as [[w r] ps']. simpl in *.
    change r with ([] ++ r). by eapply moves_trans.
  - destruct (pipe_read_moves i id m ps Hok Ho) as [Hm _].
    destruct (pipe_read i m ps) as [[n bs] ps1]. simpl in *.
    pose proof Hm as (Hok1 & Ho1 & _). specialize (IH ps1 Hok1 Ho1).
    destruct (run_pipe id ops ps1) as [[w r] ps']. simpl in *.
    change w with ([] ++ w). by eapply moves_trans.
Qed.

(** ** Properties *)

(** C21: An open pipe is a byte stream.  After any sequence of
    [pipe_write] and [pipe_read] calls on it and on the other pipes, the bytes
    that waited in it followed by the bytes accepted are the bytes read followed
    by the bytes that wait now, and the next write accepts all that fits in
    4095 bytes and the next read returns the oldest [maxlen] bytes. *)
Theorem pipe_stream (id : Z) (ops : list pipe_op) (ps : pipes)
    (Hok : pipes_ok ps) (Hopen : open_pipe id ps)
    (Hlen : Forall (fun o => match o with
                             | PWrite _ d => Z.of_nat (length d) < 2 ^ 31
                             | PRead _ _ => True end) ops) :
  let '(accepted, bytes, ps') := run_pipe id ops ps in
  waiting id ps ++ accepted = bytes ++ waiting id ps' /\ pipes_ok ps' /\
  (forall data, Z.of_nat (length data) < 2 ^ 31 ->
     (pipe_write id data (Z.of_nat (length data)) ps').1 =
       Z.of_nat (Nat.min (length data) (4095 - length (waiting id ps')))) /\
  (forall maxlen, (pipe_read id maxlen ps').1.2 = take (Z.to_nat maxlen) (waiting id ps')).
Proof.
  pose proof (run_pipe_moves id ops ps Hok Hopen Hlen) as Hm.
  destruct (run_pipe id ops ps) as [[w r] ps']. destruct Hm as (Hok' & Ho' & Hm). simpl in *.
  split_and!; [done|done| |].
  - intros data Hd. by apply (pipe_write_moves id id data ps').
  - intros maxlen. by apply (pipe_read_moves id id maxlen ps').
Qed.

(** ** Creation *)

(** The two descriptors installed are the two lowest free ones; with fewer
    free the missing ones are reported as -1, and 0 is returned all the same. *)
Lemma assign_fds_used id i rfd wfd l :
  Forall (fun f => fd_in_use f = true) l -> assign_fds id i rfd wfd l = (l, rfd, wfd).
Proof.
  intros HF. revert i. induction HF as [|f l Hf _ IH]; intros i; simpl; [done|]. by rewrite Hf, IH.
Qed.

Lemma assign_fds_two id l1 f1 l2 f2 l3 :
  Forall (fun f => fd_in_use f = true) l1 -> fd_in_use f1 = false ->
  Forall (fun f => fd_in_use f = true) l2 -> fd_in_use f2 = false ->
  let a := Z.of_nat (length l1) in
  let b := a + 1 + Z.of_nat (length l2) in
  assign_fds id 0 (-1) (-1) (l1 ++ f1 :: l2 ++ f2 :: l3) =
    (l1 ++ pipe_fd a id 0 f1 :: l2 ++ pipe_fd b id 1 f2 :: l3, a, b).
Proof.
  intros H1 Hf1 H2 Hf2. cbv zeta.
  assert (forall i rfd b, 0 <= i -> 0 <= rfd -> b = i + Z.of_nat (length l2) ->
    assign_fds id i rfd (-1) (l2 ++ f2 :: l3) = (l2 ++ pipe_fd b id 1 f2 :: l3, rfd, b)) as Hw.
  { clear -H2 Hf2. induction H2 as [|f l2 Hf _ IH]; intros i rfd b Hi Hr Hb; simpl.
    - simpl in Hb. rewrite Z.add_0_r in Hb. subst b. rewrite Hf2, (proj2 (Z.ltb_ge rfd 0)) by lia.
      enough (assign_fds id (i + 1) rfd i l3 = (l3, rfd, i)) as -> by done.
      generalize (i + 1). induction l3 as [|g l3 IH]; intros j; simpl; [done|].
      rewrite IH, (proj2 (Z.ltb_ge rfd 0)), (proj2 (Z.ltb_ge i 0)) by lia. by destruct (fd_in_use g).
    - rewrite Hf, (IH (i + 1) rfd b); [done|lia|lia|]. simpl in Hb. lia. }
  enough (forall i a b, 0 <= i -> a = i + Z.of_nat (length l1) -> b = a + 1 + Z.of_nat (length l2) ->
    assign_fds id i (-1) (-1) (l1 ++ f1 :: l2 ++ f2 :: l3) =
      (l1 ++ pipe_fd a id 0 f1 :: l2 ++ pipe_fd b id 1 f2 :: l3, a, b)) as Hg by (apply Hg; lia).
  clear -H1 Hf1 Hw. induction H1 as [|f l1 Hf _ IH]; intros i a b Hi Ha Hb; simpl.
  - simpl in Ha. rewrite Z.add_0_r in Ha. subst a. by rewrite Hf1, (Hw (i + 1) i b) by lia.
  - rewrite Hf, (IH (i + 1) a b); [done|lia| |done]. simpl in Ha. lia.
Qed.

(** A creation without a current process returns -1 and still takes a pipe. *)
Lemma pipe_create_leaks rfd wfd ps k id :
  proc_get_current k = None -> length ps = MAX_PIPES ->
  first_index (fun p => in_use p =? 0) ps = Some id ->
  exists ps', pipe_create (Some rfd) (Some wfd) ps k = (mk_created (-1) (Some rfd) (Some wfd), ps', k) /\
    in_use ps'.[Z.of_nat id] = 1.
Proof.
  intros Hc Hl Hi. unfold pipe_create. rewrite Hi, Hc. eexists. split; [done|].
  rewrite aget_aset_eq; [done|]. pose proof (first_index_lt _ _ _ Hi). lia.
Qed.

(** ** Witnesses *)

Definition one_pipe : pipes := (pipe_init []).[3 <- mk_pipe (buf zero_pipe) 0 0 1 1 1].

Lemma one_pipe_ok : pipes_ok one_pipe.
Proof.
  assert (pipe_ok zero_pipe) as Hz by (split_and!; by vm_compute).
  split; [done|]. apply Forall_insert; [|exact Hz]. by apply Forall_replicate.
Qed.

Lemma pipe_stream_witness :
  let '(accepted, bytes, ps') := run_pipe 3 [PWrite 3 [1; 2; 3]; PRead 7 5; PRead 3 2] one_pipe in
  waiting 3 one_pipe ++ accepted = bytes ++ waiting 3 ps'.
Proof.
  pose proof (pipe_stream 3 [PWrite 3 [1; 2; 3]; PRead 7 5; PRead 3 2] one_pipe one_pipe_ok
    ltac:(split_and!; by vm_compute) ltac:(repeat constructor)) as H.
  destruct (run_pipe 3 _ one_pipe) as [[w r] ps']. exact (proj1 H).
Defined.

End Pipe.
