(* ===== verification/Timer.v ===== *)
(** * Timers (kernel/timer.c)

    The timer table and the millisecond tick.  The callbacks are code the timer
    service is handed by its clients: a parameter [cb] of the tick, given the
    function and the argument, that may change the whole timer state and the
    rest of the system [W].  The tick is undefined (a divide fault) when an
    active timer has interval 0. *)

From stdpp Require Import base numbers list option tactics.
From S2P Require Import Prelude.

Module Timer.

Definition MAX_TIMERS : Z := 64.

(** [next] is never used and is left out; [callback] 0 is NULL. *)
Record timer_t := mk_timer {
  timer_id : Z;
  interval_ms : Z;
  callback : Z;
  arg : Z;
  periodic : bool;
  active : bool;
}.

Definition zero_timer : timer_t := mk_timer 0 0 0 0 false false.
#[export] Instance timer_inhabited : Inhabited timer_t := populate zero_timer.

Record timer_state (W : Type) := mk_ts {
  timers : list timer_t;
  timer_count : Z;
  next_timer_id : Z;
  uptime : Z;
  world : W;
}.
Arguments mk_ts {W} timers timer_count next_timer_id uptime world.
Arguments timers {W} t.
Arguments timer_count {W} t.
Arguments next_timer_id {W} t.
Arguments uptime {W} t.
Arguments world {W} t.

Definition deactivate (t : timer_t) : timer_t :=
  mk_timer (timer_id t) (interval_ms t) (callback t) (arg t) (periodic t) false.

Section operations.
Context {W : Type}.
Implicit Types (s : timer_state W).

Definition set_timers (l : list timer_t) s : timer_state W :=
  mk_ts l (timer_count s) (next_timer_id s) (uptime s) (world s).

Definition timer_init s : Z * timer_state W :=
  (STATUS_SUCCESS, mk_ts (replicate (Z.to_nat MAX_TIMERS) zero_timer) 0 1 0 (world s)).

Definition timer_create (interval cb a : Z) (per : bool) s : Z * timer_state W :=
  if cb =? 0 then (0, s)
  else if MAX_TIMERS <=? timer_count s then (0, s)
  else
    let id := next_timer_id s in
    (id, mk_ts ((timers s).[timer_count s <- mk_timer id interval cb a per true])
           (u32 (timer_count s + 1)) (u32 (id + 1)) (uptime s) (world s)).

Definition timer_cancel (id : Z) s : Z * timer_state W :=
  match first_index (fun t => (timer_id t =? id) && active t)
          (take (Z.to_nat (timer_count s)) (timers s)) with
  | Some i =>
      let i := Z.of_nat i in
      (STATUS_SUCCESS, set_timers ((timers s).[i <- deactivate (timers s).[i]]) s)
  | None => (STATUS_NOT_FOUND, s)
  end.

Definition timer_get_uptime s : Z := uptime s.

(** The callbacks the timers hold. *)
Variable cb : Z -> Z -> timer_state W -> timer_state W.

(** The loop of the tick from index [i] on; the count is read again in every
    round, since a callback may create timers.  [None] is a divide fault. *)
Fixpoint tick_loop (n : nat) (i : Z) s : option (timer_state W) :=
  match n with
  | O => Some s
  | S n' =>
      if i <? timer_count s then
        let t := (timers s).[i] in
        if active t then
          if interval_ms t =? 0 then None
          else if uptime s mod interval_ms t =? 0 then
            let s1 := if callback t =? 0 then s else cb (callback t) (arg t) s in
            let t1 := (timers s1).[i] in
            let s2 := if periodic t1 then s1 else set_timers ((timers s1).[i <- deactivate t1]) s1 in
            tick_loop n' (i + 1) s2
          else tick_loop n' (i + 1) s
        else tick_loop n' (i + 1) s
      else Some s
  end.

Definition timer_tick s : option (timer_state W) :=
  tick_loop (Z.to_nat MAX_TIMERS) 0
    (mk_ts (timers s) (timer_count s) (next_timer_id s) (u64 (uptime s + 1)) (world s)).

(** [n] ticks. *)
Fixpoint ticks (n : nat) s : option (timer_state W) :=
  match n with
  | O => Some s
  | S n' => s1 ← timer_tick s; ticks n' s1
  end.

End operations.

(** ** Specification *)

(** The timer [t], seen at uptime [u], fires at uptime [v]: a periodic one at
    every multiple of its interval, a one-shot one at the first multiple after
    [u]. *)
Definition fires (u v : Z) (t : timer_t) : bool :=
  active t && (v mod interval_ms t =? 0) && (periodic t || (v / interval_ms t =? u / interval_ms t + 1)).

(** What is left of it at uptime [v]. *)
Definition settled (u v : Z) (t : timer_t) : timer_t :=
  if active t && negb (periodic t) && (u / interval_ms t <? v / interval_ms t) then deactivate t else t.

(** The timers in use. *)
Definition in_table {W} (s : timer_state W) : list timer_t :=
  take (Z.to_nat (timer_count s)) (timers s).

(** The timers that fire at the uptimes from [v] on, in order, seen at [u]. *)
Fixpoint schedule (u v : Z) (n : nat) (l : list timer_t) : list timer_t :=
  match n with
  | O => []
  | S n' => filter (fun t => fires u v t) l ++ schedule u (v + 1) n' l
  end.

Record timer_inv {W} (s : timer_state W) : Prop := {
  ti_length : length (timers s) = 64%nat;
  ti_count : 0 <= timer_count s <= 64;
  ti_interval : Forall (fun t => 0 < interval_ms t /\ callback t <> 0) (in_table s);
}.

Section ticks.
Context {W : Type} (effect : Z -> Z -> W -> W).
Implicit Types (s : timer_state W) (l : list timer_t) (t : timer_t).

(** Callbacks that leave the timer service alone. *)
Definition quiet (f a : Z) s : timer_state W :=
  mk_ts (timers s) (timer_count s) (next_timer_id s) (uptime s) (effect f a (world s)).

Definition run_timers l (w : W) : W := fold_left (fun w t => effect (callback t) (arg t) w) l w.

(** One timer at the tick that reaches [v]. *)
Definition due (v : Z) t : bool := active t && (v mod interval_ms t =? 0).
Definition ticked (v : Z) t : timer_t := if due v t && negb (periodic t) then deactivate t else t.

Lemma tick_loop_spec (n : nat) (pre l rest : list timer_t) s :
  timers s = pre ++ l ++ rest -> timer_count s = Z.of_nat (length pre + length l) ->
  (length l <= n)%nat -> Forall (fun t => 0 < interval_ms t /\ callback t <> 0) l ->
  tick_loop quiet n (Z.of_nat (length pre)) s =
    Some (mk_ts (pre ++ (ticked (uptime s) <$> l) ++ rest) (timer_count s) (next_timer_id s) (uptime s)
      (run_timers (filter (fun t => due (uptime s) t) l) (world s))).
Proof.
  revert n pre s. induction l as [|t l IH]; intros n pre s Ht Hc Hn HF.
  - destruct s; simpl in *. subst. destruct n; simpl; [done|].
    rewrite (proj2 (Z.ltb_ge _ _)) by lia. done.
  - destruct n as [|n]; [simpl in Hn; lia|]. cbn [tick_loop].
    apply List.Forall_cons_iff in HF as [[Hi Hcb] HF].
    rewrite (proj2 (Z.ltb_lt _ _)) by (rewrite Hc; simpl; lia).
    assert ((timers s).[Z.of_nat (length pre)] = t) as ->.
    { rewrite aget_nat, Ht. by apply list_lookup_total_middle. }
    assert (forall x s', timers s' = pre ++ x :: l ++ rest -> timer_count s' = timer_count s ->
      uptime s' = uptime s -> next_timer_id s' = next_timer_id s ->
      tick_loop quiet n (Z.of_nat (length pre) + 1) s' =
        Some (mk_ts (pre ++ x :: (ticked (uptime s) <$> l) ++ rest) (timer_count s) (next_timer_id s)
          (uptime s) (run_timers (filter (fun t => due (uptime s) t) l) (world s')))) as Hnext.
    { intros x s' H1 H2 H3 H4. specialize (IH n (pre ++ [x]) s').
      rewrite <-!app_assoc, length_app, H2, H3, H4 in IH. simpl in IH.
      replace (Z.of_nat (length pre) + 1) with (Z.of_nat (length pre + 1)) by lia.
      apply IH; [done| |simpl in Hn; lia|done]. rewrite Hc. simpl. lia. }
    rewrite fmap_cons. cbn [app]. destruct (due (uptime s) t) eqn:Hd.
    + rewrite (filter_cons_True (fun t => due (uptime s) t)) by (by rewrite Hd).
      pose proof Hd as [-> ->]%andb_true_iff. rewrite (proj2 (Z.eqb_neq (interval_ms t) 0)) by lia.
      rewrite (proj2 (Z.eqb_neq (callback t) 0)) by lia.
      assert ((timers (quiet (callback t) (arg t) s)).[Z.of_nat (length pre)] = t) as ->.
      { simpl. rewrite aget_nat, Ht. by apply list_lookup_total_middle. }
      unfold ticked at 1. rewrite Hd. destruct (periodic t); simpl; [by apply (Hnext t)|].
      apply (Hnext (deactivate t)); try done. simpl. unfold aset. rewrite Nat2Z.id, Ht.
      rewrite insert_app_r_alt by lia. by rewrite Nat.sub_diag.
    + rewrite (filter_cons_False (fun t => due (uptime s) t)) by (rewrite Hd; by intros []).
      unfold ticked at 1. rewrite Hd. simpl.
      rewrite (proj2 (Z.eqb_neq (interval_ms t) 0)) by lia.
      unfold due in Hd. apply andb_false_iff in Hd as [-> | ->]; [|destruct (active t)]; by apply (Hnext t).
Qed.

(** Reaching the next millisecond crosses a multiple of [p] or not. *)
Lemma succ_div p u :
  0 < p -> (u + 1) / p = if (u + 1) mod p =? 0 then u / p + 1 else u / p.
Proof.
  intros Hp. pose proof (Z.div_mod u p ltac:(lia)). pose proof (Z.mod_pos_bound u p Hp).
  pose proof (Z.div_mod (u + 1) p ltac:(lia)). pose proof (Z.mod_pos_bound (u + 1) p Hp).
  destruct (Z.eqb_spec ((u + 1) mod p) 0); nia.
Qed.

Lemma div_mono p u v : 0 < p -> u <= v -> u / p <= v / p.
Proof. intros. by apply Z.div_le_mono. Qed.

(** A later multiple has a larger quotient. *)
Lemma multiple_gt p u v : 0 < p -> u mod p = 0 -> v mod p = 0 -> u < v -> u / p < v / p.
Proof.
  intros Hp Hu Hv Huv. pose proof (Z.div_mod u p ltac:(lia)). pose proof (Z.div_mod v p ltac:(lia)). nia.
Qed.

Lemma due_fires u t : 0 < interval_ms t -> due (u + 1) t = fires u (u + 1) t.
Proof.
  intros Hp. unfold due, fires. rewrite succ_div by done.
  destruct (active t), ((u + 1) mod interval_ms t =? 0), (periodic t); simpl; try done.
  by rewrite Z.eqb_refl.
Qed.

Lemma fires_ticked u v t :
  0 < interval_ms t -> u + 1 < v -> fires (u + 1) v (ticked (u + 1) t) = fires u v t.
Proof.
  intros Hp Hv. unfold ticked, due. pose proof (succ_div _ u Hp) as Hd.
  destruct (active t) eqn:Ha; simpl; [|unfold fires; by rewrite Ha].
  destruct (Z.eqb_spec ((u + 1) mod interval_ms t) 0) as [E|E]; simpl.
  - destruct (periodic t) eqn:Eper; simpl.
    + unfold fires. by rewrite Ha, Eper.
    + unfold fires. simpl. rewrite Ha, Eper. simpl.
      destruct (Z.eqb_spec (v mod interval_ms t) 0) as [Ev|]; simpl; [|done].
      pose proof (multiple_gt _ _ _ Hp E Ev Hv). symmetry. apply Z.eqb_neq. lia.
  - unfold fires. by rewrite Hd.
Qed.

Lemma settled_ticked u v t :
  0 < interval_ms t -> u + 1 <= v -> settled (u + 1) v (ticked (u + 1) t) = settled u v t.
Proof.
  intros Hp Hv. unfold ticked, due. pose proof (succ_div _ u Hp) as Hd.
  pose proof (div_mono _ _ _ Hp Hv).
  destruct (active t) eqn:Ha; simpl; [|unfold settled; by rewrite Ha].
  destruct (Z.eqb_spec ((u + 1) mod interval_ms t) 0) as [E|E]; simpl.
  - destruct (periodic t) eqn:Eper; simpl; unfold settled; simpl; rewrite Ha, Eper; simpl; [done|].
    by rewrite (proj2 (Z.ltb_lt _ _)) by lia.
  - unfold settled. by rewrite Hd.
Qed.

Lemma filter_ticked u v l :
  Forall (fun t => 0 < interval_ms t /\ callback t <> 0) l -> u + 1 < v ->
  filter (fun t => fires (u + 1) v t) (ticked (u + 1) <$> l) = filter (fun t => fires u v t) l.
Proof.
  intros HF Hv. induction HF as [|t l [Hp _] _ IH]; [done|].
  rewrite fmap_cons, !filter_cons, IH, fires_ticked by done.
  destruct (decide (fires u v t)) as [Hf|]; [|done].
  enough (ticked (u + 1) t = t) as -> by done.
  rewrite <-fires_ticked in Hf by done. unfold ticked in *.
  by destruct (due (u + 1) t && negb (periodic t)).
Qed.

Lemma schedule_ticked u v n l :
  Forall (fun t => 0 < interval_ms t /\ callback t <> 0) l -> u + 1 < v ->
  schedule (u + 1) v n (ticked (u + 1) <$> l) = schedule u v n l.
Proof.
  intros HF. revert v. induction n as [|n IH]; intros v Hv; simpl; [done|].
  rewrite filter_ticked, IH by (done || lia). done.
Qed.

Lemma ticked_ok u l :
  Forall (fun t => 0 < interval_ms t /\ callback t <> 0) l ->
  Forall (fun t => 0 < interval_ms t /\ callback t <> 0) (ticked u <$> l).
Proof.
  intros HF. apply Forall_fmap. eapply List.Forall_impl; [|exact HF]. intros t Ht. simpl. unfold ticked.
  by destruct (_ && _).
Qed.

Lemma filter_due u l :
  Forall (fun t => 0 < interval_ms t /\ callback t <> 0) l ->
  filter (fun t => due (u + 1) t) l = filter (fun t => fires u (u + 1) t) l.
Proof.
  intros HF. induction HF as [|t l [Hp _] _ IH]; [done|].
  by rewrite !filter_cons, IH, due_fires.
Qed.

Lemma timer_tick_spec l rest s :
  timers s = l ++ rest -> timer_count s = Z.of_nat (length l) -> (length l <= 64)%nat ->
  Forall (fun t => 0 < interval_ms t /\ callback t <> 0) l -> 0 <= uptime s < 2 ^ 64 - 1 ->
  timer_tick quiet s =
    Some (mk_ts ((ticked (uptime s + 1) <$> l) ++ rest) (timer_count s) (next_timer_id s) (uptime s + 1)
      (run_timers (filter (fun t => fires (uptime s) (uptime s + 1) t) l) (world s))).
Proof.
  intros Ht Hc Hl HF Hu. unfold timer_tick. rewrite (wrap_small 64) by lia.
  rewrite <-filter_due by done. by apply (tick_loop_spec 64 [] l rest).
Qed.

Lemma ticks_spec n l rest s :
  timers s = l ++ rest -> timer_count s = Z.of_nat (length l) -> (length l <= 64)%nat ->
  Forall (fun t => 0 < interval_ms t /\ callback t <> 0) l ->
  0 <= uptime s -> uptime s + Z.of_nat n < 2 ^ 64 ->
  ticks quiet n s =
    Some (mk_ts ((settled (uptime s) (uptime s + Z.of_nat n) <$> l) ++ rest) (timer_count s)
      (next_timer_id s) (uptime s + Z.of_nat n)
      (run_timers (schedule (uptime s) (uptime s + 1) n l) (world s))).
Proof.
  revert l s. induction n as [|n IH]; intros l s Ht Hc Hl HF Hu Hn.
  - assert ((settled (uptime s) (uptime s + Z.of_nat 0) <$> l) = l) as Hs.
    { rewrite <-(list_fmap_id l) at 2. apply list_fmap_ext. intros i t _. unfold settled.
      rewrite (proj2 (Z.ltb_ge _ _)); [|by rewrite Z.add_0_r]. by rewrite andb_false_r. }
    destruct s; simpl in *. by rewrite Hs, Z.add_0_r, Ht.
  - cbn [ticks]. rewrite (timer_tick_spec l rest) by (done || lia). cbn [mbind option_bind].
    rewrite (IH (ticked (uptime s + 1) <$> l)); cbn [timers timer_count uptime world next_timer_id].
    + cbn [schedule]. rewrite schedule_ticked by (done || lia).
      replace (uptime s + 1 + Z.of_nat n) with (uptime s + Z.of_nat (S n)) by lia.
      rewrite <-list_fmap_compose. unfold run_timers at 3. rewrite fold_left_app.
      do 3 f_equal. apply list_fmap_ext. intros i t Hi. simpl.
      rewrite Forall_lookup in HF. apply HF in Hi as [Hp _]. rewrite settled_ticked by (done || lia). done.
    + done.
    + by rewrite length_fmap.
    + by rewrite length_fmap.
    + by apply ticked_ok.
    + lia.
    + lia.
Qed.

End ticks.

(** ** Properties *)

(** C36: Over any number of ticks, with callbacks that leave the timer
    service alone, the callbacks run are exactly those of the schedule: in
    every millisecond, in table order, each periodic timer whose interval
    divides the uptime and each one-shot timer whose interval divides it for
    the first time; a one-shot timer is inactive afterwards.  No tick faults
    and no active timer is missed. *)
Theorem timer_schedule {W} (effect : Z -> Z -> W -> W) (n : nat) (s : timer_state W)
    (Hinv : timer_inv s) (Hup : 0 <= uptime s) (Hn : uptime s + Z.of_nat n < 2 ^ 64) :
  exists s', ticks (quiet effect) n s = Some s' /\ timer_inv s' /\
    uptime s' = uptime s + Z.of_nat n /\
    world s' = run_timers effect (schedule (uptime s) (uptime s + 1) n (in_table s)) (world s) /\
    in_table s' = (settled (uptime s) (uptime s + Z.of_nat n) <$> in_table s).
Proof.
  destruct Hinv as [Hl Hc HF].
  assert (length (in_table s) = Z.to_nat (timer_count s)) as Hlen by (unfold in_table; rewrite length_take; lia).
  rewrite (ticks_spec effect n (in_table s) (drop (Z.to_nat (timer_count s)) (timers s)));
    [|by unfold in_table; rewrite take_drop|lia|lia|done|done|done].
  eexists. split; [done|]. set (l' := settled _ _ <$> in_table s).
  assert (length l' = Z.to_nat (timer_count s)) as Hl' by (unfold l'; by rewrite length_fmap).
  assert (forall w : W, in_table (mk_ts (l' ++ drop (Z.to_nat (timer_count s)) (timers s)) (timer_count s)
    (next_timer_id s) (uptime s + Z.of_nat n) w) = l') as Htab.
  { intros w. unfold in_table. cbn [timers timer_count]. rewrite <-Hl'. apply take_app_length. }
  split_and!; [split|done|done|by apply Htab].
  - cbn [timers]. rewrite length_app, length_drop, Hl', Hl. lia.
  - done.
  - rewrite Htab. unfold l'. apply Forall_fmap. eapply List.Forall_impl; [|exact HF].
    intros t Ht. simpl. unfold settled. by destruct (_ && _).
Qed.

(** A one-shot timer set at uptime [u] fires at the next multiple of its
    interval, which comes after between 1 and [interval] milliseconds. *)
Lemma one_shot_delay u v t :
  0 < interval_ms t -> active t = true -> periodic t = false -> fires u v t = true ->
  u < v <= u + interval_ms t /\ v mod interval_ms t = 0.
Proof.
  intros Hp Ha Hper. unfold fires. rewrite Ha, Hper. simpl.
  intros [Hm%Z.eqb_eq Hq%Z.eqb_eq]%andb_true_iff. split; [|done].
  pose proof (Z.div_mod v (interval_ms t) ltac:(lia)). pose proof (Z.div_mod u (interval_ms t) ltac:(lia)).
  pose proof (Z.mod_pos_bound u (interval_ms t) Hp). nia.
Qed.

(** An active timer of interval 0 faults the tick. *)
Lemma tick_interval_zero {W} (cb : Z -> Z -> timer_state W -> timer_state W) s f a p :
  let s1 := (timer_create 0 f a p (timer_init s).2).2 in
  f <> 0 -> timer_tick cb s1 = None.
Proof. intros s1 Hf. unfold s1, timer_create. by rewrite (proj2 (Z.eqb_neq f 0)). Qed.

(** ** Witness *)

(** A periodic timer of 2 ms and a one-shot timer of 3 ms, at uptime 5. *)
Definition two_timers : timer_state (list Z) :=
  mk_ts (aset (aset (replicate 64 zero_timer) 0 (mk_timer 1 2 0x1000 7 true true)) 1
           (mk_timer 2 3 0x2000 8 false true)) 2 3 5 [].

Lemma timer_schedule_witness :
  exists s', ticks (quiet (fun _ a w => w ++ [a])) 5 two_timers = Some s' /\ world s' = [7; 8; 7; 7].
Proof.
  destruct (timer_schedule (fun _ a w => w ++ [a]) 5 two_timers) as (s' & H1 & _ & _ & H2 & _).
  - split; [done|simpl; lia|]. repeat constructor; done.
  - simpl. lia.
  - simpl. lia.
  - exists s'. split; [exact H1|]. rewrite H2. vm_compute. reflexivity.
Defined.

End Timer.
