(* ===== verification/Ipc.v ===== *)
(** * Channels (kernel/ipc/ipc.c)

    The table of channels, kept dense by moving the last entry into the slot of
    a closed one, and refined to a finite map from channel identifiers to
    channels.  The scheduler calls a channel makes are recorded in [requests];
    a receive that sleeps is two steps, up to [sched_sleep] and after it, since
    the other operations may run in between.  The payload of a message is never
    read or written by the code. *)

From stdpp Require Import base numbers list option tactics gmap.
From S2P Require Import Prelude DenseTable.

Module Ipc.

Definition IPC_MAX_CHANNELS : Z := 256.

Record ipc_channel_t := mk_chan {
  channel_id : Z;
  ctype : Z;
  owner : Z;
  peer : Z;
  pending_count : Z;
  cblocked : bool;
}.

Definition zero_chan : ipc_channel_t := mk_chan 0 0 0 0 0 false.
#[export] Instance chan_inhabited : Inhabited ipc_channel_t := populate zero_chan.

(** [sched_wake(ch->peer)] and [sched_sleep(timeout)] *)
Inductive sched_request :=
| ReqWake (who : Z)
| ReqSleep (ms : Z).

Record ipc_state := mk_ipc {
  channels : list ipc_channel_t;
  channel_count : Z;
  next_channel_id : Z;
  requests : list sched_request;
}.

Definition set_channel (i : Z) (c : ipc_channel_t) (s : ipc_state) : ipc_state :=
  mk_ipc ((channels s).[i <- c]) (channel_count s) (next_channel_id s) (requests s).

Definition request (r : sched_request) (s : ipc_state) : ipc_state :=
  mk_ipc (channels s) (channel_count s) (next_channel_id s) (requests s ++ [r]).

Definition with_pending (n : Z) (c : ipc_channel_t) : ipc_channel_t :=
  mk_chan (channel_id c) (ctype c) (owner c) (peer c) n (cblocked c).

Definition with_blocked (b : bool) (c : ipc_channel_t) : ipc_channel_t :=
  mk_chan (channel_id c) (ctype c) (owner c) (peer c) (pending_count c) b.

Definition ipc_init (s : ipc_state) : Z * ipc_state :=
  (STATUS_SUCCESS, mk_ipc (replicate (Z.to_nat IPC_MAX_CHANNELS) zero_chan) 0 1 (requests s)).

(** The channel handed in, [None] for NULL, comes back with its identifier. *)
Definition ipc_channel_create (channel : option ipc_channel_t) (s : ipc_state)
  : Z * option ipc_channel_t * ipc_state :=
  match channel with
  | None => (STATUS_INVALID, None, s)
  | Some ch =>
      if IPC_MAX_CHANNELS <=? channel_count s then (STATUS_NO_MEMORY, Some ch, s)
      else
        let id := next_channel_id s in
        (STATUS_SUCCESS,
         Some (mk_chan id (ctype ch) (owner ch) (peer ch) (pending_count ch) (cblocked ch)),
         mk_ipc ((channels s).[channel_count s <- mk_chan id (ctype ch) (owner ch) (peer ch) 0 false])
           (u32 (channel_count s + 1)) (u32 (id + 1)) (requests s))
  end.

(** The channels in use. *)
Definition in_use (s : ipc_state) : list ipc_channel_t := live (channel_count s) (channels s).

(** The search loops of close, send and receive. *)
Definition find_channel (id : Z) (s : ipc_state) : option Z :=
  find_key channel_id id (channel_count s) (channels s).

Definition ipc_channel_close (id : Z) (s : ipc_state) : Z * ipc_state :=
  match find_channel id s with
  | None => (STATUS_NOT_FOUND, s)
  | Some i =>
      (STATUS_SUCCESS,
       mk_ipc ((channels s).[i <- (channels s).[channel_count s - 1]]) (channel_count s - 1)
         (next_channel_id s) (requests s))
  end.

Definition ipc_send (id : Z) (s : ipc_state) : Z * ipc_state :=
  match find_channel id s with
  | None => (STATUS_NOT_FOUND, s)
  | Some i =>
      let c := (channels s).[i] in
      let c1 := with_pending (u32 (pending_count c + 1)) c in
      if cblocked c1
      then (STATUS_SUCCESS, request (ReqWake (peer c1)) (set_channel i (with_blocked false c1) s))
      else (STATUS_SUCCESS, set_channel i c1 s)
  end.

(** A receive up to its return or to the call of [sched_sleep], with the slot
    its channel pointer designates. *)
Inductive receive_step :=
| Received (status : Z) (s : ipc_state)
| Sleeping (slot : Z) (s : ipc_state).

Definition take_message (i : Z) (s : ipc_state) : ipc_state :=
  let c := (channels s).[i] in set_channel i (with_pending (u32 (pending_count c - 1)) c) s.

Definition ipc_receive (id timeout : Z) (s : ipc_state) : receive_step :=
  match find_channel id s with
  | None => Received STATUS_NOT_FOUND s
  | Some i =>
      let c := (channels s).[i] in
      if pending_count c =? 0 then
        if timeout =? 0 then Received STATUS_WOULD_BLOCK s
        else Sleeping i (request (ReqSleep timeout) (set_channel i (with_blocked true c) s))
      else Received STATUS_SUCCESS (take_message i s)
  end.

(** After [sched_sleep] has returned. *)
Definition ipc_receive_resume (slot : Z) (s : ipc_state) : Z * ipc_state :=
  if pending_count (channels s).[slot] =? 0 then (STATUS_TIMEOUT, s)
  else (STATUS_SUCCESS, take_message slot s).

(** ** Specification: a map of channels *)

Inductive ipc_op :=
| OpCreate (type owner peer : Z)
| OpClose (id : Z)
| OpSend (id : Z)
| OpReceive (id timeout : Z).

(** The status a call returns, or the fact that it sleeps. *)
Inductive ipc_result :=
| Status (v : Z)
| Sleeps.

Definition step (op : ipc_op) (s : ipc_state) : ipc_result * ipc_state :=
  match op with
  | OpCreate t o p =>
      let '(r, _, s') := ipc_channel_create (Some (mk_chan 0 t o p 0 false)) s in (Status r, s')
  | OpClose id => let '(r, s') := ipc_channel_close id s in (Status r, s')
  | OpSend id => let '(r, s') := ipc_send id s in (Status r, s')
  | OpReceive id timeout =>
      match ipc_receive id timeout s with
      | Received r s' => (Status r, s')
      | Sleeping _ s' => (Sleeps, s')
      end
  end.

(** The channels by identifier, the next identifier, and the scheduler calls. *)
Definition spec_state : Type := gmap Z ipc_channel_t * Z * list sched_request.

Definition spec_step (op : ipc_op) (st : spec_state) : ipc_result * spec_state :=
  let '(m, next, q) := st in
  match op with
  | OpCreate t o p =>
      if Z.of_nat (size m) <? IPC_MAX_CHANNELS
      then (Status STATUS_SUCCESS, (<[next := mk_chan next t o p 0 false]> m, next + 1, q))
      else (Status STATUS_NO_MEMORY, st)
  | OpClose id =>
      match m !! id with
      | None => (Status STATUS_NOT_FOUND, st)
      | Some _ => (Status STATUS_SUCCESS, (delete id m, next, q))
      end
  | OpSend id =>
      match m !! id with
      | None => (Status STATUS_NOT_FOUND, st)
      | Some c =>
          (Status STATUS_SUCCESS,
           (<[id := with_blocked false (with_pending (u32 (pending_count c + 1)) c)]> m, next,
            q ++ if cblocked c then [ReqWake (peer c)] else []))
      end
  | OpReceive id timeout =>
      match m !! id with
      | None => (Status STATUS_NOT_FOUND, st)
      | Some c =>
          if pending_count c =? 0 then
            if timeout =? 0 then (Status STATUS_WOULD_BLOCK, st)
            else (Sleeps, (<[id := with_blocked true c]> m, next, q ++ [ReqSleep timeout]))
          else (Status STATUS_SUCCESS, (<[id := with_pending (u32 (pending_count c - 1)) c]> m, next, q))
      end
  end.

Definition abs (s : ipc_state) : gmap Z ipc_channel_t := by_key channel_id (in_use s).

Record ipc_inv (s : ipc_state) : Prop := {
  ii_dense : dense channel_id 256 (channel_count s) (channels s);
  ii_fresh : Forall (fun c => 0 < channel_id c < next_channel_id s) (in_use s);
  ii_next : 0 < next_channel_id s;
}.

(** ** The table *)

(** Replacing the channel of a slot by one with the same identifier. *)
Lemma update_slot s l1 c l2 c' :
  ipc_inv s -> in_use s = l1 ++ c :: l2 -> channel_id c' = channel_id c ->
  let s' := set_channel (Z.of_nat (length l1)) c' s in
  ipc_inv s' /\ abs s' = <[channel_id c := c']> (abs s).
Proof.
  intros [Hd Hf Hn] Hu Hid s'.
  destruct (dense_update channel_id _ _ _ Hd l1 c l2 c' Hu Hid) as (Hd' & Hu' & Ha).
  split; [split; [done| |done]|done].
  change (in_use s') with (live (channel_count s) (channels s).[Z.of_nat (length l1) <- c']).
  rewrite Hu'. rewrite Hu in Hf. rewrite Forall_app, List.Forall_cons_iff in *. by rewrite Hid.
Qed.

Lemma request_abs r s : ipc_inv s -> ipc_inv (request r s) /\ abs (request r s) = abs s.
Proof. intros [? ? ?]. by split. Qed.

Lemma close_slot s l1 c l2 :
  ipc_inv s -> in_use s = l1 ++ c :: l2 ->
  let s' := mk_ipc ((channels s).[Z.of_nat (length l1) <- (channels s).[channel_count s - 1]])
              (channel_count s - 1) (next_channel_id s) (requests s) in
  ipc_inv s' /\ abs s' = delete (channel_id c) (abs s).
Proof.
  intros [Hd Hf Hn] Hu s'.
  destruct (dense_remove channel_id _ _ _ Hd l1 c l2 Hu) as (Hd' & Hp & Ha).
  split; [split; [done| |done]|done].
  unfold in_use, s'. cbn [channels channel_count next_channel_id]. rewrite Hp.
  rewrite Hu, Forall_app, List.Forall_cons_iff in Hf. rewrite Forall_app. tauto.
Qed.

(** A new channel goes after the last one in use. *)
Lemma create_slot s c :
  ipc_inv s -> channel_count s < 256 -> channel_id c = next_channel_id s ->
  let s' := mk_ipc ((channels s).[channel_count s <- c]) (channel_count s + 1) (next_channel_id s + 1)
              (requests s) in
  ipc_inv s' /\ abs s' = <[next_channel_id s := c]> (abs s).
Proof.
  intros [Hd Hf Hn] Hroom Hid s'.
  destruct (dense_append channel_id _ _ _ Hd c Hroom) as (Hd' & Hu & Ha).
  { rewrite Hid, list_elem_of_fmap. intros (d & Hdk & Hin). unfold in_use in Hf.
    rewrite Forall_forall in Hf. apply Hf in Hin. lia. }
  rewrite Hid in Ha. split; [split; [done| |simpl; lia]|exact Ha].
  change (in_use s') with (live (channel_count s + 1) (channels s).[channel_count s <- c]).
  rewrite Hu, Forall_app. split; [|constructor; [simpl; lia|done]].
  eapply List.Forall_impl; [|exact Hf]. simpl. lia.
Qed.

Lemma abs_size s : ipc_inv s -> Z.of_nat (size (abs s)) = channel_count s.
Proof. intros [Hd _ _]. apply (dense_size channel_id _ _ _ Hd). Qed.

Lemma find_channel_cases id s :
  ipc_inv s ->
  (find_channel id s = None /\ abs s !! id = None) \/
  (exists l1 c l2, in_use s = l1 ++ c :: l2 /\ find_channel id s = Some (Z.of_nat (length l1)) /\
     channel_id c = id /\ (channels s).[Z.of_nat (length l1)] = c /\ abs s !! id = Some c).
Proof. intros [Hd _ _]. apply (find_key_cases channel_id _ _ _ Hd). Qed.

(** The abstraction of a whole state. *)
Definition spec_of (s : ipc_state) : spec_state := (abs s, next_channel_id s, requests s).

Lemma step_refines op s :
  ipc_inv s -> next_channel_id s < 2 ^ 32 - 1 ->
  let r := step op s in
  ipc_inv r.2 /\ next_channel_id s <= next_channel_id r.2 <= next_channel_id s + 1 /\
  spec_step op (spec_of s) = (r.1, spec_of r.2).
Proof.
  intros Hinv Hnext. unfold spec_of. destruct op as [t o p|id|id|id timeout]; unfold spec_step, step.
  - rewrite (abs_size s Hinv). unfold ipc_channel_create, IPC_MAX_CHANNELS.
    destruct (Z.leb_spec 256 (channel_count s)), (Z.ltb_spec (channel_count s) 256); try lia.
    + cbn [fst snd]. split_and!; [done|lia|lia|done].
    + cbv zeta. cbn [fst snd]. pose proof Hinv as [[_ Hc _] _ Hn0].
      rewrite !(wrap_small 32) by lia. simpl.
      destruct (create_slot s (mk_chan (next_channel_id s) t o p 0 false) Hinv) as [Hi Ha]; [done|done|].
      split_and!; [done|simpl; lia|simpl; lia|]. by rewrite Ha.
  - unfold ipc_channel_close.
    destruct (find_channel_cases id s Hinv) as [[-> ->]|(l1 & c & l2 & Hu & -> & <- & _ & ->)].
    + cbn [fst snd]. split_and!; [done|lia|lia|done].
    + destruct (close_slot s l1 c l2 Hinv Hu) as [Hi Ha].
      split_and!; [done|simpl; lia|simpl; lia|]. simpl in *. by rewrite Ha.
  - unfold ipc_send.
    destruct (find_channel_cases id s Hinv) as [[-> ->]|(l1 & c & l2 & Hu & -> & <- & -> & ->)].
    + cbn [fst snd]. split_and!; [done|lia|lia|done].
    + cbv zeta. destruct (cblocked c) eqn:Eb; cbn [cblocked with_pending]; rewrite Eb; cbn [fst snd].
      * destruct (update_slot s l1 c l2 (with_blocked false (with_pending (u32 (pending_count c + 1)) c))
          Hinv Hu eq_refl) as (Hi & Ha).
        change (peer (with_pending _ c)) with (peer c).
        edestruct (request_abs (ReqWake (peer c)) _ Hi) as [Hi' Ha'].
        split_and!; [exact Hi'|simpl; lia|simpl; lia|]. by rewrite Ha', Ha.
      * destruct (update_slot s l1 c l2 (with_pending (u32 (pending_count c + 1)) c) Hinv Hu eq_refl)
          as (Hi & Ha).
        split_and!; [exact Hi|simpl; lia|simpl; lia|]. rewrite Ha, app_nil_r.
        unfold with_blocked, with_pending. simpl. by rewrite Eb.
  - unfold ipc_receive.
    destruct (find_channel_cases id s Hinv) as [[-> ->]|(l1 & c & l2 & Hu & -> & <- & Hget & ->)].
    + cbn [fst snd]. split_and!; [done|lia|lia|done].
    + rewrite Hget. cbv zeta. destruct (pending_count c =? 0); [destruct (timeout =? 0)|]; cbn [fst snd].
      * split_and!; [done|lia|lia|done].
      * destruct (update_slot s l1 c l2 (with_blocked true c) Hinv Hu eq_refl) as (Hi & Ha).
        edestruct (request_abs (ReqSleep timeout) _ Hi) as [Hi' Ha'].
        split_and!; [exact Hi'|simpl; lia|simpl; lia|]. by rewrite Ha', Ha.
      * unfold take_message. rewrite Hget.
        destruct (update_slot s l1 c l2 (with_pending (u32 (pending_count c - 1)) c) Hinv Hu eq_refl)
          as (Hi & Ha).
        split_and!; [exact Hi|simpl; lia|simpl; lia|]. by rewrite Ha.
Qed.

(** Sequences of calls. *)
Fixpoint run (ops : list ipc_op) (s : ipc_state) : list ipc_result * ipc_state :=
  match ops with
  | [] => ([], s)
  | op :: ops' =>
      let '(r, s1) := step op s in let '(rs, s') := run ops' s1 in (r :: rs, s')
  end.

Fixpoint spec_run (ops : list ipc_op) (st : spec_state) : list ipc_result * spec_state :=
  match ops with
  | [] => ([], st)
  | op :: ops' =>
      let '(r, st1) := spec_step op st in let '(rs, st') := spec_run ops' st1 in (r :: rs, st')
  end.

(** ** Properties *)

(** C18: The channel table implements a map from identifiers to channels:
    any sequence of creations, closes, sends and receives returns the same
    statuses, leaves the same channels and makes the same scheduler calls as on
    the map, where a creation always uses a new identifier, as long as the
    32-bit identifiers do not run out. *)
Theorem ipc_refines_map (ops : list ipc_op) (s : ipc_state)
    (Hinv : ipc_inv s) (Hnext : next_channel_id s + Z.of_nat (length ops) < 2 ^ 32) :
  spec_run ops (spec_of s) = ((run ops s).1, spec_of (run ops s).2) /\ ipc_inv (run ops s).2.
Proof.
  revert s Hinv Hnext. induction ops as [|op ops IH]; intros s Hinv Hnext; [done|]. simpl in Hnext.
  destruct (step_refines op s Hinv ltac:(lia)) as (Hi & Hn & Hs). cbn [spec_run run]. rewrite Hs.
  destruct (step op s) as [r s1]. simpl in *. specialize (IH s1 Hi ltac:(lia)) as [IH1 IH2].
  rewrite IH1. by destruct (run ops s1).
Qed.

(** A receiver that slept holds the slot of its channel: after a close that
    moves another channel into it, the receiver takes that channel's message. *)
Definition two_channels : ipc_state :=
  (run [OpCreate 2 1 2; OpCreate 2 3 4] (ipc_init (mk_ipc [] 0 0 [])).2).2.

Lemma receive_takes_other_channel :
  match ipc_receive 1 100 two_channels with
  | Sleeping slot s1 =>
      let s2 := (run [OpSend 2; OpClose 1] s1).2 in
      let '(status, s3) := ipc_receive_resume slot s2 in
      status = STATUS_SUCCESS /\
      pending_count <$> abs s2 !! 2 = Some 1 /\ pending_count <$> abs s3 !! 2 = Some 0
  | Received _ _ => False
  end.
Proof. vm_compute. split_and!; reflexivity. Qed.

(** ** Witness *)

Lemma two_channels_inv : ipc_inv two_channels.
Proof.
  assert (in_use two_channels = [mk_chan 1 2 1 2 0 false; mk_chan 2 2 3 4 0 false]) as Hu by (by vm_compute).
  split; [split| |]; try (by vm_compute).
  - change (NoDup (channel_id <$> in_use two_channels)). rewrite Hu. apply NoDup_ListNoDup.
    repeat constructor; simpl; lia.
  - rewrite Hu. repeat constructor.
Qed.

Lemma ipc_refines_map_witness :
  spec_run [OpSend 1; OpClose 2; OpReceive 1 0] (spec_of two_channels) =
    ([Status 0; Status 0; Status 0], spec_of (run [OpSend 1; OpClose 2; OpReceive 1 0] two_channels).2).
Proof.
  destruct (ipc_refines_map [OpSend 1; OpClose 2; OpReceive 1 0] two_channels two_channels_inv) as [H _].
  - by vm_compute.
  - rewrite H. reflexivity.
Defined.

End Ipc.
