(* ===== verification/CapProtocol.v ===== *)
(** * Capability protocol (userspace/security/capability_protocol.h)

    Rights, tokens, messages and the default policy presets shared by the
    capability daemon and its client library. *)

From stdpp Require Import base numbers list option tactics.
From S2P Require Import Prelude.

Module CapProtocol.

Definition OMNIOS_CAP_TOKEN_MAX : Z := 64.
Definition OMNIOS_CAP_LABEL_LEN : nat := 64.

Definition OMNIOS_CAP_MEMORY_READ : Z := Z.shiftl 1 0.
Definition OMNIOS_CAP_MEMORY_WRITE : Z := Z.shiftl 1 1.
Definition OMNIOS_CAP_MEMORY_EXEC : Z := Z.shiftl 1 2.
Definition OMNIOS_CAP_IPC_SEND : Z := Z.shiftl 1 3.
Definition OMNIOS_CAP_IPC_RECV : Z := Z.shiftl 1 4.
Definition OMNIOS_CAP_FILE_READ : Z := Z.shiftl 1 5.
Definition OMNIOS_CAP_FILE_WRITE : Z := Z.shiftl 1 6.
Definition OMNIOS_CAP_NET_CONNECT : Z := Z.shiftl 1 7.
Definition OMNIOS_CAP_NET_BIND : Z := Z.shiftl 1 8.
Definition OMNIOS_CAP_DISPLAY_ACCESS : Z := Z.shiftl 1 9.
Definition OMNIOS_CAP_INPUT_ACCESS : Z := Z.shiftl 1 10.
Definition OMNIOS_CAP_AUDIO_PLAYBACK : Z := Z.shiftl 1 11.
Definition OMNIOS_CAP_AUDIO_CAPTURE : Z := Z.shiftl 1 12.
Definition OMNIOS_CAP_SENSOR_ACCESS : Z := Z.shiftl 1 13.
Definition OMNIOS_CAP_NOTIFICATION : Z := Z.shiftl 1 14.
Definition OMNIOS_CAP_VIBRATE : Z := Z.shiftl 1 15.
Definition OMNIOS_CAP_ADMIN : Z := Z.shiftl 1 63.

(** The system's error numbers the service uses. *)
Definition EPERM : Z := 1.
Definition ENOENT : Z := 2.
Definition EACCES : Z := 13.
Definition ENOSPC : Z := 28.
Definition ETIME : Z := 62.
Definition ECONNRESET : Z := 104.

Record omnios_cap_bounds_t := mk_bounds { bstart : Z; bend : Z }.

Record omnios_cap_token_t := mk_token {
  id : Z;
  rights : Z;
  bounds : omnios_cap_bounds_t;
  expiry_ns : Z;
  owner_pid : Z;
  label : list Z;          (* OMNIOS_CAP_LABEL_LEN characters *)
}.

Definition zero_token : omnios_cap_token_t :=
  mk_token 0 0 (mk_bounds 0 0) 0 0 (replicate OMNIOS_CAP_LABEL_LEN 0).
#[export] Instance token_inhabited : Inhabited omnios_cap_token_t := populate zero_token.

Definition OMNIOS_CAP_MSG_INVALID : Z := 0.
Definition OMNIOS_CAP_MSG_REQUEST : Z := 1.
Definition OMNIOS_CAP_MSG_GRANT : Z := 2.
Definition OMNIOS_CAP_MSG_DENY : Z := 3.
Definition OMNIOS_CAP_MSG_REVOKE : Z := 4.
Definition OMNIOS_CAP_MSG_FORWARD : Z := 5.
Definition OMNIOS_CAP_MSG_VERIFY : Z := 6.
Definition OMNIOS_CAP_MSG_LIST : Z := 7.

(** The text in [error], by the format and its arguments. *)
Inductive error_text :=
| NoError                      (* "" *)
| UnknownPid (pid : Z)         (* "unknown pid %d" *)
| GrantFailed (err : Z)        (* "grant failed: %s", strerror(err) *)
| RevokeFailed (err : Z)       (* "revoke failed: %s" *)
| VerifyFailed (err : Z)       (* "verify failed: %s" *)
| UnknownType (t : Z).         (* "unknown msg_type %u" *)

Record omnios_cap_msg_t := mk_msg {
  msg_type : Z;
  seq : Z;
  sender_pid : Z;
  token : omnios_cap_token_t;
  token_count : Z;
  error : error_text;
}.

Definition zero_msg : omnios_cap_msg_t := mk_msg 0 0 0 zero_token 0 NoError.

Inductive omnios_seccomp_hint :=
| OMNIOS_CAP_HINT_STRICT
| OMNIOS_CAP_HINT_APP
| OMNIOS_CAP_HINT_CONTAINER
| OMNIOS_CAP_HINT_COMPOSITOR.

Definition any_of (l : list Z) : Z := fold_right Z.lor 0 l.

Definition omnios_cap_default_rights (hint : omnios_seccomp_hint) : Z :=
  match hint with
  | OMNIOS_CAP_HINT_STRICT => any_of [OMNIOS_CAP_MEMORY_READ; OMNIOS_CAP_MEMORY_WRITE]
  | OMNIOS_CAP_HINT_APP =>
      any_of [OMNIOS_CAP_MEMORY_READ; OMNIOS_CAP_MEMORY_WRITE;
              OMNIOS_CAP_FILE_READ; OMNIOS_CAP_FILE_WRITE;
              OMNIOS_CAP_NET_CONNECT; OMNIOS_CAP_NOTIFICATION;
              OMNIOS_CAP_SENSOR_ACCESS]
  | OMNIOS_CAP_HINT_CONTAINER =>
      any_of [OMNIOS_CAP_MEMORY_READ; OMNIOS_CAP_MEMORY_WRITE;
              OMNIOS_CAP_MEMORY_EXEC; OMNIOS_CAP_FILE_READ;
              OMNIOS_CAP_FILE_WRITE; OMNIOS_CAP_NET_CONNECT;
              OMNIOS_CAP_NET_BIND; OMNIOS_CAP_IPC_SEND;
              OMNIOS_CAP_IPC_RECV]
  | OMNIOS_CAP_HINT_COMPOSITOR =>
      any_of [OMNIOS_CAP_MEMORY_READ; OMNIOS_CAP_MEMORY_WRITE;
              OMNIOS_CAP_DISPLAY_ACCESS; OMNIOS_CAP_INPUT_ACCESS;
              OMNIOS_CAP_IPC_SEND; OMNIOS_CAP_IPC_RECV;
              OMNIOS_CAP_AUDIO_PLAYBACK]
  end.

(** [(max & requested) == requested] says that the requested rights are among
    those of [max]. *)
Lemma rights_subset max r i :
  Z.land max r = r -> Z.testbit r i = true -> Z.testbit max i = true.
Proof. intros <-. rewrite Z.land_spec. by intros [? _]%andb_true_iff. Qed.

End CapProtocol.
