(* ===== verification/CapDaemon.v ===== *)
(** * Capability daemon (userspace/security/capability_daemon.c)

    The token store and the policy table, the handling of a client's message,
    and the poll loop.  The clock, the socket calls and the peer credentials
    are the system's: their results are arguments of the operations that use
    them. *)

From stdpp Require Import base numbers list option tactics gmap.
From S2P Require Import Prelude DenseTable CapProtocol.

Module CapDaemon.
Import CapProtocol.

Definition MAX_POLICY : Z := 128.

Record policy_entry := mk_policy {
  ppid : Z;
  phint : omnios_seccomp_hint;
  max_rights : Z;
}.
#[export] Instance policy_inhabited : Inhabited policy_entry :=
  populate (mk_policy 0 OMNIOS_CAP_HINT_STRICT 0).

(** The static variables of the daemon. *)
Record daemon := mk_daemon {
  token_store : list omnios_cap_token_t;
  ntokens : Z;             (* token_count *)
  next_token_id : Z;
  policy_table : list policy_entry;
  policy_count : Z;
}.

Definition daemon_boot : daemon :=
  mk_daemon (replicate 64 zero_token) 0 1 (replicate 128 inhabitant) 0.

(** Seconds and nanoseconds of [CLOCK_MONOTONIC]. *)
Definition now_ns (tv_sec tv_nsec : Z) : Z := u64 (u64 (tv_sec * 1000000000) + tv_nsec).

(** ** Policy engine; [None] is -1 *)

Definition policy_lookup (pid : Z) (d : daemon) : option Z :=
  find_key ppid pid (policy_count d) (policy_table d).

Definition policy_register (pid : Z) (hint : omnios_seccomp_hint) (d : daemon) : Z * daemon :=
  match policy_lookup pid d with
  | Some idx => (idx, d)
  | None =>
      if MAX_POLICY <=? policy_count d then (- ENOSPC, d)
      else
        let i := policy_count d in
        (i, mk_daemon (token_store d) (ntokens d) (next_token_id d)
              ((policy_table d).[i <- mk_policy pid hint (omnios_cap_default_rights hint)]) (i + 1))
  end.

Definition policy_allows (pid requested : Z) (d : daemon) : bool :=
  match policy_lookup pid d with
  | None => false
  | Some idx => Z.land (max_rights (policy_table d).[idx]) requested =? requested
  end.

(** ** Tokens *)

Definition token_grant (now owner rts : Z) (lbl : list Z) (d : daemon) : Z * daemon :=
  if OMNIOS_CAP_TOKEN_MAX <=? ntokens d then (- ENOSPC, d)
  else if negb (policy_allows owner rts d) then (- EPERM, d)
  else
    let i := ntokens d in
    let t := mk_token (u32 (next_token_id d)) rts (mk_bounds 0 0) (u64 (now + 3600 * 1000000000)) owner
               (strncpy (label (token_store d).[i]) lbl (OMNIOS_CAP_LABEL_LEN - 1)) in
    (s32 (id t), mk_daemon ((token_store d).[i <- t]) (i + 1) (next_token_id d + 1)
                   (policy_table d) (policy_count d)).

(** The slot of the token, [None] for NULL. *)
Definition token_find (tid : Z) (d : daemon) : option Z :=
  find_key id (u32 tid) (ntokens d) (token_store d).

Definition token_revoke (tid : Z) (d : daemon) : Z * daemon :=
  match token_find tid d with
  | Some i =>
      (0, mk_daemon ((token_store d).[i <- (token_store d).[ntokens d - 1]]) (ntokens d - 1)
            (next_token_id d) (policy_table d) (policy_count d))
  | None => (- ENOENT, d)
  end.

Definition token_verify (now tid requester : Z) (d : daemon) : Z :=
  match token_find tid d with
  | None => - ENOENT
  | Some i =>
      let t := (token_store d).[i] in
      if negb (owner_pid t =? requester) then - EPERM
      else if expiry_ns t <? now then - ETIME
      else 0
  end.

(** ** Messages *)

Definition deny (req : omnios_cap_msg_t) (e : error_text) : omnios_cap_msg_t :=
  mk_msg OMNIOS_CAP_MSG_DENY (seq req) 0 zero_token 0 e.

Definition grant (req : omnios_cap_msg_t) (t : omnios_cap_token_t) (n : Z) : omnios_cap_msg_t :=
  mk_msg OMNIOS_CAP_MSG_GRANT (seq req) 0 t n NoError.

(** Number of tokens of a process, the loop of MSG_LIST. *)
Definition count_owned (pid : Z) (d : daemon) : Z :=
  Z.of_nat (length (filter (fun t => owner_pid t =? pid) (live (ntokens d) (token_store d)))).

(** The response sent to the client and the new state; [None] is the fault of
    reading through a NULL [token_find]. *)
Definition handle_message (now : Z) (req : omnios_cap_msg_t) (d : daemon)
  : option (omnios_cap_msg_t * daemon) :=
  if msg_type req =? OMNIOS_CAP_MSG_REQUEST then
    match policy_lookup (sender_pid req) d with
    | None => Some (deny req (UnknownPid (sender_pid req)), d)
    | Some _ =>
        let '(tid, d1) := token_grant now (sender_pid req) (rights (token req)) (label (token req)) d in
        if tid <? 0 then Some (deny req (GrantFailed (- tid)), d1)
        else
          i ← token_find tid d1;
          Some (grant req (mk_token (u32 tid) (rights (token_store d1).[i]) (mk_bounds 0 0) 0 0
                             (label zero_token)) 0, d1)
    end
  else if msg_type req =? OMNIOS_CAP_MSG_REVOKE then
    let '(ret, d1) := token_revoke (s32 (id (token req))) d in
    if ret <? 0 then Some (deny req (RevokeFailed (- ret)), d1)
    else Some (grant req zero_token 0, d1)
  else if msg_type req =? OMNIOS_CAP_MSG_VERIFY then
    let ret := token_verify now (s32 (id (token req))) (sender_pid req) d in
    if ret <? 0 then Some (deny req (VerifyFailed (- ret)), d)
    else
      i ← token_find (s32 (id (token req))) d;
      Some (grant req (token_store d).[i] 0, d)
  else if msg_type req =? OMNIOS_CAP_MSG_LIST then
    Some (grant req zero_token (u32 (count_owned (sender_pid req) d)), d)
  else Some (deny req (UnknownType (msg_type req)), d).

(** ** The poll loop *)

Definition POLLIN : Z := 1.

Record pollfd := mk_pollfd { pfd : Z; revents : Z }.
#[export] Instance pollfd_inhabited : Inhabited pollfd := populate (mk_pollfd 0 0).

(** The daemon with its descriptors, the descriptors it has closed and the
    responses it has sent. *)
Record server := mk_server {
  sd : daemon;
  pfds : list pollfd;      (* 64 *)
  nfds : Z;
  closed : list Z;
  sent : list (Z * omnios_cap_msg_t);
}.

(** What the system calls of one round return. *)
Record round := mk_round {
  polled : Z -> Z;                          (* revents by descriptor *)
  accepted : Z;                             (* accept4 *)
  peercred : option Z;                      (* pid of SO_PEERCRED, if it succeeds *)
  received : Z -> option omnios_cap_msg_t;  (* recv; None is n <= 0 *)
  clock : Z;
}.

(** [poll] fills in [revents] of the first [nfds] entries. *)
Definition set_revents (r : round) (s : server) : server :=
  mk_server (sd s)
    (imap (fun i p => if Z.of_nat i <? nfds s then mk_pollfd (pfd p) (polled r (pfd p)) else p) (pfds s))
    (nfds s) (closed s) (sent s).

(** A new client; its [revents] keep whatever the entry held. *)
Definition accept_client (r : round) (s : server) : server :=
  if truthy (Z.land (revents (pfds s).[0]) POLLIN) then
    if (0 <=? accepted r) && (nfds s <? 64) then
      let d := match peercred r with
               | Some pid => (policy_register pid OMNIOS_CAP_HINT_APP (sd s)).2
               | None => sd s
               end in
      let i := nfds s in
      mk_server d ((pfds s).[i <- mk_pollfd (accepted r) (revents (pfds s).[i])]) (i + 1)
        (closed s) (sent s)
    else s
  else s.

(** The clients from index [i] on: every round of the loop passes one of them or
    drops it, so the number [n] of those left bounds it. *)
Fixpoint client_loop (n : nat) (i : Z) (r : round) (s : server) : option server :=
  match n with
  | O => Some s
  | S n' =>
      let p := (pfds s).[i] in
      if truthy (Z.land (revents p) POLLIN) then
        match received r (pfd p) with
        | None =>
            client_loop n' i r
              (mk_server (sd s) ((pfds s).[i <- (pfds s).[nfds s - 1]]) (nfds s - 1)
                 (closed s ++ [pfd p]) (sent s))
        | Some msg =>
            '(resp, d) ← handle_message (clock r) msg (sd s);
            client_loop n' (i + 1) r
              (mk_server d (pfds s) (nfds s) (closed s) (sent s ++ [(pfd p, resp)]))
        end
      else client_loop n' (i + 1) r s
  end.

(** A round of the main loop after a successful [poll]. *)
Definition serve (r : round) (s : server) : option server :=
  let s1 := accept_client r (set_revents r s) in
  client_loop (Z.to_nat (nfds s1 - 1)) 1 r s1.

(** The policies registered before the loop. *)
Definition daemon_start : daemon :=
  (policy_register 2 OMNIOS_CAP_HINT_STRICT
     (policy_register 1 OMNIOS_CAP_HINT_COMPOSITOR daemon_boot).2).2.

(** [main] up to the loop; [stack] is what the [fds] array happens to hold. *)
Definition server_start (listen_fd : Z) (stack : list pollfd) : server :=
  mk_server daemon_start (stack.[0 <- mk_pollfd listen_fd (revents stack.[0])]) 1 [] [].

(** ** Specification: tokens by identifier and registered processes *)

(** The preset a process gets: the two of [main], APP for the others. *)
Definition hint_of (pid : Z) : omnios_seccomp_hint :=
  if pid =? 1 then OMNIOS_CAP_HINT_COMPOSITOR
  else if pid =? 2 then OMNIOS_CAP_HINT_STRICT else OMNIOS_CAP_HINT_APP.

Definition rights_of (pid : Z) : Z := omnios_cap_default_rights (hint_of pid).

(** A label cut to 63 characters and padded with NULs. *)
Definition fixed_label (lbl : list Z) : list Z :=
  let s := take 63 (cstr lbl) in s ++ replicate (64 - length s) 0.

Record spec := mk_spec {
  tokens : gmap Z omnios_cap_token_t;
  registered : gset Z;
  fresh_id : Z;
}.

Definition spec_handle (now : Z) (req : omnios_cap_msg_t) (a : spec) : omnios_cap_msg_t * spec :=
  let pid := sender_pid req in
  let t := token req in
  if msg_type req =? OMNIOS_CAP_MSG_REQUEST then
    if bool_decide (pid ∈ registered a) then
      if Z.of_nat (size (tokens a)) <? 64 then
        if Z.land (rights_of pid) (rights t) =? rights t then
          (grant req (mk_token (fresh_id a) (rights t) (mk_bounds 0 0) 0 0 (label zero_token)) 0,
           mk_spec (<[fresh_id a := mk_token (fresh_id a) (rights t) (mk_bounds 0 0)
                                      (u64 (now + 3600 * 1000000000)) pid (fixed_label (label t))]>
                      (tokens a)) (registered a) (fresh_id a + 1))
        else (deny req (GrantFailed EPERM), a)
      else (deny req (GrantFailed ENOSPC), a)
    else (deny req (UnknownPid pid), a)
  else if msg_type req =? OMNIOS_CAP_MSG_REVOKE then
    match tokens a !! id t with
    | None => (deny req (RevokeFailed ENOENT), a)
    | Some _ => (grant req zero_token 0, mk_spec (delete (id t) (tokens a)) (registered a) (fresh_id a))
    end
  else if msg_type req =? OMNIOS_CAP_MSG_VERIFY then
    match tokens a !! id t with
    | None => (deny req (VerifyFailed ENOENT), a)
    | Some k =>
        if owner_pid k =? pid then
          if now <=? expiry_ns k then (grant req k 0, a) else (deny req (VerifyFailed ETIME), a)
        else (deny req (VerifyFailed EPERM), a)
    end
  else if msg_type req =? OMNIOS_CAP_MSG_LIST then
    (grant req zero_token
       (Z.of_nat (size (filter (fun x : Z * omnios_cap_token_t => owner_pid x.2 = pid) (tokens a)))), a)
  else (deny req (UnknownType (msg_type req)), a).

Definition abs (d : daemon) : spec :=
  mk_spec (by_key id (live (ntokens d) (token_store d)))
    (list_to_set (ppid <$> live (policy_count d) (policy_table d))) (next_token_id d).

(** ** Invariant *)

(** What holds of every entry of the policy table and of every token. *)
Definition policy_ok (e : policy_entry) : Prop := max_rights e = rights_of (ppid e).
Definition token_ok (t : omnios_cap_token_t) : Prop :=
  Z.land (rights_of (owner_pid t)) (rights t) = rights t.
Definition label_ok (t : omnios_cap_token_t) : Prop := length (label t) = 64%nat /\ label t !! 63%nat = Some 0.

Record cap_inv (d : daemon) : Prop := {
  ci_tokens : dense id 64 (ntokens d) (token_store d);
  ci_ids : Forall (fun t => 0 < id t < next_token_id d) (live (ntokens d) (token_store d));
  ci_next : 0 < next_token_id d < 2 ^ 31;
  ci_rights : Forall token_ok (live (ntokens d) (token_store d));
  ci_labels : Forall label_ok (token_store d);
  ci_policy : dense ppid 128 (policy_count d) (policy_table d);
  ci_presets : Forall policy_ok (live (policy_count d) (policy_table d));
  ci_builtin : 1 ∈ registered (abs d) /\ 2 ∈ registered (abs d);
}.

(** ** Labels and lookups *)

Lemma strncpy_label old lbl :
  length old = 64%nat -> old !! 63%nat = Some 0 -> strncpy old lbl 63 = fixed_label lbl.
Proof.
  intros Hl H0. unfold strncpy, fixed_label. set (s := take 63 (cstr lbl)).
  assert (length s <= 63)%nat as Hs by (unfold s; rewrite length_take; lia).
  f_equal. rewrite (drop_S old 0 63 H0), drop_ge by lia.
  replace (64 - length s)%nat with ((63 - length s) + 1)%nat by lia. by rewrite replicate_add.
Qed.

Lemma fixed_label_ok lbl : length (fixed_label lbl) = 64%nat /\ fixed_label lbl !! 63%nat = Some 0.
Proof.
  unfold fixed_label. set (s := take 63 (cstr lbl)).
  assert (length s <= 63)%nat as Hs by (unfold s; rewrite length_take; lia).
  rewrite length_app, length_replicate, lookup_app_r by lia.
  split; [lia|]. apply lookup_replicate_2. lia.
Qed.

(** The text of a stored label: the first 63 characters. *)
Lemma cstr_fixed_label lbl : cstr (fixed_label lbl) = take 63 (cstr lbl).
Proof.
  unfold fixed_label. set (s := take 63 (cstr lbl)).
  assert (length s <= 63)%nat as Hs by (unfold s; rewrite length_take; lia).
  destruct (64 - length s)%nat as [|n] eqn:E; [lia|]. simpl. apply cstr_app_nul.
  apply Forall_take, cstr_nonzero.
Qed.

Lemma fixed_label_idem lbl : fixed_label (fixed_label lbl) = fixed_label lbl.
Proof. unfold fixed_label at 1. rewrite cstr_fixed_label, take_take. done. Qed.

Lemma policy_lookup_cases pid d :
  cap_inv d ->
  (policy_lookup pid d = None /\ pid ∉ registered (abs d)) \/
  (exists i, policy_lookup pid d = Some i /\ pid ∈ registered (abs d) /\
     max_rights (policy_table d).[i] = rights_of pid).
Proof.
  intros [_ _ _ _ _ Hp Hpre _]. simpl.
  destruct (find_key_cases ppid _ _ _ Hp pid) as [[Hn Hm]|(l1 & e & l2 & Hl & Hf & Hk & Hg & _)].
  - left. split; [done|]. rewrite elem_of_list_to_set, list_elem_of_fmap. intros (e & -> & He).
    destruct Hp as [_ _ Hnd]. assert (by_key ppid (live (policy_count d) (policy_table d)) !! ppid e = Some e)
      as Hs by (by apply by_key_lookup). congruence.
  - right. exists (Z.of_nat (length l1)). rewrite Hl in *. split_and!; [done| |].
    + rewrite elem_of_list_to_set, list_elem_of_fmap. exists e. split; [done|set_solver].
    + rewrite Hg, <-Hk. apply Forall_app in Hpre as [_ Hpre]. by inversion Hpre.
Qed.

Lemma token_find_cases t d :
  cap_inv d -> 0 <= t < 2 ^ 32 ->
  (token_find t d = None /\ tokens (abs d) !! t = None) \/
  (exists l1 k l2, live (ntokens d) (token_store d) = l1 ++ k :: l2 /\
     token_find t d = Some (Z.of_nat (length l1)) /\ id k = t /\
     (token_store d).[Z.of_nat (length l1)] = k /\ tokens (abs d) !! t = Some k).
Proof.
  intros [Ht _ _ _ _ _ _ _] Hr. unfold token_find. rewrite (wrap_small 32) by done.
  apply (find_key_cases id _ _ _ Ht).
Qed.

(** An identifier sent as [uint32_t] and passed as [int]. *)
Lemma u32_s32 x : 0 <= x < 2 ^ 32 -> u32 (s32 x) = x.
Proof. intros Hx. unfold wrap, swrap. change (2 ^ (32 - 1)) with (2 ^ 31). lia. Qed.

Lemma find_s32 x d : 0 <= x < 2 ^ 32 -> token_find (s32 x) d = token_find x d.
Proof. intros Hx. unfold token_find. by rewrite u32_s32, (wrap_small 32). Qed.

(** ** Operations on the tables *)

(** A registration adds the process to the registered ones, or leaves the table
    when it is already there or full. *)
Lemma policy_register_inv pid d :
  cap_inv d ->
  let d' := (policy_register pid OMNIOS_CAP_HINT_APP d).2 in
  cap_inv d' /\ tokens (abs d') = tokens (abs d) /\ fresh_id (abs d') = fresh_id (abs d) /\
  registered (abs d) ⊆ registered (abs d').
Proof.
  intros Hinv. cbv zeta. unfold policy_register.
  destruct (policy_lookup_cases pid d Hinv) as [[-> Hnew]|(i & -> & _)]; [|done].
  unfold MAX_POLICY. destruct (Z.leb_spec 128 (policy_count d)); [done|]. cbn [snd].
  destruct Hinv as [Ht Hid Hn Hr Hlb Hp Hpre [Hb1 Hb2]].
  set (e := mk_policy pid _ _).
  destruct (dense_append ppid _ _ _ Hp e) as (Hp' & Hl & _); [done| |].
  { simpl in Hnew. by rewrite elem_of_list_to_set in Hnew. }
  set (d' := mk_daemon _ _ _ _ _).
  assert (registered (abs d') = registered (abs d) ∪ {[pid]}) as Hreg.
  { simpl. rewrite Hl, fmap_app, list_to_set_app_L. simpl. by rewrite union_empty_r_L. }
  split_and!; [split; try done|done|done|rewrite Hreg; apply union_subseteq_l].
  - change (Forall policy_ok (live (policy_count d + 1) ((policy_table d).[policy_count d <- e]))).
    rewrite Hl, Forall_app. split; [done|]. constructor; [|done]. unfold policy_ok, e, rights_of, hint_of.
    simpl. destruct (Z.eqb_spec pid 1) as [->|]; [done|]. by destruct (Z.eqb_spec pid 2) as [->|].
  - rewrite Hreg. split; by apply elem_of_union_l.
Qed.

(** The token a successful grant stores. *)
Definition granted (now pid rts : Z) (lbl : list Z) (d : daemon) : omnios_cap_token_t :=
  mk_token (next_token_id d) rts (mk_bounds 0 0) (u64 (now + 3600 * 1000000000)) pid (fixed_label lbl).

Lemma token_grant_spec now pid rts lbl d :
  cap_inv d -> next_token_id d < 2 ^ 31 - 1 -> pid ∈ registered (abs d) ->
  let r := token_grant now pid rts lbl d in
  if Z.of_nat (size (tokens (abs d))) <? 64 then
    if Z.land (rights_of pid) rts =? rts then
      r.1 = next_token_id d /\ cap_inv r.2 /\
      abs r.2 = mk_spec (<[next_token_id d := granted now pid rts lbl d]> (tokens (abs d)))
                  (registered (abs d)) (next_token_id d + 1)
    else r = (- EPERM, d)
  else r = (- ENOSPC, d).
Proof.
  intros Hinv Hn Hpid. cbv zeta. unfold token_grant.
  change (tokens (abs d)) with (by_key id (live (ntokens d) (token_store d))).
  pose proof Hinv as [Ht Hid Hnx Hr Hlb Hp Hpre Hb].
  rewrite (dense_size id _ _ _ Ht). unfold OMNIOS_CAP_TOKEN_MAX.
  destruct (Z.leb_spec 64 (ntokens d)), (Z.ltb_spec (ntokens d) 64); try lia; [done|].
  unfold policy_allows.
  destruct (policy_lookup_cases pid d Hinv) as [[_ ?]|(i & -> & _ & ->)]; [done|].
  destruct (Z.eqb_spec (Z.land (rights_of pid) rts) rts) as [Hsub|]; [|done].
  cbn [negb]. rewrite (wrap_small 32) by lia. cbn [id fst snd].
  assert (strncpy (label (token_store d).[ntokens d]) lbl (OMNIOS_CAP_LABEL_LEN - 1) = fixed_label lbl) as ->.
  { destruct Ht as [Hl Hc _]. rewrite Forall_lookup in Hlb.
    destruct (Hlb (Z.to_nat (ntokens d)) (token_store d).[ntokens d]) as [H1 H2].
    - apply aget_lookup. lia.
    - by apply strncpy_label. }
  fold (granted now pid rts lbl d). set (t := granted now pid rts lbl d).
  destruct (dense_append id _ _ _ Ht t) as (Ht' & Hl & Hm); [done| |].
  { rewrite list_elem_of_fmap. intros (k & Hk & Hin). rewrite Forall_forall in Hid.
    apply Hid in Hin. unfold t, granted in Hk. simpl in Hk. lia. }
  split_and!.
  - apply swrap_small; [done|]. change (2 ^ (32 - 1)) with (2 ^ 31). lia.
  - set (d' := mk_daemon _ _ _ _ _).
    assert (live (ntokens d') (token_store d') = live (ntokens d) (token_store d) ++ [t]) as Hl' by exact Hl.
    split; try done.
    + rewrite Hl', Forall_app. split; [|constructor; [simpl; lia|done]].
      eapply List.Forall_impl; [|exact Hid]. simpl. lia.
    + simpl. lia.
    + rewrite Hl', Forall_app. split; [done|by constructor].
    + simpl. unfold aset. apply Forall_insert; [done|]. apply fixed_label_ok.
  - unfold abs. cbn [token_store ntokens policy_table policy_count next_token_id]. by rewrite Hm.
Qed.

Lemma token_revoke_spec t d :
  cap_inv d -> 0 <= t < 2 ^ 32 ->
  let r := token_revoke t d in
  match tokens (abs d) !! t with
  | None => r = (- ENOENT, d)
  | Some _ => r.1 = 0 /\ cap_inv r.2 /\
      abs r.2 = mk_spec (delete t (tokens (abs d))) (registered (abs d)) (next_token_id d)
  end.
Proof.
  intros Hinv Hr. cbv zeta. unfold token_revoke.
  destruct (token_find_cases t d Hinv Hr) as [[-> ->]|(l1 & k & l2 & Hl & -> & Hk & _ & ->)]; [done|].
  destruct Hinv as [Ht Hid Hnx Hri Hlb Hp Hpre Hb].
  destruct (dense_remove id _ _ _ Ht l1 k l2 Hl) as (Ht' & Hpm & Hm).
  split_and!; [done| |].
  - set (d' := mk_daemon _ _ _ _ _). cbn [snd].
    assert (live (ntokens d') (token_store d') ≡ₚ l1 ++ l2) as Hpm' by exact Hpm.
    split; try done.
    + rewrite Hpm'. rewrite Hl, Forall_app, List.Forall_cons_iff in Hid. rewrite Forall_app. tauto.
    + rewrite Hpm'. rewrite Hl, Forall_app, List.Forall_cons_iff in Hri. rewrite Forall_app. tauto.
    + simpl. unfold aset. apply Forall_insert; [done|].
      destruct (live_split id _ _ _ Ht) as [_ Hll]. destruct Ht as [Hlen Hc _].
      rewrite Hl, length_app in Hll. simpl in Hll.
      rewrite Forall_lookup in Hlb. apply (Hlb (Z.to_nat (ntokens d - 1))). apply aget_lookup. lia.
  - unfold abs. cbn [snd token_store ntokens policy_table policy_count next_token_id]. by rewrite Hm, Hk.
Qed.

Lemma count_owned_spec pid d :
  cap_inv d ->
  count_owned pid d =
    Z.of_nat (size (filter (fun x : Z * omnios_cap_token_t => owner_pid x.2 = pid) (tokens (abs d)))).
Proof.
  intros [[_ _ Hnd] _ _ _ _ _ _ _]. unfold count_owned.
  f_equal. etrans; [|symmetry; exact (by_key_filter_size id (fun t => owner_pid t = pid) _ Hnd)].
  f_equal. apply list_filter_iff. intros t. rewrite Is_true_true. apply Z.eqb_eq.
Qed.

Lemma count_owned_bound pid d : cap_inv d -> 0 <= count_owned pid d < 2 ^ 32.
Proof.
  intros [Ht _ _ _ _ _ _ _]. unfold count_owned.
  destruct (live_split id _ _ _ Ht) as [_ Hl]. destruct Ht as [_ Hc _].
  pose proof (length_filter (fun t => owner_pid t =? pid) (live (ntokens d) (token_store d))). lia.
Qed.

(** ** The branches of [handle_message] *)

Section branches.
Context (now : Z) (req : omnios_cap_msg_t) (d : daemon).
Hypothesis Hinv : cap_inv d.
Hypothesis Hid : 0 <= id (token req) < 2 ^ 32.
Hypothesis Hnext : next_token_id d < 2 ^ 31 - 1.

Lemma handle_request :
  exists resp d',
    match policy_lookup (sender_pid req) d with
    | None => Some (deny req (UnknownPid (sender_pid req)), d)
    | Some _ =>
        let '(tid, d1) := token_grant now (sender_pid req) (rights (token req)) (label (token req)) d in
        if tid <? 0 then Some (deny req (GrantFailed (- tid)), d1)
        else
          i ← token_find tid d1;
          Some (grant req (mk_token (u32 tid) (rights (token_store d1).[i]) (mk_bounds 0 0) 0 0
                             (label zero_token)) 0, d1)
    end = Some (resp, d') /\ cap_inv d' /\
    (if bool_decide (sender_pid req ∈ registered (abs d)) then
       if Z.of_nat (size (tokens (abs d))) <? 64 then
         if Z.land (rights_of (sender_pid req)) (rights (token req)) =? rights (token req) then
           (grant req (mk_token (fresh_id (abs d)) (rights (token req)) (mk_bounds 0 0) 0 0
                         (label zero_token)) 0,
            mk_spec (<[fresh_id (abs d) := granted now (sender_pid req) (rights (token req))
                                             (label (token req)) d]> (tokens (abs d)))
              (registered (abs d)) (fresh_id (abs d) + 1))
         else (deny req (GrantFailed EPERM), abs d)
       else (deny req (GrantFailed ENOSPC), abs d)
     else (deny req (UnknownPid (sender_pid req)), abs d)) = (resp, abs d').
Proof.
  destruct (policy_lookup_cases (sender_pid req) d Hinv) as [[-> Hp]|(i & -> & Hp & _)].
  { rewrite bool_decide_false by done. by eexists _, _. }
  rewrite bool_decide_true by done.
  pose proof (token_grant_spec now _ (rights (token req)) (label (token req)) d Hinv Hnext Hp) as Hg.
  cbv zeta in Hg. destruct (token_grant _ _ _ _ d) as [tid d1]. cbn [fst snd] in Hg.
  destruct (_ <? 64); [destruct (_ =? _)|].
  - destruct Hg as (-> & Hinv1 & Habs). pose proof (ci_next _ Hinv) as Hn.
    rewrite (proj2 (Z.ltb_ge _ _)) by lia.
    destruct (token_find_cases (next_token_id d) d1 Hinv1 ltac:(lia))
      as [[_ Hno]|(l1 & k & l2 & _ & -> & _ & Hg & Hk)].
    { rewrite Habs in Hno. simpl in Hno. by rewrite lookup_insert_eq in Hno. }
    rewrite Habs in Hk. simpl in Hk. rewrite lookup_insert_eq in Hk. injection Hk as <-.
    cbn [mbind option_bind]. rewrite Hg, (wrap_small 32) by lia.
    eexists _, _. split_and!; [done|done|]. by rewrite Habs.
  - injection Hg as -> ->. by eexists _, _.
  - injection Hg as -> ->. by eexists _, _.
Qed.

Lemma handle_revoke :
  exists resp d',
    (let '(ret, d1) := token_revoke (s32 (id (token req))) d in
     if ret <? 0 then Some (deny req (RevokeFailed (- ret)), d1)
     else Some (grant req zero_token 0, d1)) = Some (resp, d') /\ cap_inv d' /\
    match tokens (abs d) !! id (token req) with
    | None => (deny req (RevokeFailed ENOENT), abs d)
    | Some _ => (grant req zero_token 0,
                 mk_spec (delete (id (token req)) (tokens (abs d))) (registered (abs d)) (fresh_id (abs d)))
    end = (resp, abs d').
Proof.
  unfold token_revoke. rewrite find_s32 by done.
  pose proof (token_revoke_spec (id (token req)) d Hinv Hid) as Hr. cbv zeta in Hr.
  unfold token_revoke in Hr. destruct (match token_find _ d with Some _ => _ | None => _ end) as [ret d1].
  destruct (tokens (abs d) !! id (token req)).
  - destruct Hr as (Hret & Hi & Ha). simpl in Hret, Hi, Ha. rewrite Hret. eexists _, _.
    split_and!; [done|done|]. by rewrite Ha.
  - injection Hr as -> ->. by eexists _, _.
Qed.

Lemma handle_verify :
  exists resp d',
    (let ret := token_verify now (s32 (id (token req))) (sender_pid req) d in
     if ret <? 0 then Some (deny req (VerifyFailed (- ret)), d)
     else
       i ← token_find (s32 (id (token req))) d;
       Some (grant req (token_store d).[i] 0, d)) = Some (resp, d') /\ cap_inv d' /\
    match tokens (abs d) !! id (token req) with
    | None => (deny req (VerifyFailed ENOENT), abs d)
    | Some k =>
        if owner_pid k =? sender_pid req then
          if now <=? expiry_ns k then (grant req k 0, abs d)
          else (deny req (VerifyFailed ETIME), abs d)
        else (deny req (VerifyFailed EPERM), abs d)
    end = (resp, abs d').
Proof.
  unfold token_verify. rewrite find_s32 by done.
  destruct (token_find_cases _ d Hinv Hid) as [[-> ->]|(l1 & k & l2 & _ & -> & _ & Hg & ->)].
  { by eexists _, _. }
  cbv zeta. rewrite Hg. destruct (owner_pid k =? sender_pid req); [|by eexists _, _].
  cbn [negb]. destruct (Z.ltb_spec (expiry_ns k) now), (Z.leb_spec now (expiry_ns k)); try lia;
    [by eexists _, _|].
  cbn [mbind option_bind]. rewrite Hg. by eexists _, _.
Qed.
End branches.

Lemma handle_message_spec now req d :
  cap_inv d -> 0 <= id (token req) < 2 ^ 32 -> next_token_id d < 2 ^ 31 - 1 ->
  exists resp d', handle_message now req d = Some (resp, d') /\ cap_inv d' /\
    spec_handle now req (abs d) = (resp, abs d').
Proof.
  intros Hinv Hid Hnext. unfold handle_message, spec_handle.
  destruct (msg_type req =? OMNIOS_CAP_MSG_REQUEST); [by apply handle_request|].
  destruct (msg_type req =? OMNIOS_CAP_MSG_REVOKE); [by apply handle_revoke|].
  destruct (msg_type req =? OMNIOS_CAP_MSG_VERIFY); [by apply handle_verify|].
  destruct (msg_type req =? OMNIOS_CAP_MSG_LIST); [|by eexists _, _].
  eexists _, _. split_and!; [done|done|]. rewrite count_owned_spec by done.
  rewrite (wrap_small 32); [done|]. rewrite <-count_owned_spec by done. by apply count_owned_bound.
Qed.

(** C3: Handling a message implements the capability service on a map of
    tokens: on a consistent daemon it never faults, answers exactly what the
    specification answers (a grant only to a registered process, within its
    preset and with room for the token; a verification only for the owner of an
    unexpired token) and stores or removes exactly that token. *)
Theorem handle_message_refines (now : Z) (req : omnios_cap_msg_t) (d : daemon)
    (Hinv : cap_inv d) (Hid : 0 <= id (token req) < 2 ^ 32) (Hnext : next_token_id d < 2 ^ 31 - 1) :
  exists resp d', handle_message now req d = Some (resp, d') /\ cap_inv d' /\
    spec_handle now req (abs d) = (resp, abs d').
Proof. by apply handle_message_spec. Qed.

(** ** Executions of the daemon *)

(** A new connection registers its process; a message is handled.  The counter
    of identifiers is an [int], whose overflow is left out. *)
Inductive dstep : daemon -> daemon -> Prop :=
| dstep_connect pid d : dstep d (policy_register pid OMNIOS_CAP_HINT_APP d).2
| dstep_message now req resp d d' :
    0 <= id (token req) < 2 ^ 32 -> next_token_id d < 2 ^ 31 - 1 ->
    handle_message now req d = Some (resp, d') -> dstep d d'.

Definition reachable : daemon -> Prop := rtc dstep daemon_start.

Lemma daemon_start_inv : cap_inv daemon_start.
Proof.
  assert (live (ntokens daemon_start) (token_store daemon_start) = []) as Ht by (by vm_compute).
  assert (live (policy_count daemon_start) (policy_table daemon_start) =
    [mk_policy 1 OMNIOS_CAP_HINT_COMPOSITOR (rights_of 1); mk_policy 2 OMNIOS_CAP_HINT_STRICT (rights_of 2)])
    as Hp by (by vm_compute).
  split.
  - split; [by vm_compute|by vm_compute|]. rewrite Ht. constructor.
  - rewrite Ht. constructor.
  - by vm_compute.
  - rewrite Ht. constructor.
  - change (token_store daemon_start) with (replicate 64 zero_token). apply Forall_replicate. by vm_compute.
  - split; [by vm_compute|by vm_compute|]. rewrite Hp. apply NoDup_ListNoDup.
    repeat constructor; simpl; lia.
  - rewrite Hp. repeat constructor.
  - unfold abs. cbn [registered]. rewrite Hp. simpl. split; set_solver-.
Qed.

Lemma dstep_inv d d' : dstep d d' -> cap_inv d -> cap_inv d'.
Proof.
  intros [pid d1|now req resp d1 d2 Hid Hn Hm] Hinv.
  - by apply policy_register_inv.
  - destruct (handle_message_spec now req d1 Hinv Hid Hn) as (? & ? & Hm' & ? & _). congruence.
Qed.

Lemma reachable_inv d : reachable d -> cap_inv d.
Proof.
  unfold reachable. generalize daemon_start_inv. generalize daemon_start. intros d0 H0 Hr.
  induction Hr as [|x y z Hs _ IH]; [done|]. apply IH. by eapply dstep_inv.
Qed.

(** C4: Whatever connections and messages the daemon serves, a token in its
    store carries only rights of its owner's preset; none ever carries ADMIN,
    EXEC or NET_BIND, and only process 1 can hold the IPC rights. *)
Theorem tokens_within_presets (d : daemon) (t : omnios_cap_token_t) (bit : Z)
    (Hreach : reachable d) (Ht : t ∈ live (ntokens d) (token_store d))
    (Hbit : Z.testbit (rights t) bit = true) :
  Z.testbit (rights_of (owner_pid t)) bit = true /\
  bit <> 63 /\ bit <> 2 /\ bit <> 8 /\ (owner_pid t <> 1 -> bit <> 3 /\ bit <> 4).
Proof.
  pose proof (ci_rights _ (reachable_inv d Hreach)) as Hr. rewrite Forall_forall in Hr.
  specialize (Hr t Ht). pose proof (rights_subset _ _ bit Hr Hbit) as Hp. split; [done|].
  revert Hp. unfold rights_of, hint_of.
  destruct (Z.eqb_spec (owner_pid t) 1); [|destruct (Z.eqb_spec (owner_pid t) 2)];
    intros Hp; split_and!; try (intros ->; by vm_compute in Hp); (done || intros _; split; intros ->; by vm_compute in Hp).
Qed.

(** A round of the poll loop over the clients. *)
Definition ready (p : pollfd) : bool := truthy (Z.land (revents p) POLLIN).
Definition dropped (r : round) (p : pollfd) : bool := ready p && bool_decide (received r (pfd p) = None).
Definition answered (r : round) (p : pollfd) : bool := ready p && negb (bool_decide (received r (pfd p) = None)).

(** Every message the round receives has an identifier in range. *)
Definition round_ok (r : round) : Prop :=
  forall fd msg, received r fd = Some msg -> 0 <= id (token msg) < 2 ^ 32.

(** What is left of the clients [rest] after the loop has passed them. *)
Record served (r : round) (s s' : server) (pre rest : list pollfd) : Prop := {
  sv_reach : rtc dstep (sd s) (sd s');
  sv_inv : cap_inv (sd s');
  sv_clients : live (nfds s') (pfds s') ≡ₚ pre ++ filter (fun p => negb (dropped r p)) rest;
  sv_closed : closed s' ≡ₚ closed s ++ (pfd <$> filter (fun p => dropped r p) rest);
  sv_sent : (sent s').*1 ≡ₚ (sent s).*1 ++ (pfd <$> filter (fun p => answered r p) rest);
  sv_range : length (pfds s') = length (pfds s) /\ 0 <= nfds s' <= nfds s;
  sv_next : next_token_id (sd s') <= next_token_id (sd s) + Z.of_nat (length rest);
}.

(** A message moves the daemon by one step and hands out at most one identifier. *)
Lemma handle_step now req d :
  cap_inv d -> 0 <= id (token req) < 2 ^ 32 -> next_token_id d < 2 ^ 31 - 1 ->
  exists resp d', handle_message now req d = Some (resp, d') /\ cap_inv d' /\ dstep d d' /\
    next_token_id d' <= next_token_id d + 1.
Proof.
  intros Hinv Hid Hn. destruct (handle_message_spec now req d Hinv Hid Hn) as (resp & d' & Hm & Hi & Hs).
  exists resp, d'. split_and!; [done|done|by eapply dstep_message|].
  change (fresh_id (abs d') <= fresh_id (abs d) + 1).
  change (abs d') with ((resp, abs d').2). rewrite <-Hs. unfold spec_handle. cbv zeta.
  repeat case_match; cbn [snd fresh_id]; lia.
Qed.

Lemma client_loop_served (n : nat) (r : round) (pre rest : list pollfd) (s : server) :
  round_ok r -> live (nfds s) (pfds s) = pre ++ rest -> length rest = n ->
  0 <= nfds s <= Z.of_nat (length (pfds s)) ->
  cap_inv (sd s) -> next_token_id (sd s) + Z.of_nat n < 2 ^ 31 ->
  exists s', client_loop n (Z.of_nat (length pre)) r s = Some s' /\ served r s s' pre rest.
Proof.
  intros Hok. revert pre rest s.
  induction n as [|n IH]; intros pre rest s Hl Hn Hr Hinv Hnext.
  { destruct rest; [|done]. exists s. split; [done|].
    split; try done; simpl; rewrite ?Hl, ?app_nil_r; done || (split; done || lia) || lia. }
  destruct rest as [|p rest]; [done|]. injection Hn as Hn. cbn [client_loop].
  assert ((pfds s).[Z.of_nat (length pre)] = p) as Hp.
  { rewrite aget_nat. apply list_lookup_total_correct. unfold live in Hl.
    rewrite <-(lookup_take_lt _ (Z.to_nat (nfds s))).
    - rewrite Hl. by apply list_lookup_middle.
    - assert (length (take (Z.to_nat (nfds s)) (pfds s)) = length (pre ++ p :: rest)) as E by (by rewrite Hl).
      rewrite length_take, length_app in E. simpl in E. lia. }
  rewrite Hp. fold (ready p). destruct (ready p) eqn:Erdy; [destruct (received r (pfd p)) as [msg|] eqn:Erecv|].
  - destruct (handle_step (clock r) msg (sd s) Hinv) as (resp & d' & -> & Hi' & Hstep & Hnx);
      [by eapply Hok|lia|]. cbn [mbind option_bind].
    destruct (IH (pre ++ [p]) rest (mk_server d' (pfds s) (nfds s) (closed s) (sent s ++ [(pfd p, resp)])))
      as (s' & Hc & Hs); [by rewrite <-app_assoc|done|done|done|simpl; lia|].
    rewrite length_app in Hc. cbn [length] in Hc.
    replace (Z.of_nat (length pre) + 1) with (Z.of_nat (length pre + 1)) by lia.
    exists s'. split; [done|]. destruct Hs as [H1 H2 H3 H4 H5 H6 H7]. simpl in H1, H4, H5, H6, H7.
    assert (dropped r p = false) as Hd by (unfold dropped; by rewrite Erdy, Erecv).
    assert (answered r p = true) as Ha by (unfold answered; by rewrite Erdy, Erecv).
    split; [by eapply rtc_l|done| | | |done|simpl; lia].
    + rewrite H3, filter_cons, Hd, decide_True by done. by rewrite <-app_assoc.
    + rewrite H4, filter_cons, Hd, decide_False by (by intros []). done.
    + rewrite H5, filter_cons, Ha, decide_True by done. rewrite fmap_app, fmap_cons. simpl.
      by rewrite <-app_assoc.
  - destruct (live_remove (nfds s) (pfds s) pre p rest Hr Hl) as (rest' & Hl' & Hperm).
    destruct (IH pre rest' (mk_server (sd s) ((pfds s).[Z.of_nat (length pre) <- (pfds s).[nfds s - 1]])
      (nfds s - 1) (closed s ++ [pfd p]) (sent s))) as (s' & Hc & Hs).
    + done.
    + by rewrite Hperm.
    + simpl. rewrite length_aset.
      assert (length (live (nfds s) (pfds s)) = length (pre ++ p :: rest)) as E by (by rewrite Hl).
      unfold live in E. rewrite length_take, length_app in E. simpl in E. lia.
    + done.
    + simpl. lia.
    + exists s'. split; [done|]. destruct Hs as [H1 H2 H3 H4 H5 H6 H7]. simpl in H1, H4, H5, H6, H7.
      assert (dropped r p = true) as Hd by (unfold dropped; by rewrite Erdy, Erecv).
      assert (answered r p = false) as Ha by (unfold answered; by rewrite Erdy, Erecv).
      split; [done|done| | | |rewrite length_aset in H6; destruct H6; split; [done|lia]|].
      * rewrite H3, filter_cons, Hd, decide_False by (by intros []). by rewrite Hperm.
      * rewrite H4, filter_cons, Hd, decide_True, fmap_cons by done. rewrite Hperm. by rewrite <-app_assoc.
      * rewrite H5, filter_cons, Ha, decide_False by (by intros []). by rewrite Hperm.
      * rewrite Hperm in H7. simpl. lia.
  - destruct (IH (pre ++ [p]) rest s) as (s' & Hc & Hs); [by rewrite <-app_assoc|done|done|done|lia|].
    rewrite length_app in Hc. cbn [length] in Hc.
    replace (Z.of_nat (length pre) + 1) with (Z.of_nat (length pre + 1)) by lia.
    exists s'. split; [done|]. destruct Hs as [H1 H2 H3 H4 H5 H6 H7].
    assert (dropped r p = false) as Hd by (unfold dropped; by rewrite Erdy).
    assert (answered r p = false) as Ha by (unfold answered; by rewrite Erdy).
    split; [done|done| | | |done|simpl; lia].
    + rewrite H3, filter_cons, Hd, decide_True by done. by rewrite <-app_assoc.
    + rewrite H4, filter_cons, Hd, decide_False by (by intros []). done.
    + rewrite H5, filter_cons, Ha, decide_False by (by intros []). done.
Qed.

(** ** Rounds *)

Lemma set_revents_length r s : length (pfds (set_revents r s)) = length (pfds s).
Proof. apply length_imap. Qed.

(** The accepted client, with what its entry held, if there is one. *)
Lemma accept_client_spec r s :
  length (pfds s) = 64%nat -> 1 <= nfds s <= 64 -> cap_inv (sd s) ->
  let s' := accept_client r s in
  rtc dstep (sd s) (sd s') /\ cap_inv (sd s') /\ next_token_id (sd s') = next_token_id (sd s) /\
  length (pfds s') = 64%nat /\ nfds s <= nfds s' <= 64 /\ closed s' = closed s /\ sent s' = sent s /\
  live (nfds s) (pfds s') = live (nfds s) (pfds s).
Proof.
  intros Hl Hn Hinv. cbv zeta. unfold accept_client.
  destruct (truthy _); [|split_and!; done || lia].
  destruct ((0 <=? accepted r) && (nfds s <? 64)) eqn:E; [|split_and!; done || lia].
  apply andb_true_iff in E as [_ E%Z.ltb_lt]. cbn [sd pfds nfds closed sent].
  assert (forall x, live (nfds s) ((pfds s).[nfds s <- x]) = live (nfds s) (pfds s)) as Hlive.
  { intros x. unfold live, aset. by rewrite take_insert_ge by lia. }
  destruct (peercred r) as [pid|].
  - destruct (policy_register_inv pid (sd s) Hinv) as (Hi & _ & Hf & _).
    split_and!; [apply rtc_once, dstep_connect|done|exact Hf|by rewrite length_aset|lia|lia|done|done|done].
  - split_and!; [done|done|done|by rewrite length_aset|lia|lia|done|done|done].
Qed.

Lemma client_loop_all r s :
  round_ok r -> length (pfds s) = 64%nat -> 1 <= nfds s <= 64 -> cap_inv (sd s) ->
  next_token_id (sd s) + 64 < 2 ^ 31 ->
  exists s', client_loop (Z.to_nat (nfds s - 1)) 1 r s = Some s' /\
    served r s s' (take 1 (pfds s)) (drop 1 (live (nfds s) (pfds s))).
Proof.
  intros Hok Hl Hn Hinv Hnext.
  assert (live (nfds s) (pfds s) = take 1 (pfds s) ++ drop 1 (live (nfds s) (pfds s))) as Hsplit.
  { rewrite <-(take_drop 1 (live (nfds s) (pfds s))) at 1. unfold live at 1. f_equal.
    rewrite take_take. f_equal. lia. }
  assert (length (drop 1 (live (nfds s) (pfds s))) = Z.to_nat (nfds s - 1)) as Hlen.
  { unfold live. rewrite length_drop, length_take, Hl. lia. }
  assert (Z.of_nat (length (take 1 (pfds s))) = 1) as Hone by (rewrite length_take, Hl; lia).
  destruct (client_loop_served (Z.to_nat (nfds s - 1)) r (take 1 (pfds s))
    (drop 1 (live (nfds s) (pfds s))) s) as (s' & Hc & Hs); [done|done|done|lia|done|lia|].
  rewrite Hone in Hc. by exists s'.
Qed.

(** A round of the daemon's poll loop ends, and serves every client once:
    after accepting a connection, each ready client whose receive gives a
    message is answered exactly once, each one that hung up is closed and
    removed, all the others stay, and the daemon only moves by connections and
    handled messages. *)
Theorem serve_round (r : round) (s : server)
    (Hok : round_ok r) (Hlen : length (pfds s) = 64%nat) (Hn : 1 <= nfds s <= 64)
    (Hinv : cap_inv (sd s)) (Hnext : next_token_id (sd s) + 64 < 2 ^ 31) :
  let s1 := accept_client r (set_revents r s) in
  let clients := drop 1 (live (nfds s1) (pfds s1)) in
  exists s', serve r s = Some s' /\ cap_inv (sd s') /\ rtc dstep (sd s) (sd s') /\
    live (nfds s') (pfds s') ≡ₚ take 1 (pfds s1) ++ filter (fun p => negb (dropped r p)) clients /\
    closed s' ≡ₚ closed s ++ (pfd <$> filter (fun p => dropped r p) clients) /\
    (sent s').*1 ≡ₚ (sent s).*1 ++ (pfd <$> filter (fun p => answered r p) clients) /\
    length (pfds s') = 64%nat.
Proof.
  intros s1 clients.
  destruct (accept_client_spec r (set_revents r s)) as (Hr1 & Hi1 & Hnx & Hl1 & Hn1 & Hc1 & Hs1 & _);
    [by rewrite set_revents_length|done|done|]. fold s1 in Hr1, Hi1, Hnx, Hl1, Hn1, Hc1, Hs1.
  destruct (client_loop_all r s1) as (s' & Hc & [H1 H2 H3 H4 H5 [H6 _] _]);
    [done|done|simpl in Hn1; lia|done|rewrite Hnx; exact Hnext|].
  exists s'. rewrite Hc1 in H4. rewrite Hs1 in H5.
  split_and!; [done|done|by etrans|done|done|done|by rewrite H6].
Qed.

(** ** Divergences *)

(** Any process may revoke any token: the owner is not checked. *)
Lemma revoke_needs_no_owner now req d k :
  cap_inv d -> 0 <= id (token req) < 2 ^ 32 -> next_token_id d < 2 ^ 31 - 1 ->
  msg_type req = OMNIOS_CAP_MSG_REVOKE -> tokens (abs d) !! id (token req) = Some k ->
  exists d', handle_message now req d = Some (grant req zero_token 0, d') /\
    tokens (abs d') !! id (token req) = None.
Proof.
  intros Hinv Hid Hn Ht Hk. destruct (handle_message_spec now req d Hinv Hid Hn) as (resp & d' & Hm & _ & Hs).
  unfold spec_handle in Hs. rewrite Ht in Hs. simpl in Hs. simpl in Hk. rewrite Hk in Hs.
  injection Hs as <- Habs _ _. exists d'. split; [done|]. simpl. rewrite <-Habs. by rewrite lookup_delete_eq.
Qed.

(** The rights waydroid_binder.c asks for are refused to every process but 1. *)
Lemma binder_rights_refused now req d :
  cap_inv d -> 0 <= id (token req) < 2 ^ 32 -> next_token_id d < 2 ^ 31 - 1 ->
  msg_type req = OMNIOS_CAP_MSG_REQUEST -> sender_pid req <> 1 ->
  rights (token req) = Z.lor OMNIOS_CAP_IPC_SEND OMNIOS_CAP_IPC_RECV ->
  exists resp d', handle_message now req d = Some (resp, d') /\ msg_type resp = OMNIOS_CAP_MSG_DENY.
Proof.
  intros Hinv Hid Hn Ht Hpid Hr.
  destruct (handle_message_spec now req d Hinv Hid Hn) as (resp & d' & Hm & _ & Hs).
  exists resp, d'. split; [done|]. change resp with ((resp, abs d').1). rewrite <-Hs.
  unfold spec_handle. rewrite Ht, Hr. simpl. unfold rights_of, hint_of.
  rewrite (proj2 (Z.eqb_neq (sender_pid req) 1)) by done.
  destruct (bool_decide _); [|done]. destruct (_ <? 64); [|done].
  by destruct (sender_pid req =? 2).
Qed.

(** ** Witnesses *)

Definition request_msg : omnios_cap_msg_t :=
  mk_msg OMNIOS_CAP_MSG_REQUEST 1 1 (mk_token 0 3 (mk_bounds 0 0) 0 0 [116; 0]) 0 NoError.

Definition daemon1 : daemon :=
  match handle_message 5 request_msg daemon_start with Some (_, d) => d | None => daemon_start end.

Lemma handle_message_refines_witness :
  exists resp d', handle_message 5 request_msg daemon_start = Some (resp, d') /\
    spec_handle 5 request_msg (abs daemon_start) = (resp, abs d').
Proof.
  destruct (handle_message_refines 5 request_msg daemon_start) as (resp & d' & H1 & _ & H2).
  - apply daemon_start_inv.
  - simpl. lia.
  - by vm_compute.
  - exists resp, d'. split; [exact H1|exact H2].
Defined.

Lemma daemon1_reachable : reachable daemon1.
Proof.
  apply rtc_once. destruct (handle_message 5 request_msg daemon_start) as [[resp d']|] eqn:E.
  - apply (dstep_message 5 request_msg resp).
    + simpl. lia.
    + by vm_compute.
    + unfold daemon1. by rewrite E.
  - exfalso. by vm_compute in E.
Qed.

Lemma tokens_within_presets_witness :
  exists t, t ∈ live (ntokens daemon1) (token_store daemon1) /\ Z.testbit (rights_of (owner_pid t)) 1 = true.
Proof.
  exists (token_store daemon1).[0].
  assert ((token_store daemon1).[0] ∈ live (ntokens daemon1) (token_store daemon1)) as Hin.
  { apply list_elem_of_lookup. exists 0%nat. by vm_compute. }
  split; [exact Hin|].
  apply (tokens_within_presets daemon1 (token_store daemon1).[0] 1 daemon1_reachable Hin).
  by vm_compute.
Defined.

(** A round with one client that sends a request and one that hangs up. *)
Definition round0 : round :=
  mk_round (fun fd => if fd =? 3 then 0 else 1) (-1) None
    (fun fd => if fd =? 4 then Some request_msg else None) 5.
Definition server0 : server :=
  mk_server daemon_start
    (mk_pollfd 3 0 :: mk_pollfd 5 0 :: mk_pollfd 4 0 :: replicate 61 (mk_pollfd 0 0)) 3 [] [].

Lemma serve_round_witness :
  exists s', serve round0 server0 = Some s' /\ closed s' ≡ₚ [5] /\ (sent s').*1 ≡ₚ [4].
Proof.
  destruct (serve_round round0 server0) as (s' & H1 & _ & _ & _ & H2 & H3 & _).
  - intros fd msg. unfold round0. simpl. destruct (fd =? 4); [|done]. intros [= <-]. simpl. lia.
  - done.
  - simpl. lia.
  - apply daemon_start_inv.
  - by vm_compute.
  - exists s'. split; [exact H1|]. split; [exact H2|exact H3].
Defined.

End CapDaemon.
