(* ===== verification/CapClient.v ===== *)
(** * Capability client library (userspace/security/capability_client.c)

    The calls of the client library over a connected socket.  The socket is an
    interface, [CapService]: what is sent and received, and the promise that a
    request is answered as the service's specification says.  The daemon's
    model discharges the promise, and the round trip of a token is proved
    against the interface. *)

From stdpp Require Import base numbers list option tactics strings gmap.
From S2P Require Import Prelude DenseTable CapProtocol CapDaemon.

Module CapClient.
Import CapProtocol CapDaemon.

Record omnios_cap_ctx := mk_ctx { cfd : Z; cseq : Z }.

(** The named entries of [error_table], whose largest index is ETIME. *)
Definition error_table (e : Z) : option string :=
  if e =? 0 then Some "success"%string
  else if e =? EPERM then Some "permission denied"%string
  else if e =? ENOENT then Some "token not found"%string
  else if e =? ENOSPC then Some "token store full"%string
  else if e =? ETIME then Some "token expired"%string
  else if e =? EACCES then Some "access denied by policy"%string
  else None.

(** [strerror] is the system's. *)
Definition omnios_cap_strerror (strerror : Z -> string) (err : Z) : string :=
  let err := - err in
  if (0 <=? err) && (err <? ETIME + 1) then
    match error_table err with Some s => s | None => strerror err end
  else strerror err.

(** The result of [recv]: a message, the end of the stream, or an error. *)
Inductive recv_result :=
| RecvMsg (m : omnios_cap_msg_t)
| RecvEnd
| RecvError (errno : Z).

(** The service at the other end of a socket. *)
Class CapService (S : Type) := {
  cs_send : omnios_cap_msg_t -> S -> option Z * S;  (* errno when it fails *)
  cs_recv : S -> recv_result * S;
  cs_ok : S -> Prop;
  cs_abs : S -> spec;
  cs_now : S -> Z;                                  (* when the next request is handled *)
  cs_exchange m s :
    cs_ok s -> 0 <= id (token m) < 2 ^ 32 -> fresh_id (cs_abs s) < 2 ^ 31 - 1 ->
    exists s1 s2 resp,
      cs_send m s = (None, s1) /\ cs_recv s1 = (RecvMsg resp, s2) /\ cs_ok s2 /\
      spec_handle (cs_now s) m (cs_abs s) = (resp, cs_abs s2);
}.

Section client.
Context {S : Type} `{!CapService S}.
Variable getpid : Z.
Implicit Types (ctx : omnios_cap_ctx) (msg : omnios_cap_msg_t) (s : S).

(** The return value, the context, the message and the service. *)
Definition send_recv ctx msg s : Z * omnios_cap_ctx * omnios_cap_msg_t * S :=
  let msg := mk_msg (msg_type msg) (cseq ctx) getpid (token msg) (token_count msg) (error msg) in
  let ctx := mk_ctx (cfd ctx) (u32 (cseq ctx + 1)) in
  match cs_send msg s with
  | (Some e, s1) => (- e, ctx, msg, s1)
  | (None, s1) =>
      match cs_recv s1 with
      | (RecvEnd, s2) => (- ECONNRESET, ctx, msg, s2)
      | (RecvError e, s2) => (- e, ctx, msg, s2)
      | (RecvMsg resp, s2) =>
          if msg_type resp =? OMNIOS_CAP_MSG_DENY then (- EACCES, ctx, msg, s2)
          else (0, ctx, resp, s2)
      end
  end.

Definition with_token (t : omnios_cap_token_t) (type : Z) : omnios_cap_msg_t :=
  mk_msg type 0 0 t 0 NoError.

Definition unnamed : list Z := [117; 110; 110; 97; 109; 101; 100; 0].

(** [lbl] is [None] for NULL. *)
Definition omnios_cap_request ctx (rts : Z) (lbl : option (list Z)) s : Z * omnios_cap_ctx * S :=
  let t := mk_token 0 rts (mk_bounds 0 0) 0 0
             (strncpy (label zero_token) (default unnamed lbl) (OMNIOS_CAP_LABEL_LEN - 1)) in
  let '(ret, ctx1, msg, s1) := send_recv ctx (with_token t OMNIOS_CAP_MSG_REQUEST) s in
  if ret <? 0 then (ret, ctx1, s1) else (s32 (id (token msg)), ctx1, s1).

Definition token_of_id (tid : Z) : omnios_cap_token_t :=
  mk_token (u32 tid) 0 (mk_bounds 0 0) 0 0 (label zero_token).

Definition omnios_cap_revoke ctx (tid : Z) s : Z * omnios_cap_ctx * S :=
  let '(ret, ctx1, _, s1) := send_recv ctx (with_token (token_of_id tid) OMNIOS_CAP_MSG_REVOKE) s in
  (ret, ctx1, s1).

(** [out] is the token stored through a non-NULL pointer on success. *)
Definition omnios_cap_verify ctx (tid : Z) s : Z * option omnios_cap_token_t * omnios_cap_ctx * S :=
  let '(ret, ctx1, msg, s1) := send_recv ctx (with_token (token_of_id tid) OMNIOS_CAP_MSG_VERIFY) s in
  if ret <? 0 then (ret, None, ctx1, s1) else (0, Some (token msg), ctx1, s1).

Definition omnios_cap_list ctx s : Z * option Z * omnios_cap_ctx * S :=
  let '(ret, ctx1, msg, s1) := send_recv ctx (with_token zero_token OMNIOS_CAP_MSG_LIST) s in
  if ret <? 0 then (ret, None, ctx1, s1) else (0, Some (token_count msg), ctx1, s1).

(** A program that verifies a token [n] times: when each request was handled, and
    what it got. *)
Fixpoint verify_times (n : nat) ctx (tid : Z) s :
    list (Z * (Z * option omnios_cap_token_t)) * omnios_cap_ctx * S :=
  match n with
  | O => ([], ctx, s)
  | Datatypes.S n' =>
      let '(ret, out, ctx1, s1) := omnios_cap_verify ctx tid s in
      let '(results, ctx2, s2) := verify_times n' ctx1 tid s1 in
      ((cs_now s, (ret, out)) :: results, ctx2, s2)
  end.

(** ** Calls against the specification *)

(** The message the service sees. *)
Definition stamped ctx msg : omnios_cap_msg_t :=
  mk_msg (msg_type msg) (cseq ctx) getpid (token msg) (token_count msg) (error msg).

Lemma send_recv_spec ctx msg s :
  cs_ok s -> 0 <= id (token msg) < 2 ^ 32 -> fresh_id (cs_abs s) < 2 ^ 31 - 1 ->
  exists resp s2, cs_ok s2 /\
    spec_handle (cs_now s) (stamped ctx msg) (cs_abs s) = (resp, cs_abs s2) /\
    send_recv ctx msg s =
      (if msg_type resp =? OMNIOS_CAP_MSG_DENY then - EACCES else 0, mk_ctx (cfd ctx) (u32 (cseq ctx + 1)),
       if msg_type resp =? OMNIOS_CAP_MSG_DENY then stamped ctx msg else resp, s2).
Proof.
  intros Hok Hid Hf. destruct (cs_exchange (stamped ctx msg) s Hok Hid Hf) as (s1 & s2 & resp & H1 & H2 & H3 & H4).
  exists resp, s2. split_and!; [done|done|]. unfold send_recv. fold (stamped ctx msg). rewrite H1, H2.
  by destruct (msg_type resp =? OMNIOS_CAP_MSG_DENY).
Qed.

(** A request within the preset of a registered process, with room. *)
Lemma request_granted ctx rts lbl s :
  cs_ok s -> 0 < fresh_id (cs_abs s) < 2 ^ 31 - 1 -> getpid ∈ registered (cs_abs s) ->
  Z.of_nat (size (tokens (cs_abs s))) < 64 -> Z.land (rights_of getpid) rts = rts ->
  exists ctx' s',
    omnios_cap_request ctx rts lbl s = (fresh_id (cs_abs s), ctx', s') /\ cs_ok s' /\
    cs_abs s' = mk_spec
      (<[fresh_id (cs_abs s) :=
           mk_token (fresh_id (cs_abs s)) rts (mk_bounds 0 0) (u64 (cs_now s + 3600 * 1000000000)) getpid
             (fixed_label (default unnamed lbl))]> (tokens (cs_abs s)))
      (registered (cs_abs s)) (fresh_id (cs_abs s) + 1).
Proof.
  intros Hok Hf Hreg Hsize Hsub. unfold omnios_cap_request. set (t := mk_token _ _ _ _ _ _).
  destruct (send_recv_spec ctx (with_token t OMNIOS_CAP_MSG_REQUEST) s Hok) as (resp & s2 & Hok2 & Hs & ->);
    [simpl; lia|lia|].
  unfold spec_handle in Hs. simpl in Hs. rewrite bool_decide_true in Hs by done.
  rewrite (proj2 (Z.ltb_lt _ _)) in Hs by done. rewrite Hsub, Z.eqb_refl in Hs.
  injection Hs as <- Habs. cbn [msg_type grant]. simpl.
  eexists _, s2. split_and!; [|done|].
  - do 2 f_equal. apply swrap_small; [done|]. change (2 ^ (32 - 1)) with (2 ^ 31). lia.
  - rewrite <-Habs. unfold t. cbn [label]. by rewrite strncpy_label, fixed_label_idem.
Qed.

(** A verification by the owner gives the token until it expires. *)
Lemma verify_owner ctx tid k s :
  cs_ok s -> 0 <= tid < 2 ^ 31 -> fresh_id (cs_abs s) < 2 ^ 31 - 1 ->
  tokens (cs_abs s) !! tid = Some k -> owner_pid k = getpid ->
  exists ctx' s',
    omnios_cap_verify ctx tid s =
      ((if cs_now s <=? expiry_ns k then 0 else - EACCES), (if cs_now s <=? expiry_ns k then Some k else None), ctx', s') /\
    cs_ok s' /\ cs_abs s' = cs_abs s.
Proof.
  intros Hok Hid Hf Hk Howner. unfold omnios_cap_verify.
  destruct (send_recv_spec ctx (with_token (token_of_id tid) OMNIOS_CAP_MSG_VERIFY) s Hok)
    as (resp & s2 & Hok2 & Hs & ->); [simpl; by apply wrap_range|lia|].
  unfold spec_handle in Hs. simpl in Hs. rewrite (wrap_small 32), Hk in Hs by lia.
  rewrite Howner, Z.eqb_refl in Hs. destruct (cs_now s <=? expiry_ns k); injection Hs as <- Habs;
    eexists _, s2; (split_and!; [done|done|done]).
Qed.

(** A verification of a token that is not there, whoever asks. *)
Lemma verify_missing ctx tid s :
  cs_ok s -> 0 <= tid < 2 ^ 31 -> fresh_id (cs_abs s) < 2 ^ 31 - 1 -> tokens (cs_abs s) !! tid = None ->
  exists ctx' s', omnios_cap_verify ctx tid s = (- EACCES, None, ctx', s') /\ cs_ok s' /\ cs_abs s' = cs_abs s.
Proof.
  intros Hok Hid Hf Hk. unfold omnios_cap_verify.
  destruct (send_recv_spec ctx (with_token (token_of_id tid) OMNIOS_CAP_MSG_VERIFY) s Hok)
    as (resp & s2 & Hok2 & Hs & ->); [simpl; by apply wrap_range|lia|].
  unfold spec_handle in Hs. simpl in Hs. rewrite (wrap_small 32), Hk in Hs by lia. injection Hs as <- Habs.
  eexists _, s2. split_and!; done.
Qed.

Lemma revoke_present ctx tid k s :
  cs_ok s -> 0 <= tid < 2 ^ 31 -> fresh_id (cs_abs s) < 2 ^ 31 - 1 -> tokens (cs_abs s) !! tid = Some k ->
  exists ctx' s', omnios_cap_revoke ctx tid s = (0, ctx', s') /\ cs_ok s' /\
    cs_abs s' = mk_spec (delete tid (tokens (cs_abs s))) (registered (cs_abs s)) (fresh_id (cs_abs s)).
Proof.
  intros Hok Hid Hf Hk. unfold omnios_cap_revoke.
  destruct (send_recv_spec ctx (with_token (token_of_id tid) OMNIOS_CAP_MSG_REVOKE) s Hok)
    as (resp & s2 & Hok2 & Hs & ->); [simpl; by apply wrap_range|lia|].
  unfold spec_handle in Hs. simpl in Hs. rewrite (wrap_small 32), Hk in Hs by lia. injection Hs as <- Habs.
  eexists _, s2. split_and!; [done|done|done].
Qed.

(** Any number of verifications, of a token that is there and of one that is not. *)
Lemma verify_times_owner n tid k : forall ctx s,
  cs_ok s -> 0 <= tid < 2 ^ 31 -> fresh_id (cs_abs s) < 2 ^ 31 - 1 ->
  tokens (cs_abs s) !! tid = Some k -> owner_pid k = getpid ->
  exists results ctx' s',
    verify_times n ctx tid s = (results, ctx', s') /\ length results = n /\ cs_ok s' /\ cs_abs s' = cs_abs s /\
    Forall (fun '(now, r) => r = if now <=? expiry_ns k then (0, Some k) else (- EACCES, None)) results.
Proof.
  induction n as [|n IH]; intros ctx s Hok Hid Hf Hk Howner; [by eexists [], ctx, s|].
  destruct (verify_owner ctx tid k s Hok Hid Hf Hk Howner) as (ctx1 & s1 & Hv & Hok1 & Ha1). rewrite <-Ha1 in Hf, Hk.
  destruct (IH ctx1 s1 Hok1 Hid Hf Hk Howner) as (results & ctx2 & s2 & Hr & Hlen & Hok2 & Ha2 & Hall).
  cbn [verify_times]. rewrite Hv, Hr. eexists _, ctx2, s2. split_and!; [done|simpl; by rewrite Hlen|done|by rewrite Ha2|].
  constructor; [|done]. by destruct (cs_now s <=? expiry_ns k).
Qed.

Lemma verify_times_missing n tid : forall ctx s,
  cs_ok s -> 0 <= tid < 2 ^ 31 -> fresh_id (cs_abs s) < 2 ^ 31 - 1 -> tokens (cs_abs s) !! tid = None ->
  exists results ctx' s',
    verify_times n ctx tid s = (results, ctx', s') /\ length results = n /\
    Forall (fun '(now, r) => r = (- EACCES, None)) results.
Proof.
  induction n as [|n IH]; intros ctx s Hok Hid Hf Hk; [by eexists [], ctx, s|].
  destruct (verify_missing ctx tid s Hok Hid Hf Hk) as (ctx1 & s1 & Hv & Hok1 & Ha1). rewrite <-Ha1 in Hf, Hk.
  destruct (IH ctx1 s1 Hok1 Hid Hf Hk) as (results & ctx2 & s2 & Hr & Hlen & Hall).
  cbn [verify_times]. rewrite Hv, Hr. eexists _, ctx2, s2. split_and!; [done|simpl; by rewrite Hlen|by constructor].
Qed.

(** ** Properties *)

(** C34: The life of a token through the client library, over any service
    that keeps its promise.  A request within the preset of a registered process
    returns a positive identifier, and the token expires an hour after the request
    was handled.  Verified any number of times, it is given back with the rights
    and the label asked for each time up to its expiry, and refused each time after
    it.  Revoking it succeeds, expired or not, and every verification after that is
    refused. *)
Theorem token_life_cycle (ctx : omnios_cap_ctx) (rts : Z) (lbl : list Z) (s : S)
    (Hok : cs_ok s) (Hfresh : 0 < fresh_id (cs_abs s) < 2 ^ 31 - 2)
    (Hreg : getpid ∈ registered (cs_abs s)) (Hroom : Z.of_nat (size (tokens (cs_abs s))) < 64)
    (Hrights : Z.land (rights_of getpid) rts = rts) :
  exists tid t ctx1 s1,
    omnios_cap_request ctx rts (Some lbl) s = (tid, ctx1, s1) /\ 0 < tid /\
    id t = tid /\ rights t = rts /\ owner_pid t = getpid /\ cstr (label t) = take 63 (cstr lbl) /\
    expiry_ns t = u64 (cs_now s + 3600 * 1000000000) /\
    forall n, exists before ctx2 s2 ctx3 s3,
      verify_times n ctx1 tid s1 = (before, ctx2, s2) /\ length before = n /\
      Forall (fun '(now, r) => r = if now <=? expiry_ns t then (0, Some t) else (- EACCES, None)) before /\
      omnios_cap_revoke ctx2 tid s2 = (0, ctx3, s3) /\
      forall n', exists after ctx4 s4,
        verify_times n' ctx3 tid s3 = (after, ctx4, s4) /\ length after = n' /\
        Forall (fun '(now, r) => r = (- EACCES, None)) after.
Proof.
  destruct (request_granted ctx rts (Some lbl) s Hok ltac:(lia) Hreg Hroom Hrights)
    as (ctx1 & s1 & Hr & Hok1 & Ha1).
  exists (fresh_id (cs_abs s)), (mk_token (fresh_id (cs_abs s)) rts (mk_bounds 0 0) (u64 (cs_now s + 3600 * 1000000000))
    getpid (fixed_label lbl)), ctx1, s1.
  split_and!; [exact Hr|lia|reflexivity|reflexivity|reflexivity|apply cstr_fixed_label|reflexivity|]. intros n.
  edestruct (verify_times_owner n (fresh_id (cs_abs s))) as (before & ctx2 & s2 & Hv & Hlen & Hok2 & Ha2 & Hall);
    [exact Hok1|lia|rewrite Ha1; simpl; lia|rewrite Ha1; apply lookup_insert_eq|done|].
  edestruct (revoke_present ctx2 (fresh_id (cs_abs s))) as (ctx3 & s3 & Hrv & Hok3 & Ha3);
    [exact Hok2|lia|rewrite Ha2, Ha1; simpl; lia|rewrite Ha2, Ha1; apply lookup_insert_eq|].
  exists before, ctx2, s2, ctx3, s3. split_and!; [exact Hv|exact Hlen|exact Hall|exact Hrv|]. intros n'.
  apply verify_times_missing; [exact Hok3|lia|rewrite Ha3, Ha2, Ha1; simpl; lia|rewrite Ha3; apply lookup_delete_eq].
Qed.

End client.

(** ** The daemon as a service *)

(** A daemon with one client connected: the responses waiting to be received,
    and the clock readings to come. *)
Record link := mk_link { ld : daemon; inbox : list omnios_cap_msg_t; times : list Z }.

Definition link_now (l : link) : Z := default 0 (head (times l)).

Definition link_send (m : omnios_cap_msg_t) (l : link) : option Z * link :=
  match handle_message (link_now l) m (ld l) with
  | Some (resp, d) => (None, mk_link d (inbox l ++ [resp]) (tail (times l)))
  | None => (Some ECONNRESET, l)
  end.

Definition link_recv (l : link) : recv_result * link :=
  match inbox l with
  | [] => (RecvEnd, l)
  | m :: q => (RecvMsg m, mk_link (ld l) q (times l))
  end.

Lemma link_exchange m l :
  (cap_inv (ld l) /\ inbox l = []) -> 0 <= id (token m) < 2 ^ 32 -> fresh_id (abs (ld l)) < 2 ^ 31 - 1 ->
  exists l1 l2 resp,
    link_send m l = (None, l1) /\ link_recv l1 = (RecvMsg resp, l2) /\
    (cap_inv (ld l2) /\ inbox l2 = []) /\
    spec_handle (link_now l) m (abs (ld l)) = (resp, abs (ld l2)).
Proof.
  intros [Hinv Hin] Hid Hf.
  destruct (handle_message_spec (link_now l) m (ld l) Hinv Hid Hf) as (resp & d' & Hm & Hi & Hs).
  eexists _, _, resp. unfold link_send. rewrite Hm, Hin. by split_and!.
Qed.

#[export] Instance daemon_service : CapService link := {|
  cs_send := link_send;
  cs_recv := link_recv;
  cs_ok l := cap_inv (ld l) /\ inbox l = [];
  cs_abs l := abs (ld l);
  cs_now := link_now;
  cs_exchange := link_exchange;
|}.

(** ** Witness *)

(** The clock when the request, two verifications, the revocation and one more
    verification are handled: the second verification comes after the expiry. *)
Definition link0 : link := mk_link daemon_start [] [5; 10; 4000 * 1000000000; 4001 * 1000000000; 4002 * 1000000000].

Lemma token_life_cycle_witness :
  exists tid t ctx1 s1 before ctx2 s2 ctx3 s3 after ctx4 s4,
    omnios_cap_request 1 (mk_ctx 4 1) 3 (Some [116; 0]) link0 = (tid, ctx1, s1) /\
    rights t = 3 /\ cstr (label t) = [116] /\ expiry_ns t = 3600000000005 /\
    verify_times 1 2 ctx1 tid s1 = (before, ctx2, s2) /\
    before = [(10, (0, Some t)); (4000 * 1000000000, (- EACCES, None))] /\
    omnios_cap_revoke 1 ctx2 tid s2 = (0, ctx3, s3) /\
    verify_times 1 1 ctx3 tid s3 = (after, ctx4, s4) /\ after.*2 = [(- EACCES, None)].
Proof.
  destruct (token_life_cycle 1 (mk_ctx 4 1) 3 [116; 0] link0)
    as (tid & t & ctx1 & s1 & Hr & _ & _ & Ht & _ & Hl & He & H).
  - split; [apply daemon_start_inv|reflexivity].
  - by vm_compute.
  - apply (ci_builtin _ daemon_start_inv).
  - by vm_compute.
  - by vm_compute.
  - destruct (H 2%nat) as (before & ctx2 & s2 & ctx3 & s3 & Hv & Hlen & Hall & Hrv & H').
    destruct (H' 1%nat) as (after & ctx4 & s4 & Hv' & Hlen' & Hall').
    change (u64 (cs_now link0 + 3600 * 1000000000)) with 3600000000005 in He.
    exists tid, t, ctx1, s1, before, ctx2, s2, ctx3, s3, after, ctx4, s4.
    split_and!; [exact Hr|exact Ht|exact Hl|exact He|exact Hv| |exact Hrv|exact Hv'|].
    + assert (before.*1 = [10; 4000 * 1000000000]) as E.
      { assert (before = (verify_times 1 2 ctx1 tid s1).1.1) as -> by by rewrite Hv. clear -Hr.
        vm_compute in Hr. injection Hr as <- <- <-. by vm_compute. }
      destruct before as [|[n1 r1] [|[n2 r2] [|]]]; try discriminate E. injection E as -> ->.
      apply Forall_cons in Hall as [H1 Hall]. apply Forall_cons in Hall as [H2 _]. rewrite He in H1, H2.
      by rewrite H1, H2.
    + destruct after as [|[n1 r1] [|]]; try discriminate Hlen'. apply Forall_cons in Hall' as [-> _]. done.
Defined.

End CapClient.
