(* ===== verification/Calls.v ===== *)
(** * Calls to libraries and to the operating system

    The programs of the user space are sequences of calls to code outside the
    repository (the C library, the graphics libraries, the system).  That code is
    a parameter, a type of worlds with the reply to each call; a run carries the
    world and the log of the calls with their replies, so that a theorem can say
    what a program asks for, and in which order, whatever the replies are. *)

From stdpp Require Import base numbers list option tactics.
From S2P Require Import Prelude.

Class Library (C W : Type) := { reply : C -> W -> Z * W }.

Record session (C W : Type) := mk_session {
  world : W;
  made : list (C * Z);
}.
Arguments mk_session {C W} _ _.
Arguments world {C W} _.
Arguments made {C W} _.

Definition prog (C W A : Type) : Type := session C W -> A * session C W.

#[export] Instance prog_ret C W : MRet (prog C W) := fun A a s => (a, s).
#[export] Instance prog_bind C W : MBind (prog C W) :=
  fun A B k m s => let '(a, s') := m s in k a s'.

Section calls.
Context {C W : Type} `{!Library C W}.

Definition call (c : C) : prog C W Z := fun s =>
  let '(r, w) := reply c (world s) in (r, mk_session w (made s ++ [(c, r)])).

(** A call whose reply is not used. *)
Definition invoke (c : C) : prog C W unit := fun s => (tt, (call c s).2).

(** [m] adds a log [t] and returns [a] with [P a t], whatever the replies. *)
Definition traces {A} (m : prog C W A) (P : A -> list (C * Z) -> Prop) : Prop :=
  forall s, exists t, made (m s).2 = made s ++ t /\ P (m s).1 t.

Lemma traces_ret {A} (a : A) (P : A -> list (C * Z) -> Prop) : P a [] -> traces (mret a) P.
Proof. intros H s. exists []. by rewrite app_nil_r. Qed.

Lemma traces_bind {A B} (m : prog C W A) (k : A -> prog C W B) P Q :
  traces m P -> (forall a t1, P a t1 -> traces (k a) (fun b t2 => Q b (t1 ++ t2))) -> traces (m ≫= k) Q.
Proof.
  intros Hm Hk s. unfold mbind, prog_bind. destruct (Hm s) as (t1 & E1 & H1).
  destruct (m s) as [a s1]. simpl in E1, H1. destruct (Hk a t1 H1 s1) as (t2 & E2 & H2).
  exists (t1 ++ t2). by rewrite E2, E1, app_assoc.
Qed.

Lemma traces_call (c : C) (P : Z -> list (C * Z) -> Prop) : (forall r, P r [(c, r)]) -> traces (call c) P.
Proof. intros H s. unfold call. destruct (reply c (world s)) as [r w]. by exists [(c, r)]. Qed.

Lemma traces_call_bind {B} (c : C) (k : Z -> prog C W B) Q :
  (forall r, traces (k r) (fun b t => Q b ((c, r) :: t))) -> traces (call c ≫= k) Q.
Proof.
  intros Hk. apply (traces_bind _ _ (fun r t => t = [(c, r)])); [by apply traces_call|].
  intros r t ->. apply Hk.
Qed.

Lemma traces_invoke_bind {B} (c : C) (k : unit -> prog C W B) Q :
  (forall r, traces (k tt) (fun b t => Q b ((c, r) :: t))) -> traces (invoke c ≫= k) Q.
Proof.
  intros Hk s. unfold mbind, prog_bind, invoke, call. destruct (reply c (world s)) as [r w]. simpl.
  destruct (Hk r (mk_session w (made s ++ [(c, r)]))) as (t & E & H). exists ((c, r) :: t).
  split; [|done]. rewrite E. simpl. by rewrite <-app_assoc.
Qed.

Lemma traces_invoke (c : C) (P : unit -> list (C * Z) -> Prop) : (forall r, P tt [(c, r)]) -> traces (invoke c) P.
Proof. intros H s. unfold invoke, call. destruct (reply c (world s)) as [r w]. by exists [(c, r)]. Qed.

Lemma traces_mono {A} (m : prog C W A) (P Q : A -> list (C * Z) -> Prop) :
  traces m P -> (forall a t, P a t -> Q a t) -> traces m Q.
Proof. intros Hm HPQ s. destruct (Hm s) as (t & E & H). exists t. split; [done|]. by apply HPQ. Qed.
End calls.

(** Follow a program call by call. *)
Ltac traces_step := first
  [ apply traces_ret
  | apply traces_call_bind; intros ?
  | apply traces_invoke_bind; intros ?
  | apply traces_call; intros ?
  | apply traces_invoke; intros ? ].

(** Replies from a list, 0 when it is used up, for concrete runs. *)
#[export] Instance scripted C : Library C (list Z) := {|
  reply _ w := (default 0 (head w), tail w);
|}.
