(* ===== verification/CapServer.v ===== *)
(** * The main function of the capability daemon

    Models [main] of userspace/security/capability_daemon.c: the socket, the poll
    loop with its signals and errors, and the shutdown.  A round of the loop is
    [CapDaemon.serve]; the system calls around it are calls of Calls.v. *)

From stdpp Require Import base numbers list option tactics gmap.
From S2P Require Import Prelude DenseTable CapProtocol CapDaemon Calls.
Import CapProtocol CapDaemon.

Module CapServer.

Inductive dcall := Signal | Unlink | Socket | Bind | Chmod | Listen | Close (fd : Z).

(** What a call of [poll] gives: a round, an interruption by a signal, or an
    error. *)
Inductive poll_result := PollRound (r : round) | PollInterrupted | PollFailed.

Inductive loop_end := Ended (s : server) | StillRunning | Undefined.

(** The new value of [running]. *)
Definition handle_signal (sig : Z) (running : bool) : bool := false.

(** Each test of the loop reads [running], cleared by [handle_signal]; after it
    comes the result of [poll].  [StillRunning] when the inputs are used up. *)
Fixpoint main_loop (inputs : list (bool * poll_result)) (s : server) : loop_end :=
  match inputs with
  | [] => StillRunning
  | (running, p) :: inputs' =>
      if negb running then Ended s else
      match p with
      | PollInterrupted => main_loop inputs' s
      | PollFailed => Ended s
      | PollRound r =>
          match serve r s with
          | Some s' => main_loop inputs' s'
          | None => Undefined
          end
      end
  end.

Section programs.
Context {W : Type} `{!Library dcall W}.
Abbreviation prog := (prog dcall W).

Fixpoint close_all (fds : list Z) : prog unit :=
  match fds with
  | [] => mret tt
  | fd :: fds' => invoke (Close fd);; close_all fds'
  end.

(** The exit status with the state of the daemon, if it got to the loop. *)
Inductive main_end := Exit (status : Z) (s : option server) | Runs | Wrong.

(** [stack] is what the array of descriptors happens to hold. *)
Definition main (stack : list pollfd) (inputs : list (bool * poll_result)) : prog main_end :=
  invoke Signal;;
  invoke Signal;;
  invoke Unlink;;
  listen_fd ← call Socket;
  if listen_fd <? 0 then mret (Exit 1 None) else
  r ← call Bind;
  if r <? 0 then invoke (Close listen_fd);; mret (Exit 1 None) else
  invoke Chmod;;
  r ← call Listen;
  if r <? 0 then invoke (Close listen_fd);; mret (Exit 1 None) else
  match main_loop inputs (server_start listen_fd stack) with
  | Ended s => close_all (pfd <$> live (nfds s) (pfds s));; invoke Unlink;; mret (Exit 0 (Some s))
  | StillRunning => mret Runs
  | Undefined => mret Wrong
  end.
End programs.

(** ** Descriptors *)

(** The connection [accept4] gives in a round. *)
Definition arrived (r : round) (s : server) : list Z :=
  if truthy (Z.land (revents (pfds (set_revents r s)).[0]) POLLIN) && (0 <=? accepted r) then [accepted r] else [].

(** Those taken into the table, and those given when it is full. *)
Definition taken (r : round) (s : server) : list Z := if nfds s <? 64 then arrived r s else [].
Definition turned_away (r : round) (s : server) : list Z := if nfds s <? 64 then [] else arrived r s.

(** What a round contributes, gathered over a run. *)
Fixpoint gather (f : round -> server -> list Z) (inputs : list (bool * poll_result)) (s : server) : list Z :=
  match inputs with
  | (true, PollInterrupted) :: inputs' => gather f inputs' s
  | (true, PollRound r) :: inputs' =>
      f r s ++ match serve r s with Some s' => gather f inputs' s' | None => [] end
  | _ => []
  end.

(** Every connection accepted, and those accepted with a full table. *)
Definition connections : list (bool * poll_result) -> server -> list Z := gather arrived.
Definition forgotten : list (bool * poll_result) -> server -> list Z := gather turned_away.

(** Descriptors closed during a run of the program. *)
Definition closes (t : list (dcall * Z)) : list Z :=
  omap (fun e => match e.1 with Close fd => Some fd | _ => None end) t.

(** What holds of the daemon between two rounds. *)
Record server_ok (budget : Z) (s : server) : Prop := {
  so_len : length (pfds s) = 64%nat;
  so_nfds : 1 <= nfds s <= 64;
  so_inv : cap_inv (sd s);
  so_next : next_token_id (sd s) + budget < 2 ^ 31;
}.

Lemma set_revents_fds r s : pfd <$> live (nfds s) (pfds (set_revents r s)) = pfd <$> live (nfds s) (pfds s).
Proof.
  unfold live, set_revents. cbn [pfds]. rewrite !fmap_take. f_equal.
  apply list_eq. intros i. rewrite !list_lookup_fmap, list_lookup_imap.
  destruct (pfds s !! i) as [p|]; [|done]. simpl. by destruct (_ <? _).
Qed.

Lemma live_snoc {A} n (l : list A) p :
  0 <= n < Z.of_nat (length l) -> live (n + 1) (<[Z.to_nat n := p]> l) = live n l ++ [p].
Proof.
  intros Hn. unfold live. replace (Z.to_nat (n + 1)) with (S (Z.to_nat n)) by lia.
  rewrite (take_S_r _ _ p) by (apply list_lookup_insert_eq; lia). by rewrite take_insert_ge by lia.
Qed.

Lemma accept_fds r s :
  length (pfds s) = 64%nat -> 1 <= nfds s <= 64 ->
  let s1 := accept_client r (set_revents r s) in
  pfd <$> live (nfds s1) (pfds s1) = (pfd <$> live (nfds s) (pfds s)) ++ taken r s.
Proof.
  intros Hl Hn. cbv zeta. unfold accept_client, taken, arrived. cbn [nfds set_revents].
  destruct (truthy _); cbn [andb]; [|by rewrite Tauto.if_same, app_nil_r, <-(set_revents_fds r s)].
  destruct (nfds s <? 64) eqn:E; [|by rewrite andb_false_r, app_nil_r, <-(set_revents_fds r s)].
  rewrite andb_true_r. destruct (0 <=? accepted r); [|by rewrite app_nil_r, <-(set_revents_fds r s)].
  apply Z.ltb_lt in E. cbn [nfds pfds set_revents] in *.
  unfold aset. rewrite live_snoc by (rewrite length_imap, Hl; lia).
  rewrite fmap_app. f_equal. apply (set_revents_fds r s).
Qed.

(** A round keeps count of the descriptors: what it takes in is in the table or
    closed. *)
Lemma serve_fds r s budget :
  round_ok r -> server_ok (64 + budget) s -> 0 <= budget ->
  exists s', serve r s = Some s' /\ server_ok budget s' /\
    (pfd <$> live (nfds s') (pfds s')) ++ closed s' ≡ₚ (pfd <$> live (nfds s) (pfds s)) ++ closed s ++ taken r s /\
    (length (closed s) <= length (closed s'))%nat.
Proof.
  intros Hok [Hl Hn Hinv Hnext] Hb. pose proof (accept_fds r s Hl Hn) as Hfds. cbv zeta in Hfds.
  destruct (accept_client_spec r (set_revents r s)) as (_ & Hi1 & Hnx & Hl1 & Hn1 & Hc1 & _);
    [by rewrite set_revents_length|done|done|].
  set (s1 := accept_client r (set_revents r s)) in *. cbn [nfds set_revents sd closed] in *.
  destruct (client_loop_all r s1) as (s' & Hc & [H1 H2 H3 H4 H5 [H6 H7] H8]);
    [done|done|lia|done|lia|].
  set (clients := drop 1 (live (nfds s1) (pfds s1))) in *.
  assert (live (nfds s1) (pfds s1) = take 1 (pfds s1) ++ clients) as Hsplit.
  { unfold clients. rewrite <-(take_drop 1 (live (nfds s1) (pfds s1))) at 1. unfold live at 1. f_equal.
    rewrite take_take. f_equal. lia. }
  assert (length clients <= 63)%nat as Hcl.
  { unfold clients, live. rewrite length_drop, length_take, Hl1. lia. }
  exists s'. split; [exact Hc|]. split; [|split; [|rewrite H4, Hc1, length_app; lia]].
  - split; [lia| |done|rewrite Hnx in H8; lia].
    assert (length (live (nfds s') (pfds s')) = length (take 1 (pfds s1) ++ filter (fun p => negb (dropped r p)) clients)) as E
      by (by rewrite H3).
    unfold live in E. rewrite length_app, !length_take in E. lia.
  - rewrite H3, H4, Hc1, fmap_app.
    assert (filter (fun p => negb (dropped r p)) clients ++ filter (fun p => dropped r p) clients ≡ₚ clients) as Hp.
    { clear. induction clients as [|p l IH]; [done|]. rewrite !filter_cons. destruct (dropped r p).
      - rewrite decide_False, decide_True by (done || by intros []). rewrite <-Permutation_middle. by rewrite IH.
      - rewrite decide_True, decide_False by (done || by intros []). cbn. by rewrite IH. }
    rewrite (Permutation_app_comm (closed s)), <-!app_assoc.
    rewrite (app_assoc (pfd <$> filter _ clients)), <-fmap_app, Hp, app_assoc, <-fmap_app, <-Hsplit, Hfds.
    rewrite <-!app_assoc. f_equiv. apply Permutation_app_comm.
Qed.

(** The table grows by at most what arrives. *)
Lemma serve_nfds r s s' budget budget' :
  server_ok budget s -> server_ok budget' s' ->
  (pfd <$> live (nfds s') (pfds s')) ++ closed s' ≡ₚ (pfd <$> live (nfds s) (pfds s)) ++ closed s ++ taken r s ->
  (length (closed s) <= length (closed s'))%nat ->
  nfds s' <= nfds s + Z.of_nat (length (arrived r s)).
Proof.
  intros [Hl Hn _ _] [Hl' Hn' _ _] Hp%Permutation_length Hc. rewrite !length_app, !length_fmap in Hp.
  unfold live in Hp. rewrite !length_take in Hp.
  assert (length (taken r s) <= length (arrived r s))%nat by (unfold taken; case_match; simpl; lia). lia.
Qed.

Lemma arrived_split r s : arrived r s = taken r s ++ turned_away r s.
Proof. unfold taken, turned_away. case_match; [by rewrite app_nil_r|done]. Qed.

Lemma main_loop_fds inputs : forall s,
  Forall (fun i => match i.2 with PollRound r => round_ok r | _ => True end) inputs ->
  server_ok (64 * Z.of_nat (length inputs)) s ->
  match main_loop inputs s with
  | Ended s' => (pfd <$> live (nfds s') (pfds s')) ++ closed s' ++ forgotten inputs s ≡ₚ
                  (pfd <$> live (nfds s) (pfds s)) ++ closed s ++ connections inputs s
  | StillRunning => True
  | Undefined => False
  end /\
  (nfds s + Z.of_nat (length (connections inputs s)) <= 64 -> forgotten inputs s = []).
Proof.
  induction inputs as [|[running p] inputs IH]; intros s Hok Hs; [done|].
  apply Forall_cons in Hok as [Hp Hok]. unfold connections, forgotten in *. cbn [main_loop gather].
  destruct running; cbn [negb]; [|by rewrite app_nil_r].
  assert (forall b, 0 <= b <= 64 -> server_ok (b + 64 * Z.of_nat (length inputs)) s) as Hs'.
  { intros b Hb. destruct Hs as [H1 H2 H3 H4]. split; [done|done|done|simpl in H4; lia]. }
  destruct p as [r| |]; [|apply IH; [done|]; apply (Hs' 0); lia|by rewrite app_nil_r].
  destruct (serve_fds r s (64 * Z.of_nat (length inputs))) as (s1 & -> & Hs1 & Hp1 & Hc1); [done|apply Hs'; lia|lia|].
  destruct (IH s1 Hok Hs1) as [IH1 IH2]. split.
  - destruct (main_loop inputs s1) as [s2| |]; [|done|done].
    rewrite (Permutation_app_swap_app (closed s2)), (Permutation_app_swap_app (pfd <$> _)), IH1, arrived_split.
    rewrite (app_assoc (pfd <$> _) (closed s1)), Hp1, <-!app_assoc.
    by rewrite (Permutation_app_swap_app (turned_away r s) (pfd <$> _)),
      (Permutation_app_swap_app (turned_away r s) (closed s)), (Permutation_app_swap_app (turned_away r s) (taken r s)).
  - rewrite length_app. intros Hle. pose proof (serve_nfds r s s1 _ _ Hs Hs1 Hp1 Hc1) as Hnf. rewrite IH2 by lia.
    unfold turned_away. destruct (Z.ltb_spec (nfds s) 64) as [?|Hge]; [done|].
    assert (nfds s = 64) as E by (destruct Hs; lia). destruct (arrived r s); [done|]. simpl in Hle. lia.
Qed.

(** ** Theorems *)

Lemma server_start_ok fd stack (inputs : list (bool * poll_result)) :
  length stack = 64%nat -> 64 * Z.of_nat (length inputs) < 2 ^ 30 ->
  server_ok (64 * Z.of_nat (length inputs)) (server_start fd stack).
Proof.
  intros Hl Hi. split.
  - unfold server_start. cbn [pfds]. by rewrite length_aset.
  - done.
  - apply daemon_start_inv.
  - change (next_token_id (sd (server_start fd stack))) with 1. lia.
Qed.

(** The table starts with the listening socket. *)
Lemma server_first (stack : list pollfd) fd rv :
  length stack = 64%nat -> pfd <$> take (Z.to_nat 1) (<[Z.to_nat 0 := mk_pollfd fd rv]> stack) = [fd].
Proof. intros Hl. by destruct stack. Qed.

(** The call that opened the socket is in the log. *)
Ltac socket_in := repeat constructor.

Section theorems.
Context {W : Type} `{!Library dcall W}.

Lemma close_all_trace fds :
  traces (W := W) (close_all fds) (fun _ t => closes t = fds).
Proof.
  induction fds as [|fd fds IH]; [by apply traces_ret|]. cbn [close_all]. apply traces_invoke_bind. intros r.
  eapply traces_mono; [apply IH|]. intros [] t E. unfold closes in *. cbn. by rewrite E.
Qed.

(** C35: The daemon accounts for every descriptor.  When its socket cannot be set
    up it exits with status 1 and has closed the socket it opened.  When the loop
    ends, by a signal or by an error of [poll], it exits with status 0 and its last
    call removes the socket.  The listening socket and every connection that
    [accept4] gave have then been closed exactly once, in the loop or at the end,
    except those accepted while the table of 64 descriptors was full, which are
    never closed; with at most 63 connections there are none of these.  No message
    leads outside the code's defined behaviour. *)
Theorem capd_main_closes stack inputs :
  length stack = 64%nat -> 64 * Z.of_nat (length inputs) < 2 ^ 30 ->
  Forall (fun i => match i.2 with PollRound r => round_ok r | _ => True end) inputs ->
  traces (W := W) (main stack inputs) (fun r t => exists fd, (Socket, fd) ∈ t /\
    match r with
    | Exit status None => status = 1 /\ closes t = if fd <? 0 then [] else [fd]
    | Exit status (Some s) => status = 0 /\ last t.*1 = Some Unlink /\
        let accepted := connections inputs (server_start fd stack) in
        closed s ++ closes t ++ forgotten inputs (server_start fd stack) ≡ₚ fd :: accepted /\
        (Z.of_nat (length accepted) <= 63 -> closed s ++ closes t ≡ₚ fd :: accepted)
    | Runs => closes t = []
    | Wrong => False
    end).
Proof.
  intros Hlen Hin Hok. unfold main. do 4 traces_step.
  match goal with |- context [?v <? 0] => rename v into fd end.
  destruct (fd <? 0) eqn:Efd; [traces_step; exists fd; rewrite Efd; split; [socket_in|done]|].
  traces_step. case_match; [do 2 traces_step; exists fd; rewrite Efd; split; [socket_in|done]|].
  do 2 traces_step. case_match; [do 2 traces_step; exists fd; rewrite Efd; split; [socket_in|done]|].
  pose proof (main_loop_fds inputs (server_start fd stack) Hok (server_start_ok fd stack inputs Hlen Hin)) as [Hm Hnone].
  destruct (main_loop inputs (server_start fd stack)) as [s'| |]; [|traces_step; exists fd; split; [socket_in|done]|done].
  eapply traces_bind; [apply close_all_trace|]. intros [] t Et. do 2 traces_step. exists fd. split; [socket_in|].
  split; [done|]. split; [by rewrite !fmap_cons, fmap_app, fmap_cons, fmap_nil, !last_cons, last_snoc|].
  unfold closes. cbn. rewrite omap_app. cbn. fold (closes t). rewrite Et, app_nil_r.
  assert (pfd <$> live (nfds (server_start fd stack)) (pfds (server_start fd stack)) = [fd]) as E1.
  { unfold server_start, live, aset. cbn [nfds pfds]. by rewrite (server_first stack fd _ Hlen). }
  rewrite E1 in Hm. change (closed (server_start fd stack)) with (@nil Z) in Hm. cbn [app] in Hm.
  assert (closed s' ++ (pfd <$> live (nfds s') (pfds s')) ++ forgotten inputs (server_start fd stack) ≡ₚ
          fd :: connections inputs (server_start fd stack)) as Hall by (rewrite <-Hm; apply Permutation_app_swap_app).
  split; [done|]. intros Hle. rewrite Hnone, app_nil_r in Hall; [done|].
  change (nfds (server_start fd stack)) with 1. lia.
Qed.
End theorems.

(** A connection that arrives when the table is full is accepted and then
    forgotten: it is neither served nor closed. *)
Lemma full_table_leaks r s :
  nfds s = 64 -> taken r s = [] /\ turned_away r s = arrived r s /\ accept_client r (set_revents r s) = set_revents r s.
Proof.
  intros Hn. unfold taken, turned_away, accept_client. cbn [nfds set_revents]. rewrite Hn, andb_false_r.
  split; [done|]. split; [done|]. by destruct (truthy _).
Qed.

(** ** Witness *)

(** One client connects, then a signal stops the daemon. *)
Definition round0 : round := mk_round (fun fd => if fd =? 3 then POLLIN else 0) 7 None (fun _ => None) 0.

Definition inputs0 : list (bool * poll_result) := [(true, PollInterrupted); (true, PollRound round0); (false, PollFailed)].

Definition stack0 : list pollfd := replicate 64 (mk_pollfd 0 0).

Lemma capd_main_closes_witness :
  let r := main (W := list Z) stack0 inputs0 (mk_session [0; 0; 0; 3] []) in
  exists s, r.1 = Exit 0 (Some s) /\ connections inputs0 (server_start 3 stack0) = [7] /\
    closed s ++ closes (made r.2) ≡ₚ [3; 7].
Proof.
  destruct (capd_main_closes (W := list Z) stack0 inputs0 ltac:(done) ltac:(done)
    ltac:(by repeat constructor) (mk_session [0; 0; 0; 3] [])) as (t & E & fd & Hfd & H).
  assert (match (main (W := list Z) stack0 inputs0 (mk_session [0; 0; 0; 3] [])).1 with
          | Exit 0 (Some s) => True | _ => False end) as Hr by (by vm_compute).
  assert (made (main (W := list Z) stack0 inputs0 (mk_session [0; 0; 0; 3] [])).2
    = [(Signal, 0); (Signal, 0); (Unlink, 0); (Socket, 3); (Bind, 0); (Chmod, 0); (Listen, 0);
       (Close 3, 0); (Close 7, 0); (Unlink, 0)]) as Em by (by vm_compute).
  rewrite Em in E. simpl in E. subst t.
  assert (fd = 3) as -> by (rewrite !elem_of_cons in Hfd; destruct_or! Hfd; simplify_eq; [done|by apply elem_of_nil in Hfd]).
  destruct (main stack0 inputs0 (mk_session [0; 0; 0; 3] [])) as [[[| |] [s|]| |] w] eqn:Ew; try done.
  assert (connections inputs0 (server_start 3 stack0) = [7]) as Ec by (by vm_compute).
  exists s. split; [done|]. split; [exact Ec|]. cbn [fst snd] in *. destruct H as (_ & _ & _ & H). rewrite Ec in H.
  rewrite Em. by apply H.
Defined.
End CapServer.
