(* ===== verification/Waydroid.v ===== *)
(** * The Waydroid bridge

    Models userspace/security/waydroid_binder.c: the binder devices, the request
    for the capability that covers them, and the start of the container; and, for
    the connection to the capability daemon, [omnios_cap_connect] and
    [omnios_cap_disconnect] of capability_client.c.  The system calls are calls
    of Calls.v; the capability service is the interface of CapClient.v. *)

From stdpp Require Import base numbers list option tactics strings.
From S2P Require Import Prelude Calls CapProtocol CapDaemon CapClient.
Import CapProtocol CapClient.
Open Scope Z_scope.

Module Waydroid.

Inductive syscall :=
| Calloc | Free (p : Z) | Socket | Connect (fd : Z)
| Open (path : string) | BinderVersion (fd : Z) | Close (fd : Z) | Errno
| Fork | Execvp (argv : list string) | ExitChild (code : Z).

Definition EXIT_FAILURE : Z := 1.
Definition BINDER_DEV : string := "/dev/binder".
Definition HWBINDER_DEV : string := "/dev/hwbinder".
Definition VNDBINDER_DEV : string := "/dev/vndbinder".

Record binder_node := mk_node { nfd : Z; npath : string }.
#[export] Instance binder_node_inhabited : Inhabited binder_node := populate (mk_node 0 "").

(** [binder_nodes] and [binder_node_count]. *)
Record binder := mk_binder { binder_nodes : list binder_node; binder_node_count : Z }.

Definition binder_boot : binder := mk_binder (replicate 3 inhabitant) 0.

(** How a function ends; [Overrun] is a write outside [binder_nodes]. *)
Inductive outcome (A : Type) := Done (a : A) | Overrun | ExitedChild.
Arguments Done {A}.
Arguments Overrun {A}.
Arguments ExitedChild {A}.

Section programs.
Context {W : Type} `{!Library syscall W}.
Abbreviation prog := (prog syscall W).

(** ** capability_client.c *)

(** [None] is NULL; the context is at the address of its allocation. *)
Definition omnios_cap_connect : prog (option (Z * omnios_cap_ctx)) :=
  p ← call Calloc;
  if p =? 0 then mret None else
  fd ← call Socket;
  if fd <? 0 then invoke (Free p);; mret None else
  r ← call (Connect fd);
  if r <? 0 then
    invoke (Close fd);;
    invoke (Free p);;
    mret None
  else mret (Some (p, mk_ctx fd 1)).

Definition omnios_cap_disconnect (c : option (Z * omnios_cap_ctx)) : prog unit :=
  match c with
  | None => mret tt
  | Some (p, ctx) => invoke (Close (cfd ctx));; invoke (Free p)
  end.

(** ** waydroid_binder.c *)

Definition open_binder (path : string) (b : binder) : prog (outcome (Z * binder)) :=
  fd ← call (Open path);
  if fd <? 0 then e ← call Errno; mret (Done (- e, b)) else
  r ← call (BinderVersion fd);
  if r <? 0 then
    invoke (Close fd);;
    e ← call Errno;
    mret (Done (- e, b))
  else if Z.of_nat (length (binder_nodes b)) <=? binder_node_count b then mret Overrun
  else
    mret (Done (fd, mk_binder ((binder_nodes b).[binder_node_count b <- mk_node fd path]) (binder_node_count b + 1))).

Definition create_device_nodes (b : binder) : prog (outcome (bool * binder)) :=
  r1 ← open_binder BINDER_DEV b;
  match r1 with Overrun => mret Overrun | ExitedChild => mret ExitedChild | Done (_, b) =>
  r2 ← open_binder HWBINDER_DEV b;
  match r2 with Overrun => mret Overrun | ExitedChild => mret ExitedChild | Done (_, b) =>
  r3 ← open_binder VNDBINDER_DEV b;
  match r3 with Overrun => mret Overrun | ExitedChild => mret ExitedChild | Done (_, b) =>
  mret (Done (negb (binder_node_count b =? 0), b))
  end end end.

(** "waydroid-binder". *)
Definition binder_label : list Z :=
  [119; 97; 121; 100; 114; 111; 105; 100; 45; 98; 105; 110; 100; 101; 114; 0].

(** The result and the service afterwards. *)
Definition register_binder_capability {S} `{!CapService S} (getpid : Z) (c : option (Z * omnios_cap_ctx)) (s : S)
    : Z * S :=
  match c with
  | None => (0, s)
  | Some (_, ctx) =>
      let '(tid, _, s') := omnios_cap_request getpid ctx (Z.lor OMNIOS_CAP_IPC_SEND OMNIOS_CAP_IPC_RECV)
                             (Some binder_label) s in
      (tid, s')
  end.

(** The return value, the devices and the capability service. *)
Definition omnios_waydroid_start {S} `{!CapService S} (getpid : Z) (s : S) (b : binder)
    : prog (outcome (Z * binder * S)) :=
  c ← omnios_cap_connect;
  r ← create_device_nodes b;
  match r with
  | Overrun => mret Overrun
  | ExitedChild => mret ExitedChild
  | Done (false, b) => omnios_cap_disconnect c;; mret (Done (1, b, s))
  | Done (true, b) =>
      let '(_, s') := register_binder_capability getpid c s in
      pid ← call Fork;
      if pid =? 0 then
        invoke (Execvp ["/usr/bin/waydroid"; "session"; "start"]%string);;
        invoke (ExitChild EXIT_FAILURE);;
        mret ExitedChild
      else
        omnios_cap_disconnect c;;
        mret (Done (0, b, s'))
  end.

Definition omnios_waydroid_stop : prog (outcome Z) :=
  pid ← call Fork;
  if pid =? 0 then
    invoke (Execvp ["/usr/bin/waydroid"; "session"; "stop"]%string);;
    invoke (ExitChild EXIT_FAILURE);;
    mret ExitedChild
  else mret (Done 0).

(** ** Descriptors and memory *)

(** The descriptors a log opens and closes, the blocks it allocates and frees. *)
Definition opened (t : list (syscall * Z)) : list Z :=
  omap (fun e => match e.1 with
    | Socket | Open _ => if e.2 <? 0 then None else Some e.2
    | _ => None end) t.
Definition closed (t : list (syscall * Z)) : list Z :=
  omap (fun e => match e.1 with Close fd => Some fd | _ => None end) t.
Definition allocated (t : list (syscall * Z)) : list Z :=
  omap (fun e => match e.1 with Calloc => if e.2 =? 0 then None else Some e.2 | _ => None end) t.
Definition freed (t : list (syscall * Z)) : list Z :=
  omap (fun e => match e.1 with Free p => Some p | _ => None end) t.

(** What is open after a log is [fds], what is allocated is [ps]. *)
Definition holding (fds ps : list Z) (t : list (syscall * Z)) : Prop :=
  opened t ≡ₚ closed t ++ fds /\ allocated t ≡ₚ freed t ++ ps.

Lemma holding_app fds1 fds2 ps1 ps2 t1 t2 :
  holding fds1 ps1 t1 -> holding fds2 ps2 t2 -> holding (fds1 ++ fds2) (ps1 ++ ps2) (t1 ++ t2).
Proof.
  intros [H1 H2] [H3 H4]. unfold holding, opened, closed, allocated, freed in *. rewrite !omap_app.
  rewrite H1, H2, H3, H4. split; by rewrite <-!app_assoc, (Permutation_app_swap_app _ (omap _ t2)), !app_assoc.
Qed.

Definition ctx_fds (c : option (Z * omnios_cap_ctx)) : list Z := match c with Some (_, x) => [cfd x] | None => [] end.
Definition ctx_mem (c : option (Z * omnios_cap_ctx)) : list Z := match c with Some (p, _) => [p] | None => [] end.

Lemma connect_holds : traces omnios_cap_connect (fun c t => holding (ctx_fds c) (ctx_mem c) t).
Proof.
  unfold omnios_cap_connect. traces_step. destruct (Z.eqb_spec r 0) as [->|Hp].
  { traces_step. done. }
  traces_step. destruct (Z.ltb_spec r0 0).
  { repeat traces_step. split; cbn; rewrite ?(proj2 (Z.ltb_lt _ _)), ?(proj2 (Z.eqb_neq _ _)) by done; done. }
  traces_step. destruct (Z.ltb_spec r1 0);
    repeat traces_step; split; cbn; rewrite ?(proj2 (Z.ltb_ge _ _)), ?(proj2 (Z.eqb_neq _ _)) by done; done.
Qed.

Lemma disconnect_log c :
  traces (omnios_cap_disconnect c) (fun _ t =>
    closed t = ctx_fds c /\ freed t = ctx_mem c /\ opened t = [] /\ allocated t = []).
Proof. destruct c as [[p x]|]; cbn [omnios_cap_disconnect]; repeat traces_step; done. Qed.

(** The devices in the table. *)
Definition recorded (b : binder) : list Z := nfd <$> take (Z.to_nat (binder_node_count b)) (binder_nodes b).

Definition binder_ok (b : binder) : Prop := length (binder_nodes b) = 3%nat /\ 0 <= binder_node_count b <= 3.

(** Opening a device with room in the table: it is either recorded or closed
    again. *)
Lemma open_binder_holds path b :
  binder_ok b -> binder_node_count b < 3 ->
  traces (open_binder path b) (fun r t => exists v b' new, r = Done (v, b') /\ binder_ok b' /\
    binder_node_count b <= binder_node_count b' <= binder_node_count b + 1 /\
    recorded b' = recorded b ++ new /\ holding new [] t).
Proof.
  intros [Hl Hc] Hroom. unfold open_binder. traces_step. destruct (Z.ltb_spec r 0).
  { repeat traces_step. exists (- r0), b, []. rewrite app_nil_r.
    split_and!; try done; try lia. split; cbn; rewrite ?(proj2 (Z.ltb_lt _ _)) by done; done. }
  traces_step. destruct (Z.ltb_spec r0 0).
  { repeat traces_step. exists (- r2), b, []. rewrite app_nil_r.
    split_and!; try done; try lia. split; cbn; rewrite ?(proj2 (Z.ltb_ge _ _)) by done; done. }
  rewrite Hl, (proj2 (Z.leb_gt _ _)) by lia. traces_step.
  exists r, (mk_binder ((binder_nodes b).[binder_node_count b <- mk_node r path]) (binder_node_count b + 1)), [r].
  split; [done|]. split; [split; cbn; [by rewrite length_aset|lia]|]. split; [cbn; lia|]. split.
  - unfold recorded. cbn [binder_nodes binder_node_count]. rewrite Z2Nat.inj_add by lia.
    unfold aset. rewrite Nat.add_1_r, (take_S_r _ _ (mk_node r path)).
    + rewrite fmap_app. rewrite take_insert_ge by lia. done.
    + apply list_lookup_insert_eq. lia.
  - split; cbn; rewrite ?(proj2 (Z.ltb_ge _ _)) by done; done.
Qed.

Lemma create_nodes_holds :
  traces (create_device_nodes binder_boot) (fun r t => exists b',
    r = Done (negb (binder_node_count b' =? 0), b') /\ binder_ok b' /\ holding (recorded b') [] t).
Proof.
  unfold create_device_nodes.
  assert (binder_ok binder_boot) as H0 by done.
  eapply traces_bind; [apply open_binder_holds; done|]. intros ? t1 (v1 & b1 & n1 & -> & H1 & C1 & R1 & T1).
  cbn [binder_boot binder_node_count] in C1.
  eapply traces_bind; [apply open_binder_holds; [done|lia]|]. intros ? t2 (v2 & b2 & n2 & -> & H2 & C2 & R2 & T2).
  eapply traces_bind; [apply open_binder_holds; [done|lia]|]. intros ? t3 (v3 & b3 & n3 & -> & H3 & C3 & R3 & T3).
  apply traces_ret. exists b3. split; [done|]. split; [done|]. rewrite R3, R2, R1. rewrite app_nil_r.
  cbn [app recorded binder_boot binder_node_count binder_nodes]. rewrite <-app_assoc.
  apply (holding_app n1 (n2 ++ n3) [] []); [done|]. by apply (holding_app n2 n3 [] []).
Qed.

(** C17: Starting the container for the first time fails exactly when no binder
    device opens, never writes outside the device table, and leaves nothing
    behind: the capability connection is closed and its memory freed on every
    path of the parent, and each other descriptor is either closed or in the
    table. *)
Theorem waydroid_start_correct {S} `{!CapService S} (getpid : Z) (s : S) :
  traces (omnios_waydroid_start getpid s binder_boot) (fun r t =>
    (exists b' s', r = Done (if binder_node_count b' =? 0 then 1 else 0, b', s') /\
       0 <= binder_node_count b' <= 3 /\ holding (recorded b') [] t) \/
    (r = ExitedChild /\ exists t' v, t = t' ++ [(ExitChild EXIT_FAILURE, v)])).
Proof.
  unfold omnios_waydroid_start. eapply traces_bind; [apply connect_holds|]. intros c t1 H1.
  eapply traces_bind; [apply create_nodes_holds|]. intros r t2 (b' & -> & [_ Hc] & H2).
  pose proof (holding_app _ _ _ _ _ _ H1 H2) as [Ho Ha]. rewrite app_nil_r in Ha.
  assert (forall t3, closed t3 = ctx_fds c -> freed t3 = ctx_mem c -> opened t3 = [] -> allocated t3 = [] ->
    holding (recorded b') [] (t1 ++ t2 ++ t3)) as Hend.
  { intros t3 E1 E2 E3 E4. rewrite app_assoc. unfold holding, opened, closed, allocated, freed in *.
    rewrite !(omap_app _ (t1 ++ t2)), E1, E2, E3, E4, !app_nil_r, Ho, Ha. by rewrite <-app_assoc. }
  destruct (binder_node_count b' =? 0) eqn:E; cbn [negb].
  - eapply traces_bind; [apply disconnect_log|]. intros [] t3 (E1 & E2 & E3 & E4). apply traces_ret.
    left. exists b', s. rewrite E, app_nil_r. split; [done|]. split; [lia|]. by apply Hend.
  - destruct (register_binder_capability getpid c s) as [tid s']. traces_step. destruct (r =? 0).
    + repeat traces_step. right. split; [done|]. eexists (t1 ++ t2 ++ [_; _]), _. by rewrite <-!app_assoc.
    + eapply traces_bind; [apply disconnect_log|]. intros [] t3 (E1 & E2 & E3 & E4). apply traces_ret.
      left. exists b', s'. rewrite E, app_nil_r. split; [done|]. split; [lia|]. by apply (Hend ((Fork, r) :: t3)).
Qed.

End programs.

(** A device that opens when the table is full, as in a second start by the same
    process, is written outside the table. *)
Lemma full_table_overruns path b :
  binder_ok b -> binder_node_count b = 3 ->
  (open_binder (W := list Z) path b (mk_session [7; 0] [])).1 = Overrun.
Proof. intros [Hl _] Hc. unfold open_binder. cbn. by rewrite Hl, Hc. Qed.

(** ** Witnesses *)

(** The three devices open, the daemon grants the capability and the parent goes
    on. *)
Lemma waydroid_start_correct_witness :
  let r := omnios_waydroid_start (W := list Z) 1 CapClient.link0 binder_boot
             (mk_session [0x1000; 3; 0; 4; 0; 5; 0; 6; 0; 99] []) in
  exists b' s', r.1 = Done (if binder_node_count b' =? 0 then 1 else 0, b', s') /\ holding (recorded b') [] (made r.2).
Proof.
  destruct (waydroid_start_correct (W := list Z) 1 CapClient.link0
    (mk_session [0x1000; 3; 0; 4; 0; 5; 0; 6; 0; 99] [])) as (t & E & [(b' & s' & Er & Hc & Hh)|(Er & _)]).
  - exists b', s'. split; [exact Er|]. rewrite E. exact Hh.
  - vm_compute in Er. discriminate Er.
Defined.

End Waydroid.
