(* ===== verification/Initramfs.v ===== *)
(** * Initial file system (kernel/fs/initramfs.c)

    The reader of "newc" cpio archives.  The search loop is proved to end on
    every archive, and to find what the archive format stores. *)

From stdpp Require Import base numbers list option tactics.
From S2P Require Import Prelude Bytes.

Module Initramfs.

(** "070701" *)
Definition CPIO_MAGIC : list Z := [48; 55; 48; 55; 48; 49].
Definition CPIO_HEADER_LEN : Z := 110.
Definition PATH_MAX : Z := 4096.

(** Offsets of the two fields of [cpio_header_t] the reader uses. *)
Definition c_filesize : Z := 6 + 6 * 8.
Definition c_namesize : Z := 6 + 11 * 8.

(** One character of [parse_hex] on the shifted value. *)
Definition hex_digit (c val : Z) : Z :=
  if (48 <=? c) && (c <=? 57) then Z.lor val (c - 48)
  else if (97 <=? c) && (c <=? 102) then Z.lor val (c - 97 + 10)
  else if (65 <=? c) && (c <=? 70) then Z.lor val (c - 65 + 10)
  else val.

Fixpoint parse_hex_loop (s : list Z) (val : Z) : Z :=
  match s with
  | [] => val
  | c :: s' => if c =? 0 then val else parse_hex_loop s' (hex_digit c (u64 (Z.shiftl val 4)))
  end.

Definition parse_hex (s : list Z) (len : Z) : Z := parse_hex_loop (take (Z.to_nat len) s) 0.

(** [data] is the offset of the contents in the archive. *)
Record initramfs_entry_t := mk_entry { data : Z; size : Z }.

Record initramfs_t := mk_fs { archive : list Z; archive_size : Z; offset : Z }.

Definition initramfs_init (a : list Z) (n : Z) : initramfs_t := mk_fs a n 0.

(** [(x + 3) & ~3] *)
Definition align4 (x : Z) : Z := Z.land (u64 (x + 3)) (2 ^ 64 - 2 ^ 2).

(** 0, -1, or 1 with the name buffer, the entry and the advanced reader. *)
Inductive next_result :=
| NextEnd
| NextBad
| NextEntry (name : list Z) (entry : initramfs_entry_t) (fs : initramfs_t).

Definition initramfs_next (namelen : Z) (fs : initramfs_t) : next_result :=
  let a := archive fs in
  if archive_size fs <=? offset fs then NextEnd
  else if archive_size fs <? u64 (offset fs + CPIO_HEADER_LEN) then NextBad
  else if bool_decide (slice (offset fs) 6 a = CPIO_MAGIC) then
    let namesize := parse_hex (slice (offset fs + c_namesize) 8 a) 8 in
    let filesize := parse_hex (slice (offset fs + c_filesize) 8 a) 8 in
    let name_off := u64 (offset fs + CPIO_HEADER_LEN) in
    let data_off := align4 (u64 (name_off + namesize)) in
    if (archive_size fs <? u64 (name_off + namesize)) || (archive_size fs <? u64 (data_off + filesize))
    then NextBad
    else
      let cplen := if namesize <? namelen then namesize else namelen - 1 in
      NextEntry (slice name_off cplen a ++ [0]) (mk_entry data_off filesize)
        (mk_fs a (archive_size fs) (align4 (u64 (data_off + filesize))))
  else NextEnd.

(** The search loop; [None] is fuel that runs out. *)
Fixpoint find_loop (fuel : nat) (target : list Z) (entry : option initramfs_entry_t) (fs : initramfs_t)
  : option (bool * option initramfs_entry_t * initramfs_t) :=
  match fuel with
  | O => None
  | S fuel' =>
      match initramfs_next PATH_MAX fs with
      | NextEntry name e fs1 =>
          if streq name target then Some (true, Some e, fs1) else find_loop fuel' target (Some e) fs1
      | _ => Some (false, entry, fs)
      end
  end.

(** The return value, what is stored in [*entry], and the reader. *)
Definition initramfs_find (fuel : nat) (target : list Z) (fs : initramfs_t)
  : option (Z * option initramfs_entry_t * initramfs_t) :=
  match find_loop fuel target None (mk_fs (archive fs) (archive_size fs) 0) with
  | Some (true, e, fs1) => Some (1, e, fs1)
  | Some (false, e, _) => Some (0, e, fs)
  | None => None
  end.

(** ** The archive format *)

(** A file with the fields of its header the reader skips: 48 bytes before the
    size, 32 between the sizes, 8 after. *)
Record cfile := mk_file {
  fname : list Z;
  fdata : list Z;
  hdr_pre : list Z;
  hdr_mid : list Z;
  hdr_check : list Z;
}.

Definition hex_char (d : Z) : Z := if d <? 10 then 48 + d else 65 + (d - 10).

(** Eight upper-case digits, most significant first. *)
Definition hex8 (x : Z) : list Z :=
  (fun i => hex_char (x / 16 ^ i mod 16)) <$> [7; 6; 5; 4; 3; 2; 1; 0].

Definition pad4 (n : Z) : list Z := replicate (Z.to_nat ((- n) mod 4)) 0.

Definition cpio_header (f : cfile) : list Z :=
  CPIO_MAGIC ++ hdr_pre f ++ hex8 (Z.of_nat (length (fdata f))) ++ hdr_mid f
    ++ hex8 (Z.of_nat (length (fname f)) + 1) ++ hdr_check f.

Definition encode (f : cfile) : list Z :=
  cpio_header f ++ (fname f ++ [0]) ++ pad4 (111 + Z.of_nat (length (fname f)))
    ++ fdata f ++ pad4 (Z.of_nat (length (fdata f))).

Record file_ok (f : cfile) : Prop := {
  fo_name : Forall (fun c => c <> 0) (fname f);
  fo_namelen : Z.of_nat (length (fname f)) < 4095;
  fo_data : Z.of_nat (length (fdata f)) < 2 ^ 32;
  fo_pre : length (hdr_pre f) = 48%nat;
  fo_mid : length (hdr_mid f) = 32%nat;
  fo_check : length (hdr_check f) = 8%nat;
}.

(** What may follow the files: nothing that reads as another header. *)
Definition tail_ok (t : list Z) : Prop := (length t < 110)%nat \/ take 6 t <> CPIO_MAGIC.

(** ** Hexadecimal fields *)

Lemma hex_digit_char d val :
  0 <= d < 16 -> hex_digit (hex_char d) val = Z.lor val d.
Proof.
  intros Hd. unfold hex_digit, hex_char.
  destruct (Z.ltb_spec d 10).
  - rewrite (proj2 (Z.leb_le _ _)), (proj2 (Z.leb_le _ _)) by lia. simpl. f_equal. lia.
  - replace (65 + (d - 10) <=? 57) with false by (symmetry; apply Z.leb_gt; lia).
    rewrite andb_false_r. replace (97 <=? 65 + (d - 10)) with false by (symmetry; apply Z.leb_gt; lia).
    simpl andb. cbv iota. rewrite (proj2 (Z.leb_le _ _)), (proj2 (Z.leb_le _ _)) by lia. simpl. f_equal. lia.
Qed.

Lemma hex_char_nonzero d : 0 <= d < 16 -> hex_char d <> 0.
Proof. intros. unfold hex_char. destruct (Z.ltb_spec d 10); lia. Qed.

Lemma parse_hex_step d s val :
  0 <= d < 16 -> 0 <= val < 2 ^ 60 ->
  parse_hex_loop (hex_char d :: s) val = parse_hex_loop s (val * 16 + d).
Proof.
  intros Hd Hv. cbn [parse_hex_loop]. rewrite (proj2 (Z.eqb_neq _ _)) by (by apply hex_char_nonzero).
  rewrite hex_digit_char by done. rewrite Z.shiftl_mul_pow2 by lia. rewrite (wrap_small 64) by lia.
  by rewrite (lor_low val d 4) by lia.
Qed.

Lemma parse_hex8 x s : 0 <= x < 2 ^ 32 -> parse_hex (hex8 x ++ s) 8 = x.
Proof.
  intros Hx. unfold parse_hex. change (Z.to_nat 8) with 8%nat.
  change 8%nat with (length (hex8 x)) at 1. rewrite take_app_length.
  unfold hex8. cbn [fmap list_fmap].
  assert (forall i, 0 <= x / 16 ^ i mod 16 < 16) as Hd by (intros; by apply Z.mod_pos_bound).
  rewrite !parse_hex_step by (first [apply Hd | (pose proof (Hd 7); pose proof (Hd 6); pose proof (Hd 5);
    pose proof (Hd 4); pose proof (Hd 3); pose proof (Hd 2); pose proof (Hd 1); lia)]).
  cbn [parse_hex_loop]. clear Hd.
  change (16 ^ 7) with 268435456. change (16 ^ 6) with 16777216. change (16 ^ 5) with 1048576.
  change (16 ^ 4) with 65536. change (16 ^ 3) with 4096. change (16 ^ 2) with 256. change (16 ^ 1) with 16.
  change (16 ^ 0) with 1. lia.
Qed.

Lemma length_hex8 x : length (hex8 x) = 8%nat.
Proof. done. Qed.

(** ** Alignment *)

Lemma align4_spec x : 0 <= x < 2 ^ 63 -> align4 x = x + (- x) mod 4.
Proof.
  intros Hx. unfold align4. rewrite (land_mask _ 64 2) by lia. rewrite (wrap_small 64) by lia.
  change (2 ^ 2) with 4. rewrite (Z.mod_small (x + 3)) by lia. lia.
Qed.

Lemma length_pad4 n : Z.of_nat (length (pad4 n)) = (- n) mod 4.
Proof. unfold pad4. rewrite length_replicate. pose proof (Z.mod_pos_bound (- n) 4). lia. Qed.

(** ** Every field is below [2^32] *)

Lemma hex_digit_range c val :
  0 <= val < 2 ^ 60 -> 16 * val <= hex_digit c (u64 (Z.shiftl val 4)) < 16 * val + 16.
Proof.
  intros Hv. rewrite Z.shiftl_mul_pow2 by lia. rewrite (wrap_small 64) by lia. unfold hex_digit.
  destruct (Z.leb_spec 48 c), (Z.leb_spec c 57); simpl;
    [rewrite (lor_low val (c - 48) 4) by lia; lia|..];
    (destruct (Z.leb_spec 97 c), (Z.leb_spec c 102); simpl;
      [rewrite (lor_low val (c - 97 + 10) 4) by lia; lia|..]);
    (destruct (Z.leb_spec 65 c), (Z.leb_spec c 70); simpl;
      [rewrite (lor_low val (c - 65 + 10) 4) by lia; lia|..]); lia.
Qed.

Lemma parse_hex_loop_range s val k :
  (length s <= k)%nat -> 0 <= val -> (val + 1) * 16 ^ Z.of_nat k <= 2 ^ 60 ->
  0 <= parse_hex_loop s val < (val + 1) * 16 ^ Z.of_nat k.
Proof.
  revert val k. induction s as [|c s IH]; intros val k Hk Hv Hb; cbn [parse_hex_loop].
  - assert (1 <= 16 ^ Z.of_nat k) by (pose proof (Z.pow_pos_nonneg 16 (Z.of_nat k)); lia). nia.
  - destruct k as [|k]; [simpl in Hk; lia|].
    rewrite Nat2Z.inj_succ, Z.pow_succ_r in * by lia.
    assert (1 <= 16 ^ Z.of_nat k) by (pose proof (Z.pow_pos_nonneg 16 (Z.of_nat k)); lia).
    destruct (c =? 0); [nia|].
    pose proof (hex_digit_range c val ltac:(nia)) as Hd.
    specialize (IH (hex_digit c (u64 (Z.shiftl val 4))) k ltac:(simpl in Hk; lia) ltac:(lia) ltac:(nia)). nia.
Qed.

Lemma parse_hex_range s : 0 <= parse_hex s 8 < 2 ^ 32.
Proof.
  unfold parse_hex. pose proof (parse_hex_loop_range (take (Z.to_nat 8) s) 0 8) as H.
  rewrite length_take in H. specialize (H ltac:(lia) ltac:(lia) ltac:(simpl; lia)). simpl in H. lia.
Qed.

(** ** Progress and termination *)

Lemma next_progress namelen fs name e fs' :
  0 <= offset fs -> archive_size fs < 2 ^ 62 -> initramfs_next namelen fs = NextEntry name e fs' ->
  archive fs' = archive fs /\ archive_size fs' = archive_size fs /\ offset fs + 110 <= offset fs' /\
  offset fs + 110 <= data e /\ 0 <= size e /\ data e + size e <= archive_size fs.
Proof.
  intros Ho Hs. unfold initramfs_next. unfold CPIO_HEADER_LEN.
  destruct (Z.leb_spec (archive_size fs) (offset fs)); [done|].
  rewrite (wrap_small 64 (offset fs + 110)) by lia.
  destruct (Z.ltb_spec (archive_size fs) (offset fs + 110)); [done|].
  destruct (bool_decide _); [|done]. cbv zeta.
  pose proof (parse_hex_range (slice (offset fs + c_namesize) 8 (archive fs))) as Hn.
  pose proof (parse_hex_range (slice (offset fs + c_filesize) 8 (archive fs))) as Hf.
  set (ns := parse_hex (slice (offset fs + c_namesize) 8 (archive fs)) 8) in *.
  set (sz := parse_hex (slice (offset fs + c_filesize) 8 (archive fs)) 8) in *. clearbody ns sz.
  rewrite (wrap_small 64 (offset fs + 110 + ns)) by lia.
  assert (0 <= (- (offset fs + 110 + ns)) mod 4 < 4) by (by apply Z.mod_pos_bound).
  rewrite (align4_spec (offset fs + 110 + ns)) by lia. set (pd := (- (offset fs + 110 + ns)) mod 4) in *. clearbody pd.
  rewrite (wrap_small 64 (offset fs + 110 + ns + pd + sz)) by lia.
  destruct (Z.ltb_spec (archive_size fs) (offset fs + 110 + ns)); [done|].
  destruct (Z.ltb_spec (archive_size fs) (offset fs + 110 + ns + pd + sz)); [done|]. simpl.
  rewrite align4_spec by lia.
  assert (0 <= (- (offset fs + 110 + ns + pd + sz)) mod 4 < 4) by (by apply Z.mod_pos_bound).
  intros [= _ <- <-]. simpl. split_and!; try done; lia.
Qed.

(** A fuel of one more than the entries an archive has room for is enough. *)
Lemma find_loop_ends (fuel : nat) target e fs :
  0 <= offset fs -> archive_size fs < 2 ^ 62 ->
  archive_size fs - offset fs < 110 * Z.of_nat fuel -> exists r, find_loop (S fuel) target e fs = Some r.
Proof.
  revert e fs. induction fuel as [|fuel IH]; intros e fs Ho Hs Hf; cbn [find_loop].
  - unfold initramfs_next. rewrite (proj2 (Z.leb_le _ _)) by lia. by eexists.
  - destruct (initramfs_next PATH_MAX fs) as [| |name e' fs'] eqn:E; [by eexists|by eexists|].
    destruct (streq name target); [by eexists|].
    destruct (next_progress _ _ _ _ _ Ho Hs E) as (_ & Hsz & Hoff & _).
    apply IH; [lia|lia|]. rewrite Hsz. lia.
Qed.

(** ** Reading what the format stores *)

Lemma length_header f : file_ok f -> length (cpio_header f) = 110%nat.
Proof.
  intros [_ _ _ Hp Hm Hc]. unfold cpio_header.
  rewrite !length_app, !length_hex8, Hp, Hm, Hc. done.
Qed.

Lemma encode_length f :
  file_ok f ->
  Z.of_nat (length (encode f)) =
    111 + Z.of_nat (length (fname f)) + (- (111 + Z.of_nat (length (fname f)))) mod 4
    + Z.of_nat (length (fdata f)) + (- Z.of_nat (length (fdata f))) mod 4.
Proof.
  intros Hf. unfold encode. rewrite !length_app, (length_header f Hf), !Nat2Z.inj_add, !length_pad4.
  simpl. lia.
Qed.

(** The fields of the header at the start of [pre]. *)
Lemma header_fields pre f post :
  file_ok f ->
  let a := pre ++ encode f ++ post in
  let o := Z.of_nat (length pre) in
  slice o 6 a = CPIO_MAGIC /\
  parse_hex (slice (o + c_namesize) 8 a) 8 = Z.of_nat (length (fname f)) + 1 /\
  parse_hex (slice (o + c_filesize) 8 a) 8 = Z.of_nat (length (fdata f)).
Proof.
  intros [_ Hn Hd Hp Hm Hc]. cbv zeta. unfold encode, cpio_header, c_namesize, c_filesize.
  set (rest := _ ++ post). split_and!.
  - rewrite slice_app_r by lia. rewrite Z.sub_diag. unfold rest. rewrite <-!app_assoc.
    by apply (slice_part [] CPIO_MAGIC).
  - unfold rest. rewrite <-!app_assoc.
    rewrite (app_assoc pre), (app_assoc (pre ++ _)), (app_assoc ((pre ++ _) ++ _)),
      (app_assoc (((pre ++ _) ++ _) ++ _)).
    set (l1 := (((pre ++ _) ++ _) ++ _) ++ _).
    assert (Z.of_nat (length pre) + (6 + 11 * 8) = Z.of_nat (length l1)) as ->.
    { unfold l1. rewrite !length_app, length_hex8, Hp, Hm. simpl. lia. }
    change 8 with (Z.of_nat (length (hex8 (Z.of_nat (length (fname f)) + 1)))) at 1.
    rewrite slice_part. rewrite <-(app_nil_r (hex8 _)). apply parse_hex8. lia.
  - unfold rest. rewrite <-!app_assoc. rewrite (app_assoc pre), (app_assoc (pre ++ _)).
    set (l1 := (pre ++ _) ++ _).
    assert (Z.of_nat (length pre) + (6 + 6 * 8) = Z.of_nat (length l1)) as ->.
    { unfold l1. rewrite !length_app, Hp. simpl. lia. }
    change 8 with (Z.of_nat (length (hex8 (Z.of_nat (length (fdata f)))))) at 1.
    rewrite slice_part. rewrite <-(app_nil_r (hex8 _)). apply parse_hex8. lia.
Qed.

(** Where the contents of [f] start when its header is at [o]. *)
Definition data_start (o : Z) (f : cfile) : Z :=
  o + 111 + Z.of_nat (length (fname f)) + (- (111 + Z.of_nat (length (fname f)))) mod 4.

Lemma encode_data pre f post :
  file_ok f ->
  slice (data_start (Z.of_nat (length pre)) f) (Z.of_nat (length (fdata f))) (pre ++ encode f ++ post)
    = fdata f.
Proof.
  intros Hf. unfold encode, data_start. rewrite <-!app_assoc.
  rewrite (app_assoc pre), (app_assoc (pre ++ _)), (app_assoc ((pre ++ _) ++ _)),
    (app_assoc (((pre ++ _) ++ _) ++ _)).
  set (l1 := (((pre ++ _) ++ _) ++ _) ++ _).
  assert (Z.of_nat (length pre) + 111 + Z.of_nat (length (fname f)) +
    (- (111 + Z.of_nat (length (fname f)))) mod 4 = Z.of_nat (length l1)) as ->.
  { unfold l1. rewrite !length_app, (length_header f Hf). cbn [length].
    pose proof (length_pad4 (111 + Z.of_nat (length (fname f)))). lia. }
  apply slice_part.
Qed.

Lemma encode_name pre f post :
  file_ok f ->
  slice (Z.of_nat (length pre) + 110) (Z.of_nat (length (fname f)) + 1) (pre ++ encode f ++ post)
    = fname f ++ [0].
Proof.
  intros Hf. unfold encode. rewrite <-!app_assoc. rewrite (app_assoc pre).
  assert (Z.of_nat (length pre) + 110 = Z.of_nat (length (pre ++ cpio_header f))) as ->
    by (rewrite length_app, (length_header f Hf); lia).
  assert (Z.of_nat (length (fname f)) + 1 = Z.of_nat (length (fname f ++ [0]))) as ->
    by (rewrite length_app; simpl; lia).
  rewrite (app_assoc (fname f) [0]). apply slice_part.
Qed.

Lemma next_encode pre f post :
  let a := pre ++ encode f ++ post in
  file_ok f -> Z.of_nat (length pre) mod 4 = 0 -> Z.of_nat (length a) < 2 ^ 62 ->
  initramfs_next PATH_MAX (mk_fs a (Z.of_nat (length a)) (Z.of_nat (length pre))) =
    NextEntry (fname f ++ [0; 0])
      (mk_entry (data_start (Z.of_nat (length pre)) f) (Z.of_nat (length (fdata f))))
      (mk_fs a (Z.of_nat (length a)) (Z.of_nat (length (pre ++ encode f)))).
Proof.
  intros a Hf Hmod Hlen. pose proof (encode_length f Hf) as Hel.
  destruct (header_fields pre f post Hf) as (Hmagic & Hns & Hfs). fold a in Hmagic, Hns, Hfs.
  pose proof (encode_name pre f post Hf) as Hname. fold a in Hname.
  assert (Z.of_nat (length a) = Z.of_nat (length pre) + Z.of_nat (length (encode f)) + Z.of_nat (length post))
    as Ha by (unfold a; rewrite !length_app; lia).
  assert (Z.of_nat (length (pre ++ encode f)) = Z.of_nat (length pre) + Z.of_nat (length (encode f)))
    as Hpe by (rewrite length_app; lia).
  destruct Hf as [_ Hn _ _ _ _].
  unfold initramfs_next, data_start, CPIO_HEADER_LEN. cbn [archive archive_size offset].
  rewrite Hmagic, Hns, Hfs, Hpe. clear Hns Hfs Hmagic Hpe. clearbody a.
  set (o := Z.of_nat (length pre)) in *. set (N := Z.of_nat (length (fname f))) in *.
  set (D := Z.of_nat (length (fdata f))) in *. set (E := Z.of_nat (length (encode f))) in *.
  assert (0 <= o) by lia. assert (0 <= N) by lia. assert (0 <= D) by lia.
  assert (0 <= Z.of_nat (length post)) by lia. clearbody o N D E.
  rewrite (proj2 (Z.leb_gt _ _)) by lia. rewrite (wrap_small 64 (o + 110)) by lia.
  rewrite (proj2 (Z.ltb_ge (Z.of_nat (length a)) (o + 110))) by lia.
  rewrite bool_decide_true by done. cbv zeta.
  rewrite (wrap_small 64 (o + 110 + (N + 1))) by lia.
  rewrite (align4_spec (o + 110 + (N + 1))) by lia.
  assert (o + 110 + (N + 1) + (- (o + 110 + (N + 1))) mod 4 = o + 111 + N + (- (111 + N)) mod 4) as -> by lia.
  rewrite (wrap_small 64) by lia.
  rewrite (proj2 (Z.ltb_ge (Z.of_nat (length a)) (o + 110 + (N + 1)))) by lia.
  rewrite (proj2 (Z.ltb_ge (Z.of_nat (length a)) _)) by lia. cbn [orb].
  unfold PATH_MAX. rewrite (proj2 (Z.ltb_lt (N + 1) 4096)) by lia.
  rewrite align4_spec by lia. rewrite Hname, <-app_assoc. do 2 f_equal. lia.
Qed.

(** What follows the files stops the reader. *)
Lemma next_tail pre tl :
  let a := pre ++ tl in
  tail_ok tl -> Z.of_nat (length a) < 2 ^ 62 ->
  let r := initramfs_next PATH_MAX (mk_fs a (Z.of_nat (length a)) (Z.of_nat (length pre))) in
  r = NextEnd \/ r = NextBad.
Proof.
  intros a Htl Hlen. cbv zeta. unfold initramfs_next, CPIO_HEADER_LEN. cbn [archive archive_size offset].
  destruct (Z.leb_spec (Z.of_nat (length a)) (Z.of_nat (length pre))); [by left|].
  rewrite (wrap_small 64) by lia.
  destruct (Z.ltb_spec (Z.of_nat (length a)) (Z.of_nat (length pre) + 110)); [by right|].
  rewrite bool_decide_false; [by left|].
  unfold a in *. rewrite slice_app_r by lia. rewrite Z.sub_diag. unfold slice. rewrite drop_0.
  destruct Htl as [Hs|Hm]; [|exact Hm]. rewrite length_app in *. lia.
Qed.

(** The first file with the name searched for. *)
Definition has_name (target : list Z) (f : cfile) : bool := bool_decide (fname f = cstr target).

Lemma find_loop_files files tl target pre e fuel :
  let a := pre ++ concat (encode <$> files) ++ tl in
  Forall file_ok files -> tail_ok tl -> Z.of_nat (length pre) mod 4 = 0 -> Z.of_nat (length a) < 2 ^ 62 ->
  (length files < fuel)%nat ->
  exists found e' fs', find_loop fuel target e (mk_fs a (Z.of_nat (length a)) (Z.of_nat (length pre)))
    = Some (found, e', fs') /\
  match first_index (has_name target) files with
  | None => found = false
  | Some i => found = true /\ exists f entry, files !! i = Some f /\ e' = Some entry /\
      size entry = Z.of_nat (length (fdata f)) /\ slice (data entry) (size entry) a = fdata f
  end.
Proof.
  cbv zeta. intros HF Htl. revert pre e fuel. induction HF as [|f files Hf HF IH]; intros pre e fuel Hmod Hlen Hfuel.
  - destruct fuel as [|fuel]; [simpl in Hfuel; lia|]. cbn [find_loop first_index concat fmap list_fmap app] in *.
    destruct (next_tail pre tl Htl Hlen) as [-> | ->]; by eexists _, _, _.
  - destruct fuel as [|fuel]; [simpl in Hfuel; lia|]. cbn [find_loop].
    rewrite fmap_cons in *. cbn [concat] in *. rewrite <-app_assoc in *.
    rewrite (next_encode pre f (concat (encode <$> files) ++ tl) Hf Hmod Hlen).
    assert (streq (fname f ++ [0; 0]) target = has_name target f) as ->.
    { unfold streq, has_name. by rewrite (cstr_app_nul (fname f) [0] (fo_name f Hf)). }
    cbn [first_index]. destruct (has_name target f).
    + eexists _, _, _. split; [done|]. split; [done|]. eexists f, _.
      split_and!; [done|done|done|by apply encode_data].
    + rewrite (app_assoc pre (encode f)) in *.
      destruct (IH (pre ++ encode f) (Some (mk_entry (data_start (Z.of_nat (length pre)) f)
        (Z.of_nat (length (fdata f))))) fuel) as (found & e' & fs' & Hl & Hr).
      * rewrite length_app. pose proof (encode_length f Hf). lia.
      * done.
      * simpl in Hfuel. lia.
      * exists found, e', fs'. split; [done|]. destruct (first_index (has_name target) files); simpl; done.
Qed.

(** ** Properties *)

(** The search over the archive of a list of files, with any fuel above their
    number. *)
Lemma find_files (files : list cfile) (tl target : list Z) (o : Z) fuel :
  let a := concat (encode <$> files) ++ tl in
  let fs := mk_fs a (Z.of_nat (length a)) o in
  Forall file_ok files -> tail_ok tl -> Z.of_nat (length a) < 2 ^ 62 -> (length files < fuel)%nat ->
  exists r e fs', initramfs_find fuel target fs = Some (r, e, fs') /\
  match first_index (has_name target) files with
  | None => r = 0 /\ fs' = fs
  | Some i => r = 1 /\ exists f entry, files !! i = Some f /\ e = Some entry /\
      size entry = Z.of_nat (length (fdata f)) /\ slice (data entry) (size entry) a = fdata f
  end.
Proof.
  intros a fs Hfiles Htail Hlen Hfuel. unfold initramfs_find. cbn [archive archive_size fs].
  destruct (find_loop_files files tl target [] None fuel Hfiles Htail) as (found & e & fs' & Hl & Hr);
    [done|done|done|]. change ([] ++ ?x) with x in Hl. unfold fs. cbn [archive archive_size]. unfold a.
  change (Z.of_nat (length [])) with 0 in Hl. rewrite Hl.
  destruct (first_index (has_name target) files) as [i|].
  - destruct Hr as (-> & f & entry & Hf & He & Hsz & Hd). eexists _, _, _. split; [done|].
    split; [done|]. by exists f, entry.
  - subst found. by eexists _, _, _.
Qed.

(** C9: Looking a name up in an archive the cpio format makes of a list of
    files returns 1 with the contents of the first file of that name, and 0
    with the reader left as it was when there is none. *)
Theorem initramfs_find_correct (files : list cfile) (tl target : list Z) (o : Z)
    (Hfiles : Forall file_ok files) (Htail : tail_ok tl)
    (Hlen : Z.of_nat (length (concat (encode <$> files) ++ tl)) < 2 ^ 62) :
  let a := concat (encode <$> files) ++ tl in
  let fs := mk_fs a (Z.of_nat (length a)) o in
  exists r e fs', initramfs_find (S (length files)) target fs = Some (r, e, fs') /\
  match first_index (has_name target) files with
  | None => r = 0 /\ fs' = fs
  | Some i => r = 1 /\ exists f entry, files !! i = Some f /\ e = Some entry /\
      slice (data entry) (size entry) a = fdata f
  end.
Proof.
  intros a fs. destruct (find_files files tl target o (S (length files)) Hfiles Htail Hlen)
    as (r & e & fs' & E & H); [lia|]. exists r, e, fs'. split; [exact E|].
  destruct (first_index (has_name target) files) as [i|]; [|exact H].
  destruct H as (-> & f & entry & Hf & He & _ & Hd). split; [done|]. by exists f, entry.
Qed.

(** The search ends on every archive, well formed or not, within as many
    rounds as the archive has room for headers, and an entry it returns lies
    inside the archive. *)
Theorem initramfs_find_total (target : list Z) (fs : initramfs_t)
    (Hsize : 0 <= archive_size fs < 2 ^ 62) :
  exists r e fs', initramfs_find (S (S (Z.to_nat (archive_size fs / 110)))) target fs = Some (r, e, fs') /\
    (r = 1 -> exists entry, e = Some entry /\ 110 <= data entry /\ 0 <= size entry /\
       data entry + size entry <= archive_size fs).
Proof.
  unfold initramfs_find. set (n := S (Z.to_nat _)).
  destruct (find_loop_ends n target None (mk_fs (archive fs) (archive_size fs) 0)) as [[[found e] fs'] E];
    [done|simpl; lia|simpl; lia|].
  rewrite E. destruct found; [|by eexists _, _, _]. eexists _, _, _. split; [done|]. intros _.
  assert (forall k e0 fs0, 0 <= offset fs0 -> archive_size fs0 = archive_size fs ->
    find_loop k target e0 fs0 = Some (true, e, fs') ->
    exists entry, e = Some entry /\ 110 <= data entry /\ 0 <= size entry /\
      data entry + size entry <= archive_size fs) as Hg; [|by eapply (Hg (S n)); [| |exact E]].
  clear E. induction k as [|k IH]; intros e0 fs0 Ho Hs E; cbn [find_loop] in E; [done|].
  destruct (initramfs_next PATH_MAX fs0) as [| |name en fs1] eqn:En; [done|done|].
  destruct (next_progress _ _ _ _ _ Ho ltac:(lia) En) as (_ & Hsz & Hoff & Hd & Hp & Hin).
  destruct (streq name target); [injection E as <- <-; exists en; split_and!; done || lia|].
  eapply IH; [| |exact E]; lia.
Qed.

(** ** Witnesses *)

Definition file0 : cfile :=
  mk_file [105; 110; 105; 116] [1; 2; 3] (replicate 48 48) (replicate 32 48) (replicate 8 48).

Lemma file0_ok : file_ok file0.
Proof. split; try (by vm_compute). repeat constructor; lia. Qed.

Lemma initramfs_find_correct_witness :
  exists r e fs', initramfs_find 2 [105; 110; 105; 116; 0] (initramfs_init (encode file0) 120) = Some (r, e, fs').
Proof.
  destruct (initramfs_find_correct [file0] [] [105; 110; 105; 116; 0] 0) as (r & e & fs' & H & _).
  - constructor; [apply file0_ok|constructor].
  - left. simpl. lia.
  - by vm_compute.
  - exists r, e, fs'. exact H.
Defined.

Lemma initramfs_find_total_witness :
  exists r e fs', initramfs_find 3 [97] (initramfs_init (replicate 200 48) 200) = Some (r, e, fs').
Proof.
  destruct (initramfs_find_total [97] (initramfs_init (replicate 200 48) 200)) as (r & e & fs' & H & _).
  - simpl. lia.
  - exists r, e, fs'. exact H.
Defined.

End Initramfs.
