(* ===== verification/Elf.v ===== *)
(** * ELF loader (kernel/fs/elf.c)

    [elf_load] on a binary given as bytes, writing the segments into memory.
    A read outside the binary, which the C code performs, is [ElfFault]. *)

From stdpp Require Import base numbers list option tactics sets.
From S2P Require Import Prelude Bytes.

Module Elf.

Definition ELF_MAGIC : Z := 0x464C457F.
Definition ELFCLASS64 : Z := 2.
Definition ET_EXEC : Z := 2.
Definition ET_DYN : Z := 3.
Definition PT_LOAD : Z := 1.

(** sizeof(elf64_header_t) and the offsets of the fields that are read. *)
Definition ELF_HEADER_SIZE : Z := 64.
Definition h_magic : Z := 0.
Definition h_class : Z := 4.
Definition h_type : Z := 16.
Definition h_entry : Z := 24.
Definition h_phoff : Z := 32.
Definition h_phentsize : Z := 54.
Definition h_phnum : Z := 56.

(** sizeof(elf64_phdr_t) and its fields. *)
Definition PHDR_SIZE : Z := 56.
Definition p_type : Z := 0.
Definition p_offset : Z := 8.
Definition p_vaddr : Z := 16.
Definition p_filesz : Z := 32.
Definition p_memsz : Z := 40.

Record elf_loaded_t := mk_loaded { lsize : Z; entry : Z; load_base : Z }.

Inductive elf_result :=
| ElfFault
| ElfReturn (ret : Z) (out : option elf_loaded_t) (m : Z -> Z).

(** The copy of one segment and the zeroing of its rest. *)
Definition load_segment (m : Z -> Z) (vaddr memsz : Z) (bs : list Z) : Z -> Z :=
  let filesz := Z.of_nat (length bs) in
  let m1 := mem_store m vaddr bs in
  if filesz <? memsz then mem_zero m1 (vaddr + filesz) (memsz - filesz) else m1.

(** The loop over the program headers. *)
Inductive load_result :=
| LoadFault
| LoadOverflow (m : Z -> Z)
| Loaded (base fin : Z) (m : Z -> Z).

Definition phdr_field (bin : list Z) (ph f n : Z) : option Z := read_le (u64 (ph + f)) n bin.

Fixpoint load_loop (n : nat) (ph : Z) (bin : list Z) (size base fin : Z) (m : Z -> Z) : load_result :=
  match n with
  | O => Loaded base fin m
  | S n' =>
      match phdr_field bin ph p_type 4 with
      | None => LoadFault
      | Some t =>
          if negb (t =? PT_LOAD) then load_loop n' (ph + PHDR_SIZE) bin size base fin m
          else
            match phdr_field bin ph p_vaddr 8, phdr_field bin ph p_memsz 8,
                  phdr_field bin ph p_offset 8, phdr_field bin ph p_filesz 8 with
            | Some vaddr, Some memsz, Some offset, Some filesz =>
                let fin' := u64 (vaddr + memsz) in
                let base := if vaddr <? base then vaddr else base in
                let fin := if fin <? fin' then fin' else fin in
                if size <? u64 (offset + filesz) then LoadOverflow m
                else
                  match read_bytes offset filesz bin with
                  | None => LoadFault
                  | Some bs => load_loop n' (ph + PHDR_SIZE) bin size base fin (load_segment m vaddr memsz bs)
                  end
            | _, _, _, _ => LoadFault
            end
      end
  end.

(** [None] for a NULL [binary]; [out_ok] is [out != NULL]. *)
Definition elf_load (binary : option (list Z)) (size : Z) (out_ok : bool) (m : Z -> Z) : elf_result :=
  match binary with
  | None => ElfReturn (-1) None m
  | Some bin =>
      if negb out_ok || (size <? ELF_HEADER_SIZE) then ElfReturn (-1) None m
      else
        match read_le h_magic 4 bin, read_le h_class 1 bin, read_le h_type 2 bin,
              read_le h_phentsize 2 bin, read_le h_phnum 2 bin, read_le h_phoff 8 bin, read_le h_entry 8 bin with
        | Some magic, Some class, Some type, Some phentsize, Some phnum, Some phoff, Some ent =>
            if negb (magic =? ELF_MAGIC) then ElfReturn (-1) None m
            else if negb (class =? ELFCLASS64) then ElfReturn (-1) None m
            else if negb (type =? ET_EXEC) && negb (type =? ET_DYN) then ElfReturn (-1) None m
            else if size <? u64 (phoff + u64 (s32 (phentsize * phnum))) then ElfReturn (-1) None m
            else
              match load_loop (Z.to_nat phnum) phoff bin size (2 ^ 64 - 1) 0 m with
              | LoadFault => ElfFault
              | LoadOverflow m' => ElfReturn (-1) None m'
              | Loaded base _ m' => ElfReturn 0 (Some (mk_loaded size ent base)) m'
              end
        | _, _, _, _, _, _, _ => ElfFault
        end
  end.

(** ** Specification *)

(** A program header as the file holds it. *)
Record segment := mk_seg { styp : Z; svaddr : Z; smemsz : Z; soffset : Z; sfilesz : Z }.

Definition seg_at (bin : list Z) (ph : Z) (g : segment) : Prop :=
  phdr_field bin ph p_type 4 = Some (styp g) /\ phdr_field bin ph p_vaddr 8 = Some (svaddr g) /\
  phdr_field bin ph p_memsz 8 = Some (smemsz g) /\ phdr_field bin ph p_offset 8 = Some (soffset g) /\
  phdr_field bin ph p_filesz 8 = Some (sfilesz g).

(** The segments of a table that starts at [ph]. *)
Fixpoint segs_at (bin : list Z) (ph : Z) (l : list segment) : Prop :=
  match l with
  | [] => True
  | g :: l' => seg_at bin ph g /\ segs_at bin (ph + PHDR_SIZE) l'
  end.

Definition loads (l : list segment) : list segment := filter (fun g => styp g = PT_LOAD) l.

Definition seg_ok (bin : list Z) (g : segment) : Prop :=
  0 <= soffset g /\ 0 <= sfilesz g <= smemsz g /\ soffset g + sfilesz g <= Z.of_nat (length bin) /\
  0 <= svaddr g /\ svaddr g + smemsz g <= 2 ^ 64.

Definition covers (g : segment) (x : Z) : Prop := svaddr g <= x < svaddr g + smemsz g.

Definition seg_disjoint (g h : segment) : Prop :=
  svaddr g + smemsz g <= svaddr h \/ svaddr h + smemsz h <= svaddr g.

(** The byte a loaded segment has at address [x]. *)
Definition seg_byte (bin : list Z) (g : segment) (x : Z) : Z :=
  if x <? svaddr g + sfilesz g then bin !!! Z.to_nat (soffset g + (x - svaddr g)) else 0.

(** The image of the segments over the memory [m]. *)
Definition image (bin : list Z) (l : list segment) (m m' : Z -> Z) : Prop :=
  (forall g x, g ∈ l -> covers g x -> m' x = seg_byte bin g x) /\
  (forall x, (forall g, g ∈ l -> ~ covers g x) -> m' x = m x).

Definition lowest (l : list segment) : Z := fold_left (fun b g => Z.min b (svaddr g)) l (2 ^ 64 - 1).

(** ** One segment *)

Lemma load_segment_spec bin g m x :
  seg_ok bin g ->
  load_segment m (svaddr g) (smemsz g) (slice (soffset g) (sfilesz g) bin) x =
    if (svaddr g <=? x) && (x <? svaddr g + smemsz g) then seg_byte bin g x else m x.
Proof.
  intros (Ho & Hf & Hb & Hv & _). unfold load_segment, seg_byte.
  assert (Z.of_nat (length (slice (soffset g) (sfilesz g) bin)) = sfilesz g) as Hl
    by (rewrite length_slice by lia; lia).
  rewrite Hl. cbv zeta.
  assert (mem_store m (svaddr g) (slice (soffset g) (sfilesz g) bin) x =
    if (svaddr g <=? x) && (x <? svaddr g + sfilesz g)
    then bin !!! Z.to_nat (soffset g + (x - svaddr g)) else m x) as Hs.
  { unfold mem_store. rewrite Hl. destruct (Z.leb_spec (svaddr g) x), (Z.ltb_spec x (svaddr g + sfilesz g)); try done.
    simpl. rewrite !list_lookup_total_alt. by rewrite slice_lookup by lia. }
  destruct (Z.ltb_spec (sfilesz g) (smemsz g)).
  - unfold mem_zero. rewrite Hs.
    destruct (Z.leb_spec (svaddr g + sfilesz g) x),
      (Z.ltb_spec x (svaddr g + sfilesz g + (smemsz g - sfilesz g))),
      (Z.leb_spec (svaddr g) x), (Z.ltb_spec x (svaddr g + smemsz g)),
      (Z.ltb_spec x (svaddr g + sfilesz g)); simpl; done || lia.
  - rewrite Hs. assert (smemsz g = sfilesz g) as -> by lia.
    destruct (svaddr g <=? x), (x <? svaddr g + sfilesz g); done.
Qed.

(** Adding a segment disjoint from the later ones. *)
Lemma image_cons bin g l m m' :
  seg_ok bin g -> Forall (seg_disjoint g) l ->
  image bin l (load_segment m (svaddr g) (smemsz g) (slice (soffset g) (sfilesz g) bin)) m' ->
  image bin (g :: l) m m'.
Proof.
  intros Hok Hd [H1 H2]. split.
  - intros h x Hin Hc. apply elem_of_cons in Hin as [->|Hin]; [|by apply H1].
    rewrite H2; [|intros h Hh [? ?]; rewrite Forall_forall in Hd; destruct (Hd h Hh), Hc; lia].
    rewrite load_segment_spec by done.
    destruct Hc. by rewrite (proj2 (Z.leb_le _ _)), (proj2 (Z.ltb_lt _ _)) by lia.
  - intros x Hno. rewrite H2 by (intros h Hh; apply Hno; by right).
    rewrite load_segment_spec by done.
    destruct (Z.leb_spec (svaddr g) x), (Z.ltb_spec x (svaddr g + smemsz g)); try done.
    exfalso. apply (Hno g); [by left|]. done.
Qed.

Lemma image_nil bin m : image bin [] m m.
Proof. split; [|done]. intros g x Hg. by apply elem_of_nil in Hg. Qed.

Lemma load_loop_spec bin l ph base fin m :
  Z.of_nat (length bin) < 2 ^ 63 ->
  segs_at bin ph l -> Forall (seg_ok bin) (loads l) -> List.ForallOrdPairs seg_disjoint (loads l) ->
  exists fin' m', load_loop (length l) ph bin (Z.of_nat (length bin)) base fin m =
    Loaded (fold_left (fun b g => Z.min b (svaddr g)) (loads l) base) fin' m' /\ image bin (loads l) m m'.
Proof.
  intros Hlen. revert ph base fin m. induction l as [|g l IH]; intros ph base fin m Hs Hok Hd.
  - eexists _, _. split; [done|]. apply image_nil.
  - destruct Hs as [(Ht & Hv & Hm & Ho & Hf) Hs]. cbn [length load_loop]. rewrite Ht.
    unfold loads in *. rewrite filter_cons in *.
    destruct (decide (styp g = PT_LOAD)) as [->|Hne].
    + rewrite Z.eqb_refl, Hv, Hm, Ho, Hf. cbn [negb].
      apply List.Forall_cons_iff in Hok as [Hg Hok]. inversion Hd as [|? ? Hdg Hd']; subst.
      pose proof Hg as (Hg1 & Hg2 & Hg3 & _).
      rewrite (wrap_small 64 (soffset g + sfilesz g)) by lia.
      rewrite (proj2 (Z.ltb_ge _ _)) by lia. rewrite read_bytes_in by lia.
      edestruct IH as (fin' & m' & Hl & Him); [exact Hs|exact Hok|exact Hd'|].
      rewrite Hl. exists fin', m'. cbn [fold_left]. split.
      * do 2 f_equal. destruct (Z.ltb_spec (svaddr g) base); lia.
      * by apply image_cons.
    + rewrite (proj2 (Z.eqb_neq _ _)) by done. cbn [negb].
      by apply IH.
Qed.

(** ** Properties *)

(** The header of a 64-bit executable whose program headers are [l]. *)
Record elf_ok (bin : list Z) (ent phoff : Z) (l : list segment) : Prop := {
  eo_magic : read_le h_magic 4 bin = Some ELF_MAGIC;
  eo_class : read_le h_class 1 bin = Some ELFCLASS64;
  eo_type : read_le h_type 2 bin = Some ET_EXEC \/ read_le h_type 2 bin = Some ET_DYN;
  eo_entry : read_le h_entry 8 bin = Some ent;
  eo_phoff : read_le h_phoff 8 bin = Some phoff;
  eo_phentsize : read_le h_phentsize 2 bin = Some PHDR_SIZE;
  eo_phnum : read_le h_phnum 2 bin = Some (Z.of_nat (length l));
  eo_size : 64 <= Z.of_nat (length bin) < 2 ^ 63;
  eo_table : 0 <= phoff /\ phoff + PHDR_SIZE * Z.of_nat (length l) <= Z.of_nat (length bin) /\ Z.of_nat (length l) < 65536;
  eo_segs : segs_at bin phoff l;
}.

(** The loader on a well-formed file. *)
Lemma elf_load_spec (bin : list Z) (ent phoff : Z) (l : list segment) (m : Z -> Z)
    (Hok : elf_ok bin ent phoff l) (Hsegs : Forall (seg_ok bin) (loads l))
    (Hdisj : List.ForallOrdPairs seg_disjoint (loads l)) :
  exists m', elf_load (Some bin) (Z.of_nat (length bin)) true m =
      ElfReturn 0 (Some (mk_loaded (Z.of_nat (length bin)) ent (lowest (loads l)))) m' /\
    image bin (loads l) m m'.
Proof.
  destruct Hok as [H1 H2 H3 H4 H5 H6 H7 Hsz (Hp & Hpl & Hn) Hs].
  destruct (load_loop_spec bin l phoff (2 ^ 64 - 1) 0 m) as (fin' & m' & Hl & Him); [lia|done|done|done|].
  exists m'. split; [|done]. unfold elf_load, ELF_HEADER_SIZE. cbn [negb orb].
  rewrite (proj2 (Z.ltb_ge _ _)) by lia. rewrite H1, H2, H4, H5, H6, H7.
  assert (exists t, read_le h_type 2 bin = Some t /\ negb (t =? ET_EXEC) && negb (t =? ET_DYN) = false)
    as (t & -> & Ht) by (destruct H3 as [-> | ->]; eexists; by split).
  rewrite !Z.eqb_refl, Ht. cbn [negb]. unfold PHDR_SIZE in *.
  rewrite (swrap_small 32) by (change (2 ^ (32 - 1)) with (2 ^ 31); lia).
  rewrite (wrap_small 64 (56 * _)), (wrap_small 64) by lia.
  rewrite (proj2 (Z.ltb_ge _ _)) by lia. rewrite Nat2Z.id, Hl. done.
Qed.

(** C10: Loading a well-formed executable whose load segments lie inside the
    file and do not overlap succeeds with its entry point and its lowest
    address, and leaves in memory exactly the image: every segment's bytes from
    the file, zeros up to its memory size, and everything else untouched. *)
Theorem elf_load_image (bin : list Z) (ent phoff : Z) (l : list segment) (m : Z -> Z)
    (Hok : elf_ok bin ent phoff l) (Hsegs : Forall (seg_ok bin) (loads l))
    (Hdisj : List.ForallOrdPairs seg_disjoint (loads l)) :
  exists m', elf_load (Some bin) (Z.of_nat (length bin)) true m =
      ElfReturn 0 (Some (mk_loaded (Z.of_nat (length bin)) ent (lowest (loads l)))) m' /\
    image bin (loads l) m m'.
Proof. by apply (elf_load_spec _ _ phoff). Qed.

(** ** Malformed headers *)

Definition header_bytes (phoff phentsize phnum : Z) : list Z :=
  le_bytes 4 ELF_MAGIC ++ [2; 1; 1; 0; 0] ++ replicate 7 0 ++ le_bytes 2 ET_EXEC ++ le_bytes 2 62
    ++ le_bytes 4 1 ++ le_bytes 8 0x400000 ++ le_bytes 8 phoff ++ le_bytes 8 0 ++ le_bytes 4 0
    ++ le_bytes 2 64 ++ le_bytes 2 phentsize ++ le_bytes 2 phnum ++ le_bytes 6 0.

(** The table is checked with the file's entry size and read with 56 bytes per
    entry: with an entry size of 0 the loader reads past the file. *)
Lemma elf_entry_size_unchecked m : elf_load (Some (header_bytes 64 0 1)) 64 true m = ElfFault.
Proof. by vm_compute. Qed.

(** The sum of the table's offset and size wraps: an offset near [2^64] passes
    the check. *)
Lemma elf_offset_wraps m : elf_load (Some (header_bytes (2 ^ 64 - 56) 56 1)) 64 true m = ElfFault.
Proof. by vm_compute. Qed.

(** ** Witness *)

Definition elf0 : list Z :=
  header_bytes 64 56 1
    ++ (le_bytes 4 PT_LOAD ++ le_bytes 4 5 ++ le_bytes 8 120 ++ le_bytes 8 0x400000 ++ le_bytes 8 0x400000
        ++ le_bytes 8 4 ++ le_bytes 8 16 ++ le_bytes 8 4096)
    ++ [1; 2; 3; 4].

Definition seg0 : segment := mk_seg PT_LOAD 0x400000 16 120 4.

Lemma elf_load_image_witness :
  exists m', elf_load (Some elf0) 124 true (fun _ => 9) =
      ElfReturn 0 (Some (mk_loaded 124 0x400000 0x400000)) m' /\
    m' 0x400002 = 3 /\ m' 0x400008 = 0 /\ m' 0x400010 = 9.
Proof.
  destruct (elf_load_image elf0 0x400000 64 [seg0] (fun _ => 9)) as (m' & H1 & H2 & H3).
  - split; try (by vm_compute). left. by vm_compute.
  - constructor; [split_and!; by vm_compute|constructor].
  - repeat constructor.
  - exists m'. split; [exact H1|].
    assert (seg0 ∈ loads [seg0]) as Hin by (apply list_elem_of_here).
    split_and!.
    + rewrite (H2 seg0 0x400002 Hin); [reflexivity|]. by vm_compute.
    + rewrite (H2 seg0 0x400008 Hin); [reflexivity|]. by vm_compute.
    + apply H3. intros g Hg [_ Hc]. apply elem_of_cons in Hg as [->|Hg]; [by vm_compute in Hc|].
      by apply elem_of_nil in Hg.
Defined.

End Elf.
