(* ===== verification/Rtc.v ===== *)
(** * Real-time clock of the PM8150

    Models kernel/bsp/sm8250/drivers/rtc.c: the conversions between seconds
    since 1970 and a calendar date, and the driver operations on the clock's
    registers.  [epoch_to_time] counts years in an unbounded loop, so it takes a
    fuel; the theorems give the number of iterations that is enough. *)

From stdpp Require Import base numbers list option tactics gmap.
From S2P Require Import Prelude Mmio.

Module Rtc.

Definition RTC_BASE : Z := 0x0AF0000 + 0x6000.
Definition RTC_TIME_LOW : Z := 0x00.
Definition RTC_TIME_HIGH : Z := 0x04.
Definition RTC_ALARM_LOW : Z := 0x08.
Definition RTC_ALARM_HIGH : Z := 0x0C.
Definition RTC_CTRL : Z := 0x10.

Record rtc_time_t := mk_time {
  year : Z;    (* uint16_t *)
  month : Z;   (* uint8_t, and so are the others *)
  day : Z;
  hour : Z;
  minute : Z;
  second : Z;
}.

Definition is_leap (y : Z) : bool :=
  (Z.rem y 4 =? 0) && negb (Z.rem y 100 =? 0) || (Z.rem y 400 =? 0).

Definition month_table : list Z := [31; 28; 31; 30; 31; 30; 31; 31; 30; 31; 30; 31].

(** [d[m - 1]] is in range for [1 <= m <= 12] only; the callers below stay there. *)
Definition days_in_month (y m : Z) : Z :=
  if (m =? 2) && is_leap y then 29 else month_table.[m - 1].

(** [for (int i = 1; i < m; i++) days += days_in_month(y, i);] *)
Fixpoint add_months (n : nat) (y i days : Z) : Z :=
  match n with
  | O => days
  | S n' => add_months n' y (i + 1) (u64 (days + days_in_month y i))
  end.

(** [None]: the month is above 13 and the loop reads past [d[11]]. *)
Definition time_to_epoch (t : rtc_time_t) : option Z :=
  let y := year t in
  let days := u64 ((y - 1970) * 365 + Z.quot (y - 1969) 4) in
  if 13 <? month t then None else
  let days := add_months (Z.to_nat (month t - 1)) y 1 days in
  let days := u64 (days + u64 (day t - 1)) in
  Some (u64 (days * 86400 + hour t * 3600 + minute t * 60 + second t)).

(** The [while (1)] loop over the years.  The year is an [int]: [None] when the
    increment would leave it, which is undefined, or when the fuel does not
    last. *)
Fixpoint year_loop (fuel : nat) (epoch y : Z) : option (Z * Z) :=
  match fuel with
  | O => None
  | S fuel' =>
      let d := if is_leap y then 366 else 365 in
      if epoch <? d * 86400 then Some (epoch, y)
      else if y =? 2 ^ 31 - 1 then None
      else year_loop fuel' (epoch - d * 86400) (y + 1)
  end.

(** The loop over the months: the seconds left and the month field, which keeps
    its old content when no month is found. *)
Fixpoint month_loop (n : nat) (y m epoch old : Z) : Z * Z :=
  match n with
  | O => (epoch, old)
  | S n' =>
      let d := days_in_month y m in
      if epoch <? d * 86400 then (epoch, m)
      else month_loop n' y (m + 1) (epoch - d * 86400) old
  end.

Definition epoch_to_time (fuel : nat) (epoch : Z) (t : rtc_time_t) : option rtc_time_t :=
  '(epoch, y) ← year_loop fuel epoch 1970;
  let '(epoch, m) := month_loop 12 y 1 epoch (month t) in
  let d := u8 (u8 (epoch / 86400) + 1) in
  let epoch := epoch mod 86400 in
  let h := u8 (epoch / 3600) in
  let epoch := epoch mod 3600 in
  Some (mk_time (u16 y) m d h (u8 (epoch / 60)) (u8 (epoch mod 60))).

(** The driver's globals [rtc_initialized] and [rtc_offset]. *)
Record rtc_state := mk_rtc { rtc_initialized : Z; rtc_offset : Z }.

Definition rtc_boot : rtc_state := mk_rtc 0 1700000000.

Definition make64 (high low : Z) : Z := Z.lor (Z.shiftl high 32) low.

Section driver.
Context {D : Type} `{!MmioDevice D}.

(** Returns with the date it prints. *)
Definition rtc_init (fuel : nat) (t0 : rtc_time_t) (s : rtc_state)
    : io D (option (Z * rtc_time_t * rtc_state)) :=
  write_reg RTC_BASE RTC_CTRL 1;;
  low ← read_reg RTC_BASE RTC_TIME_LOW;
  high ← read_reg RTC_BASE RTC_TIME_HIGH;
  let off := if truthy low || truthy high then make64 high low else rtc_offset s in
  mret (t ← epoch_to_time fuel off t0; Some (0, t, mk_rtc 1 off)).

Definition rtc_get_epoch (s : rtc_state) : io D Z :=
  if negb (truthy (rtc_initialized s)) then mret 0 else
  low ← read_reg RTC_BASE RTC_TIME_LOW;
  high ← read_reg RTC_BASE RTC_TIME_HIGH;
  mret (make64 high low).

Definition rtc_set_epoch (epoch : Z) (s : rtc_state) : io D rtc_state :=
  write_reg RTC_BASE RTC_TIME_LOW (Z.land epoch 0xFFFFFFFF);;
  write_reg RTC_BASE RTC_TIME_HIGH (Z.shiftr epoch 32);;
  mret (mk_rtc (rtc_initialized s) epoch).

Definition rtc_get_time (fuel : nat) (t0 : rtc_time_t) (s : rtc_state) : io D (option rtc_time_t) :=
  epoch ← rtc_get_epoch s;
  mret (epoch_to_time fuel epoch t0).

Definition rtc_set_time (t : rtc_time_t) (s : rtc_state) : io D (option rtc_state) :=
  match time_to_epoch t with
  | None => mret None
  | Some e => s' ← rtc_set_epoch e s; mret (Some s')
  end.

Definition rtc_set_alarm (epoch : Z) : io D unit :=
  write_reg RTC_BASE RTC_ALARM_LOW (Z.land epoch 0xFFFFFFFF);;
  write_reg RTC_BASE RTC_ALARM_HIGH (Z.shiftr epoch 32).

End driver.

(** ** The Gregorian calendar *)

(** Days from 1970-01-01 to the first day of year [y]. *)
Definition days_before (y : Z) : Z :=
  365 * (y - 1970) + ((y - 1) / 4 - (y - 1) / 100 + (y - 1) / 400) - 477.

Definition year_length (y : Z) : Z := if is_leap y then 366 else 365.

(** Days of the year before month [1 + n]. *)
Fixpoint month_days (y : Z) (n : nat) : Z :=
  match n with
  | O => 0
  | S n' => month_days y n' + days_in_month y (Z.of_nat n' + 1)
  end.

(** Seconds from the epoch to a date. *)
Definition seconds_of (t : rtc_time_t) : Z :=
  (days_before (year t) + month_days (year t) (Z.to_nat (month t - 1)) + (day t - 1)) * 86400 +
  hour t * 3600 + minute t * 60 + second t.

Record valid_time (t : rtc_time_t) : Prop := {
  vt_year : 1970 <= year t < 65536;
  vt_month : 1 <= month t <= 12;
  vt_day : 1 <= day t <= days_in_month (year t) (month t);
  vt_hour : 0 <= hour t < 24;
  vt_minute : 0 <= minute t < 60;
  vt_second : 0 <= second t < 60;
}.

(** The clock keeps what is written to its time registers. *)
Class KeepsTime (D : Type) `{!MmioDevice D} := {
  kt_read_low : forall lo hi d,
    (dev_read (RTC_BASE + RTC_TIME_LOW)
       (dev_write (RTC_BASE + RTC_TIME_HIGH) hi (dev_write (RTC_BASE + RTC_TIME_LOW) lo d))).1 = lo;
  kt_read_high : forall lo hi d,
    (dev_read (RTC_BASE + RTC_TIME_HIGH)
       (dev_read (RTC_BASE + RTC_TIME_LOW)
          (dev_write (RTC_BASE + RTC_TIME_HIGH) hi
             (dev_write (RTC_BASE + RTC_TIME_LOW) lo d))).2).1 = hi;
}.

#[export] Instance ram_keeps_time : KeepsTime (gmap Z Z).
Proof.
  split; intros lo hi d; cbn [dev_read dev_write ram_device fst snd].
  - by rewrite lookup_insert_ne, lookup_insert_eq by done.
  - by rewrite lookup_insert_eq.
Qed.

(** ** Calendar lemmas *)

Lemma is_leap_mod y : 0 <= y ->
  is_leap y = (y mod 4 =? 0) && negb (y mod 100 =? 0) || (y mod 400 =? 0).
Proof. intros. unfold is_leap. by rewrite !Z.rem_mod_nonneg by lia. Qed.

Lemma days_before_succ y : 0 <= y -> days_before (y + 1) = days_before y + year_length y.
Proof.
  intros Hy. unfold days_before, year_length. rewrite is_leap_mod by done.
  destruct (Z.eqb_spec (y mod 4) 0), (Z.eqb_spec (y mod 100) 0), (Z.eqb_spec (y mod 400) 0);
    cbn [andb orb negb]; lia.
Qed.

Lemma year_length_range y : 365 <= year_length y <= 366.
Proof. unfold year_length. case_match; lia. Qed.

Lemma days_before_mono y z : 0 <= y <= z -> days_before y + 365 * (z - y) <= days_before z.
Proof.
  intros [Hy Hyz]. replace z with (y + Z.of_nat (Z.to_nat (z - y))) by lia.
  induction (Z.to_nat (z - y)) as [|n IH]; [unfold days_before; lia|].
  rewrite Nat2Z.inj_succ. replace (y + Z.succ (Z.of_nat n)) with (y + Z.of_nat n + 1) by lia.
  rewrite days_before_succ by lia. pose proof (year_length_range (y + Z.of_nat n)). lia.
Qed.

(** The shortcut of [time_to_epoch] counts every fourth year as a leap year,
    which is right as long as no century year but 2000 has been passed. *)
Lemma short_days y : 1970 <= y <= 2100 -> (y - 1970) * 365 + Z.quot (y - 1969) 4 = days_before y.
Proof.
  intros. unfold days_before. rewrite Z.quot_div_nonneg by lia.
  assert ((y - 1) / 100 - (y - 1) / 400 = 15) by lia. lia.
Qed.

Lemma days_in_month_range y m : 1 <= m <= 12 -> 28 <= days_in_month y m <= 31.
Proof.
  intros. unfold days_in_month. case_match; [lia|].
  assert (m = 1 \/ m = 2 \/ m = 3 \/ m = 4 \/ m = 5 \/ m = 6 \/ m = 7 \/ m = 8 \/ m = 9 \/
    m = 10 \/ m = 11 \/ m = 12) as Hm by lia.
  destruct_or! Hm; subst m; vm_compute; split; congruence.
Qed.

Lemma month_days_year y : month_days y 12 = year_length y.
Proof.
  unfold year_length. cbn [month_days]. unfold days_in_month. simpl (Z.of_nat _).
  cbn [Z.add Z.eqb Pos.add Pos.eqb Pos.succ andb]. by destruct (is_leap y).
Qed.

Lemma month_days_range y n : (n <= 12)%nat -> 0 <= month_days y n <= 31 * Z.of_nat n.
Proof.
  induction n as [|n IH]; intros Hn; cbn [month_days]; [lia|].
  pose proof (days_in_month_range y (Z.of_nat n + 1) ltac:(lia)). lia.
Qed.

(** Months [1 + k ..] up to [12]. *)
Lemma month_days_le y n k : (n <= k <= 12)%nat -> month_days y n <= month_days y k.
Proof.
  intros [Hn Hk]. induction k as [|k IH]; [by replace n with O by lia|].
  destruct (decide (n = S k)) as [->|]; [lia|]. cbn [month_days].
  pose proof (days_in_month_range y (Z.of_nat k + 1) ltac:(lia)). specialize (IH ltac:(lia) ltac:(lia)). lia.
Qed.

(** ** The loops *)

(** The first second whose year is no [int]. *)
Definition end_of_years : Z := days_before (2 ^ 31) * 86400.

Lemma year_loop_spec fuel epoch y :
  0 <= y -> 0 <= epoch < Z.of_nat fuel * (365 * 86400) ->
  days_before y * 86400 + epoch < end_of_years ->
  exists e' y', year_loop fuel epoch y = Some (e', y') /\ y <= y' /\
    0 <= e' < year_length y' * 86400 /\
    days_before y' * 86400 + e' = days_before y * 86400 + epoch.
Proof.
  unfold end_of_years.
  revert epoch y. induction fuel as [|fuel IH]; intros epoch y Hy He Hend; [lia|]. cbn [year_loop].
  change (if is_leap y then 366 else 365) with (year_length y).
  pose proof (year_length_range y). pose proof (days_before_succ y Hy) as Hs.
  destruct (Z.ltb_spec epoch (year_length y * 86400)).
  - exists epoch, y. repeat split; lia.
  - destruct (Z.eqb_spec y (2 ^ 31 - 1)) as [->|].
    { replace (2 ^ 31 - 1 + 1) with (2 ^ 31) in Hs by done. lia. }
    destruct (IH (epoch - year_length y * 86400) (y + 1)) as (e' & y' & E & ? & ? & ?); [lia|lia|lia|].
    exists e', y'. rewrite E. repeat split; lia.
Qed.

(** From that second on the loop overflows its year, whatever the fuel. *)
Lemma year_loop_overflow fuel epoch y :
  0 <= y < 2 ^ 31 -> end_of_years <= days_before y * 86400 + epoch -> year_loop fuel epoch y = None.
Proof.
  unfold end_of_years.
  revert epoch y. induction fuel as [|fuel IH]; intros epoch y Hy He; [done|]. cbn [year_loop].
  change (if is_leap y then 366 else 365) with (year_length y).
  pose proof (days_before_succ y ltac:(lia)). pose proof (days_before_mono (y + 1) (2 ^ 31) ltac:(lia)).
  rewrite (proj2 (Z.ltb_ge _ _)) by lia. destruct (Z.eqb_spec y (2 ^ 31 - 1)); [done|]. apply IH; lia.
Qed.

Lemma epoch_to_time_overflow fuel epoch t0 : end_of_years <= epoch -> epoch_to_time fuel epoch t0 = None.
Proof. intros He. unfold epoch_to_time. by rewrite year_loop_overflow by (change (days_before 1970) with 0; lia). Qed.

Lemma month_loop_spec n y m epoch old :
  m = 13 - Z.of_nat n -> (n <= 12)%nat ->
  0 <= epoch -> epoch + month_days y (12 - n) * 86400 < year_length y * 86400 ->
  exists e' m', month_loop n y m epoch old = (e', m') /\ m <= m' <= 12 /\
    0 <= e' < days_in_month y m' * 86400 /\
    month_days y (Z.to_nat (m' - 1)) * 86400 + e' = month_days y (12 - n) * 86400 + epoch.
Proof.
  revert m epoch. induction n as [|n IH]; intros m epoch -> Hn He Hy.
  - rewrite Nat.sub_0_r, month_days_year in Hy. lia.
  - cbn [month_loop]. set (mm := 13 - Z.of_nat (S n)) in *.
    assert (month_days y (12 - n) = month_days y (12 - S n) + days_in_month y mm) as Hs.
    { replace (12 - n)%nat with (S (12 - S n)) by lia. cbn [month_days]. do 2 f_equal. lia. }
    destruct (Z.ltb_spec epoch (days_in_month y mm * 86400)).
    + exists epoch, mm. replace (Z.to_nat (mm - 1)) with (12 - S n)%nat by lia. repeat split; lia.
    + destruct (IH (mm + 1) (epoch - days_in_month y mm * 86400)) as (e' & m' & E & ? & ? & ?);
        [lia|lia|lia|lia|].
      exists e', m'. rewrite E. repeat split; lia.
Qed.

Lemma add_months_spec n y i days :
  i = Z.of_nat (Z.to_nat (i - 1)) + 1 -> (Z.to_nat (i - 1) + n <= 12)%nat ->
  0 <= days < 2 ^ 40 + month_days y (Z.to_nat (i - 1)) ->
  add_months n y i days = days + (month_days y (Z.to_nat (i - 1) + n) - month_days y (Z.to_nat (i - 1))).
Proof.
  revert i days. induction n as [|n IH]; intros i days Hi Hn Hd; cbn [add_months].
  { rewrite Nat.add_0_r. lia. }
  pose proof (days_in_month_range y i ltac:(lia)).
  pose proof (month_days_range y (Z.to_nat (i - 1)) ltac:(lia)).
  assert (month_days y (S (Z.to_nat (i - 1))) = month_days y (Z.to_nat (i - 1)) + days_in_month y i) as Hs
    by (cbn [month_days]; by rewrite <-Hi).
  rewrite wrap_small by lia.
  rewrite IH; replace (Z.to_nat (i + 1 - 1)) with (S (Z.to_nat (i - 1))) by lia; [|lia|lia|lia].
  replace (S (Z.to_nat (i - 1)) + n)%nat with (Z.to_nat (i - 1) + S n)%nat by lia. lia.
Qed.

(** ** Correctness of the conversions *)

(** The loops end, also past the last year a date holds, for every instant whose
    year is an [int]. *)
Lemma epoch_to_time_ends fuel epoch t0 :
  0 <= epoch < Z.of_nat fuel * (365 * 86400) -> epoch < end_of_years -> is_Some (epoch_to_time fuel epoch t0).
Proof.
  intros He Hend. unfold epoch_to_time.
  destruct (year_loop_spec fuel epoch 1970) as (e & y & -> & _); [lia|done|by change (days_before 1970) with 0|].
  cbn -[month_loop]. destruct (month_loop _ _ _ _ _). by eexists.
Qed.

Lemma epoch_to_time_spec fuel epoch t0 :
  0 <= epoch < days_before 65536 * 86400 -> epoch < Z.of_nat fuel * (365 * 86400) ->
  exists t, epoch_to_time fuel epoch t0 = Some t /\ valid_time t /\ seconds_of t = epoch.
Proof.
  intros He Hf. unfold epoch_to_time.
  destruct (year_loop_spec fuel epoch 1970) as (e1 & y & -> & Hy & He1 & Hsum); [lia|lia| |].
  { unfold end_of_years. change (days_before 1970) with 0. pose proof (days_before_mono 65536 (2 ^ 31) ltac:(lia)). lia. }
  assert (y < 65536).
  { destruct (Z.lt_ge_cases y 65536) as [|Hge]; [done|].
    pose proof (days_before_mono 65536 y ltac:(lia)). change (days_before 1970) with 0 in Hsum. lia. }
  cbn [mbind option_bind].
  destruct (month_loop_spec 12 y 1 e1 (month t0)) as (e2 & m & -> & Hm & He2 & Hmsum);
    [done|lia|lia|simpl; lia|].
  change (month_days y (12 - 12)) with 0 in Hmsum. change (days_before 1970) with 0 in Hsum.
  pose proof (days_in_month_range y m ltac:(lia)).
  eexists. split; [reflexivity|].
  rewrite (wrap_small 16 y), (wrap_small 8 (e2 / 86400)), !(wrap_small 8) by lia.
  split; [constructor; cbn [year month day hour minute second]; lia|].
  unfold seconds_of. cbn [year month day hour minute second]. lia.
Qed.

Lemma time_to_epoch_spec t :
  valid_time t -> year t <= 2100 -> time_to_epoch t = Some (seconds_of t).
Proof.
  intros [Hy Hm Hd Hh Hmi Hs] Hc. unfold time_to_epoch, seconds_of.
  rewrite short_days by lia. rewrite (proj2 (Z.ltb_ge _ _)) by lia.
  pose proof (days_before_mono 1970 (year t) ltac:(lia)) as Hlo.
  pose proof (days_before_mono (year t) 2100 ltac:(lia)) as Hhi.
  change (days_before 1970) with 0 in Hlo. change (days_before 2100) with 47482 in Hhi.
  pose proof (days_in_month_range (year t) (month t) Hm).
  pose proof (month_days_range (year t) (Z.to_nat (month t - 1)) ltac:(lia)).
  rewrite (wrap_small 64 (days_before _)) by lia.
  rewrite add_months_spec; [|lia|lia|simpl; lia].
  change (Z.to_nat (1 - 1)) with O. rewrite Nat.add_0_l. cbn [month_days]. rewrite Z.sub_0_r.
  rewrite (wrap_small 64 (day t - 1)) by lia. rewrite (wrap_small 64 (_ + (day t - 1))) by lia.
  by rewrite wrap_small by lia.
Qed.

(** A date is determined by its seconds. *)
Lemma seconds_of_inj t t' :
  valid_time t -> valid_time t' -> seconds_of t = seconds_of t' -> t = t'.
Proof.
  intros [Hy Hm Hd Hh Hmi Hs] [Hy' Hm' Hd' Hh' Hmi' Hs'] E.
  destruct t as [y m d h mi s], t' as [y' m' d' h' mi' s'].
  unfold seconds_of in E. cbn [year month day hour minute second] in *.
  assert (forall y m d, 1970 <= y -> 1 <= m <= 12 -> 1 <= d <= days_in_month y m ->
    days_before y <= days_before y + month_days y (Z.to_nat (m - 1)) + (d - 1) < days_before (y + 1)) as Hin.
  { intros z k e Hz Hk He. rewrite days_before_succ by lia.
    pose proof (month_days_range z (Z.to_nat (k - 1)) ltac:(lia)).
    pose proof (month_days_le z (S (Z.to_nat (k - 1))) 12 ltac:(lia)) as Hle.
    rewrite month_days_year in Hle. cbn [month_days] in Hle.
    replace (Z.of_nat (Z.to_nat (k - 1)) + 1) with k in Hle by lia. lia. }
  pose proof (Hin y m d ltac:(lia) Hm Hd). pose proof (Hin y' m' d' ltac:(lia) Hm' Hd').
  assert (y = y') as <-.
  { destruct (Z.lt_trichotomy y y') as [Hlt|[|Hlt]]; [|done|].
    - pose proof (days_before_mono (y + 1) y' ltac:(lia)). lia.
    - pose proof (days_before_mono (y' + 1) y ltac:(lia)). lia. }
  assert (forall k k', 1 <= k -> k < k' -> k' <= 12 ->
    month_days y (Z.to_nat (k - 1)) + days_in_month y k <= month_days y (Z.to_nat (k' - 1))) as Hmono.
  { intros k k' Hk Hlt Hle. pose proof (month_days_le y (S (Z.to_nat (k - 1))) (Z.to_nat (k' - 1)) ltac:(lia)) as Hs1.
    cbn [month_days] in Hs1. by replace (Z.of_nat (Z.to_nat (k - 1)) + 1) with k in Hs1 by lia. }
  assert (m = m') as <-.
  { destruct (Z.lt_trichotomy m m') as [Hlt|[|Hlt]]; [|done|].
    - pose proof (Hmono m m' ltac:(lia) Hlt ltac:(lia)). lia.
    - pose proof (Hmono m' m ltac:(lia) Hlt ltac:(lia)). lia. }
  assert (d = d') as <- by lia. assert (h = h') as <- by lia. assert (mi = mi') as <- by lia.
  f_equal. lia.
Qed.

Lemma make64_split e : 0 <= e < 2 ^ 64 -> make64 (u32 (Z.shiftr e 32)) (u32 (Z.land e 0xFFFFFFFF)) = e.
Proof.
  intros He. unfold make64. rewrite Z.shiftr_div_pow2, Z.shiftl_mul_pow2 by lia.
  change 0xFFFFFFFF with (Z.ones 32). rewrite Z.land_ones, (wrap_small 32 (e / 2 ^ 32)), (wrap_small 32 (e mod 2 ^ 32)) by lia.
  rewrite lor_low by lia. lia.
Qed.

Section driver_theorems.
Context {D : Type} `{!MmioDevice D, !KeepsTime D}.

Lemma rtc_get_set_epoch e s (b : bus D) :
  0 <= e < 2 ^ 64 -> rtc_initialized s <> 0 ->
  let '(s', b') := rtc_set_epoch e s b in
  rtc_initialized s' = rtc_initialized s /\ (rtc_get_epoch s' b').1 = e.
Proof.
  intros He Hi. unfold rtc_set_epoch. io_run. unfold write_reg. cbv beta iota zeta.
  split; [done|]. unfold rtc_get_epoch. cbn [rtc_initialized].
  unfold truthy. rewrite (proj2 (Z.eqb_neq _ _)) by done. cbn [negb].
  io_run. unfold read_reg. cbn [bus_dev bus_log].
  destruct (dev_read (RTC_BASE + RTC_TIME_LOW) _) as [lo d1] eqn:E1.
  pose proof (f_equal fst E1) as Hlo. rewrite kt_read_low in Hlo. simpl in Hlo.
  cbn [bus_dev bus_log].
  destruct (dev_read (RTC_BASE + RTC_TIME_HIGH) d1) as [hi d2] eqn:E2.
  pose proof (f_equal snd E1) as Hd1. simpl in Hd1. rewrite <-Hd1 in E2.
  pose proof (f_equal fst E2) as Hhi. rewrite kt_read_high in Hhi. simpl in Hhi.
  cbn [fst]. subst lo hi. rewrite !wrap_wrap by lia. by apply make64_split.
Qed.

(** Setting a valid date between 1970 and 2100 and reading the clock back
    gives the same date, whatever the registers held before: [time_to_epoch],
    the split into two 32-bit registers, their recombination and
    [epoch_to_time] undo each other. *)
Theorem rtc_set_get_time fuel t t0 s (b : bus D) :
  valid_time t -> year t <= 2100 -> rtc_initialized s <> 0 -> (132 <= fuel)%nat ->
  exists s' b', rtc_set_time t s b = (Some s', b') /\ (rtc_get_time fuel t0 s' b').1 = Some t.
Proof.
  intros Ht Hy Hi Hf. unfold rtc_set_time. rewrite time_to_epoch_spec by done. io_run.
  pose proof Ht as [Hy' Hm Hd Hh Hmi Hs].
  assert (0 <= seconds_of t < days_before 2101 * 86400) as Hr.
  { unfold seconds_of.
    pose proof (days_before_mono 1970 (year t) ltac:(lia)) as Hlo. change (days_before 1970) with 0 in Hlo.
    pose proof (month_days_range (year t) (Z.to_nat (month t - 1)) ltac:(lia)).
    pose proof (days_before_mono (year t + 1) 2101 ltac:(lia)).
    rewrite (days_before_succ (year t)) in * by lia.
    pose proof (month_days_le (year t) (S (Z.to_nat (month t - 1))) 12 ltac:(lia)) as Hle.
    rewrite month_days_year in Hle. cbn [month_days] in Hle.
    replace (Z.of_nat (Z.to_nat (month t - 1)) + 1) with (month t) in Hle by lia. lia. }
  change (days_before 2101) with 47847 in Hr.
  pose proof (rtc_get_set_epoch (seconds_of t) s b ltac:(lia) Hi) as Hget.
  destruct (rtc_set_epoch (seconds_of t) s b) as [s' b'] eqn:E. destruct Hget as [_ Hget].
  exists s', b'. split; [done|]. unfold rtc_get_time. io_run.
  destruct (rtc_get_epoch s' b') as [e b'']. simpl in Hget. subst e. cbn [fst].
  destruct (epoch_to_time_spec fuel (seconds_of t) t0) as (t' & -> & Hv & Hsec);
    [change (days_before 65536) with 23217004; lia|lia|].
  f_equal. by apply seconds_of_inj.
Qed.

End driver_theorems.

(** C37: [epoch_to_time] ends for every instant before the year 65536, after at
    most one iteration per 365 days, and gives the Gregorian date of that
    instant: a valid date whose distance from 1970-01-01 is the given number of
    seconds. *)
Theorem epoch_to_time_correct epoch t0 :
  0 <= epoch < days_before 65536 * 86400 ->
  exists t, epoch_to_time (Z.to_nat (epoch / (365 * 86400)) + 1) epoch t0 = Some t /\
    valid_time t /\ seconds_of t = epoch /\
    forall t', valid_time t' -> seconds_of t' = epoch -> t' = t.
Proof.
  intros He. destruct (epoch_to_time_spec (Z.to_nat (epoch / (365 * 86400)) + 1) epoch t0)
    as (t & E & Hv & Hs); [done|lia|].
  exists t. do 3 (split; [done|]). intros t' Hv' <-. symmetry. by apply seconds_of_inj.
Qed.

(** From 2101 on [time_to_epoch] is a day late: 2100 was no leap year. *)
Lemma time_to_epoch_century :
  time_to_epoch (mk_time 2101 1 1 0 0 0) = Some (seconds_of (mk_time 2101 1 1 0 0 0) + 86400).
Proof. reflexivity. Qed.

Definition date0 : rtc_time_t := mk_time 2024 2 29 23 59 58.

Lemma date0_valid : valid_time date0.
Proof. constructor; simpl; try (vm_compute; split; congruence); lia. Defined.

Lemma rtc_set_get_time_witness :
  exists s' b', rtc_set_time date0 (mk_rtc 1 0) (mk_bus (∅ : gmap Z Z) []) = (Some s', b') /\
    (rtc_get_time 132 date0 s' b').1 = Some date0.
Proof. apply (rtc_set_get_time 132 date0 date0 (mk_rtc 1 0) _ date0_valid); simpl; lia. Defined.

Lemma epoch_to_time_correct_witness :
  exists t, epoch_to_time (Z.to_nat (1700000000 / (365 * 86400)) + 1) 1700000000 date0 = Some t /\
    valid_time t /\ seconds_of t = 1700000000 /\
    forall t', valid_time t' -> seconds_of t' = 1700000000 -> t' = t.
Proof. apply (epoch_to_time_correct 1700000000 date0). vm_compute. split; congruence. Defined.

End Rtc.
