(* ===== verification/Board.v ===== *)
(** * Board support for the SM8250

    Models kernel/bsp/sm8250/sm8250.c over an arbitrary device: power
    controller, display, touch screen, modem and sensors, and the start-up of
    the board.  [slpi_read_accel] and [slpi_read_gyro] scale to floating point;
    the integers they scale are modelled.  The firmware copied to the modem is
    the list of its bytes. *)

From stdpp Require Import base numbers list option tactics gmap.
From S2P Require Import Prelude Mmio.

Module Board.

Definition SM8250_PMIC_BASE : Z := 0x0AF0000.
Definition SM8250_TLMM_BASE : Z := 0x0F00000.
Definition SM8250_MSS_BASE : Z := 0x04080000.
Definition SM8250_DISPLAY_BASE : Z := 0x0AE00000.
Definition SM8250_SENSOR_BASE : Z := 0x0C2F0000.

Definition PM8150_REVISION : Z := 0x0000.
Definition PM8150_CHG_CTRL : Z := 0x4500.
Definition PM8150_CHG_STATUS : Z := 0x4508.
Definition PM8150_FG_VOLTAGE : Z := 0x4708.
Definition PM8150_FG_TEMP : Z := 0x4710.
Definition PM8150_FG_SOC : Z := 0x4718.

Definition MDSS_CTRL : Z := 0x00000.
Definition MDSS_INTF_CTRL : Z := 0x00100.
Definition MDSS_DSI0_CTRL : Z := 0x10000.
Definition MDSS_DSI0_PHY : Z := 0x10080.
Definition MDSS_MDP_CTRL : Z := 0x01000.

Definition TOUCH_INT_GPIO : Z := 96.
Definition TOUCH_RST_GPIO : Z := 97.

Definition MSS_CTRL : Z := 0x00000.
Definition MSS_STATUS : Z := 0x00004.
Definition MSS_PIL_ADDR : Z := 0x01000.
Definition MSS_PIL_SIZE : Z := 0x200000.

Definition SLPI_CTRL : Z := 0x00000.
Definition SLPI_ACCEL_DATA : Z := 0x00100.
Definition SLPI_GYRO_DATA : Z := 0x00108.
Definition SLPI_LIGHT_DATA : Z := 0x00118.
Definition SLPI_PROX_DATA : Z := 0x00120.

Section board.
Context {D : Type} `{!MmioDevice D}.

Definition pm8150_init : io D Z :=
  read_reg SM8250_PMIC_BASE PM8150_REVISION;;
  write_reg SM8250_PMIC_BASE PM8150_CHG_CTRL 1;;
  mret 0.

Definition pm8150_charger_status : io D Z :=
  v ← read_reg SM8250_PMIC_BASE PM8150_CHG_STATUS; mret (Z.land v 1).

Definition pm8150_battery_soc : io D Z :=
  v ← read_reg SM8250_PMIC_BASE PM8150_FG_SOC; mret (Z.land v 0xFF).

Definition pm8150_battery_voltage : io D Z :=
  v ← read_reg SM8250_PMIC_BASE PM8150_FG_VOLTAGE; mret (s32 v).

Definition pm8150_battery_temp : io D Z :=
  v ← read_reg SM8250_PMIC_BASE PM8150_FG_TEMP; mret (swrap 8 (Z.land v 0xFF)).

Definition pm8150_charger_enable (on : bool) : io D unit :=
  write_reg SM8250_PMIC_BASE PM8150_CHG_CTRL (if on then 1 else 0).

Definition mdss_init : io D Z :=
  write_reg SM8250_DISPLAY_BASE MDSS_DSI0_CTRL 0;;
  write_reg SM8250_DISPLAY_BASE MDSS_DSI0_PHY 0x3FF;;
  write_reg SM8250_DISPLAY_BASE MDSS_MDP_CTRL 1;;
  write_reg SM8250_DISPLAY_BASE MDSS_INTF_CTRL (Z.lor (Z.shiftl 1080 16) 2340);;
  mret 0.

Definition mdss_panel_on : io D unit := write_reg SM8250_DISPLAY_BASE MDSS_CTRL 1.
Definition mdss_panel_off : io D unit := write_reg SM8250_DISPLAY_BASE MDSS_CTRL 0.

Definition mdss_set_brightness (level : Z) : io D unit :=
  let level := if 255 <? level then 255 else level in
  write_reg (SM8250_PMIC_BASE + 0x5000) 0 level.

Definition touch_init : io D Z :=
  write_reg SM8250_TLMM_BASE (TOUCH_RST_GPIO * 4) 0x03;;
  write_reg SM8250_TLMM_BASE (TOUCH_INT_GPIO * 4) 0x00;;
  write_reg SM8250_TLMM_BASE (TOUCH_RST_GPIO * 4) 0;;
  mret 0.

Definition touch_power_on : io D unit := write_reg SM8250_TLMM_BASE (TOUCH_RST_GPIO * 4) 0x03.
Definition touch_power_off : io D unit := write_reg SM8250_TLMM_BASE (TOUCH_RST_GPIO * 4) 0.

Definition mss_init : io D Z :=
  write_reg SM8250_MSS_BASE MSS_CTRL 1;;
  read_reg SM8250_MSS_BASE MSS_STATUS;;
  mret 0.

(** The bytes copied, and where to. *)
Definition mss_load_firmware (fw : list Z) (size : Z) : io D (Z * option (Z * list Z)) :=
  if MSS_PIL_SIZE <? size then mret (-1, None) else
  copy_mem (SM8250_MSS_BASE + MSS_PIL_ADDR) size;;
  mret (0, Some (SM8250_MSS_BASE + MSS_PIL_ADDR, take (Z.to_nat size) fw)).

Definition mss_start : io D Z := write_reg SM8250_MSS_BASE MSS_CTRL 3;; mret 0.

Definition slpi_init : io D Z := write_reg SM8250_SENSOR_BASE SLPI_CTRL 1;; mret 0.

(** The signed halves of a sensor word. *)
Definition halves (raw : Z) : Z * Z :=
  (swrap 16 (Z.land raw 0xFFFF), swrap 16 (Z.land (Z.shiftr raw 16) 0xFFFF)).

Definition slpi_read_accel : io D (Z * Z) :=
  raw ← read_reg SM8250_SENSOR_BASE SLPI_ACCEL_DATA; mret (halves raw).

Definition slpi_read_gyro : io D (Z * Z) :=
  raw ← read_reg SM8250_SENSOR_BASE SLPI_GYRO_DATA; mret (halves raw).

Definition slpi_read_light : io D Z :=
  v ← read_reg SM8250_SENSOR_BASE SLPI_LIGHT_DATA; mret (Z.land v 0xFFFF).

Definition slpi_read_proximity : io D Z :=
  v ← read_reg SM8250_SENSOR_BASE SLPI_PROX_DATA; mret (Z.land v 0xFFFF).

Definition sm8250_init : io D Z :=
  pm8150_init;; mdss_init;; touch_init;; mss_init;; slpi_init;;
  pm8150_battery_soc;; pm8150_battery_voltage;; pm8150_battery_temp;; pm8150_charger_status;;
  slpi_read_light;; slpi_read_proximity;;
  mdss_panel_on;; mdss_set_brightness 128;;
  mret 0.

(** The writes after which the board waits for ever. *)
Definition sm8250_poweroff : io D unit :=
  mdss_panel_off;; pm8150_charger_enable false;; write_reg SM8250_PMIC_BASE 0x4F00 0x10.

Definition sm8250_reboot : io D unit := write_reg SM8250_PMIC_BASE 0x4F00 0x20.

(** ** Theorems *)

Lemma emits_charger on :
  emits (pm8150_charger_enable on) [(SM8250_PMIC_BASE + PM8150_CHG_CTRL, if on then 1 else 0)].
Proof. destruct on; apply emits_write. Qed.

(** The level written is at most 255. *)
Lemma emits_brightness level :
  0 <= level < 2 ^ 32 -> emits (mdss_set_brightness level) [(SM8250_PMIC_BASE + 0x5000 + 0, Z.min level 255)].
Proof.
  intros Hl. unfold mdss_set_brightness.
  replace (Z.min level 255) with (u32 (if 255 <? level then 255 else level)); [apply emits_write|].
  destruct (Z.ltb_spec 255 level); rewrite wrap_small by lia; lia.
Qed.

(** Whatever the devices answer, the board starts with exactly these register
    writes: charger on, display interface at 1080 by 2340, touch screen reset,
    modem and sensor processor started, and only then the panel on at half
    brightness. *)
Theorem sm8250_init_writes :
  emits sm8250_init
    [(SM8250_PMIC_BASE + PM8150_CHG_CTRL, 1);
     (SM8250_DISPLAY_BASE + MDSS_DSI0_CTRL, 0); (SM8250_DISPLAY_BASE + MDSS_DSI0_PHY, 0x3FF);
     (SM8250_DISPLAY_BASE + MDSS_MDP_CTRL, 1); (SM8250_DISPLAY_BASE + MDSS_INTF_CTRL, 1080 * 2 ^ 16 + 2340);
     (SM8250_TLMM_BASE + TOUCH_RST_GPIO * 4, 3); (SM8250_TLMM_BASE + TOUCH_INT_GPIO * 4, 0);
     (SM8250_TLMM_BASE + TOUCH_RST_GPIO * 4, 0);
     (SM8250_MSS_BASE + MSS_CTRL, 1); (SM8250_SENSOR_BASE + SLPI_CTRL, 1);
     (SM8250_DISPLAY_BASE + MDSS_CTRL, 1); (SM8250_PMIC_BASE + 0x5000 + 0, 128)].
Proof.
  match goal with |- emits _ ?ws => evar (l : list (Z * Z)); assert (emits sm8250_init l) as H end.
  { unfold l, sm8250_init, pm8150_init, mdss_init, touch_init, mss_init, slpi_init, pm8150_battery_soc,
      pm8150_battery_voltage, pm8150_battery_temp, pm8150_charger_status, slpi_read_light,
      slpi_read_proximity, mdss_panel_on, mdss_set_brightness. emits_run. }
  exact H.
Qed.

(** [touch_init] ends with the write of [touch_power_off]: the touch screen is
    off until [touch_power_on] is called. *)
Lemma touch_init_leaves_off :
  exists ws, emits touch_init (ws ++ [(SM8250_TLMM_BASE + TOUCH_RST_GPIO * 4, 0)]).
Proof.
  exists [(SM8250_TLMM_BASE + TOUCH_RST_GPIO * 4, 3); (SM8250_TLMM_BASE + TOUCH_INT_GPIO * 4, 0)].
  evar (l : list (Z * Z)). assert (emits touch_init l) as H by (unfold l, touch_init; emits_run). exact H.
Qed.

(** The battery's temperature is a signed byte. *)
Lemma battery_temp_range b : -128 <= (pm8150_battery_temp b).1 < 128.
Proof.
  unfold pm8150_battery_temp, read_reg. io_run. destruct (dev_read _ _) as [v d]. simpl.
  unfold swrap. change (2 ^ (8 - 1)) with 128. change (2 ^ 8) with 256. lia.
Qed.
End board.

End Board.
