(* ===== verification/Power.v ===== *)
(** * Mobile power management

    Models kernel/bsp/sm8250/drivers/power_mgmt.c over an arbitrary device: the
    start-up, suspend and resume, the CPU frequency and the reaction to heat.
    The theorem follows any sequence of these operations through the registers
    they write. *)

From stdpp Require Import base numbers list option tactics gmap.
From S2P Require Import Prelude Mmio Board.
Import Board.

Module Power.

Definition LPM_BASE : Z := 0x0B00000.
Definition THERMAL_BASE : Z := 0x0D00000.
Definition CPUFREQ_BASE : Z := 0x0E00000.

Section power.
Context {D : Type} `{!MmioDevice D}.

Definition mobile_power_init : io D Z :=
  write_reg LPM_BASE 0x00 0x07;;
  write_reg LPM_BASE 0x04 0x01;;
  write_reg CPUFREQ_BASE 0x00 300000;;
  write_reg CPUFREQ_BASE 0x04 2840000;;
  write_reg CPUFREQ_BASE 0x08 825000;;
  write_reg THERMAL_BASE 0x00 70000;;
  write_reg THERMAL_BASE 0x04 85000;;
  pm8150_battery_soc;;
  mret 0.

(** The argument and the result are the static variable [suspended]. *)
Definition mobile_suspend (suspended : bool) : io D bool :=
  if suspended then mret suspended else
  mdss_panel_off;;
  pm8150_charger_enable false;;
  write_reg LPM_BASE 0x10 1;;
  mret true.

Definition mobile_resume (suspended : bool) : io D bool :=
  if negb suspended then mret suspended else
  write_reg LPM_BASE 0x10 0;;
  pm8150_charger_enable true;;
  mdss_panel_on;;
  mdss_set_brightness 128;;
  mret false.

Definition mobile_set_cpufreq (khz : Z) : io D Z :=
  let khz := if khz <? 300000 then 300000 else khz in
  let khz := if 2840000 <? khz then 2840000 else khz in
  write_reg CPUFREQ_BASE 0x100 khz;;
  mret 0.

Definition mobile_get_temp : io D Z := v ← read_reg THERMAL_BASE 0x100; mret (s32 v).

Definition mobile_cool_down : io D unit :=
  temp ← mobile_get_temp;
  if 70000 <? temp then
    mobile_set_cpufreq 300000;;
    mdss_set_brightness 64
  else mret ().

(** ** Sequences of operations *)

Inductive power_op := Suspend | Resume | SetFreq (khz : Z) | CoolDown.

Definition step (o : power_op) (suspended : bool) : io D bool :=
  match o with
  | Suspend => mobile_suspend suspended
  | Resume => mobile_resume suspended
  | SetFreq khz => mobile_set_cpufreq khz;; mret suspended
  | CoolDown => mobile_cool_down;; mret suspended
  end.

Fixpoint run (ops : list power_op) (suspended : bool) : io D bool :=
  match ops with
  | [] => mret suspended
  | o :: ops' => s ← step o suspended; run ops' s
  end.
End power.

(** ** What the registers hold *)

(** The last value written to an address. *)
Definition last_write (a : Z) (ws : list (Z * Z)) : option Z :=
  snd <$> last (filter (fun w => w.1 = a) ws).

Definition sleep_reg : Z := LPM_BASE + 0x10.
Definition charger_reg : Z := SM8250_PMIC_BASE + PM8150_CHG_CTRL.
Definition panel_reg : Z := SM8250_DISPLAY_BASE + MDSS_CTRL.
Definition brightness_reg : Z := SM8250_PMIC_BASE + 0x5000.
Definition freq_reg : Z := CPUFREQ_BASE + 0x100.

Definition freq_ok (ws : list (Z * Z)) : Prop :=
  Forall (fun w => (w.1 = freq_reg -> 300000 <= w.2 <= 2840000) /\ (w.1 = brightness_reg -> 0 <= w.2 <= 255)) ws.

(** Suspended: low-power mode on, charger and panel off; awake: the reverse. *)
Definition agrees (suspended : bool) (ws : list (Z * Z)) : Prop :=
  last_write sleep_reg ws = Some (if suspended then 1 else 0) /\
  last_write charger_reg ws = Some (if suspended then 0 else 1) /\
  last_write panel_reg ws = Some (if suspended then 0 else 1).

Lemma last_write_app a ws1 ws2 :
  last_write a (ws1 ++ ws2) =
    match last_write a ws2 with Some v => Some v | None => last_write a ws1 end.
Proof.
  unfold last_write. rewrite filter_app, last_app. by destruct (last (filter _ ws2)).
Qed.

Lemma agrees_app s ws1 ws2 :
  agrees s ws1 -> (forall w, w ∈ ws2 -> w.1 <> sleep_reg /\ w.1 <> charger_reg /\ w.1 <> panel_reg) ->
  agrees s (ws1 ++ ws2).
Proof.
  intros (H1 & H2 & H3) Hw. unfold agrees. rewrite !last_write_app.
  assert (forall a, (forall w, w ∈ ws2 -> w.1 <> a) -> last_write a ws2 = None) as Hn.
  { clear. intros a Ha. unfold last_write. induction ws2 as [|w ws IH]; [done|].
    rewrite filter_cons_False by (apply Ha; by left). apply IH. intros w' Hw'. apply Ha. by right. }
  rewrite !Hn; [done|intros w Hin; by destruct (Hw w Hin) as (? & ? & ?)..].
Qed.

Section theorems.
Context {D : Type} `{!MmioDevice D}.

(** The writes of one operation; only [CoolDown] depends on the device. *)
Lemma step_writes o s (b : bus D) :
  (forall k, o = SetFreq k -> 0 <= k < 2 ^ 32) ->
  exists evs, bus_log (step o s b).2 = bus_log b ++ evs /\ freq_ok (writes_of evs) /\
    (agrees (step o s b).1 (writes_of evs) \/
     (step o s b).1 = s /\
     forall w, w ∈ writes_of evs -> w.1 <> sleep_reg /\ w.1 <> charger_reg /\ w.1 <> panel_reg).
Proof.
  intros Hk. destruct o as [| |k|]; simpl.
  - unfold mobile_suspend. destruct s.
    + exists []. rewrite app_nil_r. split_and!; [done|constructor|right; split; [done|]]. intros w Hw. inversion Hw.
    + unfold mdss_panel_off, pm8150_charger_enable, write_reg. io_run. cbn [snd fst bus_log].
      eexists [_; _; _]. rewrite <-!app_assoc. split; [reflexivity|]. split; [repeat constructor; done|left; done].
  - unfold mobile_resume. destruct s; cbn [negb].
    + unfold mdss_panel_on, mdss_set_brightness, pm8150_charger_enable, write_reg. io_run. cbn [snd fst bus_log].
      eexists [_; _; _; _]. rewrite <-!app_assoc. split; [reflexivity|]. split; [repeat constructor; done|left; done].
    + exists []. rewrite app_nil_r. split_and!; [done|constructor|right; split; [done|]]. intros w Hw. inversion Hw.
  - unfold mobile_set_cpufreq, write_reg. io_run. cbn [snd fst bus_log].
    eexists [_]. split; [reflexivity|]. specialize (Hk k eq_refl). split.
    + constructor; [|constructor]. simpl. split; [|done]. intros _.
      rewrite wrap_small; repeat case_match; lia.
    + right. split; [done|]. intros w Hw. apply list_elem_of_singleton in Hw as ->. done.
  - unfold mobile_cool_down, mobile_get_temp, read_reg. io_run.
    destruct (dev_read _ _) as [v d]. destruct (70000 <? _).
    + unfold mobile_set_cpufreq, mdss_set_brightness, write_reg. io_run. cbn [snd fst bus_log].
      eexists [_; _; _]. rewrite <-!app_assoc. split; [reflexivity|]. split; [repeat constructor; done|].
      right. split; [done|]. intros w Hw. simpl in Hw. set_unfold in Hw. by destruct Hw as [-> |[-> |[]]].
    + cbn [snd fst bus_log]. eexists [_]. split; [reflexivity|]. split; [constructor|].
      right. split; [done|]. intros w Hw. inversion Hw.
Qed.

(** Whatever the devices answer, after any sequence of suspends, resumes,
    frequency changes and thermal checks the registers agree with the driver's
    state: suspended means low-power mode on and charger and panel off, awake
    the reverse; and no frequency outside 300 MHz to 2.84 GHz and no brightness
    above 255 is ever written. *)
Theorem power_registers_agree (ops : list power_op) (s : bool) (b : bus D) :
  Forall (fun o => forall k, o = SetFreq k -> 0 <= k < 2 ^ 32) ops ->
  agrees s (writes_of (bus_log b)) -> freq_ok (writes_of (bus_log b)) ->
  let '(s', b') := run ops s b in
  agrees s' (writes_of (bus_log b')) /\ freq_ok (writes_of (bus_log b')).
Proof.
  revert s b. induction ops as [|o ops IH]; intros s b Hops Ha Hf; simpl; [done|].
  apply Forall_cons in Hops as [Ho Hops].
  destruct (step_writes o s b Ho) as (evs & E & Hf' & Hstep). io_run.
  destruct (step o s b) as [s1 b1]. cbn [fst snd] in *.
  apply IH; [done| |]; rewrite E, writes_of_app.
  - destruct Hstep as [(H1 & H2 & H3)|[-> Hw]]; [|by apply agrees_app].
    unfold agrees. by rewrite !last_write_app, H1, H2, H3.
  - by apply Forall_app.
Qed.
End theorems.

Definition awake_bus : bus (gmap Z Z) :=
  mk_bus ∅ [IoWrite sleep_reg 0; IoWrite charger_reg 1; IoWrite panel_reg 1].

Lemma power_registers_agree_witness :
  let '(s', b') := run [Suspend; CoolDown; Suspend; SetFreq 9000000] false awake_bus in
  agrees s' (writes_of (bus_log b')) /\ freq_ok (writes_of (bus_log b')).
Proof.
  apply (power_registers_agree [Suspend; CoolDown; Suspend; SetFreq 9000000] false awake_bus).
  - repeat (apply Forall_cons_2 || apply Forall_nil_2); intros k E; try discriminate E. injection E as <-. lia.
  - split_and!; reflexivity.
  - repeat constructor; intros E; by vm_compute in E.
Defined.

End Power.
