(* ===== verification/Display.v ===== *)
(** * Framebuffer

    Models kernel/bsp/sm8250/drivers/display_fb.c and the boot animation of
    drivers/init.c: registers over an arbitrary device, the framebuffer as
    memory from addresses to 32-bit pixels. *)

From stdpp Require Import base numbers list option tactics gmap.
From S2P Require Import Prelude Mmio Board.
Import Board.

Module Display.

Definition FB_WIDTH : Z := 1080.
Definition FB_HEIGHT : Z := 2340.
Definition FB_BPP : Z := 32.
Definition FB_STRIDE : Z := FB_WIDTH * (FB_BPP / 8).
Definition FB_SIZE : Z := FB_STRIDE * FB_HEIGHT.
Definition FB_ADDR : Z := 0x9D000000.

Record fb_state := mk_fb { fb_ready : Z; fb_mem : Z -> Z }.

Definition set_fb_mem (m : Z -> Z) (s : fb_state) : fb_state := mk_fb (fb_ready s) m.

Section registers.
Context {D : Type} `{!MmioDevice D}.

Definition display_fb_init (s : fb_state) : io D (Z * fb_state) :=
  write_reg SM8250_DISPLAY_BASE MDSS_MDP_CTRL 1;;
  write_reg SM8250_DISPLAY_BASE MDSS_INTF_CTRL (Z.lor (Z.shiftl FB_WIDTH 16) FB_HEIGHT);;
  write_reg SM8250_DISPLAY_BASE MDSS_DSI0_CTRL 1;;
  write_reg SM8250_DISPLAY_BASE 0x2000 FB_ADDR;;
  write_reg SM8250_DISPLAY_BASE 0x2004 FB_STRIDE;;
  write_reg SM8250_DISPLAY_BASE 0x2008 (FB_BPP / 8);;
  copy_mem FB_ADDR FB_SIZE;;
  mret (0, mk_fb 1 (mem_zero (fb_mem s) FB_ADDR FB_SIZE)).

Definition display_fb_flush : io D unit := write_reg SM8250_DISPLAY_BASE 0x2010 1.
End registers.

(** [None] is the return value -1. *)
Definition display_fb_get_info (s : fb_state) : option (Z * Z * Z * Z) :=
  if negb (truthy (fb_ready s)) then None else Some (FB_WIDTH, FB_HEIGHT, FB_BPP, FB_ADDR).

Definition display_fb_set_pixel (x y color : Z) (m : Z -> Z) : Z -> Z :=
  if (FB_WIDTH <=? x) || (FB_HEIGHT <=? y) then m
  else mem_write m (u32 (u32 (FB_ADDR + u32 (y * FB_STRIDE)) + u32 (x * 4))) color.

(** The loops of [display_fb_fill_rect]; the ends are 32-bit sums. *)
Fixpoint fill_cols (fuel : nat) (col x_end row color : Z) (m : Z -> Z) : option (Z -> Z) :=
  match fuel with
  | O => None
  | S f =>
      if (col <? x_end) && (col <? FB_WIDTH)
      then fill_cols f (u32 (col + 1)) x_end row color (display_fb_set_pixel col row color m)
      else Some m
  end.

Fixpoint fill_rows (fuel : nat) (row y_end x x_end color : Z) (m : Z -> Z) : option (Z -> Z) :=
  match fuel with
  | O => None
  | S f =>
      if (row <? y_end) && (row <? FB_HEIGHT)
      then m ← fill_cols (S (Z.to_nat FB_WIDTH)) x x_end row color m;
           fill_rows f (u32 (row + 1)) y_end x x_end color m
      else Some m
  end.

Definition display_fb_fill_rect (x y w h color : Z) (m : Z -> Z) : option (Z -> Z) :=
  fill_rows (S (Z.to_nat FB_HEIGHT)) y (u32 (y + h)) x (u32 (x + w)) color m.

(** [n] rows of the logo are left, at row [i]. *)
Fixpoint logo_rows (n : nat) (i w h : Z) (m : Z -> Z) : option (Z -> Z) :=
  match n with
  | O => Some m
  | S n' =>
      m ← display_fb_fill_rect (u32 (w / 2 - 64)) (u32 (u32 (h / 2 - 32) + i)) 128 1 0x00BCD4 m;
      logo_rows n' (i + 1) w h m
  end.

(** The drawing of [mobile_boot_animation] on a screen of [w] by [h]. *)
Definition boot_drawing (w h : Z) (m : Z -> Z) : option (Z -> Z) :=
  m ← display_fb_fill_rect 0 0 w h 0x000000 m;
  m ← display_fb_fill_rect 0 0 w 48 0x1A1A2E m;
  m ← logo_rows 64 0 w h m;
  display_fb_fill_rect 0 (u32 (h - 48)) w 48 0x1A1A2E m.

Definition mobile_boot_animation {D} `{!MmioDevice D} (s : fb_state) : io D (option fb_state) :=
  match display_fb_get_info s with
  | None => mret (Some s)
  | Some (w, h, _, _) =>
      match boot_drawing w h (fb_mem s) with
      | None => mret None
      | Some m => display_fb_flush;; mret (Some (set_fb_mem m s))
      end
  end.

(** ** Specification *)

(** The address of a pixel. *)
Definition pixel (x y : Z) : Z := FB_ADDR + y * FB_STRIDE + x * 4.

Definition on_screen (x y : Z) : Prop := 0 <= x < FB_WIDTH /\ 0 <= y < FB_HEIGHT.

(** [m'] is [m] with [color] in the pixels of [P]. *)
Definition painted (P : Z -> Z -> Prop) (color : Z) (m m' : Z -> Z) : Prop :=
  (forall x y, on_screen x y -> P x y -> m' (pixel x y) = color) /\
  (forall a, (forall x y, on_screen x y -> P x y -> a <> pixel x y) -> m' a = m a).

Lemma pixel_inj x y x' y' : on_screen x y -> on_screen x' y' -> pixel x y = pixel x' y' -> x = x' /\ y = y'.
Proof. unfold on_screen, pixel, FB_STRIDE, FB_WIDTH, FB_HEIGHT, FB_BPP. change (32 / 8) with 4. lia. Qed.

Lemma painted_other P color m m' x y :
  painted P color m m' -> on_screen x y -> ~ P x y -> m' (pixel x y) = m (pixel x y).
Proof.
  intros [_ Hf] Hxy Hn. apply Hf. intros x' y' Hxy' HP E.
  by destruct (pixel_inj x y x' y' Hxy Hxy' E) as [-> ->].
Qed.

Lemma painted_none P color m : (forall x y, on_screen x y -> ~ P x y) -> painted P color m m.
Proof. intros Hn. split; [|done]. intros x y Hxy HP. by destruct (Hn x y). Qed.

(** Painting two sets one after the other. *)
Lemma painted_union P1 P2 P color m1 m2 m3 :
  painted P1 color m1 m2 -> painted P2 color m2 m3 ->
  (forall x y, on_screen x y -> P x y <-> P1 x y \/ P2 x y) ->
  (forall x y, on_screen x y -> P2 x y \/ ~ P2 x y) ->
  painted P color m1 m3.
Proof.
  intros A B HP Hdec. split.
  - intros x y Hxy H. destruct (Hdec x y Hxy) as [H2|H2]; [by apply B|].
    rewrite (painted_other P2 color m2 m3) by done. apply A; [done|].
    apply (HP x y Hxy) in H as [?|?]; done.
  - intros a Ha. destruct A as [_ A], B as [_ B]. rewrite B, A; [done|..];
      intros x y Hxy H; apply Ha; try done; apply (HP x y Hxy); auto.
Qed.

Lemma set_pixel_address x y color m :
  on_screen x y -> display_fb_set_pixel x y color m = mem_write m (pixel x y) color.
Proof.
  intros [Hx Hy]. unfold display_fb_set_pixel, pixel, FB_ADDR, FB_STRIDE, FB_WIDTH, FB_HEIGHT, FB_BPP in *.
  change (32 / 8) with 4 in *.
  destruct (Z.leb_spec 1080 x), (Z.leb_spec 2340 y); simpl; try lia. f_equal.
  rewrite (wrap_small 32 (x * 4)) by lia. rewrite (wrap_small 32 (y * _)) by lia.
  rewrite (wrap_small 32 (_ + y * _)) by lia. rewrite wrap_small by lia. lia.
Qed.

Lemma set_pixel_painted x y color m :
  on_screen x y -> painted (fun px py => px = x /\ py = y) color m (display_fb_set_pixel x y color m).
Proof.
  intros Hxy. rewrite set_pixel_address by done. unfold mem_write. split.
  - intros px py _ [-> ->]. by rewrite Z.eqb_refl.
  - intros a Ha. destruct (Z.eqb_spec a (pixel x y)) as [->|]; [|done]. by destruct (Ha x y).
Qed.

Lemma fill_cols_spec fuel col x_end row color m :
  0 <= col -> 0 <= row < FB_HEIGHT -> (Z.to_nat (FB_WIDTH - col) < fuel)%nat ->
  exists m', fill_cols fuel col x_end row color m = Some m' /\
    painted (fun px py => col <= px < x_end /\ py = row) color m m'.
Proof.
  revert col m. induction fuel as [|fuel IH]; intros col m Hc Hr Hf; [lia|]. simpl.
  destruct (Z.ltb_spec col x_end), (Z.ltb_spec col FB_WIDTH); simpl;
    [|exists m; split; [done|]; apply painted_none; unfold on_screen; lia..].
  rewrite (wrap_small 32) by (unfold FB_WIDTH in *; lia).
  destruct (IH (col + 1) (display_fb_set_pixel col row color m)) as (m' & -> & Hp); [lia|done|lia|].
  exists m'. split; [done|]. eapply painted_union; [apply set_pixel_painted; done|exact Hp| |].
  - simpl. intros x y _. lia.
  - simpl. intros x y _. lia.
Qed.

Lemma fill_rows_spec fuel row y_end x x_end color m :
  0 <= row -> 0 <= x -> (Z.to_nat (FB_HEIGHT - row) < fuel)%nat ->
  exists m', fill_rows fuel row y_end x x_end color m = Some m' /\
    painted (fun px py => x <= px < x_end /\ row <= py < y_end) color m m'.
Proof.
  revert row m. induction fuel as [|fuel IH]; intros row m Hrow Hx Hf; [lia|]. cbn [fill_rows].
  destruct (Z.ltb_spec row y_end), (Z.ltb_spec row FB_HEIGHT); cbn [andb];
    [|exists m; split; [done|]; apply painted_none; unfold on_screen; lia..].
  destruct (fill_cols_spec (S (Z.to_nat FB_WIDTH)) x x_end row color m) as (m1 & -> & Hp1); [done|lia|lia|].
  cbn [mbind option_bind].
  rewrite (wrap_small 32) by (unfold FB_HEIGHT in *; lia).
  destruct (IH (row + 1) m1) as (m' & -> & Hp); [lia|done|lia|].
  exists m'. split; [done|]. eapply painted_union; [exact Hp1|exact Hp| |]; simpl; intros px py _; lia.
Qed.

(** [display_fb_fill_rect] within 32-bit sums. *)
Lemma fill_rect_spec x y w h color m :
  0 <= x -> 0 <= y -> x + w < 2 ^ 32 -> y + h < 2 ^ 32 -> 0 <= w -> 0 <= h ->
  exists m', display_fb_fill_rect x y w h color m = Some m' /\
    painted (fun px py => x <= px < x + w /\ y <= py < y + h) color m m'.
Proof.
  intros Hx Hy Hw Hh Hw0 Hh0. unfold display_fb_fill_rect.
  rewrite (wrap_small 32 (y + h)), (wrap_small 32 (x + w)) by lia.
  apply fill_rows_spec; [done|done|lia].
Qed.

(** The same as a relation. *)
Definition draws (x y w h color : Z) (m m' : Z -> Z) : Prop := display_fb_fill_rect x y w h color m = Some m'.

Lemma fill_rect_draws x y w h color m :
  0 <= x -> 0 <= y -> x + w < 2 ^ 32 -> y + h < 2 ^ 32 -> 0 <= w -> 0 <= h ->
  exists m', draws x y w h color m m' /\
    painted (fun px py => x <= px < x + w /\ y <= py < y + h) color m m'.
Proof. apply fill_rect_spec. Qed.

Lemma logo_rows_spec n i w h m :
  0 <= i -> i + Z.of_nat n <= 64 -> 128 <= w < 2 ^ 31 -> 64 <= h < 2 ^ 31 ->
  exists m', logo_rows n i w h m = Some m' /\
    painted (fun px py => w / 2 - 64 <= px < w / 2 + 64 /\ h / 2 - 32 + i <= py < h / 2 - 32 + i + Z.of_nat n)
      0x00BCD4 m m'.
Proof.
  revert i m. induction n as [|n IH]; intros i m Hi Hn Hw Hh; cbn [logo_rows].
  { exists m. split; [done|]. apply painted_none. lia. }
  rewrite (wrap_small 32 (w / 2 - 64)), (wrap_small 32 (h / 2 - 32)) by lia. rewrite (wrap_small 32) by lia.
  destruct (fill_rect_spec (w / 2 - 64) (h / 2 - 32 + i) 128 1 0x00BCD4 m) as (m1 & -> & Hp1); [lia..|].
  cbn [mbind option_bind]. destruct (IH (i + 1) m1) as (m' & -> & Hp); [lia..|].
  exists m'. split; [done|]. eapply painted_union; [exact Hp1|exact Hp| |]; simpl; intros px py _; lia.
Qed.

Definition draws_logo (n : nat) (i w h : Z) (m m' : Z -> Z) : Prop := logo_rows n i w h m = Some m'.

Lemma logo_rows_draws n i w h m :
  0 <= i -> i + Z.of_nat n <= 64 -> 128 <= w < 2 ^ 31 -> 64 <= h < 2 ^ 31 ->
  exists m', draws_logo n i w h m m' /\
    painted (fun px py => w / 2 - 64 <= px < w / 2 + 64 /\ h / 2 - 32 + i <= py < h / 2 - 32 + i + Z.of_nat n)
      0x00BCD4 m m'.
Proof. apply logo_rows_spec. Qed.

(** ** Properties *)

(** C31: [display_fb_fill_rect] ends and paints exactly the part of the rectangle
    that lies on the screen: those pixels get the colour, and no other address
    of memory changes, whatever the size of the rectangle, as long as its
    corner does not wrap around 32 bits. *)
Theorem fill_rect_clips x y w h color m
    (Hx : 0 <= x) (Hy : 0 <= y) (Hw : 0 <= w) (Hh : 0 <= h)
    (Hxw : x + w < 2 ^ 32) (Hyh : y + h < 2 ^ 32) :
  exists m', display_fb_fill_rect x y w h color m = Some m' /\
    (forall px py, on_screen px py -> m' (pixel px py) =
       if decide (x <= px < x + w /\ y <= py < y + h) then color else m (pixel px py)) /\
    (forall a, (forall px py, on_screen px py -> x <= px < x + w -> y <= py < y + h -> a <> pixel px py) ->
       m' a = m a).
Proof.
  destruct (fill_rect_spec x y w h color m Hx Hy Hxw Hyh Hw Hh) as (m' & E & Hp).
  exists m'. split; [done|]. split.
  - intros px py Hs. case_decide as Hd; [by apply Hp|]. by apply (painted_other _ _ _ _ _ _ Hp).
  - intros a Ha. apply Hp. intros px py Hs [H1 H2]. by apply Ha.
Qed.

(** The picture of the boot screen. *)
Definition boot_picture (x y : Z) : Z :=
  if (y <? 48) || (2292 <=? y) then 0x1A1A2E
  else if (476 <=? x) && (x <? 604) && (1138 <=? y) && (y <? 1202) then 0x00BCD4
  else 0x000000.

(** The four steps of the drawing. *)
Lemma boot_drawing_steps m :
  exists m1 m2 m3 m4, boot_drawing FB_WIDTH FB_HEIGHT m = Some m4 /\
    painted (fun px py => 0 <= px < 0 + FB_WIDTH /\ 0 <= py < 0 + FB_HEIGHT) 0 m m1 /\
    painted (fun px py => 0 <= px < 0 + FB_WIDTH /\ 0 <= py < 0 + 48) 0x1A1A2E m1 m2 /\
    painted (fun px py => FB_WIDTH / 2 - 64 <= px < FB_WIDTH / 2 + 64 /\
                          FB_HEIGHT / 2 - 32 + 0 <= py < FB_HEIGHT / 2 - 32 + 0 + Z.of_nat 64) 0x00BCD4 m2 m3 /\
    painted (fun px py => 0 <= px < 0 + FB_WIDTH /\ 2292 <= py < 2292 + 48) 0x1A1A2E m3 m4.
Proof.
  destruct (fill_rect_draws 0 0 FB_WIDTH FB_HEIGHT 0 m) as (m1 & E1 & P1); [unfold FB_WIDTH, FB_HEIGHT; lia..|].
  destruct (fill_rect_draws 0 0 FB_WIDTH 48 0x1A1A2E m1) as (m2 & E2 & P2); [unfold FB_WIDTH, FB_HEIGHT; lia..|].
  destruct (logo_rows_draws 64 0 FB_WIDTH FB_HEIGHT m2) as (m3 & E3 & P3); [unfold FB_WIDTH, FB_HEIGHT; lia..|].
  destruct (fill_rect_draws 0 2292 FB_WIDTH 48 0x1A1A2E m3) as (m4 & E4 & P4); [unfold FB_WIDTH, FB_HEIGHT; lia..|].
  exists m1, m2, m3, m4. split_and!; [|assumption..].
  unfold boot_drawing. apply bind_Some. exists m1. split; [exact E1|].
  apply bind_Some. exists m2. split; [exact E2|].
  apply bind_Some. exists m3. split; [exact E3|].
  assert (u32 (FB_HEIGHT - 48) = 2292) as -> by reflexivity. exact E4.
Qed.

(** The boot animation draws the same picture on every screen content: two bars
    of 48 rows, the logo of 128 by 64 pixels in the middle, black elsewhere. *)
Theorem boot_animation_picture m :
  exists m', boot_drawing FB_WIDTH FB_HEIGHT m = Some m' /\
    forall x y, on_screen x y -> m' (pixel x y) = boot_picture x y.
Proof.
  destruct (boot_drawing_steps m) as (m1 & m2 & m3 & m4 & E & P1 & P2 & P3 & P4).
  exists m4. split; [exact E|]. clear E. intros x y Hs. pose proof Hs as [Hx Hy].
  unfold FB_WIDTH, FB_HEIGHT in *. unfold boot_picture.
  destruct (Z.leb_spec 2292 y) as [H1|H1]; [rewrite orb_true_r; apply P4; [done|lia]|].
  rewrite (painted_other _ _ _ _ _ _ P4 Hs) by lia. rewrite orb_false_r.
  destruct (Z.ltb_spec y 48) as [H2|H2].
  { rewrite (painted_other _ _ _ _ _ _ P3 Hs) by lia. apply P2; [done|lia]. }
  destruct (Z.leb_spec 476 x), (Z.ltb_spec x 604), (Z.leb_spec 1138 y), (Z.ltb_spec y 1202); cbn [andb];
    try (apply P3; [done|lia]);
    (rewrite (painted_other _ _ _ _ _ _ P3 Hs) by lia; rewrite (painted_other _ _ _ _ _ _ P2 Hs) by lia;
     apply P1; [done|lia]).
Qed.

(** Drawing, whatever the rectangle, stores only inside the framebuffer. *)
Definition in_framebuffer (a : Z) : Prop := FB_ADDR <= a < FB_ADDR + FB_SIZE.

Lemma painted_confined P color m m' a : painted P color m m' -> ~ in_framebuffer a -> m' a = m a.
Proof.
  intros [_ Hp] Ha. apply Hp. intros x y [Hx Hy] _ ->. apply Ha.
  unfold in_framebuffer, pixel, FB_SIZE, FB_STRIDE, FB_WIDTH, FB_HEIGHT, FB_BPP in *. change (32 / 8) with 4. lia.
Qed.

Lemma fill_rect_confined x y w h color m a :
  0 <= x -> 0 <= y ->
  exists m', display_fb_fill_rect x y w h color m = Some m' /\ (~ in_framebuffer a -> m' a = m a).
Proof.
  intros Hx Hy. unfold display_fb_fill_rect.
  destruct (fill_rows_spec (S (Z.to_nat FB_HEIGHT)) y (u32 (y + h)) x (u32 (x + w)) color m) as (m' & -> & Hp);
    [done|done|lia|]. exists m'. split; [done|]. intros Ha. by eapply painted_confined.
Qed.

Lemma boot_drawing_confined m m' a :
  boot_drawing FB_WIDTH FB_HEIGHT m = Some m' -> ~ in_framebuffer a -> m' a = m a.
Proof.
  destruct (boot_drawing_steps m) as (m1 & m2 & m3 & m4 & E & P1 & P2 & P3 & P4). rewrite E. intros E' Ha.
  assert (m4 = m') as <- by congruence. clear E E'.
  by rewrite (painted_confined _ _ _ _ _ P4 Ha), (painted_confined _ _ _ _ _ P3 Ha), (painted_confined _ _ _ _ _ P2 Ha),
    (painted_confined _ _ _ _ _ P1 Ha).
Qed.

(** A rectangle whose right edge wraps around 32 bits is not drawn at all. *)
Lemma fill_rect_wraps color m :
  display_fb_fill_rect 1 0 (2 ^ 32 - 1) 1 color m = Some m.
Proof. vm_compute. reflexivity. Qed.

Lemma fill_rect_clips_witness :
  exists m', display_fb_fill_rect 1000 2300 500 500 7 (fun _ => 0) = Some m' /\
    m' (pixel 1079 2339) = 7 /\ m' (pixel 999 2339) = 0 /\ m' (pixel 1079 2299) = 0.
Proof.
  destruct (fill_rect_clips 1000 2300 500 500 7 (fun _ => 0)) as (m' & E & Hp & _); [lia..|].
  exists m'. split; [exact E|].
  clear E. rewrite !Hp by (unfold on_screen, FB_WIDTH, FB_HEIGHT; lia).
  split; [reflexivity|split; reflexivity].
Defined.

End Display.
