(* ===== verification/Ufs.v ===== *)
(** * Flash storage

    Models kernel/bsp/sm8250/drivers/ufs.c.  The registers are an arbitrary
    device; what the driver reaches with [memcpy] is memory from addresses to
    bytes.  The data window of the controller has 256 blocks, while the driver's
    checks are against the capacity the device reports: the transfers that stay in
    the window are the ones that read back what was written. *)

From stdpp Require Import base numbers list option tactics gmap.
From S2P Require Import Prelude Bytes Mmio.

Module Ufs.

Definition SM8250_UFS_BASE : Z := 0x01D84000.
Definition UFS_HCI_BASE : Z := SM8250_UFS_BASE.
Definition UFS_HC_CTRL : Z := 0x00.
Definition UFS_HC_STATUS : Z := 0x04.
Definition UFS_DEV_ID : Z := 0x08.
Definition UFS_INT_EN : Z := 0x14.
Definition UFS_DATA_BASE : Z := 0x10000.
Definition UFS_DATA_SIZE : Z := 0x100000.
Definition UFS_BLOCK_SIZE : Z := 4096.

(** [ufs_window] is the memory the transfers reach, by address. *)
Record ufs_state := mk_ufs { ufs_ready : Z; ufs_total_blocks : Z; ufs_window : Z -> Z }.

Definition ufs_boot (m : Z -> Z) : ufs_state := mk_ufs 0 0 m.

Section registers.
Context {D : Type} `{!MmioDevice D}.

Fixpoint ufs_wait_status (mask val : Z) (timeout_us : nat) : io D Z :=
  match timeout_us with
  | O => mret (-1)
  | S n =>
      v ← read_reg UFS_HCI_BASE UFS_HC_STATUS;
      if Z.land v mask =? val then mret 0 else ufs_wait_status mask val n
  end.

Definition ufs_init (s : ufs_state) : io D (Z * ufs_state) :=
  write_reg UFS_HCI_BASE UFS_HC_CTRL 0x02;;
  r ← ufs_wait_status 0x02 0 (Z.to_nat 100000);
  if r <? 0 then mret (-1, s) else
  write_reg UFS_HCI_BASE UFS_INT_EN 0x1FF;;
  write_reg UFS_HCI_BASE UFS_HC_CTRL 0x01;;
  r ← ufs_wait_status 0x01 0x01 (Z.to_nat 100000);
  if r <? 0 then mret (-1, s) else
  dev_id ← read_reg UFS_HCI_BASE UFS_DEV_ID;
  let blocks := Z.land dev_id 0xFFFF * 1024 in
  let blocks := if blocks =? 0 then 122880 else blocks in
  mret (0, mk_ufs 1 blocks (ufs_window s)).
End registers.

(** Where a block starts in the window, and the length in 32 bits. *)
Definition block_addr (lba : Z) : Z := u64 (UFS_HCI_BASE + UFS_DATA_BASE + u64 (lba * UFS_BLOCK_SIZE)).
Definition byte_size (count : Z) : Z := u32 (count * UFS_BLOCK_SIZE).

Section transfers.
Context {D : Type} `{!MmioDevice D}.

(** The result and the bytes copied to [buf]. *)
Definition ufs_read (lba count : Z) (s : ufs_state) : io D (Z * list Z) :=
  if negb (truthy (ufs_ready s)) then mret (-1, [])
  else if ufs_total_blocks s <? u64 (lba + count) then mret (-1, [])
  else
    copy_mem (block_addr lba) (byte_size count);;
    mret (s32 (byte_size count), mem_load (ufs_window s) (block_addr lba) (byte_size count)).

Definition ufs_write (lba : Z) (buf : list Z) (count : Z) (s : ufs_state) : io D (Z * ufs_state) :=
  if negb (truthy (ufs_ready s)) then mret (-1, s)
  else if ufs_total_blocks s <? u64 (lba + count) then mret (-1, s)
  else
    copy_mem (block_addr lba) (byte_size count);;
    mret (s32 (byte_size count),
          mk_ufs (ufs_ready s) (ufs_total_blocks s)
            (mem_store (ufs_window s) (block_addr lba) (take (Z.to_nat (byte_size count)) buf))).
End transfers.

Definition ufs_trim (lba count : Z) (s : ufs_state) : Z :=
  if negb (truthy (ufs_ready s)) then -1 else 0.

Definition ufs_get_capacity (s : ufs_state) : Z := u64 (ufs_total_blocks s * UFS_BLOCK_SIZE).

(** ** Theorems *)

(** A device that has been started. *)
Definition ufs_ok (s : ufs_state) : Prop :=
  ufs_ready s = 1 /\ 1024 <= ufs_total_blocks s <= 65535 * 1024.

Section init.
Context {D : Type} `{!MmioDevice D}.

Lemma wait_status_result mask val n (b : bus D) :
  (ufs_wait_status mask val n b).1 = 0 \/ (ufs_wait_status mask val n b).1 = -1.
Proof.
  revert b. induction n as [|n IH]; intros b; cbn [ufs_wait_status]; [by right|]. io_run.
  destruct (read_reg _ _ b) as [v b1]. destruct (_ =? val); [by left|apply IH].
Qed.

(** Whatever the device answers, [ufs_init] ends: it succeeds with between 1024
    and 65535 * 1024 blocks, or gives up after its timeouts with -1 and leaves
    the driver not ready. *)
Theorem ufs_init_result s (b : bus D) :
  let '(r, s') := (ufs_init s b).1 in
  (r = 0 /\ ufs_ok s' /\ ufs_window s' = ufs_window s) \/ (r = -1 /\ s' = s).
Proof.
  unfold ufs_init. generalize (Z.to_nat 100000) as n. intros n. io_run.
  destruct (write_reg UFS_HCI_BASE UFS_HC_CTRL 0x02 b) as [[] b1].
  pose proof (wait_status_result 0x02 0 n b1) as H1.
  destruct (ufs_wait_status 0x02 0 n b1) as [r1 b2]. simpl in H1.
  destruct H1 as [-> | ->]; [|by right]. cbn [Z.ltb Z.compare].
  destruct (write_reg UFS_HCI_BASE UFS_INT_EN 0x1FF b2) as [[] b3].
  destruct (write_reg UFS_HCI_BASE UFS_HC_CTRL 0x01 b3) as [[] b4].
  pose proof (wait_status_result 0x01 0x01 n b4) as H2.
  destruct (ufs_wait_status 0x01 0x01 n b4) as [r2 b5]. simpl in H2.
  destruct H2 as [-> | ->]; [|by right]. cbn [Z.ltb Z.compare].
  destruct (read_reg UFS_HCI_BASE UFS_DEV_ID b5) as [id b6]. left.
  split; [done|]. split; [|done]. split; [done|]. cbn [ufs_total_blocks].
  rewrite (Z.land_ones id 16 ltac:(lia) : Z.land id 0xFFFF = _). change (2 ^ 16) with 65536.
  destruct (Z.eqb_spec (id mod 65536 * 1024) 0); lia.
Qed.
End init.

Lemma block_addr_small s lba :
  ufs_ok s -> 0 <= lba <= ufs_total_blocks s ->
  block_addr lba = UFS_HCI_BASE + UFS_DATA_BASE + lba * UFS_BLOCK_SIZE.
Proof.
  intros [_ Hb] Hl. unfold block_addr, UFS_HCI_BASE, SM8250_UFS_BASE, UFS_DATA_BASE, UFS_BLOCK_SIZE.
  rewrite (wrap_small 64 (lba * _)) by lia. by rewrite wrap_small by lia.
Qed.

(** A range of blocks in the data window of the controller. *)
Definition in_window (lba count : Z) : Prop :=
  0 <= lba /\ 0 <= count /\ (lba + count) * UFS_BLOCK_SIZE <= UFS_DATA_SIZE.

Section properties.
Context {D : Type} `{!MmioDevice D}.
Implicit Types (b : bus D).

(** A transfer inside the capacity, up to 2 GB: one access to the bytes of the
    blocks. *)
Lemma ufs_read_run s lba count b :
  ufs_ok s -> 0 <= lba -> 0 <= count -> lba + count <= ufs_total_blocks s -> count * UFS_BLOCK_SIZE < 2 ^ 31 ->
  ufs_read lba count s b =
    ((count * UFS_BLOCK_SIZE,
      mem_load (ufs_window s) (UFS_HCI_BASE + UFS_DATA_BASE + lba * UFS_BLOCK_SIZE) (count * UFS_BLOCK_SIZE)),
     mk_bus (bus_dev b) (bus_log b ++
       [IoCopy (UFS_HCI_BASE + UFS_DATA_BASE + lba * UFS_BLOCK_SIZE) (count * UFS_BLOCK_SIZE)])).
Proof.
  intros Hok H1 H2 H3 H4. pose proof Hok as [Hr Hb]. unfold ufs_read. rewrite Hr. cbn [truthy Z.eqb negb].
  rewrite (wrap_small 64 (lba + count)) by lia. rewrite (proj2 (Z.ltb_ge _ _)) by lia.
  rewrite (block_addr_small s) by (done || lia).
  assert (byte_size count = count * UFS_BLOCK_SIZE) as ->
    by (unfold byte_size; apply wrap_small; unfold UFS_BLOCK_SIZE in *; lia).
  unfold copy_mem. io_run. rewrite swrap_small by (unfold UFS_BLOCK_SIZE in *; lia). done.
Qed.

Lemma ufs_write_run s lba buf count b :
  ufs_ok s -> 0 <= lba -> 0 <= count -> lba + count <= ufs_total_blocks s -> count * UFS_BLOCK_SIZE < 2 ^ 31 ->
  Z.of_nat (length buf) = count * UFS_BLOCK_SIZE ->
  ufs_write lba buf count s b =
    ((count * UFS_BLOCK_SIZE,
      mk_ufs (ufs_ready s) (ufs_total_blocks s)
        (mem_store (ufs_window s) (UFS_HCI_BASE + UFS_DATA_BASE + lba * UFS_BLOCK_SIZE) buf)),
     mk_bus (bus_dev b) (bus_log b ++
       [IoCopy (UFS_HCI_BASE + UFS_DATA_BASE + lba * UFS_BLOCK_SIZE) (count * UFS_BLOCK_SIZE)])).
Proof.
  intros Hok H1 H2 H3 H4 Hbuf. pose proof Hok as [Hr Hb]. unfold ufs_write.
  replace (truthy (ufs_ready s)) with true by by rewrite Hr. cbn [negb].
  rewrite (wrap_small 64 (lba + count)) by lia. rewrite (proj2 (Z.ltb_ge _ _)) by lia.
  rewrite (block_addr_small s) by (done || lia).
  assert (byte_size count = count * UFS_BLOCK_SIZE) as ->
    by (unfold byte_size; apply wrap_small; unfold UFS_BLOCK_SIZE in *; lia).
  unfold copy_mem. io_run. rewrite swrap_small by (unfold UFS_BLOCK_SIZE in *; lia). by rewrite take_ge by lia.
Qed.

Lemma in_window_fits s lba count :
  ufs_ok s -> in_window lba count -> lba + count <= ufs_total_blocks s /\ count * UFS_BLOCK_SIZE < 2 ^ 31.
Proof. intros [_ Hb] (H1 & H2 & H3). unfold UFS_BLOCK_SIZE, UFS_DATA_SIZE in *. lia. Qed.

(** C24: On a started device, writing whole blocks of the controller's data window
    (256 blocks) reports their size and makes one transfer, to the bytes of these
    blocks in the window; reading them gives the same bytes back, and every range
    of blocks of the window that does not overlap reads as before.  A range past
    the capacity of the device, which is larger than the window, is refused with -1
    and transfers nothing. *)
Theorem ufs_write_read (s : ufs_state) (lba count : Z) (buf : list Z) b
    (Hok : ufs_ok s) (Hfit : in_window lba count) (Hbuf : Z.of_nat (length buf) = count * UFS_BLOCK_SIZE) :
  let '((r, s'), b') := ufs_write lba buf count s b in
  r = count * UFS_BLOCK_SIZE /\ ufs_ok s' /\
  (exists a, bus_log b' = bus_log b ++ [IoCopy a (count * UFS_BLOCK_SIZE)] /\
     UFS_HCI_BASE + UFS_DATA_BASE <= a /\
     a + count * UFS_BLOCK_SIZE <= UFS_HCI_BASE + UFS_DATA_BASE + UFS_DATA_SIZE) /\
  (forall b1, (ufs_read lba count s' b1).1 = (r, buf)) /\
  (forall lba' count' b1, in_window lba' count' -> lba' + count' <= lba \/ lba + count <= lba' ->
    (ufs_read lba' count' s' b1).1 = (ufs_read lba' count' s b1).1) /\
  (forall lba' count' buf' b1, ufs_total_blocks s < lba' + count' < 2 ^ 64 ->
    ufs_write lba' buf' count' s' b1 = ((-1, s'), b1) /\ ufs_read lba' count' s' b1 = ((-1, []), b1)).
Proof.
  pose proof Hok as [Hr Hb]. destruct (in_window_fits s lba count Hok Hfit) as [Hc Hs].
  pose proof Hfit as (H1 & H2 & H3). rewrite ufs_write_run by done. set (s' := mk_ufs _ _ _).
  assert (ufs_ok s') as Hok' by by split. split_and!; [done|done|..].
  - eexists. split; [reflexivity|]. unfold UFS_BLOCK_SIZE, UFS_DATA_SIZE in *. lia.
  - intros b1. rewrite ufs_read_run by done. cbn [fst]. unfold s'. cbn [ufs_window]. by rewrite <-Hbuf, mem_load_store.
  - intros l c b1 Hw Hd. destruct (in_window_fits s l c Hok Hw) as [Hc' Hs']. pose proof Hw as (? & ? & ?).
    rewrite !ufs_read_run by done. cbn [fst]. unfold s'. cbn [ufs_window]. f_equal. apply mem_load_other.
    rewrite Hbuf. unfold UFS_BLOCK_SIZE in *. lia.
  - intros l c buf' b1 Hl. unfold ufs_write, ufs_read, s'. cbn [ufs_ready ufs_total_blocks]. rewrite Hr.
    cbn [truthy Z.eqb negb]. rewrite (wrap_small 64) by lia. rewrite (proj2 (Z.ltb_lt _ _)) by lia. done.
Qed.

(** The range is checked against the capacity and not against the window: every
    block of the capacity from the 256th on is accepted, and its transfer starts at
    or after the end of the window. *)
Lemma ufs_leaves_window s lba buf b :
  ufs_ok s -> 256 <= lba < ufs_total_blocks s -> Z.of_nat (length buf) = UFS_BLOCK_SIZE ->
  let '((r, _), b') := ufs_write lba buf 1 s b in
  r = UFS_BLOCK_SIZE /\
  exists a, bus_log b' = bus_log b ++ [IoCopy a UFS_BLOCK_SIZE] /\ UFS_HCI_BASE + UFS_DATA_BASE + UFS_DATA_SIZE <= a.
Proof.
  intros Hok Hl Hbuf. rewrite ufs_write_run by (done || unfold UFS_BLOCK_SIZE in *; lia).
  split; [done|]. eexists. split; [reflexivity|]. unfold UFS_BLOCK_SIZE, UFS_DATA_SIZE. lia.
Qed.

(** A transfer of 2^20 blocks has a 32-bit size of 0: the call succeeds with
    result 0 and writes nothing. *)
Lemma ufs_write_size_wraps s lba buf b :
  ufs_ok s -> 0 <= lba -> lba + 2 ^ 20 <= ufs_total_blocks s ->
  (ufs_write lba buf (2 ^ 20) s b).1.1 = 0 /\
  forall a, ufs_window (ufs_write lba buf (2 ^ 20) s b).1.2 a = ufs_window s a.
Proof.
  intros [Hr Hb] H0 Hf. unfold ufs_write. rewrite Hr. cbn [truthy Z.eqb negb].
  rewrite wrap_small by lia. rewrite (proj2 (Z.ltb_ge _ _)) by lia. split; [done|]. intros a.
  change (byte_size (2 ^ 20)) with 0. unfold copy_mem. io_run. cbn [fst snd ufs_window].
  change (take (Z.to_nat 0) buf) with (@nil Z).
  unfold mem_store. change (Z.of_nat (length (@nil Z))) with 0.
  destruct (Z.leb_spec (block_addr lba) a), (Z.ltb_spec a (block_addr lba + 0)); done || lia.
Qed.

(** The check of the range wraps around: block 2^64 - 1 passes it, and the access
    is to the 4096 bytes before the window. *)
Lemma ufs_range_wraps s b :
  ufs_ok s -> (ufs_read (2 ^ 64 - 1) 1 s b).1 =
    (4096, mem_load (ufs_window s) (UFS_HCI_BASE + UFS_DATA_BASE - 4096) 4096).
Proof.
  intros [Hr Hb]. unfold ufs_read. rewrite Hr. cbn [truthy Z.eqb negb].
  change (u64 (2 ^ 64 - 1 + 1)) with 0. by rewrite (proj2 (Z.ltb_ge _ _)) by lia.
Qed.
End properties.

Lemma ufs_write_read_witness :
  let s := mk_ufs 1 2048 (fun _ => 0) in
  let b := mk_bus (∅ : gmap Z Z) [] in
  let '((r, s'), b') := ufs_write 5 (replicate 4096 7) 1 s b in
  r = 4096 /\ (ufs_read 5 1 s' b).1 = (4096, replicate 4096 7) /\ (ufs_read 6 2 s' b).1 = (ufs_read 6 2 s b).1.
Proof.
  pose proof (ufs_write_read (mk_ufs 1 2048 (fun _ => 0)) 5 1 (replicate 4096 7) (mk_bus (∅ : gmap Z Z) [])) as H.
  cbv zeta. destruct (ufs_write 5 (replicate 4096 7) 1 (mk_ufs 1 2048 (fun _ => 0)) (mk_bus ∅ [])) as [[r s'] b'].
  destruct H as (H1 & _ & _ & H2 & H3 & _).
  - split; [reflexivity|simpl; lia].
  - unfold in_window, UFS_BLOCK_SIZE, UFS_DATA_SIZE. lia.
  - rewrite length_replicate. unfold UFS_BLOCK_SIZE. lia.
  - unfold UFS_BLOCK_SIZE in H1. subst r. split; [reflexivity|]. split; [apply H2|].
    apply H3; [unfold in_window, UFS_BLOCK_SIZE, UFS_DATA_SIZE|]; lia.
Defined.

End Ufs.
