(* ===== verification/Fingerprint.v ===== *)
(** * Fingerprint sensor

    Models kernel/bsp/sm8250/drivers/fingerprint.c: the reset of the sensor over
    an arbitrary device and the table of five templates.  The image data of a
    template is never used by the source and left out. *)

From stdpp Require Import base numbers list option tactics gmap.
From S2P Require Import Prelude Mmio Board.
Import Board.

Module Fingerprint.

Definition FP_RST_GPIO : Z := 18.
Definition FP_INT_GPIO : Z := 19.
Definition FP_MAX_TEMPLATES : Z := 5.

Record fp_template_t := mk_template { fid : Z; fname : list Z; enrolled : Z }.

Definition zero_template : fp_template_t := mk_template 0 (replicate 64 0) 0.
#[export] Instance fp_template_inhabited : Inhabited fp_template_t := populate zero_template.

Record fp_state := mk_fp { templates : list fp_template_t; fp_ready : Z; fp_count : Z }.

Definition fp_boot : fp_state := mk_fp (replicate (Z.to_nat FP_MAX_TEMPLATES) zero_template) 0 0.

Definition fingerprint_init {D} `{!MmioDevice D} (s : fp_state) : io D (Z * fp_state) :=
  write_reg SM8250_TLMM_BASE (FP_RST_GPIO * 4) 0x03;;
  write_reg SM8250_TLMM_BASE (FP_INT_GPIO * 4) 0x00;;
  write_reg SM8250_TLMM_BASE (FP_RST_GPIO * 4) 0;;
  write_reg SM8250_TLMM_BASE (FP_RST_GPIO * 4) 0x03;;
  mret (0, mk_fp (replicate (Z.to_nat FP_MAX_TEMPLATES) zero_template) 1 (fp_count s)).

Definition fingerprint_enroll (name : list Z) (s : fp_state) : Z * fp_state :=
  if negb (truthy (fp_ready s)) then (-1, s)
  else if FP_MAX_TEMPLATES <=? fp_count s then (-1, s)
  else
    let t := mk_template (fp_count s + 1) (strncpy (fname (templates s).[fp_count s]) name 63) 1 in
    let s' := mk_fp ((templates s).[fp_count s <- t]) (fp_ready s) (fp_count s + 1) in
    (fid (templates s').[fp_count s' - 1], s').

Definition fingerprint_authenticate (s : fp_state) : Z :=
  if negb (truthy (fp_ready s)) then -1
  else if fp_count s =? 0 then -1
  else fid (templates s).[0].

Definition fingerprint_delete (id : Z) (s : fp_state) : Z * fp_state :=
  if negb (truthy (fp_ready s)) then (-1, s) else
  match first_index (fun t => fid t =? id) (take (Z.to_nat (fp_count s)) (templates s)) with
  | Some i =>
      let t := (templates s).[Z.of_nat i] in
      (0, mk_fp ((templates s).[Z.of_nat i <- mk_template (fid t) (fname t) 0]) (fp_ready s) (fp_count s))
  | None => (-1, s)
  end.

Definition fingerprint_count (s : fp_state) : Z := fp_count s.

(** ** Theorems *)

(** The first [fp_count] templates carry the numbers from 1. *)
Record fp_inv (s : fp_state) : Prop := {
  fi_len : length (templates s) = 5%nat;
  fi_count : 0 <= fp_count s <= 5;
  fi_ready : fp_ready s = 1;
  fi_ids i : 0 <= i < fp_count s -> fid (templates s).[i] = i + 1;
}.

Lemma enroll_spec nm s :
  fp_inv s ->
  let '(r, s') := fingerprint_enroll nm s in
  fp_inv s' /\
  if fp_count s <? 5 then r = fp_count s + 1 /\ fp_count s' = fp_count s + 1 /\
      enrolled (templates s').[fp_count s] = 1
  else r = -1 /\ s' = s.
Proof.
  intros Hinv. pose proof Hinv as [Hl Hc Hr Hi]. unfold fingerprint_enroll, FP_MAX_TEMPLATES. rewrite Hr.
  change (negb (truthy 1)) with false. cbv iota.
  destruct (Z.leb_spec 5 (fp_count s)), (Z.ltb_spec (fp_count s) 5); try lia; [done|].
  cbn [templates fp_count]. rewrite Z.add_simpl_r, aget_aset_eq by lia. split; [|done].
  split; cbn [templates fp_count fp_ready].
  - by rewrite length_aset.
  - lia.
  - done.
  - intros i Hi'. destruct (decide (i = fp_count s)) as [->|]; [by rewrite aget_aset_eq by lia|].
    rewrite aget_aset_ne by lia. apply Hi. lia.
Qed.

Lemma delete_spec id s :
  fp_inv s ->
  let '(r, s') := fingerprint_delete id s in
  fp_inv s' /\ fp_count s' = fp_count s /\ (r = 0 <-> 1 <= id <= fp_count s) /\
  (1 <= id <= fp_count s -> enrolled (templates s').[id - 1] = 0) /\
  (forall i, 0 <= i -> i <> id - 1 -> (templates s').[i] = (templates s).[i]).
Proof.
  intros Hinv. pose proof Hinv as [Hl Hc Hr Hi]. unfold fingerprint_delete. rewrite Hr.
  change (negb (truthy 1)) with false. cbv iota.
  assert (forall k, (k < Z.to_nat (fp_count s))%nat -> exists t, take (Z.to_nat (fp_count s)) (templates s) !! k = Some t /\
    (templates s).[Z.of_nat k] = t /\ fid t = Z.of_nat k + 1) as Hat.
  { intros k Hk. exists ((templates s).[Z.of_nat k]). rewrite lookup_take_lt by done.
    split_and!; [|done|apply Hi; lia].
    rewrite <-(Nat2Z.id k) at 1. apply aget_lookup. lia. }
  destruct (first_index _ _) as [k|] eqn:E.
  - apply first_index_Some in E as [(t & Ht & Hid) _]. simpl in Hid. apply Z.eqb_eq in Hid.
    pose proof (lookup_lt_Some _ _ _ Ht) as Hk. rewrite length_take in Hk.
    destruct (Hat k) as (t' & Ht' & Hg & Hf); [lia|]. rewrite Ht in Ht'. injection Ht' as <-.
    assert (id = Z.of_nat k + 1) as -> by congruence. split_and!.
    + split; cbn [templates fp_count fp_ready]; [by rewrite length_aset|done|done|].
      intros i Hi'. destruct (decide (i = Z.of_nat k)) as [->|]; [rewrite aget_aset_eq by lia; simpl; apply Hi; lia|].
      rewrite aget_aset_ne by lia. by apply Hi.
    + done.
    + split; [lia|done].
    + intros _. cbn [templates]. rewrite Z.add_simpl_r, aget_aset_eq by lia. done.
    + intros i Hi0 Hne. cbn [templates]. rewrite aget_aset_ne by lia. done.
  - apply first_index_None in E. rewrite Forall_lookup in E. split_and!; [done|done| | |done].
    + split; [done|]. intros Hid. exfalso. destruct (Hat (Z.to_nat (id - 1))) as (t & Ht & _ & Hf); [lia|].
      pose proof (E _ _ Ht) as Hn. simpl in Hn. apply Z.eqb_neq in Hn. lia.
    + intros Hid. exfalso. destruct (Hat (Z.to_nat (id - 1))) as (t & Ht & _ & Hf); [lia|].
      pose proof (E _ _ Ht) as Hn. simpl in Hn. apply Z.eqb_neq in Hn. lia.
Qed.

Inductive fp_op := Enroll (name : list Z) | Delete (id : Z).

Definition fp_step (o : fp_op) (s : fp_state) : fp_state :=
  match o with
  | Enroll nm => (fingerprint_enroll nm s).2
  | Delete id => (fingerprint_delete id s).2
  end.

Definition is_enroll (o : fp_op) : bool := match o with Enroll _ => true | Delete _ => false end.

(** Any sequence of enrolments and deletions keeps the numbering: the [k]-th
    successful enrolment gets number [k], at most five succeed. *)
Theorem fingerprint_numbers (ops : list fp_op) (s : fp_state) (Hinv : fp_inv s) :
  let s' := foldl (fun s o => fp_step o s) s ops in
  fp_inv s' /\
  fp_count s' = Z.min 5 (fp_count s + Z.of_nat (length (filter (fun o => is_enroll o = true) ops))).
Proof.
  revert s Hinv. induction ops as [|o ops IH]; intros s Hinv; cbn [foldl].
  { split; [done|]. destruct Hinv. rewrite filter_nil. simpl. lia. }
  destruct o as [nm|id]; cbn [fp_step].
  - pose proof (enroll_spec nm s Hinv) as He. destruct (fingerprint_enroll nm s) as [r s1]. cbn [snd].
    destruct He as [H1 H2]. destruct (IH s1 H1) as [IH1 IH2]. split; [done|]. rewrite IH2, filter_cons_True by done.
    cbn [length]. pose proof (fi_count _ Hinv). destruct (Z.ltb_spec (fp_count s) 5); [destruct H2 as (_ & -> & _)|destruct H2 as [_ ->]]; lia.
  - pose proof (delete_spec id s Hinv) as He. destruct (fingerprint_delete id s) as [r s1]. cbn [snd].
    destruct He as (H1 & H2 & _). destruct (IH s1 H1) as [IH1 IH2]. split; [done|].
    rewrite IH2, H2, filter_cons_False by done. done.
Qed.

(** A deleted template still authenticates: after its deletion the sensor keeps
    answering with number 1. *)
Lemma deleted_authenticates s :
  fp_inv s -> 0 < fp_count s -> fingerprint_authenticate (fingerprint_delete 1 s).2 = 1.
Proof.
  intros Hinv Hc. pose proof (delete_spec 1 s Hinv) as Hd. destruct (fingerprint_delete 1 s) as [r s1].
  destruct Hd as ([Hl Hc' Hr Hi] & Hcount & _). cbn [snd]. unfold fingerprint_authenticate. rewrite Hr.
  change (negb (truthy 1)) with false. cbv iota. rewrite (proj2 (Z.eqb_neq _ _)) by lia. rewrite Hi by lia. done.
Qed.

(** Initialising again clears the templates but not their number: the sensor
    then authenticates with number 0. *)
Lemma reinit_authenticates {D} `{!MmioDevice D} s (b : bus D) :
  0 < fp_count s -> fingerprint_authenticate (fingerprint_init s b).1.2 = 0.
Proof.
  intros Hc. unfold fingerprint_init, write_reg. io_run. cbn [fst snd]. unfold fingerprint_authenticate.
  cbn [fp_ready fp_count templates]. change (negb (truthy 1)) with false. cbv iota.
  rewrite (proj2 (Z.eqb_neq _ _)) by lia. done.
Qed.

Definition fp_started : fp_state := mk_fp (templates fp_boot) 1 0.

Lemma fingerprint_numbers_witness :
  let s' := foldl (fun s o => fp_step o s) fp_started [Enroll [97; 0]; Delete 1; Enroll [98; 0]] in
  fp_inv s' /\ fp_count s' = 2.
Proof.
  apply (fingerprint_numbers [Enroll [97; 0]; Delete 1; Enroll [98; 0]] fp_started).
  split; simpl; try lia; done.
Defined.

End Fingerprint.
