(* ===== verification/Audio.v ===== *)
(** * Audio

    Models kernel/bsp/sm8250/drivers/audio.c: the audio processor's registers
    over an arbitrary device, and its buffers, which the driver reaches with
    [memcpy], as memory from addresses to bytes.  Samples are the bytes of the
    caller's buffer. *)

From stdpp Require Import base numbers list option tactics gmap.
From S2P Require Import Prelude Bytes Mmio.

Module Audio.

Definition SM8250_ADSP_BASE : Z := 0x03000000.
Definition ADSP_BASE : Z := SM8250_ADSP_BASE.
Definition ADSP_CTRL : Z := 0x00.
Definition ADSP_STATUS : Z := 0x04.
Definition ADSP_I2S_TX : Z := 0x100.
Definition ADSP_I2S_RX : Z := 0x200.
Definition ADSP_DMA_BASE : Z := 0x1000.
Definition I2S_SR_48KHZ : Z := 48000.
Definition I2S_BITS_16 : Z := 16.
Definition I2S_CHANNELS : Z := 2.

Record audio_state := mk_audio {
  audio_initialized : Z;
  audio_volume : Z;
  mic_muted : Z;
  adsp_mem : Z -> Z;
}.

Definition audio_boot (m : Z -> Z) : audio_state := mk_audio 0 75 0 m.

Section audio.
Context {D : Type} `{!MmioDevice D}.

Definition audio_init (s : audio_state) : io D (Z * audio_state) :=
  write_reg ADSP_BASE ADSP_CTRL 0x02;;
  wait_clear ADSP_BASE ADSP_STATUS 0x02 (Z.to_nat 10000);;
  write_reg ADSP_BASE (ADSP_I2S_TX + 0x00) I2S_SR_48KHZ;;
  write_reg ADSP_BASE (ADSP_I2S_TX + 0x04) (Z.lor (Z.shiftl I2S_BITS_16 16) I2S_CHANNELS);;
  write_reg ADSP_BASE ADSP_CTRL 0x01;;
  mret (0, mk_audio 1 (audio_volume s) (mic_muted s) (adsp_mem s)).

(** Bytes to transfer: 32-bit, at most the buffer. *)
Definition play_bytes (frames : Z) : Z :=
  let bytes := u32 (u32 (frames * I2S_CHANNELS) * 2) in
  if 0x1000 <? bytes then 0x1000 else bytes.

Definition audio_play (pcm : list Z) (frames : Z) (s : audio_state) : io D (Z * audio_state) :=
  if negb (truthy (audio_initialized s)) then mret (-1, s) else
  let bytes := play_bytes frames in
  let m := mem_store (adsp_mem s) (ADSP_BASE + ADSP_DMA_BASE) (take (Z.to_nat bytes) pcm) in
  copy_mem (ADSP_BASE + ADSP_DMA_BASE) bytes;;
  write_reg ADSP_BASE (ADSP_I2S_TX + 0x10) bytes;;
  mret (s32 frames, mk_audio (audio_initialized s) (audio_volume s) (mic_muted s) m).

(** The result and the bytes copied to the caller. *)
Definition audio_record (max_frames : Z) (s : audio_state) : io D (Z * list Z) :=
  if negb (truthy (audio_initialized s)) then mret (-1, []) else
  avail ← read_reg ADSP_BASE (ADSP_I2S_RX + 0x10);
  if avail =? 0 then mret (0, []) else
  let frames := avail / (I2S_CHANNELS * 2) in
  let frames := if max_frames <? frames then max_frames else frames in
  let size := u64 (u32 (frames * I2S_CHANNELS) * 2) in
  copy_mem (ADSP_BASE + ADSP_I2S_RX) size;;
  mret (s32 frames, mem_load (adsp_mem s) (ADSP_BASE + ADSP_I2S_RX) size).

Definition audio_set_volume (percent : Z) (s : audio_state) : io D audio_state :=
  let percent := if percent <? 0 then 0 else percent in
  let percent := if 100 <? percent then 100 else percent in
  write_reg ADSP_BASE (ADSP_I2S_TX + 0x20) percent;;
  mret (mk_audio (audio_initialized s) percent (mic_muted s) (adsp_mem s)).

Definition audio_get_volume (s : audio_state) : Z := audio_volume s.

Definition audio_set_mic_mute (mute : Z) (s : audio_state) : io D audio_state :=
  write_reg ADSP_BASE (ADSP_I2S_TX + 0x24) (if truthy mute then 1 else 0);;
  mret (mk_audio (audio_initialized s) (audio_volume s) mute (adsp_mem s)).

Definition audio_is_mic_muted (s : audio_state) : Z := mic_muted s.

Definition audio_play_tone (freq_hz duration_ms : Z) (s : audio_state) : io D unit :=
  if negb (truthy (audio_initialized s)) then mret () else
  write_reg ADSP_BASE (ADSP_I2S_TX + 0x30) freq_hz;;
  write_reg ADSP_BASE (ADSP_I2S_TX + 0x34) duration_ms.

(** ** Theorems *)

(** A buffer of at most 1024 frames is placed whole in the processor's buffer,
    its length is announced once it is there, and nothing else of memory
    changes. *)
Theorem audio_play_whole (pcm : list Z) (frames : Z) (s : audio_state) (b : bus D)
    (Hready : audio_initialized s = 1) (Hf : 0 <= frames <= 1024)
    (Hpcm : Z.of_nat (length pcm) = 4 * frames) :
  let '((r, s'), b') := audio_play pcm frames s b in
  r = frames /\ mem_load (adsp_mem s') (ADSP_BASE + ADSP_DMA_BASE) (4 * frames) = pcm /\
  (forall a n, a + n <= ADSP_BASE + ADSP_DMA_BASE \/ ADSP_BASE + ADSP_DMA_BASE + 4 * frames <= a ->
     mem_load (adsp_mem s') a n = mem_load (adsp_mem s) a n) /\
  bus_log b' = bus_log b ++ [IoCopy (ADSP_BASE + ADSP_DMA_BASE) (4 * frames);
                             IoWrite (ADSP_BASE + (ADSP_I2S_TX + 0x10)) (4 * frames)].
Proof.
  assert (play_bytes frames = 4 * frames) as Eb.
  { unfold play_bytes, I2S_CHANNELS. rewrite (wrap_small 32 (frames * 2)) by lia. rewrite wrap_small by lia.
    destruct (Z.ltb_spec 0x1000 (frames * 2 * 2)); lia. }
  unfold audio_play. rewrite Hready, Eb. change (negb (truthy 1)) with false. cbv iota.
  unfold write_reg, copy_mem. io_run. cbn [adsp_mem bus_log]. rewrite swrap_small by lia. rewrite (wrap_small 32) by lia.
  rewrite take_ge by lia. rewrite <-Hpcm. split_and!; [done|apply mem_load_store| |by rewrite <-app_assoc].
  intros a n Ha. by apply mem_load_other.
Qed.

(** The volume is kept between 0 and 100, in the variable and in the register
    alike. *)
Lemma audio_volume_range percent s (b : bus D) :
  let '(s', b') := audio_set_volume percent s b in
  audio_get_volume s' = Z.max 0 (Z.min 100 percent) /\
  bus_log b' = bus_log b ++ [IoWrite (ADSP_BASE + (ADSP_I2S_TX + 0x20)) (audio_get_volume s')].
Proof.
  unfold audio_set_volume, write_reg, audio_get_volume. io_run. cbn [audio_volume bus_log].
  assert ((if 100 <? (if percent <? 0 then 0 else percent) then 100 else if percent <? 0 then 0 else percent) =
    Z.max 0 (Z.min 100 percent)) as -> by (repeat case_match; lia).
  rewrite wrap_small by lia. done.
Qed.

(** A longer buffer is cut to 1024 frames and reported as played in full; from
    2^30 frames on the 32-bit size wraps and nothing is played at all. *)
Lemma audio_play_cut (pcm : list Z) s (b : bus D) :
  audio_initialized s = 1 ->
  (audio_play pcm 5000 s b).1.1 = 5000 /\ play_bytes 5000 = 0x1000 /\ play_bytes (2 ^ 30) = 0.
Proof. intros Hr. unfold audio_play, write_reg. by rewrite Hr. Qed.

(** [audio_record] never returns more frames than asked for, nor more bytes. *)
Theorem audio_record_bounded (max_frames : Z) (s : audio_state) (b : bus D) :
  0 <= max_frames < 2 ^ 31 ->
  let '(r, bytes) := (audio_record max_frames s b).1 in
  -1 <= r <= max_frames /\ Z.of_nat (length bytes) = 4 * Z.max 0 r.
Proof.
  intros Hm. unfold audio_record. destruct (negb _); [simpl; lia|]. unfold read_reg. io_run.
  destruct (dev_read _ _) as [v d]. pose proof (wrap_range 32 v ltac:(lia)) as Hv.
  destruct (u32 v =? 0); [simpl; lia|]. cbn [fst]. unfold I2S_CHANNELS. change (2 * 2) with 4.
  set (f := if max_frames <? u32 v / 4 then max_frames else u32 v / 4).
  assert (0 <= f <= max_frames) as Hf by (unfold f; destruct (Z.ltb_spec max_frames (u32 v / 4)); lia).
  assert (f < 2 ^ 30) as Hf2 by (unfold f; destruct (Z.ltb_spec max_frames (u32 v / 4)); lia).
  rewrite swrap_small by lia. rewrite (wrap_small 32) by lia. rewrite (wrap_small 64) by lia. split; [lia|].
  unfold mem_load. rewrite length_fmap, length_seqZ. lia.
Qed.
End audio.

Lemma audio_play_whole_witness :
  let '((r, s'), b') := audio_play [1; 2; 3; 4] 1 (mk_audio 1 75 0 (fun _ => 0)) (mk_bus (D := gmap Z Z) ∅ []) in
  r = 1 /\ mem_load (adsp_mem s') (ADSP_BASE + ADSP_DMA_BASE) 4 = [1; 2; 3; 4].
Proof.
  pose proof (audio_play_whole [1; 2; 3; 4] 1 (mk_audio 1 75 0 (fun _ => 0)) (mk_bus (D := gmap Z Z) ∅ [])) as H.
  destruct (audio_play _ _ _ _) as [[r s'] b'].
  destruct H as (H1 & H2 & _); [reflexivity|lia|reflexivity|]. split; [exact H1|exact H2].
Defined.

Lemma audio_record_bounded_witness :
  let '(r, bytes) := (audio_record 5 (mk_audio 1 75 0 (fun _ => 0))
    (mk_bus {[ADSP_BASE + (ADSP_I2S_RX + 0x10) := 8]} [])).1 in
  -1 <= r <= 5 /\ Z.of_nat (length bytes) = 4 * Z.max 0 r.
Proof.
  apply (audio_record_bounded 5 (mk_audio 1 75 0 (fun _ => 0))
    (mk_bus {[ADSP_BASE + (ADSP_I2S_RX + 0x10) := 8]} [])). lia.
Defined.

End Audio.
