(* ===== verification/Radio.v ===== *)
(** * Modem, Wi-Fi, Bluetooth and NFC

    Models kernel/bsp/sm8250/drivers/modem_ril.c, wifi_bt.c and nfc.c.  The three
    drivers are a few flags in front of register writes; the theorem follows any
    sequence of requests and says which of them are accepted. *)

From stdpp Require Import base numbers list option tactics gmap.
From S2P Require Import Prelude Mmio Board.
Import Board.

Module Radio.

Definition SM8250_QUPV3_BASE : Z := 0x0C00000.
Definition WIFI_SDIO_BASE : Z := 0x01D00000.
Definition BT_UART_BASE : Z := SM8250_QUPV3_BASE + 0x10000.
Definition NFC_I2C_BASE : Z := SM8250_QUPV3_BASE + 0x20000.
Definition NFC_VEN_GPIO : Z := 12.
Definition NFC_CMD_CORE_RESET : Z := 0x00.
Definition NFC_CMD_CORE_INIT : Z := 0x01.
Definition NFC_CMD_DISCOVER : Z := 0x02.
Definition NFC_CMD_READ_NDEF : Z := 0x10.
Definition NFC_CMD_WRITE_NDEF : Z := 0x11.

(** The static variables of the three files. *)
Record radio_state := mk_radio {
  signal_strength : Z;
  cell_id : Z;
  mcc_mnc : Z;
  ims_registered : Z;
  wifi_active : bool;
  bt_active : bool;
  nfc_ready : Z;
}.

Definition radio_boot : radio_state := mk_radio 0 0 0 0 false false 0.

Definition set_ims (v : Z) (s : radio_state) : radio_state :=
  mk_radio (signal_strength s) (cell_id s) (mcc_mnc s) v (wifi_active s) (bt_active s) (nfc_ready s).
Definition set_wifi (v : bool) (s : radio_state) : radio_state :=
  mk_radio (signal_strength s) (cell_id s) (mcc_mnc s) (ims_registered s) v (bt_active s) (nfc_ready s).
Definition set_bt (v : bool) (s : radio_state) : radio_state :=
  mk_radio (signal_strength s) (cell_id s) (mcc_mnc s) (ims_registered s) (wifi_active s) v (nfc_ready s).
Definition set_nfc (v : Z) (s : radio_state) : radio_state :=
  mk_radio (signal_strength s) (cell_id s) (mcc_mnc s) (ims_registered s) (wifi_active s) (bt_active s) v.

(** "358260131234567". *)
Definition ril_get_imei : list Z := (fun d => 48 + d) <$> [3; 5; 8; 2; 6; 0; 1; 3; 1; 2; 3; 4; 5; 6; 7].

Section radio.
Context {D : Type} `{!MmioDevice D}.
Implicit Types (s : radio_state).

(** ** modem_ril.c *)

Definition ril_init s : io D (Z * radio_state) :=
  mss_init;;
  mss_start;;
  mret (0, mk_radio (-85) 0x12345 310410 (ims_registered s) (wifi_active s) (bt_active s) (nfc_ready s)).

Definition ril_get_signal s : Z := signal_strength s.
Definition ril_get_cell_id s : Z := cell_id s.
Definition ril_get_mcc_mnc s : Z := mcc_mnc s.

(** Calls, messages and the data connection only report success. *)
Definition ril_dial (number : list Z) : Z := 0.
Definition ril_hangup : Z := 0.
Definition ril_send_sms (number message : list Z) : Z := 0.
Definition ril_activate_data : Z := 0.
Definition ril_deactivate_data : Z := 0.

Definition ims_init s : Z * radio_state := (0, set_ims 1 s).
Definition ims_is_registered s : Z := ims_registered s.
Definition ims_volte_enable s : Z := if negb (truthy (ims_registered s)) then -1 else 0.
Definition ims_volte_disable : Z := 0.
Definition ims_wifi_calling_enable : Z := 0.
Definition ims_wifi_calling_disable : Z := 0.

(** ** wifi_bt.c *)

Definition wifi_init s : io D (Z * radio_state) :=
  write_reg WIFI_SDIO_BASE 0x00 1;;
  write_reg WIFI_SDIO_BASE 0x04 0x3;;
  mret (0, set_wifi true s).

Definition wifi_scan s : Z := if negb (wifi_active s) then -1 else 0.
Definition wifi_connect (ssid pass : list Z) s : Z := if negb (wifi_active s) then -1 else 0.

Definition bt_init s : io D (Z * radio_state) :=
  write_reg BT_UART_BASE 0x00 0x01;;
  write_reg BT_UART_BASE 0x30 0x01;;
  write_reg BT_UART_BASE 0x34 0x40;;
  write_reg BT_UART_BASE 0x38 0x60;;
  mret (0, set_bt true s).

Definition bt_scan s : Z := if negb (bt_active s) then -1 else 0.

Definition gps_init s : io D (Z * radio_state) :=
  if negb (bt_active s) then
    '(ret, s) ← bt_init s;
    if truthy ret then mret (ret, s) else mret (0, s)
  else mret (0, s).

(** ** nfc.c *)

Definition nfc_init s : io D (Z * radio_state) :=
  write_reg SM8250_TLMM_BASE (NFC_VEN_GPIO * 4) 0x03;;
  write_reg NFC_I2C_BASE 0 NFC_CMD_CORE_RESET;;
  write_reg NFC_I2C_BASE 0 NFC_CMD_CORE_INIT;;
  mret (0, set_nfc 1 s).

Definition nfc_discover s : io D Z :=
  if negb (truthy (nfc_ready s)) then mret (-1) else
  write_reg NFC_I2C_BASE 0 NFC_CMD_DISCOVER;;
  tag ← read_reg NFC_I2C_BASE 4;
  mret (s32 tag).

(** The buffer is never written. *)
Definition nfc_read_ndef (maxlen : Z) s : io D Z :=
  if negb (truthy (nfc_ready s)) then mret (-1) else
  write_reg NFC_I2C_BASE 0 NFC_CMD_READ_NDEF;;
  len ← read_reg NFC_I2C_BASE 8;
  let len := if maxlen <? len then maxlen else len in
  mret (s32 len).

(** [data] is a pointer; 0 is null. *)
Definition nfc_write_ndef (data len : Z) s : io D Z :=
  if negb (truthy (nfc_ready s)) || (data =? 0) then mret (-1) else
  write_reg NFC_I2C_BASE 0 NFC_CMD_WRITE_NDEF;;
  write_reg NFC_I2C_BASE 8 len;;
  mret (s32 len).

(** ** Sequences of requests *)

Inductive radio_op :=
| RilInit | ImsInit | WifiInit | BtInit | GpsInit | NfcInit
| VolteEnable | WifiScan | WifiConnect (ssid pass : list Z) | BtScan
| NfcDiscover | NfcRead (maxlen : Z) | NfcWrite (data len : Z).

(** The result of a request. *)
Definition radio_step (o : radio_op) s : io D (Z * radio_state) :=
  match o with
  | RilInit => ril_init s
  | ImsInit => mret (ims_init s)
  | WifiInit => wifi_init s
  | BtInit => bt_init s
  | GpsInit => gps_init s
  | NfcInit => nfc_init s
  | VolteEnable => mret (ims_volte_enable s, s)
  | WifiScan => mret (wifi_scan s, s)
  | WifiConnect ssid pass => mret (wifi_connect ssid pass s, s)
  | BtScan => mret (bt_scan s, s)
  | NfcDiscover => r ← nfc_discover s; mret (r, s)
  | NfcRead maxlen => r ← nfc_read_ndef maxlen s; mret (r, s)
  | NfcWrite data len => r ← nfc_write_ndef data len s; mret (r, s)
  end.

Fixpoint radio_run (ops : list radio_op) s : io D radio_state :=
  match ops with
  | [] => mret s
  | o :: ops' => '(_, s) ← radio_step o s; radio_run ops' s
  end.

(** The operations that bring a part up. *)
Definition starts_ims (o : radio_op) : bool := match o with ImsInit => true | _ => false end.
Definition starts_wifi (o : radio_op) : bool := match o with WifiInit => true | _ => false end.
Definition starts_bt (o : radio_op) : bool := match o with BtInit | GpsInit => true | _ => false end.
Definition starts_nfc (o : radio_op) : bool := match o with NfcInit => true | _ => false end.

(** Each flag says whether one of the operations that set it has run. *)
Definition flags_follow (h : list radio_op) s : Prop :=
  truthy (ims_registered s) = existsb starts_ims h /\ wifi_active s = existsb starts_wifi h /\
  bt_active s = existsb starts_bt h /\ truthy (nfc_ready s) = existsb starts_nfc h.

Lemma existsb_snoc {A} (p : A -> bool) l a : existsb p (l ++ [a]) = existsb p l || p a.
Proof. rewrite existsb_app. simpl. by rewrite orb_false_r. Qed.

Lemma keep_state (m : io D Z) s (b : bus D) : ((r ← m; mret (r, s)) b).1.2 = s.
Proof. unfold mbind, io_bind. by destruct (m b). Qed.

Lemma radio_step_flags o h s (b : bus D) :
  flags_follow h s -> flags_follow (h ++ [o]) (radio_step o s b).1.2.
Proof.
  unfold flags_follow. intros (H1 & H2 & H3 & H4). rewrite !existsb_snoc, <-H1, <-H2, <-H3, <-H4.
  destruct o; cbn [starts_ims starts_wifi starts_bt starts_nfc]; rewrite ?orb_false_r, ?orb_true_r;
    try (split_and!; reflexivity).
  - cbn [radio_step]. unfold ril_init. io_run. destruct (mss_init b) as [r b1]. by destruct (mss_start b1).
  - cbn [radio_step]. unfold gps_init. destruct (bt_active s) eqn:E; cbn [negb]; split_and!; done.
  - cbn [radio_step]. by rewrite keep_state.
  - cbn [radio_step]. by rewrite keep_state.
  - cbn [radio_step]. by rewrite keep_state.
Qed.

Lemma radio_run_flags ops h s (b : bus D) :
  flags_follow h s -> flags_follow (h ++ ops) (radio_run ops s b).1.
Proof.
  revert h s b. induction ops as [|o ops IH]; intros h s b Hf; [by rewrite app_nil_r|].
  cbn [radio_run]. unfold mbind, io_bind. pose proof (radio_step_flags o h s b Hf) as Hs.
  destruct (radio_step o s b) as [[r s'] b']. simpl in Hs. replace (h ++ o :: ops) with ((h ++ [o]) ++ ops) by by rewrite <-app_assoc.
  by apply IH.
Qed.

(** After any sequence of requests from power-on, whatever the devices
    answer, VoLTE, Wi-Fi and Bluetooth requests succeed exactly when their part
    has been started by an earlier request (Bluetooth also by the start of GPS),
    and an NFC request before the start of NFC fails. *)
Theorem radio_requests ops (b : bus D) ssid pass (maxlen data len : Z) :
  let s := (radio_run ops radio_boot b).1 in
  let b' := (radio_run ops radio_boot b).2 in
  ims_volte_enable s = (if existsb starts_ims ops then 0 else -1) /\
  wifi_scan s = (if existsb starts_wifi ops then 0 else -1) /\
  wifi_connect ssid pass s = (if existsb starts_wifi ops then 0 else -1) /\
  bt_scan s = (if existsb starts_bt ops then 0 else -1) /\
  (existsb starts_nfc ops = false ->
   nfc_discover s b' = (-1, b') /\ nfc_read_ndef maxlen s b' = (-1, b') /\ nfc_write_ndef data len s b' = (-1, b')).
Proof.
  intros s b'. destruct (radio_run_flags ops [] radio_boot b) as (H1 & H2 & H3 & H4); [done|].
  fold s in H1, H2, H3, H4. cbn [app] in H1, H2, H3, H4.
  unfold ims_volte_enable, wifi_scan, wifi_connect, bt_scan, nfc_discover, nfc_read_ndef, nfc_write_ndef.
  rewrite H1, H2, H3, H4. clear H1 H2 H3 H4. split_and!;
    [by destruct (existsb starts_ims ops)|by destruct (existsb starts_wifi ops)
    |by destruct (existsb starts_wifi ops)|by destruct (existsb starts_bt ops)|].
  intros ->. done.
Qed.

(** A read never reports more bytes than the caller's buffer holds, and puts
    none there. *)
Lemma nfc_read_bounded maxlen s (b : bus D) :
  0 <= maxlen < 2 ^ 31 -> truthy (nfc_ready s) = true -> 0 <= (nfc_read_ndef maxlen s b).1 <= maxlen.
Proof.
  intros Hm Hr. unfold nfc_read_ndef. rewrite Hr. cbn [negb]. unfold write_reg, read_reg. io_run.
  match goal with |- context [dev_read ?a ?d] => destruct (dev_read a d) as [v d'] end. pose proof (wrap_range 32 v ltac:(lia)). simpl.
  destruct (Z.ltb_spec maxlen (u32 v)); rewrite swrap_small by lia; lia.
Qed.
End radio.

Lemma radio_requests_witness :
  let s := (radio_run (D := gmap Z Z) [WifiInit; GpsInit; WifiScan] radio_boot (mk_bus ∅ [])).1 in
  wifi_scan s = 0 /\ bt_scan s = 0 /\ ims_volte_enable s = -1.
Proof.
  destruct (radio_requests (D := gmap Z Z) [WifiInit; GpsInit; WifiScan] (mk_bus ∅ []) [] [] 0 0 0)
    as (H1 & H2 & _ & H3 & _). split_and!; [exact H2|exact H3|exact H1].
Defined.

End Radio.
