(* ===== verification/Sensors.v ===== *)
(** * Sensors

    Models kernel/bsp/sm8250/drivers/sensors.c.  The x and y accelerations and
    the rotation rates stay the signed 16-bit readings of the sensor word, before
    their division by a constant; the z acceleration is the constant the board
    support code stores, as the rational number the nearest [float] stands for. *)

From Stdlib Require Import QArith.
From stdpp Require Import base numbers list option tactics gmap.
From S2P Require Import Prelude Mmio Board.
Import Board.
Open Scope Z_scope.

Module Sensors.

(** [9.81f] *)
Definition accel_z : Q := 10286531 # 1048576.

Section sensors.
Context {D : Type} `{!MmioDevice D}.

(** The argument and the result are the static variable [sensor_init_done]. *)
Definition mobile_sensors_init (done : Z) : io D (Z * Z) :=
  slpi_init;;
  slpi_read_accel;;
  slpi_read_gyro;;
  slpi_read_light;;
  slpi_read_proximity;;
  mret (0, 1).

(** [None] is the return value -1. *)
Definition mobile_sensors_read_accel (done : Z) : io D (option (Z * Z * Q)) :=
  if negb (truthy done) then mret None else
  '(x, y) ← slpi_read_accel; mret (Some (x, y, accel_z)).

Definition mobile_sensors_read_gyro (done : Z) : io D (option (Z * Z)) :=
  if negb (truthy done) then mret None else
  r ← slpi_read_gyro; mret (Some r).

Definition mobile_sensors_read_light (done : Z) : io D Z :=
  if negb (truthy done) then mret (-1) else slpi_read_light.

Definition mobile_sensors_read_proximity (done : Z) : io D Z :=
  if negb (truthy done) then mret (-1) else slpi_read_proximity.

Definition mobile_sensors_is_covered (done : Z) : io D Z :=
  if negb (truthy done) then mret 0 else
  p ← slpi_read_proximity; mret (of_bool (p <? 5)).

(** 1 is upright, 2 upside down, 0 neither. *)
Definition mobile_sensors_orientation (done : Z) : io D Z :=
  r ← mobile_sensors_read_accel done;
  mret match r with
       | None => 0
       | Some (_, _, z) => if negb (Qle_bool (-7 # 1) z) then 1 else if negb (Qle_bool z (7 # 1)) then 2 else 0
       end.

(** ** Theorems *)

Lemma halves_range raw : let '(x, y) := halves raw in -2 ^ 15 <= x < 2 ^ 15 /\ -2 ^ 15 <= y < 2 ^ 15.
Proof.
  unfold halves, swrap. change (2 ^ (16 - 1)) with 32768. change (2 ^ 16) with 65536. change (2 ^ 15) with 32768. lia.
Qed.

Lemma light_range (b : bus D) : 0 <= (slpi_read_light b).1 < 2 ^ 16.
Proof.
  unfold slpi_read_light, read_reg. io_run. destruct (dev_read _ _) as [v d]. cbn [fst].
  change 0xFFFF with (Z.ones 16). rewrite Z.land_ones by lia. apply Z.mod_pos_bound. lia.
Qed.

Lemma proximity_range (b : bus D) : 0 <= (slpi_read_proximity b).1 < 2 ^ 16.
Proof.
  unfold slpi_read_proximity, read_reg. io_run. destruct (dev_read _ _) as [v d]. cbn [fst].
  change 0xFFFF with (Z.ones 16). rewrite Z.land_ones by lia. apply Z.mod_pos_bound. lia.
Qed.

(** Before the start-up every reading is refused without touching a
    register; after it, light and proximity are 16-bit numbers, accelerations
    and rates fit 16 signed bits, and the proximity test agrees with the
    distance read. *)
Theorem sensors_readings (b : bus D) :
  mobile_sensors_read_light 0 b = (-1, b) /\ mobile_sensors_read_proximity 0 b = (-1, b) /\
  mobile_sensors_read_accel 0 b = (None, b) /\ mobile_sensors_read_gyro 0 b = (None, b) /\
  mobile_sensors_is_covered 0 b = (0, b) /\
  forall done, done = (mobile_sensors_init 0 b).1.2 ->
    0 <= (mobile_sensors_read_light done b).1 < 2 ^ 16 /\
    0 <= (mobile_sensors_read_proximity done b).1 < 2 ^ 16 /\
    (exists x y, (mobile_sensors_read_accel done b).1 = Some (x, y, accel_z) /\
       -2 ^ 15 <= x < 2 ^ 15 /\ -2 ^ 15 <= y < 2 ^ 15) /\
    (exists x y, (mobile_sensors_read_gyro done b).1 = Some (x, y) /\ -2 ^ 15 <= x < 2 ^ 15 /\ -2 ^ 15 <= y < 2 ^ 15) /\
    (mobile_sensors_is_covered done b).1 = of_bool ((mobile_sensors_read_proximity done b).1 <? 5).
Proof.
  split_and!; [done..|]. intros done Hd. assert (done = 1) as ->.
  { subst done. unfold mobile_sensors_init, slpi_init, slpi_read_accel, slpi_read_gyro, slpi_read_light,
      slpi_read_proximity, write_reg, read_reg. io_run. repeat case_match; simplify_eq/=; done. }
  split; [apply light_range|]. split; [apply proximity_range|]. split; [|split].
  - unfold mobile_sensors_read_accel, slpi_read_accel, read_reg. cbn [truthy Z.eqb negb]. io_run.
    destruct (dev_read _ _) as [v d]. pose proof (halves_range (u32 v)). destruct (halves (u32 v)) as [x y].
    exists x, y. done.
  - unfold mobile_sensors_read_gyro, slpi_read_gyro, read_reg. cbn [truthy Z.eqb negb]. io_run.
    destruct (dev_read _ _) as [v d]. pose proof (halves_range (u32 v)). destruct (halves (u32 v)) as [x y].
    exists x, y. done.
  - unfold mobile_sensors_is_covered, mobile_sensors_read_proximity. cbn [truthy Z.eqb negb]. io_run.
    by destruct (slpi_read_proximity b).
Qed.

(** The z acceleration is a constant, so a started device always reports that
    it is upside down. *)
Lemma orientation_constant (b : bus D) : (mobile_sensors_orientation 1 b).1 = 2.
Proof.
  unfold mobile_sensors_orientation, mobile_sensors_read_accel, slpi_read_accel, read_reg.
  cbn [truthy Z.eqb negb]. io_run. destruct (dev_read _ _) as [v d]. by destruct (halves (u32 v)).
Qed.
End sensors.

Lemma sensors_readings_witness :
  let b := mk_bus (D := gmap Z Z) {[SM8250_SENSOR_BASE + SLPI_PROX_DATA := 3]} [] in
  (mobile_sensors_is_covered 1 b).1 = 1.
Proof.
  destruct (sensors_readings (D := gmap Z Z) (mk_bus {[SM8250_SENSOR_BASE + SLPI_PROX_DATA := 3]} []))
    as (_ & _ & _ & _ & _ & H). destruct (H 1 eq_refl) as (_ & _ & _ & _ & E). exact E.
Defined.

End Sensors.
