(* ===== verification/X86.v ===== *)
(** * The x86_64 machine

    Models kernel/arch/x86_64/io.h and the machine instructions the x86_64 code
    issues.  The hardware is a parameter: a type of states with what a port
    access, a memory-mapped access and a model-specific register access of a
    given address do to it.  A run carries the hardware and the log of the
    accesses, in order; [x86] is the state monad over the two. *)

From stdpp Require Import base numbers list option tactics.
From S2P Require Import Prelude.

(** Access sizes are in bytes. *)
Class X86Machine (D : Type) := {
  hw_in : Z -> Z -> D -> Z * D;              (* size, port *)
  hw_out : Z -> Z -> Z -> D -> D;            (* size, port, value *)
  hw_read : Z -> D -> Z * D;                 (* 32-bit memory-mapped read *)
  hw_write : Z -> Z -> D -> D;
  hw_rdmsr : Z -> D -> Z * D;
  hw_wrmsr : Z -> Z -> D -> D;
}.

Inductive x86_event : Type :=
| In (size port val : Z)
| Out (size port val : Z)
| MmioRead (addr val : Z)
| MmioWrite (addr val : Z)
| Rdmsr (msr val : Z)
| Wrmsr (msr val : Z)
| Lgdt (limit : Z)
| Ltr (sel : Z)
| Lidt (limit : Z)
| Memcpy (dst n : Z)
| CliHlt
| OnCpu (id : option Z).    (* what follows is done by this CPU, [None] the boot CPU *)

Record machine (D : Type) := mk_machine {
  hw : D;
  trace : list x86_event;
}.
Arguments mk_machine {D} _ _.
Arguments hw {D} _.
Arguments trace {D} _.

Definition x86 (D A : Type) : Type := machine D -> A * machine D.

#[export] Instance x86_ret D : MRet (x86 D) := fun A a m => (a, m).
#[export] Instance x86_bind D : MBind (x86 D) :=
  fun A B k f m => let '(a, m') := f m in k a m'.

(** Run the head of a program. *)
Ltac x86_run := unfold mbind, mret, x86_bind, x86_ret; cbv beta iota zeta.

Section instructions.
Context {D : Type} `{!X86Machine D}.

Definition log_event (e : x86_event) (d : D) (m : machine D) : machine D :=
  mk_machine d (trace m ++ [e]).

(** An instruction without an effect on the devices. *)
Definition instr (e : x86_event) : x86 D unit := fun m => (tt, log_event e (hw m) m).

Definition outn (size port val : Z) : x86 D unit := fun m =>
  let v := wrap (8 * size) val in
  (tt, log_event (Out size port v) (hw_out size port v (hw m)) m).

Definition inn (size port : Z) : x86 D Z := fun m =>
  let '(v, d) := hw_in size port (hw m) in
  let v := wrap (8 * size) v in
  (v, log_event (In size port v) d m).

Definition outb : Z -> Z -> x86 D unit := outn 1.
Definition outw : Z -> Z -> x86 D unit := outn 2.
Definition outl : Z -> Z -> x86 D unit := outn 4.
Definition inb : Z -> x86 D Z := inn 1.
Definition inw : Z -> x86 D Z := inn 2.
Definition inl : Z -> x86 D Z := inn 4.

Definition io_wait : x86 D unit := outb 0x80 0.

Definition mmio_read32 (addr : Z) : x86 D Z := fun m =>
  let '(v, d) := hw_read addr (hw m) in
  (u32 v, log_event (MmioRead addr (u32 v)) d m).

Definition mmio_write32 (addr val : Z) : x86 D unit := fun m =>
  (tt, log_event (MmioWrite addr (u32 val)) (hw_write addr (u32 val) (hw m)) m).

Definition read_msr (msr : Z) : x86 D Z := fun m =>
  let '(v, d) := hw_rdmsr msr (hw m) in
  (u64 v, log_event (Rdmsr msr (u64 v)) d m).

Definition write_msr (msr val : Z) : x86 D unit := fun m =>
  (tt, log_event (Wrmsr msr (u64 val)) (hw_wrmsr msr (u64 val) (hw m)) m).

(** The events a program adds to the trace. *)
Definition events {A} (f : x86 D A) (m : machine D) : list x86_event :=
  drop (length (trace m)) (trace (f m).2).

End instructions.

(** A machine whose ports and registers answer zero, for concrete runs. *)
#[export] Instance null_machine : X86Machine unit := {|
  hw_in _ _ _ := (0, tt);
  hw_out _ _ _ _ := tt;
  hw_read _ _ := (0, tt);
  hw_write _ _ _ := tt;
  hw_rdmsr _ _ := (0, tt);
  hw_wrmsr _ _ _ := tt;
|}.
