(* ===== verification/Acpi.v ===== *)
(** * ACPI tables

    Models kernel/arch/x86_64/acpi.c and the table layouts of acpi.h: the search
    for the root pointer, the checksum, the search for a table, the walk over the
    entries of the interrupt controller table, power off and reset.

    Memory is a map from addresses to bytes.  The code reads a field [length] of
    [acpi_sdt_header_t] that the structure in acpi.h does not declare: its offset
    and the size of the structure that contains it are parameters. *)

From stdpp Require Import base numbers list option tactics.
From S2P Require Import Prelude Bytes X86.

Module Acpi.

(** ** Tables *)

(** "RSD PTR ". *)
Definition RSDP_SIGNATURE : list Z := [82; 83; 68; 32; 80; 84; 82; 32].
Definition SIG_FACP : list Z := [70; 65; 67; 80].
Definition SIG_APIC : list Z := [65; 80; 73; 67].

Definition MADT_LAPIC : Z := 0.
Definition MADT_IOAPIC : Z := 1.

(** [rsdp] and [fadt]; 0 is the null pointer. *)
Record acpi_state := mk_acpi {
  rsdp : Z;
  fadt : Z;
}.

Section tables.
Variable mem : Z -> Z.
Variable sizeof_header off_length : Z.

Definition read16 (a : Z) : Z := le_value (mem_load mem a 2).
Definition read32 (a : Z) : Z := le_value (mem_load mem a 4).

(** [memcmp((void * )a, sig, n) == 0] *)
Definition has_signature (sig : list Z) (a : Z) : bool :=
  bool_decide (mem_load mem a (Z.of_nat (length sig)) = sig).

(** [header.length] *)
Definition table_length (t : Z) : Z := read32 (t + off_length).

(** Fields of [rsdp_t], [madt_t], [madt_entry_header_t] and [fadt_t]. *)
Definition rsdt_addr (r : Z) : Z := read32 (r + 16).
Definition sizeof_madt : Z := sizeof_header + 8.
Definition entry_type (p : Z) : Z := mem p.
Definition entry_length (p : Z) : Z := mem (p + 1).
Definition pm1a_cnt_blk (f : Z) : Z := read32 (f + sizeof_header + 28).

(** One of the two loops of [find_rsdp]: [n] candidates from [addr] on. *)
Fixpoint scan_rsdp (n : nat) (addr : Z) : option Z :=
  match n with
  | O => None
  | S n' => if has_signature RSDP_SIGNATURE addr then Some addr else scan_rsdp n' (addr + 16)
  end.

Definition find_rsdp : Z :=
  let ebda := read16 0x40E * 2 ^ 4 in
  match scan_rsdp 64 ebda with
  | Some addr => addr
  | None => match scan_rsdp (Z.to_nat 8192) 0xE0000 with Some addr => addr | None => 0 end
  end.

Definition acpi_checksum (table length : Z) : bool :=
  fold_left (fun sum b => u8 (sum + b)) (mem_load mem table length) 0 =? 0.

(** The loop over the entries of the root table, from the [i]th on. *)
Fixpoint find_entry (n : nat) (rsdt i : Z) (sig : list Z) : Z :=
  match n with
  | O => 0
  | S n' =>
      let hdr := read32 (rsdt + sizeof_header + 4 * i) in
      if has_signature sig hdr && acpi_checksum hdr (table_length hdr) then hdr
      else find_entry n' rsdt (i + 1) sig
  end.

(** The subtraction is unsigned and 64 bits wide, the count an [int]. *)
Definition entry_count (rsdt : Z) : Z := s32 (u64 (table_length rsdt - sizeof_header) / 4).

Definition find_table (sig : list Z) (a : acpi_state) : Z :=
  if rsdp a =? 0 then 0 else
  let rsdt := rsdt_addr (rsdp a) in
  if negb (acpi_checksum rsdt (table_length rsdt)) then 0 else
  find_entry (Z.to_nat (entry_count rsdt)) rsdt 0 sig.

(** The walk of [acpi_init] over the entries; [None] when it takes more than
    [fuel] rounds. *)
Fixpoint madt_walk (fuel : nat) (p entry_end lapic_count ioapic_count : Z) : option (Z * Z) :=
  if p <? entry_end then
    match fuel with
    | O => None
    | S fuel' =>
        let t := entry_type p in
        let p' := u64 (p + entry_length p) in
        if t =? MADT_LAPIC then madt_walk fuel' p' entry_end (u32 (lapic_count + 1)) ioapic_count
        else if t =? MADT_IOAPIC then madt_walk fuel' p' entry_end lapic_count (u32 (ioapic_count + 1))
        else madt_walk fuel' p' entry_end lapic_count ioapic_count
    end
  else Some (lapic_count, ioapic_count).

Definition acpi_init (fuel : nat) (a : acpi_state) : option (Z * acpi_state) :=
  let rsdp_addr := find_rsdp in
  if rsdp_addr =? 0 then Some (-1, a) else
  let a := mk_acpi rsdp_addr (fadt a) in
  let a := mk_acpi rsdp_addr (find_table SIG_FACP a) in
  if fadt a =? 0 then Some (-1, a) else
  let madt := find_table SIG_APIC a in
  if madt =? 0 then Some (0, a) else
  match madt_walk fuel (u64 (madt + sizeof_madt)) (u64 (madt + table_length madt)) 0 0 with
  | None => None
  | Some _ => Some (0, a)
  end.

(** The address and the size. *)
Definition acpi_get_madt (a : acpi_state) : option (Z * Z) :=
  let m := find_table SIG_APIC a in
  if m =? 0 then None else Some (m, table_length m).

(** The loop [acpi_get_lapic_count] and [acpi_get_ioapic_count] share. *)
Fixpoint count_entries (fuel : nat) (type addr end_ count : Z) : option Z :=
  if addr <? end_ then
    match fuel with
    | O => None
    | S fuel' =>
        count_entries fuel' type (u64 (addr + entry_length addr)) end_
          (if entry_type addr =? type then u32 (count + 1) else count)
    end
  else Some count.

Definition acpi_get_lapic_count (fuel : nat) (a : acpi_state) : option Z :=
  match acpi_get_madt a with
  | None => Some 0
  | Some (addr, size) => count_entries fuel MADT_LAPIC (u64 (addr + sizeof_madt)) (u64 (addr + size)) 0
  end.

Definition acpi_get_ioapic_count (fuel : nat) (a : acpi_state) : option Z :=
  match acpi_get_madt a with
  | None => Some 0
  | Some (addr, size) => count_entries fuel MADT_IOAPIC (u64 (addr + sizeof_madt)) (u64 (addr + size)) 0
  end.
End tables.

(** ** Power *)

Section power.
Context {D : Type} `{!X86Machine D}.
Variable mem : Z -> Z.
Variable sizeof_header : Z.

(** [slp_typa | (5 << 10) | (1 << 13)], with [slp_typa] 0. *)
Definition acpi_poweroff (a : acpi_state) : x86 D unit :=
  if fadt a =? 0 then mret tt else
  outw (u16 (pm1a_cnt_blk mem sizeof_header (fadt a))) (Z.lor (Z.shiftl 5 10) (Z.shiftl 1 13));;
  instr CliHlt.

Definition acpi_reboot (a : acpi_state) : x86 D unit := outb 0x64 0xFE;; instr CliHlt.
End power.

(** ** The searches *)

(** Entries of the interrupt controller table: a type and the bytes after the
    two-byte header. *)
Definition madt_entry : Type := Z * list Z.

Definition encode_entry (e : madt_entry) : list Z := e.1 :: Z.of_nat (2 + length e.2) :: e.2.

Definition entry_ok (e : madt_entry) : Prop := (length e.2 <= 253)%nat.

Definition count_type (t : Z) (es : list madt_entry) : Z :=
  Z.of_nat (length (filter (fun e => e.1 = t) es)).

Section theorems.
Variable mem : Z -> Z.
Variable sizeof_header off_length : Z.

Lemma checksum_fold bs acc :
  0 <= acc < 256 -> fold_left (fun sum b => u8 (sum + b)) bs acc = (acc + foldr Z.add 0 bs) mod 256.
Proof.
  revert acc. induction bs as [|b bs IH]; intros acc Ha; simpl.
  - rewrite Z.add_0_r. symmetry. by apply Z.mod_small.
  - rewrite IH by (apply (wrap_range 8); lia). unfold wrap. rewrite Z.add_mod_idemp_l by done. f_equal. lia.
Qed.

(** A table is accepted exactly when its bytes add up to a multiple of 256. *)
Lemma acpi_checksum_spec t n :
  acpi_checksum mem t n = true <-> foldr Z.add 0 (mem_load mem t n) mod 256 = 0.
Proof. unfold acpi_checksum. rewrite checksum_fold, Z.eqb_eq by done. by rewrite Z.add_0_l. Qed.

(** The first element of a list that passes a test. *)
Definition first (p : Z -> bool) (l : list Z) : option Z := head (filter (fun a => p a = true) l).

Lemma first_app p l l' : first p (l ++ l') = match first p l with Some a => Some a | None => first p l' end.
Proof. unfold first. rewrite list.filter_app. by destruct (filter (fun a => p a = true) l). Qed.

Lemma first_seq p (f : Z -> Z) i n :
  first p (f <$> seqZ i (Z.of_nat (S n))) =
  if p (f i) then Some (f i) else first p (f <$> seqZ (i + 1) (Z.of_nat n)).
Proof.
  unfold first. rewrite seqZ_cons by lia. rewrite fmap_cons, filter_cons.
  replace (Z.pred (Z.of_nat (S n))) with (Z.of_nat n) by lia. by destruct (p (f i)).
Qed.

(** [n] candidates, 16 bytes apart. *)
Definition candidates (base n : Z) : list Z := (fun i => base + 16 * i) <$> seqZ 0 n.

Lemma scan_rsdp_first n base i :
  scan_rsdp mem n (base + 16 * i) =
  first (has_signature mem RSDP_SIGNATURE) ((fun i => base + 16 * i) <$> seqZ i (Z.of_nat n)).
Proof.
  revert i. induction n as [|n IH]; intros i; [done|].
  rewrite (first_seq _ (fun i => base + 16 * i)). cbn [scan_rsdp].
  replace (base + 16 * i + 16) with (base + 16 * (i + 1)) by lia. by rewrite IH.
Qed.

Lemma scan_rsdp_candidates n base :
  scan_rsdp mem n base = first (has_signature mem RSDP_SIGNATURE) (candidates base (Z.of_nat n)).
Proof. rewrite <-(Z.add_0_r base) at 1. apply (scan_rsdp_first n base 0). Qed.

Lemma find_entry_first n rsdt i sig :
  find_entry mem sizeof_header off_length n rsdt i sig =
  default 0 (first (fun h => has_signature mem sig h && acpi_checksum mem h (table_length mem off_length h))
    ((fun i => read32 mem (rsdt + sizeof_header + 4 * i)) <$> seqZ i (Z.of_nat n))).
Proof.
  revert i. induction n as [|n IH]; intros i; [done|].
  rewrite (first_seq _ (fun i => read32 mem (rsdt + sizeof_header + 4 * i))). cbn [find_entry].
  rewrite IH. by destruct (_ && _).
Qed.

(** The root pointer is the first 16-byte aligned candidate, in the first
    kilobyte of the extended BIOS data area and then in the BIOS area, that
    carries the signature; a table is the first entry of the root table with the
    signature asked for and a sound checksum, and there is none when the root
    table's own checksum is wrong. *)
Theorem acpi_find_correct sig (a : acpi_state) :
  find_rsdp mem = default 0 (first (has_signature mem RSDP_SIGNATURE)
    (candidates (read16 mem 0x40E * 16) 64 ++ candidates 0xE0000 8192)) /\
  find_table mem sizeof_header off_length sig a =
    let rsdt := rsdt_addr mem (rsdp a) in
    if (rsdp a =? 0) || negb (acpi_checksum mem rsdt (table_length mem off_length rsdt)) then 0 else
    default 0 (first (fun h => has_signature mem sig h && acpi_checksum mem h (table_length mem off_length h))
      ((fun i => read32 mem (rsdt + sizeof_header + 4 * i)) <$> seqZ 0 (entry_count mem sizeof_header off_length rsdt))).
Proof.
  split.
  - unfold find_rsdp. rewrite !scan_rsdp_candidates, first_app.
    change (Z.of_nat 64) with 64. change (Z.of_nat (Z.to_nat 8192)) with 8192. change (2 ^ 4) with 16. by repeat case_match.
  - unfold find_table. cbv zeta. destruct (rsdp a =? 0); [done|]. destruct (acpi_checksum _ _ _); [|done].
    cbn [negb orb]. rewrite find_entry_first. unfold seqZ. by rewrite Nat2Z.id.
Qed.

(** *** The entries of the interrupt controller table *)

(** [acpi_init] counts what the two counting functions count. *)
Lemma madt_walk_counts fuel p e l i :
  madt_walk mem fuel p e l i =
  match count_entries mem fuel MADT_LAPIC p e l, count_entries mem fuel MADT_IOAPIC p e i with
  | Some l', Some i' => Some (l', i')
  | _, _ => None
  end.
Proof.
  revert p l i. induction fuel as [|fuel IH]; intros p l i; cbn [madt_walk count_entries];
    destruct (p <? e); [done|done| |done].
  destruct (Z.eqb_spec (entry_type mem p) MADT_LAPIC) as [E|E].
  - rewrite (proj2 (Z.eqb_neq _ MADT_IOAPIC)) by (rewrite E; done). apply IH.
  - destruct (Z.eqb_spec (entry_type mem p) MADT_IOAPIC); apply IH.
Qed.

(** The bytes at an address. *)
Definition holds (p : Z) (bs : list Z) : Prop := mem_load mem p (Z.of_nat (length bs)) = bs.

Lemma holds_app p l1 l2 : holds p (l1 ++ l2) -> holds p l1 /\ holds (p + Z.of_nat (length l1)) l2.
Proof.
  unfold holds, mem_load. rewrite length_app, Nat2Z.inj_add, seqZ_app, fmap_app by lia. intros E.
  apply app_inj_1 in E as [E1 E2]; [|by rewrite length_fmap, length_seqZ, Nat2Z.id]. split; [done|].
  rewrite <-E2 at 2. rewrite Z.add_0_l, <-(Z.add_0_r (Z.of_nat (length l1))) at 1.
  rewrite <-(fmap_add_seqZ (Z.of_nat (length l1)) 0), <-list_fmap_compose. apply list_fmap_ext.
  intros j x _. simpl. f_equal. lia.
Qed.

Lemma holds_cons p b l : holds p (b :: l) -> mem p = b /\ holds (p + 1) l.
Proof.
  intros H. apply (holds_app p [b] l) in H as [H1 H2]. split; [|done].
  injection H1 as H1. by rewrite Z.add_0_r in H1.
Qed.

Definition madt_bytes (es : list madt_entry) : list Z := concat (encode_entry <$> es).

Lemma count_type_cons t e es : count_type t (e :: es) = (if e.1 =? t then 1 else 0) + count_type t es.
Proof.
  unfold count_type. rewrite filter_cons. destruct (Z.eqb_spec e.1 t).
  - rewrite decide_True by done. cbn [length]. rewrite Nat2Z.inj_succ. symmetry. apply Z.add_1_l.
  - by rewrite decide_False.
Qed.

Lemma count_type_range t es : 0 <= count_type t es <= Z.of_nat (length es).
Proof.
  induction es as [|e es IH]; [done|]. rewrite count_type_cons. cbn [length]. destruct (e.1 =? t); lia.
Qed.

(** The walk counts the entries of a type and stops at the end of the table. *)
Lemma count_entries_correct es t fuel p n :
  Forall entry_ok es -> holds p (madt_bytes es) -> 0 <= p ->
  p + Z.of_nat (length (madt_bytes es)) < 2 ^ 64 -> (length es <= fuel)%nat -> 0 <= n < 2 ^ 32 ->
  count_entries mem fuel t p (p + Z.of_nat (length (madt_bytes es))) n = Some (u32 (n + count_type t es)).
Proof.
  intros Hok. revert fuel p n. induction Hok as [|[ty pl] es He Hes IH]; intros fuel p n Hm Hp Hend Hf Hn.
  - unfold count_type. simpl. rewrite !Z.add_0_r, wrap_small by lia.
    destruct fuel; cbn [count_entries]; by rewrite (proj2 (Z.ltb_ge _ _)) by lia.
  - change (madt_bytes ((ty, pl) :: es)) with (encode_entry (ty, pl) ++ madt_bytes es) in *.
    set (k := Z.of_nat (length (encode_entry (ty, pl)))).
    assert (k = 2 + Z.of_nat (length pl)) as Hk by (unfold k; simpl; lia).
    rewrite length_app, Nat2Z.inj_add in Hend |- *. fold k in Hend |- *.
    apply holds_app in Hm as [He' Hm]. fold k in Hm. unfold encode_entry in He'. cbn [fst snd] in He'.
    apply holds_cons in He' as [Ety He']. apply holds_cons in He' as [Elen _].
    unfold entry_ok in He. cbn [snd] in He. simpl in Hf. destruct fuel as [|fuel]; [lia|].
    cbn [count_entries]. rewrite (proj2 (Z.ltb_lt _ _)) by lia. unfold entry_type, entry_length. rewrite Ety, Elen.
    replace (Z.of_nat (2 + length pl)) with k by lia. rewrite (wrap_small 64) by lia. rewrite Z.add_assoc.
    rewrite IH; [|done|lia|lia|lia|destruct (ty =? t); [apply wrap_range|]; lia].
    f_equal. rewrite count_type_cons. cbn [fst]. destruct (ty =? t); [|done].
    unfold wrap. rewrite Z.add_mod_idemp_l by done. f_equal. lia.
Qed.

(** The interrupt controller table [m] holds the entries [es] and nothing else. *)
Record madt_holds (m : Z) (es : list madt_entry) : Prop := {
  mh_entries : Forall entry_ok es;
  mh_bytes : holds (m + sizeof_madt sizeof_header) (madt_bytes es);
  mh_length : table_length mem off_length m = sizeof_madt sizeof_header + Z.of_nat (length (madt_bytes es));
  mh_start : 0 <= m + sizeof_madt sizeof_header;
  mh_end : m + table_length mem off_length m < 2 ^ 64;
}.

Lemma madt_counted m es t fuel :
  madt_holds m es -> Z.of_nat (length es) < 2 ^ 32 -> (length es <= fuel)%nat ->
  count_entries mem fuel t (u64 (m + sizeof_madt sizeof_header)) (u64 (m + table_length mem off_length m)) 0 =
    Some (count_type t es).
Proof.
  intros [Hok Hh Hlen Hp Hend] Hes Hf. rewrite !(wrap_small 64) by lia. rewrite Hlen, Z.add_assoc.
  rewrite count_entries_correct by (try done; lia). f_equal. apply wrap_small.
  pose proof (count_type_range t es). lia.
Qed.

(** The interrupt controller table that a search from the root pointer finds. *)
Definition firmware_madt : Z := find_table mem sizeof_header off_length SIG_APIC (mk_acpi (find_rsdp mem) 0).

(** The walk of [acpi_init] ends when the table it finds is well formed. *)
Lemma acpi_init_ends fuel a es :
  (firmware_madt <> 0 -> madt_holds firmware_madt es) ->
  Z.of_nat (length es) < 2 ^ 32 -> (length es <= fuel)%nat ->
  is_Some (acpi_init mem sizeof_header off_length fuel a).
Proof.
  intros Hm Hes Hf. unfold acpi_init. cbv zeta. destruct (_ =? 0); [by eexists|]. destruct (_ =? 0); [by eexists|].
  change (find_table mem sizeof_header off_length SIG_APIC (mk_acpi (find_rsdp mem) _)) with firmware_madt.
  destruct (Z.eqb_spec firmware_madt 0) as [|Hne]; [by eexists|].
  rewrite madt_walk_counts, !(madt_counted _ es) by auto. by eexists.
Qed.

(** C23: When the interrupt controller table is in memory and holds entries of at
    most 255 bytes, the walk over it ends within as many rounds as there are
    entries, and the numbers of local and I/O interrupt controllers reported are
    those of the entries of the two types. *)
Theorem acpi_counts_correct es fuel a m :
  find_table mem sizeof_header off_length SIG_APIC a = m -> m <> 0 ->
  Forall entry_ok es -> holds (m + sizeof_madt sizeof_header) (madt_bytes es) ->
  table_length mem off_length m = sizeof_madt sizeof_header + Z.of_nat (length (madt_bytes es)) ->
  0 <= m + sizeof_madt sizeof_header -> m + table_length mem off_length m < 2 ^ 64 ->
  Z.of_nat (length es) < 2 ^ 32 -> (length es <= fuel)%nat ->
  acpi_get_lapic_count mem sizeof_header off_length fuel a = Some (count_type MADT_LAPIC es) /\
  acpi_get_ioapic_count mem sizeof_header off_length fuel a = Some (count_type MADT_IOAPIC es) /\
  madt_walk mem fuel (u64 (m + sizeof_madt sizeof_header)) (u64 (m + table_length mem off_length m)) 0 0 =
    Some (count_type MADT_LAPIC es, count_type MADT_IOAPIC es).
Proof.
  intros Hm Hm0 Hok Hh Hlen Hp Hend Hes Hf.
  assert (madt_holds m es) as Hmh by done.
  unfold acpi_get_lapic_count, acpi_get_ioapic_count, acpi_get_madt.
  rewrite Hm, (proj2 (Z.eqb_neq m 0)) by done. by rewrite madt_walk_counts, !(madt_counted _ es).
Qed.

(** An entry whose length byte is 0 stops the walk from ever ending. *)
Lemma zero_length_hangs fuel t p e n :
  0 <= p < 2 ^ 64 -> p < e -> entry_length mem p = 0 -> count_entries mem fuel t p e n = None.
Proof.
  intros Hp He Hl. revert n. induction fuel as [|fuel IH]; intros n; cbn [count_entries];
    rewrite (proj2 (Z.ltb_lt _ _)) by done; [done|]. by rewrite Hl, Z.add_0_r, wrap_small.
Qed.

(** Power off writes sleep type 5 with the enable bit to the control register the
    fixed description table names, and does nothing without that table. *)
Lemma acpi_poweroff_events {D} `{!X86Machine D} (a : acpi_state) (m : machine D) :
  trace (acpi_poweroff mem sizeof_header a m).2 =
  trace m ++ (if fadt a =? 0 then [] else [Out 2 (u16 (pm1a_cnt_blk mem sizeof_header (fadt a))) 0x3400; CliHlt]).
Proof.
  unfold acpi_poweroff. destruct (fadt a =? 0); [by rewrite app_nil_r|].
  x86_run. unfold outw, outn, instr, log_event. cbn [trace hw snd]. by rewrite <-app_assoc.
Qed.
End theorems.

(** ** Witnesses *)

(** Firmware memory with a root pointer, a root table of one entry and an
    interrupt controller table with three entries; the header is the one of the
    ACPI specification. *)
Definition madt0 : list madt_entry := [(0, [0; 0; 1; 0; 0; 0]); (1, replicate 10 0); (0, [1; 1; 1; 0; 0; 0])].

(** A table of the given signature and contents, its checksum in byte 9. *)
Definition sdt (sig body : list Z) : list Z :=
  let len := 36 + Z.of_nat (length body) in
  let sum := (foldr Z.add 0 sig + foldr Z.add 0 (le_bytes 4 len) + foldr Z.add 0 body) mod 256 in
  sig ++ le_bytes 4 len ++ [0; (256 - sum) mod 256] ++ replicate 26 0 ++ body.

Definition firmware : Z -> Z :=
  mem_store (mem_store (mem_store (fun _ => 0) 0xE0010 (RSDP_SIGNATURE ++ replicate 8 0 ++ le_bytes 4 0x200000))
    0x200000 (sdt [82; 83; 68; 84] (le_bytes 4 0x210000)))
    0x210000 (sdt SIG_APIC (replicate 8 0 ++ madt_bytes madt0)).

Lemma acpi_counts_correct_witness :
  acpi_get_lapic_count firmware 36 4 3 (mk_acpi 0xE0010 0) = Some 2 /\
  acpi_get_ioapic_count firmware 36 4 3 (mk_acpi 0xE0010 0) = Some 1.
Proof.
  destruct (acpi_counts_correct firmware 36 4 madt0 3 (mk_acpi 0xE0010 0) 0x210000) as (H1 & H2 & _).
  - by vm_compute.
  - lia.
  - repeat constructor; vm_compute; lia.
  - by vm_compute.
  - by vm_compute.
  - vm_compute. discriminate.
  - by vm_compute.
  - by vm_compute.
  - vm_compute. lia.
  - split; [exact H1|exact H2].
Defined.

End Acpi.
