(* ===== verification/Gdt.v ===== *)
(** * Segment descriptors and task state segments

    Models kernel/arch/x86_64/gdt.c and gdt.h: the global descriptor table, the
    per-CPU task state segments and the descriptors that point at them.  The
    address the linker gives to [tss_entries] is a parameter. *)

From stdpp Require Import base numbers list option tactics.
From S2P Require Import Prelude X86.

Module Gdt.

Definition GDT_ENTRIES : Z := 64.
Definition GDT_TSS_BASE : Z := 0x28.
Definition MAX_CPUS : Z := 256.
(** [sizeof(tss_t)], asserted by the source. *)
Definition TSS_SIZE : Z := 104.

Record gdt_entry_t := mk_gdt_entry {
  limit_low : Z;      (* uint16_t *)
  base_low : Z;       (* uint16_t *)
  base_mid : Z;       (* uint8_t *)
  access : Z;         (* uint8_t *)
  flags_limit : Z;    (* uint8_t *)
  base_high : Z;      (* uint8_t *)
}.

Definition zero_gdt_entry : gdt_entry_t := mk_gdt_entry 0 0 0 0 0 0.
#[export] Instance gdt_entry_inhabited : Inhabited gdt_entry_t := populate zero_gdt_entry.

(** The reserved fields are never written and stay zero. *)
Record tss_t := mk_tss {
  rsp0 : Z;
  rsp1 : Z;
  rsp2 : Z;
  tss_ist : list Z;   (* the interrupt stack table, IST 1 first *)
  iomap_base : Z;
}.

Definition zero_tss : tss_t := mk_tss 0 0 0 (replicate 7 0) 0.
#[export] Instance tss_inhabited : Inhabited tss_t := populate zero_tss.

Record gdt_state := mk_gdt {
  gdt : list gdt_entry_t;
  tss_entries : list tss_t;
}.

Definition gdt_set_entry (i base limit acc flags : Z) (g : list gdt_entry_t) : list gdt_entry_t :=
  g.[i <- mk_gdt_entry (Z.land limit 0xFFFF) (Z.land base 0xFFFF)
            (Z.land (Z.shiftr base 16) 0xFF) acc
            (Z.lor (Z.land (Z.shiftr limit 16) 0x0F) (Z.land flags 0xF0))
            (Z.land (Z.shiftr base 24) 0xFF)].

(** The upper half is stored as two 32-bit words over the fields of the next
    entry: the first covers [limit_low] and [base_low], the second the others. *)
Definition gdt_set_tss_entry (i tss_addr tss_size : Z) (g : list gdt_entry_t) : list gdt_entry_t :=
  let base := u32 (Z.land tss_addr 0xFFFFFFFF) in
  let limit := u32 (tss_size - 1) in
  let g := g.[i <- mk_gdt_entry (Z.land limit 0xFFFF) (Z.land base 0xFFFF)
                     (Z.land (Z.shiftr base 16) 0xFF) 0x89
                     (Z.land (Z.shiftr limit 16) 0x0F) (Z.land (Z.shiftr base 24) 0xFF)] in
  let base_upper := Z.shiftr tss_addr 32 in
  let hi0 := u32 (Z.land base_upper 0xFFFFFFFF) in
  g.[i + 1 <- mk_gdt_entry (Z.land hi0 0xFFFF) (Z.shiftr hi0 16) 0 0 0 0].

(** Stack pointers and the I/O map offset of a TSS; [rsp0] is the field the
    kernel sets. *)
Definition fresh_tss (stack_top : Z) : tss_t :=
  mk_tss stack_top 0 0 (replicate 7 0) TSS_SIZE.

Section tables.
(** The address of [tss_entries]. *)
Variable tss_base : Z.

Definition tss_address (cpu : Z) : Z := tss_base + cpu * TSS_SIZE.

Definition gdt_init {D} `{!X86Machine D} (s : gdt_state) : x86 D gdt_state :=
  let g := replicate (Z.to_nat GDT_ENTRIES) zero_gdt_entry in
  let g := gdt_set_entry 0 0 0 0 0 g in
  let g := gdt_set_entry 1 0 0xFFFFF 0x9A 0xA0 g in
  let g := gdt_set_entry 2 0 0xFFFFF 0x92 0xA0 g in
  let g := gdt_set_entry 3 0 0xFFFFF 0xFA 0xA0 g in
  let g := gdt_set_entry 4 0 0xFFFFF 0xF2 0xA0 g in
  let t := (tss_entries s).[0 <- fresh_tss 0] in
  let g := gdt_set_tss_entry (GDT_TSS_BASE / 8) (tss_address 0) TSS_SIZE g in
  instr (Lgdt (GDT_ENTRIES * 8 - 1));;
  instr (Ltr GDT_TSS_BASE);;
  mret (mk_gdt g t).

Definition gdt_load_tss (cpu_index tss_addr tss_size : Z) (s : gdt_state) : gdt_state :=
  if MAX_CPUS <=? cpu_index then s else
  let entry := GDT_TSS_BASE / 8 + cpu_index * 2 in
  if GDT_ENTRIES <=? entry + 1 then s else
  let top := if truthy tss_addr then u64 (tss_addr + tss_size) else 0 in
  mk_gdt (gdt_set_tss_entry entry (tss_address cpu_index) TSS_SIZE (gdt s))
         ((tss_entries s).[cpu_index <- fresh_tss top]).

End tables.

(** ** What the processor reads from a descriptor *)

Definition seg_base (e : gdt_entry_t) : Z :=
  base_low e + base_mid e * 2 ^ 16 + base_high e * 2 ^ 24.
Definition seg_limit (e : gdt_entry_t) : Z :=
  limit_low e + Z.land (flags_limit e) 0x0F * 2 ^ 16.
Definition seg_present (e : gdt_entry_t) : bool := Z.testbit (access e) 7.
Definition seg_dpl (e : gdt_entry_t) : Z := Z.land (Z.shiftr (access e) 5) 3.
Definition seg_executable (e : gdt_entry_t) : bool := Z.testbit (access e) 3.
Definition seg_long (e : gdt_entry_t) : bool := Z.testbit (flags_limit e) 5.

(** A system descriptor takes two entries; its base has 64 bits. *)
Definition sys_base (g : list gdt_entry_t) (i : Z) : Z :=
  seg_base g.[i] + (limit_low g.[i + 1] + base_low g.[i + 1] * 2 ^ 16) * 2 ^ 32.

Definition tss_entry (cpu : Z) : Z := GDT_TSS_BASE / 8 + cpu * 2.

(** The descriptor of [cpu] is an available 64-bit TSS at its own segment. *)
Definition tss_loaded (tss_base : Z) (g : list gdt_entry_t) (cpu : Z) : Prop :=
  access g.[tss_entry cpu] = 0x89 /\
  seg_limit g.[tss_entry cpu] = TSS_SIZE - 1 /\
  sys_base g (tss_entry cpu) = tss_address tss_base cpu.

Record gdt_ok (s : gdt_state) : Prop := {
  go_gdt : Z.of_nat (length (gdt s)) = GDT_ENTRIES;
  go_tss : Z.of_nat (length (tss_entries s)) = MAX_CPUS;
}.

(** ** Field lemmas *)

(** The split of a 32-bit base over three fields is undone by the processor. *)
Lemma split_base b : 0 <= b < 2 ^ 32 ->
  Z.land b 0xFFFF + Z.land (Z.shiftr b 16) 0xFF * 2 ^ 16 + Z.land (Z.shiftr b 24) 0xFF * 2 ^ 24 = b.
Proof.
  intros Hb. rewrite !Z.shiftr_div_pow2 by lia.
  change 0xFFFF with (Z.ones 16). change 0xFF with (Z.ones 8). rewrite !Z.land_ones by lia. lia.
Qed.

Lemma split_limit l f : 0 <= l < 2 ^ 20 ->
  Z.land l 0xFFFF + Z.land (Z.lor (Z.land (Z.shiftr l 16) 0x0F) (Z.land f 0xF0)) 0x0F * 2 ^ 16 = l.
Proof.
  intros Hl. rewrite Z.land_lor_distr_l, <-!Z.land_assoc. change (Z.land 240 15) with 0.
  change (Z.land 15 15) with (Z.ones 4). change 0xFFFF with (Z.ones 16).
  rewrite Z.land_0_r, Z.lor_0_r, Z.shiftr_div_pow2, !Z.land_ones by lia. lia.
Qed.

Lemma split_word w : 0 <= w < 2 ^ 32 -> Z.land w 0xFFFF + Z.shiftr w 16 * 2 ^ 16 = w.
Proof.
  intros Hw. change 0xFFFF with (Z.ones 16). rewrite Z.shiftr_div_pow2, Z.land_ones by lia. lia.
Qed.

Section load.
Variable tss_base : Z.

(** Writing a TSS descriptor: it reads back, the entries below and above stay. *)
Lemma gdt_set_tss_entry_spec g i a :
  0 <= i -> i + 1 < Z.of_nat (length g) -> 0 <= a < 2 ^ 64 ->
  let g' := gdt_set_tss_entry i a TSS_SIZE g in
  length g' = length g /\
  access g'.[i] = 0x89 /\ seg_limit g'.[i] = TSS_SIZE - 1 /\ sys_base g' i = a /\
  (forall j, 0 <= j -> j <> i -> j <> i + 1 -> g'.[j] = g.[j]).
Proof.
  intros Hi Hl Ha g'. unfold g', gdt_set_tss_entry. cbv zeta. set (e := mk_gdt_entry _ _ _ 0x89 _ _).
  set (f := mk_gdt_entry _ (Z.shiftr _ _) _ _ _ _).
  assert (g.[i <- e].[i + 1 <- f].[i] = e) as E1.
  { rewrite aget_aset_ne by lia. by apply aget_aset_eq; lia. }
  assert (g.[i <- e].[i + 1 <- f].[i + 1] = f) as E2.
  { apply aget_aset_eq. rewrite length_aset. lia. }
  split; [by autorewrite with omnios|]. unfold sys_base. rewrite E1, E2.
  split; [done|]. split; [reflexivity|]. split.
  - unfold e, f, seg_base. cbn [base_low base_mid base_high limit_low].
    change 0xFFFFFFFF with (Z.ones 32). rewrite !Z.land_ones by lia.
    rewrite (Z.shiftr_div_pow2 a 32) by lia.
    rewrite split_base, split_word by (apply wrap_range; lia). rewrite !wrap_small by lia. lia.
  - intros j Hj Hne Hne'. by rewrite !aget_aset_ne by lia.
Qed.

Lemma gdt_set_entry_spec g i base limit acc flags :
  0 <= i < Z.of_nat (length g) -> 0 <= base < 2 ^ 32 -> 0 <= limit < 2 ^ 20 ->
  let g' := gdt_set_entry i base limit acc flags g in
  length g' = length g /\
  seg_base g'.[i] = base /\ seg_limit g'.[i] = limit /\ access g'.[i] = acc /\
  (forall j, 0 <= j -> j <> i -> g'.[j] = g.[j]).
Proof.
  intros Hi Hb Hl g'. unfold g', gdt_set_entry. rewrite aget_aset_eq by done.
  split; [apply length_aset|]. split; [by apply split_base|]. split; [by apply split_limit|].
  split; [done|]. intros j Hj Hne. by rewrite aget_aset_ne by lia.
Qed.

(** [tss_loaded] only looks at the two entries of its CPU. *)
Lemma tss_loaded_frame g g' cpu :
  (forall j, j = tss_entry cpu \/ j = tss_entry cpu + 1 -> g'.[j] = g.[j]) ->
  tss_loaded tss_base g cpu -> tss_loaded tss_base g' cpu.
Proof. intros H. unfold tss_loaded, sys_base. by rewrite !H by lia. Qed.

(** [gdt_load_tss] for one of the first 29 CPUs writes a descriptor from
    which the processor reads exactly the address and the limit of that CPU's
    own task state segment, whose ring 0 stack is the top of the area given; the
    descriptors of the other CPUs and the code and data segments keep their
    content. *)
Theorem gdt_load_tss_correct cpu addr size s :
  gdt_ok s -> 0 <= cpu <= 28 -> 0 <= tss_base -> tss_base + MAX_CPUS * TSS_SIZE <= 2 ^ 64 ->
  0 < addr -> 0 <= size -> addr + size < 2 ^ 64 ->
  let s' := gdt_load_tss tss_base cpu addr size s in
  gdt_ok s' /\ tss_loaded tss_base (gdt s') cpu /\ rsp0 (tss_entries s').[cpu] = addr + size /\
  (forall c, 0 <= c -> c <> cpu -> tss_loaded tss_base (gdt s) c -> tss_loaded tss_base (gdt s') c) /\
  (forall c, 0 <= c -> c <> cpu -> (tss_entries s').[c] = (tss_entries s).[c]) /\
  (forall j, 0 <= j < GDT_TSS_BASE / 8 -> (gdt s').[j] = (gdt s).[j]).
Proof.
  intros [Hg Ht] Hc Hb Hb' Ha Hs Has s'. unfold s', gdt_load_tss, MAX_CPUS, TSS_SIZE in *.
  rewrite (proj2 (Z.leb_gt 256 cpu)) by lia. change (GDT_TSS_BASE / 8) with 5 in *.
  unfold GDT_ENTRIES in *. rewrite (proj2 (Z.leb_gt 64 _)) by lia.
  unfold truthy. rewrite (proj2 (Z.eqb_neq addr 0)) by lia. cbn [negb gdt tss_entries].
  rewrite (wrap_small 64 (addr + size)) by lia.
  destruct (gdt_set_tss_entry_spec (gdt s) (5 + cpu * 2) (tss_address tss_base cpu))
    as (Hlen & Hacc & Hlim & Hbase & Hrest); [lia|lia|unfold tss_address, TSS_SIZE; lia|].
  unfold TSS_SIZE in *. cbv zeta in *.
  split; [constructor; cbn [gdt tss_entries]; [by rewrite Hlen | by rewrite length_aset]|].
  split; [unfold tss_loaded, tss_entry; change (GDT_TSS_BASE / 8) with 5; done|].
  split; [by rewrite aget_aset_eq by lia|]. split.
  - intros c Hc0 Hne. apply tss_loaded_frame. intros j Hj. unfold tss_entry in Hj.
    change (GDT_TSS_BASE / 8) with 5 in Hj. apply Hrest; lia.
  - split; [intros c Hc0 Hne; by rewrite aget_aset_ne by lia|].
    intros j Hj. apply Hrest; lia.
Qed.

(** The table has room for the descriptors of 29 CPUs; for every other CPU the
    call returns without doing anything. *)
Lemma gdt_load_tss_ignored cpu addr size s : 29 <= cpu -> gdt_load_tss tss_base cpu addr size s = s.
Proof.
  intros. unfold gdt_load_tss. change (GDT_TSS_BASE / 8) with 5. unfold MAX_CPUS, GDT_ENTRIES.
  split_cmp; try done; lia.
Qed.

End load.

(** ** The table after [gdt_init] *)

Section init.
Context {D : Type} `{!X86Machine D} (tss_base : Z).

(** [gdt_init] loads a table of 64 entries in which the selectors of
    gdt.h name flat segments (base 0, limit 0xFFFFF) of the right privilege and
    type, entry 0 is null, and the task register points at the first CPU's TSS,
    which has no interrupt stacks. *)
Theorem gdt_init_correct s (m : machine D) :
  gdt_ok s -> 0 <= tss_base -> tss_base + MAX_CPUS * TSS_SIZE <= 2 ^ 64 ->
  let '(s', m') := gdt_init tss_base s m in
  gdt_ok s' /\ trace m' = trace m ++ [Lgdt 511; Ltr 0x28] /\
  (gdt s').[0] = zero_gdt_entry /\
  (forall i, 1 <= i <= 4 ->
     let e := (gdt s').[i] in
     seg_base e = 0 /\ seg_limit e = 0xFFFFF /\ seg_present e = true /\
     seg_dpl e = (if i <=? 2 then 0 else 3) /\ seg_executable e = Z.odd i) /\
  tss_loaded tss_base (gdt s') 0 /\
  (tss_entries s').[0] = mk_tss 0 0 0 (replicate 7 0) TSS_SIZE.
Proof.
  intros [Hg Ht] Hb Hb'. unfold gdt_init. x86_run. unfold instr, log_event. cbv beta iota zeta.
  cbn [trace hw]. unfold MAX_CPUS, TSS_SIZE in *. change (GDT_TSS_BASE / 8) with 5.
  set (g0 := gdt_set_entry 4 _ _ _ _ _).
  assert (length g0 = 64%nat) as Hl by reflexivity.
  destruct (gdt_set_tss_entry_spec g0 5 (tss_address tss_base 0)) as (Hlen & Hacc & Hlim & Hbase & Hrest);
    [lia|lia|unfold tss_address, TSS_SIZE; lia|].
  unfold TSS_SIZE in *. cbv zeta in *. cbn [gdt tss_entries].
  split; [constructor; cbn [gdt tss_entries]; [by rewrite Hlen | by rewrite length_aset]|].
  split; [by rewrite <-app_assoc|].
  split; [by rewrite Hrest by lia|]. split.
  - intros i Hi. rewrite Hrest by lia.
    assert (i = 1 \/ i = 2 \/ i = 3 \/ i = 4) as Hi' by lia.
    destruct_or! Hi'; subst i; vm_compute; done.
  - split; [done|]. by rewrite aget_aset_eq by lia.
Qed.

End init.

Definition gdt0 : gdt_state :=
  mk_gdt (replicate 64 zero_gdt_entry) (replicate 256 zero_tss).

Lemma gdt0_ok : gdt_ok gdt0.
Proof. by split. Defined.

Lemma gdt_init_correct_witness :
  let '(s', m') := gdt_init (D := unit) 0x200000 gdt0 (mk_machine tt []) in
  gdt_ok s' /\ trace m' = [Lgdt 511; Ltr 0x28] /\
  (gdt s').[0] = zero_gdt_entry /\
  (forall i, 1 <= i <= 4 ->
     let e := (gdt s').[i] in
     seg_base e = 0 /\ seg_limit e = 0xFFFFF /\ seg_present e = true /\
     seg_dpl e = (if i <=? 2 then 0 else 3) /\ seg_executable e = Z.odd i) /\
  tss_loaded 0x200000 (gdt s') 0 /\
  (tss_entries s').[0] = mk_tss 0 0 0 (replicate 7 0) TSS_SIZE.
Proof.
  apply (gdt_init_correct (D := unit) 0x200000 gdt0 (mk_machine tt []) gdt0_ok);
    unfold MAX_CPUS, TSS_SIZE; lia.
Defined.

Lemma gdt_load_tss_correct_witness :
  let s' := gdt_load_tss 0x200000 3 0x300000 0x4000 gdt0 in
  gdt_ok s' /\ tss_loaded 0x200000 (gdt s') 3 /\ rsp0 (tss_entries s').[3] = 0x300000 + 0x4000.
Proof.
  destruct (gdt_load_tss_correct 0x200000 3 0x300000 0x4000 gdt0 gdt0_ok) as (H1 & H2 & H3 & _);
    unfold MAX_CPUS, TSS_SIZE; try lia. done.
Defined.

End Gdt.
