(* ===== verification/Idt.v ===== *)
(** * Interrupt descriptors and exceptions

    Models kernel/arch/x86_64/idt.c and idt.h: the interrupt descriptor table,
    the gates installed for the 32 exceptions and the report of the default
    handler.  A handler is the address of its code. *)

From stdpp Require Import base numbers list option tactics strings.
From S2P Require Import Prelude X86 Gdt.
Import Gdt.

Module Idt.

Definition IDT_ENTRIES : Z := 256.
Definition IST_DOUBLE_FAULT : Z := 1.
Definition IST_NMI : Z := 2.
Definition IST_MCE : Z := 3.

Record idt_entry_t := mk_gate {
  offset_low : Z;     (* uint16_t *)
  selector : Z;       (* uint16_t *)
  gate_ist : Z;       (* uint8_t *)
  type_attr : Z;      (* uint8_t *)
  offset_mid : Z;     (* uint16_t *)
  offset_high : Z;    (* uint32_t *)
  gate_reserved : Z;  (* uint32_t *)
}.

Definition zero_gate : idt_entry_t := mk_gate 0 0 0 0 0 0 0.
#[export] Instance gate_inhabited : Inhabited idt_entry_t := populate zero_gate.

Record interrupt_frame_t := mk_frame {
  r15 : Z; r14 : Z; r13 : Z; r12 : Z; r11 : Z; r10 : Z; r9 : Z; r8 : Z;
  rbp : Z; rdi : Z; rsi : Z; rdx : Z; rcx : Z; rbx : Z; rax : Z;
  vector : Z; error_code : Z;
  rip : Z; cs : Z; rflags : Z; rsp : Z; ss : Z;
}.

Record idt_state := mk_idt {
  idt : list idt_entry_t;
  handlers : list Z;
}.

Definition exception_names : list string := [
  "Divide-by-zero"; "Debug"; "Non-maskable Interrupt"; "Breakpoint"; "Overflow";
  "Bound Range Exceeded"; "Invalid Opcode"; "Device Not Available"; "Double Fault";
  "Coprocessor Segment Overrun"; "Invalid TSS"; "Segment Not Present"; "Stack-Segment Fault";
  "General Protection Fault"; "Page Fault"; "Reserved"; "x87 FPU Floating-Point Error";
  "Alignment Check"; "Machine Check"; "SIMD Floating-Point Exception";
  "Virtualization Exception"; "Control Protection Exception"]%string.

Definition idt_set_handler (vec handler ist : Z) (user : bool) (s : idt_state) : idt_state :=
  mk_idt
    ((idt s).[vec <- mk_gate (Z.land handler 0xFFFF) 0x08 ist
                       (Z.lor 0x8E (if user then 0x60 else 0))
                       (Z.land (Z.shiftr handler 16) 0xFFFF)
                       (Z.land (Z.shiftr handler 32) 0xFFFFFFFF) 0])
    ((handlers s).[vec <- handler]).

(** What [default_handler] prints before it halts for ever: the name of the
    exception and the labelled registers, with the fault address read from CR2
    for a page fault. *)
Definition default_handler (f : interrupt_frame_t) (cr2 : Z) : string * list (string * Z) :=
  let name := default "Unknown"%string (exception_names !! Z.to_nat (vector f)) in
  (name,
   [("Vector", vector f); ("Error", error_code f); ("RIP", rip f); ("RSP", rsp f); ("CS", cs f);
    ("RFLAGS", rflags f); ("RAX", rax f); ("RBX", rbx f); ("RCX", rcx f); ("RDX", rdx f);
    ("RSI", rsi f); ("RDI", rdi f); ("RBP", rbp f); ("R8", r8 f)]%string ++
   (if vector f =? 14 then [("CR2"%string, cr2)] else [])).

Definition idt_install {D} `{!X86Machine D} : x86 D unit := instr (Lidt (IDT_ENTRIES * 16 - 1)).

(** The interrupt stack chosen for an exception. *)
Definition exception_ist (i : Z) : Z :=
  let ist := 0 in
  let ist := if i =? 8 then IST_DOUBLE_FAULT else ist in
  let ist := if i =? 2 then IST_NMI else ist in
  if i =? 18 then IST_MCE else ist.

(** [for (int i = 0; i < 32; i++) ...] *)
Fixpoint set_exceptions (default_handler : Z) (n : nat) (i : Z) (s : idt_state) : idt_state :=
  match n with
  | O => s
  | S n' => set_exceptions default_handler n' (i + 1)
              (idt_set_handler i default_handler (exception_ist i) false s)
  end.

Definition idt_init {D} `{!X86Machine D} (default_handler : Z) (_ : idt_state) : x86 D idt_state :=
  let s := mk_idt (replicate (Z.to_nat IDT_ENTRIES) zero_gate)
                  (replicate (Z.to_nat IDT_ENTRIES) 0) in
  let s := set_exceptions default_handler 32 0 s in
  idt_install;;
  mret s.

(** ** What the processor reads from a gate *)

Definition gate_offset (e : idt_entry_t) : Z :=
  offset_low e + offset_mid e * 2 ^ 16 + offset_high e * 2 ^ 32.
Definition gate_present (e : idt_entry_t) : bool := Z.testbit (type_attr e) 7.
Definition gate_dpl (e : idt_entry_t) : Z := Z.land (Z.shiftr (type_attr e) 5) 3.
Definition gate_type (e : idt_entry_t) : Z := Z.land (type_attr e) 0x0F.

(** The gate of [vec] is a present interrupt gate into [handler] in the kernel's
    code segment. *)
Definition routes (s : idt_state) (vec handler ist : Z) (user : bool) : Prop :=
  let e := (idt s).[vec] in
  gate_present e = true /\ gate_type e = 0xE /\ gate_offset e = handler /\ selector e = 8 /\
  gate_ist e = ist /\ gate_dpl e = (if user then 3 else 0) /\ (handlers s).[vec] = handler.

Record idt_ok (s : idt_state) : Prop := {
  io_idt : Z.of_nat (length (idt s)) = IDT_ENTRIES;
  io_handlers : Z.of_nat (length (handlers s)) = IDT_ENTRIES;
}.

(** ** Theorems *)

Lemma split_address a : 0 <= a < 2 ^ 64 ->
  Z.land a 0xFFFF + Z.land (Z.shiftr a 16) 0xFFFF * 2 ^ 16 +
  Z.land (Z.shiftr a 32) 0xFFFFFFFF * 2 ^ 32 = a.
Proof.
  intros. rewrite !Z.shiftr_div_pow2 by lia.
  change 0xFFFFFFFF with (Z.ones 32). change 0xFFFF with (Z.ones 16). rewrite !Z.land_ones by lia. lia.
Qed.

(** Gates of other vectors are kept. *)
Lemma routes_frame s v h i u v' h' i' u' :
  0 <= v -> 0 <= v' -> v <> v' -> routes s v h i u ->
  routes (idt_set_handler v' h' i' u' s) v h i u.
Proof.
  intros. unfold routes, idt_set_handler in *. cbn [idt handlers].
  by rewrite !aget_aset_ne by lia.
Qed.

Lemma idt_set_handler_routes s v h i u :
  idt_ok s -> 0 <= v < IDT_ENTRIES -> 0 <= h < 2 ^ 64 ->
  idt_ok (idt_set_handler v h i u s) /\ routes (idt_set_handler v h i u s) v h i u.
Proof.
  intros [Hi Hh] Hv Ha. split.
  - split; unfold idt_set_handler; cbn [idt handlers]; by rewrite length_aset.
  - unfold routes, idt_set_handler. cbn [idt handlers]. rewrite !aget_aset_eq by lia.
    unfold gate_offset. cbn [offset_low offset_mid offset_high selector gate_ist].
    rewrite split_address by done. by destruct u.
Qed.

(** Installing handlers one after the other, each vector's gate leads to
    the last handler installed for it, with the stack and privilege given then,
    and an installation does not disturb the other vectors. *)
Theorem idt_set_handler_correct s v h i u :
  idt_ok s -> 0 <= v < IDT_ENTRIES -> 0 <= h < 2 ^ 64 ->
  let s' := idt_set_handler v h i u s in
  idt_ok s' /\ routes s' v h i u /\
  (forall v' h' i' u', 0 <= v' -> v' <> v -> routes s' v' h' i' u' <-> routes s v' h' i' u').
Proof.
  intros Hs Hv Hh s'. destruct (idt_set_handler_routes s v h i u Hs Hv Hh) as [H1 H2].
  split; [done|]. split; [done|]. intros v' h' i' u' H0 Hne.
  unfold s', routes, idt_set_handler. cbn [idt handlers]. by rewrite !aget_aset_ne by lia.
Qed.

Lemma set_exceptions_spec h n : forall i s,
  idt_ok s -> 0 <= i -> i + Z.of_nat n <= 32 -> 0 <= h < 2 ^ 64 ->
  (forall v, 0 <= v < i -> routes s v h (exception_ist v) false) ->
  (forall v, i <= v -> (idt s).[v] = zero_gate) ->
  let s' := set_exceptions h n i s in
  idt_ok s' /\ (forall v, 0 <= v < i + Z.of_nat n -> routes s' v h (exception_ist v) false) /\
  (forall v, i + Z.of_nat n <= v -> (idt s').[v] = zero_gate).
Proof.
  induction n as [|n IH]; intros i s Hs Hi Hn Hh Hlow Hhigh; cbn [set_exceptions].
  - rewrite Z.add_0_r. split; [done|]. split; [done|]. intros v Hv. by apply Hhigh.
  - destruct (idt_set_handler_routes s i h (exception_ist i) false Hs) as [Hok Hr];
      [unfold IDT_ENTRIES; lia|done|].
    rewrite Nat2Z.inj_succ. replace (i + Z.succ (Z.of_nat n)) with (i + 1 + Z.of_nat n) by lia.
    apply IH; [done|lia|lia|done| |].
    + intros v Hv. destruct (decide (v = i)) as [->|]; [done|]. apply routes_frame; [lia..|].
      apply Hlow. lia.
    + intros v Hv. cbn [idt handlers idt_set_handler]. rewrite aget_aset_ne by lia. apply Hhigh. lia.
Qed.

(** After [idt_init] every one of the 32 exceptions enters the default
    handler through a present ring 0 interrupt gate, on its own interrupt stack
    for the double fault, the NMI and the machine check, and no other vector has
    a present gate. *)
Theorem idt_init_correct {D} `{!X86Machine D} h s (m : machine D) :
  0 <= h < 2 ^ 64 ->
  let '(s', m') := idt_init h s m in
  idt_ok s' /\ trace m' = trace m ++ [Lidt 4095] /\
  (forall v, 0 <= v < 32 -> routes s' v h (exception_ist v) false) /\
  (forall v, 32 <= v -> gate_present (idt s').[v] = false).
Proof.
  intros Hh. unfold idt_init, idt_install, instr, log_event. x86_run. cbn [trace hw].
  destruct (set_exceptions_spec h 32 0
    (mk_idt (replicate (Z.to_nat IDT_ENTRIES) zero_gate) (replicate (Z.to_nat IDT_ENTRIES) 0)))
    as (Hok & Hlow & Hhigh); [by split|lia|lia|done|intros; lia| |].
  { intros v Hv. cbn [idt]. unfold aget. destruct (decide (Z.to_nat v < 256)%nat).
    - by rewrite lookup_total_replicate_2.
    - rewrite list_lookup_total_alt, lookup_ge_None_2; [done|].
      rewrite length_replicate. unfold IDT_ENTRIES. lia. }
  split; [done|]. split; [done|]. split; [exact Hlow|].
  intros v Hv. by rewrite Hhigh by lia.
Qed.

(** The interrupt stack of the double fault is entry 0 of the first CPU's
    interrupt stack table, which [gdt_init] leaves null. *)
Lemma double_fault_stack_null {D} `{!X86Machine D} base g (m : machine D) :
  Gdt.gdt_ok g ->
  let '(g', _) := Gdt.gdt_init base g m in
  exception_ist 8 = 1 /\ (Gdt.tss_ist (Gdt.tss_entries g').[0]).[exception_ist 8 - 1] = 0.
Proof.
  intros [_ Ht]. unfold Gdt.gdt_init. x86_run. unfold instr. cbv beta iota zeta.
  cbn [Gdt.tss_entries]. split; [done|]. by rewrite aget_aset_eq by (rewrite Ht; done).
Qed.

(** The report of a page fault ends with the fault address, any other exception
    has none. *)
Lemma page_fault_reports_cr2 f cr2 :
  last (default_handler f cr2).2 = Some ("CR2"%string, cr2) <-> vector f = 14.
Proof.
  unfold default_handler. cbn [snd]. destruct (Z.eqb_spec (vector f) 14).
  - rewrite last_snoc. done.
  - rewrite app_nil_r. simpl. split; [congruence|done].
Qed.

Definition idt0 : idt_state := mk_idt (replicate 256 zero_gate) (replicate 256 0).

Lemma idt_set_handler_correct_witness :
  let s' := idt_set_handler 0x80 0xFFFFFFFF80123456 0 true idt0 in
  idt_ok s' /\ routes s' 0x80 0xFFFFFFFF80123456 0 true /\
  (forall v' h' i' u', 0 <= v' -> v' <> 0x80 -> routes s' v' h' i' u' <-> routes idt0 v' h' i' u').
Proof.
  apply (idt_set_handler_correct idt0 0x80 0xFFFFFFFF80123456 0 true); [by split|unfold IDT_ENTRIES; lia|lia].
Defined.

Lemma idt_init_correct_witness :
  let '(s', m') := idt_init (D := unit) 0xFFFFFFFF80100000 idt0 (mk_machine tt []) in
  idt_ok s' /\ trace m' = [Lidt 4095] /\
  (forall v, 0 <= v < 32 -> routes s' v 0xFFFFFFFF80100000 (exception_ist v) false) /\
  (forall v, 32 <= v -> gate_present (idt s').[v] = false).
Proof. apply (idt_init_correct (D := unit) 0xFFFFFFFF80100000 idt0 (mk_machine tt [])). lia. Defined.

End Idt.
