(* ===== verification/Apic.v ===== *)
(** * Local APIC and I/O APIC

    Models kernel/arch/x86_64/apic.c and apic.h: register access in xAPIC and
    x2APIC mode, initialisation with the timer calibration, interprocessor
    interrupts, the timer, and the redirection table of the I/O APIC.  The loops
    that wait for an interrupt to be delivered poll a device register; they take
    a fuel and return [None] when it does not last. *)

From stdpp Require Import base numbers list option tactics gmap.
From S2P Require Import Prelude X86.

Module Apic.

Definition LAPIC_ID_REG : Z := 0x020.
Definition LAPIC_VER_REG : Z := 0x030.
Definition LAPIC_TPR : Z := 0x080.
Definition LAPIC_EOI : Z := 0x0B0.
Definition LAPIC_SPURIOUS : Z := 0x0F0.
Definition LAPIC_ESR : Z := 0x280.
Definition LAPIC_ICR_LOW : Z := 0x300.
Definition LAPIC_ICR_HIGH : Z := 0x310.
Definition LAPIC_LVT_TIMER : Z := 0x320.
Definition LAPIC_LVT_LINT0 : Z := 0x350.
Definition LAPIC_LVT_LINT1 : Z := 0x360.
Definition LAPIC_LVT_ERROR : Z := 0x370.
Definition LAPIC_TIMER_INIT : Z := 0x380.
Definition LAPIC_TIMER_CUR : Z := 0x390.
Definition LAPIC_TIMER_DIV : Z := 0x3E0.
Definition LAPIC_SPURIOUS_ENABLE : Z := Z.shiftl 1 8.
Definition LAPIC_SPURIOUS_FOCUS : Z := Z.shiftl 1 9.
Definition LAPIC_ICR_ALL_EXCL_SELF : Z := Z.shiftl 3 18.
Definition LAPIC_ICR_ALL : Z := Z.shiftl 2 18.
Definition LAPIC_LVT_MASKED : Z := Z.shiftl 1 16.
Definition LAPIC_TIMER_PERIODIC : Z := Z.shiftl 1 17.
Definition MSR_APIC_BASE : Z := 0x01B.
Definition MSR_X2APIC_ICR : Z := 0x830.
Definition MSR_X2APIC_EOI : Z := 0x80B.
Definition IOAPIC_IOWIN : Z := 0x10.
Definition IOAPIC_REDIR_TBL : Z := 0x10.
Definition IOAPIC_ADDR : Z := 0xFEC00000.

(** The static variables of apic.c. *)
Record apic_state := mk_apic {
  lapic_base : Z;
  x2apic_mode : bool;
  lapic_freq_hz : Z;
  ioapic_base : Z;
}.

Definition apic_boot : apic_state := mk_apic 0 false 0 0.

Section ops.
Context {D : Type} `{!X86Machine D}.
Implicit Types (a : apic_state).

Definition lapic_read a (reg : Z) : x86 D Z :=
  if x2apic_mode a then v ← read_msr (0x800 + reg / 16); mret (u32 v)
  else mmio_read32 (lapic_base a + reg).

Definition lapic_write a (reg val : Z) : x86 D unit :=
  if x2apic_mode a then write_msr (0x800 + reg / 16) val
  else mmio_write32 (lapic_base a + reg) val.

Definition apic_get_id a : x86 D Z :=
  id ← lapic_read a LAPIC_ID_REG; mret (Z.shiftr id 24).

(** [inb(0x40) | (inb(0x40) << 8)], the operands from left to right. *)
Definition read_pit : x86 D Z :=
  lo ← inb 0x40; hi ← inb 0x40; mret (Z.lor lo (Z.shiftl hi 8)).

Definition apic_init a : x86 D apic_state :=
  base ← read_msr MSR_APIC_BASE;
  let a := if truthy (Z.land base (Z.shiftl 1 10))
           then mk_apic (lapic_base a) true (lapic_freq_hz a) (ioapic_base a)
           else mk_apic (Z.land base 0xFFFFFF000) (x2apic_mode a) (lapic_freq_hz a) (ioapic_base a) in
  lapic_write a LAPIC_SPURIOUS (Z.lor 0xFF (Z.lor LAPIC_SPURIOUS_ENABLE LAPIC_SPURIOUS_FOCUS));;
  lapic_write a LAPIC_TPR 0;;
  lapic_write a LAPIC_ESR 0;;
  lapic_read a LAPIC_ESR;;
  lapic_read a LAPIC_VER_REG;;
  (if x2apic_mode a then mret tt else
   lapic_write a LAPIC_LVT_LINT0 LAPIC_LVT_MASKED;;
   lapic_write a LAPIC_LVT_LINT1 LAPIC_LVT_MASKED);;
  lapic_write a LAPIC_LVT_ERROR 0x37;;
  let initial := 0xFFFFFFFF in
  lapic_write a LAPIC_TIMER_DIV 3;;
  lapic_write a LAPIC_TIMER_INIT initial;;
  lapic_write a LAPIC_LVT_TIMER LAPIC_LVT_MASKED;;
  outb 0x43 0x30;;
  outb 0x40 0x9C;;
  outb 0x40 0x2E;;
  start ← read_pit;
  fin ← read_pit;
  elapsed ← lapic_read a LAPIC_TIMER_CUR;
  let pit_ticks := u16 (start - fin) in
  mret (if 0 <? pit_ticks
        then mk_apic (lapic_base a) (x2apic_mode a)
               (u32 (u32 (initial - elapsed) * 100) / u32 (pit_ticks * 16)) (ioapic_base a)
        else a).

Definition apic_eoi a : x86 D unit :=
  if x2apic_mode a then write_msr MSR_X2APIC_EOI 0 else lapic_write a LAPIC_EOI 0.

(** [while (lapic_read(LAPIC_ICR_LOW) & (1 << 12));] *)
Fixpoint wait_icr (fuel : nat) a : x86 D (option unit) :=
  match fuel with
  | O => mret None
  | S fuel' =>
      v ← lapic_read a LAPIC_ICR_LOW;
      if truthy (Z.land v (Z.shiftl 1 12)) then wait_icr fuel' a else mret (Some tt)
  end.

Definition apic_send_ipi (fuel : nat) a (apic_id vector : Z) : x86 D (option unit) :=
  if x2apic_mode a then
    write_msr MSR_X2APIC_ICR (Z.lor (u64 (Z.shiftl apic_id 32)) vector);; mret (Some tt)
  else
    lapic_write a LAPIC_ICR_HIGH (u32 (Z.shiftl apic_id 24));;
    lapic_write a LAPIC_ICR_LOW vector;;
    wait_icr fuel a.

(** The two broadcasts differ in the shorthand they write. *)
Definition send_shorthand (fuel : nat) a (shorthand vector : Z) : x86 D (option unit) :=
  if x2apic_mode a then
    write_msr MSR_X2APIC_ICR (Z.lor (u64 (Z.shiftl shorthand 18)) vector);; mret (Some tt)
  else
    lapic_write a LAPIC_ICR_HIGH 0;;
    lapic_write a LAPIC_ICR_LOW (Z.lor shorthand vector);;
    wait_icr fuel a.

Definition apic_send_ipi_all (fuel : nat) a (vector : Z) : x86 D (option unit) :=
  send_shorthand fuel a LAPIC_ICR_ALL vector.

Definition apic_send_ipi_all_except_self (fuel : nat) a (vector : Z) : x86 D (option unit) :=
  send_shorthand fuel a LAPIC_ICR_ALL_EXCL_SELF vector.

Definition apic_timer_start a (ticks vector : Z) (periodic : bool) : x86 D unit :=
  lapic_write a LAPIC_TIMER_DIV 3;;
  lapic_write a LAPIC_TIMER_INIT ticks;;
  let mode := if periodic then LAPIC_TIMER_PERIODIC else 0 in
  lapic_write a LAPIC_LVT_TIMER (Z.lor mode vector).

Definition apic_timer_stop a : x86 D unit :=
  lapic_write a LAPIC_LVT_TIMER LAPIC_LVT_MASKED;;
  lapic_write a LAPIC_TIMER_INIT 0.

(** The register number is a [uint8_t]. *)
Definition ioapic_read a (reg : Z) : x86 D Z :=
  mmio_write32 (ioapic_base a) (u8 reg);;
  mmio_read32 (ioapic_base a + IOAPIC_IOWIN).

Definition ioapic_write a (reg val : Z) : x86 D unit :=
  mmio_write32 (ioapic_base a) (u8 reg);;
  mmio_write32 (ioapic_base a + IOAPIC_IOWIN) val.

(** [for (i = 0; i <= max_redir; i++)] from entry [i], [n] entries left *)
Fixpoint mask_entries (n : nat) (i : Z) a : x86 D unit :=
  match n with
  | O => mret tt
  | S n' =>
      ioapic_write a (IOAPIC_REDIR_TBL + i * 2) (Z.shiftl 1 16);;
      ioapic_write a (IOAPIC_REDIR_TBL + i * 2 + 1) 0;;
      mask_entries n' (i + 1) a
  end.

Definition ioapic_init a : x86 D apic_state :=
  let a := mk_apic (lapic_base a) (x2apic_mode a) (lapic_freq_hz a) IOAPIC_ADDR in
  ioapic_read a 0;;
  ver ← ioapic_read a 1;
  let max_redir := Z.land (Z.shiftr ver 16) 0xFF in
  mask_entries (Z.to_nat (max_redir + 1)) 0 a;;
  mret a.

Definition ioapic_redirect_irq a (irq vector apic_id : Z) : x86 D unit :=
  let idx := IOAPIC_REDIR_TBL + irq * 2 in
  ioapic_write a idx (Z.lor vector apic_id);;
  ioapic_write a (idx + 1) (u32 (Z.shiftl apic_id 24)).

End ops.

(** ** The I/O APIC as the code sees it

    The device has a register selector and a file of 32-bit registers behind a
    window; the registers of the redirection table keep what is written. *)

Class IoApic (D : Type) `{!X86Machine D} := {
  iosel : D -> Z;
  ioreg : D -> Z -> Z;
  io_select : forall v d, let d' := hw_write IOAPIC_ADDR v d in
    iosel d' = v /\ ioreg d' = ioreg d;
  io_window_read : forall d, let '(v, d') := hw_read (IOAPIC_ADDR + IOAPIC_IOWIN) d in
    v = ioreg d (iosel d) /\ iosel d' = iosel d /\ ioreg d' = ioreg d;
  io_window_write : forall v d, IOAPIC_REDIR_TBL <= iosel d ->
    let d' := hw_write (IOAPIC_ADDR + IOAPIC_IOWIN) v d in
    iosel d' = iosel d /\ forall r, ioreg d' r = if r =? iosel d then v else ioreg d r;
}.

(** The two words of redirection entry [i]. *)
Definition redir {D} `{IoApic D} (d : D) (i : Z) : Z * Z :=
  (ioreg d (IOAPIC_REDIR_TBL + i * 2), ioreg d (IOAPIC_REDIR_TBL + i * 2 + 1)).

(** The last entry the device has, by its version register. *)
Definition last_redir {D} `{IoApic D} (d : D) : Z := Z.land (Z.shiftr (u32 (ioreg d 1)) 16) 0xFF.

Section ioapic.
Context {D : Type} `{IoApic D}.
Implicit Types (m : machine D) (a : apic_state).

Lemma ioapic_read_spec a reg m :
  ioapic_base a = IOAPIC_ADDR -> 0 <= reg < 256 ->
  let '(v, m') := ioapic_read a reg m in
  v = u32 (ioreg (hw m) reg) /\ ioreg (hw m') = ioreg (hw m).
Proof.
  intros Hb Hr. unfold ioapic_read, mmio_write32, mmio_read32. x86_run. rewrite Hb.
  rewrite (wrap_small 8 reg) by lia. cbn [hw log_event].
  rewrite (wrap_small 32 reg) by lia. destruct (io_select reg (hw m)) as [Es Er].
  pose proof (io_window_read (hw_write IOAPIC_ADDR reg (hw m))) as Hw.
  destruct (hw_read _ _) as [v d'] eqn:E. destruct Hw as (-> & _ & Hreg). cbn [hw log_event].
  split; [by rewrite Es, Er | by rewrite Hreg, Er].
Qed.

Lemma ioapic_write_spec a reg val m :
  ioapic_base a = IOAPIC_ADDR -> IOAPIC_REDIR_TBL <= reg < 256 ->
  forall r, ioreg (hw (ioapic_write a reg val m).2) r =
    if r =? reg then u32 val else ioreg (hw m) r.
Proof.
  intros Hb Hr r. unfold ioapic_write, mmio_write32. x86_run. rewrite Hb.
  rewrite (wrap_small 8 reg) by (unfold IOAPIC_REDIR_TBL in *; lia). cbn [hw log_event snd].
  rewrite (wrap_small 32 reg) by (unfold IOAPIC_REDIR_TBL in *; lia).
  destruct (io_select reg (hw m)) as [Es Er].
  destruct (io_window_write (u32 val) (hw_write IOAPIC_ADDR reg (hw m))) as [_ Hw]; [rewrite Es; lia|].
  by rewrite Hw, Es, Er.
Qed.

(** Writing both words of an entry. *)
Lemma write_entry_spec a i lo hi m :
  ioapic_base a = IOAPIC_ADDR -> 0 <= i <= 119 ->
  let m' := (ioapic_write a (IOAPIC_REDIR_TBL + i * 2) lo;;
             ioapic_write a (IOAPIC_REDIR_TBL + i * 2 + 1) hi) m in
  redir (hw m'.2) i = (u32 lo, u32 hi) /\
  (forall j, j <> i -> redir (hw m'.2) j = redir (hw m) j) /\
  (forall r, r < IOAPIC_REDIR_TBL -> ioreg (hw m'.2) r = ioreg (hw m) r).
Proof.
  intros Hb Hi. unfold mbind, x86_bind. cbv beta zeta.
  destruct (ioapic_write a (IOAPIC_REDIR_TBL + i * 2) lo m) as [[] m1] eqn:E1.
  pose proof (ioapic_write_spec a (IOAPIC_REDIR_TBL + i * 2) lo m Hb) as H1. rewrite E1 in H1.
  pose proof (ioapic_write_spec a (IOAPIC_REDIR_TBL + i * 2 + 1) hi m1 Hb) as H2.
  cbn [snd] in H1. unfold redir. unfold IOAPIC_REDIR_TBL in *.
  specialize (H1 ltac:(lia)). specialize (H2 ltac:(lia)).
  split; [f_equal|split; [intros j Hj; f_equal|intros r Hr]]; rewrite H2, ?H1; split_cmp; (done || lia).
Qed.

Lemma mask_entries_spec n : forall i a m,
  ioapic_base a = IOAPIC_ADDR -> 0 <= i -> i + Z.of_nat n <= 120 ->
  let m' := (mask_entries n i a m).2 in
  (forall j, i <= j < i + Z.of_nat n -> redir (hw m') j = (Z.shiftl 1 16, 0)) /\
  (forall j, j < i -> redir (hw m') j = redir (hw m) j) /\
  (forall r, r < IOAPIC_REDIR_TBL -> ioreg (hw m') r = ioreg (hw m) r).
Proof.
  induction n as [|n IH]; intros i a m Hb Hi Hn; [split; [intros; lia | done]|].
  cbn [mask_entries].
  pose proof (write_entry_spec a i (Z.shiftl 1 16) 0 m Hb ltac:(lia)) as Hw.
  unfold mbind, x86_bind in *. cbv zeta in Hw |- *.
  destruct (ioapic_write a (IOAPIC_REDIR_TBL + i * 2) (Z.shiftl 1 16) m) as [[] m1].
  destruct (ioapic_write a (IOAPIC_REDIR_TBL + i * 2 + 1) 0 m1) as [[] m2]. cbn [snd] in Hw.
  destruct Hw as (He & Ho & Hr). destruct (IH (i + 1) a m2 Hb ltac:(lia) ltac:(lia)) as (Ge & Go & Gr).
  split; [|split].
  - intros j Hj. destruct (decide (j = i)) as [->|]; [|apply Ge; lia]. rewrite Go by lia. by rewrite He.
  - intros j Hj. rewrite Go by lia. apply Ho. lia.
  - intros r Hr'. rewrite Gr by done. by apply Hr.
Qed.

(** [ioapic_init] on a device with at most 120 entries ends with every
    redirection entry masked and addressed to APIC 0, and leaves the
    identification registers alone. *)
Theorem ioapic_init_masks a m :
  last_redir (hw m) <= 119 ->
  let '(a', m') := ioapic_init a m in
  ioapic_base a' = IOAPIC_ADDR /\
  (forall i, 0 <= i <= last_redir (hw m) -> redir (hw m') i = (Z.shiftl 1 16, 0)) /\
  (forall r, r < IOAPIC_REDIR_TBL -> ioreg (hw m') r = ioreg (hw m) r).
Proof.
  intros Hlast. unfold ioapic_init. cbv zeta.
  set (a' := mk_apic (lapic_base a) (x2apic_mode a) (lapic_freq_hz a) IOAPIC_ADDR).
  unfold mbind, mret, x86_bind, x86_ret. cbv beta.
  pose proof (ioapic_read_spec a' 0 m eq_refl ltac:(lia)) as H1.
  destruct (ioapic_read a' 0 m) as [v0 m1]. destruct H1 as [_ H1].
  pose proof (ioapic_read_spec a' 1 m1 eq_refl ltac:(lia)) as H2.
  destruct (ioapic_read a' 1 m1) as [ver m2]. destruct H2 as [-> H2]. rewrite H1 in *.
  change (Z.land (Z.shiftr (u32 (ioreg (hw m) 1)) 16) 255) with (last_redir (hw m)).
  assert (0 <= last_redir (hw m)) as H0 by (apply Z.land_nonneg; right; lia).
  destruct (mask_entries_spec (Z.to_nat (last_redir (hw m) + 1)) 0 a' m2 eq_refl ltac:(lia) ltac:(lia))
    as (Ge & _ & Gr).
  destruct (mask_entries _ 0 a' m2) as [[] m3]. cbn [snd] in *.
  split; [done|]. split; [intros i Hi; apply Ge; lia|]. intros r Hr. rewrite Gr by done. by rewrite H2.
Qed.

(** [ioapic_redirect_irq] to APIC 0 unmasks the one entry of its
    interrupt with the vector given and leaves all the others as they were. *)
Theorem ioapic_redirect_irq_correct a irq vector m :
  ioapic_base a = IOAPIC_ADDR -> 0 <= irq <= 119 -> 0 <= vector < 256 ->
  let m' := (ioapic_redirect_irq a irq vector 0 m).2 in
  redir (hw m') irq = (vector, 0) /\
  (forall j, j <> irq -> redir (hw m') j = redir (hw m) j).
Proof.
  intros Hb Hi Hv. destruct (write_entry_spec a irq (Z.lor vector 0) 0 m Hb Hi) as (He & Ho & _).
  unfold ioapic_redirect_irq. cbv zeta. rewrite Z.shiftl_0_l. change (u32 0) with 0.
  split; [|exact Ho]. rewrite He. by rewrite Z.lor_0_r, wrap_small by lia.
Qed.

End ioapic.

(** For another CPU the vector itself is changed: the destination is also mixed
    into the low word. *)
Lemma redirect_changes_vector :
  exists m : machine unit,
    trace (ioapic_redirect_irq (mk_apic 0 false 0 IOAPIC_ADDR) 1 0x20 3 m).2 =
    [MmioWrite IOAPIC_ADDR 18; MmioWrite (IOAPIC_ADDR + 0x10) 0x23;
     MmioWrite IOAPIC_ADDR 19; MmioWrite (IOAPIC_ADDR + 0x10) (3 * 2 ^ 24)].
Proof. exists (mk_machine tt []). reflexivity. Qed.

(** ** Interprocessor interrupts *)

Section ipi.
Context {D : Type} `{!X86Machine D}.
Implicit Types (m : machine D) (a : apic_state).

(** The delivery status is busy for [n] reads and then idle. *)
Fixpoint idle_after (n : nat) a m : Prop :=
  let '(v, m') := lapic_read a LAPIC_ICR_LOW m in
  match n with
  | O => Z.testbit v 12 = false
  | S n' => Z.testbit v 12 = true /\ idle_after n' a m'
  end.

Lemma wait_icr_spec n : forall fuel a m,
  idle_after n a m -> (n < fuel)%nat -> (wait_icr fuel a m).1 = Some tt.
Proof.
  induction n as [|n IH]; intros [|fuel] a m Hi Hf; [lia| |lia|]; cbn [wait_icr idle_after] in *;
    unfold mbind, mret, x86_bind, x86_ret; destruct (lapic_read a LAPIC_ICR_LOW m) as [v m'];
    change (Z.shiftl 1 12) with (2 ^ 12); rewrite truthy_land_bit by lia.
  - by rewrite Hi.
  - destruct Hi as [-> Hi]. apply IH; [done|lia].
Qed.

(** Whenever the delivery status is polled, it is idle after at most [n] reads. *)
Definition delivers_within (n : nat) : Prop :=
  forall a m, x2apic_mode a = false -> exists j, (j <= n)%nat /\ idle_after j a m.

Lemma send_shorthand_returns n fuel a shorthand vector m :
  delivers_within n -> (n < fuel)%nat -> (send_shorthand fuel a shorthand vector m).1 = Some tt.
Proof.
  intros Hd Hf. unfold send_shorthand. destruct (x2apic_mode a) eqn:Hx; [done|].
  unfold mbind, x86_bind. destruct (lapic_write a LAPIC_ICR_HIGH 0 m) as [[] m1].
  destruct (lapic_write a LAPIC_ICR_LOW _ m1) as [[] m2].
  destruct (Hd a m2 Hx) as (j & Hj & Hi). apply (wait_icr_spec j); [done|lia].
Qed.

Lemma apic_get_id_range a m : 0 <= (apic_get_id a m).1 < 256.
Proof.
  assert (0 <= (lapic_read a LAPIC_ID_REG m).1 < 2 ^ 32) as Hr.
  { unfold lapic_read, read_msr, mmio_read32. destruct (x2apic_mode a); x86_run;
      [destruct (hw_rdmsr _ _)|destruct (hw_read _ _)]; apply (wrap_range 32); lia. }
  unfold apic_get_id, mbind, mret, x86_bind, x86_ret. destruct (lapic_read a LAPIC_ID_REG m) as [v m'].
  cbn [fst] in *. rewrite Z.shiftr_div_pow2 by lia. split; [apply Z.div_pos; lia|apply Z.div_lt_upper_bound; lia].
Qed.

(** In xAPIC mode [apic_send_ipi] writes the destination and then the
    vector, and returns once the device has delivered the interrupt: if the
    device is busy for [n] polls, the loop ends at poll [n + 1]. *)
Theorem apic_send_ipi_delivers n fuel a apic_id vector m :
  x2apic_mode a = false -> 0 <= apic_id < 256 -> 0 <= vector < 256 ->
  let sent := (lapic_write a LAPIC_ICR_HIGH (apic_id * 2 ^ 24);; lapic_write a LAPIC_ICR_LOW vector) m in
  idle_after n a sent.2 -> (n < fuel)%nat ->
  (apic_send_ipi fuel a apic_id vector m).1 = Some tt /\
  trace sent.2 = trace m ++ [MmioWrite (lapic_base a + 0x310) (apic_id * 2 ^ 24);
                             MmioWrite (lapic_base a + 0x300) vector].
Proof.
  intros Hx Ha Hv sent Hi Hf. unfold apic_send_ipi. rewrite Hx. unfold sent in *.
  rewrite Z.shiftl_mul_pow2, (wrap_small 32) by lia.
  unfold mbind, x86_bind in *. unfold lapic_write in *. rewrite Hx in *.
  unfold mmio_write32 in *. cbv beta iota zeta in *. cbn [snd] in *.
  split; [by eapply wait_icr_spec|]. cbn [trace log_event].
  rewrite <-app_assoc, !wrap_small by lia. done.
Qed.

(** In x2APIC mode the shorthand is shifted a second time: the broadcast is
    addressed to APIC 32 instead of every CPU. *)
Lemma broadcast_x2apic_destination a fuel vector m :
  x2apic_mode a = true -> 0 <= vector < 256 ->
  trace (apic_send_ipi_all fuel a vector m).2 =
    trace m ++ [Wrmsr MSR_X2APIC_ICR (32 * 2 ^ 32 + vector)].
Proof.
  intros Hx Hv. unfold apic_send_ipi_all, send_shorthand. rewrite Hx. unfold write_msr. x86_run.
  cbn [snd trace log_event]. do 3 f_equal.
  change (u64 (Z.shiftl LAPIC_ICR_ALL 18)) with (32 * 2 ^ 32).
  rewrite lor_low by lia. apply wrap_small. lia.
Qed.

End ipi.

(** ** A concrete device *)

Record ioapic_hw := mk_ioapic_hw { sel : Z; regs : gmap Z Z }.

#[export] Instance ioapic_machine : X86Machine ioapic_hw := {|
  hw_in _ _ d := (0, d);
  hw_out _ _ _ d := d;
  hw_read addr d := (if addr =? IOAPIC_ADDR + IOAPIC_IOWIN then default 0 (regs d !! sel d) else 0, d);
  hw_write addr v d :=
    if addr =? IOAPIC_ADDR then mk_ioapic_hw v (regs d)
    else if addr =? IOAPIC_ADDR + IOAPIC_IOWIN then mk_ioapic_hw (sel d) (<[sel d := v]> (regs d))
    else d;
  hw_rdmsr _ d := (0, d);
  hw_wrmsr _ _ d := d;
|}.

#[export] Program Instance ioapic_device : IoApic ioapic_hw := {|
  iosel := sel;
  ioreg d r := default 0 (regs d !! r);
|}.
Next Obligation. intros v d. by split. Qed.
Next Obligation. intros d. done. Qed.
Next Obligation.
  intros v d _. split; [done|]. intros r. simpl. destruct (Z.eqb_spec r (sel d)) as [->|].
  - by rewrite lookup_insert_eq.
  - by rewrite lookup_insert_ne by done.
Qed.

(** An I/O APIC with 24 entries. *)
Definition ioapic24 : machine ioapic_hw := mk_machine (mk_ioapic_hw 0 {[1 := 0x170011]}) [].

Lemma ioapic_init_masks_witness :
  let '(a', m') := ioapic_init apic_boot ioapic24 in
  ioapic_base a' = IOAPIC_ADDR /\
  (forall i, 0 <= i <= last_redir (hw ioapic24) -> redir (hw m') i = (Z.shiftl 1 16, 0)) /\
  (forall r, r < IOAPIC_REDIR_TBL -> ioreg (hw m') r = ioreg (hw ioapic24) r).
Proof. apply (ioapic_init_masks apic_boot ioapic24). vm_compute. congruence. Defined.

Lemma ioapic_redirect_irq_correct_witness :
  let m' := (ioapic_redirect_irq (mk_apic 0 false 0 IOAPIC_ADDR) 1 0x21 0 ioapic24).2 in
  redir (hw m') 1 = (0x21, 0) /\
  (forall j, j <> 1 -> redir (hw m') j = redir (hw ioapic24) j).
Proof.
  apply (ioapic_redirect_irq_correct (mk_apic 0 false 0 IOAPIC_ADDR) 1 0x21 ioapic24);
    [reflexivity|lia|lia].
Defined.

Lemma apic_send_ipi_delivers_witness :
  let a := mk_apic 0xFEE00000 false 0 0 in
  let m := mk_machine tt [] in
  (apic_send_ipi (D := unit) 1 a 2 0x3F m).1 = Some tt.
Proof.
  destruct (apic_send_ipi_delivers (D := unit) 0 1 (mk_apic 0xFEE00000 false 0 0) 2 0x3F (mk_machine tt []))
    as [H _]; [reflexivity|lia|lia|reflexivity|lia|]. exact H.
Defined.

End Apic.
