(* ===== verification/Irq.v ===== *)
(** * Interrupt requests

    Models kernel/arch/x86_64/interrupts.c: the remapping of the two 8259
    interrupt controllers, the table of handlers with the controllers' masks, and
    the dispatch of an interrupt to its handler and end-of-interrupt.  A handler
    is the address of its code (0 is NULL); what the code at an address does is a
    parameter, and it may change the table itself. *)

From stdpp Require Import base numbers list option tactics.
From S2P Require Import Prelude X86 Apic.
Import Apic.

Module Irq.

Definition IRQ_MAX : Z := 256.
Definition IRQ_BASE : Z := 0x20.

Record irq_state := mk_irq {
  irq_handlers : list Z;
  irq_counts : list Z;
  apic : apic_state;
}.

Section ops.
Context {D : Type} `{!X86Machine D}.
(** The effect of calling the handler at an address for an interrupt number. *)
Variable run_handler : Z -> Z -> irq_state -> x86 D irq_state.

Definition pic_remap : x86 D unit :=
  outb 0x20 0x11;; outb 0xA0 0x11;;
  outb 0x21 0x20;; outb 0xA1 0x28;;
  outb 0x21 0x04;; outb 0xA1 0x02;;
  outb 0x21 0x01;; outb 0xA1 0x01;;
  outb 0x21 0xFF;; outb 0xA1 0xFF;;
  io_wait.

Definition irq_end_of_interrupt (irq : Z) : x86 D unit :=
  (if 8 <=? irq then outb 0xA0 0x20 else mret tt);;
  outb 0x20 0x20.

Definition call (h irq : Z) (s : irq_state) : x86 D irq_state :=
  if truthy h then run_handler h irq s else mret s.

Definition count (vec : Z) (s : irq_state) : irq_state :=
  mk_irq (irq_handlers s) ((irq_counts s).[vec <- u64 ((irq_counts s).[vec] + 1)]) (apic s).

Definition irq_dispatch (vec : Z) (s : irq_state) : x86 D irq_state :=
  let s := count vec s in
  if (IRQ_BASE <=? vec) && (vec <? IRQ_BASE + 16) then
    s ← call ((irq_handlers s).[vec - IRQ_BASE]) (vec - IRQ_BASE) s;
    irq_end_of_interrupt (vec - IRQ_BASE);;
    mret s
  else
    s ← call ((irq_handlers s).[vec]) vec s;
    apic_eoi (apic s);;
    mret s.

Definition irq_init (s : irq_state) : x86 D irq_state :=
  pic_remap;;
  mret (mk_irq (replicate (Z.to_nat IRQ_MAX) 0) (replicate (Z.to_nat IRQ_MAX) 0) (apic s)).

Definition set_irq_handler (irq h : Z) (s : irq_state) : irq_state :=
  mk_irq ((irq_handlers s).[irq <- h]) (irq_counts s) (apic s).

Definition irq_register (irq handler : Z) (s : irq_state) : x86 D irq_state :=
  if IRQ_MAX <=? irq then mret s else
  let s := set_irq_handler irq handler s in
  if irq <? 16 then
    (if irq <? 8 then
       v ← inb 0x21; outb 0x21 (Z.land v (Z.lnot (Z.shiftl 1 irq)))
     else
       v ← inb 0xA1; outb 0xA1 (Z.land v (Z.lnot (Z.shiftl 1 (irq - 8)))));;
    ioapic_redirect_irq (apic s) irq (IRQ_BASE + irq) 0;;
    mret s
  else mret s.

Definition irq_unregister (irq : Z) (s : irq_state) : x86 D irq_state :=
  if IRQ_MAX <=? irq then mret s else
  let s := set_irq_handler irq 0 s in
  if irq <? 16 then
    (if irq <? 8 then v ← inb 0x21; outb 0x21 (Z.lor v (Z.shiftl 1 irq))
     else v ← inb 0xA1; outb 0xA1 (Z.lor v (Z.shiftl 1 (irq - 8))));;
    mret s
  else mret s.

End ops.

(** ** The 8259 interrupt controller *)

(** Its mask, the vector of its first line, how it is wired to the other one (for
    the master the set of the lines that slaves are on, for a slave the number of
    its line), the initialisation word it expects next (0 in operation) and the
    end-of-interrupt commands it has received. *)
Record pic := mk_pic { imr : Z; vbase : Z; wiring : Z; icw : Z; eois : Z }.

Definition pic_command (v : Z) (p : pic) : pic :=
  if Z.testbit v 4 then mk_pic 0 (vbase p) (wiring p) 2 (eois p)
  else if v =? 0x20 then mk_pic (imr p) (vbase p) (wiring p) (icw p) (eois p + 1) else p.

Definition pic_data (v : Z) (p : pic) : pic :=
  if icw p =? 2 then mk_pic (imr p) (Z.land v 0xF8) (wiring p) 3 (eois p)
  else if icw p =? 3 then mk_pic (imr p) (vbase p) v 4 (eois p)
  else if icw p =? 4 then mk_pic (imr p) (vbase p) (wiring p) 0 (eois p)
  else mk_pic v (vbase p) (wiring p) 0 (eois p).

(** The master at ports 0x20 and 0x21, the slave at 0xA0 and 0xA1. *)
Definition pics_out (port v : Z) (ps : pic * pic) : pic * pic :=
  if port =? 0x20 then (pic_command v ps.1, ps.2)
  else if port =? 0x21 then (pic_data v ps.1, ps.2)
  else if port =? 0xA0 then (ps.1, pic_command v ps.2)
  else if port =? 0xA1 then (ps.1, pic_data v ps.2)
  else ps.

(** A machine with the two controllers: byte writes to their ports reach them,
    reading the data ports gives the masks, and memory-mapped accesses and other
    ports leave them alone. *)
Class HasPics (D : Type) `{!X86Machine D} := {
  pics : D -> pic * pic;
  pics_outb : forall port v d, pics (hw_out 1 port v d) = pics_out port v (pics d);
  pics_inb : forall port d, pics (hw_in 1 port d).2 = pics d;
  pics_master : forall d, (hw_in 1 0x21 d).1 = imr (pics d).1;
  pics_slave : forall d, (hw_in 1 0xA1 d).1 = imr (pics d).2;
  pics_mmio : forall a v d, pics (hw_write a v d) = pics d;
}.

(** The mask bit of line [i] of the sixteen. *)
Definition mask_bit (ps : pic * pic) (i : Z) : bool :=
  if i <? 8 then Z.testbit (imr ps.1) i else Z.testbit (imr ps.2) (i - 8).

(** A request on line [i] reaches the processor: a line of the master that no slave
    is on when it is not masked, a line of the slave when it is not masked there
    and the line of the master that the slave is on is not masked either. *)
Definition delivered (ps : pic * pic) (i : Z) : bool :=
  if i <? 8 then negb (Z.testbit (wiring ps.1) i) && negb (Z.testbit (imr ps.1) i)
  else negb (Z.testbit (imr ps.2) (i - 8)) &&
       (Z.testbit (wiring ps.1) (wiring ps.2) && negb (Z.testbit (imr ps.1) (wiring ps.2))).

Definition pic_ok (w : Z) (p : pic) : Prop := icw p = 0 /\ 0 <= imr p < 256 /\ wiring p = w.

(** The controllers are in operation, the slave on line 2 of the master, and the
    mask bit of a line is clear exactly when its handler is registered. *)
Record irq_inv {D} `{HasPics D} (s : irq_state) (m : machine D) : Prop := {
  ii_handlers : Z.of_nat (length (irq_handlers s)) = IRQ_MAX;
  ii_counts : Z.of_nat (length (irq_counts s)) = IRQ_MAX;
  ii_master : pic_ok 4 (pics (hw m)).1;
  ii_slave : pic_ok 2 (pics (hw m)).2;
  ii_mask : forall i, 0 <= i < 16 -> mask_bit (pics (hw m)) i = negb (truthy (irq_handlers s).[i]);
}.

(** Registrations and removals, in any order. *)
Inductive irq_op :=
| Register (irq handler : Z)
| Unregister (irq : Z).

Definition op_ok (o : irq_op) : Prop :=
  match o with
  | Register irq h => 0 <= irq < 256 /\ h <> 0
  | Unregister irq => 0 <= irq < 256
  end.

Definition apply_op {D} `{!X86Machine D} (o : irq_op) (s : irq_state) : x86 D irq_state :=
  match o with
  | Register irq h => irq_register irq h s
  | Unregister irq => irq_unregister irq s
  end.

Fixpoint apply_ops {D} `{!X86Machine D} (l : list irq_op) (s : irq_state) : x86 D irq_state :=
  match l with
  | [] => mret s
  | o :: l' => s ← apply_op o s; apply_ops l' s
  end.

Section pics.
Context {D : Type} `{HasPics D}.
Implicit Types (m : machine D).

Lemma outb_pics port v m : pics (hw (outb port v m).2) = pics_out port (u8 v) (pics (hw m)).
Proof. unfold outb, outn, log_event. cbn [snd hw]. apply pics_outb. Qed.

Lemma redirect_pics a irq v id m : pics (hw (ioapic_redirect_irq a irq v id m).2) = pics (hw m).
Proof.
  unfold ioapic_redirect_irq, ioapic_write, mmio_write32, log_event. x86_run. cbn [snd hw].
  by rewrite !pics_mmio.
Qed.

(** Reading a mask, changing it and writing it back. *)
Lemma change_master f m :
  icw (pics (hw m)).1 = 0 -> 0 <= imr (pics (hw m)).1 < 256 ->
  pics (hw ((v ← inb 0x21; outb 0x21 (f v)) m).2) =
    (mk_pic (u8 (f (imr (pics (hw m)).1))) (vbase (pics (hw m)).1) (wiring (pics (hw m)).1) 0 (eois (pics (hw m)).1),
     (pics (hw m)).2).
Proof.
  intros Hi Hr. unfold mbind, x86_bind, inb, inn.
  pose proof (pics_inb 0x21 (hw m)) as Hp. pose proof (pics_master (hw m)) as Hv.
  destruct (hw_in 1 0x21 (hw m)) as [v d]. cbn [fst snd] in *.
  rewrite outb_pics. cbn [hw log_event]. rewrite Hp. change (8 * 1) with 8.
  unfold pics_out, pic_data. cbn [Z.eqb Pos.eqb]. rewrite Hi. cbn [Z.eqb].
  by rewrite Hv, (wrap_small 8 (imr _)) by lia.
Qed.

Lemma change_slave f m :
  icw (pics (hw m)).2 = 0 -> 0 <= imr (pics (hw m)).2 < 256 ->
  pics (hw ((v ← inb 0xA1; outb 0xA1 (f v)) m).2) =
    ((pics (hw m)).1,
     mk_pic (u8 (f (imr (pics (hw m)).2))) (vbase (pics (hw m)).2) (wiring (pics (hw m)).2) 0 (eois (pics (hw m)).2)).
Proof.
  intros Hi Hr. unfold mbind, x86_bind, inb, inn.
  pose proof (pics_inb 0xA1 (hw m)) as Hp. pose proof (pics_slave (hw m)) as Hv.
  destruct (hw_in 1 0xA1 (hw m)) as [v d]. cbn [fst snd] in *.
  rewrite outb_pics. cbn [hw log_event]. rewrite Hp. change (8 * 1) with 8.
  unfold pics_out, pic_data. cbn [Z.eqb Pos.eqb]. rewrite Hi. cbn [Z.eqb].
  by rewrite Hv, (wrap_small 8 (imr _)) by lia.
Qed.

(** Setting the handler of a line together with its mask bit keeps the
    invariant. *)
Lemma inv_set_line s m irq h m' :
  irq_inv s m -> 0 <= irq < 256 -> pic_ok 4 (pics (hw m')).1 -> pic_ok 2 (pics (hw m')).2 ->
  (forall i, 0 <= i < 16 ->
     mask_bit (pics (hw m')) i = if i =? irq then negb (truthy h) else mask_bit (pics (hw m)) i) ->
  irq_inv (set_irq_handler irq h s) m'.
Proof.
  intros [H1 H2 H3 H4 H5] Hi Hm Hs Hmask. unfold IRQ_MAX in *. constructor; try done.
  - unfold set_irq_handler. cbn [irq_handlers]. by rewrite length_aset.
  - intros i Hir. rewrite Hmask by done. unfold set_irq_handler. cbn [irq_handlers].
    destruct (Z.eqb_spec i irq) as [->|].
    + by rewrite aget_aset_eq by lia.
    + rewrite aget_aset_ne by lia. by apply H5.
Qed.

(** [f] gives bit [n] of a mask the value [b]. *)
Definition sets_bit (f : Z -> Z) (n : Z) (b : bool) : Prop :=
  forall i v, 0 <= i < 8 -> Z.testbit (u8 (f v)) i = if n =? i then b else Z.testbit v i.

Lemma clear_sets_bit n : 0 <= n < 8 -> sets_bit (fun v => Z.land v (Z.lnot (Z.shiftl 1 n))) n false.
Proof. intros Hn i v Hi. rewrite testbit_clear_bit by lia. by destruct (n =? i). Qed.

Lemma set_sets_bit n : 0 <= n < 8 -> sets_bit (fun v => Z.lor v (Z.shiftl 1 n)) n true.
Proof. intros Hn i v Hi. rewrite testbit_set_bit by lia. by destruct (n =? i). Qed.

Lemma inv_change_master f irq h s m m' :
  irq_inv s m -> 0 <= irq < 8 -> sets_bit f irq (negb (truthy h)) ->
  pics (hw m') = pics (hw ((v ← inb 0x21; outb 0x21 (f v)) m).2) ->
  irq_inv (set_irq_handler irq h s) m'.
Proof.
  intros Hinv Hi Hf E. pose proof Hinv as [_ _ Hm Hs _]. rewrite change_master in E by apply Hm.
  apply (inv_set_line s m); [done|lia|..]; rewrite E; cbn [fst snd]; [|done|].
  - split_and!; [done|apply wrap_range; lia..|apply Hm].
  - intros i Hir. unfold mask_bit. cbn [fst snd imr]. destruct (Z.ltb_spec i 8).
    + rewrite Hf by lia. by rewrite (Z.eqb_sym i irq).
    + by rewrite (proj2 (Z.eqb_neq i irq)) by lia.
Qed.

Lemma inv_change_slave f irq h s m m' :
  irq_inv s m -> 8 <= irq < 16 -> sets_bit f (irq - 8) (negb (truthy h)) ->
  pics (hw m') = pics (hw ((v ← inb 0xA1; outb 0xA1 (f v)) m).2) ->
  irq_inv (set_irq_handler irq h s) m'.
Proof.
  intros Hinv Hi Hf E. pose proof Hinv as [_ _ Hm Hs _]. rewrite change_slave in E by apply Hs.
  apply (inv_set_line s m); [done|lia|..]; rewrite E; cbn [fst snd]; [done|..].
  - split_and!; [done|apply wrap_range; lia..|apply Hs].
  - intros i Hir. unfold mask_bit. cbn [fst snd imr]. destruct (Z.ltb_spec i 8).
    + by rewrite (proj2 (Z.eqb_neq i irq)) by lia.
    + rewrite Hf by lia. destruct (Z.eqb_spec i irq), (Z.eqb_spec (irq - 8) (i - 8)); (done || lia).
Qed.

Lemma inv_high_line irq h s m :
  irq_inv s m -> 16 <= irq < 256 -> irq_inv (set_irq_handler irq h s) m.
Proof.
  intros Hinv Hi. pose proof Hinv as [_ _ Hm Hs _].
  apply (inv_set_line s m); [done|lia|done|done|].
  intros i Hir. by rewrite (proj2 (Z.eqb_neq i irq)) by lia.
Qed.

Lemma irq_register_inv irq h s m :
  irq_inv s m -> 0 <= irq < 256 -> h <> 0 ->
  let '(s', m') := irq_register irq h s m in irq_inv s' m' /\ s' = set_irq_handler irq h s.
Proof.
  intros Hinv Hi Hh. unfold irq_register, IRQ_MAX. rewrite (proj2 (Z.leb_gt 256 irq)) by lia.
  assert (false = negb (truthy h)) as Ht by (unfold truthy; by rewrite (proj2 (Z.eqb_neq h 0))).
  destruct (Z.ltb_spec irq 16); [|split; [by apply inv_high_line; [|lia]|done]].
  unfold mbind at 1, x86_bind at 1.
  set (prog := if irq <? 8 then _ else _). destruct (prog m) as [[] m2] eqn:E.
  unfold mbind, mret, x86_bind, x86_ret.
  pose proof (redirect_pics (apic (set_irq_handler irq h s)) irq (IRQ_BASE + irq) 0 m2) as Hr.
  destruct (ioapic_redirect_irq _ _ _ _ m2) as [[] m3]. cbn [snd] in Hr. split; [|done].
  replace m2 with (prog m).2 in Hr by (by rewrite E). unfold prog in Hr.
  destruct (Z.ltb_spec irq 8).
  - eapply inv_change_master; [done|lia| |exact Hr]. rewrite <-Ht. apply clear_sets_bit. lia.
  - eapply inv_change_slave; [done|lia| |exact Hr]. rewrite <-Ht. apply clear_sets_bit. lia.
Qed.

Lemma irq_unregister_inv irq s m :
  irq_inv s m -> 0 <= irq < 256 ->
  let '(s', m') := irq_unregister irq s m in irq_inv s' m' /\ s' = set_irq_handler irq 0 s.
Proof.
  intros Hinv Hi. unfold irq_unregister, IRQ_MAX. rewrite (proj2 (Z.leb_gt 256 irq)) by lia.
  destruct (Z.ltb_spec irq 16); [|split; [by apply inv_high_line; [|lia]|done]].
  unfold mbind at 1, x86_bind at 1.
  set (prog := if irq <? 8 then _ else _). destruct (prog m) as [[] m2] eqn:E. split; [|done].
  assert (pics (hw m2) = pics (hw (prog m).2)) as Hr by (by rewrite E). unfold prog in Hr.
  destruct (Z.ltb_spec irq 8).
  - eapply inv_change_master; [done|lia| |exact Hr]. apply set_sets_bit. lia.
  - eapply inv_change_slave; [done|lia| |exact Hr]. apply set_sets_bit. lia.
Qed.

Lemma apply_ops_inv l : forall s m,
  irq_inv s m -> Forall op_ok l -> let '(s', m') := apply_ops l s m in irq_inv s' m'.
Proof.
  induction l as [|o l IH]; intros s m Hinv HF; [done|]. apply List.Forall_cons_iff in HF as [Ho HF].
  cbn [apply_ops]. unfold mbind, x86_bind.
  assert (let '(s', m') := apply_op o s m in irq_inv s' m') as H1.
  { destruct o as [irq h|irq]; cbn [apply_op op_ok] in *.
    - pose proof (irq_register_inv irq h s m Hinv ltac:(lia) ltac:(lia)) as Hr. case_match. tauto.
    - pose proof (irq_unregister_inv irq s m Hinv ltac:(lia)) as Hr. case_match. tauto. }
  destruct (apply_op o s m) as [s1 m1]. by apply IH.
Qed.

(** A byte written before the rest of a program. *)
Lemma outb_then {A} port v (k : unit -> x86 D A) m :
  exists m', (outb port v ≫= k) m = k tt m' /\ pics (hw m') = pics_out port (u8 v) (pics (hw m)).
Proof.
  exists (outb port v m).2. split; [|apply outb_pics].
  unfold mbind, x86_bind. by destruct (outb port v m) as [[] ?].
Qed.

(** [irq_init] puts both controllers in operation at vectors 32 and 40 with every
    line masked, whatever state they were in. *)
Lemma irq_init_inv s m :
  let '(s', m') := irq_init s m in
  irq_inv s' m' /\ vbase (pics (hw m')).1 = 32 /\ vbase (pics (hw m')).2 = 40 /\
  (forall i, 0 <= i < 256 -> (irq_handlers s').[i] = 0).
Proof.
  assert (exists m', pic_remap m = (tt, m') /\
    pics (hw m') = (mk_pic 0xFF 32 4 0 (eois (pics (hw m)).1), mk_pic 0xFF 40 2 0 (eois (pics (hw m)).2)))
    as (m' & E & Hp).
  { unfold pic_remap.
    do 10 (match goal with |- context [(outb ?p ?v ≫= ?k) ?n] =>
      destruct (outb_then p v k n) as (? & -> & ?) end).
    match goal with |- exists m', io_wait ?x = _ /\ _ => exists (io_wait x).2; pose proof (outb_pics 0x80 0 x) as Hw end.
    split; [by destruct (io_wait _) as [[] ?]|]. change (outb 0x80 0) with (io_wait (D := D)) in Hw.
    rewrite Hw. repeat match goal with E : pics _ = _ |- _ => rewrite E; clear E end.
    by destruct (pics (hw m)) as [[] []]. }
  unfold irq_init. unfold mbind, mret, x86_bind, x86_ret. rewrite E, Hp. cbn [fst snd vbase].
  assert (forall i, 0 <= i < 256 -> (replicate (Z.to_nat IRQ_MAX) 0).[i] = 0) as Hz.
  { intros i Hi. unfold aget. apply lookup_total_replicate_2. unfold IRQ_MAX. lia. }
  split; [|split; [done|split; [done|exact Hz]]].
  constructor; rewrite ?Hp; cbn [fst snd irq_handlers irq_counts]; [done|done|done|done|].
  intros i Hi. rewrite Hz by lia. unfold mask_bit. cbn [fst snd imr].
  change 0xFF with (Z.ones 8). destruct (Z.ltb_spec i 8); by rewrite Z.ones_spec_low by lia.
Qed.

(** What reaches the processor, in terms of the handlers. *)
Lemma delivered_inv s m i :
  irq_inv s m -> 0 <= i < 16 -> i <> 2 ->
  delivered (pics (hw m)) i = true <-> (irq_handlers s).[i] <> 0 /\ (8 <= i -> (irq_handlers s).[2] <> 0).
Proof.
  intros Hs Hi Hne. pose proof (ii_mask s m Hs i Hi) as Hb. pose proof (ii_mask s m Hs 2 ltac:(lia)) as H2.
  destruct Hs as [_ _ (_ & _ & Wm) (_ & _ & Ws) _]. unfold mask_bit in *. unfold delivered. rewrite Wm, Ws.
  change (2 <? 8) with true in H2. cbv iota in H2. rewrite H2. change (Z.testbit 4 2) with true.
  destruct (Z.ltb_spec i 8).
  - rewrite Hb. assert (Z.testbit 4 i = false) as ->.
    { change 4 with (2 ^ 2). apply Z.pow2_bits_false. lia. }
    unfold truthy. destruct (Z.eqb_spec (irq_handlers s).[i] 0); simpl; split; (lia || congruence || naive_solver lia).
  - rewrite Hb. unfold truthy.
    destruct (Z.eqb_spec (irq_handlers s).[i] 0), (Z.eqb_spec (irq_handlers s).[2] 0); simpl; split;
      (congruence || naive_solver lia).
Qed.

(** C22: From [irq_init] on, after any sequence of registrations and removals, the
    two interrupt controllers let a request of a line through to the processor
    exactly when a handler is registered for it and, for the lines of the slave, a
    handler is registered for line 2 as well, the line of the master the slave is
    wired to: registering a handler for a line of the slave does not open that one.
    Line 2 has no device of its own. *)
Theorem irq_masks_follow_handlers l s m :
  Forall op_ok l ->
  let '(s1, m1) := irq_init s m in
  let '(s', m') := apply_ops l s1 m1 in
  forall i, 0 <= i < 16 -> i <> 2 ->
    delivered (pics (hw m')) i = true <-> (irq_handlers s').[i] <> 0 /\ (8 <= i -> (irq_handlers s').[2] <> 0).
Proof.
  intros HF. pose proof (irq_init_inv s m) as Hi. destruct (irq_init s m) as [s1 m1].
  destruct Hi as [Hi _]. pose proof (apply_ops_inv l s1 m1 Hi HF) as Hl.
  destruct (apply_ops l s1 m1) as [s' m']. intros i Hir Hne. by apply delivered_inv.
Qed.

(** A handler for a line of the slave alone is never called: after [irq_init] and
    its registration the line of the master is still masked. *)
Lemma slave_line_blocked irq h s m :
  8 <= irq < 16 -> h <> 0 ->
  let '(s1, m1) := irq_init s m in
  let '(s', m') := irq_register irq h s1 m1 in
  (irq_handlers s').[irq] = h /\ delivered (pics (hw m')) irq = false.
Proof.
  intros Hi Hh. pose proof (irq_init_inv s m) as H1. destruct (irq_init s m) as [s1 m1].
  destruct H1 as (H1 & _ & _ & Hz). pose proof (irq_register_inv irq h s1 m1 H1 ltac:(lia) Hh) as H2.
  destruct (irq_register irq h s1 m1) as [s' m']. destruct H2 as [H2 ->].
  pose proof (ii_handlers _ _ H1) as Hl. unfold IRQ_MAX in Hl. split.
  - unfold set_irq_handler. cbn [irq_handlers]. rewrite aget_aset_eq by lia. done.
  - apply not_true_is_false. rewrite (delivered_inv _ _ irq H2) by lia. intros [_ Hc]. apply Hc; [lia|].
    unfold set_irq_handler. cbn [irq_handlers]. rewrite aget_aset_ne by lia. apply Hz. lia.
Qed.

(** The removal of a handler only changes the mask of the 8259: the redirection
    entry of the I/O APIC that the registration programmed stays open. *)
Lemma unregister_keeps_redirection irq s m :
  0 <= irq < 16 ->
  exists v, trace (irq_unregister irq s m).2 =
    trace m ++ [In 1 (if irq <? 8 then 0x21 else 0xA1) v;
                Out 1 (if irq <? 8 then 0x21 else 0xA1) (u8 (Z.lor v (Z.shiftl 1 (if irq <? 8 then irq else irq - 8))))].
Proof.
  intros Hi. unfold irq_unregister, IRQ_MAX. rewrite (proj2 (Z.leb_gt 256 irq)), (proj2 (Z.ltb_lt irq 16)) by lia.
  unfold inb, inn, outb, outn, log_event. x86_run.
  destruct (irq <? 8); [destruct (hw_in 1 0x21 (hw m)) as [v d]|destruct (hw_in 1 0xA1 (hw m)) as [v d]];
    eexists; cbn [snd trace]; by rewrite <-app_assoc.
Qed.

End pics.

(** ** Dispatch *)

Section dispatch.
Context {D : Type} `{!X86Machine D} (run_handler : Z -> Z -> irq_state -> x86 D irq_state).

(** What the end of interrupt [irq] sends. *)
Definition eoi_events (irq : Z) : list x86_event :=
  (if 8 <=? irq then [Out 1 0xA0 0x20] else []) ++ [Out 1 0x20 0x20].

Lemma irq_eoi_trace irq (m : machine D) :
  trace (irq_end_of_interrupt irq m).2 = trace m ++ eoi_events irq.
Proof.
  unfold irq_end_of_interrupt, eoi_events, outb, outn. x86_run.
  destruct (8 <=? irq); cbn [snd trace log_event app]; [by rewrite <-app_assoc | done].
Qed.

(** Once [irq_register] has installed a handler for one of the sixteen
    legacy lines, the dispatch of that line's vector counts it, runs exactly that
    handler with the line's number, and then acknowledges the interrupt at the
    master, after the slave for the upper eight lines. *)
Theorem irq_dispatch_registered irq h s m :
  Z.of_nat (length (irq_handlers s)) = IRQ_MAX -> 0 <= irq < 16 -> h <> 0 ->
  let '(s1, m1) := irq_register irq h s m in
  let '(s2, m2) := run_handler h irq (count (IRQ_BASE + irq) s1) m1 in
  let '(s3, m3) := irq_dispatch run_handler (IRQ_BASE + irq) s1 m1 in
  s3 = s2 /\ trace m3 = trace m2 ++ eoi_events irq.
Proof.
  intros Hl Hi Hh. destruct (irq_register irq h s m) as [s1 m1] eqn:E.
  assert (s1 = set_irq_handler irq h s) as ->.
  { revert E. unfold irq_register, IRQ_MAX. rewrite (proj2 (Z.leb_gt 256 irq)), (proj2 (Z.ltb_lt irq 16)) by lia.
    unfold mbind, mret, x86_bind, x86_ret. intros E.
    do 2 case_match. by injection E. }
  unfold irq_dispatch. rewrite (proj2 (Z.leb_le _ _)), (proj2 (Z.ltb_lt _ _)) by lia. cbn [andb].
  replace (IRQ_BASE + irq - IRQ_BASE) with irq by lia.
  unfold count at 2. cbn [irq_handlers]. unfold set_irq_handler at 2. cbn [irq_handlers].
  rewrite aget_aset_eq by (unfold IRQ_MAX in *; lia). unfold call, truthy.
  rewrite (proj2 (Z.eqb_neq h 0)) by done. cbn [negb].
  unfold mbind, mret, x86_bind, x86_ret.
  destruct (run_handler h irq _ m1) as [s2 m2].
  pose proof (irq_eoi_trace irq m2) as Ht. destruct (irq_end_of_interrupt irq m2) as [[] m3]. done.
Qed.

End dispatch.

(** ** Two controllers on their own, for concrete runs *)

#[export] Instance pic_machine : X86Machine (pic * pic) := {|
  hw_in size port d :=
    (if port =? 0x21 then imr d.1 else if port =? 0xA1 then imr d.2 else 0, d);
  hw_out size port v d := if size =? 1 then pics_out port v d else d;
  hw_read _ d := (0, d);
  hw_write _ _ d := d;
  hw_rdmsr _ d := (0, d);
  hw_wrmsr _ _ d := d;
|}.

#[export] Program Instance pic_pair : HasPics (pic * pic) := {| pics d := d |}.
Solve Obligations with done.

Definition pics0 : machine (pic * pic) := mk_machine (mk_pic 0xB8 8 4 0 0, mk_pic 0x8E 0x70 2 0 0) [].
Definition irq0 : irq_state := mk_irq (replicate 256 0) (replicate 256 0) apic_boot.

Lemma irq_masks_follow_handlers_witness :
  let l := [Register 1 0x1000; Register 12 0x2000; Register 2 0x3000; Unregister 1] in
  let '(s1, m1) := irq_init irq0 pics0 in
  let '(s', m') := apply_ops l s1 m1 in
  delivered (pics (hw m')) 12 = true <-> (irq_handlers s').[12] <> 0 /\ (8 <= 12 -> (irq_handlers s').[2] <> 0).
Proof.
  pose proof (irq_masks_follow_handlers [Register 1 0x1000; Register 12 0x2000; Register 2 0x3000; Unregister 1]
    irq0 pics0 ltac:(repeat constructor; simpl; lia)) as H.
  cbv zeta. destruct (irq_init irq0 pics0) as [s1 m1]. destruct (apply_ops _ s1 m1) as [s' m']. apply H; lia.
Defined.

Lemma irq_dispatch_registered_witness :
  let run := fun (_ _ : Z) (s : irq_state) => mret (M := x86 (pic * pic)) s in
  let '(s1, m1) := irq_register 9 0x1000 irq0 pics0 in
  let '(s2, m2) := run 0x1000 9 (count (IRQ_BASE + 9) s1) m1 in
  let '(s3, m3) := irq_dispatch run (IRQ_BASE + 9) s1 m1 in
  s3 = s2 /\ trace m3 = trace m2 ++ eoi_events 9.
Proof.
  apply (irq_dispatch_registered (fun (_ _ : Z) (s : irq_state) => mret (M := x86 (pic * pic)) s) 9 0x1000 irq0 pics0);
    [reflexivity|lia|lia].
Defined.

End Irq.
