(* ===== verification/Smp.v ===== *)
(** * Bringing up the other CPUs

    Models kernel/arch/x86_64/smp.c: the numbering of the CPUs as they come
    online, the map from CPU numbers to APIC identifiers and the start-up
    sequence.  The table of per-CPU blocks keeps the fields smp.c writes.

    The other CPUs run [ap_entry] while the boot CPU sends start-up interrupts and
    waits: [enters i] are the identifiers of those whose entry falls into the
    [i]th wait, and their entries change the tables and the variables of apic.c
    the boot CPU goes on with.  [online_cpus++] is a load and a store, so the entry
    of a CPU is also given as three steps that can be interleaved with those of
    other CPUs. *)

From stdpp Require Import base numbers list option tactics.
From S2P Require Import Prelude X86 Apic.
Import Apic.

Module Smp.

Definition MAX_CPUS : Z := 256.
Definition AP_TRAMPOLINE_ADDR : Z := 0x8000.
Definition MSR_GS_BASE : Z := 0xC0000101.

Record percpu_t := mk_percpu {
  apic_id : Z;
  cpu_index : Z;
  online : bool;
  boot_cpu : bool;
}.

#[export] Instance percpu_inhabited : Inhabited percpu_t := populate (mk_percpu 0 0 false false).

(** The static variables of smp.c. *)
Record smp_tables := mk_smp {
  online_cpus : Z;
  ap_ready_count : Z;
  percpu_blocks : list percpu_t;
  cpu_index_map : list Z;
}.

(** The scan of [smp_current_cpu] for an identifier; 0 when it is not found. *)
Definition cpu_of_apic (id : Z) (t : smp_tables) : Z :=
  match first_index (fun x => x =? id) (cpu_index_map t) with
  | Some i => Z.of_nat i
  | None => 0
  end.

Definition smp_online_cpus (t : smp_tables) : Z := online_cpus t.

(** [percpu_blocks[i]] filled for a CPU that comes online. *)
Definition set_percpu (i id : Z) (boot : bool) (t : smp_tables) : smp_tables :=
  mk_smp (online_cpus t) (ap_ready_count t)
    ((percpu_blocks t).[i <- mk_percpu id i true boot]) (cpu_index_map t).

Definition set_index (i id : Z) (t : smp_tables) : smp_tables :=
  mk_smp (online_cpus t) (ap_ready_count t) (percpu_blocks t) ((cpu_index_map t).[i <- s32 id]).

Definition set_online (n : Z) (t : smp_tables) : smp_tables :=
  mk_smp n (ap_ready_count t) (percpu_blocks t) (cpu_index_map t).

Definition add_ready (t : smp_tables) : smp_tables :=
  mk_smp (online_cpus t) (s32 (ap_ready_count t + 1)) (percpu_blocks t) (cpu_index_map t).

Section ops.
Context {D : Type} `{!X86Machine D}.
(** The address of [percpu_blocks[i]]. *)
Variable percpu_addr : Z -> Z.
(** The hardware as the given CPU accesses it; [None] is the boot CPU. *)
Variable select : option Z -> D -> D.

Definition smp_current_cpu (a : apic_state) (t : smp_tables) : x86 D Z :=
  id ← apic_get_id a; mret (cpu_of_apic id t).

(** Up to the point where the CPU enables interrupts and idles for ever. *)
Definition ap_entry (id : Z) (a : apic_state) (t : smp_tables) : x86 D (apic_state * smp_tables) :=
  let i := online_cpus t in
  let t := set_online (s32 (i + 1)) t in
  let t := set_percpu i id false t in
  write_msr MSR_GS_BASE (percpu_addr i);;
  a ← apic_init a;
  mret (a, add_ready (set_index i id t)).

(** Run a program on another CPU. *)
Definition on_ap {A} (id : Z) (f : x86 D A) : x86 D A := fun m =>
  let '(r, m) := f (log_event (OnCpu (Some id)) (select (Some id) (hw m)) m) in
  (r, log_event (OnCpu None) (select None (hw m)) m).

(** CPUs that enter one after the other. *)
Fixpoint ap_entries (ids : list Z) (a : apic_state) (t : smp_tables) : x86 D (apic_state * smp_tables) :=
  match ids with
  | [] => mret (a, t)
  | id :: ids' => '(a, t) ← on_ap id (ap_entry id a t); ap_entries ids' a t
  end.

(** [for (int i = 0; i < 100; i++)] with [n] rounds left. *)
Fixpoint sipi_loop (n i : nat) (fuel : nat) (enters : nat -> list Z) (a : apic_state) (t : smp_tables)
    : x86 D (option (apic_state * smp_tables)) :=
  match n with
  | O => mret (Some (a, t))
  | S n' =>
      if MAX_CPUS - 1 <=? ap_ready_count t then mret (Some (a, t)) else
      r ← apic_send_ipi_all fuel a (AP_TRAMPOLINE_ADDR / PAGE_SIZE);
      match r with
      | None => mret None
      | Some _ => '(a, t) ← ap_entries (enters i) a t; sipi_loop n' (S i) fuel enters a t
      end
  end.

Definition smp_boot_aps (fuel : nat) (tramp_size : Z) (enters : nat -> list Z) (a : apic_state) (t : smp_tables)
    : x86 D (option (apic_state * smp_tables)) :=
  if 0x1000 <? tramp_size then mret (Some (a, t)) else
  instr (Memcpy AP_TRAMPOLINE_ADDR tramp_size);;
  r ← apic_send_ipi_all fuel a 0;
  match r with None => mret None | Some _ =>
  io_wait;;
  r ← apic_send_ipi_all fuel a (AP_TRAMPOLINE_ADDR / PAGE_SIZE);
  match r with None => mret None | Some _ =>
  io_wait;;
  '(a, t) ← ap_entries (enters 0%nat) a t;
  sipi_loop 100 1 fuel enters a t
  end end.

Definition smp_send_ipi (fuel : nat) (cpu vector : Z) (a : apic_state) (t : smp_tables) : x86 D (option unit) :=
  if cpu <? MAX_CPUS then apic_send_ipi fuel a (u32 (cpu_index_map t).[cpu]) vector
  else mret (Some tt).

Definition smp_send_broadcast (fuel : nat) (vector : Z) (a : apic_state) : x86 D (option unit) :=
  apic_send_ipi_all_except_self fuel a vector.

Definition smp_percpu_init (i : Z) (a : apic_state) (t : smp_tables) : x86 D smp_tables :=
  id ← apic_get_id a;
  let t := set_percpu i id true t in
  write_msr MSR_GS_BASE (percpu_addr i);;
  mret (set_index i id t).

Definition smp_init (fuel : nat) (tramp_size : Z) (enters : nat -> list Z) (a : apic_state) (t : smp_tables)
    : x86 D (option (apic_state * smp_tables)) :=
  let t := mk_smp (online_cpus t) (ap_ready_count t) (percpu_blocks t)
             (replicate (Z.to_nat MAX_CPUS) (-1)) in
  t ← smp_percpu_init 0 a t;
  smp_boot_aps fuel tramp_size enters a t.

End ops.

(** ** CPUs entering one after the other *)

Section numbering.
Context {D : Type} `{!X86Machine D} (percpu_addr : Z -> Z) (select : option Z -> D -> D).

(** The CPUs with identifiers [ids] are online, numbered in that order. *)
Record numbered (ids : list Z) (t : smp_tables) : Prop := {
  nb_online : online_cpus t = Z.of_nat (length ids);
  nb_ready : ap_ready_count t = Z.of_nat (length ids) - 1;
  nb_blocks : length (percpu_blocks t) = 256%nat;
  nb_map : cpu_index_map t = ids ++ replicate (256 - length ids) (-1);
  nb_percpu : forall i id, ids !! i = Some id ->
    percpu_blocks t !! i = Some (mk_percpu id (Z.of_nat i) true (bool_decide (i = 0)%nat));
}.

Lemma numbered_lookup ids t i id :
  NoDup ids -> numbered ids t -> ids !! i = Some id -> cpu_of_apic id t = Z.of_nat i.
Proof.
  intros Hnd Hn Hi. unfold cpu_of_apic.
  assert (first_index (fun x => x =? id) (cpu_index_map t) = Some i) as ->; [|done].
  apply first_index_Some. rewrite (nb_map ids t Hn). split.
  - exists id. split; [by apply lookup_app_l_Some | apply Z.eqb_refl].
  - intros j y Hj Hy. apply lookup_lt_Some in Hi as Hlt. rewrite lookup_app_l in Hy by lia.
    apply Z.eqb_neq. intros ->. assert (j = i) by (by eapply NoDup_lookup). lia.
Qed.

Lemma ap_entry_numbered ids id a t (m : machine D) :
  (0 < length ids < 256)%nat -> 0 <= id < 2 ^ 31 -> numbered ids t ->
  let '((_, t'), _) := ap_entry percpu_addr id a t m in numbered (ids ++ [id]) t'.
Proof.
  intros Hl Hid [Ho Hr Hb Hm Hp]. unfold ap_entry, mbind, mret, x86_bind, x86_ret.
  destruct (write_msr _ _ m) as [[] m1]. destruct (apic_init a m1) as [a' m2].
  constructor; cbn [online_cpus ap_ready_count percpu_blocks cpu_index_map add_ready set_index set_percpu set_online].
  - rewrite Ho, length_app, swrap_small by (simpl; lia). simpl. lia.
  - rewrite Hr, length_app, swrap_small by (simpl; lia). simpl. lia.
  - by rewrite length_aset.
  - rewrite Hm, Ho. unfold aset. rewrite Nat2Z.id, (swrap_small 32 id) by (simpl; lia).
    rewrite insert_app_r_alt by lia. rewrite Nat.sub_diag, length_app. simpl.
    replace (256 - length ids)%nat with (S (256 - (length ids + 1))) by lia. simpl.
    by rewrite <-app_assoc.
  - intros i id' Hi. rewrite Ho. unfold aset. rewrite Nat2Z.id.
    destruct (decide (i = length ids)) as [->|Hne].
    + rewrite list_lookup_insert_eq by lia. rewrite lookup_app_r, Nat.sub_diag in Hi by lia. injection Hi as ->.
      by rewrite bool_decide_eq_false_2 by lia.
    + rewrite list_lookup_insert_ne by done. apply Hp.
      apply lookup_lt_Some in Hi as Hlt. rewrite length_app in Hlt. simpl in Hlt.
      by rewrite lookup_app_l in Hi by lia.
Qed.

Lemma ap_entries_numbered ids' : forall ids a t (m : machine D),
  (0 < length ids)%nat -> (length ids + length ids' <= 256)%nat ->
  Forall (fun id => 0 <= id < 2 ^ 31) ids' -> numbered ids t ->
  let '((_, t'), _) := ap_entries percpu_addr select ids' a t m in numbered (ids ++ ids') t'.
Proof.
  induction ids' as [|id ids' IH]; intros ids a t m H0 Hl HF Hn; [by rewrite app_nil_r|].
  cbn [length] in Hl. apply List.Forall_cons_iff in HF as [Hid HF].
  cbn [ap_entries]. unfold mbind, x86_bind, on_ap. set (m0 := log_event _ _ m).
  pose proof (ap_entry_numbered ids id a t m0 ltac:(lia) Hid Hn) as H1.
  destruct (ap_entry percpu_addr id a t m0) as [[a1 t1] m1].
  specialize (IH (ids ++ [id]) a1 t1 (log_event (OnCpu None) (select None (hw m1)) m1)). rewrite <-app_assoc in IH. apply IH; [|rewrite length_app..|done|done].
  - rewrite length_app. simpl. lia.
  - simpl. lia.
Qed.

(** The boot CPU registers itself as CPU 0. *)
Lemma percpu_init_numbered a t (m : machine D) :
  online_cpus t = 1 -> ap_ready_count t = 0 -> length (percpu_blocks t) = 256%nat ->
  cpu_index_map t = replicate 256 (-1) ->
  numbered [(apic_get_id a m).1] (smp_percpu_init percpu_addr 0 a t m).1.
Proof.
  intros Ho Hr Hb Hm. pose proof (apic_get_id_range a m) as Hid.
  unfold smp_percpu_init, mbind, mret, x86_bind, x86_ret.
  destruct (apic_get_id a m) as [id m1]. destruct (write_msr _ _ m1) as [[] m2]. cbn [fst] in *.
  constructor; cbn [online_cpus ap_ready_count percpu_blocks cpu_index_map set_index set_percpu].
  - done.
  - done.
  - by rewrite length_aset.
  - rewrite Hm. unfold aset. rewrite (swrap_small 32 id) by (simpl; lia). done.
  - intros [|i] id' Hi; [|done]. injection Hi as <-. unfold aset. by rewrite list_lookup_insert_eq by lia.
Qed.

Lemma sipi_loop_numbered k fuel enters n : forall i ids a t (m : machine D),
  delivers_within (D := D) k -> (k < fuel)%nat ->
  let rest := concat (enters <$> seq i n) in
  (0 < length ids)%nat -> (length ids + length rest <= 256)%nat ->
  Forall (fun id => 0 <= id < 2 ^ 31) rest -> numbered ids t ->
  exists a' t' m', sipi_loop percpu_addr select n i fuel enters a t m = (Some (a', t'), m') /\
    numbered (ids ++ rest) t'.
Proof.
  induction n as [|n IH]; intros i ids a t m Hd Hf rest H0 Hl HF Hn.
  { exists a, t, m. split; [done|]. by rewrite app_nil_r. }
  cbn [sipi_loop]. unfold MAX_CPUS. rewrite (nb_ready _ _ Hn). destruct (Z.leb_spec (256 - 1) (Z.of_nat (length ids) - 1)).
  { exists a, t, m. split; [done|]. assert (rest = []) as -> by (apply length_zero_iff_nil; lia). by rewrite app_nil_r. }
  unfold rest in *. cbn [seq fmap list_fmap concat] in *. rewrite length_app in Hl. apply Forall_app in HF as [HF1 HF2].
  unfold mbind, x86_bind.
  pose proof (send_shorthand_returns k fuel a LAPIC_ICR_ALL (AP_TRAMPOLINE_ADDR / PAGE_SIZE) m Hd Hf) as Hs.
  unfold apic_send_ipi_all. destruct (send_shorthand _ _ _ _ m) as [r m1]. cbn [fst] in Hs. subst r.
  pose proof (ap_entries_numbered (enters i) ids a t m1 H0 ltac:(lia) HF1 Hn) as Hn1.
  destruct (ap_entries _ _ (enters i) a t m1) as [[a1 t1] m2].
  rewrite app_assoc. apply IH; [done|done| | |done|done]; rewrite length_app; lia.
Qed.

(** The CPUs that enter while the boot CPU waits. *)
Definition started (tramp_size : Z) (enters : nat -> list Z) : list Z :=
  if 0x1000 <? tramp_size then [] else concat (enters <$> seq 0 101).

Lemma smp_init_numbered k fuel tramp_size enters a t (m : machine D) :
  delivers_within (D := D) k -> (k < fuel)%nat ->
  online_cpus t = 1 -> ap_ready_count t = 0 -> length (percpu_blocks t) = 256%nat ->
  (length (started tramp_size enters) <= 255)%nat ->
  Forall (fun id => 0 <= id < 2 ^ 31) (started tramp_size enters) ->
  exists a' t' m', smp_init percpu_addr select fuel tramp_size enters a t m = (Some (a', t'), m') /\
    numbered ((apic_get_id a m).1 :: started tramp_size enters) t'.
Proof.
  intros Hd Hf Ho Hr Hb Hl HF. unfold smp_init. unfold mbind at 1, x86_bind at 1.
  set (t0 := mk_smp _ _ _ _). pose proof (percpu_init_numbered a t0 m Ho Hr Hb eq_refl) as Hn.
  destruct (smp_percpu_init percpu_addr 0 a t0 m) as [t1 m1]. cbn [fst] in Hn. set (bsp := (apic_get_id a m).1) in *.
  unfold smp_boot_aps, started in *. destruct (0x1000 <? tramp_size); [by exists a, t1, m1|].
  change (enters <$> seq 0 101) with (enters 0%nat :: (enters <$> seq 1 100)) in *.
  cbn [concat] in *. rewrite length_app in Hl. apply Forall_app in HF as [HF1 HF2].
  unfold mbind, x86_bind, apic_send_ipi_all. destruct (instr _ m1) as [[] m2].
  pose proof (send_shorthand_returns k fuel a LAPIC_ICR_ALL 0 m2 Hd Hf) as Hs.
  destruct (send_shorthand fuel a LAPIC_ICR_ALL 0 m2) as [r m3]. cbn [fst] in Hs. subst r. destruct (io_wait m3) as [[] m4].
  pose proof (send_shorthand_returns k fuel a LAPIC_ICR_ALL (AP_TRAMPOLINE_ADDR / PAGE_SIZE) m4 Hd Hf) as Hs.
  destruct (send_shorthand _ _ _ _ m4) as [r m5]. cbn [fst] in Hs. subst r. destruct (io_wait m5) as [[] m6].
  pose proof (ap_entries_numbered (enters 0%nat) [bsp] a t1 m6 ltac:(simpl; lia) ltac:(simpl; lia) HF1 Hn) as Hn1.
  destruct (ap_entries _ _ (enters 0%nat) a t1 m6) as [[a2 t2] m7].
  change (bsp :: enters 0%nat ++ ?l) with (([bsp] ++ enters 0%nat) ++ l).
  apply (sipi_loop_numbered k); [done|done| | |done|done]; rewrite length_app; cbn [length]; lia.
Qed.

(** After the boot CPU has registered itself, CPUs with different APIC
    identifiers that enter one after the other are numbered in the order of
    their entry, and [smp_current_cpu] run by any of them, whose local APIC
    answers with its identifier, gives exactly its own number. *)
Theorem smp_numbering a bsp ids t (m m' m'' : machine D) t0 :
  online_cpus t = 1 -> ap_ready_count t = 0 -> length (percpu_blocks t) = 256%nat ->
  cpu_index_map t = replicate 256 (-1) ->
  NoDup (bsp :: ids) -> (length ids <= 255)%nat -> Forall (fun id => 0 <= id < 2 ^ 31) (bsp :: ids) ->
  (apic_get_id a m).1 = bsp ->
  smp_percpu_init percpu_addr 0 a t m = (t0, m') ->
  let '((a', t'), _) := ap_entries percpu_addr select ids a t0 m' in
  smp_online_cpus t' = 1 + Z.of_nat (length ids) /\
  forall i id, (bsp :: ids) !! i = Some id ->
    (apic_get_id a' m'').1 = id -> (smp_current_cpu a' t' m'').1 = Z.of_nat i.
Proof.
  intros Ho Hr Hb Hm Hnd Hl HF Hid E. apply List.Forall_cons_iff in HF as [Hbsp HF].
  pose proof (percpu_init_numbered a t m Ho Hr Hb Hm) as Hn. rewrite E, Hid in Hn. cbn [fst] in Hn.
  pose proof (ap_entries_numbered ids [bsp] a t0 m' ltac:(simpl; lia) ltac:(simpl; lia) HF Hn) as Hn'.
  destruct (ap_entries _ _ ids a t0 m') as [[a' t'] m3]. simpl in Hn'. split.
  - unfold smp_online_cpus. rewrite (nb_online _ _ Hn'). simpl. lia.
  - intros i id Hi Hg. unfold smp_current_cpu, mbind, mret, x86_bind, x86_ret.
    destruct (apic_get_id a' m'') as [id' m4]. simpl in *. subst id'. by eapply numbered_lookup.
Qed.

End numbering.

(** ** CPUs entering at the same time

    A CPU has not started, has loaded [online_cpus], has stored it, or is done. *)

Inductive ap_phase :=
| Fresh
| LoadedCount (i : Z)
| StoredCount (i : Z)
| Ready.

Definition ap_step (id : Z) (ph : ap_phase) (t : smp_tables) : ap_phase * smp_tables :=
  match ph with
  | Fresh => (LoadedCount (online_cpus t), t)
  | LoadedCount i => (StoredCount i, set_online (s32 (i + 1)) t)
  | StoredCount i => (Ready, add_ready (set_index i id (set_percpu i id false t)))
  | Ready => (Ready, t)
  end.

(** Runs the CPUs in the order of a schedule, which names one CPU per step. *)
Fixpoint interleave (sched : list Z) (ph : Z -> ap_phase) (t : smp_tables) : (Z -> ap_phase) * smp_tables :=
  match sched with
  | [] => (ph, t)
  | id :: sched' =>
      let '(p, t') := ap_step id (ph id) t in
      interleave sched' (fun x => if x =? id then p else ph x) t'
  end.

(** A CPU that runs alone performs the table updates of [ap_entry]. *)
Lemma ap_entry_steps {D} `{!X86Machine D} addr id a t ph (m : machine D) :
  ph id = Fresh ->
  (ap_entry addr id a t m).1.2 = (interleave [id; id; id] ph t).2.
Proof.
  intros Hp. cbn [interleave]. rewrite Hp. cbn [ap_step]. rewrite !Z.eqb_refl. cbn [ap_step snd].
  unfold ap_entry, mbind, mret, x86_bind, x86_ret.
  destruct (write_msr _ _ m) as [[] m1]. by destruct (apic_init a m1) as [a' m2].
Qed.

(** When two CPUs load the counter before either stores it, both become CPU 1:
    one of them is lost from the map and takes itself for the boot CPU. *)
Lemma ap_race t :
  online_cpus t = 1 -> length (cpu_index_map t) = 256%nat ->
  cpu_index_map t = 0 :: replicate 255 (-1) ->
  let t' := (interleave [5; 6; 5; 6; 5; 6] (fun _ => Fresh) t).2 in
  online_cpus t' = 2 /\ ap_ready_count t' = s32 (s32 (ap_ready_count t + 1) + 1) /\
  cpu_of_apic 6 t' = 1 /\ cpu_of_apic 5 t' = 0.
Proof.
  intros Ho Hl Hm. destruct t as [o r b mp]. simpl in Ho, Hm. subst o mp.
  split; [done|]. split; [done|]. split; vm_compute; done.
Qed.

(** kmain calls [smp_init] before [apic_init]: the boot CPU's identifier is read
    through a null register base. *)
Lemma smp_init_before_apic {D} `{!X86Machine D} (m : machine D) :
  exists v, trace (apic_get_id apic_boot m).2 = trace m ++ [MmioRead 0x20 v].
Proof.
  unfold apic_get_id, lapic_read, mmio_read32. x86_run. cbn [x2apic_mode apic_boot lapic_base].
  destruct (hw_read _ (hw m)) as [v d]. by exists (u32 v).
Qed.

Definition smp0 : smp_tables := mk_smp 1 0 (replicate 256 inhabitant) (replicate 256 (-1)).

Lemma smp_numbering_witness :
  let '(t0, m') := smp_percpu_init (D := unit) (fun i => i) 0 apic_boot smp0 (mk_machine tt []) in
  let '((_, t'), _) := ap_entries (fun i => i) (fun _ d => d) [2; 4; 6] apic_boot t0 m' in
  smp_online_cpus t' = 4.
Proof.
  destruct (smp_percpu_init (D := unit) (fun i => i) 0 apic_boot smp0 (mk_machine tt [])) as [t0 m'] eqn:E.
  pose proof (smp_numbering (D := unit) (fun i => i) (fun _ d => d) apic_boot 0 [2; 4; 6] smp0 (mk_machine tt []) m' m' t0
    eq_refl eq_refl eq_refl eq_refl) as H.
  destruct (ap_entries (fun i => i) (fun _ d => d) [2; 4; 6] apic_boot t0 m') as [[a' t'] m3].
  apply H; [|simpl; lia|repeat constructor; simpl; lia|reflexivity|exact E].
  apply NoDup_ListNoDup. repeat constructor; simpl; lia.
Defined.

End Smp.
