(* ===== verification/Pci.v ===== *)
(** * PCI enumeration

    Models kernel/drivers/pci.c and pci.h: access to the configuration space
    through the ports 0xCF8 and 0xCFC, the scan of a bus and the lookups in the
    table of devices found.  The table is the list of its used entries. *)

From stdpp Require Import base numbers list option tactics gmap.
From S2P Require Import Prelude X86.

Module Pci.

Definition PCI_CONFIG_ADDR : Z := 0xCF8.
Definition PCI_CONFIG_DATA : Z := 0xCFC.
Definition PCI_MAX_DEVICES : Z := 256.
Definition PCI_COMMAND : Z := 0x04.
Definition PCI_CLASS : Z := 0x0A.
Definition PCI_HEADER_TYPE : Z := 0x0E.
Definition PCI_BAR0 : Z := 0x10.
Definition PCI_INTERRUPT : Z := 0x3C.

Record pci_device_t := mk_pci {
  vendor_id : Z; device_id : Z; command : Z; status : Z;
  revision : Z; class : Z; subclass : Z; prog_if : Z;
  bus : Z; slot : Z; func : Z;
  bars : list Z;
  irq : Z;
  valid : bool;
}.

(** The address word of a configuration register. *)
Definition config_addr (b s f offset : Z) : Z :=
  u32 (Z.lor (Z.lor (Z.lor (Z.lor (Z.shiftl 1 31) (Z.shiftl b 16)) (Z.shiftl s 11)) (Z.shiftl f 8))
    (Z.land offset 0xFC)).

Section ops.
Context {D : Type} `{!X86Machine D}.

Definition pci_read_config (b s f offset : Z) : x86 D Z :=
  outl PCI_CONFIG_ADDR (config_addr b s f offset);;
  inl PCI_CONFIG_DATA.

Definition pci_write_config (b s f offset value : Z) : x86 D unit :=
  outl PCI_CONFIG_ADDR (config_addr b s f offset);;
  outl PCI_CONFIG_DATA value.

(** Returns the new content of [dev->command]. *)
Definition pci_enable_bus_master (b s f : Z) : x86 D Z :=
  cmd ← pci_read_config b s f PCI_COMMAND;
  let cmd := Z.lor cmd (Z.lor (Z.lor (Z.shiftl 1 0) (Z.shiftl 1 1)) (Z.shiftl 1 2)) in
  pci_write_config b s f PCI_COMMAND cmd;;
  mret (u16 cmd).

Definition pci_read_bar (b s f bar : Z) : x86 D Z :=
  let offset := u8 (PCI_BAR0 + bar * 4) in
  low ← pci_read_config b s f offset;
  if truthy (Z.land low 1) then mret (Z.land low (2 ^ 32 - 2 ^ 2)) else
  if Z.land low 6 =? 4 then
    high ← pci_read_config b s f (u8 (offset + 4));
    mret (Z.lor (Z.shiftl high 32) (Z.land low (2 ^ 32 - 2 ^ 4)))
  else mret (Z.land low (2 ^ 32 - 2 ^ 4)).

(** [for (int b = 0; b < 6; b++) dev->bars[b] = pci_read_bar(dev, b);] *)
Fixpoint read_bars (n : nat) (k b s f : Z) : x86 D (list Z) :=
  match n with
  | O => mret []
  | S n' =>
      v ← pci_read_bar b s f k;
      rest ← read_bars n' (k + 1) b s f;
      mret (v :: rest)
  end.

(** The body of the loop over the functions, for a function that is present. *)
Definition read_device (b s f id2 : Z) : x86 D pci_device_t :=
  class_rev ← pci_read_config b s f PCI_CLASS;
  cmd ← pci_read_config b s f PCI_COMMAND;
  brs ← read_bars 6 0 b s f;
  irq_line ← pci_read_config b s f PCI_INTERRUPT;
  cmd' ← pci_enable_bus_master b s f;
  mret (mk_pci (Z.land id2 0xFFFF) (Z.shiftr id2 16) cmd' 0
    (Z.land class_rev 0xFF) (Z.land (Z.shiftr class_rev 24) 0xFF)
    (Z.land (Z.shiftr class_rev 16) 0xFF) (Z.land (Z.shiftr class_rev 8) 0xFF)
    b s f brs (Z.land irq_line 0xFF) true).

(** The flag says that the table was full and the scan returned. *)
Fixpoint scan_funcs (n : nat) (f b s : Z) (ds : list pci_device_t) : x86 D (bool * list pci_device_t) :=
  match n with
  | O => mret (false, ds)
  | S n' =>
      id2 ← pci_read_config b s f 0;
      if id2 =? 0xFFFFFFFF then scan_funcs n' (f + 1) b s ds else
      if PCI_MAX_DEVICES <=? Z.of_nat (length ds) then mret (true, ds) else
      dev ← read_device b s f id2;
      scan_funcs n' (f + 1) b s (ds ++ [dev])
  end.

Fixpoint scan_slots (n : nat) (s b : Z) (ds : list pci_device_t) : x86 D (list pci_device_t) :=
  match n with
  | O => mret ds
  | S n' =>
      id ← pci_read_config b s 0 0;
      if id =? 0xFFFFFFFF then scan_slots n' (s + 1) b ds else
      hdr ← pci_read_config b s 0 PCI_HEADER_TYPE;
      let hdr_type := Z.land (Z.shiftr hdr 16) 0xFF in
      r ← scan_funcs (if truthy (Z.land hdr_type 0x80) then 8 else 1) 0 b s ds;
      match r with
      | (true, ds) => mret ds
      | (false, ds) => scan_slots n' (s + 1) b ds
      end
  end.

Definition pci_scan_bus (b : Z) (ds : list pci_device_t) : x86 D (list pci_device_t) :=
  scan_slots 32 0 b ds.

Definition pci_init (_ : list pci_device_t) : x86 D (list pci_device_t) :=
  ds ← pci_scan_bus 0 [];
  hdr ← pci_read_config 0 0 0 PCI_HEADER_TYPE;
  if truthy (Z.land (Z.shiftr hdr 16) 0x80) then
    vid ← pci_read_config 0 0 0 0;
    if negb (vid =? 0xFFFFFFFF) then pci_scan_bus 0 ds else mret ds
  else mret ds.

End ops.

(** The lookups give the index of the entry they point at. *)
Definition pci_find (vendor device : Z) (ds : list pci_device_t) : option nat :=
  first_index (fun d => (vendor_id d =? vendor) && (device_id d =? device)) ds.

Definition pci_find_class (cls sub : Z) (ds : list pci_device_t) : option nat :=
  first_index (fun d => (class d =? cls) && (subclass d =? sub)) ds.

Definition pci_device_count (ds : list pci_device_t) : Z := Z.of_nat (length ds).

Definition pci_get_device (index : Z) (ds : list pci_device_t) : option pci_device_t :=
  if (index <? 0) || (pci_device_count ds <=? index) then None else ds !! Z.to_nat index.

(** ** The host bridge

    The bridge latches the address written to 0xCF8; an access to 0xCFC reaches
    the configuration register it names.  Writing a register may change that
    register in any way, but no other. *)

Class PciHost (D : Type) `{!X86Machine D} := {
  latch : D -> Z;
  cfg : D -> Z -> Z;
  pci_select : forall v d, let d' := hw_out 4 PCI_CONFIG_ADDR v d in latch d' = v /\ cfg d' = cfg d;
  pci_data_in : forall d, let '(v, d') := hw_in 4 PCI_CONFIG_DATA d in
    v = cfg d (latch d) /\ cfg d' = cfg d;
  pci_data_out : forall v d a, a <> latch d -> cfg (hw_out 4 PCI_CONFIG_DATA v d) a = cfg d a;
}.

Section spec.
Context {D : Type} `{PciHost D}.
Implicit Types (d : D).

Definition cfg_at d (b s f o : Z) : Z := u32 (cfg d (config_addr b s f o)).

Definition present d (b s f : Z) : bool := negb (cfg_at d b s f 0 =? 0xFFFFFFFF).
Definition multi_function d (b s : Z) : bool :=
  truthy (Z.land (Z.land (Z.shiftr (cfg_at d b s 0 PCI_HEADER_TYPE) 16) 0xFF) 0x80).

(** The functions of a device, and of the devices from slot [s] on. *)
Definition slot_functions d (b s : Z) : list (Z * Z) :=
  if present d b s 0 then
    (fun f => (s, f)) <$> filter (fun f => present d b s f = true)
      (if multi_function d b s then [0; 1; 2; 3; 4; 5; 6; 7] else [0])
  else [].

Fixpoint functions_from d (b : Z) (n : nat) (s : Z) : list (Z * Z) :=
  match n with
  | O => []
  | S n' => slot_functions d b s ++ functions_from d b n' (s + 1)
  end.

Definition functions d (b : Z) : list (Z * Z) := functions_from d b 32 0.

(** What a base address register says. *)
Definition bar_at d (b s f k : Z) : Z :=
  let low := cfg_at d b s f (u8 (PCI_BAR0 + k * 4)) in
  if truthy (Z.land low 1) then Z.land low (2 ^ 32 - 2 ^ 2) else
  if Z.land low 6 =? 4 then
    Z.lor (Z.shiftl (cfg_at d b s f (u8 (u8 (PCI_BAR0 + k * 4) + 4))) 32) (Z.land low (2 ^ 32 - 2 ^ 4))
  else Z.land low (2 ^ 32 - 2 ^ 4).

(** The table entry of a function, from the registers it had before the scan. *)
Definition describe d (b : Z) (sf : Z * Z) : pci_device_t :=
  let '(s, f) := sf in
  let id := cfg_at d b s f 0 in
  let class_rev := cfg_at d b s f PCI_CLASS in
  mk_pci (Z.land id 0xFFFF) (Z.shiftr id 16) (u16 (Z.lor (cfg_at d b s f PCI_COMMAND) 7)) 0
    (Z.land class_rev 0xFF) (Z.land (Z.shiftr class_rev 24) 0xFF)
    (Z.land (Z.shiftr class_rev 16) 0xFF) (Z.land (Z.shiftr class_rev 8) 0xFF)
    b s f (bar_at d b s f <$> [0; 1; 2; 3; 4; 5]) (Z.land (cfg_at d b s f PCI_INTERRUPT) 0xFF) true.

End spec.

(** ** Configuration addresses *)

Definition func_ok (b s f : Z) : Prop := 0 <= b < 256 /\ 0 <= s < 32 /\ 0 <= f < 8.

Lemma config_addr_value b s f o :
  func_ok b s f -> 0 <= o < 256 ->
  config_addr b s f o = 2 ^ 31 + b * 2 ^ 16 + s * 2 ^ 11 + f * 2 ^ 8 + (o / 4) * 4.
Proof.
  intros (Hb & Hs & Hf) Ho. unfold config_addr. rewrite !Z.shiftl_mul_pow2 by lia.
  change 0xFC with (2 ^ 8 - 2 ^ 2). rewrite land_mask by lia. rewrite (Z.mod_small o) by lia.
  replace (1 * 2 ^ 31) with ((2 ^ 15) * 2 ^ 16) by lia.
  rewrite <-(Z.lor_comm (b * 2 ^ 16)).
  assert (Z.lor (b * 2 ^ 16) (2 ^ 15 * 2 ^ 16) = (2 ^ 15 + b) * 2 ^ 16) as ->.
  { rewrite Z.lor_comm. rewrite <-!Z.shiftl_mul_pow2, <-Z.shiftl_lor by lia. f_equal.
    change (2 ^ 15) with (1 * 2 ^ 15). rewrite lor_low by lia. lia. }
  rewrite lor_low by lia.
  replace ((2 ^ 15 + b) * 2 ^ 16 + s * 2 ^ 11) with (((2 ^ 15 + b) * 2 ^ 5 + s) * 2 ^ 11) by lia.
  rewrite lor_low by lia.
  replace (((2 ^ 15 + b) * 2 ^ 5 + s) * 2 ^ 11 + f * 2 ^ 8) with ((((2 ^ 15 + b) * 2 ^ 5 + s) * 2 ^ 3 + f) * 2 ^ 8) by lia.
  rewrite lor_low by lia. rewrite wrap_small by lia. lia.
Qed.

(** Different functions have different registers. *)
Lemma config_addr_inj b s f o s' f' o' :
  func_ok b s f -> func_ok b s' f' -> 0 <= o < 256 -> 0 <= o' < 256 ->
  config_addr b s f o = config_addr b s' f' o' -> s = s' /\ f = f' /\ o / 4 = o' / 4.
Proof.
  intros Hf Hf' Ho Ho'. rewrite !config_addr_value by done.
  destruct Hf as (? & ? & ?), Hf' as (_ & ? & ?). lia.
Qed.

Lemma filter_ext_elem {A} (P Q : A -> Prop) `{!forall x, Decision (P x), !forall x, Decision (Q x)} (l : list A) :
  (forall x, x ∈ l -> P x <-> Q x) -> filter P l = filter Q l.
Proof.
  induction l as [|x l IH]; intros Hx; [done|]. rewrite !filter_cons.
  rewrite IH by (intros; apply Hx; by right).
  assert (P x <-> Q x) by (apply Hx; by left). repeat case_decide; tauto.
Qed.

Lemma take_take_app {A} n (l k : list A) : take n (take n l ++ k) = take n (l ++ k).
Proof.
  destruct (decide (length l <= n)%nat).
  - by rewrite (take_ge l) by done.
  - rewrite (take_app_le l) by lia. rewrite take_app_le; [by rewrite take_take, Nat.min_id|].
    rewrite length_take. lia.
Qed.

Section scan.
Context {D : Type} `{PciHost D}.
Implicit Types (d : D) (m : machine D).

(** Nothing but the command registers of the functions before number [k], slot
    by slot, has changed. *)
Definition intact (b k : Z) d d0 : Prop :=
  forall s f o, func_ok b s f -> 0 <= o < 256 -> k <= s * 8 + f \/ o / 4 <> 1 ->
    cfg_at d b s f o = cfg_at d0 b s f o.

Lemma intact_mono b k k' d d0 : k <= k' -> intact b k d d0 -> intact b k' d d0.
Proof. intros Hk Hi s f o Hf Ho Hle. apply Hi; [done|done|lia]. Qed.

Lemma read_config_spec b s f o m :
  exists m', pci_read_config b s f o m = (cfg_at (hw m) b s f o, m') /\ cfg (hw m') = cfg (hw m).
Proof.
  unfold pci_read_config, outl, inl, outn, inn. x86_run. cbn [hw log_event]. change (8 * 4) with 32.
  assert (u32 (config_addr b s f o) = config_addr b s f o) as -> by (apply wrap_wrap; lia).
  destruct (pci_select (config_addr b s f o) (hw m)) as [El Ec].
  pose proof (pci_data_in (hw_out 4 PCI_CONFIG_ADDR (config_addr b s f o) (hw m))) as Hin.
  destruct (hw_in 4 PCI_CONFIG_DATA _) as [v d']. destruct Hin as [-> Hd].
  eexists. split; [rewrite El, Ec; reflexivity|]. cbn [hw log_event]. by rewrite Hd.
Qed.

Lemma write_config_spec b s f o v m :
  exists m', pci_write_config b s f o v m = (tt, m') /\
    forall a, a <> config_addr b s f o -> cfg (hw m') a = cfg (hw m) a.
Proof.
  unfold pci_write_config, outl, outn. x86_run. cbn [hw log_event]. change (8 * 4) with 32.
  assert (u32 (config_addr b s f o) = config_addr b s f o) as -> by (apply wrap_wrap; lia).
  destruct (pci_select (config_addr b s f o) (hw m)) as [El Ec].
  eexists. split; [reflexivity|]. intros a Ha. cbn [hw log_event]. rewrite pci_data_out by (by rewrite El). by rewrite Ec.
Qed.

(** One read in front of a program. *)
Lemma read_then {A} b s f o (k : Z -> x86 D A) m :
  exists m', (pci_read_config b s f o ≫= k) m = k (cfg_at (hw m) b s f o) m' /\ cfg (hw m') = cfg (hw m).
Proof.
  destruct (read_config_spec b s f o m) as (m' & E & Ec). exists m'. split; [|done].
  unfold mbind, x86_bind. by rewrite E.
Qed.

Lemma read_bar_spec b s f k m :
  exists m', pci_read_bar b s f k m = (bar_at (hw m) b s f k, m') /\ cfg (hw m') = cfg (hw m).
Proof.
  unfold pci_read_bar, bar_at. cbv zeta.
  match goal with |- context [(pci_read_config b s f ?o ≫= ?k) m] =>
    destruct (read_then b s f o k m) as (m1 & -> & E1) end. cbv beta.
  case_match; [by exists m1|]. case_match; [|by exists m1].
  match goal with |- context [(pci_read_config b s f ?o ≫= ?k) m1] =>
    destruct (read_then b s f o k m1) as (m2 & -> & E2) end.
  exists m2. unfold cfg_at. rewrite E2, E1. done.
Qed.

Lemma bar_at_ext d d' b s f k : cfg d' = cfg d -> bar_at d' b s f k = bar_at d b s f k.
Proof. intros E. unfold bar_at, cfg_at. by rewrite E. Qed.

Lemma read_bars_spec n : forall k b s f m,
  exists m', read_bars n k b s f m = (bar_at (hw m) b s f <$> seqZ k (Z.of_nat n), m') /\ cfg (hw m') = cfg (hw m).
Proof.
  induction n as [|n IH]; intros k b s f m; cbn [read_bars]; [by exists m|].
  unfold mbind, mret, x86_bind, x86_ret.
  destruct (read_bar_spec b s f k m) as (m1 & -> & E1).
  destruct (IH (k + 1) b s f m1) as (m2 & -> & E2). exists m2. split; [|by rewrite E2].
  rewrite Nat2Z.inj_succ, (seqZ_cons k), Z.pred_succ by lia. cbn. do 2 f_equal.
  apply list_fmap_ext. intros i x _. by apply bar_at_ext.
Qed.

Lemma read_device_spec b s f m :
  func_ok b s f ->
  exists m', read_device b s f (cfg_at (hw m) b s f 0) m = (describe (hw m) b (s, f), m') /\
    intact b (s * 8 + f + 1) (hw m') (hw m).
Proof.
  intros Hf. unfold read_device, pci_enable_bus_master.
  match goal with |- context [(pci_read_config b s f ?o ≫= ?k) m] =>
    destruct (read_then b s f o k m) as (m1 & -> & E1) end. cbv beta.
  match goal with |- context [(pci_read_config b s f ?o ≫= ?k) m1] =>
    destruct (read_then b s f o k m1) as (m2 & -> & E2) end. cbv beta.
  unfold mbind at 1, x86_bind at 1. destruct (read_bars_spec 6 0 b s f m2) as (m3 & -> & E3). cbv beta iota.
  match goal with |- context [(pci_read_config b s f ?o ≫= ?k) m3] =>
    destruct (read_then b s f o k m3) as (m4 & -> & E4) end. cbv beta.
  unfold mbind at 1, x86_bind at 1.
  match goal with |- context [(pci_read_config b s f ?o ≫= ?k) m4] =>
    destruct (read_then b s f o k m4) as (m5 & -> & E5) end. cbv beta zeta.
  unfold mbind, mret, x86_bind, x86_ret.
  destruct (write_config_spec b s f PCI_COMMAND (Z.lor (cfg_at (hw m4) b s f PCI_COMMAND) 7) m5)
    as (m6 & E & Hw).
  change (Z.lor (Z.lor (Z.shiftl 1 0) (Z.shiftl 1 1)) (Z.shiftl 1 2)) with 7. rewrite E.
  exists m6. split.
  - unfold describe. f_equal. change (seqZ 0 (Z.of_nat 6)) with [0; 1; 2; 3; 4; 5].
    unfold cfg_at. rewrite E4, E3, E2, E1. f_equal.
    apply list_fmap_ext. intros i x _. apply bar_at_ext. by rewrite E2.
  - intros s' f' o Hf' Ho Hle. unfold cfg_at. f_equal. rewrite Hw, E5, E4, E3, E2, E1; [done|].
    intros Ea. apply (config_addr_inj b s' f' o s f PCI_COMMAND) in Ea as (-> & -> & Eo);
      [change (PCI_COMMAND / 4) with 1 in Eo; lia|done|done|done|unfold PCI_COMMAND; lia].
Qed.

(** [intact] lets the specification be read off the state before the scan. *)
Lemma describe_intact b k s f d d0 :
  func_ok b s f -> k <= s * 8 + f -> intact b k d d0 -> describe d b (s, f) = describe d0 b (s, f).
Proof.
  intros Hf Hk Hi. unfold describe, bar_at.
  assert (forall o, 0 <= o < 256 -> cfg_at d b s f o = cfg_at d0 b s f o) as Hc
    by (intros; apply Hi; auto).
  rewrite !Hc by (unfold PCI_CLASS, PCI_COMMAND, PCI_INTERRUPT; lia). f_equal.
  apply list_fmap_ext. intros i x _. by rewrite !Hc by (apply wrap_range; lia).
Qed.

(** The functions [f .. f + n - 1] of a device that are present. *)
Definition funcs_from d (b s : Z) (n : nat) (f : Z) : list (Z * Z) :=
  (fun f => (s, f)) <$> filter (fun f => present d b s f = true) (seqZ f (Z.of_nat n)).

Lemma funcs_from_cons d b s n f :
  funcs_from d b s (S n) f = (if present d b s f then [(s, f)] else []) ++ funcs_from d b s n (f + 1).
Proof.
  unfold funcs_from. rewrite Nat2Z.inj_succ, (seqZ_cons f), Z.pred_succ by lia. rewrite filter_cons.
  destruct (present d b s f); [by rewrite decide_True | by rewrite decide_False].
Qed.

(** What the table holds after functions [fs] were offered to it. *)
Definition offered d0 b (ds : list pci_device_t) (fs : list (Z * Z)) : list pci_device_t :=
  take (Z.to_nat PCI_MAX_DEVICES) (ds ++ (describe d0 b <$> fs)).

Lemma offered_app d0 b ds fs gs :
  offered d0 b (offered d0 b ds fs) gs = offered d0 b ds (fs ++ gs).
Proof.
  unfold offered. rewrite take_take_app, fmap_app. by rewrite app_assoc.
Qed.

Lemma offered_full d0 b ds fs :
  (Z.to_nat PCI_MAX_DEVICES = length ds)%nat -> offered d0 b ds fs = ds.
Proof. intros E. unfold offered. by rewrite E, take_app_length. Qed.

Lemma offered_room d0 b ds fs :
  (length ds + length fs <= Z.to_nat PCI_MAX_DEVICES)%nat -> offered d0 b ds fs = ds ++ (describe d0 b <$> fs).
Proof. intros E. unfold offered. apply take_ge. rewrite length_app, length_fmap. lia. Qed.

Lemma offered_length d0 b ds fs : (length (offered d0 b ds fs) <= Z.to_nat PCI_MAX_DEVICES)%nat.
Proof. unfold offered. rewrite length_take. lia. Qed.

(** Scanning the functions of a device: either the table filled up, or all of
    them were recorded. *)
Lemma scan_funcs_spec d0 n : forall f b s ds m,
  0 <= b < 256 -> 0 <= s < 32 -> 0 <= f -> f + Z.of_nat n <= 8 ->
  (length ds <= Z.to_nat PCI_MAX_DEVICES)%nat -> intact b (s * 8 + f) (hw m) d0 ->
  exists full m', let ds' := offered d0 b ds (funcs_from d0 b s n f) in
    scan_funcs n f b s ds m = ((full, ds'), m') /\
    intact b (s * 8 + f + Z.of_nat n) (hw m') d0 /\
    (full = true -> length ds' = Z.to_nat PCI_MAX_DEVICES).
Proof.
  induction n as [|n IH]; intros f b s ds m Hb Hs Hf Hn Hl Hi.
  { exists false, m. rewrite Z.add_0_r. cbn [scan_funcs]. unfold offered, funcs_from. rewrite app_nil_r.
    by rewrite take_ge. }
  assert (func_ok b s f) as Hfo by (unfold func_ok; lia).
  cbn [scan_funcs]. rewrite funcs_from_cons, <-offered_app.
  match goal with |- context [(pci_read_config b s f ?o ≫= ?k) m] =>
    destruct (read_then b s f o k m) as (m1 & -> & E1) end. cbv beta.
  assert (cfg_at (hw m) b s f 0 = cfg_at (hw m1) b s f 0) as -> by (unfold cfg_at; by rewrite E1).
  assert (intact b (s * 8 + f) (hw m1) d0) as Hi1 by (unfold intact, cfg_at; rewrite E1; exact Hi).
  unfold present. rewrite <-(Hi1 s f 0 Hfo ltac:(lia) ltac:(right; done)).
  replace (s * 8 + f + Z.of_nat (S n)) with (s * 8 + (f + 1) + Z.of_nat n) by lia.
  destruct (Z.eqb_spec (cfg_at (hw m1) b s f 0) 0xFFFFFFFF); cbn [negb].
  { rewrite (offered_room _ _ ds []) by (simpl; lia). rewrite app_nil_r.
    apply IH; [lia..|]. eapply intact_mono; [|done]. lia. }
  destruct (Z.leb_spec PCI_MAX_DEVICES (Z.of_nat (length ds))).
  { exists true, m1. rewrite !offered_full; [| |rewrite offered_full]; try (unfold PCI_MAX_DEVICES in *; lia).
    split; [done|]. split; [|unfold PCI_MAX_DEVICES in *; lia]. eapply intact_mono; [|done]. lia. }
  unfold mbind, x86_bind. destruct (read_device_spec b s f m1 Hfo) as (m2 & -> & Hi2).
  rewrite (describe_intact b (s * 8 + f) s f (hw m1) d0) by (done || lia).
  rewrite (offered_room d0 b ds [(s, f)]) by (simpl; unfold PCI_MAX_DEVICES in *; lia).
  apply IH; [lia..| |].
  - rewrite length_app. simpl. unfold PCI_MAX_DEVICES in *. lia.
  - intros s' f' o Hf' Ho Hle. rewrite Hi2 by (done || lia). apply Hi1; (done || lia).
Qed.

Lemma slot_functions_from d b s :
  slot_functions d b s =
  if present d b s 0 then funcs_from d b s (if multi_function d b s then 8 else 1) 0 else [].
Proof. unfold slot_functions, funcs_from. by destruct (multi_function d b s). Qed.

Lemma scan_slots_spec d0 n : forall s b ds m,
  0 <= b < 256 -> 0 <= s -> s + Z.of_nat n <= 32 ->
  (length ds <= Z.to_nat PCI_MAX_DEVICES)%nat -> intact b (s * 8) (hw m) d0 ->
  exists m', scan_slots n s b ds m = (offered d0 b ds (functions_from d0 b n s), m') /\
    intact b 256 (hw m') d0.
Proof.
  induction n as [|n IH]; intros s b ds m Hb Hs Hn Hl Hi.
  { exists m. cbn [scan_slots functions_from]. rewrite offered_room by (simpl; lia). rewrite app_nil_r.
    split; [done|]. eapply intact_mono; [|done]. lia. }
  cbn [scan_slots functions_from]. rewrite slot_functions_from, <-offered_app.
  match goal with |- context [(pci_read_config b s ?f ?o ≫= ?k) m] =>
    destruct (read_then b s f o k m) as (m1 & -> & E1) end. cbv beta.
  assert (cfg_at (hw m) b s 0 0 = cfg_at d0 b s 0 0) as Eid by (apply Hi; unfold func_ok; lia).
  assert (intact b (s * 8) (hw m1) d0) as Hi1 by (unfold intact, cfg_at; rewrite E1; exact Hi).
  rewrite Eid. unfold present at 1. destruct (Z.eqb_spec (cfg_at d0 b s 0 0) 0xFFFFFFFF); cbn [negb].
  { rewrite (offered_room _ _ ds []) by (simpl; lia). rewrite app_nil_r.
    apply IH; [lia..|]. eapply intact_mono; [|done]. lia. }
  match goal with |- context [(pci_read_config b s ?f ?o ≫= ?k) m1] =>
    destruct (read_then b s f o k m1) as (m2 & -> & E2) end. cbv beta zeta.
  assert (cfg_at (hw m1) b s 0 PCI_HEADER_TYPE = cfg_at d0 b s 0 PCI_HEADER_TYPE) as ->
    by (apply Hi1; unfold func_ok, PCI_HEADER_TYPE; lia).
  change (truthy (Z.land (Z.land (Z.shiftr (cfg_at d0 b s 0 PCI_HEADER_TYPE) 16) 255) 128))
    with (multi_function d0 b s).
  assert (intact b (s * 8 + 0) (hw m2) d0) as Hi2
    by (rewrite Z.add_0_r; unfold intact, cfg_at; rewrite E2; exact Hi1).
  destruct (scan_funcs_spec d0 (if multi_function d0 b s then 8 else 1) 0 b s ds m2)
    as (full & m3 & E & Hi3 & Hfull); [lia|lia|lia|case_match; lia|done|done|].
  unfold mbind, mret, x86_bind, x86_ret. rewrite E. destruct full.
  - exists m3. split; [rewrite (offered_full d0 b (offered _ _ _ _)); [done|by rewrite Hfull]|].
    eapply intact_mono; [|exact Hi3]. case_match; lia.
  - apply IH; [lia|lia|lia|apply offered_length|]. eapply intact_mono; [|exact Hi3]. case_match; lia.
Qed.

Lemma scan_bus_spec b ds m :
  0 <= b < 256 -> (length ds <= Z.to_nat PCI_MAX_DEVICES)%nat ->
  exists m', pci_scan_bus b ds m = (offered (hw m) b ds (functions (hw m) b), m') /\
    intact b 256 (hw m') (hw m).
Proof. intros. apply scan_slots_spec; [done|lia|lia|done|by intros ? ? ?]. Qed.

(** C8: [pci_scan_bus] adds to the table, in slot and function order, exactly the
    functions of the bus that answer, each with the identifiers, class, base
    addresses and interrupt line its registers held before the scan, and stops
    at 256 entries. *)
Theorem pci_scan_bus_correct b ds m :
  0 <= b < 256 -> (length ds <= 256)%nat ->
  (pci_scan_bus b ds m).1 = take 256 (ds ++ (describe (hw m) b <$> functions (hw m) b)).
Proof.
  intros Hb Hl. destruct (scan_bus_spec b ds m Hb Hl) as (m' & -> & _). done.
Qed.

(** The functions of a bus do not depend on the command registers. *)
Lemma functions_intact b k d d0 :
  0 <= b < 256 -> intact b k d d0 -> functions d b = functions d0 b.
Proof.
  intros Hb Hi. unfold functions.
  assert (forall n s, 0 <= s -> s + Z.of_nat n <= 32 -> functions_from d b n s = functions_from d0 b n s) as Hn;
    [|by apply Hn].
  induction n as [|n IH]; intros s Hs Hn; cbn [functions_from]; [done|]. rewrite IH by lia. f_equal.
  assert (forall f, 0 <= f < 8 -> present d b s f = present d0 b s f) as Hp.
  { intros f Hf. unfold present. rewrite (Hi s f 0); [done|unfold func_ok; lia|lia|by right]. }
  unfold slot_functions. rewrite Hp by lia. case_match; [|done]. f_equal.
  assert (multi_function d b s = multi_function d0 b s) as ->.
  { unfold multi_function. rewrite (Hi s 0 PCI_HEADER_TYPE); [done|unfold func_ok; lia|done|by right]. }
  apply filter_ext_elem. intros f Hf. rewrite Hp; [done|].
  case_match; repeat (apply elem_of_cons in Hf as [->|Hf]; [lia|]); by apply not_elem_of_nil in Hf.
Qed.

(** The place of a device is what the scan recorded it for. *)
Lemma describe_places d b (fs : list (Z * Z)) : ((fun p => (slot p, func p)) <$> (describe d b <$> fs)) = fs.
Proof.
  rewrite <-list_fmap_compose. rewrite <-(list_fmap_id fs) at 2.
  apply list_fmap_ext. by intros i [s f] _.
Qed.

(** [pci_init] finds every function of bus 0 once when slot 0 holds a
    single-function device; when it is a multi-function device the bus is
    scanned a second time and every function that still fits is listed twice. *)
Theorem pci_init_finds ds m :
  let fs := functions (hw m) 0 in
  ((fun p => (slot p, func p)) <$> (pci_init ds m).1) =
    if multi_function (hw m) 0 0 && present (hw m) 0 0 0 then take 256 (fs ++ fs) else take 256 fs.
Proof.
  intros fs. destruct (scan_bus_spec 0 [] m) as (m1 & E & Hi); [lia|apply Nat.le_0_l|].
  unfold pci_init. unfold mbind at 1, x86_bind at 1. rewrite E. cbv beta iota.
  match goal with |- context [(pci_read_config 0 0 0 ?o ≫= ?k) m1] =>
    destruct (read_then 0 0 0 o k m1) as (m2 & -> & E2) end. cbv beta.
  rewrite (Hi 0 0 PCI_HEADER_TYPE) by (unfold func_ok, PCI_HEADER_TYPE; (lia || by right)).
  unfold multi_function. rewrite <-Z.land_assoc. change (Z.land 0xFF 0x80) with 0x80.
  assert (forall l, ((fun p => (slot p, func p)) <$> offered (hw m) 0 [] l) = take 256 l) as Hfm.
  { intros l. unfold offered. rewrite fmap_take. simpl. by rewrite describe_places. }
  destruct (truthy _); cbn [andb]; [|apply Hfm].
  match goal with |- context [(pci_read_config 0 0 0 ?o ≫= ?k) m2] =>
    destruct (read_then 0 0 0 o k m2) as (m3 & -> & E3) end. cbv beta.
  assert (cfg_at (hw m2) 0 0 0 0 = cfg_at (hw m) 0 0 0 0) as ->.
  { unfold cfg_at. rewrite E2. apply Hi; [unfold func_ok; lia|lia|by right]. }
  unfold present. destruct (negb _); [|apply Hfm].
  destruct (scan_bus_spec 0 (offered (hw m) 0 [] (functions (hw m) 0)) m3) as (m4 & -> & _);
    [lia|apply offered_length|].
  unfold offered at 1. cbn [fst]. rewrite fmap_take, fmap_app, describe_places, Hfm.
  change (Z.to_nat PCI_MAX_DEVICES) with 256%nat.
  rewrite take_take_app. rewrite (functions_intact 0 256 (hw m3) (hw m)); [done|lia|].
  unfold intact, cfg_at. rewrite E3, E2. exact Hi.
Qed.

End scan.

(** ** A concrete bus *)

Record pci_hw := mk_pci_hw { pci_latch : Z; pci_regs : gmap Z Z }.

(** Registers without a device read as all ones. *)
#[export] Instance pci_machine : X86Machine pci_hw := {|
  hw_in size port d := (default 0xFFFFFFFF (pci_regs d !! pci_latch d), d);
  hw_out size port v d :=
    if port =? PCI_CONFIG_ADDR then mk_pci_hw v (pci_regs d)
    else mk_pci_hw (pci_latch d) (<[pci_latch d := v]> (pci_regs d));
  hw_read _ d := (0, d);
  hw_write _ _ d := d;
  hw_rdmsr _ d := (0, d);
  hw_wrmsr _ _ d := d;
|}.

#[export] Program Instance pci_host : PciHost pci_hw := {|
  latch := pci_latch;
  cfg d a := default 0xFFFFFFFF (pci_regs d !! a);
|}.
Next Obligation. by intros v d. Qed.
Next Obligation. by intros d. Qed.
Next Obligation. intros v d a Ha. simpl. by rewrite lookup_insert_ne by done. Qed.

(** A bridge at 0:0.0 and a network card at 0:3.0. *)
Definition pci_bus0 : machine pci_hw :=
  mk_machine (mk_pci_hw 0 (list_to_map [
    (config_addr 0 0 0 0, 0x12378086); (config_addr 0 0 0 0x0C, 0);
    (config_addr 0 3 0 0, 0x10001AF4); (config_addr 0 3 0 0x0C, 0);
    (config_addr 0 3 0 8, 0x02000000); (config_addr 0 3 0 0x3C, 11)])) [].

Lemma pci_bus0_functions : functions (hw pci_bus0) 0 = [(0, 0); (3, 0)].
Proof. vm_compute. reflexivity. Qed.

Lemma pci_scan_bus_correct_witness :
  (pci_scan_bus 0 [] pci_bus0).1 = take 256 ([] ++ (describe (hw pci_bus0) 0 <$> functions (hw pci_bus0) 0)).
Proof. apply (pci_scan_bus_correct 0 [] pci_bus0); simpl; lia. Defined.

(** ** Lookups *)

(** [pci_find] gives the first entry with both identifiers, and NULL when there
    is none. *)
Lemma pci_find_spec v dv ds :
  match pci_find v dv ds with
  | Some i => exists p, pci_get_device (Z.of_nat i) ds = Some p /\ vendor_id p = v /\ device_id p = dv /\
      forall j q, (j < i)%nat -> ds !! j = Some q -> vendor_id q <> v \/ device_id q <> dv
  | None => forall j q, ds !! j = Some q -> vendor_id q <> v \/ device_id q <> dv
  end.
Proof.
  unfold pci_find. destruct (first_index _ ds) as [i|] eqn:E.
  - apply first_index_Some in E as [(p & Hp & Hb) Hlt]. apply lookup_lt_Some in Hp as Hl. exists p.
    unfold pci_get_device, pci_device_count. rewrite (proj2 (Z.ltb_ge _ _)), (proj2 (Z.leb_gt _ _)) by lia.
    rewrite Nat2Z.id. cbn [orb]. apply andb_prop in Hb as [H1%Z.eqb_eq H2%Z.eqb_eq]. split; [done|]. split; [done|].
    split; [done|]. intros j q Hj Hq. pose proof (Hlt j q Hj Hq) as Hf.
    apply andb_false_iff in Hf as [Hf%Z.eqb_neq|Hf%Z.eqb_neq]; auto.
  - rewrite first_index_None in E. intros j q Hq. apply list_elem_of_lookup_2 in Hq.
    rewrite Forall_forall in E. specialize (E q Hq). simpl in E.
    apply andb_false_iff in E as [Hf%Z.eqb_neq|Hf%Z.eqb_neq]; auto.
Qed.

End Pci.
