(* ===== verification/Cpu.v ===== *)
(** * CPU detection

    Models kernel/arch/x86_64/cpu.c and cpu.h: the features read from CPUID, the
    table of per-CPU blocks and the number of CPUs.  The answers of the CPUID
    instruction for a leaf and subleaf, and the content of a model-specific
    register, are parameters. *)

From stdpp Require Import base numbers list option tactics strings.
From S2P Require Import Prelude.

Module Cpu.

Definition MAX_CPUS : Z := 256.

Record cpu_features_t := mk_features {
  fpu : bool; mmx : bool; sse : bool; sse2 : bool; sse3 : bool; ssse3 : bool;
  sse4_1 : bool; sse4_2 : bool; avx : bool; avx2 : bool; avx512f : bool; avx512bw : bool;
  avx512dq : bool; avx512vl : bool; aes : bool; sha : bool; rdrand : bool; rdseed : bool;
  svm : bool; vmx : bool;
  smep : bool; smap : bool; umip : bool; pku : bool; ospke : bool; nx : bool;
  pae : bool; pse : bool; pge : bool; pcid : bool; invpcid : bool; fsgsbase : bool;
  mtrr : bool; pat : bool; x2apic : bool;
  acpi : bool; hwp : bool; eist : bool; turbo : bool;
  cache_line_size : Z; l1d_cache_kb : Z; l1i_cache_kb : Z; l2_cache_kb : Z; l3_cache_kb : Z;
  feat_apic_id : Z; x2apic_id : Z; package_id : Z; core_id : Z; thread_id : Z;
  core_count : Z; thread_count : Z;
}.

(** The fields of a per-CPU block that cpu.c writes; the rest is cleared. *)
Record percpu_t := mk_percpu {
  apic_id : Z;
  cpu_index : Z;
  online : bool;
  boot_cpu : bool;
  features : option cpu_features_t;
}.

Definition zero_percpu : percpu_t := mk_percpu 0 0 false false None.
#[export] Instance percpu_inhabited : Inhabited percpu_t := populate zero_percpu.

Record cpu_state := mk_cpu { percpu_array : list percpu_t; cpu_count : Z }.

(** EAX, EBX, ECX and EDX. *)
Record regs := mk_regs { ra : Z; rb : Z; rc : Z; rd : Z }.

(** The cache sizes, as the loop over the subleaves of leaf 4 fills them. *)
Record caches := mk_caches { c_l1d : Z; c_l1i : Z; c_l2 : Z; c_l3 : Z }.

Definition add_cache (r : regs) (c : caches) : caches :=
  let cache_type := Z.land (ra r) 0x1F in
  let count := Z.land (Z.shiftr (ra r) 14) 0xFFF in
  let size_kb := u32 (u32 (Z.land (Z.shiftr (rb r) 12) 0xFFFFF * Z.land (ra r) 0xFFF) * count) / 1024 in
  if cache_type =? 1 then mk_caches size_kb (c_l1i c) (c_l2 c) (c_l3 c)
  else if cache_type =? 2 then mk_caches (c_l1d c) size_kb (c_l2 c) (c_l3 c)
  else if cache_type =? 3 then mk_caches (c_l1d c) (c_l1i c) size_kb (c_l3 c)
  else if cache_type =? 4 then mk_caches (c_l1d c) (c_l1i c) (c_l2 c) size_kb
  else c.

Section detection.
Variable cpuid : Z -> Z -> regs.   (* leaf, subleaf *)
Variable read_msr : Z -> Z.

(** Every field starts as zero; a leaf is read when the processor has it. *)
Definition cpu_detect_features : cpu_features_t :=
  let max_basic := ra (cpuid 0 0) in
  let has1 := 1 <=? max_basic in
  let l1 := cpuid 1 0 in
  let edx1 n := has1 && Z.testbit (rd l1) n in
  let ecx1 n := has1 && Z.testbit (rc l1) n in
  let id := if has1 then Z.land (Z.shiftr (rb l1) 24) 0xFF else 0 in
  let id2 := if has1 then (if ecx1 21 then u32 (read_msr 0x802) else id) else 0 in
  let has4 := 4 <=? max_basic in
  let c := if has4 then
             add_cache (cpuid 4 3) (add_cache (cpuid 4 2) (add_cache (cpuid 4 1)
               (add_cache (cpuid 4 0) (mk_caches 0 0 0 0))))
           else mk_caches 0 0 0 0 in
  let line := if has4 then Z.land (rb (cpuid 4 3)) 0xFFF + 1 else 0 in
  let ebx7 n := (7 <=? max_basic) && Z.testbit (rb (cpuid 7 0)) n in
  let max_ext := ra (cpuid 0x80000000 0) in
  let edxe n := (0x80000001 <=? max_ext) && Z.testbit (rd (cpuid 0x80000001 0)) n in
  let l8 := cpuid 0x80000008 0 in
  let cores := if 0x80000008 <=? max_ext then Z.land (ra l8) 0xFF + 1 else 0 in
  let threads := if 0x80000008 <=? max_ext then Z.land (Z.shiftr (rb l8) 12) 0xF + 1 else 0 in
  {| fpu := edx1 0; pse := edx1 3; pae := edx1 6; pge := edx1 13; mtrr := edx1 12; pat := edx1 16;
     mmx := edx1 23; nx := edx1 20; sse := edx1 25; sse2 := edx1 26;
     sse3 := ecx1 0; ssse3 := ecx1 9; sse4_1 := ecx1 19; sse4_2 := ecx1 20; aes := ecx1 25;
     avx := ecx1 28; rdrand := ecx1 30; vmx := ecx1 5; svm := ecx1 2; smep := ecx1 7;
     smap := ecx1 20; umip := ecx1 2; pcid := ecx1 17; x2apic := ecx1 21; fsgsbase := ecx1 24;
     pku := ecx1 22; ospke := ecx1 23; invpcid := ecx1 10;
     feat_apic_id := id; x2apic_id := id2;
     l1d_cache_kb := c_l1d c; l1i_cache_kb := c_l1i c; l2_cache_kb := c_l2 c; l3_cache_kb := c_l3 c;
     cache_line_size := line;
     avx2 := ebx7 5; avx512f := ebx7 16; avx512bw := ebx7 30; avx512dq := ebx7 17;
     avx512vl := ebx7 31; sha := ebx7 29; rdseed := ebx7 18; hwp := ebx7 7;
     eist := edxe 7; turbo := edxe 7;
     core_count := cores; thread_count := threads;
     acpi := false; package_id := 0; core_id := 0; thread_id := 0 |}.

Definition word (b : bool) (s : string) : list string := if b then [s] else [].

(** The words [cpu_print_info] prints on its lines of features and security. *)
Definition cpu_print_info (f : cpu_features_t) : list string * list string :=
  (word (sse f) "SSE" ++ word (sse2 f) "SSE2" ++ word (sse3 f) "SSE3" ++ word (ssse3 f) "SSSE3" ++
   word (sse4_1 f) "SSE4.1" ++ word (sse4_2 f) "SSE4.2" ++ word (avx f) "AVX" ++ word (avx2 f) "AVX2" ++
   word (avx512f f) "AVX-512F",
   word (smep f) "SMEP" ++ word (smap f) "SMAP" ++ word (umip f) "UMIP" ++ word (nx f) "NX").

Definition cpu_detect_all (s : cpu_state) : cpu_state :=
  let bsp_feat := cpu_detect_features in
  let bsp := mk_percpu (feat_apic_id bsp_feat) 0 true true (Some bsp_feat) in
  let n := core_count bsp_feat in
  let n := if MAX_CPUS <? n then MAX_CPUS else n in
  mk_cpu ((percpu_array s).[0 <- bsp]) n.

End detection.

Definition cpu_get_count (s : cpu_state) : Z := cpu_count s.

Definition cpu_get_apic_id (idx : Z) (s : cpu_state) : Z :=
  if cpu_count s <=? idx then 0xFFFFFFFF else apic_id (percpu_array s).[idx].

(** The block the returned pointer points at; [None] is NULL. *)
Definition cpu_get_percpu (idx : Z) (s : cpu_state) : option percpu_t :=
  if cpu_count s <=? idx then None else (percpu_array s) !! Z.to_nat idx.

(** ** Theorems *)

Section theorems.
Variable cpuid : Z -> Z -> regs.
Variable read_msr : Z -> Z.
Let feat := cpu_detect_features cpuid read_msr.

Lemma core_count_range : 0 <= core_count feat <= 256.
Proof.
  unfold feat, cpu_detect_features. cbn [core_count]. case_match; [|lia].
  change 0xFF with (Z.ones 8). rewrite Z.land_ones by lia. lia.
Qed.

(** After detection every index below the CPU count is inside the table,
    so [cpu_get_percpu] answers with a block exactly for those indices; block 0
    is the running CPU with its own APIC identifier and features, and the others
    are as they were before. *)
Theorem cpu_detect_all_correct s idx :
  length (percpu_array s) = 256%nat -> 0 <= idx ->
  let s' := cpu_detect_all cpuid read_msr s in
  0 <= cpu_get_count s' <= MAX_CPUS /\
  (is_Some (cpu_get_percpu idx s') <-> idx < cpu_get_count s') /\
  (forall p, cpu_get_percpu idx s' = Some p ->
     cpu_get_apic_id idx s' = apic_id p /\
     if idx =? 0 then p = mk_percpu (feat_apic_id feat) 0 true true (Some feat)
     else p = (percpu_array s).[idx]).
Proof.
  intros Hl Hi s'. pose proof core_count_range as Hr. fold feat in Hr.
  assert (cpu_count s' = core_count feat) as Hc.
  { unfold s', cpu_detect_all. cbn [cpu_count]. fold feat. unfold MAX_CPUS. split_cmp; lia. }
  unfold cpu_get_count, cpu_get_percpu, cpu_get_apic_id. rewrite Hc. unfold MAX_CPUS.
  split; [done|]. destruct (Z.leb_spec (core_count feat) idx).
  { split; [|done]. split; [intros [? [=]]|lia]. }
  assert (length (percpu_array s') = 256%nat) as Hl' by (unfold s'; cbn [percpu_array cpu_detect_all]; by rewrite length_aset).
  rewrite aget_lookup by lia. split; [split; [done|by eexists]|].
  intros p [= <-]. split; [done|]. unfold s', cpu_detect_all. cbn [percpu_array]. fold feat.
  destruct (Z.eqb_spec idx 0) as [->|].
  - by apply aget_aset_eq; lia.
  - by rewrite aget_aset_ne by lia.
Qed.

(** The number of CPUs is one more than the low byte of leaf 0x80000008, which is
    the width of a physical address. *)
Lemma cpu_count_is_address_width s :
  0x80000008 <= ra (cpuid 0x80000000 0) ->
  cpu_get_count (cpu_detect_all cpuid read_msr s) = ra (cpuid 0x80000008 0) mod 256 + 1.
Proof.
  intros H. unfold cpu_get_count, cpu_detect_all. cbn [cpu_count]. unfold cpu_detect_features. cbn [core_count].
  rewrite (proj2 (Z.leb_le _ _)) by lia. change 0xFF with (Z.ones 8). rewrite Z.land_ones by lia.
  change (2 ^ 8) with 256. unfold MAX_CPUS. split_cmp; lia.
Qed.

(** A processor without that leaf is reported to have no CPU at all. *)
Lemma cpu_count_zero s :
  ra (cpuid 0x80000000 0) < 0x80000008 ->
  cpu_get_count (cpu_detect_all cpuid read_msr s) = 0 /\
  cpu_get_apic_id 0 (cpu_detect_all cpuid read_msr s) = 0xFFFFFFFF.
Proof.
  intros H. assert (cpu_count (cpu_detect_all cpuid read_msr s) = 0) as E.
  { unfold cpu_detect_all. cbn [cpu_count]. unfold cpu_detect_features. cbn [core_count].
    by rewrite (proj2 (Z.leb_gt _ _)) by lia. }
  unfold cpu_get_count, cpu_get_apic_id. by rewrite E.
Qed.

(** SMAP is read from the bit that announces SSE4.2, and UMIP from the one that
    announces SVM in the same code. *)
Lemma smap_is_sse4_2 : smap feat = sse4_2 feat /\ umip feat = svm feat.
Proof. done. Qed.

End theorems.

(** A processor with 40 physical address bits and APIC identifier 5. *)
Definition cpuid0 (leaf sub : Z) : regs :=
  if leaf =? 0 then mk_regs 1 0 0 0
  else if leaf =? 1 then mk_regs 0 (5 * 2 ^ 24) 0 (2 ^ 25 + 2 ^ 26 + 1)
  else if leaf =? 0x80000000 then mk_regs 0x80000008 0 0 0
  else if leaf =? 0x80000008 then mk_regs 40 0 0 0
  else mk_regs 0 0 0 0.

Lemma cpu_detect_all_correct_witness :
  let s := mk_cpu (replicate 256 zero_percpu) 0 in
  let s' := cpu_detect_all cpuid0 (fun _ => 0) s in
  0 <= cpu_get_count s' <= MAX_CPUS /\ (is_Some (cpu_get_percpu 0 s') <-> 0 < cpu_get_count s').
Proof.
  destruct (cpu_detect_all_correct cpuid0 (fun _ => 0) (mk_cpu (replicate 256 zero_percpu) 0) 0)
    as (H1 & H2 & _); [reflexivity|lia|]. split; [exact H1|exact H2].
Defined.

End Cpu.
