(* ===== verification/Devfs.v ===== *)
(** * The /dev name table

    Models kernel/fs/devfs.c: nodes are created in the first free slot and looked
    up by name.  A name is a buffer of 32 bytes of which the last stays NUL. *)

From stdpp Require Import base numbers list option tactics.
From S2P Require Import Prelude.

Module Devfs.

Definition DEVFS_MAX_NODES : nat := 64.

Record devfs_node_t := mk_node {
  nname : list Z;     (* char[32] *)
  dev_id : Z;
  ntype : Z;
  in_use : Z;
}.

Definition zero_node : devfs_node_t := mk_node (replicate 32 0) 0 0 0.
#[export] Instance node_inhabited : Inhabited devfs_node_t := populate zero_node.

Record devfs := mk_devfs { nodes : list devfs_node_t; initialized : Z }.

(** [None] is a NULL name. *)
Definition devfs_mknod (name : option (list Z)) (dev type perms : Z) (s : devfs) : Z * devfs :=
  match name with
  | None => (-1, s)
  | Some nm =>
      if negb (truthy (initialized s)) then (-1, s) else
      match first_index (fun n => negb (truthy (in_use n))) (nodes s) with
      | None => (-1, s)
      | Some i =>
          let n := (nodes s) !!! i in
          (Z.of_nat i,
           mk_devfs (<[i := mk_node (strncpy (nname n) nm 31) (u32 dev) type 1]> (nodes s)) (initialized s))
      end
  end.

Definition str_null : list Z := [110; 117; 108; 108; 0].
Definition str_zero : list Z := [122; 101; 114; 111; 0].
Definition str_console : list Z := [99; 111; 110; 115; 111; 108; 101; 0].
Definition str_tty0 : list Z := [116; 116; 121; 48; 0].
Definition str_kmsg : list Z := [107; 109; 115; 103; 0].

Definition devfs_init (_ : devfs) : devfs :=
  let s := mk_devfs (replicate DEVFS_MAX_NODES zero_node) 1 in
  let s := (devfs_mknod (Some str_null) 1 3 0 s).2 in
  let s := (devfs_mknod (Some str_zero) 1 5 0 s).2 in
  let s := (devfs_mknod (Some str_console) 1 5 0 s).2 in
  let s := (devfs_mknod (Some str_tty0) 4 0 0 s).2 in
  (devfs_mknod (Some str_kmsg) 1 11 0 s).2.

Definition devfs_lookup (name : option (list Z)) (s : devfs) : Z :=
  match name with
  | None => -1
  | Some nm =>
      if negb (truthy (initialized s)) then -1 else
      match first_index (fun n => truthy (in_use n) && streq (nname n) nm) (nodes s) with
      | Some i => Z.of_nat i
      | None => -1
      end
  end.

Definition devfs_get_dev_id (node : Z) (s : devfs) : Z :=
  if (node <? 0) || (Z.of_nat DEVFS_MAX_NODES <=? node) || negb (truthy (in_use (nodes s).[node])) then -1
  else s32 (dev_id (nodes s).[node]).

(** The nodes [devfs_list] prints: name, number, and whether it says "char". *)
Definition devfs_list (s : devfs) : list (list Z * Z * bool) :=
  (fun n => (cstr (nname n), dev_id n, ntype n =? 0)) <$>
    filter (fun n => truthy (in_use n) = true) (nodes s).

(** ** Invariant *)

(** The nodes in use come first, every name buffer has 32 bytes and ends with a
    NUL, and no two nodes in use have the same name. *)
Record devfs_inv (s : devfs) : Prop := {
  di_len : length (nodes s) = DEVFS_MAX_NODES;
  di_init : truthy (initialized s) = true;
  di_names : Forall (fun n => length (nname n) = 32%nat /\ nname n !! 31%nat = Some 0) (nodes s);
  di_uniq : forall i j a b, nodes s !! i = Some a -> nodes s !! j = Some b ->
    truthy (in_use a) = true -> truthy (in_use b) = true -> cstr (nname a) = cstr (nname b) -> i = j;
}.

(** A lookup finds the one node of that name. *)
Lemma lookup_spec nm s i :
  devfs_inv s ->
  devfs_lookup (Some nm) s = Z.of_nat i <->
  exists n, nodes s !! i = Some n /\ truthy (in_use n) = true /\ cstr (nname n) = cstr nm.
Proof.
  intros Hs. unfold devfs_lookup. rewrite (di_init s Hs). cbn [negb].
  destruct (first_index _ (nodes s)) as [k|] eqn:E.
  - apply first_index_Some in E as [(n & Hn & Hb) _]. apply andb_prop in Hb as [Hu Hq].
    unfold streq in Hq. apply bool_decide_eq_true in Hq. split.
    + intros ->%Nat2Z.inj. by exists n.
    + intros (n' & Hn' & Hu' & Hq'). f_equal. eapply (di_uniq s Hs); [done|done|done|done|congruence].
  - rewrite first_index_None in E. split; [lia|].
    intros (n & Hn & Hu & Hq). rewrite List.Forall_forall in E.
    specialize (E n). rewrite <-list_elem_of_In in E. specialize (E (list_elem_of_lookup_2 _ _ _ Hn)).
    simpl in E. rewrite Hu in E. unfold streq in E. cbn [andb] in E.
    by apply bool_decide_eq_false in E.
Qed.

Lemma lookup_absent nm s : devfs_inv s ->
  devfs_lookup (Some nm) s = -1 <->
  forall i n, nodes s !! i = Some n -> truthy (in_use n) = true -> cstr (nname n) <> cstr nm.
Proof.
  intros Hs. split.
  - intros E i n Hn Hu Hq. assert (devfs_lookup (Some nm) s = Z.of_nat i); [|lia].
    apply lookup_spec; [done|]. by exists n.
  - intros H. unfold devfs_lookup. rewrite (di_init s Hs). cbn [negb].
    destruct (first_index _ (nodes s)) as [k|] eqn:E; [|done].
    apply first_index_Some in E as [(n & Hn & Hb) _]. apply andb_prop in Hb as [Hu Hq].
    unfold streq in Hq. apply bool_decide_eq_true in Hq. by destruct (H k n Hn Hu).
Qed.

(** Creating a node with a new name that fits. *)
Lemma mknod_spec nm dev type perms s i :
  devfs_inv s -> (length (cstr nm) <= 31)%nat -> devfs_lookup (Some nm) s = -1 ->
  first_index (fun n => negb (truthy (in_use n))) (nodes s) = Some i ->
  let '(r, s') := devfs_mknod (Some nm) dev type perms s in
  r = Z.of_nat i /\ devfs_inv s' /\
  (exists n, nodes s' = <[i := n]> (nodes s) /\ truthy (in_use n) = true /\ cstr (nname n) = cstr nm /\
     dev_id n = u32 dev) /\
  (i < 64)%nat /\ (forall n, nodes s !! i = Some n -> truthy (in_use n) = false).
Proof.
  intros Hs Hl Hab E. unfold devfs_mknod. rewrite (di_init s Hs), E. cbn [negb].
  pose proof (first_index_lt _ _ _ E) as Hlt. rewrite (di_len s Hs) in Hlt.
  apply first_index_Some in E as [(n & Hn & Hu) _]. apply negb_true_iff in Hu.
  rewrite (list_lookup_total_correct _ _ _ Hn).
  pose proof (di_names s Hs) as Hnm. rewrite List.Forall_forall in Hnm.
  assert (In n (nodes s)) as Hin by (apply list_elem_of_In; by eapply list_elem_of_lookup_2).
  destruct (Hnm n Hin) as [Hn32 Hnul].
  set (n' := mk_node (strncpy (nname n) nm 31) (u32 dev) type 1).
  assert (cstr (nname n') = cstr nm) as Hc by (by apply cstr_strncpy).
  split; [done|]. split; [|split; [by exists n'|split; [done|intros ? ?; congruence]]].
  constructor; cbn [nodes initialized].
  - rewrite length_insert. apply (di_len s Hs).
  - apply (di_init s Hs).
  - apply Forall_insert; [apply (di_names s Hs)|]. cbn [nname n']. split.
    + rewrite length_strncpy by lia. done.
    + unfold strncpy. rewrite lookup_app_r; rewrite length_take; [|lia].
      rewrite lookup_app_r; rewrite length_replicate; [|lia].
      rewrite lookup_drop. rewrite <-Hnul. f_equal. lia.
  - intros j k a b Ha Hb Hua Hub Hab'.
    destruct (decide (j = i)) as [->|Hji], (decide (k = i)) as [->|Hki]; [done|..].
    + rewrite list_lookup_insert_eq in Ha by (rewrite (di_len s Hs); done). injection Ha as <-.
      rewrite list_lookup_insert_ne in Hb by done. rewrite Hc in Hab'.
      by destruct (proj1 (lookup_absent nm s Hs) Hab k b Hb Hub).
    + rewrite list_lookup_insert_eq in Hb by (rewrite (di_len s Hs); done). injection Hb as <-.
      rewrite list_lookup_insert_ne in Ha by done. rewrite Hc in Hab'.
      by destruct (proj1 (lookup_absent nm s Hs) Hab j a Ha Hua).
    + rewrite list_lookup_insert_ne in Ha, Hb by done. by eapply (di_uniq s Hs).
Qed.

(** With a free slot, [devfs_mknod] of a new name of at most 31 characters
    keeps the table well-formed, and afterwards [devfs_lookup] of that name gives
    the node it returned, with its device number, while every other name is
    looked up as before. *)
Theorem devfs_mknod_lookup nm dev type perms s :
  devfs_inv s -> (length (cstr nm) <= 31)%nat -> 0 <= dev < 2 ^ 31 ->
  devfs_lookup (Some nm) s = -1 ->
  Exists (fun n => truthy (in_use n) = false) (nodes s) ->
  let '(r, s') := devfs_mknod (Some nm) dev type perms s in
  devfs_inv s' /\ 0 <= r < 64 /\ devfs_lookup (Some nm) s' = r /\ devfs_get_dev_id r s' = dev /\
  (forall other, cstr other <> cstr nm -> devfs_lookup (Some other) s' = devfs_lookup (Some other) s).
Proof.
  intros Hs Hl Hd Hab Hex.
  destruct (first_index (fun n => negb (truthy (in_use n))) (nodes s)) as [i|] eqn:E.
  2: { rewrite first_index_None in E. apply List.Exists_exists in Hex as (n & Hin & Hn).
       rewrite List.Forall_forall in E. specialize (E n Hin). simpl in E. by rewrite Hn in E. }
  pose proof (mknod_spec nm dev type perms s i Hs Hl Hab E) as H.
  destruct (devfs_mknod (Some nm) dev type perms s) as [r s'].
  destruct H as (-> & Hs' & (n & Hn & Hu & Hc & Hid) & Hi & Hfree).
  assert (nodes s' !! i = Some n) as Hni.
  { rewrite Hn. apply list_lookup_insert_eq. by rewrite (di_len s Hs). }
  split; [done|]. split; [lia|]. split; [apply lookup_spec; [done|by exists n]|]. split.
  - unfold devfs_get_dev_id, DEVFS_MAX_NODES. rewrite aget_nat, (list_lookup_total_correct _ _ _ Hni), Hu, Hid.
    rewrite (proj2 (Z.ltb_ge _ _)), (proj2 (Z.leb_gt _ _)) by lia. cbn [orb negb].
    rewrite wrap_small by lia. apply swrap_small; simpl; lia.
  - intros other Hne.
    assert (forall j, devfs_lookup (Some other) s' = Z.of_nat j <-> devfs_lookup (Some other) s = Z.of_nat j) as Hiff.
    { intros j. rewrite !lookup_spec by done. rewrite Hn. split; intros (x & Hx & Hux & Hqx); exists x.
      - destruct (decide (j = i)) as [->|].
        + rewrite list_lookup_insert_eq in Hx by (by rewrite (di_len s Hs)). injection Hx as <-. congruence.
        + by rewrite list_lookup_insert_ne in Hx by done.
      - destruct (decide (j = i)) as [->|].
        + rewrite (Hfree x Hx) in Hux. done.
        + by rewrite list_lookup_insert_ne by done. }
    assert (forall t, devfs_lookup (Some other) t = -1 \/ exists j, devfs_lookup (Some other) t = Z.of_nat j) as Hcase.
    { intros t. unfold devfs_lookup. case_match; [by left|]. case_match; [right; by eexists|by left]. }
    destruct (Hcase s) as [H1|[j H1]], (Hcase s') as [H2|[k H2]]; rewrite ?H1, ?H2; [done| | |].
    + apply Hiff in H2. lia.
    + apply Hiff in H1. lia.
    + apply Hiff in H2. lia.
Qed.

Definition empty_devfs : devfs := mk_devfs (replicate 64 zero_node) 1.

Lemma empty_devfs_inv : devfs_inv empty_devfs.
Proof.
  constructor; [done|done|..].
  - unfold empty_devfs. cbn [nodes]. apply List.Forall_forall. intros n Hn%list_elem_of_In.
    by apply elem_of_replicate in Hn as [-> _].
  - intros i j a b Ha Hb Hu. apply list_elem_of_lookup_2 in Ha.
    unfold empty_devfs in Ha. cbn [nodes] in Ha. apply elem_of_replicate in Ha as [-> _]. done.
Qed.

(** The standard names are there after [devfs_init], in this order. *)
Lemma devfs_init_names s :
  let s' := devfs_init s in
  devfs_lookup (Some str_null) s' = 0 /\ devfs_lookup (Some str_zero) s' = 1 /\
  devfs_lookup (Some str_console) s' = 2 /\ devfs_lookup (Some str_tty0) s' = 3 /\
  devfs_lookup (Some str_kmsg) s' = 4.
Proof. vm_compute. done. Qed.

(** The calls pass a major and a minor number where the parameters are the device
    number and the type: four of the five nodes get device number 1, and none
    but the terminal's is listed as a character device. *)
Lemma devfs_ids_collide s :
  let s' := devfs_init s in
  devfs_get_dev_id 0 s' = 1 /\ devfs_get_dev_id 1 s' = 1 /\ devfs_get_dev_id 2 s' = 1 /\
  devfs_get_dev_id 4 s' = 1 /\ ((fun e => e.2) <$> devfs_list s') = [false; false; false; true; false].
Proof. vm_compute. done. Qed.

Lemma devfs_mknod_lookup_witness :
  let '(r, s') := devfs_mknod (Some [102; 98; 48; 0]) 29 0 0 empty_devfs in
  devfs_inv s' /\ 0 <= r < 64 /\ devfs_lookup (Some [102; 98; 48; 0]) s' = r /\ devfs_get_dev_id r s' = 29.
Proof.
  pose proof (devfs_mknod_lookup [102; 98; 48; 0] 29 0 0 empty_devfs empty_devfs_inv) as H.
  destruct (devfs_mknod (Some [102; 98; 48; 0]) 29 0 0 empty_devfs) as [r s'].
  destruct H as (H1 & H2 & H3 & H4 & _); [simpl; lia|lia|reflexivity|by constructor|done].
Defined.

End Devfs.
