(* ===== verification/Procfs.v ===== *)
(** * The /proc entries

    Models kernel/fs/procfs.c: the table of entries with their read functions and
    the text each of them produces. *)

From stdpp Require Import base numbers list option tactics strings.
From S2P Require Import Prelude Text ProcTable.
Import Text Proc.
Open Scope Z_scope.

Module Procfs.

Definition PROCFS_MAX_ENTRIES : Z := 32.

(** ** Read functions *)

(** What the functions read from the rest of the kernel. *)
Record sources := mk_sources {
  total_memory : Z;          (* pmm_get_total_memory() *)
  free_pages : Z;            (* pmm_get_free_count() *)
  ticks : Z;                 (* _ticks of kernel_main.c *)
  battery_soc : Z;
  battery_voltage : Z;
  charger_status : Z;
}.

Definition kernel_get_uptime_ms (src : sources) : Z := u64 (ticks src * 10).

Definition proc_read_cpuinfo (size : Z) : Z * list Z :=
  let tab := [9] in
  snprintf size (
    chars "processor" ++ tab ++ line ": 0" ++
    chars "model name" ++ tab ++ line ": OmniOS ARM64 Mobile" ++
    chars "BogoMIPS" ++ tab ++ line ": 100.00" ++
    chars "Features" ++ tab ++ line ": fp asimd evtstrm aes pmull sha1 sha2 crc32" ++
    chars "CPU implementer" ++ tab ++ line ": 0x51" ++
    line "CPU architecture: 8" ++
    chars "CPU variant" ++ tab ++ line ": 0x0" ++
    chars "CPU part" ++ tab ++ line ": 0x003" ++
    chars "CPU revision" ++ tab ++ line ": 0").

Definition proc_read_meminfo (src : sources) (size : Z) : Z * list Z :=
  let total_kb := total_memory src / 1024 in
  let free_kb := u64 (free_pages src * 4) in
  snprintf size (
    chars "MemTotal:      " ++ pad 32 8 (dec total_kb) ++ line " kB" ++
    chars "MemFree:       " ++ pad 32 8 (dec free_kb) ++ line " kB" ++
    chars "MemAvailable:  " ++ pad 32 8 (dec free_kb) ++ line " kB").

Definition uptime_text (ms : Z) : list Z :=
  dec (ms / 1000) ++ [46] ++ pad 48 2 (dec (u32 (ms mod 1000) / 10)) ++ [10].

Definition proc_read_uptime (src : sources) (size : Z) : Z * list Z :=
  snprintf size (uptime_text (kernel_get_uptime_ms src)).

Definition proc_read_version (size : Z) : Z * list Z :=
  snprintf size (line "OmniOS version 1.0 (ARM64 Mobile)" ++ line "#1 SMP Tue Jun 30 2026").

Definition proc_read_battery (a : arch) (src : sources) (size : Z) : Z * list Z :=
  match a with
  | aarch64 =>
      snprintf size (
        chars "capacity: " ++ dec_signed (battery_soc src) ++ [10] ++
        chars "voltage: " ++ dec_signed (battery_voltage src) ++ [10] ++
        chars "status: " ++ line (if truthy (charger_status src) then "Charging" else "Discharging"))
  | x86_64 => snprintf size (line "capacity: 0")
  end.

(** A read function pointer of the table. *)
Inductive read_fn := ReadCpuinfo | ReadMeminfo | ReadUptime | ReadVersion | ReadBattery | ReadNull.

Definition call_read (a : arch) (src : sources) (f : read_fn) (size : Z) : Z * list Z :=
  match f with
  | ReadCpuinfo => proc_read_cpuinfo size
  | ReadMeminfo => proc_read_meminfo src size
  | ReadUptime => proc_read_uptime src size
  | ReadVersion => proc_read_version size
  | ReadBattery => proc_read_battery a src size
  | ReadNull => (0, [])
  end.

(** ** The table *)

Record procfs_entry_t := mk_entry { ename : list Z; read : read_fn }.
#[export] Instance entry_inhabited : Inhabited procfs_entry_t := populate (mk_entry (replicate 32 0) ReadNull).

Record procfs := mk_procfs {
  entries : list procfs_entry_t;   (* 32 *)
  count : Z;
  initialized : Z;
}.

Definition procfs_add (name : list Z) (f : read_fn) (s : procfs) : Z * procfs :=
  if negb (truthy (initialized s)) || (PROCFS_MAX_ENTRIES <=? count s) then (-1, s) else
  let nm := (strncpy (ename (entries s).[count s]) name 31).[31 <- 0] in
  (0, mk_procfs ((entries s).[count s <- mk_entry nm f]) (count s + 1) (initialized s)).

Definition cstring (s : string) : list Z := chars s ++ [0].

Definition procfs_init (_ : procfs) : procfs :=
  let s := mk_procfs (replicate (Z.to_nat PROCFS_MAX_ENTRIES) inhabitant) 0 1 in
  let s := (procfs_add (cstring "cpuinfo") ReadCpuinfo s).2 in
  let s := (procfs_add (cstring "meminfo") ReadMeminfo s).2 in
  let s := (procfs_add (cstring "uptime") ReadUptime s).2 in
  let s := (procfs_add (cstring "version") ReadVersion s).2 in
  (procfs_add (cstring "battery") ReadBattery s).2.

(** The loop over the [count] entries in use. *)
Definition procfs_read (a : arch) (src : sources) (name : list Z) (size : Z) (s : procfs) : Z * list Z :=
  match first_index (fun e => streq (ename e) name) (take (Z.to_nat (count s)) (entries s)) with
  | Some i => call_read a src (read (entries s !!! i)) size
  | None => (-1, [])
  end.

Definition procfs_list (s : procfs) : list (list Z) :=
  (fun e => cstr (ename e)) <$> take (Z.to_nat (count s)) (entries s).

(** Reading "uptime" after [procfs_init] gives the decimal seconds, a dot
    and two digits for the hundredths of the time since boot: the numbers before
    and after the dot read back as the seconds and hundredths of
    [kernel_get_uptime_ms].  A short buffer gets the start of that text and a
    NUL, and the value returned is the length of the whole text. *)
Theorem procfs_uptime_correct a src size s :
  0 < size ->
  let ms := kernel_get_uptime_ms src in
  exists secs c1 c2,
    let text := secs ++ [46; c1; c2; 10] in
    procfs_read a src (cstring "uptime") size (procfs_init s) =
      (Z.of_nat (length text), take (Z.to_nat (size - 1)) text ++ [0]) /\
    Forall digit secs /\ digit c1 /\ digit c2 /\
    value_of secs = ms / 1000 /\ value_of [c1; c2] = (ms mod 1000) / 10.
Proof.
  intros Hs ms.
  assert (0 <= ms < 2 ^ 64) as Hms by (apply wrap_range; lia).
  destruct (dec_value (ms / 1000)) as [Hd Hv].
  { split; [apply Z.div_pos; lia|]. apply Z.div_lt_upper_bound; lia. }
  destruct (pad_two (u32 (ms mod 1000) / 10)) as (c1 & c2 & Ep & Hc1 & Hc2 & Hv2);
    [rewrite wrap_small; lia|].
  exists (dec (ms / 1000)), c1, c2. cbv zeta.
  assert (procfs_read a src (cstring "uptime") size (procfs_init s) = proc_read_uptime src size) as -> by done.
  unfold proc_read_uptime, uptime_text. fold ms. rewrite Ep. unfold snprintf.
  rewrite (proj2 (Z.eqb_neq size 0)) by lia. split; [done|]. rewrite wrap_small in Hv2 by lia. done.
Qed.

(** The entries after [procfs_init]; a name that is not among them gives -1. *)
Lemma procfs_init_list s :
  procfs_list (procfs_init s) = chars <$> ["cpuinfo"; "meminfo"; "uptime"; "version"; "battery"]%string /\
  forall a src size, (procfs_read a src (cstring "loadavg") size (procfs_init s)).1 = -1.
Proof. split; [reflexivity|]. done. Qed.

(** When the table is full nothing is added. *)
Lemma procfs_add_full name f s : count s = 32 -> procfs_add name f s = (-1, s).
Proof. intros E. unfold procfs_add. rewrite E. simpl. by rewrite orb_true_r. Qed.

Lemma procfs_uptime_correct_witness :
  exists secs c1 c2,
    let text := secs ++ [46; c1; c2; 10] in
    procfs_read x86_64 (mk_sources 0 0 12345 0 0 0) (cstring "uptime") 64
      (procfs_init (mk_procfs [] 0 0)) =
      (Z.of_nat (length text), take (Z.to_nat (64 - 1)) text ++ [0]) /\
    Forall digit secs /\ digit c1 /\ digit c2 /\
    value_of secs = kernel_get_uptime_ms (mk_sources 0 0 12345 0 0 0) / 1000 /\
    value_of [c1; c2] = (kernel_get_uptime_ms (mk_sources 0 0 12345 0 0 0) mod 1000) / 10.
Proof.
  apply (procfs_uptime_correct x86_64 (mk_sources 0 0 12345 0 0 0) 64 (mk_procfs [] 0 0)). lia.
Defined.

End Procfs.
