(* ===== verification/Usb.v ===== *)
(** * USB

    Models kernel/bsp/sm8250/drivers/usb_gadget.c (debug bridge and media
    transfer over the gadget controller) and usb_otg.c (port role and charging
    current).  The FIFO of the controller is a map from addresses to bytes. *)

From stdpp Require Import base numbers list option tactics gmap strings.
From S2P Require Import Prelude Bytes Text Mmio.
Import Text.
Open Scope Z_scope.

Module Usb.

Definition SM8250_USB3_BASE : Z := 0x0A6F8800.
Definition USB_GADGET_BASE : Z := SM8250_USB3_BASE + 0x10000.
Definition GADGET_CTRL : Z := 0x000.
Definition GADGET_STATUS : Z := 0x004.
Definition GADGET_EP_BASE : Z := 0x100.
Definition GADGET_FIFO_BASE : Z := 0x1000.
Definition ADB_BUFFER_SIZE : Z := 4096.
Definition MTP_BUFFER_SIZE : Z := 65536.

Definition DWC3_BASE : Z := 0x0A600000.
Definition DWC3_GCTL : Z := 0x0C110.
Definition DWC3_GSTS : Z := 0x0C118.

(** The parts of the FIFO that the four transfers use. *)
Definition adb_out : Z := USB_GADGET_BASE + GADGET_FIFO_BASE.
Definition adb_in : Z := USB_GADGET_BASE + GADGET_FIFO_BASE + 0x1000.
Definition mtp_fifo : Z := USB_GADGET_BASE + GADGET_FIFO_BASE + 0x2000.

Section usb.
Context {D : Type} `{!MmioDevice D}.

Definition usb_gadget_init : io D Z :=
  write_reg USB_GADGET_BASE GADGET_CTRL 0x02;;
  wait_clear USB_GADGET_BASE GADGET_STATUS 0x02 (Z.to_nat 100000);;
  write_reg USB_GADGET_BASE (GADGET_EP_BASE + 0x00) 0x80;;
  write_reg USB_GADGET_BASE (GADGET_EP_BASE + 0x04) 0x02;;
  write_reg USB_GADGET_BASE (GADGET_EP_BASE + 0x08) 0x82;;
  write_reg USB_GADGET_BASE GADGET_CTRL 0x01;;
  mret 0.

Definition usb_gadget_connected : io D Z :=
  v ← read_reg USB_GADGET_BASE GADGET_STATUS; mret (Z.land v 0x01).

(** ** Debug bridge *)

Definition adb_send (data : list Z) (len : Z) (fifo : Z -> Z) : io D (Z * (Z -> Z)) :=
  let len := if ADB_BUFFER_SIZE <? len then ADB_BUFFER_SIZE else len in
  let fifo := mem_store fifo adb_out (take (Z.to_nat len) data) in
  copy_mem adb_out len;;
  write_reg USB_GADGET_BASE (GADGET_EP_BASE + 0x08) (Z.lor len 0x80000000);;
  mret (s32 len, fifo).

(** The result and the bytes stored in [buf]. *)
Definition adb_recv (maxlen : Z) (fifo : Z -> Z) : io D (Z * list Z) :=
  avail ← read_reg USB_GADGET_BASE (GADGET_EP_BASE + 0x04);
  if avail =? 0 then mret (0, []) else
  let avail := if maxlen <? avail then maxlen else avail in
  copy_mem adb_in avail;;
  mret (s32 avail, mem_load fifo adb_in avail).

(** ** Media transfer *)

Definition mtp_send_object (data : list Z) (size : Z) (fifo : Z -> Z) : io D (Z * (Z -> Z)) :=
  if MTP_BUFFER_SIZE <? size then mret (-1, fifo) else
  copy_mem mtp_fifo size;;
  mret (s32 size, mem_store fifo mtp_fifo (take (Z.to_nat size) data)).

(** The result, the bytes stored in [buf] and those stored in [name]. *)
Definition mtp_recv_object (namelen maxlen : Z) (fifo : Z -> Z) : io D (Z * list Z * list Z) :=
  avail ← read_reg USB_GADGET_BASE (GADGET_EP_BASE + 0x04);
  if avail =? 0 then mret (0, [], []) else
  let avail := if maxlen <? avail then maxlen else avail in
  copy_mem mtp_fifo avail;;
  mret (s32 avail, mem_load fifo mtp_fifo avail, (snprintf namelen (chars "mtp_object_" ++ dec avail)).2).

(** ** usb_otg.c *)

Definition usb_otg_init : io D Z :=
  write_reg DWC3_BASE DWC3_GCTL 0x02;;
  wait_clear DWC3_BASE DWC3_GSTS 2 1000;;
  write_reg DWC3_BASE DWC3_GCTL 0x01;;
  mret 0.

Definition usb_otg_mode_host : io D Z := write_reg DWC3_BASE DWC3_GCTL 0x03;; mret 0.
Definition usb_otg_mode_device : io D Z := write_reg DWC3_BASE DWC3_GCTL 0x01;; mret 0.

Definition usb_otg_charging_current : io D Z :=
  sts ← read_reg DWC3_BASE DWC3_GSTS;
  mret (if truthy (Z.land sts 0x100) then 3000 else if truthy (Z.land sts 0x080) then 1500 else 500).

(** ** Theorems *)

(** The start-up resets the controller, waits, describes the three endpoints and
    only then enables it, whatever the controller answers. *)
Lemma usb_gadget_init_writes :
  emits usb_gadget_init
    [(USB_GADGET_BASE + GADGET_CTRL, 2); (USB_GADGET_BASE + (GADGET_EP_BASE + 0), 0x80);
     (USB_GADGET_BASE + (GADGET_EP_BASE + 4), 2); (USB_GADGET_BASE + (GADGET_EP_BASE + 8), 0x82);
     (USB_GADGET_BASE + GADGET_CTRL, 1)].
Proof.
  evar (l : list (Z * Z)). assert (emits usb_gadget_init l) as H by (unfold l, usb_gadget_init; emits_run).
  exact H.
Qed.

(** Sending over the debug bridge puts the bytes, cut at 4 KB, into the
    outgoing part of the FIFO and their number with the start bit into the
    endpoint register; the incoming part and the media part are untouched. *)
Theorem adb_send_delivers (data : list Z) (len : Z) (fifo : Z -> Z) (b : bus D)
    (Hlen : 0 <= len < 2 ^ 31) (Hdata : len <= Z.of_nat (length data)) :
  let n := Z.min len ADB_BUFFER_SIZE in
  let '((r, fifo'), b') := adb_send data len fifo b in
  r = n /\ mem_load fifo' adb_out n = take (Z.to_nat n) data /\
  (forall a, a < adb_out \/ adb_in <= a -> fifo' a = fifo a) /\
  new_writes (adb_send data len fifo) b = [(USB_GADGET_BASE + (GADGET_EP_BASE + 8), 2 ^ 31 + n)].
Proof.
  intros n. assert ((if ADB_BUFFER_SIZE <? len then ADB_BUFFER_SIZE else len) = n) as En
    by (unfold n; destruct (Z.ltb_spec ADB_BUFFER_SIZE len); lia).
  assert (0 <= n <= 4096) as Hn by (unfold n, ADB_BUFFER_SIZE; lia).
  assert (length (take (Z.to_nat n) data) = Z.to_nat n) as Hl by (rewrite length_take; lia).
  pose proof (emits_new_writes (adb_send data len fifo) [(USB_GADGET_BASE + (GADGET_EP_BASE + 8), 2 ^ 31 + n)] b) as Hw.
  unfold adb_send in *. rewrite En in *. io_run. cbn [fst snd]. split_and!.
  - apply swrap_small; lia.
  - replace n with (Z.of_nat (length (take (Z.to_nat n) data))) at 2 by lia. apply mem_load_store.
  - intros a Ha. unfold mem_store. rewrite Hl. unfold adb_in, adb_out in *.
    destruct (Z.leb_spec (USB_GADGET_BASE + GADGET_FIFO_BASE) a),
      (Z.ltb_spec a (USB_GADGET_BASE + GADGET_FIFO_BASE + Z.of_nat (Z.to_nat n))); simpl; done || lia.
  - apply Hw. apply (emits_bind _ _ []); [apply emits_copy|intros ?].
    eapply (emits_bind _ _ [_] []); [|intros ?; apply emits_ret].
    replace (2 ^ 31 + n) with (u32 (Z.lor n 0x80000000)); [apply emits_write|].
    rewrite Z.lor_comm. change 0x80000000 with (1 * 2 ^ 31). rewrite lor_low by lia. rewrite wrap_small; lia.
Qed.

(** An object sent by media transfer and reported back by the controller is
    received unchanged, under the name that carries its size; a larger object
    than the buffer is refused and nothing is sent. *)
Theorem mtp_round_trip (data : list Z) (size namelen maxlen : Z) (fifo : Z -> Z) (b0 b : bus D) v d :
  0 < size < 2 ^ 31 -> size <= Z.of_nat (length data) -> size <= maxlen ->
  dev_read (USB_GADGET_BASE + (GADGET_EP_BASE + 4)) (bus_dev b) = (v, d) -> u32 v = size ->
  let '(r, fifo') := (mtp_send_object data size fifo b0).1 in
  if MTP_BUFFER_SIZE <? size then r = -1 /\ fifo' = fifo else
  r = size /\
  (mtp_recv_object namelen maxlen fifo' b).1 =
    (size, take (Z.to_nat size) data, (snprintf namelen (chars "mtp_object_" ++ dec size)).2).
Proof.
  intros Hs Hd Hm Er Ev. unfold mtp_send_object. destruct (MTP_BUFFER_SIZE <? size); [done|].
  assert (s32 size = size) as Hsz by (apply swrap_small; lia).
  unfold copy_mem. io_run. cbn [fst snd].
  split; [done|]. unfold mtp_recv_object, read_reg, copy_mem. io_run. rewrite Er. cbn [fst snd].
  rewrite Ev, (proj2 (Z.eqb_neq size 0)) by lia. cbn [fst].
  rewrite (proj2 (Z.ltb_ge maxlen size)) by lia. rewrite Hsz. do 2 f_equal.
  replace size with (Z.of_nat (length (take (Z.to_nat size) data))) at 2 by (rewrite length_take; lia).
  apply mem_load_store.
Qed.

(** The current never exceeds what the negotiated mode allows. *)
Lemma charging_current_levels (b : bus D) :
  (usb_otg_charging_current b).1 ∈ [3000; 1500; 500].
Proof.
  unfold usb_otg_charging_current, read_reg. io_run. destruct (dev_read _ _) as [v d]. cbn [fst].
  repeat case_match; simplify_eq/=; repeat constructor.
Qed.
End usb.

(** ** Witnesses *)

Lemma adb_send_delivers_witness :
  let '((r, fifo'), _) := adb_send (D := gmap Z Z) [1; 2; 3] 3 (fun _ => 0) (mk_bus ∅ []) in
  r = 3 /\ mem_load fifo' adb_out 3 = [1; 2; 3].
Proof.
  destruct (adb_send_delivers (D := gmap Z Z) [1; 2; 3] 3 (fun _ => 0) (mk_bus ∅ [])) as (H1 & H2 & _);
    [lia|simpl; lia|]. split; [exact H1|exact H2].
Defined.

Lemma mtp_round_trip_witness :
  (mtp_recv_object (D := gmap Z Z) 64 100 (mtp_send_object (D := gmap Z Z) [7; 8; 9] 3 (fun _ => 0) (mk_bus ∅ [])).1.2
    (mk_bus {[USB_GADGET_BASE + (GADGET_EP_BASE + 4) := 3]} [])).1.1 = (3, [7; 8; 9]).
Proof.
  destruct (mtp_round_trip (D := gmap Z Z) [7; 8; 9] 3 64 100 (fun _ => 0) (mk_bus ∅ [])
    (mk_bus {[USB_GADGET_BASE + (GADGET_EP_BASE + 4) := 3]} []) 3 {[USB_GADGET_BASE + (GADGET_EP_BASE + 4) := 3]})
    as (_ & H); [lia|simpl; lia|lia|reflexivity|reflexivity|]. exact (f_equal fst H).
Defined.

End Usb.
