(* ===== verification/SocMap.v ===== *)
(** * The register map of the SM8250 and the isolation of its drivers

    Models the memory map and the register lists of
    kernel/bsp/sm8250/sm8250.h, with the windows that the drivers add to it in
    their own files, and every operation of the drivers that reaches a device.

    The windows are shown to be disjoint, and every operation of a driver is shown
    to reach only bytes in the windows of that driver, registers and transfers
    alike, whatever the devices answer, when its transfers are no longer than the
    windows; the operations that do not check this themselves are pointed out. *)

From stdpp Require Import base numbers list option tactics gmap.
From S2P Require Import Prelude Mmio Board Power Display Ufs Fingerprint Audio Radio Sensors Usb Rtc Input.

Module SocMap.

(** ** The map of sm8250.h *)

Inductive soc_block :=
| UART | PMIC | TLMM | QUPV3 | UFS | USB3 | MSS | ADSP | DISPLAY | GPU | CAMERA | SENSOR.

Definition soc_base (b : soc_block) : Z :=
  match b with
  | UART => 0x0A84000
  | PMIC => 0x0AF0000
  | TLMM => 0x0F00000
  | QUPV3 => 0x0C00000
  | UFS => 0x01D84000
  | USB3 => 0x0A6F8800
  | MSS => 0x04080000
  | ADSP => 0x03000000
  | DISPLAY => 0x0AE00000
  | GPU => 0x03D00000
  | CAMERA => 0x0ACB0000
  | SENSOR => 0x0C2F0000
  end.

(** The registers the header names, by block. *)
Definition pm8150_registers : list Z :=
  [0x0000; 0x4100; 0x4108; 0x4500; 0x4508; 0x4700; 0x4708; 0x4710; 0x4718; 0x4900].

Definition mdss_mdp_layer (n : Z) : Z := 0x01100 + n * 0x100.
Definition mdss_registers : list Z :=
  [0x00000; 0x00100; 0x10000; 0x10080; 0x12000; 0x20000; 0x01000].

Definition mss_registers : list Z := [0x00000; 0x00004; 0x01000].

Definition slpi_registers : list Z :=
  [0x00000; 0x00008; 0x00100; 0x00108; 0x00110; 0x00118; 0x00120; 0x00128].

Definition soc_registers (b : soc_block) : list Z :=
  match b with
  | PMIC => pm8150_registers
  | DISPLAY => mdss_registers
  | MSS => mss_registers
  | SENSOR => slpi_registers
  | _ => []
  end.

(** ** Windows *)

Inductive window :=
| W_PMIC | W_RTC | W_LPM | W_BT | W_NFC | W_THERMAL | W_CPUFREQ
| W_NFC_GPIO | W_FP_GPIO | W_TOUCH_GPIO | W_WIFI | W_UFS | W_ADSP | W_MSS
| W_DWC3 | W_USB | W_DISPLAY | W_SENSOR | W_FB.

#[export] Instance window_eq_dec : EqDecision window.
Proof. solve_decision. Defined.

(** Start and size; the windows of the storage, the audio processor, the modem and
    the gadget include the memory they transfer through, and the framebuffer is
    one. *)
Definition extent (w : window) : Z * Z :=
  match w with
  | W_PMIC => (soc_base PMIC, 0x6000)
  | W_RTC => (soc_base PMIC + 0x6000, 0x18)
  | W_LPM => (0x0B00000, 0x14)
  | W_BT => (soc_base QUPV3 + 0x10000, 0x3C)
  | W_NFC => (soc_base QUPV3 + 0x20000, 0xC)
  | W_THERMAL => (0x0D00000, 0x104)
  | W_CPUFREQ => (0x0E00000, 0x104)
  | W_NFC_GPIO => (soc_base TLMM + 12 * 4, 4)
  | W_FP_GPIO => (soc_base TLMM + 18 * 4, 8)
  | W_TOUCH_GPIO => (soc_base TLMM + 96 * 4, 8)
  | W_WIFI => (0x01D00000, 8)
  | W_UFS => (soc_base UFS, 0x10000 + 0x100000)
  | W_ADSP => (soc_base ADSP, 0x1000 + 0x1000)
  | W_MSS => (soc_base MSS, 0x1000 + 0x200000)
  | W_DWC3 => (0x0A600000, 0xC11C)
  | W_USB => (soc_base USB3 + 0x10000, 0x1000 + 0x2000 + 65536)
  | W_DISPLAY => (soc_base DISPLAY, 0x20004)
  | W_SENSOR => (soc_base SENSOR, 0x12C)
  | W_FB => (Display.FB_ADDR, Display.FB_SIZE)
  end.

Definition w_start (w : window) : Z := (extent w).1.
Definition w_end (w : window) : Z := (extent w).1 + (extent w).2.

(** The [n] bytes from [a] lie in a window, and in one of several. *)
Definition inside (w : window) (a n : Z) : bool := (w_start w <=? a) && (a + n <=? w_end w).
Definition covered (ws : list window) (a n : Z) : bool := existsb (fun w => inside w a n) ws.

Definition all_windows : list window :=
  [W_PMIC; W_RTC; W_LPM; W_BT; W_NFC; W_THERMAL; W_CPUFREQ; W_NFC_GPIO; W_FP_GPIO; W_TOUCH_GPIO; W_WIFI; W_UFS; W_ADSP;
   W_MSS; W_DWC3; W_USB; W_DISPLAY; W_SENSOR; W_FB].

(** ** Drivers *)

Inductive driver :=
| Pmic | Panel | Touch | Modem | SensorHub | PowerMgmt | FrameBuffer | Storage | FingerprintReader | Sound | Wifi | Bluetooth
| Nfc | UsbGadget | UsbOtg | Clock | Buttons.

(** The power manager also switches the panel and the charger, and the panel's
    brightness is a register of the power chip. *)
Definition owned (d : driver) : list window :=
  match d with
  | Pmic => [W_PMIC]
  | Panel => [W_DISPLAY; W_PMIC]
  | Touch => [W_TOUCH_GPIO]
  | Modem => [W_MSS]
  | SensorHub => [W_SENSOR]
  | PowerMgmt => [W_LPM; W_CPUFREQ; W_THERMAL; W_DISPLAY; W_PMIC]
  | FrameBuffer => [W_DISPLAY; W_FB]
  | Storage => [W_UFS]
  | FingerprintReader => [W_FP_GPIO]
  | Sound => [W_ADSP]
  | Wifi => [W_WIFI]
  | Bluetooth => [W_BT]
  | Nfc => [W_NFC; W_NFC_GPIO]
  | UsbGadget => [W_USB]
  | UsbOtg => [W_DWC3]
  | Clock => [W_RTC]
  | Buttons => [W_PMIC]
  end.

(** Every operation that reaches a device, with its arguments and the state of its
    driver; what a drawing stores in the framebuffer is part of the state. *)
Inductive op : driver -> Type :=
| Pm8150Init : op Pmic | ChargerStatus : op Pmic | BatterySoc : op Pmic | BatteryVoltage : op Pmic | BatteryTemp : op Pmic
| ChargerEnable (on : bool) : op Pmic | BoardReboot : op Pmic
| MdssInit : op Panel | PanelOn : op Panel | PanelOff : op Panel | SetBrightness (level : Z) : op Panel | BoardPoweroff : op Panel
| TouchInit : op Touch | TouchOn : op Touch | TouchOff : op Touch
| LoadFirmware (fw : list Z) (size : Z) : op Modem | MssInit : op Modem | MssStart : op Modem | RilInit (s : Radio.radio_state) : op Modem
| SlpiInit : op SensorHub | SensorsInit (done : Z) : op SensorHub | ReadAccel (done : Z) : op SensorHub
| ReadGyro (done : Z) : op SensorHub | ReadLight (done : Z) : op SensorHub | ReadProximity (done : Z) : op SensorHub
| IsCovered (done : Z) : op SensorHub | Orientation (done : Z) : op SensorHub
| PowerInit : op PowerMgmt | Suspend (s : bool) : op PowerMgmt | Resume (s : bool) : op PowerMgmt
| SetCpufreq (khz : Z) : op PowerMgmt | GetTemp : op PowerMgmt | CoolDown : op PowerMgmt
| FbInit (s : Display.fb_state) : op FrameBuffer | FbFlush : op FrameBuffer | Animation (s : Display.fb_state) : op FrameBuffer
| UfsInit (s : Ufs.ufs_state) : op Storage | UfsRead (lba count : Z) (s : Ufs.ufs_state) : op Storage
| UfsWrite (lba : Z) (buf : list Z) (count : Z) (s : Ufs.ufs_state) : op Storage
| FpInit (s : Fingerprint.fp_state) : op FingerprintReader
| AudioInit (s : Audio.audio_state) : op Sound | AudioPlay (pcm : list Z) (frames : Z) (s : Audio.audio_state) : op Sound
| AudioRecord (max : Z) (s : Audio.audio_state) : op Sound | SetVolume (percent : Z) (s : Audio.audio_state) : op Sound
| SetMicMute (mute : Z) (s : Audio.audio_state) : op Sound | PlayTone (f ms : Z) (s : Audio.audio_state) : op Sound
| WifiInit (s : Radio.radio_state) : op Wifi
| BtInit (s : Radio.radio_state) : op Bluetooth | GpsInit (s : Radio.radio_state) : op Bluetooth
| NfcInit (s : Radio.radio_state) : op Nfc | NfcDiscover (s : Radio.radio_state) : op Nfc
| NfcRead (max : Z) (s : Radio.radio_state) : op Nfc | NfcWrite (data len : Z) (s : Radio.radio_state) : op Nfc
| GadgetInit : op UsbGadget | GadgetConnected : op UsbGadget | AdbSend (data : list Z) (len : Z) (fifo : Z -> Z) : op UsbGadget
| AdbRecv (max : Z) (fifo : Z -> Z) : op UsbGadget | MtpSend (data : list Z) (size : Z) (fifo : Z -> Z) : op UsbGadget
| MtpRecv (namelen max : Z) (fifo : Z -> Z) : op UsbGadget
| OtgInit : op UsbOtg | OtgHost : op UsbOtg | OtgDevice : op UsbOtg | OtgCurrent : op UsbOtg
| RtcInit (fuel : nat) (t0 : Rtc.rtc_time_t) (s : Rtc.rtc_state) : op Clock | GetEpoch (s : Rtc.rtc_state) : op Clock
| SetEpoch (epoch : Z) (s : Rtc.rtc_state) : op Clock | GetTime (fuel : nat) (t0 : Rtc.rtc_time_t) (s : Rtc.rtc_state) : op Clock
| SetTime (t : Rtc.rtc_time_t) (s : Rtc.rtc_state) : op Clock | SetAlarm (epoch : Z) : op Clock
| CheckButtons (s : Input.input_state) : op Buttons | InputPoll (s : Input.input_state) : op Buttons.

(** What the callers of the transfers have to see to: sizes are unsigned, and a
    range of blocks or a buffer to fill is no longer than the window. *)
Definition op_ok {d} (o : op d) : Prop :=
  match o with
  | LoadFirmware _ size => 0 <= size
  | UfsRead lba count _ | UfsWrite lba _ count _ => Ufs.in_window lba count
  | AudioPlay _ frames _ => 0 <= frames
  | AudioRecord max _ => 0 <= max <= 1920
  | AdbSend _ len _ => 0 <= len
  | AdbRecv max _ => 0 <= max <= 0x11000
  | MtpSend _ size _ => 0 <= size
  | MtpRecv _ max _ => 0 <= max <= Usb.MTP_BUFFER_SIZE
  | _ => True
  end.

Section drivers.
Context {D : Type} `{!MmioDevice D}.

Definition run {A} (m : io D A) : io D unit := m;; mret ().

Definition perform {d} (o : op d) : io D unit :=
  match o with
  | Pm8150Init => run Board.pm8150_init | ChargerStatus => run Board.pm8150_charger_status
  | BatterySoc => run Board.pm8150_battery_soc | BatteryVoltage => run Board.pm8150_battery_voltage
  | BatteryTemp => run Board.pm8150_battery_temp | ChargerEnable on => Board.pm8150_charger_enable on
  | BoardReboot => Board.sm8250_reboot
  | MdssInit => run Board.mdss_init | PanelOn => Board.mdss_panel_on | PanelOff => Board.mdss_panel_off
  | SetBrightness level => Board.mdss_set_brightness level | BoardPoweroff => Board.sm8250_poweroff
  | TouchInit => run Board.touch_init | TouchOn => Board.touch_power_on | TouchOff => Board.touch_power_off
  | LoadFirmware fw size => run (Board.mss_load_firmware fw size) | MssInit => run Board.mss_init | MssStart => run Board.mss_start | RilInit s => run (Radio.ril_init s)
  | SlpiInit => run Board.slpi_init | SensorsInit done => run (Sensors.mobile_sensors_init done)
  | ReadAccel done => run (Sensors.mobile_sensors_read_accel done)
  | ReadGyro done => run (Sensors.mobile_sensors_read_gyro done)
  | ReadLight done => run (Sensors.mobile_sensors_read_light done)
  | ReadProximity done => run (Sensors.mobile_sensors_read_proximity done)
  | IsCovered done => run (Sensors.mobile_sensors_is_covered done)
  | Orientation done => run (Sensors.mobile_sensors_orientation done)
  | PowerInit => run Power.mobile_power_init | Suspend s => run (Power.mobile_suspend s) | Resume s => run (Power.mobile_resume s)
  | SetCpufreq khz => run (Power.mobile_set_cpufreq khz) | GetTemp => run Power.mobile_get_temp | CoolDown => Power.mobile_cool_down
  | FbInit s => run (Display.display_fb_init s) | FbFlush => Display.display_fb_flush
  | Animation s => run (Display.mobile_boot_animation s)
  | UfsInit s => run (Ufs.ufs_init s) | UfsRead lba count s => run (Ufs.ufs_read lba count s)
  | UfsWrite lba buf count s => run (Ufs.ufs_write lba buf count s)
  | FpInit s => run (Fingerprint.fingerprint_init s)
  | AudioInit s => run (Audio.audio_init s) | AudioPlay pcm frames s => run (Audio.audio_play pcm frames s)
  | AudioRecord max s => run (Audio.audio_record max s) | SetVolume percent s => run (Audio.audio_set_volume percent s)
  | SetMicMute mute s => run (Audio.audio_set_mic_mute mute s) | PlayTone f ms s => Audio.audio_play_tone f ms s
  | WifiInit s => run (Radio.wifi_init s)
  | BtInit s => run (Radio.bt_init s) | GpsInit s => run (Radio.gps_init s)
  | NfcInit s => run (Radio.nfc_init s) | NfcDiscover s => run (Radio.nfc_discover s)
  | NfcRead max s => run (Radio.nfc_read_ndef max s) | NfcWrite data len s => run (Radio.nfc_write_ndef data len s)
  | GadgetInit => run Usb.usb_gadget_init | GadgetConnected => run Usb.usb_gadget_connected
  | AdbSend data len fifo => run (Usb.adb_send data len fifo)
  | AdbRecv max fifo => run (Usb.adb_recv max fifo) | MtpSend data size fifo => run (Usb.mtp_send_object data size fifo)
  | MtpRecv namelen max fifo => run (Usb.mtp_recv_object namelen max fifo)
  | OtgInit => run Usb.usb_otg_init | OtgHost => run Usb.usb_otg_mode_host | OtgDevice => run Usb.usb_otg_mode_device
  | OtgCurrent => run Usb.usb_otg_charging_current
  | RtcInit fuel t0 s => run (Rtc.rtc_init fuel t0 s) | GetEpoch s => run (Rtc.rtc_get_epoch s)
  | SetEpoch epoch s => run (Rtc.rtc_set_epoch epoch s) | GetTime fuel t0 s => run (Rtc.rtc_get_time fuel t0 s)
  | SetTime t s => run (Rtc.rtc_set_time t s) | SetAlarm epoch => Rtc.rtc_set_alarm epoch
  | CheckButtons s => run (Input.input_check_buttons s) | InputPoll s => run (Input.input_poll s)
  end.

(** ** Isolation *)

Lemma ufs_wait_within P mask val n :
  P (Ufs.UFS_HCI_BASE + Ufs.UFS_HC_STATUS) 4 -> within P (Ufs.ufs_wait_status (D := D) mask val n).
Proof.
  intros HP. induction n as [|n IH]; [apply within_ret|]. apply within_bind; [by apply within_read|].
  intros v. destruct (_ =? _); [apply within_ret|done].
Qed.

(** A transfer inside one window. *)
Lemma copy_within ws w a n : w ∈ ws -> w_start w <= a -> a + n <= w_end w ->
  within (fun a n => covered ws a n = true) (copy_mem (D := D) a n).
Proof.
  intros Hw H1 H2. apply within_copy. apply existsb_exists. exists w. split; [by apply list_elem_of_In|].
  unfold inside. lia.
Qed.

Lemma ufs_copy_within lba count :
  Ufs.in_window lba count ->
  within (fun a n => covered (owned Storage) a n = true) (copy_mem (D := D) (Ufs.block_addr lba) (Ufs.byte_size count)).
Proof.
  intros (H1 & H2 & H3). unfold Ufs.UFS_BLOCK_SIZE, Ufs.UFS_DATA_SIZE in H3.
  assert (Ufs.block_addr lba = 0x01D94000 + lba * 4096) as ->.
  { unfold Ufs.block_addr, Ufs.UFS_HCI_BASE, Ufs.SM8250_UFS_BASE, Ufs.UFS_DATA_BASE, Ufs.UFS_BLOCK_SIZE.
    rewrite (wrap_small 64 (lba * 4096)) by lia. rewrite wrap_small by lia. lia. }
  assert (Ufs.byte_size count = count * 4096) as -> by (unfold Ufs.byte_size, Ufs.UFS_BLOCK_SIZE; apply wrap_small; lia).
  apply (copy_within _ W_UFS); [left|change (w_start W_UFS) with 0x01D84000; lia|change (w_end W_UFS) with 0x01E94000; lia].
Qed.

(** The frames that a recording or a transfer of the gadget gives. *)
Lemma min_range (max v : Z) : 0 <= max -> 0 <= v -> 0 <= (if max <? v then max else v) <= max.
Proof. intros Hm Hv. destruct (Z.ltb_spec max v); lia. Qed.

(** The operations that transfer memory. *)
Definition transfers {d} (o : op d) : bool :=
  match o with
  | LoadFirmware _ _ | UfsRead _ _ _ | UfsWrite _ _ _ _ | AudioPlay _ _ _ | AudioRecord _ _ | AdbSend _ _ _
  | AdbRecv _ _ | MtpSend _ _ _ | MtpRecv _ _ _ | FbInit _ => true
  | _ => false
  end.

Lemma transfers_within {d} (o : op d) :
  op_ok o -> transfers o = true -> within (fun a n => covered (owned d) a n = true) (perform o).
Proof.
  intros Hok Ht. destruct o; try discriminate Ht; clear Ht; cbn [op_ok] in Hok; unfold perform, run.
  - unfold Board.mss_load_firmware. within_run. apply (copy_within _ W_MSS); [left|by vm_compute|].
    change (w_end W_MSS) with (Board.SM8250_MSS_BASE + Board.MSS_PIL_ADDR + Board.MSS_PIL_SIZE). lia.
  - unfold Display.display_fb_init. within_run. apply (copy_within _ W_FB); [right; left|by vm_compute..].
  - unfold Ufs.ufs_read. within_run. by apply ufs_copy_within.
  - unfold Ufs.ufs_write. within_run. by apply ufs_copy_within.
  - unfold Audio.audio_play. within_run. apply (copy_within _ W_ADSP); [left|by vm_compute|].
    change (w_end W_ADSP) with (Audio.ADSP_BASE + Audio.ADSP_DMA_BASE + 0x1000). unfold Audio.play_bytes.
    destruct (Z.ltb_spec 0x1000 (u32 (u32 (frames * Audio.I2S_CHANNELS) * 2))); lia.
  - unfold Audio.audio_record. within_run. apply (copy_within _ W_ADSP); [left|by vm_compute|].
    change (w_end W_ADSP) with (Audio.ADSP_BASE + Audio.ADSP_I2S_RX + 7680). unfold Audio.I2S_CHANNELS.
    match goal with |- context [if max <? ?v then _ else _] => pose proof (min_range max v ltac:(lia) ltac:(lia)) end.
    rewrite (wrap_small 32) by lia. rewrite (wrap_small 64) by lia. lia.
  - unfold Usb.adb_send. within_run. apply (copy_within _ W_USB); [left|by vm_compute|].
    change (w_end W_USB) with (Usb.adb_out + 0x12000). unfold Usb.ADB_BUFFER_SIZE.
    destruct (Z.ltb_spec 4096 len); lia.
  - unfold Usb.adb_recv. within_run. apply (copy_within _ W_USB); [left|by vm_compute|].
    change (w_end W_USB) with (Usb.adb_in + 0x11000).
    match goal with |- context [if max <? ?v then _ else _] => pose proof (min_range max v ltac:(lia) ltac:(lia)) end. lia.
  - unfold Usb.mtp_send_object. within_run. apply (copy_within _ W_USB); [left|by vm_compute|].
    change (w_end W_USB) with (Usb.mtp_fifo + Usb.MTP_BUFFER_SIZE). lia.
  - unfold Usb.mtp_recv_object. within_run. apply (copy_within _ W_USB); [left|by vm_compute|].
    change (w_end W_USB) with (Usb.mtp_fifo + Usb.MTP_BUFFER_SIZE).
    match goal with |- context [if max <? ?v then _ else _] => pose proof (min_range max v ltac:(lia) ltac:(lia)) end. lia.
Qed.

Lemma registers_within {d} (o : op d) :
  transfers o = false -> within (fun a n => covered (owned d) a n = true) (perform o).
Proof.
  intros Ht. destruct o; try discriminate Ht; unfold perform, run;
    unfold Board.pm8150_init, Board.sm8250_reboot, Board.sm8250_poweroff, Board.mdss_init, Board.touch_init,
      Board.touch_power_on, Board.touch_power_off, Radio.ril_init, Board.mss_init, Board.mss_start,
      Sensors.mobile_sensors_init, Sensors.mobile_sensors_orientation, Sensors.mobile_sensors_read_accel,
      Sensors.mobile_sensors_read_gyro, Sensors.mobile_sensors_read_light, Sensors.mobile_sensors_read_proximity,
      Sensors.mobile_sensors_is_covered, Board.slpi_init, Board.slpi_read_accel, Board.slpi_read_gyro,
      Board.slpi_read_light, Board.slpi_read_proximity,
      Power.mobile_power_init, Power.mobile_suspend, Power.mobile_resume, Power.mobile_cool_down,
      Power.mobile_set_cpufreq, Power.mobile_get_temp,
      Board.pm8150_charger_status, Board.pm8150_battery_soc, Board.pm8150_battery_voltage, Board.pm8150_battery_temp,
      Board.pm8150_charger_enable, Board.mdss_panel_on, Board.mdss_panel_off, Board.mdss_set_brightness,
      Display.mobile_boot_animation, Display.display_fb_flush,
      Ufs.ufs_init, Fingerprint.fingerprint_init,
      Audio.audio_init, Audio.audio_set_volume, Audio.audio_set_mic_mute,
      Audio.audio_play_tone, Radio.wifi_init, Radio.gps_init, Radio.bt_init, Radio.nfc_init, Radio.nfc_discover,
      Radio.nfc_read_ndef, Radio.nfc_write_ndef,
      Usb.usb_gadget_init, Usb.usb_gadget_connected,
      Usb.usb_otg_init, Usb.usb_otg_mode_host, Usb.usb_otg_mode_device, Usb.usb_otg_charging_current,
      Rtc.rtc_init, Rtc.rtc_get_time, Rtc.rtc_get_epoch, Rtc.rtc_set_time, Rtc.rtc_set_epoch, Rtc.rtc_set_alarm,
      Input.input_poll, Input.input_check_buttons;
    repeat first [progress within_run | apply ufs_wait_within; reflexivity].
Qed.

Lemma perform_within {d} (o : op d) : op_ok o -> within (fun a n => covered (owned d) a n = true) (perform o).
Proof. intros Hok. destruct (transfers o) eqn:Ht; [by apply transfers_within|by apply registers_within]. Qed.

Lemma animation_confined s s' a (b : bus D) :
  (Display.mobile_boot_animation s b).1 = Some s' -> inside W_FB a 1 = false -> Display.fb_mem s' a = Display.fb_mem s a.
Proof.
  intros H Ha. unfold Display.mobile_boot_animation, Display.display_fb_get_info in H.
  destruct (negb _); [by injection H as <-|].
  destruct (Display.boot_drawing _ _ _) as [m|] eqn:E; [|discriminate]. injection H as <-. cbn.
  apply (Display.boot_drawing_confined _ _ a E). unfold Display.in_framebuffer, inside in *.
  change (w_start W_FB) with Display.FB_ADDR in Ha. change (w_end W_FB) with (Display.FB_ADDR + Display.FB_SIZE) in Ha. lia.
Qed.
End drivers.

(** Two windows that overlap. *)
Definition clash (w w' : window) : bool := negb (bool_decide (w = w')) && (w_start w <? w_end w') && (w_start w' <? w_end w).

Lemma no_clash : existsb (fun w => existsb (clash w) all_windows) all_windows = false.
Proof. vm_compute. reflexivity. Qed.

Lemma all_windows_complete w : In w all_windows.
Proof. destruct w; cbn; tauto. Qed.

Lemma windows_disjoint w w' : w <> w' -> w_end w <= w_start w' \/ w_end w' <= w_start w.
Proof.
  intros Hne. destruct (clash w w') eqn:Hc.
  - pose proof no_clash as Hno. apply not_true_iff_false in Hno. destruct Hno.
    apply existsb_exists. exists w. split; [apply all_windows_complete|].
    apply existsb_exists. exists w'. split; [apply all_windows_complete|done].
  - unfold clash in Hc. rewrite bool_decide_eq_false_2 in Hc by done. simpl in Hc. lia.
Qed.

(** ** Properties *)

(** C25: The drivers of the board are isolated.  Whatever the devices answer, every
    operation of a driver, registers and transfers of memory alike, reaches only
    bytes in the windows of that driver, when the ranges of blocks and the buffers
    its callers give are no longer than these windows ([op_ok]); and two drivers
    without a common window never reach the same byte.  The drawing of the boot
    screen stores only in the framebuffer. *)
Theorem drivers_isolated {D} `{!MmioDevice D} {d d'} (o : op d) (o' : op d') (b b' : bus D) :
  op_ok o -> op_ok o' -> (forall w, w ∈ owned d -> w ∉ owned d') ->
  (exists evs evs', bus_log (perform o b).2 = bus_log b ++ evs /\ bus_log (perform o' b').2 = bus_log b' ++ evs' /\
    (forall e, e ∈ evs -> covered (owned d) (event_addr e) (event_len e) = true) /\
    (forall e e', e ∈ evs -> e' ∈ evs' ->
       event_addr e + event_len e <= event_addr e' \/ event_addr e' + event_len e' <= event_addr e)) /\
  (forall s s' a, (Display.mobile_boot_animation s b).1 = Some s' -> inside W_FB a 1 = false ->
     Display.fb_mem s' a = Display.fb_mem s a).
Proof.
  intros Hok Hok' Hd. split.
  - destruct (perform_within o Hok b) as (evs & E & H1). destruct (perform_within o' Hok' b') as (evs' & E' & H2).
    rewrite Forall_forall in H1, H2. exists evs, evs'. split_and!; [exact E|exact E'|exact H1|].
    intros e e' He He'. specialize (H1 e He). specialize (H2 e' He'). unfold covered in *.
    apply existsb_exists in H1 as (w & Hw%list_elem_of_In & Hin). apply existsb_exists in H2 as (w' & Hw'%list_elem_of_In & Hin').
    assert (w <> w') as Hne by (intros ->; by apply (Hd w')). apply windows_disjoint in Hne. unfold inside in *. lia.
  - intros s s' a. by apply (animation_confined (D := D) s s' a b).
Qed.

(** What the callers have to see to is not checked.  Block 4716 is inside the
    capacity of a device that reports 8192 blocks, and its bytes are the first of
    the audio processor. *)
Lemma storage_reaches_audio {D} `{!MmioDevice D} (buf : list Z) (m : Z -> Z) (b : bus D) :
  Z.of_nat (length buf) = 4096 ->
  let s := Ufs.mk_ufs 1 8192 m in
  Ufs.ufs_ok s /\
  bus_log (perform (UfsWrite 4716 buf 1 s) b).2 = bus_log b ++ [IoCopy (w_start W_ADSP) 4096].
Proof. intros Hbuf s. split; [split; [done|simpl; lia]|]. done. Qed.

(** A recording of more than 1920 frames reads past the window of the audio
    processor when that reports them. *)
Lemma record_leaves_window {D} `{!MmioDevice D} (s : Audio.audio_state) (b : bus D) d :
  Audio.audio_initialized s = 1 -> dev_read (Audio.ADSP_BASE + (Audio.ADSP_I2S_RX + 0x10)) (bus_dev b) = (8192, d) ->
  exists n, last (bus_log (perform (AudioRecord 2048 s) b).2) = Some (IoCopy (Audio.ADSP_BASE + Audio.ADSP_I2S_RX) n) /\
    w_end W_ADSP < Audio.ADSP_BASE + Audio.ADSP_I2S_RX + n.
Proof.
  intros Hs Hr. exists 8192. split; [|by vm_compute]. unfold perform, run, Audio.audio_record. rewrite Hs.
  change (negb (truthy 1)) with false. cbv iota. unfold read_reg, copy_mem. io_run. rewrite Hr.
  change (u32 8192 =? 0) with false. cbv iota. cbn [snd bus_log]. by rewrite last_snoc.
Qed.

(** The registers the header names lie in the window of their block, and their
    addresses are all different. *)
Lemma named_registers :
  forallb (fun r => inside W_PMIC (soc_base PMIC + r) 4) pm8150_registers &&
  forallb (fun r => inside W_DISPLAY (soc_base DISPLAY + r) 4) (mdss_registers ++ (mdss_mdp_layer <$> seqZ 0 8)) &&
  forallb (fun r => inside W_MSS (soc_base MSS + r) 4) mss_registers &&
  forallb (fun r => inside W_SENSOR (soc_base SENSOR + r) 4) slpi_registers = true /\
  NoDup ([PMIC; DISPLAY; MSS; SENSOR] ≫= fun b => (fun r => soc_base b + r) <$> soc_registers b).
Proof. split; [by vm_compute|]. apply (bool_decide_unpack _). by vm_compute. Qed.

(** The only region [build_early_regions] gives to the page allocator, from 1 MB
    on for 512 MB, contains every one of these windows but the framebuffer. *)
Lemma early_region_covers w : w <> W_FB -> 0x100000 <= w_start w /\ w_end w <= 0x100000 + 512 * 1024 * 1024.
Proof. intros Hw. destruct w; try done; vm_compute; split; congruence. Qed.

(** *** Witness *)

Lemma drivers_isolated_witness :
  exists evs evs',
    bus_log (perform (MtpSend [7; 8; 9] 3 (fun _ => 0)) (mk_bus (∅ : gmap Z Z) [])).2 = [] ++ evs /\
    bus_log (perform (UfsWrite 255 [] 1 (Ufs.mk_ufs 1 2048 (fun _ => 0))) (mk_bus (∅ : gmap Z Z) [])).2 = [] ++ evs' /\
    evs = [IoCopy Usb.mtp_fifo 3] /\
    (forall e, e ∈ evs -> covered [W_USB] (event_addr e) (event_len e) = true) /\
    (forall e e', e ∈ evs -> e' ∈ evs' ->
       event_addr e + event_len e <= event_addr e' \/ event_addr e' + event_len e' <= event_addr e).
Proof.
  destruct (drivers_isolated (MtpSend [7; 8; 9] 3 (fun _ => 0)) (UfsWrite 255 [] 1 (Ufs.mk_ufs 1 2048 (fun _ => 0)))
    (mk_bus (∅ : gmap Z Z) []) (mk_bus (∅ : gmap Z Z) [])) as [(evs & evs' & E & E' & Hc & Hne) _].
  - simpl. lia.
  - cbn [op_ok]. unfold Ufs.in_window, Ufs.UFS_BLOCK_SIZE, Ufs.UFS_DATA_SIZE. lia.
  - by intros w ->%list_elem_of_singleton ?%list_elem_of_singleton.
  - exists evs, evs'. split_and!; [exact E|exact E'|symmetry; exact E|exact Hc|exact Hne].
Defined.

End SocMap.
