(* ===== verification/MobileBoot.v ===== *)
(** * Start-up of the mobile drivers

    Models [mobile_boot_init] of kernel/bsp/sm8250/drivers/init.c: the start-up
    functions of the drivers it calls, in their order, on the state of these
    drivers.  The sensors are not among them; the boot animation is in Display.v. *)

From stdpp Require Import base numbers list option tactics gmap.
From S2P Require Import Prelude Mmio Input Rtc Board Power Display Ufs Fingerprint Audio Radio Usb.

Module MobileBoot.

Record mobile_state := mk_mobile {
  ufs : Ufs.ufs_state;
  fb : Display.fb_state;
  input : Input.input_state;
  audio : Audio.audio_state;
  radio : Radio.radio_state;
  fp : Fingerprint.fp_state;
  rtc : Rtc.rtc_state;
  init_done : Z;
}.

Definition set_fb (f : Display.fb_state) (s : mobile_state) : mobile_state :=
  mk_mobile (ufs s) f (input s) (audio s) (radio s) (fp s) (rtc s) (init_done s).

Section boot.
Context {D : Type} `{!MmioDevice D}.

(** Up to the start of the clock. *)
Definition core_init (s : mobile_state) : io D mobile_state :=
  '(_, u) ← Ufs.ufs_init (ufs s);
  '(_, f) ← Display.display_fb_init (fb s);
  let '(_, i) := Input.input_init (input s) in
  '(_, a) ← Audio.audio_init (audio s);
  '(_, r) ← Radio.wifi_init (radio s);
  '(_, r) ← Radio.bt_init r;
  '(_, r) ← Radio.gps_init r;
  '(_, r) ← Radio.nfc_init r;
  '(_, r) ← Radio.ril_init r;
  let '(_, r) := Radio.ims_init r in
  '(_, p) ← Fingerprint.fingerprint_init (fp s);
  mret (mk_mobile u f i a r p (rtc s) (init_done s)).

(** The report at the end reads the battery, the charger, the gadget and the
    clock. *)
Definition report (s : mobile_state) : io D unit :=
  Board.pm8150_battery_soc;;
  Board.pm8150_battery_voltage;;
  Board.pm8150_battery_temp;;
  Board.pm8150_charger_status;;
  Usb.usb_gadget_connected;;
  Rtc.rtc_get_epoch (rtc s);;
  mret ().

(** From the panel on. *)
Definition finish (s : mobile_state) : io D (option mobile_state) :=
  Board.mdss_panel_on;; Board.mdss_set_brightness 128;; report s;;
  mret (Some (mk_mobile (ufs s) (fb s) (input s) (audio s) (radio s) (fp s) (rtc s) 1)).

(** [None] when the year of the clock's date is no [int] or takes more than
    [fuel] rounds to find; [t0] is the uninitialised date structure of
    [rtc_init]. *)
Definition mobile_boot_init (fuel : nat) (t0 : Rtc.rtc_time_t) (s : mobile_state) : io D (option mobile_state) :=
  s ← core_init s;
  r ← Rtc.rtc_init fuel t0 (rtc s);
  match r with
  | None => mret None
  | Some (_, _, c) =>
      Usb.usb_gadget_init;;
      Usb.usb_otg_init;;
      Power.mobile_power_init;;
      finish (mk_mobile (ufs s) (fb s) (input s) (audio s) (radio s) (fp s) c (init_done s))
  end.

Definition mobile_boot_is_complete (s : mobile_state) : Z := init_done s.

(** ** Theorems *)

(** The drivers that keep a flag of their start-up, but for storage and clock:
    the flags that their start-up functions set.  The GPS, USB and power drivers
    have no such flag. *)
Definition parts_up (s : mobile_state) : Prop :=
  Display.fb_ready (fb s) = 1 /\ Input.input_ready (input s) = 1 /\ Audio.audio_initialized (audio s) = 1 /\
  Radio.wifi_active (radio s) = true /\ Radio.bt_active (radio s) = true /\ Radio.nfc_ready (radio s) = 1 /\
  Radio.ims_registered (radio s) = 1 /\ Radio.signal_strength (radio s) = -85 /\
  Fingerprint.fp_ready (fp s) = 1.

Lemma wait_status_ends mask v n : ends_with (D := D) (Ufs.ufs_wait_status mask v n) [].
Proof. induction n as [|n IH]; [apply ends_ret|]. cbn [Ufs.ufs_wait_status]. ends_run. Qed.

#[local] Hint Resolve wait_status_ends : mmio.
#[local] Opaque Ufs.ufs_wait_status wait_clear.

Lemma ufs_init_ends u : ends_with (D := D) (Ufs.ufs_init u) [].
Proof. unfold Ufs.ufs_init. ends_run. Qed.

Lemma fb_init_ends f : ends_with (D := D) (Display.display_fb_init f) [].
Proof. unfold Display.display_fb_init. ends_run. Qed.

Lemma audio_init_ends a : ends_with (D := D) (Audio.audio_init a) [].
Proof. unfold Audio.audio_init. ends_run. Qed.

Lemma radio_step_ends o r : ends_with (D := D) (Radio.radio_step o r) [].
Proof.
  destruct o; cbn [Radio.radio_step]; unfold Radio.ril_init, Board.mss_init, Board.mss_start, Radio.wifi_init,
    Radio.gps_init, Radio.bt_init, Radio.nfc_init, Radio.nfc_discover, Radio.nfc_read_ndef, Radio.nfc_write_ndef;
    ends_run.
Qed.

Lemma fp_init_ends p : ends_with (D := D) (Fingerprint.fingerprint_init p) [].
Proof. unfold Fingerprint.fingerprint_init. ends_run. Qed.

#[local] Hint Resolve ufs_init_ends fb_init_ends audio_init_ends fp_init_ends : mmio.

Lemma core_init_ends s : ends_with (D := D) (core_init s) [].
Proof.
  unfold core_init. do 2 (apply ends_bind_any; [auto with mmio|intros []]). cbn [Input.input_init].
  apply ends_bind_any; [auto with mmio|intros []].
  apply ends_bind_any; [apply (radio_step_ends Radio.WifiInit)|intros []].
  apply ends_bind_any; [apply (radio_step_ends Radio.BtInit)|intros []].
  apply ends_bind_any; [apply (radio_step_ends Radio.GpsInit)|intros []].
  apply ends_bind_any; [apply (radio_step_ends Radio.NfcInit)|intros []].
  apply ends_bind_any; [apply (radio_step_ends Radio.RilInit)|intros []]. cbn [Radio.ims_init].
  apply ends_bind_any; [auto with mmio|intros []]. apply ends_ret.
Qed.

Lemma core_init_result s :
  returns (D := D) (core_init s) (fun s' => parts_up s' /\ rtc s' = rtc s /\ init_done s' = init_done s).
Proof.
  unfold core_init. apply returns_any. intros [r1 u].
  apply (returns_bind _ _ (fun r => Display.fb_ready r.2 = 1)); [by intros b|]. intros [r2 f] Hf.
  cbn [Input.input_init].
  apply (returns_bind _ _ (fun r => Audio.audio_initialized r.2 = 1)).
  { unfold Audio.audio_init. repeat (apply returns_any; intros ?). by apply returns_ret. }
  intros [r3 a] Ha.
  apply (returns_bind _ _ (fun r => Radio.wifi_active r.2 = true)); [by intros b|]. intros [r4 ra] Hw.
  apply (returns_bind _ _ (fun r => r.2 = Radio.set_bt true ra)); [by intros b|]. intros [r5 rb] Hrb. simpl in Hrb. subst rb.
  apply (returns_bind _ _ (fun r => r.2 = Radio.set_bt true ra)); [by intros b|]. intros [r6 rb] Hrb. simpl in Hrb. subst rb.
  apply (returns_bind _ _ (fun r => r.2 = Radio.set_nfc 1 (Radio.set_bt true ra))); [by intros b|].
  intros [r7 rb] Hrb. simpl in Hrb. subst rb.
  apply (returns_bind _ _ (fun r => r.2 = Radio.mk_radio (-85) 0x12345 310410 (Radio.ims_registered ra)
    (Radio.wifi_active ra) true 1)).
  { unfold Radio.ril_init. repeat (apply returns_any; intros ?). by apply returns_ret. }
  intros [r8 rb] Hrb. simpl in Hrb. subst rb. cbn [Radio.ims_init].
  apply (returns_bind _ _ (fun r => Fingerprint.fp_ready r.2 = 1)); [by intros b|]. intros [r9 p] Hp.
  apply returns_ret. simpl in *. unfold parts_up. cbn. done.
Qed.

(** The clock's high register never reads more than 23 bits: its time is before
    second 2^55, a year that is an [int]. *)
Definition clock_sane : Prop :=
  forall d : D, u32 (dev_read (Rtc.RTC_BASE + Rtc.RTC_TIME_HIGH) d).1 < 2 ^ 23.

Lemma rtc_init_result fuel t0 (c : Rtc.rtc_state) :
  clock_sane -> 2 ^ 55 <= Z.of_nat fuel * (365 * 86400) -> 0 <= Rtc.rtc_offset c < 2 ^ 55 ->
  returns (D := D) (Rtc.rtc_init fuel t0 c) (fun r => exists t c', r = Some (0, t, c') /\ Rtc.rtc_initialized c' = 1).
Proof.
  intros Hs Hf Hc. unfold Rtc.rtc_init. apply returns_any. intros [].
  apply (returns_bind _ _ (fun v => 0 <= v < 2 ^ 32)); [apply read_range|]. intros low Hl.
  apply (returns_bind _ _ (fun v => 0 <= v < 2 ^ 23)).
  { intros b. pose proof (read_range (Rtc.RTC_BASE) Rtc.RTC_TIME_HIGH b) as Hr. pose proof (Hs (bus_dev b)) as Hd.
    unfold read_reg in *. destruct (dev_read _ _) as [v d]. cbn [fst] in *. lia. }
  intros high Hh. set (off := if truthy low || truthy high then Rtc.make64 high low else Rtc.rtc_offset c).
  assert (0 <= off < 2 ^ 55) as Ho.
  { unfold off. destruct (truthy low || truthy high); [|done]. unfold Rtc.make64.
    rewrite Z.shiftl_mul_pow2, lor_low by lia. lia. }
  apply returns_ret. destruct (Rtc.epoch_to_time_ends fuel off t0) as [t ->]; [lia|transitivity (2 ^ 55); [lia|done]|].
  exists t, (Rtc.mk_rtc 1 off). done.
Qed.

Lemma rtc_epoch_emits (c : Rtc.rtc_state) : emits (D := D) (Rtc.rtc_get_epoch c) [].
Proof.
  unfold Rtc.rtc_get_epoch. destruct (negb _); [apply emits_ret|].
  apply (emits_bind _ _ [] []); [apply emits_read|]. intros low.
  apply (emits_bind _ _ [] []); [apply emits_read|]. intros high. apply emits_ret.
Qed.

Lemma finish_emits s : emits (finish s) [(Power.panel_reg, 1); (Power.brightness_reg, 128)].
Proof.
  evar (l : list (Z * Z)). assert (emits (finish s) l) as H; [unfold l, finish, report, Board.mdss_panel_on, Board.mdss_set_brightness, Board.pm8150_battery_soc,
    Board.pm8150_battery_voltage, Board.pm8150_battery_temp, Board.pm8150_charger_status, Usb.usb_gadget_connected;
    repeat (first [apply rtc_epoch_emits | apply emits_ret | apply emits_read | apply emits_write
      | eapply emits_bind; [|intros ?]])|]. exact H.
Qed.

Lemma finish_result s : returns (finish s) (fun r =>
  r = Some (mk_mobile (ufs s) (fb s) (input s) (audio s) (radio s) (fp s) (rtc s) 1)).
Proof. unfold finish. do 3 (apply returns_any; intros ?). by apply returns_ret. Qed.

(** What the USB drivers and the power manager write when they start. *)
Definition gadget_writes : list (Z * Z) :=
  let ep := Usb.USB_GADGET_BASE + Usb.GADGET_EP_BASE in
  [(Usb.USB_GADGET_BASE + Usb.GADGET_CTRL, 2); (ep, 0x80); (ep + 4, 2); (ep + 8, 0x82);
   (Usb.USB_GADGET_BASE + Usb.GADGET_CTRL, 1)].

Definition otg_writes : list (Z * Z) :=
  [(Usb.DWC3_BASE + Usb.DWC3_GCTL, 2); (Usb.DWC3_BASE + Usb.DWC3_GCTL, 1)].

Definition power_writes : list (Z * Z) :=
  [(Power.LPM_BASE, 7); (Power.LPM_BASE + 4, 1);
   (Power.CPUFREQ_BASE, 300000); (Power.CPUFREQ_BASE + 4, 2840000); (Power.CPUFREQ_BASE + 8, 825000);
   (Power.THERMAL_BASE, 70000); (Power.THERMAL_BASE + 4, 85000)].

Definition panel_writes : list (Z * Z) := [(Power.panel_reg, 1); (Power.brightness_reg, 128)].

Definition last_writes : list (Z * Z) := gadget_writes ++ otg_writes ++ power_writes ++ panel_writes.

Lemma otg_init_emits : emits (D := D) Usb.usb_otg_init otg_writes.
Proof.
  evar (l : list (Z * Z)). assert (emits (D := D) Usb.usb_otg_init l) as H by (unfold l, Usb.usb_otg_init; emits_run).
  exact H.
Qed.

Lemma power_init_emits : emits (D := D) Power.mobile_power_init power_writes.
Proof.
  evar (l : list (Z * Z)). assert (emits (D := D) Power.mobile_power_init l) as H
    by (unfold l, Power.mobile_power_init, Board.pm8150_battery_soc; emits_run).
  exact H.
Qed.

Lemma late_init_emits s :
  emits (D := D) (Usb.usb_gadget_init;; Usb.usb_otg_init;; Power.mobile_power_init;; finish s) last_writes.
Proof.
  apply emits_bind; [exact Usb.usb_gadget_init_writes|intros _].
  apply emits_bind; [exact otg_init_emits|intros _].
  apply emits_bind; [exact power_init_emits|intros _]. apply finish_emits.
Qed.

Lemma mobile_boot_result fuel t0 s :
  clock_sane -> 2 ^ 55 <= Z.of_nat fuel * (365 * 86400) -> 0 <= Rtc.rtc_offset (rtc s) < 2 ^ 55 ->
  returns (mobile_boot_init fuel t0 s) (fun r => exists s', r = Some s' /\ parts_up s' /\
    Rtc.rtc_initialized (rtc s') = 1 /\ mobile_boot_is_complete s' = 1).
Proof.
  intros Hsane Hfuel Hclock. unfold mobile_boot_init. eapply returns_bind; [apply core_init_result|]. intros s1 (Hup & Hrtc & _).
    eapply returns_bind; [apply (rtc_init_result fuel t0 (rtc s1) Hsane Hfuel); by rewrite Hrtc|].
    intros r (t & c & -> & Hc). do 3 (apply returns_any; intros ?).
    intros b1. rewrite (finish_result (mk_mobile (ufs s1) (fb s1) (input s1) (audio s1) (radio s1) (fp s1) c (init_done s1)) b1).
    eexists. split; [reflexivity|]. done.
Qed.

(** C27: Whatever the devices answer, as long as the time of the clock is before
    second 2^55, the start-up of the drivers comes to its end: the display, input,
    audio, Wi-Fi, Bluetooth, NFC, telephony (IMS), fingerprint and clock drivers
    are marked as started, and the last writes are exactly those that start the
    USB gadget, the USB port and the power manager, then those that switch the
    panel on and set it to half brightness.  Storage may be left out, the GPS
    keeps no flag, and the sensors are not started by this function. *)
Theorem mobile_boot_ready fuel t0 s (b : bus D)
    (Hsane : clock_sane) (Hfuel : 2 ^ 55 <= Z.of_nat fuel * (365 * 86400))
    (Hclock : 0 <= Rtc.rtc_offset (rtc s) < 2 ^ 55) :
  exists s' b' evs ws, mobile_boot_init fuel t0 s b = (Some s', b') /\
    parts_up s' /\ Rtc.rtc_initialized (rtc s') = 1 /\ mobile_boot_is_complete s' = 1 /\
    bus_log b' = bus_log b ++ evs /\
    writes_of evs = ws ++ last_writes.
Proof.
  pose proof (mobile_boot_result fuel t0 s Hsane Hfuel Hclock) as Hret.
  assert (ends_with (mobile_boot_init fuel t0 s) last_writes) as Hend.
  { unfold mobile_boot_init. eapply ends_bind; [apply core_init_ends|apply core_init_result|]. intros s1 (_ & Hrtc & _).
    eapply ends_bind; [unfold Rtc.rtc_init; ends_run|apply (rtc_init_result fuel t0 (rtc s1) Hsane Hfuel); by rewrite Hrtc|].
    intros r (t & c & -> & _).
    apply ends_emits, (late_init_emits (mk_mobile (ufs s1) (fb s1) (input s1) (audio s1) (radio s1) (fp s1) c (init_done s1))). }
  specialize (Hret b). destruct (Hend b) as (evs & ws & El & Ew).
  destruct (mobile_boot_init fuel t0 s b) as [r b']. cbn [fst snd] in Hret, El. destruct Hret as (s' & -> & H1 & H2 & H3).
  by exists s', b', evs, ws.
Qed.

End boot.

Definition mobile0 : mobile_state :=
  mk_mobile (Ufs.ufs_boot (fun _ => 0)) (Display.mk_fb 0 (fun _ => 0)) Input.input_boot (Audio.audio_boot (fun _ => 0))
    Radio.radio_boot Fingerprint.fp_boot Rtc.rtc_boot 0.

(** Devices whose registers hold what is written to them, on a board whose clock
    is a 55-bit counter: its high register has 23 bits. *)
Record board := mk_board { registers : gmap Z Z }.

#[global] Instance board_device : MmioDevice board := {
  dev_read a d :=
    let v := default 0 (registers d !! a) in
    ((if a =? Rtc.RTC_BASE + Rtc.RTC_TIME_HIGH then v mod 2 ^ 23 else v), d);
  dev_write a v d := mk_board (<[a := v]> (registers d));
}.

Lemma board_clock_sane : clock_sane (D := board).
Proof.
  intros [r]. cbn [dev_read board_device registers fst]. rewrite Z.eqb_refl.
  pose proof (Z.mod_pos_bound (default 0 (r !! (Rtc.RTC_BASE + Rtc.RTC_TIME_HIGH))) (2 ^ 23) ltac:(done)).
  rewrite wrap_small; lia.
Qed.

Lemma mobile_boot_ready_witness :
  exists s' b' evs ws, mobile_boot_init (D := board) (Z.to_nat (2 ^ 40)) Rtc.date0 mobile0 (mk_bus (mk_board ∅) []) = (Some s', b') /\
    parts_up s' /\ Rtc.rtc_initialized (rtc s') = 1 /\ mobile_boot_is_complete s' = 1 /\
    bus_log b' = evs /\ writes_of evs = ws ++ last_writes.
Proof.
  apply (mobile_boot_ready (D := board) (Z.to_nat (2 ^ 40)) Rtc.date0 mobile0 (mk_bus (mk_board ∅) [])).
  - exact board_clock_sane.
  - rewrite Z2Nat.id by done. done.
  - done.
Defined.
End MobileBoot.
