(* ===== verification/InitProc.v ===== *)
(** * The init program

    Models userspace/init/init.c, the first user process: its output through the
    system calls and the printing of a number.  The kernel is a parameter, the
    answer to each system call; the number of the call and its arguments are the
    ones the program puts into the registers, with the bytes at the address of a
    string in place of the address. *)

From stdpp Require Import base numbers list option tactics strings.
From S2P Require Import Prelude Text.
Import Text.
Open Scope Z_scope.

Module InitProc.

Inductive call :=
| SysExit (code : Z)
| SysWrite (fd : Z) (buf : list Z)
| SysGetpid
| SysSleep (ms : Z).

(** x8 of a call. *)
Definition call_number (c : call) : Z :=
  match c with SysExit _ => 1 | SysWrite _ _ => 2 | SysGetpid => 7 | SysSleep _ => 6 end.

Class Kernel (K : Type) := { answer : call -> K -> Z * K }.

Section program.
Context {K : Type} `{!Kernel K}.

Definition prog (A : Type) : Type := K -> A * K.

#[local] Instance prog_ret : MRet prog := fun A a k => (a, k).
#[local] Instance prog_bind : MBind prog := fun A B f m k => let '(a, k') := m k in f a k'.

Definition sys_exit (code : Z) : prog unit := fun k => (tt, (answer (SysExit code) k).2).
Definition sys_write (fd : Z) (buf : list Z) : prog Z := fun k =>
  let '(r, k') := answer (SysWrite fd buf) k in (s32 r, k').
Definition sys_getpid : prog Z := fun k => let '(r, k') := answer SysGetpid k in (s32 r, k').
Definition sys_sleep (ms : Z) : prog unit := fun k => (tt, (answer (SysSleep ms) k).2).

Definition puts (s : string) : prog unit := sys_write 1 (chars s);; mret tt.

(** The digits of [_buf], the last one first; [None] when a number has more than
    [fuel] digits. *)
Fixpoint putn_digits (fuel : nat) (n : Z) (buf : list Z) : option (list Z) :=
  if n =? 0 then Some buf else
  match fuel with
  | O => None
  | S fuel' => putn_digits fuel' (Z.quot n 10) (buf ++ [u8 (48 + Z.rem n 10)])
  end.

(** [while (len) { char c = _buf[--len]; sys_write(1, &c, 1); }] *)
Fixpoint put_chars (l : list Z) : prog unit :=
  match l with
  | [] => mret tt
  | c :: l' => sys_write 1 [c];; put_chars l'
  end.

Definition putn (fuel : nat) (n : Z) : prog (option unit) :=
  n ← (if n <? 0 then puts "-";; mret (s32 (- n)) else mret n);
  if n =? 0 then puts "0";; mret (Some tt) else
  match putn_digits fuel n [] with
  | None => mret None
  | Some buf => put_chars (reverse buf);; mret (Some tt)
  end.

(** The newline of a string constant. *)
Definition putsn (s : string) : prog unit := sys_write 1 (line s);; mret tt.

Definition bar : string := "========================================".

(** [_start] up to its main loop; strings that begin with a newline are printed
    with it. *)
Definition start (fuel : nat) : prog (option unit) :=
  sys_write 1 (10 :: line bar);;
  putsn "  OmniOS init (PID 1) started";;
  putsn "  Userspace boot sequence";;
  putsn bar;;
  pid ← sys_getpid;
  puts "[INIT] PID: ";;
  r ← putn fuel pid;
  match r with
  | None => mret None
  | Some _ =>
      sys_write 1 [10];;
      putsn "[INIT] Mounting devfs...";;
      putsn "[INIT] Mounting procfs...";;
      putsn "[INIT] Starting service manager...";;
      putsn "[INIT] Starting compositor...";;
      putsn "[INIT] Starting capability daemon...";;
      putsn "[INIT] Starting Waydroid...";;
      sys_write 1 (10 :: line bar);;
      putsn "  OmniOS ready";;
      putsn bar;;
      mret (Some tt)
  end.

(** [n] rounds of the main loop, which never ends. *)
Fixpoint heartbeats (n : nat) : prog unit :=
  match n with
  | O => mret tt
  | S n' => sys_sleep 1000;; putsn "[INIT] heartbeat";; heartbeats n'
  end.
End program.
#[export] Existing Instance prog_ret.
#[export] Existing Instance prog_bind.

(** ** Printing a number *)

Lemma dec_loop_acc fuel n acc : dec_loop fuel n acc = dec_loop fuel n [] ++ acc.
Proof.
  revert n acc. induction fuel as [|fuel IH]; intros n acc; [done|]. cbn [dec_loop].
  destruct (n <? 10); [done|]. rewrite IH, (IH _ [_]). by rewrite <-app_assoc.
Qed.

Lemma dec_loop_fuel f g n :
  0 <= n < 10 ^ Z.of_nat f -> (0 < f <= g)%nat -> dec_loop f n [] = dec_loop g n [].
Proof.
  revert g n. induction f as [|f IH]; intros g n Hn Hf; [lia|]. destruct g as [|g]; [lia|]. cbn [dec_loop].
  rewrite Nat2Z.inj_succ, Z.pow_succ_r in Hn by lia. destruct (Z.ltb_spec n 10); [done|].
  rewrite dec_loop_acc, (dec_loop_acc g). f_equal. destruct f as [|f]; [simpl in Hn; lia|].
  apply IH; [|lia]. split; [apply Z.div_pos; lia|]. apply Z.div_lt_upper_bound; lia.
Qed.

Lemma putn_digits_spec fuel n buf :
  0 < n < 10 ^ Z.of_nat fuel -> putn_digits fuel n buf = Some (buf ++ reverse (dec_loop fuel n [])).
Proof.
  revert n buf. induction fuel as [|fuel IH]; intros n buf Hn; [simpl in Hn; lia|].
  cbn [putn_digits dec_loop]. rewrite (proj2 (Z.eqb_neq n 0)) by lia.
  rewrite Z.quot_div_nonneg, Z.rem_mod_nonneg by lia. rewrite (wrap_small 8) by lia.
  rewrite Nat2Z.inj_succ, Z.pow_succ_r in Hn by lia. destruct (Z.ltb_spec n 10).
  - rewrite Z.div_small by lia. by destruct fuel.
  - rewrite IH, (dec_loop_acc fuel _ [_]), reverse_app by (split; [apply Z.div_str_pos; lia|apply Z.div_lt_upper_bound; lia]).
    by rewrite reverse_singleton, <-app_assoc.
Qed.

(** A kernel with a screen to which writes to descriptor 1 go. *)
Class Console (K : Type) `{!Kernel K} := {
  screen : K -> list Z;
  screen_write buf k : Z.of_nat (length buf) < 2 ^ 31 -> screen (answer (SysWrite 1 buf) k).2 = screen k ++ buf;
  screen_other c k : match c with SysWrite _ _ => True | _ => screen (answer c k).2 = screen k end;
}.

Section console.
Context {K : Type} `{!Kernel K, !Console K}.

(** [m] returns [a] and prints [text]. *)
Definition prints {A} (m : prog (K := K) A) (a : A) (text : list Z) : Prop :=
  forall k, (m k).1 = a /\ screen (m k).2 = screen k ++ text.

Lemma prints_ret {A} (a : A) : prints (mret a) a [].
Proof. intros k. by rewrite app_nil_r. Qed.

Lemma prints_bind {A B} (m : prog A) (f : A -> prog B) a b t1 t2 :
  prints m a t1 -> prints (f a) b t2 -> prints (m ≫= f) b (t1 ++ t2).
Proof.
  intros Hm Hf k. unfold mbind, prog_bind. destruct (Hm k) as [Ea Et]. destruct (m k) as [a' k'].
  simpl in Ea, Et. subst a'. destruct (Hf k') as [-> ->]. by rewrite Et, app_assoc.
Qed.

Lemma prints_write buf {B} (f : Z -> prog B) b t :
  Z.of_nat (length buf) < 2 ^ 31 ->
  (forall r, prints (f r) b t) -> prints (sys_write 1 buf ≫= f) b (buf ++ t).
Proof.
  intros Hb Hf k. unfold mbind, prog_bind, sys_write. pose proof (screen_write buf k Hb) as E.
  destruct (answer (SysWrite 1 buf) k) as [r k']. simpl in E. destruct (Hf (s32 r) k') as [-> ->].
  by rewrite E, app_assoc.
Qed.

Lemma prints_puts s {B} (f : unit -> prog B) b t :
  Z.of_nat (length (chars s)) < 2 ^ 31 -> prints (f tt) b t -> prints (puts s ≫= f) b (chars s ++ t).
Proof.
  intros Hs Hf k. pose proof (prints_write (chars s) (fun _ => f tt) b t Hs (fun _ => Hf) k) as H.
  unfold puts, mbind, prog_bind in *. by destruct (sys_write 1 (chars s) k).
Qed.

Lemma prints_putsn s {B} (f : unit -> prog B) b t :
  Z.of_nat (length (line s)) < 2 ^ 31 -> prints (f tt) b t -> prints (putsn s ≫= f) b (line s ++ t).
Proof.
  intros Hs Hf k. pose proof (prints_write (line s) (fun _ => f tt) b t Hs (fun _ => Hf) k) as H.
  unfold putsn, mbind, prog_bind in *. by destruct (sys_write 1 (line s) k).
Qed.

Lemma prints_chars l : prints (put_chars l) tt l.
Proof.
  induction l as [|c l IH]; [apply prints_ret|]. cbn [put_chars]. apply (prints_write [c]); [done|]. intros r. exact IH.
Qed.

Lemma putn_positive fuel n :
  0 <= n < 10 ^ Z.of_nat fuel -> (0 < fuel <= 20)%nat ->
  prints (if n =? 0 then puts "0";; mret (Some tt) else
          match putn_digits fuel n [] with
          | None => mret None
          | Some buf => put_chars (reverse buf);; mret (Some tt)
          end) (Some tt) (dec n).
Proof.
  intros Hn Hf. destruct (Z.eqb_spec n 0) as [->|Hne].
  - apply (prints_puts "0"); [done|]. apply prints_ret.
  - rewrite putn_digits_spec by lia. unfold dec. rewrite <-(dec_loop_fuel fuel 20 n) by lia.
    rewrite <-(app_nil_r (dec_loop fuel n [])) at 2. eapply prints_bind; [|apply prints_ret].
    cbn [app]. rewrite reverse_involutive. apply prints_chars.
Qed.

(** [putn] prints every 32-bit number but the smallest in decimal, with a minus
    sign for a negative one. *)
Theorem putn_prints n k :
  -2 ^ 31 < n < 2 ^ 31 ->
  (putn 10 n k).1 = Some tt /\
  screen (putn 10 n k).2 = screen k ++ (if n <? 0 then chars "-" else []) ++ dec (Z.abs n).
Proof.
  intros Hn. revert k. change (prints (putn 10 n) (Some tt) ((if n <? 0 then chars "-" else []) ++ dec (Z.abs n))).
  unfold putn. eapply (prints_bind _ _ (Z.abs n)).
  - destruct (Z.ltb_spec n 0).
    + rewrite <-(app_nil_r (chars "-")). apply prints_puts; [done|].
      rewrite swrap_small by lia. rewrite Z.abs_neq by lia. apply prints_ret.
    + rewrite Z.abs_eq by lia. apply prints_ret.
  - apply putn_positive; simpl; lia.
Qed.

(** The smallest number is its own negation: what is printed are not digits. *)
Lemma putn_smallest : exists buf, putn_digits 10 (s32 (- (- 2 ^ 31))) [] = Some buf /\ ~ Forall digit buf.
Proof.
  eexists. split; [vm_compute; reflexivity|]. intros H. inversion H as [|? ? H1]. subst. unfold digit in H1. lia.
Qed.

(** The kernel after the program has written [bufs]. *)
Definition write_all (bufs : list (list Z)) (k : K) : K :=
  fold_left (fun k buf => (answer (SysWrite 1 buf) k).2) bufs k.

Lemma write_all_cons buf bufs k : write_all (buf :: bufs) k = write_all bufs (answer (SysWrite 1 buf) k).2.
Proof. done. Qed.

Lemma screen_write_all bufs k : Forall (fun b => Z.of_nat (length b) < 2 ^ 31) bufs -> screen (write_all bufs k) = screen k ++ concat bufs.
Proof.
  intros Hb. revert k. induction Hb as [|b bufs Hb _ IH]; intros k; cbn [concat]; [by rewrite app_nil_r|].
  by rewrite write_all_cons, IH, screen_write, app_assoc by done.
Qed.

Lemma write_run buf {B} (f : Z -> prog B) k :
  (sys_write 1 buf ≫= f) k = f (s32 (answer (SysWrite 1 buf) k).1) (answer (SysWrite 1 buf) k).2.
Proof. unfold mbind, prog_bind, sys_write. by destruct (answer _ k). Qed.

Lemma putsn_run s {B} (f : unit -> prog B) k : (putsn s ≫= f) k = f tt (answer (SysWrite 1 (line s)) k).2.
Proof. unfold putsn, mbind, prog_bind, sys_write. by destruct (answer _ k). Qed.

Lemma getpid_run {B} (f : Z -> prog B) k :
  (sys_getpid ≫= f) k = f (s32 (answer SysGetpid k).1) (answer SysGetpid k).2.
Proof. unfold mbind, prog_bind, sys_getpid. by destruct (answer _ k). Qed.

(** What init prints before its main loop. *)
Definition boot_text (pid : Z) : list Z :=
  (10 :: line bar) ++ line "  OmniOS init (PID 1) started" ++ line "  Userspace boot sequence" ++ line bar ++
  chars "[INIT] PID: " ++ dec pid ++ [10] ++
  line "[INIT] Mounting devfs..." ++ line "[INIT] Mounting procfs..." ++ line "[INIT] Starting service manager..." ++
  line "[INIT] Starting compositor..." ++ line "[INIT] Starting capability daemon..." ++
  line "[INIT] Starting Waydroid..." ++ (10 :: line bar) ++ line "  OmniOS ready" ++ line bar.

Lemma putn_prints' n : 0 <= n < 2 ^ 31 -> prints (putn 10 n) (Some tt) (dec n).
Proof.
  intros Hn. unfold putn. rewrite (proj2 (Z.ltb_ge n 0)) by lia.
  apply (prints_bind _ _ n _ []); [apply prints_ret|]. apply putn_positive; simpl; lia.
Qed.

(** The lines init prints before it asks for its process number. *)
Definition head_lines : list (list Z) :=
  [10 :: line bar; line "  OmniOS init (PID 1) started"; line "  Userspace boot sequence"; line bar].

Lemma start_prints pid k :
  s32 (answer SysGetpid (write_all head_lines k)).1 = pid -> 0 <= pid < 2 ^ 31 ->
  (start 10 k).1 = Some tt /\ screen (start 10 k).2 = screen k ++ boot_text pid.
Proof.
  intros Hp Hr. unfold start. rewrite write_run, !putsn_run, getpid_run.
  change (answer (SysWrite 1 (line bar)) _).2 with (write_all head_lines k). rewrite Hp.
  pose proof (screen_other SysGetpid (write_all head_lines k)) as E. rewrite screen_write_all in E by (repeat constructor).
  set (k1 := (answer SysGetpid (write_all head_lines k)).2) in *. clearbody k1.
  match goal with |- (?m k1).1 = _ /\ _ => assert (prints m (Some tt) (drop (length (concat head_lines)) (boot_text pid))) as Hm end.
  { change (drop _ _) with (drop 0 (chars "[INIT] PID: " ++ dec pid ++ [10] ++
      line "[INIT] Mounting devfs..." ++ line "[INIT] Mounting procfs..." ++ line "[INIT] Starting service manager..." ++
      line "[INIT] Starting compositor..." ++ line "[INIT] Starting capability daemon..." ++
      line "[INIT] Starting Waydroid..." ++ (10 :: line bar) ++ line "  OmniOS ready" ++ line bar)). rewrite drop_0.
    apply prints_puts; [done|]. eapply prints_bind; [by apply putn_prints'|]. cbv beta iota.
    apply (prints_write [10]); [done|]. intros _. do 6 (apply prints_putsn; [done|]). apply prints_write; [done|]. intros _.
    apply prints_putsn; [done|]. rewrite <-(app_nil_r (line bar)). apply prints_putsn; [done|]. apply prints_ret. }
  destruct (Hm k1) as [-> ->]. split; [done|]. by rewrite E, <-app_assoc.
Qed.

Lemma heartbeats_print n : prints (heartbeats n) tt (concat (replicate n (line "[INIT] heartbeat"))).
Proof.
  induction n as [|n IH]; [apply prints_ret|]. cbn [heartbeats replicate concat].
  apply (prints_bind _ _ tt _ []); [|by apply (prints_putsn "[INIT] heartbeat" _ _ _)].
  intros k. unfold sys_sleep. cbn [fst snd]. by rewrite app_nil_r, (screen_other (SysSleep 1000)).
Qed.

(** On a kernel that prints what is written to descriptor 1, init prints its
    banner with the process number it is given in decimal, the list of services, and then one
    heartbeat line for each round of its main loop. *)
Theorem init_output pid n k :
  s32 (answer SysGetpid (write_all head_lines k)).1 = pid -> 0 <= pid < 2 ^ 31 ->
  (start 10 k).1 = Some tt /\
  screen (heartbeats n (start 10 k).2).2 =
    screen k ++ boot_text pid ++ concat (replicate n (line "[INIT] heartbeat")).
Proof.
  intros Hp Hr. destruct (start_prints pid k Hp Hr) as [E1 E2].
  destruct (heartbeats_print n (start 10 k).2) as [_ E3]. split; [done|]. by rewrite E3, E2, app_assoc.
Qed.
End console.

(** ** Witnesses *)

(** A kernel whose state is its screen. *)
#[export] Instance screen_kernel : Kernel (list Z) := {|
  answer c k := match c with
    | SysWrite fd buf => (Z.of_nat (length buf), if fd =? 1 then k ++ buf else k)
    | SysGetpid => (1, k)
    | SysExit _ | SysSleep _ => (0, k)
    end;
|}.

#[export] Instance screen_console : Console (list Z).
Proof. refine {| screen k := k |}; [done|]. by intros []. Defined.

Lemma putn_prints_witness : (putn (K := list Z) 10 (-204) []).2 = chars "-204".
Proof.
  destruct (putn_prints (K := list Z) (-204) []) as [_ E]; [lia|]. exact E.
Defined.

Lemma init_output_witness :
  (heartbeats (K := list Z) 1 (start 10 []).2).2 = boot_text 1 ++ line "[INIT] heartbeat".
Proof.
  destruct (init_output (K := list Z) 1 1 []) as [_ E]; [reflexivity|lia|]. exact E.
Defined.

End InitProc.
