(* ===== verification/Embedder.v ===== *)
(** * The Flutter embedder

    Models userspace/flutter-embedder/embedder.c: the connection to the
    compositor, the graphics context, the callbacks of the Flutter engine, the
    messages of the application, the event loop and the thread that runs the
    engine's tasks beside it.  Wayland, EGL and the engine
    are calls of Calls.v; the events a call delivers to the listeners are an
    argument of the function that makes the call. *)

From stdpp Require Import base numbers list option tactics strings relations.
From S2P Require Import Prelude Text Calls.
Import Text.
Open Scope Z_scope.

Module Embedder.

Definition WIDTH : Z := 1280.
Definition HEIGHT : Z := 720.

(** Calls to Wayland, EGL, OpenGL, the engine and the system. *)
Inductive ecall :=
| DisplayConnect | GetRegistry | AddRegistryListener | Roundtrip
| Bind (name version : Z) | CreateSurface | GetXdgSurface | AddXdgListener | GetToplevel | AddToplevelListener
| SetTitle | SetAppId | SurfaceCommit | AckConfigure (serial : Z) | EglWindowCreate (w h : Z)
| EglGetDisplay (dpy : Z) | EglInitialize | EglChooseConfig | EglConfigCount | EglCreateContext | EglCreateSurface
| EglMakeCurrent (surface context : Z) | GlClear | EglSwapBuffers
| Fopen | Fseek (offset whence : Z) | Ftell | Malloc (size : Z) | Fread (buf size : Z) | Fclose
| EngineRun | ThreadCreate | ThreadDetach | PostTask | SendResponse (text : list Z)
| GetFd | PrepareRead | Flush | Poll | ReadEvents | CancelRead | Dispatch
| EngineDeinitialize | EngineDestroy | EglDestroySurface | EglDestroyContext | EglTerminate
| EglWindowDestroy | ToplevelDestroy | XdgSurfaceDestroy | SurfaceDestroy | DisplayDisconnect.

(** [struct omnios_flutter_state]; pointers are their addresses, 0 is NULL.  The
    configuration and the engine are only passed on to the libraries, the shell
    surface and the AOT data are never used. *)
Record flutter_state := mk_state {
  wl_display : Z;
  wl_compositor : Z;
  wl_surface : Z;
  egl_window : Z;
  wl_shell : Z;
  xdg_wm : Z;
  xdg_surface : Z;
  xdg_toplevel : Z;
  egl_display : Z;
  egl_context : Z;
  egl_surface : Z;
  running : bool;
  fullscreen : bool;
  width : Z;
  height : Z;
}.

Definition state0 : flutter_state := mk_state 0 0 0 0 0 0 0 0 0 0 0 false false 0 0.

Definition set_display v s := mk_state v (wl_compositor s) (wl_surface s) (egl_window s) (wl_shell s) (xdg_wm s)
  (xdg_surface s) (xdg_toplevel s) (egl_display s) (egl_context s) (egl_surface s) (running s) (fullscreen s) (width s) (height s).
Definition set_compositor v s := mk_state (wl_display s) v (wl_surface s) (egl_window s) (wl_shell s) (xdg_wm s)
  (xdg_surface s) (xdg_toplevel s) (egl_display s) (egl_context s) (egl_surface s) (running s) (fullscreen s) (width s) (height s).
Definition set_xdg_wm v s := mk_state (wl_display s) (wl_compositor s) (wl_surface s) (egl_window s) (wl_shell s) v
  (xdg_surface s) (xdg_toplevel s) (egl_display s) (egl_context s) (egl_surface s) (running s) (fullscreen s) (width s) (height s).
Definition set_shell v s := mk_state (wl_display s) (wl_compositor s) (wl_surface s) (egl_window s) v (xdg_wm s)
  (xdg_surface s) (xdg_toplevel s) (egl_display s) (egl_context s) (egl_surface s) (running s) (fullscreen s) (width s) (height s).
Definition set_surfaces surf xdg top s := mk_state (wl_display s) (wl_compositor s) surf (egl_window s) (wl_shell s) (xdg_wm s)
  xdg top (egl_display s) (egl_context s) (egl_surface s) (running s) (fullscreen s) (width s) (height s).
Definition set_window v s := mk_state (wl_display s) (wl_compositor s) (wl_surface s) v (wl_shell s) (xdg_wm s)
  (xdg_surface s) (xdg_toplevel s) (egl_display s) (egl_context s) (egl_surface s) (running s) (fullscreen s) (width s) (height s).
Definition set_egl dpy ctx surf s := mk_state (wl_display s) (wl_compositor s) (wl_surface s) (egl_window s) (wl_shell s) (xdg_wm s)
  (xdg_surface s) (xdg_toplevel s) dpy ctx surf (running s) (fullscreen s) (width s) (height s).
Definition set_view full w h s := mk_state (wl_display s) (wl_compositor s) (wl_surface s) (egl_window s) (wl_shell s) (xdg_wm s)
  (xdg_surface s) (xdg_toplevel s) (egl_display s) (egl_context s) (egl_surface s) (running s) full w h.
Definition set_running v s := mk_state (wl_display s) (wl_compositor s) (wl_surface s) (egl_window s) (wl_shell s) (xdg_wm s)
  (xdg_surface s) (xdg_toplevel s) (egl_display s) (egl_context s) (egl_surface s) v (fullscreen s) (width s) (height s).

(** Events of the compositor; an interface is the name it announces. *)
Inductive event :=
| Global (name : Z) (interface : string)
| GlobalRemove (name : Z)
| SurfaceConfigure (serial : Z)
| ToplevelConfigure (w h : Z) (states : list Z)
| ToplevelClose.

Definition XDG_TOPLEVEL_STATE_FULLSCREEN : Z := 2.

(** ** Messages of the application *)

(** [strchr]: the string from the first [c] on. *)
Fixpoint strchr (s : list Z) (c : Z) : option (list Z) :=
  match s with
  | [] => None
  | b :: s' => if b =? c then Some s else strchr s' c
  end.

(** [strstr]: the string from the first occurrence of [pat] on. *)
Fixpoint strstr (s pat : list Z) : option (list Z) :=
  if bool_decide (take (length pat) s = pat) then Some s else
  match s with
  | [] => None
  | _ :: s' => strstr s' pat
  end.

Definition QUOTE : Z := 34.
Definition COLON : Z := 58.

(** A string constant whose quotes are written as single ones. *)
Definition json (s : string) : list Z := (fun c => if c =? 39 then QUOTE else c) <$> chars s.

(** The method of a request, empty when there is none. *)
Definition extract_method (req : list Z) : list Z :=
  match strstr req (json "'method'") with
  | None => []
  | Some m =>
      match strchr (drop 7 m) COLON with
      | None => []
      | Some m =>
          match strchr m QUOTE with
          | None => []
          | Some m =>
              let m := drop 1 m in
              match strchr m QUOTE with
              | None => []
              | Some e =>
                  let n := (length m - length e)%nat in
                  if Z.of_nat n <? 63 then take n m else []
              end
          end
      end
  end.

(** The text of [resp]; [now] is the time of the C library. *)
Definition respond (now : Z) (method : list Z) : list Z :=
  let named s := bool_decide (method = chars s) in
  if named "getSystemInfo" then json "{'uptime':" ++ dec now ++ json ",'apps':5,'memory':'128M'}"
  else if named "getDeviceName" then json "{'name':'OmniOS'}"
  else if named "requestCapability" then json "{'tokenId':42}"
  else if named "sendNotification" then json "{'status':'ok'}"
  else if named "setClipboard" then json "{'status':'ok'}"
  else if named "getClipboard" then json "{'text':''}"
  else json "{'error':'unknown'}".

Section programs.
Context {W : Type} `{!Library ecall W}.
Abbreviation prog := (prog ecall W).
Implicit Types (s : flutter_state).

(** [resp] holds 511 characters; [req] is the message up to its NUL. *)
Definition platform_message_callback (now : Z) (channel req : list Z) : prog Z :=
  if bool_decide (channel = chars "omnios/system") then
    let resp := take 511 (respond now (extract_method req)) in
    invoke (SendResponse resp);; mret 0
  else invoke (SendResponse []);; mret 0.

(** ** Listeners *)

Definition wl_registry_global (name : Z) (interface : string) s : prog flutter_state :=
  if String.eqb interface "wl_compositor" then p ← call (Bind name 4); mret (set_compositor p s)
  else if String.eqb interface "xdg_wm_base" then p ← call (Bind name 2); mret (set_xdg_wm p s)
  else if String.eqb interface "wl_shell" then p ← call (Bind name 1); mret (set_shell p s)
  else mret s.

Definition wl_registry_global_remove (name : Z) s : flutter_state := s.

Definition xdg_surface_configure (serial : Z) : prog unit := invoke (AckConfigure serial).

Definition xdg_toplevel_configure (w h : Z) (states : list Z) s : flutter_state :=
  set_view (existsb (Z.eqb XDG_TOPLEVEL_STATE_FULLSCREEN) states)
    (if 0 <? w then w else width s) (if 0 <? h then h else height s) s.

Definition xdg_toplevel_close s : flutter_state := set_running false s.

Definition handle (e : event) s : prog flutter_state :=
  match e with
  | Global name interface => wl_registry_global name interface s
  | GlobalRemove name => mret (wl_registry_global_remove name s)
  | SurfaceConfigure serial => xdg_surface_configure serial;; mret s
  | ToplevelConfigure w h states => mret (xdg_toplevel_configure w h states s)
  | ToplevelClose => mret (xdg_toplevel_close s)
  end.

Fixpoint handle_all (evs : list event) s : prog flutter_state :=
  match evs with
  | [] => mret s
  | e :: evs' => s ← handle e s; handle_all evs' s
  end.

(** ** Start-up *)

(** [evs1] and [evs2] are the events the two round trips deliver. *)
Definition init_wayland (evs1 evs2 : list event) s : prog (bool * flutter_state) :=
  d ← call DisplayConnect;
  let s := set_display d s in
  if d =? 0 then mret (false, s) else
  invoke GetRegistry;;
  invoke AddRegistryListener;;
  invoke Roundtrip;;
  s ← handle_all evs1 s;
  if wl_compositor s =? 0 then mret (false, s) else
  if xdg_wm s =? 0 then mret (false, s) else
  surf ← call CreateSurface;
  let s := set_surfaces surf (xdg_surface s) (xdg_toplevel s) s in
  if surf =? 0 then mret (false, s) else
  xdg ← call GetXdgSurface;
  invoke AddXdgListener;;
  top ← call GetToplevel;
  invoke AddToplevelListener;;
  invoke SetTitle;;
  invoke SetAppId;;
  invoke SurfaceCommit;;
  invoke Roundtrip;;
  s ← handle_all evs2 (set_surfaces surf xdg top s);
  win ← call (EglWindowCreate (if truthy (width s) then width s else WIDTH)
                              (if truthy (height s) then height s else HEIGHT));
  let s := set_window win s in
  mret (negb (win =? 0), s).

Definition init_egl s : prog (bool * flutter_state) :=
  dpy ← call (EglGetDisplay (wl_display s));
  dpy ← (if dpy =? 0 then call (EglGetDisplay 0) else mret dpy);
  let s := set_egl dpy (egl_context s) (egl_surface s) s in
  if dpy =? 0 then mret (false, s) else
  ok ← call EglInitialize;
  if ok =? 0 then mret (false, s) else
  ok ← call EglChooseConfig;
  count ← (if ok =? 0 then mret 0 else call EglConfigCount);
  if count =? 0 then mret (false, s) else
  ctx ← call EglCreateContext;
  let s := set_egl dpy ctx (egl_surface s) s in
  if ctx =? 0 then mret (false, s) else
  surf ← call EglCreateSurface;
  let s := set_egl dpy ctx surf s in
  if surf =? 0 then mret (false, s) else
  ok ← call (EglMakeCurrent surf ctx);
  if ok =? 0 then mret (false, s) else
  invoke GlClear;;
  invoke EglSwapBuffers;;
  mret (true, s).

(** ** Callbacks of the engine *)

Definition kSuccess : Z := 0.
Definition kInternalInconsistency : Z := 3.

Definition make_current_callback s : prog Z :=
  ok ← call (EglMakeCurrent (egl_surface s) (egl_context s));
  mret (if ok =? 0 then kInternalInconsistency else kSuccess).

Definition clear_current_callback : prog Z :=
  ok ← call (EglMakeCurrent 0 0);
  mret (if ok =? 0 then kInternalInconsistency else kSuccess).

Definition present_callback : prog Z :=
  ok ← call EglSwapBuffers;
  mret (if ok =? 0 then kInternalInconsistency else kSuccess).

(** [target], [name] and [existing_fbo] of [FlutterOpenGLFrameBufferInfo]. *)
Record fbo_info := mk_fbo { target : Z; fbo_name : Z; existing_fbo : Z }.

Definition GL_TEXTURE_2D : Z := 0x0DE1.

Definition fbo_callback (_ : fbo_info) : Z * fbo_info := (kSuccess, mk_fbo GL_TEXTURE_2D 0 0).

Definition platform_task_runner_init (identifier : Z) : bool := true.

Definition platform_task_runner_post_task : prog unit := invoke PostTask.

Definition software_renderer (row_bytes height : Z) : bool := false.

(** ** Event loop *)

(** One round: [poll] fills the returned events of the descriptor, [evs] are the
    events a dispatch delivers. *)
Definition loop_round (revents : Z) (evs : list event) s : prog flutter_state :=
  r ← call PrepareRead;
  if r =? 0 then
    invoke Flush;;
    n ← call Poll;
    (if (0 <? n) && truthy (Z.land revents 1) then invoke ReadEvents else invoke CancelRead);;
    mret s
  else
    invoke Dispatch;;
    handle_all evs s.

(** [None] when the application is still running after the given rounds. *)
Fixpoint event_loop (rounds : list (Z * list event)) s : prog (option flutter_state) :=
  if negb (running s) then mret (Some s) else
  match rounds with
  | [] => mret None
  | (revents, evs) :: rounds' => s ← loop_round revents evs s; event_loop rounds' s
  end.

Definition teardown : prog unit :=
  invoke EngineDeinitialize;; invoke EngineDestroy;; invoke EglDestroySurface;; invoke EglDestroyContext;;
  invoke EglTerminate;; invoke EglWindowDestroy;; invoke ToplevelDestroy;; invoke XdgSurfaceDestroy;;
  invoke SurfaceDestroy;; invoke DisplayDisconnect.

(** From the start of the task thread to the end. *)
Definition serve (rounds : list (Z * list event)) s : prog (option Z) :=
  invoke ThreadCreate;;
  invoke ThreadDetach;;
  invoke GetFd;;
  r ← event_loop rounds s;
  match r with
  | None => mret None
  | Some _ => teardown;; mret (Some 0)
  end.

Definition SEEK_SET : Z := 0.
Definition SEEK_END : Z := 2.

(** The application's compiled code is read into a buffer; neither the buffer nor
    the structure that names the file is passed to the engine. *)
Definition load_aot : prog unit :=
  aot_fp ← call Fopen;
  if aot_fp =? 0 then mret tt else
  invoke (Fseek 0 SEEK_END);;
  size ← call Ftell;
  invoke (Fseek 0 SEEK_SET);;
  aot_data ← call (Malloc (u64 size));
  invoke (Fread aot_data (u64 size));;
  invoke Fclose.

(** The exit status. *)
Definition main (evs1 evs2 : list event) (rounds : list (Z * list event)) : prog (option Z) :=
  let s := set_view false WIDTH HEIGHT (set_running true state0) in
  '(ok, s) ← init_wayland evs1 evs2 s;
  if negb ok then mret (Some 1) else
  '(ok, s) ← init_egl s;
  if negb ok then mret (Some 1) else
  load_aot;;
  res ← call EngineRun;
  if negb (res =? kSuccess) then mret (Some 1) else
  serve rounds s.
End programs.

(** ** Requests *)

Lemma strchr_first l c r : c ∉ l -> strchr (l ++ c :: r) c = Some (c :: r).
Proof.
  induction l as [|b l IH]; intros Hc; cbn [app strchr]; [by rewrite Z.eqb_refl|].
  apply not_elem_of_cons in Hc as [Hb Hl]. rewrite (proj2 (Z.eqb_neq b c)) by done. by apply IH.
Qed.

Lemma strstr_first l pat q r :
  hd 0 pat = q -> pat <> [] -> q ∉ l -> strstr (l ++ pat ++ r) pat = Some (pat ++ r).
Proof.
  intros Hq Hne. induction l as [|b l IH]; intros Hl; cbn [app].
  - assert (forall x : list Z, take (length pat) x = pat -> strstr x pat = Some x) as Hs.
    { intros [|y x] E; cbn [strstr]; by rewrite bool_decide_eq_true_2. }
    apply Hs, take_app_length.
  - apply not_elem_of_cons in Hl as [Hb Hl]. cbn [strstr]. rewrite bool_decide_eq_false_2; [by apply IH|].
    destruct pat as [|p pat]; [done|]. simpl in Hq. cbn [length take]. congruence.
Qed.

(** A request with its method, in the form the application sends. *)
Definition request (before gap1 gap2 method after : list Z) : list Z :=
  before ++ json "'method'" ++ gap1 ++ COLON :: gap2 ++ QUOTE :: method ++ QUOTE :: after.

Lemma extract_request before gap1 gap2 method after :
  QUOTE ∉ before -> COLON ∉ gap1 -> QUOTE ∉ gap2 -> QUOTE ∉ method -> (length method < 63)%nat ->
  extract_method (request before gap1 gap2 method after) = method.
Proof.
  intros Hb H1 H2 Hm Hl. unfold extract_method, request.
  rewrite (strstr_first before (json "'method'") QUOTE); [|done|done|done].
  change (drop 7 (json "'method'" ++ gap1 ++ COLON :: gap2 ++ QUOTE :: method ++ QUOTE :: after))
    with ((QUOTE :: gap1) ++ COLON :: gap2 ++ QUOTE :: method ++ QUOTE :: after).
  rewrite strchr_first by (apply not_elem_of_cons; split; [done|exact H1]).
  rewrite (app_comm_cons gap2 (QUOTE :: method ++ QUOTE :: after) COLON).
  rewrite (strchr_first (COLON :: gap2) QUOTE) by (apply not_elem_of_cons; split; [done|exact H2]).
  cbn [drop]. rewrite !drop_0. rewrite strchr_first by done. rewrite length_app. cbn [length].
  replace (length method + S (length after) - S (length after))%nat with (length method) by lia.
  rewrite (proj2 (Z.ltb_lt _ _)) by lia. apply take_app_length.
Qed.

(** ** The task thread *)

(** Where [task_runner_thread] is: at the test of its loop, at the call of the
    engine, asleep, or at its end. *)
Inductive task_pc := AtTest | AtRun | AtSleep | AtEnd.

(** Where the main thread is after it has started the task thread: in its event
    loop, past the loop, and past each of the two calls that take the engine
    down. *)
Inductive main_pc := InLoop | Closed | Deinitialized | Destroyed.

#[export] Instance main_pc_eq_dec : EqDecision main_pc.
Proof. solve_decision. Defined.

(** The two threads; [ran] is where the main thread was at each call of
    [FlutterEngineRunExpiredTasks]. *)
Record threads := mk_threads {
  task : task_pc;
  main_at : main_pc;
  ran : list main_pc;
}.

(** [state.running]: only [xdg_toplevel_close], run by the main thread in its
    loop, clears it. *)
Definition is_running (t : threads) : bool := match main_at t with InLoop => true | _ => false end.

(** One step of the task thread; [None] when it has ended. *)
Definition task_step (t : threads) : option threads :=
  match task t with
  | AtTest => Some (mk_threads (if is_running t then AtRun else AtEnd) (main_at t) (ran t))
  | AtRun => Some (mk_threads AtSleep (main_at t) (ran t ++ [main_at t]))
  | AtSleep => Some (mk_threads AtTest (main_at t) (ran t))
  | AtEnd => None
  end.

Definition main_step (t : threads) : option threads :=
  let go p := Some (mk_threads (task t) p (ran t)) in
  match main_at t with
  | InLoop => go Closed
  | Closed => go Deinitialized
  | Deinitialized => go Destroyed
  | Destroyed => None
  end.

(** The task thread is detached: nothing orders the steps of the two. *)
Inductive interleave : threads -> threads -> Prop :=
| interleave_task t t' : task_step t = Some t' -> interleave t t'
| interleave_main t t' : main_step t = Some t' -> interleave t t'.

Definition threads0 : threads := mk_threads AtTest InLoop [].

(** Calls the task thread makes once the loop has ended. *)
Definition late_calls (l : list main_pc) : list main_pc := filter (fun p => p <> InLoop) l.

Section theorems.
Context {W : Type} `{!Library ecall W}.
Implicit Types (s : flutter_state).

(** A message on the system channel in the form the application sends is
    answered with the reply of the method it names, whatever follows the method;
    a message on another channel gets an empty reply. *)
Theorem message_answered now before gap1 gap2 method after channel :
  QUOTE ∉ before -> COLON ∉ gap1 -> QUOTE ∉ gap2 -> QUOTE ∉ method -> (length method < 63)%nat ->
  traces (W := W) (platform_message_callback now channel (request before gap1 gap2 method after)) (fun r t =>
    r = 0 /\ exists v, t = [(SendResponse (if bool_decide (channel = chars "omnios/system")
                                          then take 511 (respond now method) else []), v)]).
Proof.
  intros Hb H1 H2 Hm Hl. unfold platform_message_callback. rewrite extract_request by done.
  case_bool_decide; repeat traces_step; split; eauto.
Qed.

(** Every reply fits its buffer. *)
Lemma dec_loop_length fuel n acc : (length (dec_loop fuel n acc) <= fuel + length acc)%nat.
Proof.
  revert n acc. induction fuel as [|fuel IH]; intros n acc; [done|]. cbn [dec_loop].
  destruct (n <? 10); [simpl; lia|]. specialize (IH (n / 10) ((48 + n mod 10) :: acc)). simpl in IH. lia.
Qed.

Lemma respond_fits now method : (length (respond now method) <= 511)%nat.
Proof.
  assert (length (dec now) <= 20)%nat as Hd by exact (dec_loop_length 20 now []). unfold respond.
  destruct (bool_decide (method = chars "getSystemInfo")).
  - rewrite !length_app. change (length (json "{'uptime':")) with 10%nat.
    change (length (json ",'apps':5,'memory':'128M'}")) with 26%nat. lia.
  - clear Hd. repeat (match goal with |- context [bool_decide ?P] => destruct (bool_decide P) end);
      rewrite <-Nat.leb_le; reflexivity.
Qed.

(** The capability reply is a constant: no request reaches the capability
    daemon, and every caller gets the same token. *)
Lemma capability_reply_constant now : respond now (chars "requestCapability") = json "{'tokenId':42}".
Proof. reflexivity. Qed.

(** ** Window size *)

Definition size_ok s : Prop := 0 < width s < 2 ^ 31 /\ 0 < height s < 2 ^ 31.

(** The sizes the protocol carries are 32-bit. *)
Definition event_ok (e : event) : Prop :=
  match e with ToplevelConfigure w h _ => w < 2 ^ 31 /\ h < 2 ^ 31 | _ => True end.

(** Sizes of windows created. *)
Definition windows (t : list (ecall * Z)) : list (Z * Z) :=
  omap (fun e => match e.1 with EglWindowCreate w h => Some (w, h) | _ => None end) t.

Lemma handle_size e s :
  event_ok e -> size_ok s -> traces (W := W) (handle e s) (fun s' t => size_ok s' /\ windows t = []).
Proof.
  intros He Hs. destruct e; cbn [handle]; unfold wl_registry_global; repeat case_match; repeat traces_step; try done.
  split; [|done]. unfold size_ok, xdg_toplevel_configure, set_view in *. cbn [width height]. simpl in He.
  destruct (Z.ltb_spec 0 w), (Z.ltb_spec 0 h); lia.
Qed.

Lemma windows_app t1 t2 : windows (t1 ++ t2) = windows t1 ++ windows t2.
Proof. apply omap_app. Qed.

Lemma handle_all_size evs s :
  Forall event_ok evs -> size_ok s -> traces (W := W) (handle_all evs s) (fun s' t => size_ok s' /\ windows t = []).
Proof.
  revert s. induction evs as [|e evs IH]; intros s He Hs; [by apply traces_ret|].
  apply Forall_cons in He as [He Hevs]. cbn [handle_all]. eapply traces_bind; [by apply handle_size|].
  intros s1 t1 [H1 W1]. eapply traces_mono; [by apply IH|]. intros s2 t2 [H2 W2]. split; [done|].
  by rewrite windows_app, W1, W2.
Qed.

(** C30: Whatever sizes the compositor asks for, and however often, the window the
    embedder creates and the size it keeps are positive 32-bit numbers. *)
Theorem window_size_positive evs1 evs2 s :
  Forall event_ok evs1 -> Forall event_ok evs2 -> size_ok s ->
  traces (W := W) (init_wayland evs1 evs2 s) (fun r t =>
    size_ok r.2 /\ Forall (fun '(w, h) => 0 < w < 2 ^ 31 /\ 0 < h < 2 ^ 31) (windows t)).
Proof.
  intros H1 H2 Hs. unfold init_wayland. traces_step. case_match; [by traces_step|].
  do 3 traces_step. eapply traces_bind; [by apply handle_all_size|]. intros s1 t1 [Hs1 W1].
  case_match; [traces_step; cbn; rewrite windows_app, W1; by split|].
  case_match; [traces_step; cbn; rewrite windows_app, W1; by split|].
  traces_step. case_match; [traces_step; cbn; rewrite windows_app, W1; by split|].
  do 8 traces_step. eapply traces_bind; [by apply handle_all_size|]. intros s2 t2 [Hs2 W2].
  traces_step. traces_step. split; [done|]. cbn. rewrite !windows_app, W1. cbn. rewrite windows_app, W2.
  cbn. constructor; [|constructor]. destruct Hs2 as [Hw Hh].
  unfold truthy. rewrite !(proj2 (Z.eqb_neq _ 0)) by lia. done.
Qed.
(** ** Reading from the display *)

(** The protocol of the display library: a successful [PrepareRead] is answered
    by one [ReadEvents] or [CancelRead] before the next read or dispatch.  The
    state says whether a read is announced; [None] is a violation. *)
Definition read_step (pending : bool) (e : ecall * Z) : option bool :=
  match e.1 with
  | PrepareRead => if e.2 =? 0 then (if pending then None else Some true) else Some pending
  | ReadEvents | CancelRead => if pending then Some false else None
  | Dispatch => if pending then None else Some false
  | _ => Some pending
  end.

Fixpoint run_reads (pending : bool) (t : list (ecall * Z)) : option bool :=
  match t with
  | [] => Some pending
  | e :: t' => p ← read_step pending e; run_reads p t'
  end.

(** Calls that neither read from the display nor start the application. *)
Definition quiet (e : ecall * Z) : Prop :=
  match e.1 with PrepareRead | ReadEvents | CancelRead | Dispatch | ThreadCreate => False | _ => True end.

Lemma run_reads_app p t1 t2 : run_reads p (t1 ++ t2) = q ← run_reads p t1; run_reads q t2.
Proof.
  revert p. induction t1 as [|e t1 IH]; intros p; [done|]. cbn [app run_reads].
  destruct (read_step p e); cbn; [apply IH|done].
Qed.

Lemma run_reads_quiet p t : Forall quiet t -> run_reads p t = Some p.
Proof.
  induction 1 as [|[c v] t Hc Ht IH]; [done|]. cbn [run_reads]. by destruct c.
Qed.

Lemma Forall_fmap_fst_quiet (t : list (ecall * Z)) :
  Forall (fun c => quiet (c, 0)) t.*1 -> Forall quiet t.
Proof.
  intros H. induction t as [|[c v] t IH]; [constructor|]. apply Forall_cons in H as [Hc Ht].
  constructor; [exact Hc|]. by apply IH.
Qed.

Lemma handle_all_quiet evs s : traces (W := W) (handle_all evs s) (fun _ t => Forall quiet t).
Proof.
  revert s. induction evs as [|e evs IH]; intros s; [by apply traces_ret|]. cbn [handle_all].
  apply (traces_bind _ _ (fun _ t => Forall quiet t)).
  - destruct e; cbn [handle]; unfold wl_registry_global; repeat case_match; repeat traces_step; repeat constructor.
  - intros s1 t1 H1. eapply traces_mono; [apply IH|]. intros s2 t2 H2. by apply Forall_app.
Qed.

Lemma init_wayland_quiet evs1 evs2 s : traces (W := W) (init_wayland evs1 evs2 s) (fun _ t => Forall quiet t).
Proof.
  unfold init_wayland. traces_step. case_match; [traces_step; by repeat constructor|].
  do 3 traces_step. eapply traces_bind; [apply handle_all_quiet|]. intros s1 t1 Ht1.
  case_match; [traces_step; rewrite app_nil_r; by repeat constructor|].
  case_match; [traces_step; rewrite app_nil_r; by repeat constructor|].
  traces_step. case_match; [traces_step; do 4 (constructor; [done|]); apply Forall_app; by repeat constructor|].
  do 8 traces_step. eapply traces_bind; [apply handle_all_quiet|]. intros s2 t2 Ht2. do 2 traces_step.
  do 4 (constructor; [done|]). apply Forall_app. split; [done|]. do 9 (constructor; [done|]).
  apply Forall_app. by repeat constructor.
Qed.

Lemma init_egl_quiet s : traces (W := W) (init_egl s) (fun _ t => Forall quiet t).
Proof.
  unfold init_egl. traces_step.
  eapply (traces_bind _ _ (fun _ t => Forall quiet t)).
  { case_match; repeat traces_step; by repeat constructor. }
  intros dpy t1 Ht1. case_match; [traces_step; rewrite app_nil_r; by constructor|].
  traces_step. case_match; [traces_step; constructor; [done|]; apply Forall_app; by repeat constructor|].
  traces_step. eapply (traces_bind _ _ (fun _ t => Forall quiet t)).
  { case_match; repeat traces_step; by repeat constructor. }
  intros count t2 Ht2.
  repeat (case_match || traces_step); (constructor; [done|]); apply Forall_app; (split; [done|]);
    do 2 (constructor; [done|]); apply Forall_app; (split; [done|]); by repeat constructor.
Qed.

Lemma loop_round_reads revents evs s :
  traces (W := W) (loop_round revents evs s) (fun _ t => run_reads false t = Some false).
Proof.
  unfold loop_round. traces_step. destruct (r =? 0) eqn:E.
  - traces_step. traces_step. destruct (_ && _); repeat traces_step; cbn; by rewrite E.
  - traces_step. eapply traces_mono; [apply handle_all_quiet|]. intros s' t Ht. cbn. rewrite E. cbn.
    by apply run_reads_quiet.
Qed.

Lemma event_loop_reads rounds s :
  traces (W := W) (event_loop rounds s) (fun r t => run_reads false t = Some false /\
    (forall s', r = Some s' -> running s' = false)).
Proof.
  revert s. induction rounds as [|[revents evs] rounds IH]; intros s; cbn [event_loop];
    (destruct (running s) eqn:E; cbn [negb]; [|traces_step; split; [done|by intros s' [= <-]]]).
  - traces_step. by split.
  - eapply traces_bind; [apply loop_round_reads|]. intros s1 t1 H1.
    eapply traces_mono; [apply IH|]. intros r t2 [H2 H3]. split; [|done]. by rewrite run_reads_app, H1.
Qed.

Definition teardown_calls : list ecall :=
  [EngineDeinitialize; EngineDestroy; EglDestroySurface; EglDestroyContext; EglTerminate;
   EglWindowDestroy; ToplevelDestroy; XdgSurfaceDestroy; SurfaceDestroy; DisplayDisconnect].

Lemma serve_log rounds s :
  traces (W := W) (serve rounds s) (fun r t => run_reads false t = Some false /\ r <> Some 1 /\
    (r = Some 0 -> exists t1 t2, t = t1 ++ t2 /\ t2.*1 = teardown_calls)).
Proof.
  unfold serve. do 3 traces_step. eapply traces_bind; [apply event_loop_reads|]. intros [s'|] t [Ht _].
  - unfold teardown. apply (traces_bind _ _ (fun _ t => t.*1 = teardown_calls)); [repeat traces_step; done|].
    intros [] t2 E2. traces_step. rewrite app_nil_r. split_and!; [|done|].
    + cbn. rewrite run_reads_app, Ht. cbn. apply run_reads_quiet, Forall_fmap_fst_quiet. rewrite E2. by repeat constructor.
    + intros _. eexists ((ThreadCreate, _) :: (ThreadDetach, _) :: (GetFd, _) :: t), t2. by split.
  - traces_step. rewrite app_nil_r. by split_and!.
Qed.

Lemma load_aot_quiet : traces (W := W) load_aot (fun _ t => Forall quiet t).
Proof. unfold load_aot. traces_step. case_match; repeat traces_step; by repeat constructor. Qed.

(** The buffer has the size of the file; what [malloc] returned is not looked at,
    and no call gives it back. *)
Lemma load_aot_calls : traces (W := W) load_aot (fun _ t =>
  t = [(Fopen, 0)] \/
  exists fp v1 size v2 p v3 v4, t = [(Fopen, fp); (Fseek 0 SEEK_END, v1); (Ftell, size); (Fseek 0 SEEK_SET, v2);
    (Malloc (u64 size), p); (Fread p (u64 size), v3); (Fclose, v4)]).
Proof.
  unfold load_aot. traces_step. destruct (Z.eqb_spec r 0) as [->|]; repeat traces_step; [by left|right].
  by do 7 eexists.
Qed.

(** C28: The embedder's whole run keeps the reading protocol of the display: every
    announced read is carried out or cancelled before the next read or dispatch.
    When it exits with status 0 it has torn everything down, in the reverse order
    of creation, as its last calls; when it exits with status 1 the application
    was never started. *)
Theorem embedder_run evs1 evs2 rounds :
  traces (W := W) (main evs1 evs2 rounds) (fun r t =>
    run_reads false t = Some false /\
    (r = Some 0 -> exists t1 t2, t = t1 ++ t2 /\ t2.*1 = teardown_calls) /\
    (r = Some 1 -> ThreadCreate ∉ t.*1)).
Proof.
  assert (forall t, Forall quiet t -> run_reads false t = Some false /\ ThreadCreate ∉ t.*1) as Hq.
  { intros t Ht. split; [by apply run_reads_quiet|]. intros ([c v] & E & Hin)%list_elem_of_fmap.
    rewrite Forall_forall in Ht. apply Ht in Hin. simpl in E. by subst c. }
  unfold main. eapply traces_bind; [apply init_wayland_quiet|]. intros [ok s1] t1 H1.
  destruct ok; cbn [negb]; [|traces_step; rewrite app_nil_r; destruct (Hq t1 H1); split_and!; done].
  eapply traces_bind; [apply init_egl_quiet|]. intros [ok s2] t2 H2.
  assert (Forall quiet (t1 ++ t2)) as H12 by by apply Forall_app.
  destruct ok; cbn [negb]; [|traces_step; rewrite app_nil_r; destruct (Hq _ H12); split_and!; done].
  eapply traces_bind; [apply load_aot_quiet|]. intros [] t3 H3. traces_step.
  assert (forall t w, t = t1 ++ t2 ++ t3 ++ [(EngineRun, w)] -> Forall quiet t) as Hpre.
  { intros t w ->. rewrite app_assoc. apply Forall_app. split; [done|]. apply Forall_app. by repeat constructor. }
  destruct (r =? kSuccess); cbn [negb].
  - eapply traces_mono; [apply serve_log|]. intros v t (Hr & Hn & H0).
    set (pre := t1 ++ t2 ++ t3 ++ [(EngineRun, r)]).
    replace (t1 ++ t2 ++ t3 ++ (EngineRun, r) :: t) with (pre ++ t)
      by (unfold pre; by rewrite <-!app_assoc).
    split_and!; [|intros (u1 & u2 & -> & E)%H0; exists (pre ++ u1), u2; by rewrite app_assoc|done].
    rewrite run_reads_app, (proj1 (Hq pre (Hpre pre r eq_refl))). exact Hr.
  - traces_step. destruct (Hq _ (Hpre _ r eq_refl)) as [Hr Ht]. split_and!; done.
Qed.

(** *** The task thread *)

(** What holds of the two threads in every interleaving. *)
Definition threads_inv (t : threads) : Prop :=
  if is_running t then late_calls (ran t) = [] /\ task t <> AtEnd
  else match task t with AtRun => late_calls (ran t) = [] | _ => (length (late_calls (ran t)) <= 1)%nat end.

Lemma late_calls_snoc l x : late_calls (l ++ [x]) = late_calls l ++ late_calls [x].
Proof. apply list.filter_app. Qed.

Lemma interleave_inv t t' : interleave t t' -> threads_inv t -> threads_inv t'.
Proof.
  intros [[tk m r] u E|[tk m r] u E] H; unfold threads_inv, task_step, main_step, is_running in *;
    cbn [task main_at ran] in *.
  - destruct tk; simplify_eq/=; destruct m; rewrite ?late_calls_snoc; try done;
      first [by rewrite H|by destruct H as [-> _]|by destruct H].
  - destruct m; simplify_eq/=; try done. destruct H as [-> H]. by destruct tk; simpl; try lia.
Qed.

(** However the two threads interleave, once the event loop has ended at most
    three steps of its own take the task thread to its end, and it has made at
    most one more call of the engine. *)
Theorem task_thread_stops t :
  rtc interleave threads0 t -> is_running t = false ->
  exists n t', (n <= 3)%nat /\ Nat.iter n (fun r => u ← r; task_step u) (Some t) = Some t' /\ task t' = AtEnd /\
    (length (late_calls (ran t')) <= 1)%nat.
Proof.
  intros Hr R. assert (threads_inv t) as H.
  { clear R. assert (threads_inv threads0) as H0 by done. revert H0.
    induction Hr as [|a b c Hab Hbc IH]; intros Ha; [done|]. eauto using interleave_inv. }
  destruct t as [tk m r]. unfold threads_inv, is_running in *. cbn [main_at task ran] in *.
  destruct tk; [exists 1%nat|exists 3%nat|exists 2%nat|exists 0%nat]; destruct m; try done; eexists; (split; [lia|]);
    (split; [reflexivity|]); (split; [reflexivity|]); cbn [ran]; first [done|by rewrite late_calls_snoc, H].
Qed.

(** The one late call may come after the engine is destroyed: nothing waits for
    the task thread. *)
Lemma task_after_destroy : exists t, rtc interleave threads0 t /\ Destroyed ∈ ran t.
Proof.
  exists (mk_threads AtSleep Destroyed [Destroyed]). split; [|by left].
  eapply rtc_l; [by apply interleave_task|]. do 3 (eapply rtc_l; [by apply interleave_main|]).
  eapply rtc_l; [by apply interleave_task|]. apply rtc_refl.
Qed.
End theorems.

(** ** Witnesses *)

Lemma message_answered_witness :
  exists v, made (platform_message_callback (W := list Z) 0 (chars "omnios/system")
      (json "{'method': 'getDeviceName', 'id': 3}") (mk_session [] [])).2 =
    [(SendResponse (json "{'name':'OmniOS'}"), v)].
Proof.
  destruct (message_answered (W := list Z) 0 (json "{") [] (chars " ") (chars "getDeviceName") (json ", 'id': 3}")
    (chars "omnios/system")) with (s := mk_session (C := ecall) (@nil Z) []) as (t & E & _ & v & Et).
  - by apply (bool_decide_unpack _).
  - by apply (bool_decide_unpack _).
  - by apply (bool_decide_unpack _).
  - by apply (bool_decide_unpack _).
  - vm_compute. lia.
  - exists v. rewrite Et in E. exact E.
Defined.

Lemma task_thread_stops_witness :
  exists n t', (n <= 3)%nat /\
    Nat.iter n (fun r => u ← r; task_step u) (Some (mk_threads AtRun Deinitialized [])) = Some t' /\ task t' = AtEnd /\
    (length (late_calls (ran t')) <= 1)%nat.
Proof.
  apply (task_thread_stops (mk_threads AtRun Deinitialized [])).
  - eapply rtc_l; [by apply interleave_task|]. eapply rtc_l; [by apply interleave_main|].
    eapply rtc_l; [by apply interleave_main|]. apply rtc_refl.
  - reflexivity.
Defined.

Lemma window_size_positive_witness :
  size_ok (init_wayland (W := list Z) [Global 1 "wl_compositor"; Global 2 "xdg_wm_base"] [ToplevelConfigure 0 900 []]
    (set_view false WIDTH HEIGHT state0) (mk_session [1; 1; 1; 1; 7; 8; 9] [])).1.2.
Proof.
  destruct (window_size_positive (W := list Z) [Global 1 "wl_compositor"; Global 2 "xdg_wm_base"]
    [ToplevelConfigure 0 900 []] (set_view false WIDTH HEIGHT state0) ltac:(by repeat constructor)
    ltac:(by repeat constructor) ltac:(done) (mk_session [1; 1; 1; 1; 7; 8; 9] [])) as (t & _ & H & _).
  exact H.
Defined.
End Embedder.
