(* ===== verification/App.v ===== *)
(** * The system application

    Models the logic of the Flutter application in omnios_app/lib: the catalogue
    (models), the runtimes, gestures, compatibility and system services
    (services), the state the screens share (services/state_provider.dart), the
    navigation of main.dart and the keypad of the lock screen.  The widgets
    themselves belong to the Flutter framework.

    Texts are lists of characters.  All applications are compile-time constants,
    which Dart makes identical when they are equal, so equality of items is
    equality of their fields. *)

From stdpp Require Import base numbers list option tactics strings.
From S2P Require Import Prelude Text Klog.
Import Text.
Open Scope Z_scope.

Module App.

Abbreviation text := (list Z).

(** A number in a text. *)
Definition show (n : Z) : text := if n <? 0 then 45 :: dec (- n) else dec n.

(** The value of a key in a constant map. *)
Fixpoint assoc {A} (k : text) (m : list (text * A)) : option A :=
  match m with
  | [] => None
  | (k', v) :: m' => if decide (k = k') then Some v else assoc k m'
  end.

(** ** Catalogue *)

Inductive AppPlatform := android | ios | cross.

#[export] Instance AppPlatform_eq_dec : EqDecision AppPlatform.
Proof. solve_decision. Defined.

Record AppItem := mk_item {
  name : text;
  emoji : text;
  category : text;
  platform : AppPlatform;
}.

#[export] Instance AppItem_eq_dec : EqDecision AppItem.
Proof. solve_decision. Defined.

Definition platformLabel (a : AppItem) : text :=
  match platform a with
  | android => chars "Android (ART)"
  | ios => chars "iOS (UIKit)"
  | cross => chars "OmniOS Native"
  end.

Definition platformColor (a : AppItem) : text :=
  match platform a with
  | android => chars "#3DDC84"
  | ios => chars "#007AFF"
  | cross => chars "#FF6B6B"
  end.

Definition apiLevel (a : AppItem) : text :=
  match platform a with
  | android => chars "API 35"
  | ios => chars "API 18"
  | cross => chars "Native"
  end.

Definition item (p : AppPlatform) (n : string) (e : text) (c : string) : AppItem :=
  mk_item (chars n) e (chars c) p.

Definition crossApps : list AppItem := [
  item cross "Phone" [0x1F4DE] "communication";
  item cross "Settings" [0x2699; 0xFE0F] "system";
  item cross "Calculator" [0x1F522] "tools";
  item cross "Calendar" [0x1F4C5] "productivity";
  item cross "Clock" [0x23F0] "tools";
  item cross "Weather" [0x1F324; 0xFE0F] "tools"].

Definition androidApps : list AppItem := [
  item android "Chrome" [0x1F310] "internet";
  item android "Maps" [0x1F5FA; 0xFE0F] "navigation";
  item android "Gmail" [0x2709; 0xFE0F] "communication";
  item android "YouTube" [0x25B6; 0xFE0F] "media";
  item android "Drive" [0x1F4C1] "productivity";
  item android "Photos" [0x1F4F8] "media"].

Definition iosApps : list AppItem := [
  item ios "Safari" [0x1F310] "internet";
  item ios "Messages" [0x1F4AC] "communication";
  item ios "Camera" [0x1F4F7] "media";
  item ios "Notes" [0x1F4DD] "productivity";
  item ios "Music" [0x1F3B5] "media";
  item ios "Wallet" [0x1F4B3] "finance"].

Definition getAll : list AppItem := crossApps ++ androidApps ++ iosApps.

Definition getByPlatform (p : AppPlatform) : list AppItem :=
  match p with
  | cross => crossApps
  | android => crossApps ++ androidApps
  | ios => crossApps ++ iosApps
  end.

(** ** Runtimes *)

Definition android_canRun (a : AppItem) : bool := bool_decide (platform a = android \/ platform a = cross).

Definition ios_canRun (a : AppItem) : bool := bool_decide (platform a = ios \/ platform a = cross).

Definition android_launch (a : AppItem) : text :=
  chars "[Android ART] " ++ name a ++ chars " baslatiliyor... (API " ++ show 35 ++ chars ")".

Definition ios_launch (a : AppItem) : text :=
  chars "[iOS UIKit] " ++ name a ++ chars " baslatiliyor... (API " ++ show 18 ++ chars ")".

Definition runtime_launch (a : AppItem) : text :=
  match platform a with
  | android => android_launch a
  | ios => ios_launch a
  | cross => chars "[OmniOS Native] " ++ name a ++ chars " baslatiliyor..."
  end.

Definition runtime_canRun (a : AppItem) : bool :=
  match platform a with
  | android => android_canRun a
  | ios => ios_canRun a
  | cross => true
  end.

Definition getPlatformApiLevel (a : AppItem) : text :=
  match platform a with
  | android => chars "API " ++ show 35
  | ios => chars "API " ++ show 18
  | cross => chars "Native"
  end.

(** ** Compatibility *)

Definition androidApiNames : list (text * text) :=
  (fun '(n, v) => (chars n, chars v)) <$>
  [("Chrome", "org.chromium.chrome"); ("Maps", "com.google.android.apps.maps"); ("Gmail", "com.google.android.gm");
   ("YouTube", "com.google.android.youtube"); ("Drive", "com.google.android.apps.docs");
   ("Photos", "com.google.android.apps.photos")]%string.

Definition iosApiNames : list (text * text) :=
  (fun '(n, v) => (chars n, chars v)) <$>
  [("Safari", "com.apple.mobilesafari"); ("Messages", "com.apple.MobileSMS"); ("Camera", "com.apple.camera");
   ("Notes", "com.apple.mobilenotes"); ("Music", "com.apple.mobilemusic"); ("Wallet", "com.apple.passbook")]%string.

(** [toLowerCase] on the letters of ASCII. *)
Definition toLowerCase (t : text) : text := (fun c => if (65 <=? c) && (c <=? 90) then c + 32 else c) <$> t.

Definition getBundleId (a : AppItem) : text :=
  match platform a with
  | android => default (chars "unknown.android") (assoc (name a) androidApiNames)
  | ios => default (chars "unknown.ios") (assoc (name a) iosApiNames)
  | cross => chars "com.omnios." ++ toLowerCase (name a)
  end.

Definition isFullyCompatible (a : AppItem) : bool :=
  match platform a with
  | cross => true
  | android => bool_decide (is_Some (assoc (name a) androidApiNames))
  | ios => bool_decide (is_Some (assoc (name a) iosApiNames))
  end.

(** ** Gestures *)

Record GestureAction := mk_gesture {
  gesture : text;
  action : text;
  description : text;
}.

Definition gestures (pinch desc : string) : list (text * (text * text)) :=
  (fun '(g, a, d) => (chars g, (chars a, chars d))) <$>
  [("swipe_up", "open_app_menu", "Uygulama menusu"); ("swipe_right", "open_recent_apps", "Son uygulamalar");
   ("swipe_left", "open_notifications", "Bildirimler"); ("swipe_down", "open_quick_settings", "Hizli ayarlar");
   ("double_tap", "go_home", "Ana ekran"); ("long_press", "voice_command", "Sesli komut");
   ("pinch_out", pinch, desc)]%string.

Definition normalActions : list (text * (text * text)) := gestures "app_selector" "Uygulama secici".

Definition flowActions : list (text * (text * text)) := gestures "app_selector_flow" "Coverflow secici".

Definition getAction (g : text) (isFlow : bool) : option GestureAction :=
  match assoc g (if isFlow then flowActions else normalActions) with
  | None => None
  | Some (a, d) => Some (mk_gesture g a d)
  end.

Definition getHints (isFlow : bool) : list GestureAction :=
  (fun '(g, (a, d)) => mk_gesture g a d) <$> (if isFlow then flowActions else normalActions).

Definition supportedGestures : list text := normalActions.*1.

(** ** System service *)

Record SystemInfo := mk_info {
  info_state : text;
  info_mode : text;
  activeProcesses : Z;
  totalApps : Z;
  androidReady : bool;
  iosReady : bool;
  info_uptime : Z;
}.

(** [_startTime] in milliseconds and [_runningApps]. *)
Record system_service := mk_service {
  startTime : Z;
  service_running : list AppItem;
}.

(** [list.remove]: the first occurrence, and whether there was one. *)
Fixpoint remove_first (a : AppItem) (l : list AppItem) : bool * list AppItem :=
  match l with
  | [] => (false, [])
  | b :: l' => if decide (a = b) then (true, l') else let '(r, l'') := remove_first a l' in (r, b :: l'')
  end.

Definition getInfo (now : Z) (s : system_service) : SystemInfo :=
  mk_info (if bool_decide (service_running s = []) then chars "IDLE" else chars "RUNNING") (chars "normal")
    (Z.of_nat (length (service_running s))) (Z.of_nat (length getAll)) true true
    (Z.quot (now - startTime s) 1000).

Definition service_launch (a : AppItem) (s : system_service) : bool * system_service :=
  if 50 <=? Z.of_nat (length (service_running s)) then (false, s)
  else (true, mk_service (startTime s) (service_running s ++ [a])).

Definition service_kill (a : AppItem) (s : system_service) : bool * system_service :=
  let '(r, l) := remove_first a (service_running s) in (r, mk_service (startTime s) l).

Definition uptime (now : Z) (s : system_service) : text :=
  let secs := Z.quot (now - startTime s) 1000 in
  show (Z.quot secs 3600) ++ chars "h " ++ show (Z.quot (secs mod 3600) 60) ++ chars "m " ++ show (secs mod 60) ++ chars "s".

(** ** Shared state *)

Inductive UIMode := normal | flow.
Inductive SystemState := idle | running | sleeping | shutdown.

#[export] Instance UIMode_eq_dec : EqDecision UIMode.
Proof. solve_decision. Defined.

Definition mode_name (m : UIMode) : text := match m with normal => chars "normal" | flow => chars "flow" end.

(** [OmniOSState]; [notified] counts the calls of [notifyListeners]. *)
Record OmniOSState := mk_state {
  currentMode : UIMode;
  systemState : SystemState;
  runningApps : list AppItem;
  eventLog : list text;
  currentApp : option AppItem;
  currentScreen : text;
  notified : nat;
}.

Definition state_boot : OmniOSState := mk_state normal idle [] [] None (chars "home") 0.

Definition isFlowMode (s : OmniOSState) : bool := bool_decide (currentMode s = flow).

Definition processCount (s : OmniOSState) : Z := Z.of_nat (length (runningApps s)).

(** [add], and [removeAt(0)] when there are more than 100. *)
Definition log_add (e : text) (l : list text) : list text :=
  let l := l ++ [e] in
  if 100 <? Z.of_nat (length l) then drop 1 l else l.

Definition logEvent (e : text) (s : OmniOSState) : OmniOSState :=
  mk_state (currentMode s) (systemState s) (runningApps s) (log_add e (eventLog s)) (currentApp s)
    (currentScreen s) (notified s).

Definition notifyListeners (s : OmniOSState) : OmniOSState :=
  mk_state (currentMode s) (systemState s) (runningApps s) (eventLog s) (currentApp s)
    (currentScreen s) (S (notified s)).

Definition set_mode (m : UIMode) (s : OmniOSState) : OmniOSState :=
  mk_state m (systemState s) (runningApps s) (eventLog s) (currentApp s) (currentScreen s) (notified s).

Definition toggleMode (s : OmniOSState) : OmniOSState :=
  let s := set_mode (match currentMode s with normal => flow | flow => normal end) s in
  notifyListeners (logEvent (chars "Mod degisti: " ++ mode_name (currentMode s)) s).

Definition setMode (m : UIMode) (s : OmniOSState) : OmniOSState :=
  if decide (currentMode s = m) then s
  else notifyListeners (logEvent (chars "Mod: " ++ mode_name m) (set_mode m s)).

Definition launchApp (a : AppItem) (s : OmniOSState) : bool * OmniOSState :=
  if 50 <=? Z.of_nat (length (runningApps s)) then (false, s) else
  let s := mk_state (currentMode s) running (runningApps s ++ [a]) (eventLog s) (Some a) (chars "detail") (notified s) in
  (true, notifyListeners (logEvent (runtime_launch a) s)).

Definition killApp (a : AppItem) (s : OmniOSState) : OmniOSState :=
  let l := (remove_first a (runningApps s)).2 in
  notifyListeners (mk_state (currentMode s) (if bool_decide (l = []) then idle else systemState s) l
    (eventLog s) (currentApp s) (currentScreen s) (notified s)).

Definition goHome (s : OmniOSState) : OmniOSState :=
  notifyListeners (mk_state (currentMode s) (systemState s) (runningApps s) (eventLog s) None (chars "home") (notified s)).

Definition processGesture (g : text) (s : OmniOSState) : text * OmniOSState :=
  match getAction g (isFlowMode s) with
  | None => (chars "unknown", s)
  | Some a => (action a, logEvent (chars "Jest: " ++ g ++ chars " -> " ++ action a) s)
  end.

Definition getAppsByPlatform (p : text) : list AppItem :=
  if decide (p = chars "android") then getByPlatform android
  else if decide (p = chars "ios") then getByPlatform ios
  else getAll.

(** [None] is the range error of [sublist]. *)
Definition getRecentEvents (count : Z) (s : OmniOSState) : option (list text) :=
  let n := Z.of_nat (length (eventLog s)) in
  if n <=? count then Some (eventLog s)
  else if count <? 0 then None
  else Some (drop (Z.to_nat (n - count)) (eventLog s)).

(** ** Navigation *)

(** [_PhoneFrameState] of main.dart. *)
Record frame := mk_frame {
  frame_mode : text;
  frame_screen : text;
  selectedApp : option AppItem;
}.

Definition frame_boot : frame := mk_frame (chars "normal") (chars "normal") None.

Definition frame_toggleMode (f : frame) : frame :=
  let m := if decide (frame_mode f = chars "normal") then chars "flow" else chars "normal" in
  mk_frame m m None.

Definition frame_launchApp (a : AppItem) (f : frame) : frame := mk_frame (frame_mode f) (chars "detail") (Some a).

Definition frame_goHome (f : frame) : frame := mk_frame (frame_mode f) (frame_mode f) None.

Definition frame_goBack (f : frame) : frame :=
  if decide (frame_screen f = chars "detail") then frame_goHome f else f.

Inductive screen := DetailScreen (a : AppItem) | FlowScreen | NormalScreen.

Definition buildScreen (f : frame) : screen :=
  match decide (frame_screen f = chars "detail"), selectedApp f with
  | left _, Some a => DetailScreen a
  | _, _ => if decide (frame_mode f = chars "flow") then FlowScreen else NormalScreen
  end.

(** ** Lock screen *)

Definition pinLength : Z := 4.

(** The digits typed, and whether the call of [onUnlock] is scheduled. *)
Definition onDigit (d : Z) (pin : list Z) : list Z * bool :=
  if pinLength <=? Z.of_nat (length pin) then (pin, false)
  else let pin := pin ++ [d] in (pin, Z.of_nat (length pin) =? pinLength).

Definition onDelete (pin : list Z) : list Z :=
  if bool_decide (pin = []) then pin else take (length pin - 1) pin.

(** ** The catalogue and the services *)

(** The applications listed for a platform are, in the order of the catalogue,
    those its runtime can run. *)
Lemma platform_lists_runnable :
  getByPlatform android = filter (fun a => android_canRun a = true) getAll /\
  getByPlatform ios = filter (fun a => ios_canRun a = true) getAll.
Proof. split; vm_compute; reflexivity. Qed.

(** Every application of the catalogue is known to its platform, and no two have
    the same bundle identifier. *)
Lemma bundle_ids_distinct :
  forallb isFullyCompatible getAll = true /\ NoDup (getBundleId <$> getAll).
Proof. split; [by vm_compute|]. apply (bool_decide_unpack _). by vm_compute. Qed.

(** Both modes know the same gestures. *)
Lemma gestures_same_keys : flowActions.*1 = normalActions.*1.
Proof. reflexivity. Qed.

Lemma assoc_elem {A} (k : text) (m : list (text * A)) : is_Some (assoc k m) <-> k ∈ m.*1.
Proof.
  induction m as [|[k' v] m IH]; cbn [assoc fmap list_fmap].
  - split; [by intros [? ?]|by intros ?%elem_of_nil].
  - rewrite elem_of_cons, <-IH. destruct (decide (k = k')) as [->|Hk]; split; [by left|by eexists|by right|by intros [?|?]].
Qed.

Lemma getAction_supported g fl : is_Some (getAction g fl) <-> g ∈ supportedGestures.
Proof.
  unfold getAction, supportedGestures.
  assert ((if fl then flowActions else normalActions).*1 = normalActions.*1) as <- by (by destruct fl).
  rewrite <-assoc_elem. destruct (assoc g _) as [[a d]|]; split; intros [? ?]; eauto; done.
Qed.

(** ** The shared state *)

Inductive op :=
| Toggle
| SetMode (m : UIMode)
| Launch (a : AppItem)
| Kill (a : AppItem)
| Home
| Gesture (g : text).

Definition step (o : op) (s : OmniOSState) : OmniOSState :=
  match o with
  | Toggle => toggleMode s
  | SetMode m => setMode m s
  | Launch a => (launchApp a s).2
  | Kill a => killApp a s
  | Home => goHome s
  | Gesture g => (processGesture g s).2
  end.

Definition run (ops : list op) (s : OmniOSState) : OmniOSState := fold_left (fun s o => step o s) ops s.

(** The events an operation logs. *)
Definition events (o : op) (s : OmniOSState) : list text :=
  match o with
  | Toggle => [chars "Mod degisti: " ++ mode_name (match currentMode s with normal => flow | flow => normal end)]
  | SetMode m => if decide (currentMode s = m) then [] else [chars "Mod: " ++ mode_name m]
  | Launch a => if 50 <=? Z.of_nat (length (runningApps s)) then [] else [runtime_launch a]
  | Kill _ | Home => []
  | Gesture g =>
      match getAction g (isFlowMode s) with
      | None => []
      | Some a => [chars "Jest: " ++ g ++ chars " -> " ++ action a]
      end
  end.

Fixpoint history (ops : list op) (s : OmniOSState) : list text :=
  match ops with
  | [] => []
  | o :: ops' => events o s ++ history ops' (step o s)
  end.

(** The application's invariant: at most 50 applications run, and the system is
    idle exactly when none does. *)
Record state_ok (s : OmniOSState) : Prop := {
  ok_running : (length (runningApps s) <= 50)%nat;
  ok_state : systemState s = if bool_decide (runningApps s = []) then idle else running;
}.

Lemma remove_first_length a l : (length (remove_first a l).2 <= length l)%nat.
Proof.
  induction l as [|b l IH]; cbn [remove_first]; [done|]. destruct (decide (a = b)); [simpl; lia|].
  destruct (remove_first a l) as [r l']. simpl in *. lia.
Qed.

Lemma remove_first_nil a l : (remove_first a l).2 = [] -> l = [] \/ l = [a].
Proof.
  destruct l as [|b l]; cbn [remove_first]; [by left|]. destruct (decide (a = b)) as [->|].
  - simpl. intros ->. by right.
  - by destruct (remove_first a l).
Qed.

Lemma step_ok o s : state_ok s -> state_ok (step o s).
Proof.
  intros [H1 H2]. destruct o; cbn [step].
  - by split.
  - unfold setMode. destruct (decide (currentMode s = m)); by split.
  - unfold launchApp. destruct (Z.leb_spec 50 (Z.of_nat (length (runningApps s)))); [by split|].
    split; cbn -[bool_decide]; [rewrite length_app; simpl; lia|]. rewrite bool_decide_eq_false_2; [done|].
    by destruct (runningApps s).
  - unfold killApp. pose proof (remove_first_length a (runningApps s)) as Hl.
    split; cbn [notifyListeners runningApps systemState]; [lia|].
    destruct (remove_first a (runningApps s)).2 as [|b l] eqn:E; [done|]. rewrite H2.
    by destruct (runningApps s).
  - by split.
  - unfold processGesture. destruct (getAction g (isFlowMode s)); by split.
Qed.

Lemma log_add_last e l : (length l <= 100)%nat -> log_add e l = Klog.last_n 100 (l ++ [e]).
Proof.
  intros H. unfold log_add, Klog.last_n. rewrite length_app. cbn [length].
  destruct (Z.ltb_spec 100 (Z.of_nat (length l + 1))); [f_equal; lia|].
  by replace (length l + 1 - 100)%nat with 0%nat by lia.
Qed.

Lemma last_n_length {A} n (l : list A) : (length (Klog.last_n n l) <= n)%nat.
Proof. unfold Klog.last_n. rewrite length_drop. lia. Qed.

Lemma step_log o s : (length (eventLog s) <= 100)%nat ->
  eventLog (step o s) = Klog.last_n 100 (eventLog s ++ events o s).
Proof.
  intros H. pose proof (Klog.last_n_all 100 (eventLog s) H) as Hall.
  destruct o; cbn [step events]; rewrite ?app_nil_r, ?Hall; try done.
  - apply (log_add_last _ _ H).
  - unfold setMode. destruct (decide (currentMode s = m)); [by rewrite app_nil_r, Hall|apply (log_add_last _ _ H)].
  - unfold launchApp. destruct (50 <=? _); [by rewrite app_nil_r, Hall|apply (log_add_last _ _ H)].
  - unfold processGesture. destruct (getAction g (isFlowMode s)); [apply (log_add_last _ _ H)|by rewrite app_nil_r, Hall].
Qed.

Lemma last_n_absorb {A} n (l r : list A) : Klog.last_n n (Klog.last_n n l ++ r) = Klog.last_n n (l ++ r).
Proof.
  destruct (decide (length r <= n)%nat); [by apply Klog.last_n_snoc|].
  by rewrite !(Klog.last_n_app_r _ _ r) by lia.
Qed.

Lemma run_log ops s : (length (eventLog s) <= 100)%nat ->
  eventLog (run ops s) = Klog.last_n 100 (eventLog s ++ history ops s).
Proof.
  revert s. induction ops as [|o ops IH]; intros s H; [by rewrite app_nil_r, Klog.last_n_all|].
  cbn [run fold_left history]. fold (run ops (step o s)). pose proof (step_log o s H) as Es.
  rewrite IH by (rewrite Es; apply last_n_length). rewrite Es, last_n_absorb. by rewrite app_assoc.
Qed.

Lemma run_ok ops s : state_ok s -> state_ok (run ops s).
Proof. revert s. induction ops as [|o ops IH]; intros s H; [done|]. apply IH, step_ok, H. Qed.

(** C39: After any sequence of operations at most 50 applications run, the system
    is idle exactly when none does, and [getRecentEvents] gives the last events
    of the whole history, as many as asked for up to a hundred. *)
Theorem app_state_correct ops count (Hcount : 0 <= count) :
  let s := run ops state_boot in
  state_ok s /\ getRecentEvents count s = Some (Klog.last_n (Nat.min (Z.to_nat count) 100) (history ops state_boot)).
Proof.
  cbv zeta. split; [apply run_ok; split; [simpl; lia|done]|]. unfold getRecentEvents.
  rewrite (run_log ops state_boot) by (simpl; lia). cbn [eventLog state_boot app].
  set (h := history ops state_boot). pose proof (last_n_length 100 h) as Hl. unfold Klog.last_n in *.
  rewrite length_drop in *. destruct (Z.leb_spec (Z.of_nat (length h - (length h - 100))) count).
  - f_equal. f_equal. lia.
  - rewrite (proj2 (Z.ltb_ge count 0)) by lia. f_equal. rewrite drop_drop. f_equal. lia.
Qed.

(** [killApp] does not forget the application it stops: it stays the current one. *)
Lemma killed_stays_current a :
  currentApp (killApp a (launchApp a state_boot).2) = Some a /\ runningApps (killApp a (launchApp a state_boot).2) = [].
Proof. split; [done|]. simpl. by rewrite decide_True. Qed.

(** ** Navigation *)

(** What the user sees: the mode and the application opened in it. *)
Definition view : Type := bool * option AppItem.

Inductive nav := NavToggle | NavLaunch (a : AppItem) | NavHome | NavBack.

Definition nav_step (n : nav) (f : frame) : frame :=
  match n with
  | NavToggle => frame_toggleMode f
  | NavLaunch a => frame_launchApp a f
  | NavHome => frame_goHome f
  | NavBack => frame_goBack f
  end.

Definition view_step (n : nav) (v : view) : view :=
  match n with
  | NavToggle => (negb v.1, None)
  | NavLaunch a => (v.1, Some a)
  | NavHome | NavBack => (v.1, None)
  end.

Definition view_screen (v : view) : screen :=
  match v.2 with
  | Some a => DetailScreen a
  | None => if v.1 then FlowScreen else NormalScreen
  end.

(** A frame that shows a view. *)
Definition shows (f : frame) (v : view) : Prop :=
  frame_mode f = (if v.1 then chars "flow" else chars "normal") /\ selectedApp f = v.2 /\
  frame_screen f = match v.2 with Some _ => chars "detail" | None => frame_mode f end.

Lemma nav_step_shows n f v : shows f v -> shows (nav_step n f) (view_step n v).
Proof.
  destruct f as [m sc sel], v as [fl app]. intros (Hm & Hs & Hc). simpl in *. subst.
  destruct n; unfold nav_step, frame_goBack, frame_toggleMode, shows; destruct fl, app; by cbn.
Qed.

Lemma shows_screen f v : shows f v -> buildScreen f = view_screen v.
Proof.
  destruct f as [m sc sel], v as [fl app]. intros (Hm & Hs & Hc). simpl in *. subst.
  by destruct fl, app.
Qed.

(** The three strings of the phone frame implement a mode with an optional
    application: after any taps the screen built is the one of that view, the
    application opened last if neither home, back nor a change of mode followed,
    and else the home screen of the mode. *)
Theorem navigation_refines ns :
  buildScreen (fold_left (fun f n => nav_step n f) ns frame_boot) =
  view_screen (fold_left (fun v n => view_step n v) ns (false, None)).
Proof.
  apply shows_screen. assert (shows frame_boot (false, None)) as H by done. revert H.
  generalize frame_boot, ((false, None) : view). induction ns as [|n ns IH]; intros f v H; [done|].
  apply IH. by apply nav_step_shows.
Qed.

(** ** Lock screen *)

(** The digits typed are never compared with anything: any four of them unlock. *)
Lemma any_pin_unlocks a b c d :
  let p1 := (onDigit a []).1 in let p2 := (onDigit b p1).1 in let p3 := (onDigit c p2).1 in
  (onDigit a []).2 = false /\ (onDigit b p1).2 = false /\ (onDigit c p2).2 = false /\ (onDigit d p3).2 = true.
Proof. done. Qed.

(** A digit typed and deleted leaves the digits as they were. *)
Lemma digit_delete d pin : (length pin < 4)%nat -> onDelete (onDigit d pin).1 = pin.
Proof.
  intros H. unfold onDigit, pinLength. rewrite (proj2 (Z.leb_gt 4 _)) by lia. cbn [fst]. unfold onDelete.
  rewrite bool_decide_eq_false_2 by (by destruct pin). rewrite length_app. cbn [length].
  replace (length pin + 1 - 1)%nat with (length pin) by lia. apply take_app_length.
Qed.

Lemma app_state_correct_witness :
  let s := run [Launch (item cross "Phone" [] "communication"); Toggle] state_boot in
  state_ok s /\ getRecentEvents 1 s =
    Some (Klog.last_n (Nat.min (Z.to_nat 1) 100) (history [Launch (item cross "Phone" [] "communication"); Toggle] state_boot)).
Proof. apply (app_state_correct [Launch (item cross "Phone" [] "communication"); Toggle] 1). lia. Defined.
End App.
