(* ===== verification/Bridge.v ===== *)
(** * The bridge between the application and the embedder

    Models omnios_app/lib/services/platform_bridge.dart, with the part of
    dart:convert it uses, and puts it together with the embedder's handler of
    messages: what a method of the bridge returns when the request it sends is
    answered by [platform_message_callback].  Characters are bytes of the UTF-8
    encoding. *)

From stdpp Require Import base numbers list option tactics strings.
From S2P Require Import Prelude Text Calls Embedder App.
Import Text App.
Open Scope Z_scope.

Module Bridge.

(** ** JSON *)

Definition QUOTE : Z := 34.
Definition BACKSLASH : Z := 92.
Definition COMMA : Z := 44.
Definition COLON : Z := 58.

(** The hexadecimal digit of a number below 16. *)
Definition hex_digit (n : Z) : Z := if n <? 10 then 48 + n else 87 + n.

(** A character inside a string, as [jsonEncode] writes it. *)
Definition escape (c : Z) : text :=
  if c =? QUOTE then [BACKSLASH; QUOTE]
  else if c =? BACKSLASH then [BACKSLASH; BACKSLASH]
  else if c =? 8 then [BACKSLASH; 98]
  else if c =? 9 then [BACKSLASH; 116]
  else if c =? 10 then [BACKSLASH; 110]
  else if c =? 12 then [BACKSLASH; 102]
  else if c =? 13 then [BACKSLASH; 114]
  else if c <? 32 then [BACKSLASH; 117; 48; 48; hex_digit (c / 16); hex_digit (c mod 16)]
  else [c].

Definition json_string (t : text) : text := QUOTE :: (t ≫= escape) ++ [QUOTE].

(** The values of the replies: strings and numbers that are not negative. *)
Inductive value := VStr (t : text) | VInt (n : Z).

Definition encode_value (v : value) : text :=
  match v with VStr t => json_string t | VInt n => show n end.

Definition encode_field (f : text * value) : text := json_string f.1 ++ COLON :: encode_value f.2.

Fixpoint encode_fields (fs : list (text * value)) : text :=
  match fs with
  | [] => []
  | [f] => encode_field f
  | f :: fs' => encode_field f ++ COMMA :: encode_fields fs'
  end.

Definition encode_object (fs : list (text * value)) : text := 123 :: encode_fields fs ++ [125].

(** [jsonDecode] on an object whose strings have no escapes; [None] for a text
    it refuses. *)
Fixpoint decode_string (s : text) : option (text * text) :=
  match s with
  | [] => None
  | c :: s' =>
      if c =? QUOTE then Some ([], s')
      else if (c =? BACKSLASH) || (c <? 32) then None
      else '(t, r) ← decode_string s'; Some (c :: t, r)
  end.

Definition is_digit (c : Z) : bool := (48 <=? c) && (c <=? 57).

Fixpoint decode_digits (s : text) : text * text :=
  match s with
  | c :: s' => if is_digit c then let '(d, r) := decode_digits s' in (c :: d, r) else ([], s)
  | [] => ([], [])
  end.

Definition decode_value (s : text) : option (value * text) :=
  match s with
  | c :: s' =>
      if c =? QUOTE then '(t, r) ← decode_string s'; Some (VStr t, r)
      else match decode_digits s with
           | ([], _) => None
           | (d, r) => Some (VInt (value_of d), r)
           end
  | [] => None
  end.

Fixpoint decode_fields (fuel : nat) (s : text) : option (list (text * value)) :=
  match fuel, s with
  | S fuel', q :: s' =>
      if negb (q =? QUOTE) then None else
      '(k, r) ← decode_string s';
      match r with
      | c :: r' =>
          if negb (c =? COLON) then None else
          '(v, r) ← decode_value r';
          match r with
          | [125] => Some [(k, v)]
          | c :: r' => if c =? COMMA then fs ← decode_fields fuel' r'; Some ((k, v) :: fs) else None
          | [] => None
          end
      | [] => None
      end
  | _, _ => None
  end.

Definition decode_object (s : text) : option (list (text * value)) :=
  match s with
  | [123; 125] => Some []
  | 123 :: s' => decode_fields (length s') s'
  | _ => None
  end.

(** ** The bridge *)

(** The message of a request; [args] is the encoding of the argument. *)
Definition encode_request (method : text) (args : option text) : text :=
  match args with
  | None => 123 :: json_string (chars "method") ++ COLON :: json_string method ++ [125]
  | Some a => 123 :: json_string (chars "method") ++ COLON :: json_string method ++
                COMMA :: json_string (chars "args") ++ COLON :: a ++ [125]
  end.

(** What an expression of type [A?] gives: a value, null, or a failed cast. *)
Inductive dart (A : Type) := Value (a : A) | Null | TypeError.
Arguments Value {A}.
Arguments Null {A}.
Arguments TypeError {A}.

(** [as String?] and [as int?] of an entry of a map. *)
Definition as_string (v : option value) : dart text :=
  match v with Some (VStr t) => Value t | None => Null | Some _ => TypeError end.

Definition as_int (v : option value) : dart Z :=
  match v with Some (VInt n) => Value n | None => Null | Some _ => TypeError end.

Section bridge.
(** The channel: the reply to a message, empty for none. *)
Variable channel : text -> text.

(** A reply that cannot be decoded is an exception, which [send] turns into
    null. *)
Definition send (method : text) (args : option text) : option (list (text * value)) :=
  decode_object (channel (encode_request method args)).

Definition getSystemInfo : option (list (text * value)) := send (chars "getSystemInfo") None.

Definition getDeviceName : dart text :=
  match send (chars "getDeviceName") None with
  | None => Null
  | Some r => as_string (assoc (chars "name") r)
  end.

Definition requestCapability (capability : text) : dart Z :=
  match send (chars "requestCapability") (Some (json_string capability)) with
  | None => Null
  | Some r => as_int (assoc (chars "tokenId") r)
  end.

End bridge.

(** The message [sendNotification] sends; its reply is not looked at. *)
Definition sendNotification (notification : list (text * value)) : text :=
  encode_request (chars "sendNotification") (Some (encode_object notification)).

(** ** Decoding an encoding *)

(** Strings without characters that need an escape. *)
Definition plain (t : text) : Prop := Forall (fun c => 32 <= c /\ c <> QUOTE /\ c <> BACKSLASH) t.

Definition field_ok (f : text * value) : Prop :=
  plain f.1 /\ match f.2 with VStr t => plain t | VInt n => 0 <= n < 2 ^ 64 end.

Ltac plain_text := unfold plain; apply (bool_decide_unpack _); vm_compute.

Lemma escape_plain t : plain t -> t ≫= escape = t.
Proof.
  induction 1 as [|c t (H1 & H2 & H3) Ht IH]; [done|]. cbn. rewrite IH. unfold escape.
  repeat rewrite (proj2 (Z.eqb_neq c _)) by (unfold QUOTE, BACKSLASH in *; lia).
  by rewrite (proj2 (Z.ltb_ge c 32)) by lia.
Qed.

Lemma decode_string_plain t r : plain t -> decode_string (t ++ QUOTE :: r) = Some (t, r).
Proof.
  induction 1 as [|c t (H1 & H2 & H3) Ht IH]; [done|]. cbn [app decode_string].
  rewrite !(proj2 (Z.eqb_neq c _)), (proj2 (Z.ltb_ge c 32)) by done. by rewrite IH.
Qed.

Lemma decode_digits_app d c r : Forall digit d -> is_digit c = false -> decode_digits (d ++ c :: r) = (d, c :: r).
Proof.
  intros Hd Hc. induction Hd as [|x d Hx Hd IH]; cbn [app decode_digits]; [by rewrite Hc|].
  unfold digit in Hx. unfold is_digit at 1. rewrite !(proj2 (Z.leb_le _ _)) by lia. cbn. by rewrite IH.
Qed.

Lemma dec_nonempty n : exists c d, dec n = c :: d.
Proof.
  assert (forall fuel m acc, (acc <> [] \/ fuel <> O) -> dec_loop fuel m acc <> []) as H.
  { induction fuel as [|fuel IH]; intros m acc Ha; [by destruct Ha|]. cbn [dec_loop].
    destruct (m <? 10); [done|]. apply IH. by left. }
  destruct (dec n) as [|c d] eqn:E; [|by exists c, d]. exfalso. by apply (H 20%nat n []); [right|].
Qed.

(** A value is followed by a comma or a closing brace. *)
Lemma decode_value_encode v c r :
  match v with VStr t => plain t | VInt n => 0 <= n < 2 ^ 64 end -> c = COMMA \/ c = 125 ->
  decode_value (encode_value v ++ c :: r) = Some (v, c :: r).
Proof.
  intros Hv Hc. destruct v as [t|n]; cbn [encode_value].
  - unfold json_string. cbn [app decode_value]. rewrite Z.eqb_refl, escape_plain, <-app_assoc by done.
    cbn [app]. by rewrite decode_string_plain.
  - destruct (dec_value n Hv) as [Hd Hn]. unfold show. rewrite (proj2 (Z.ltb_ge n 0)) by lia.
    destruct (dec_nonempty n) as (x & d & E).
    assert (decode_digits (dec n ++ c :: r) = (dec n, c :: r)) as Edig by (apply decode_digits_app; [done|by destruct Hc; subst]).
    rewrite E in *. cbn [app] in *. unfold decode_value. rewrite Edig.
    assert (digit x) as Hx by (by inversion Hd). unfold digit in Hx.
    rewrite (proj2 (Z.eqb_neq x QUOTE)) by (unfold QUOTE; lia). by rewrite Hn.
Qed.

Lemma encode_field_app f r :
  field_ok f -> encode_field f ++ r = QUOTE :: f.1 ++ QUOTE :: COLON :: encode_value f.2 ++ r.
Proof.
  intros [Hk _]. unfold encode_field, json_string. rewrite escape_plain by done. cbn. f_equal.
  by rewrite <-!app_assoc.
Qed.

Lemma decode_fields_encode fs : fs <> [] -> Forall field_ok fs -> forall fuel,
  (length fs <= fuel)%nat -> decode_fields fuel (encode_fields fs ++ [125]) = Some fs.
Proof.
  intros Hne Hf. induction Hf as [|f fs Hok Hfs IH]; [done|]. intros fuel Hl. clear Hne.
  destruct fuel as [|fuel]; [simpl in Hl; lia|]. destruct fs as [|g fs].
  - cbn [encode_fields]. rewrite encode_field_app by done. cbn [decode_fields]. rewrite Z.eqb_refl. cbn [negb].
    destruct f as [k v], Hok as [Hk Hv]. cbn [fst snd] in *. rewrite decode_string_plain by done.
    cbn. rewrite decode_value_encode; [done|done|by right].
  - change (encode_fields (f :: g :: fs)) with (encode_field f ++ COMMA :: encode_fields (g :: fs)).
    rewrite <-app_assoc, encode_field_app by done. cbn [decode_fields]. rewrite Z.eqb_refl. cbn [negb].
    destruct f as [k v], Hok as [Hk Hv]. cbn [fst snd] in *. rewrite decode_string_plain by done.
    cbn -[encode_fields]. rewrite decode_value_encode; [|done|by left]. cbn -[encode_fields].
    rewrite IH by (done || simpl in *; lia). done.
Qed.

Lemma encode_fields_length fs : (length fs <= length (encode_fields fs))%nat.
Proof.
  induction fs as [|f fs IH]; [done|]. destruct fs as [|g fs].
  - simpl. lia.
  - change (encode_fields (f :: g :: fs)) with (encode_field f ++ COMMA :: encode_fields (g :: fs)).
    rewrite length_app. cbn [length] in *. lia.
Qed.

Lemma decode_object_fields f s : decode_object (123 :: encode_field f ++ s) =
  decode_fields (length (encode_field f ++ s)) (encode_field f ++ s).
Proof. reflexivity. Qed.

(** Decoding the encoding of an object gives its fields back. *)
Lemma decode_encode_object fs : Forall field_ok fs -> decode_object (encode_object fs) = Some fs.
Proof.
  intros Hf. destruct fs as [|f fs]; [done|]. unfold encode_object.
  assert (exists s, encode_fields (f :: fs) = encode_field f ++ s) as [s Es].
  { destruct fs as [|g fs]; [exists []; by rewrite app_nil_r|by eexists]. }
  pose proof (encode_fields_length (f :: fs)) as Hl. rewrite Es, <-app_assoc, decode_object_fields, app_assoc, <-Es.
  apply decode_fields_encode; [done|done|]. rewrite length_app. lia.
Qed.

(** ** The bridge and the embedder *)

(** The text [platform_message_callback] answers with on the channel of the
    bridge at time [now]. *)
Definition embedder (now : Z) (req : text) : text :=
  match made (Embedder.platform_message_callback (W := list Z) now (chars "omnios/system") req (mk_session [] [])).2 with
  | [(Embedder.SendResponse t, _)] => t
  | _ => []
  end.

(** Whatever the argument is, the embedder finds the method of a request. *)
Lemma request_method method args :
  plain method -> (length method < 63)%nat -> Embedder.extract_method (encode_request method args) = method.
Proof.
  intros Hm Hl. set (after := match args with None => [125] | Some a =>
    COMMA :: json_string (chars "args") ++ COLON :: a ++ [125] end).
  replace (encode_request method args) with (Embedder.request [123] [] [] method after).
  - apply Embedder.extract_request; [by apply (bool_decide_unpack _)|apply not_elem_of_nil|apply not_elem_of_nil| |done].
    intros Hin. unfold plain in Hm. rewrite Forall_forall in Hm. by apply Hm in Hin as (_ & Hq & _).
  - unfold Embedder.request, encode_request, json_string, after. rewrite (escape_plain method) by done.
    destruct args; cbn; by rewrite <-?app_assoc.
Qed.

Lemma embedder_answers now method args :
  plain method -> (length method < 63)%nat ->
  embedder now (encode_request method args) = Embedder.respond now method.
Proof.
  intros Hm Hl. unfold embedder, Embedder.platform_message_callback. rewrite bool_decide_eq_true_2 by done.
  rewrite request_method by done. cbn. apply take_ge, Embedder.respond_fits.
Qed.

(** The replies of the embedder are encodings of objects. *)
Lemma respond_system_info now : 0 <= now ->
  Embedder.respond now (chars "getSystemInfo") =
  encode_object [(chars "uptime", VInt now); (chars "apps", VInt 5); (chars "memory", VStr (chars "128M"))].
Proof.
  intros Hn. unfold Embedder.respond. rewrite bool_decide_eq_true_2 by done.
  unfold encode_object. cbn [encode_fields]. unfold encode_field at 1. cbn [fst snd encode_value]. unfold show at 1.
  rewrite (proj2 (Z.ltb_ge now 0)) by done. cbn. by rewrite <-app_assoc.
Qed.

Lemma send_embedder now method args fs :
  plain method -> (length method < 63)%nat -> Forall field_ok fs -> Embedder.respond now method = encode_object fs ->
  send (embedder now) method args = Some fs.
Proof.
  intros Hm Hl Hf E. unfold send. rewrite embedder_answers, E by done. by apply decode_encode_object.
Qed.

(** The methods the embedder knows. *)
Definition methods : list text :=
  chars <$> ["getSystemInfo"; "getDeviceName"; "requestCapability"; "sendNotification"; "setClipboard"; "getClipboard"]%string.

Lemma respond_unknown now method : method ∉ methods ->
  Embedder.respond now method = encode_object [(chars "error", VStr (chars "unknown"))].
Proof.
  intros H. unfold methods in H. cbn [fmap list_fmap] in H. rewrite !not_elem_of_cons in H. destruct_and! H.
  unfold Embedder.respond. by rewrite !bool_decide_eq_false_2 by done.
Qed.

(** C29: The application's bridge and the embedder work together: the device name
    comes back as the string "OmniOS", a capability request as the token number,
    the system information as a map with the embedder's time, whatever the
    arguments are, and a method the embedder does not know as its error. *)
Theorem bridge_round_trip now (Hnow : 0 <= now < 2 ^ 63) :
  getDeviceName (embedder now) = Value (chars "OmniOS") /\
  (forall cap, requestCapability (embedder now) cap = Value 42) /\
  getSystemInfo (embedder now) =
    Some [(chars "uptime", VInt now); (chars "apps", VInt 5); (chars "memory", VStr (chars "128M"))] /\
  (forall method args, plain method -> (length method < 63)%nat -> method ∉ methods ->
     send (embedder now) method args = Some [(chars "error", VStr (chars "unknown"))]).
Proof.
  split_and!.
  - unfold getDeviceName.
    rewrite (send_embedder now _ _ [(chars "name", VStr (chars "OmniOS"))]); [done|by plain_text|simpl; lia| |done].
    repeat constructor; by plain_text.
  - intros cap. unfold requestCapability.
    rewrite (send_embedder now _ _ [(chars "tokenId", VInt 42)]); [done|by plain_text|simpl; lia| |done].
    repeat constructor; by plain_text.
  - unfold getSystemInfo. apply send_embedder; [by plain_text|simpl; lia| |apply respond_system_info; lia].
    repeat constructor; cbn [fst snd]; first [lia|by plain_text].
  - intros method args Hm Hl Hun. apply send_embedder; [done|done| |by apply respond_unknown].
    repeat constructor; by plain_text.
Qed.

Lemma bridge_round_trip_witness :
  getDeviceName (embedder 1000) = Value (chars "OmniOS") /\
  requestCapability (embedder 1000) (chars "camera") = Value 42 /\
  send (embedder 1000) (chars "openDoor") None = Some [(chars "error", VStr (chars "unknown"))].
Proof.
  destruct (bridge_round_trip 1000 ltac:(lia)) as (H1 & H2 & _ & H4). split; [exact H1|]. split; [exact (H2 _)|].
  apply (H4 (chars "openDoor") None); [by plain_text|simpl; lia|]. by apply (bool_decide_unpack _).
Defined.

End Bridge.
