(* ===== verification/Compositor.v ===== *)
(** * The compositor

    Models userspace/compositor/omnios-compositor.c: the handlers of the events
    of windows, layer surfaces, outputs and input devices, on the lists the
    server keeps, and the start-up.  The wlroots library, the allocator and the
    system are calls of Calls.v; a [wl_list] is the list of its elements, and the
    listeners that are linked into signals are part of the server's state, each
    with the address of the structure that contains it.  The state also has the
    heap, the addresses of the structures allocated and not yet freed: linking or
    unlinking a field of a structure that is not in it is an access to freed
    memory, and ends the run as [Undefined]. *)

From stdpp Require Import base numbers list option tactics strings.
From S2P Require Import Prelude Calls.
Open Scope Z_scope.

Module Compositor.

Inductive wcall :=
| Calloc | Free (p : Z)
| SceneTreeCreate | SceneSurfaceCreate (tree surface : Z) | SetEnabled (tree : Z) (on : bool)
| SetPosition (tree x y : Z) | NodeAt (lx ly : Z) | SceneSurfaceFromBuffer (buffer : Z) | XdgFromSurface (surface : Z)
| SetCursorImage | SetMaximized (x : Z) (on : bool) | SetFullscreen (x : Z) (on : bool)
| LayerConfigure (ls w h : Z)
| OutputInit (o : Z) | SetCustomMode (o w h mhz : Z) | OutputEnable (o : Z) | GetSceneOutput (o : Z) | LayoutAddAuto (o : Z)
| OutputCommit (o : Z) | CursorLoad | SceneCommit (so : Z) | SendFrameDone (so : Z) | SetState (o st : Z)
| KeyboardFromDevice (d : Z) | CompileKeymap | SetKeymap (k : Z) | SetRepeatInfo (k rate delay : Z)
| SeatSetKeyboard (k : Z) | NotifyModifiers (k : Z) | NotifyKey (time keycode st : Z)
| AttachInputDevice (d : Z) | SetCapabilities (caps : Z) | CursorSetSurface (surface hx hy : Z) | SetSelection (source serial : Z)
| Terminate | Fork | Exec (path : string) | ExitChild (code : Z)
| DisplayCreate | BackendCreate | RendererCreate | RendererInitShm | AllocatorCreate | SceneCreate
| SceneAttachLayout (layout : Z) | CompositorCreate | SubcompositorCreate | DataDeviceCreate | LayoutCreate
| XdgShellCreate | LayerShellCreate | CursorCreate | CursorAttachLayout (layout : Z) | CursorManagerCreate
| SeatCreate | BackendStart | DisplayRun | DisplayDestroy.

(** The listeners a structure of the compositor contains. *)
Inductive listener :=
| LMap | LUnmap | LDestroy | LRequestMove | LRequestResize | LRequestMaximize | LRequestFullscreen
| LCommit | LFrame | LRequestState | LModifiers | LKey.
#[export] Instance listener_eq_dec : EqDecision listener.
Proof. solve_decision. Defined.

Record layer_surface_t := mk_layer_surface {
  ls_addr : Z;
  ls_surface : Z;
  ls_anchor : Z;
  desired_width : Z;
  desired_height : Z;
}.

Record omnios_view := mk_view { v_addr : Z; v_xdg : Z; v_tree : Z }.
Record omnios_output := mk_output { o_addr : Z; o_wlr : Z; o_scene : Z }.
Record omnios_layer_surface := mk_layer { l_addr : Z; l_surface : Z; l_tree : Z }.
Record omnios_keyboard := mk_keyboard { k_addr : Z; k_wlr : Z }.

(** Elements of [server.outputs]: the layer surfaces are linked into it too. *)
Inductive output_node := NOutput (o : omnios_output) | NLayer (l : omnios_layer_surface).

Definition node_addr (n : output_node) : Z := match n with NOutput o => o_addr o | NLayer l => l_addr l end.

Record omnios_server := mk_server {
  views : list omnios_view;
  outputs : list output_node;
  keyboards : list omnios_keyboard;
  listeners : list (Z * listener);       (* linked into a signal *)
  ls_output : Z -> Z;                    (* the field [output] of a layer surface *)
  heap : list Z;                         (* the structures allocated *)
}.


Definition set_outputs o s := mk_server (views s) o (keyboards s) (listeners s) (ls_output s) (heap s).
Definition set_listeners l s := mk_server (views s) (outputs s) (keyboards s) l (ls_output s) (heap s).
Definition set_ls_output f s := mk_server (views s) (outputs s) (keyboards s) (listeners s) f (heap s).
Definition set_heap h s := mk_server (views s) (outputs s) (keyboards s) (listeners s) (ls_output s) h.

(** The structures with a field in one of the lists or in a signal. *)
Definition links (s : omnios_server) : list Z :=
  (v_addr <$> views s) ++ (node_addr <$> outputs s) ++ (k_addr <$> keyboards s) ++ (listeners s).*1.

(** Changing a list writes to the neighbours of the element: every link has to be
    in allocated memory. *)
Definition links_live (s : omnios_server) : bool := forallb (fun a => bool_decide (a ∈ heap s)) (links s).

(** ** Position of a layer surface *)

(** The masks of the layer shell protocol; the code also uses a mask for the
    centre. *)
Record anchors := mk_anchors { TOP : Z; BOTTOM : Z; LEFT : Z; RIGHT : Z; CENTER : Z }.

(** Sizes of the output are [int32_t], desired sizes [uint32_t]: differences and
    quotients are unsigned, the result an [int]. *)
Definition layer_position (m : anchors) (width height anchor dw dh : Z) : Z * Z :=
  let has k := truthy (Z.land anchor k) in
  let x := if has (CENTER m) then s32 (u32 (width - dw) / 2)
           else if has (LEFT m) then 0
           else if has (RIGHT m) then s32 (u32 (width - dw)) else 0 in
  let y := if has (BOTTOM m) then s32 (u32 (height - dh))
           else if has (TOP m) then 0
           else if has (CENTER m) then s32 (u32 (height - dh) / 2) else 0 in
  (x, y).

Section handlers.
Context {W : Type} `{!Library wcall W}.
Abbreviation prog := (prog wcall W).
Variable m : anchors.
Variable out_width out_height : Z -> Z.                (* fields of an output *)
Variable XKB_KEY_Escape XKB_KEY_F1 : Z.
Implicit Types (s : omnios_server).

(** ** Handlers *)

(** A handler goes on in a state, fails an assertion, or touches memory that is
    not allocated. *)
Inductive outcome (A : Type) := Running (a : A) (s : omnios_server) | Asserted | Undefined.
#[global] Arguments Running {A} _ _.
#[global] Arguments Asserted {A}.
#[global] Arguments Undefined {A}.

Definition handler (A : Type) : Type := omnios_server -> prog (outcome A).

#[global] Instance handler_ret : MRet handler := fun A a s => mret (Running a s).
#[global] Instance handler_bind : MBind handler := fun A B k h s =>
  r ← h s;
  match r with
  | Running a s => k a s
  | Asserted => mret Asserted
  | Undefined => mret Undefined
  end.

Definition ask (c : wcall) : handler Z := fun s => r ← call c; mret (Running r s).
Definition tell (c : wcall) : handler unit := fun s => invoke c;; mret (Running tt s).
Definition gets {A} (f : omnios_server -> A) : handler A := fun s => mret (Running (f s) s).
Definition update (f : omnios_server -> omnios_server) : handler unit := fun s => mret (Running tt (f s)).
Definition check (b : omnios_server -> bool) : handler unit := fun s => mret (if b s then Running tt s else Undefined).
Definition assert_ (b : bool) : handler unit := fun s => mret (if b then Running tt s else Asserted).

(** [calloc]: null, or memory that was not in use. *)
Definition calloc : handler Z :=
  a ← ask Calloc;
  if a =? 0 then mret a else
  check (fun s => negb (bool_decide (a ∈ heap s)));;
  update (fun s => set_heap (a :: heap s) s);;
  mret a.

Definition free (a : Z) : handler unit :=
  check (fun s => bool_decide (a ∈ heap s));;
  tell (Free a);;
  update (fun s => set_heap (filter (fun b => b <> a) (heap s)) s).

(** A field of the structure at [a] is read. *)
Definition touch (a : Z) : handler unit := check (fun s => bool_decide (a ∈ heap s)).

(** A list is changed at a field of the structure at [a], which is, or is not yet,
    an element of it. *)
Definition relink (a : Z) (is_linked : omnios_server -> bool) (expected : bool)
    (f : omnios_server -> omnios_server) : handler unit :=
  touch a;;
  check links_live;;
  check (fun s => eqb (is_linked s) expected);;
  update f.

(** [wl_signal_add(..., &x->l)], and [wl_list_remove(&x->l.link)], for the
    structure [x] at [a]. *)
Definition wl_signal_add (a : Z) (l : listener) : handler unit :=
  relink a (fun s => bool_decide ((a, l) ∈ listeners s)) false (fun s => set_listeners ((a, l) :: listeners s) s).
Definition unlink_listener (a : Z) (l : listener) : handler unit :=
  relink a (fun s => bool_decide ((a, l) ∈ listeners s)) true
    (fun s => set_listeners (filter (fun e => e <> (a, l)) (listeners s)) s).

Definition insert_node (n : output_node) : handler unit :=
  relink (node_addr n) (fun s => bool_decide (node_addr n ∈ node_addr <$> outputs s)) false
    (fun s => set_outputs (n :: outputs s) s).

(** ** Windows *)

(** The view under a position of the layout. *)
Definition desktop_view_at (lx ly : Z) s : prog (option omnios_view) :=
  buffer ← call (NodeAt lx ly);
  if buffer =? 0 then mret None else
  surface ← call (SceneSurfaceFromBuffer buffer);
  if surface =? 0 then mret None else
  x ← call (XdgFromSurface surface);
  if x =? 0 then mret None else
  mret (head (filter (fun v => v_xdg v = x) (views s))).

Definition xdg_surface_map (v : omnios_view) : prog unit := invoke (SetEnabled (v_tree v) true).
Definition xdg_surface_unmap (v : omnios_view) : prog unit := invoke (SetEnabled (v_tree v) false).


Definition reset_cursor_mode : prog unit := invoke SetCursorImage.

(** Moving and resizing are not implemented; the cursor is reset. *)
Definition begin_interactive (edge : Z) (move : bool) : prog unit := reset_cursor_mode.
Definition begin_move : prog unit := begin_interactive 0 true.
Definition begin_resize (edges : Z) : prog unit := begin_interactive edges false.

(** [requested] is what the window last asked for. *)
Definition begin_maximize (v : omnios_view) (requested : bool) : prog unit :=
  invoke (SetMaximized (v_xdg v) (negb requested)).
Definition begin_fullscreen (v : omnios_view) (requested : bool) : prog unit :=
  invoke (SetFullscreen (v_xdg v) (negb requested)).


(** ** Layer surfaces *)

Definition layer_surface_map (l : omnios_layer_surface) : prog unit := invoke (SetEnabled (l_tree l) true).
Definition layer_surface_unmap (l : omnios_layer_surface) : prog unit := invoke (SetEnabled (l_tree l) false).


Definition layer_surface_commit (l : omnios_layer_surface) (ls : layer_surface_t) s : prog unit :=
  let o := ls_output s (l_surface l) in
  if o =? 0 then mret tt else
  let '(x, y) := layer_position m (out_width o) (out_height o) (ls_anchor ls) (desired_width ls) (desired_height ls) in
  invoke (SetPosition (l_tree l) x y).

(** [wl_container_of(server->outputs.next, output, link)->wlr_output]: the field
    after the two that both structures begin with. *)
Definition first_output (n : output_node) : Z := match n with NOutput o => o_wlr o | NLayer l => l_surface l end.

Definition assign_output (ls : layer_surface_t) : handler unit :=
  o ← gets (fun s => ls_output s (ls_addr ls));
  if o =? 0 then
    nodes ← gets outputs;
    match nodes with
    | [] => mret tt
    | n :: _ =>
        touch (node_addr n);;
        update (fun s => set_ls_output (fun a => if a =? ls_addr ls then first_output n else ls_output s a) s)
    end
  else mret tt.

Definition new_layer_surface (ls : layer_surface_t) : handler unit :=
  assign_output ls;;
  a ← calloc;
  assert_ (negb (a =? 0));;
  tree ← ask SceneTreeCreate;
  tell (SetEnabled tree false);;
  tell (SceneSurfaceCreate tree (ls_surface ls));;
  wl_signal_add a LMap;;
  wl_signal_add a LUnmap;;
  wl_signal_add a LDestroy;;
  wl_signal_add a LCommit;;
  insert_node (NLayer (mk_layer a (ls_addr ls) tree));;
  o ← gets (fun s => ls_output s (ls_addr ls));
  tell (LayerConfigure (ls_addr ls) (if o =? 0 then 1280 else out_width o) (if o =? 0 then 720 else out_height o)).

(** ** Outputs *)

Definition output_frame (o : omnios_output) : prog unit :=
  invoke (SceneCommit (o_scene o));; invoke (SendFrameDone (o_scene o)).

Definition output_request_state (o : omnios_output) (st : Z) : prog unit := invoke (SetState (o_wlr o) st).



(** ** Input *)

Definition keyboard_modifiers (k : omnios_keyboard) : prog unit :=
  invoke (SeatSetKeyboard (k_wlr k));; invoke (NotifyModifiers (k_wlr k)).

(** [None] in the child process, which ends. *)
Definition handle_keybinding (sym : Z) : prog (option bool) :=
  if sym =? XKB_KEY_Escape then invoke Terminate;; mret (Some true)
  else if sym =? XKB_KEY_F1 then
    pid ← call Fork;
    if pid =? 0 then
      invoke (Exec "/usr/bin/omnios-flutter-embedder");;
      invoke (ExitChild 1);;
      mret None
    else mret (Some true)
  else mret (Some false).

(** The loop over the symbols of a key. *)
Fixpoint try_bindings (syms : list Z) : prog (option bool) :=
  match syms with
  | [] => mret (Some false)
  | sym :: syms' =>
      r ← handle_keybinding sym;
      match r with
      | Some false => try_bindings syms'
      | _ => mret r
      end
  end.

(** [syms] are the symbols of the key under the current layout. *)
Definition keyboard_key (k : omnios_keyboard) (time keycode st : Z) (syms : list Z) : prog unit :=
  r ← (if st =? 1 then try_bindings syms else mret (Some false));
  match r with
  | None | Some true => mret tt
  | Some false => invoke (SeatSetKeyboard (k_wlr k));; invoke (NotifyKey time keycode st)
  end.








(** A client may only set the cursor while the pointer is over it. *)
Definition seat_request_cursor (client focused surface hx hy : Z) : prog unit :=
  if client =? focused then invoke (CursorSetSurface surface hx hy) else mret tt.

Definition seat_request_set_selection (source serial : Z) : prog unit := invoke (SetSelection source serial).

(** ** Start-up *)

Definition startup_cmds : list string := ["/usr/bin/omnios-flutter-embedder"%string].

(** [false] in a child process. *)
Fixpoint launch (cmds : list string) : prog bool :=
  match cmds with
  | [] => mret true
  | c :: cmds' =>
      pid ← call Fork;
      if pid =? 0 then invoke (Exec c);; invoke (ExitChild 1);; mret false
      else launch cmds'
  end.

(** The exit status; [None] in a child process.  The structure is zeroed, so
    [output_layout] is still null when it is attached to the scene. *)
Definition main : prog (option Z) :=
  let output_layout := 0 in
  invoke DisplayCreate;;
  invoke BackendCreate;;
  invoke RendererCreate;;
  invoke RendererInitShm;;
  invoke AllocatorCreate;;
  invoke SceneCreate;;
  invoke (SceneAttachLayout output_layout);;
  invoke CompositorCreate;;
  invoke SubcompositorCreate;;
  invoke DataDeviceCreate;;
  output_layout ← call LayoutCreate;
  invoke XdgShellCreate;;
  invoke LayerShellCreate;;
  invoke CursorCreate;;
  invoke (CursorAttachLayout output_layout);;
  invoke CursorManagerCreate;;
  invoke CursorLoad;;
  invoke SeatCreate;;
  ok ← call BackendStart;
  if ok =? 0 then mret (Some 1) else
  parent ← launch startup_cmds;
  if negb parent then mret None else
  invoke DisplayRun;;
  invoke DisplayDestroy;;
  mret (Some 0).
End handlers.

(** ** Positions *)

(** A layer surface no larger than its output lies inside it, whatever edges
    it is anchored to. *)
Theorem layer_position_inside m width height anchor dw dh :
  0 <= dw <= width -> 0 <= dh <= height -> width < 2 ^ 31 -> height < 2 ^ 31 ->
  let '(x, y) := layer_position m width height anchor dw dh in
  0 <= x /\ x + dw <= width /\ 0 <= y /\ y + dh <= height.
Proof.
  intros Hw Hh Hw' Hh'. unfold layer_position.
  rewrite !(wrap_small 32) by lia.
  assert (0 <= (width - dw) / 2 <= width - dw) by (split; [apply Z.div_pos|apply Z.div_le_upper_bound]; lia).
  assert (0 <= (height - dh) / 2 <= height - dh) by (split; [apply Z.div_pos|apply Z.div_le_upper_bound]; lia).
  rewrite !(swrap_small 32) by lia. repeat case_match; lia.
Qed.

(** The division of the centred position is unsigned: a surface two pixels wider
    than its output is placed at the far end of the coordinate range. *)
Lemma centre_of_wide_surface m height dh anchor :
  truthy (Z.land anchor (CENTER m)) = true ->
  (layer_position m 1000 height anchor 1002 dh).1 = 2 ^ 31 - 1.
Proof. intros H. unfold layer_position. cbn [fst]. by rewrite H. Qed.

(** ** Listeners *)

Definition view_listeners : list listener :=
  [LMap; LUnmap; LDestroy; LRequestMove; LRequestResize; LRequestMaximize; LRequestFullscreen].
Definition layer_listeners : list listener := [LMap; LUnmap; LDestroy; LCommit].
Definition output_listeners : list listener := [LFrame; LDestroy; LRequestState].
Definition keyboard_listeners : list listener := [LModifiers; LKey; LDestroy].

(** The structures in the lists, with the listeners each contains. *)
Definition node_object (n : output_node) : Z * list listener :=
  (node_addr n, match n with NOutput _ => output_listeners | NLayer _ => layer_listeners end).

Definition objects (s : omnios_server) : list (Z * list listener) :=
  ((fun v => (v_addr v, view_listeners)) <$> views s) ++ (node_object <$> outputs s) ++
  ((fun k => (k_addr k, keyboard_listeners)) <$> keyboards s).

Definition expand (l : list (Z * list listener)) : list (Z * listener) :=
  l ≫= fun o => (fun x => (o.1, x)) <$> o.2.

(** No two structures share an address, what is allocated is exactly the structures
    in the lists, and the listeners linked into signals are exactly theirs. *)
Definition linked (s : omnios_server) : Prop :=
  NoDup (objects s).*1 /\ heap s ≡ₚ (objects s).*1 /\ listeners s ≡ₚ expand (objects s).

(** While a structure is built or taken down: it is allocated and in no list, and
    the listeners [ls] of it are linked. *)
Definition half (a : Z) (ls : list listener) (s : omnios_server) : Prop :=
  a ∉ (objects s).*1 /\ NoDup (objects s).*1 /\ heap s ≡ₚ a :: (objects s).*1 /\
  listeners s ≡ₚ (((fun l => (a, l)) <$> ls) ++ expand (objects s)).

Lemma expand_cons a ls l : expand ((a, ls) :: l) = ((fun x => (a, x)) <$> ls) ++ expand l.
Proof. done. Qed.

Lemma expand_app l1 l2 : expand (l1 ++ l2) = expand l1 ++ expand l2.
Proof. apply bind_app. Qed.

Lemma filter_all {A} (P : A -> Prop) `{!forall x, Decision (P x)} (l : list A) :
  (forall x, x ∈ l -> P x) -> filter P l = l.
Proof.
  induction l as [|x l IH]; intros Hl; [done|]. rewrite filter_cons_True by (apply Hl; left).
  f_equal. apply IH. intros y Hy. apply Hl. by right.
Qed.

Lemma filter_none {A} (P : A -> Prop) `{!forall x, Decision (P x)} (l : list A) :
  (forall x, x ∈ l -> ~ P x) -> filter P l = [].
Proof.
  induction l as [|x l IH]; intros Hl; [done|]. rewrite filter_cons_False by (apply Hl; left).
  apply IH. intros y Hy. apply Hl. by right.
Qed.

Lemma elem_of_expand a x l : (a, x) ∈ expand l -> a ∈ l.*1.
Proof.
  intros ([b ls'] & Hin & Hl)%list_elem_of_bind. apply list_elem_of_fmap in Hin as (y & [= -> ->] & _).
  apply list_elem_of_fmap. by exists (b, ls').
Qed.

Lemma expand_perm l l' : l ≡ₚ l' -> expand l ≡ₚ expand l'.
Proof.
  induction 1 as [|[a ls] l l' _ IH|[a ls] [b ls'] l|l1 l2 l3 _ IH1 _ IH2]; [done|..].
  - by rewrite !expand_cons, IH.
  - rewrite !expand_cons. by rewrite Permutation_app_swap_app.
  - by rewrite IH1.
Qed.


Lemma objects_addrs s :
  (objects s).*1 = (v_addr <$> views s) ++ (node_addr <$> outputs s) ++ (k_addr <$> keyboards s).
Proof. unfold objects. by rewrite !fmap_app, <-!list_fmap_compose. Qed.


(** All links are in allocated memory when those of the lists and of the signals
    are. *)
Lemma links_live_intro s :
  (forall a, a ∈ (objects s).*1 -> a ∈ heap s) -> (forall a l, (a, l) ∈ listeners s -> a ∈ heap s) ->
  links_live s = true.
Proof.
  intros Ho Hl. apply forallb_forall. intros a Ha%list_elem_of_In. apply bool_decide_eq_true_2.
  unfold links in Ha. rewrite !app_assoc, elem_of_app, <-app_assoc, <-objects_addrs in Ha.
  destruct Ha as [Ha|([b l] & -> & Ha)%list_elem_of_fmap]; [by apply Ho|by eapply Hl].
Qed.



Lemma half_alive a ls s : half a ls s -> a ∈ heap s /\ links_live s = true.
Proof.
  intros (_ & _ & Hh & Hl). assert (a ∈ heap s) as Ha by (rewrite Hh; left). split; [done|]. apply links_live_intro.
  - intros b Hb. rewrite Hh. by right.
  - intros b l. rewrite Hl, Hh, elem_of_app.
    intros [(l' & [= -> _] & _)%list_elem_of_fmap|Hb%elem_of_expand]; [left|by right].
Qed.

Lemma half_listener a l ls s : half a ls s -> (a, l) ∈ listeners s <-> l ∈ ls.
Proof.
  intros (Ha & _ & _ & Hl). rewrite Hl, elem_of_app. split.
  - by intros [(l' & [= ->] & ?)%list_elem_of_fmap|Hb%elem_of_expand].
  - intros H. left. apply list_elem_of_fmap. eauto.
Qed.

(** ** The handlers, step by step *)

Section steps.
Context {W : Type} `{!Library wcall W}.
Implicit Types (s : omnios_server).

(** Whatever the replies are, [p] started in [s] goes on with [Q], or an allocation
    was refused, or the allocator handed out a structure of [h] again. *)
Definition wp {A} (h : list Z) (p : handler (W := W) A) (Q : A -> omnios_server -> Prop) s : Prop :=
  traces (p s) (fun r t =>
    match r with
    | Running a s' => Q a s'
    | Asserted => (Calloc, 0) ∈ t
    | Undefined => exists a, (Calloc, a) ∈ t /\ a ∈ h
    end).

Lemma wp_ret {A} h (a : A) (Q : A -> omnios_server -> Prop) s : Q a s -> wp h (mret a) Q s.
Proof. intros H. by apply traces_ret. Qed.


Lemma wp_bind {A B} h (p : handler A) (k : A -> handler B) Q s :
  wp h p (fun a s' => wp h (k a) Q s') s -> wp h (p ≫= k) Q s.
Proof.
  intros Hp. eapply traces_bind; [exact Hp|]. intros [a s'| |] t1 H1.
  - eapply traces_mono; [exact H1|]. intros [] t; cbn; [done|..]; setoid_rewrite elem_of_app; naive_solver.
  - apply traces_ret. by rewrite app_nil_r.
  - apply traces_ret. by rewrite app_nil_r.
Qed.

Lemma wp_ask h c (Q : Z -> omnios_server -> Prop) s : (forall r, Q r s) -> wp h (ask c) Q s.
Proof. intros H. unfold wp, ask. do 2 traces_step. apply H. Qed.

Lemma wp_tell h c (Q : unit -> omnios_server -> Prop) s : Q tt s -> wp h (tell c) Q s.
Proof. intros H. unfold wp, tell. do 2 traces_step. apply H. Qed.

Lemma wp_gets {A} h (f : omnios_server -> A) (Q : A -> omnios_server -> Prop) s : Q (f s) s -> wp h (gets f) Q s.
Proof. intros H. by apply traces_ret. Qed.

Lemma wp_update h f (Q : unit -> omnios_server -> Prop) s : Q tt (f s) -> wp h (update f) Q s.
Proof. intros H. by apply traces_ret. Qed.

Lemma wp_check h b (Q : unit -> omnios_server -> Prop) s : b s = true -> Q tt s -> wp h (check b) Q s.
Proof. intros Hb H. apply traces_ret. by rewrite Hb. Qed.

Lemma wp_relink h a is_linked e f (Q : unit -> omnios_server -> Prop) s :
  a ∈ heap s -> links_live s = true -> is_linked s = e -> Q tt (f s) -> wp h (relink a is_linked e f) Q s.
Proof.
  intros Ha Hl He H. unfold relink, touch. apply wp_bind, wp_check; [by apply bool_decide_eq_true_2|].
  apply wp_bind, wp_check; [done|]. apply wp_bind, wp_check; [rewrite He; apply eqb_reflx|]. by apply wp_update.
Qed.

Lemma half_alloc a s : linked s -> a ∉ heap s -> half a [] (set_heap (a :: heap s) s).
Proof.
  intros (Hnd & Hh & Hl) Ha. split_and!; [by rewrite <-Hh|done| |done].
  change ((a :: heap s) ≡ₚ a :: (objects s).*1). by rewrite Hh.
Qed.

(** An allocation and the assertion on it. *)
Lemma wp_calloc {B} (k : Z -> handler B) Q s :
  linked s -> (forall a s', half a [] s' -> wp (heap s) (k a) Q s') ->
  wp (heap s) (a ← calloc; assert_ (negb (a =? 0));; k a) Q s.
Proof.
  intros Hs Hk. eapply (traces_bind _ _ (fun r t =>
    match r with
    | Running a s' => (a = 0 /\ (Calloc, 0) ∈ t) \/ (a <> 0 /\ half a [] s')
    | Asserted => False
    | Undefined => exists a, (Calloc, a) ∈ t /\ a ∈ heap s
    end)).
  - apply (traces_bind _ _ (fun r t => exists a, r = Running a s /\ t = [(Calloc, a)])); [repeat traces_step; eauto|].
    intros ? ? (a & -> & ->). destruct (Z.eqb_spec a 0) as [->|Ha]; [traces_step; left; split; [done|left]|].
    destruct (bool_decide_reflect (a ∈ heap s)) as [Hin|Hin].
    + assert (bool_decide (a ∈ heap s) = true) as E by by apply bool_decide_eq_true_2.
      intros s0. exists []. unfold mbind, handler_bind, check. cbn. rewrite E. cbn. split; [by rewrite app_nil_r|].
      exists a. split; [left|done].
    + assert (bool_decide (a ∈ heap s) = false) as E by by apply bool_decide_eq_false_2.
      intros s0. exists []. unfold mbind, handler_bind, check. cbn. rewrite E. cbn. split; [by rewrite app_nil_r|].
      right. split; [done|]. by apply half_alloc.
  - intros [a s'| |] t1; [|done|].
    + intros [[-> Ht]|[Ha Hh]].
      * apply traces_ret. apply elem_of_app. by left.
      * rewrite (proj2 (Z.eqb_neq a 0)) by done. eapply traces_mono; [by apply Hk|].
        intros [] t; cbn; [done|..]; setoid_rewrite elem_of_app; naive_solver.
    + intros H. apply traces_ret. by rewrite app_nil_r.
Qed.

Lemma wp_signal_add h a l ls (Q : unit -> omnios_server -> Prop) s :
  half a ls s -> l ∉ ls -> (forall s', half a (l :: ls) s' -> Q tt s') -> wp h (wl_signal_add a l) Q s.
Proof.
  intros Hs Hnl HQ. destruct (half_alive a ls s Hs) as [Ha Hlive]. apply wp_relink; [done|done| |].
  - apply bool_decide_eq_false_2. by rewrite (half_listener a l ls s Hs).
  - apply HQ. destruct Hs as (Hn & Hnd & Hh & Hl). split_and!; [done..|].
    change (((a, l) :: listeners s) ≡ₚ (a, l) :: (((fun l => (a, l)) <$> ls) ++ expand (objects s))). by rewrite Hl.
Qed.

Lemma wp_unlink_listener h a l ls (Q : unit -> omnios_server -> Prop) s :
  half a (l :: ls) s -> l ∉ ls -> (forall s', half a ls s' -> Q tt s') -> wp h (unlink_listener a l) Q s.
Proof.
  intros Hs Hnl HQ. destruct (half_alive a _ s Hs) as [Ha Hlive]. apply wp_relink; [done|done| |].
  - apply bool_decide_eq_true_2. rewrite (half_listener a l _ s Hs). left.
  - apply HQ. destruct Hs as (Hn & Hnd & Hh & Hl). split_and!; [done..|].
    change (filter (fun e => e <> (a, l)) (listeners s) ≡ₚ ((fun l => (a, l)) <$> ls) ++ expand (objects s)).
    rewrite Hl. cbn [fmap list_fmap app]. rewrite filter_cons_False by naive_solver.
    rewrite filter_all; [done|]. intros e [(l' & -> & Hin)%list_elem_of_fmap|Hin]%elem_of_app [= ->].
    + done.
    + by apply elem_of_expand in Hin.
Qed.

Lemma wp_free h a (Q : unit -> omnios_server -> Prop) s :
  half a [] s -> (forall s', linked s' -> Q tt s') -> wp h (free a) Q s.
Proof.
  intros Hs HQ. destruct (half_alive a _ s Hs) as [Ha _]. apply wp_bind, wp_check; [by apply bool_decide_eq_true_2|].
  apply wp_bind, wp_tell, wp_update, HQ. destruct Hs as (Hn & Hnd & Hh & Hl). split_and!; [done| |done].
  change (filter (fun b => b <> a) (heap s) ≡ₚ (objects s).*1). rewrite Hh, filter_cons_False by naive_solver.
  rewrite filter_all; [done|]. by intros b Hb ->.
Qed.

(** Putting a structure into its list, with all its listeners linked. *)
Lemma half_insert a ls full s s' :
  half a ls s -> ls ≡ₚ full -> objects s' ≡ₚ (a, full) :: objects s -> listeners s' = listeners s -> heap s' = heap s ->
  linked s'.
Proof.
  intros (Hn & Hnd & Hh & Hl) Hf Ho El Eh. split_and!.
  - rewrite Ho. by constructor.
  - by rewrite Eh, Hh, Ho.
  - rewrite El, Hl, (expand_perm _ _ Ho), expand_cons. by rewrite Hf.
Qed.


Lemma half_not_in a ls s :
  half a ls s -> a ∉ (v_addr <$> views s) /\ a ∉ (node_addr <$> outputs s) /\ a ∉ (k_addr <$> keyboards s).
Proof. intros (Hn & _). rewrite objects_addrs, !elem_of_app in Hn. naive_solver. Qed.


Lemma objects_node n l1 l2 s :
  objects (set_outputs (l1 ++ n :: l2) s) ≡ₚ node_object n :: objects (set_outputs (l1 ++ l2) s).
Proof.
  unfold objects. cbn. rewrite !fmap_app, fmap_cons, <-!app_assoc. symmetry.
  rewrite (app_assoc _ (node_object <$> l1)), (app_assoc _ (node_object <$> l1)). apply Permutation_middle.
Qed.



Lemma wp_insert_node h n ls (Q : unit -> omnios_server -> Prop) s :
  half (node_addr n) ls s -> ls ≡ₚ (node_object n).2 -> (forall s', linked s' -> outputs s' = n :: outputs s -> Q tt s') ->
  wp h (insert_node n) Q s.
Proof.
  intros Hs Hls HQ. destruct (half_alive _ _ s Hs) as [Ha Hlive]. apply wp_relink; [done|done| |].
  - apply bool_decide_eq_false_2. by apply (half_not_in _ _ s Hs).
  - apply HQ; [|done]. eapply half_insert; [exact Hs|exact Hls| |done|done]. etrans; [apply (objects_node n [] (outputs s) s)|]. by destruct s, n.
Qed.


Lemma linked_heap s a : linked s -> a ∈ (objects s).*1 -> a ∈ heap s.
Proof. intros (_ & Hh & _). by rewrite Hh. Qed.




(** A layer surface is given an output without a change to the lists. *)
Lemma wp_assign_output h ls (Q : unit -> omnios_server -> Prop) s :
  linked s -> (forall s', linked s' -> heap s' = heap s -> Q tt s') -> wp h (assign_output ls) Q s.
Proof.
  intros Hs HQ. apply wp_bind, wp_gets. case_match; [|by apply wp_ret, HQ]. apply wp_bind, wp_gets.
  destruct (outputs s) as [|n rest] eqn:Eo; [by apply wp_ret, HQ|].
  apply wp_bind, wp_check.
  - apply bool_decide_eq_true_2, linked_heap; [done|]. rewrite objects_addrs, Eo, !elem_of_app. right; left. left.
  - by apply wp_update, HQ.
Qed.
End steps.

(** One step of a handler. *)
Ltac wp_step :=
  lazymatch goal with
  | |- wp _ (_ ≫= _) _ _ => apply wp_bind
  | |- wp _ (tell _) _ _ => apply wp_tell
  | |- wp _ (ask _) _ _ => apply wp_ask; intros ?
  | |- wp _ (gets _) _ _ => apply wp_gets
  | |- wp _ (wl_signal_add _ _) _ _ =>
      eapply wp_signal_add; [eassumption|by apply (bool_decide_unpack _)|intros ? ?]
  | |- wp _ (unlink_listener _ _) _ _ =>
      eapply wp_unlink_listener; [eassumption|by apply (bool_decide_unpack _)|intros ? ?]
  | |- wp _ (free _) _ _ => eapply wp_free; [eassumption|intros ? ?]
  end.

(** ** Sequences of events *)


Section theorems.
Context {W : Type} `{!Library wcall W}.
Variable m : anchors.
Variable out_width out_height : Z -> Z.
Implicit Types (s : omnios_server).







(** *** Keys *)

Variable XKB_KEY_Escape XKB_KEY_F1 : Z.

Definition bound (sym : Z) : bool := (sym =? XKB_KEY_Escape) || (sym =? XKB_KEY_F1).

Lemma try_bindings_log syms :
  traces (W := W) (try_bindings XKB_KEY_Escape XKB_KEY_F1 syms) (fun r t =>
    (r = Some false <-> existsb bound syms = false) /\ (existsb bound syms = false -> t = []) /\
    Forall (fun c => match c with NotifyKey _ _ _ | SeatSetKeyboard _ => False | _ => True end) t.*1).
Proof.
  induction syms as [|sym syms IH]; [traces_step; by split_and!|]. cbn [try_bindings existsb]. 
  apply (traces_bind _ _ (fun r t => (r = Some false <-> bound sym = false) /\ (bound sym = false -> t = []) /\
    Forall (fun c => match c with NotifyKey _ _ _ | SeatSetKeyboard _ => False | _ => True end) t.*1)).
  - unfold handle_keybinding, bound. destruct (sym =? XKB_KEY_Escape); cbn [orb];
      [repeat traces_step; split_and!; [naive_solver|done|by repeat constructor]|].
    destruct (sym =? XKB_KEY_F1); [|traces_step; by split_and!]. traces_step.
    destruct (r =? 0); repeat traces_step; (split_and!; [naive_solver|done|by repeat constructor]).
  - intros r t1 (Hr & Ht & Hf). destruct (bound sym); cbn [orb].
    + destruct r as [[]|]; [|discriminate (proj1 Hr eq_refl)|]; traces_step; rewrite app_nil_r; (split_and!; [naive_solver|done|done]).
    + rewrite (proj2 Hr eq_refl). rewrite Ht by done. exact IH.
Qed.

(** A key goes to the focused window exactly when it is released or none of
    its symbols is bound; a bound key is never forwarded. *)
Theorem key_forwarded_once k time keycode st syms :
  traces (W := W) (keyboard_key XKB_KEY_Escape XKB_KEY_F1 k time keycode st syms) (fun _ t =>
    if (st =? 1) && existsb bound syms
    then Forall (fun c => match c with NotifyKey _ _ _ => False | _ => True end) t.*1
    else t.*1 = [SeatSetKeyboard (k_wlr k); NotifyKey time keycode st]).
Proof.
  unfold keyboard_key. destruct (st =? 1) eqn:Est; cbn [andb].
  - eapply traces_bind; [apply try_bindings_log|]. intros r t1 (Hr & Ht & Hf).
    destruct (existsb bound syms).
    + destruct r as [[]|]; [|discriminate (proj1 Hr eq_refl)|]; traces_step; rewrite app_nil_r;
        (eapply Forall_impl; [exact Hf|]; by intros []).
    + rewrite (proj2 Hr eq_refl), Ht by done. by repeat traces_step.
  - eapply (traces_bind _ _ (fun r t => r = Some false /\ t = [])); [by traces_step|].
    intros ? ? [-> ->]. by repeat traces_step.
Qed.

(** *** Outputs of layer surfaces *)

(** A layer surface without an output is given the one at the head of the list;
    when that is another layer surface, the pointer stored is not an output. *)
Lemma layer_taken_for_output ls l rest s :
  linked s -> ls_output s (ls_addr ls) = 0 -> outputs s = NLayer l :: rest ->
  wp (W := W) (heap s) (assign_output ls) (fun _ s' => ls_output s' (ls_addr ls) = l_surface l) s.
Proof.
  intros Hs Ho El. apply wp_bind, wp_gets. rewrite Ho. apply wp_bind, wp_gets. rewrite El. apply wp_bind, wp_check.
  - apply bool_decide_eq_true_2, linked_heap; [done|]. rewrite objects_addrs, El, !elem_of_app. right; left. left.
  - apply wp_update. cbn. by rewrite Z.eqb_refl.
Qed.

(** The head of the list is a layer surface right after one is created. *)
Lemma layer_at_head ls s :
  linked s ->
  wp (W := W) (heap s) (new_layer_surface out_width out_height ls)
    (fun _ s' => exists l rest, outputs s' = NLayer l :: rest) s.
Proof.
  intros Hs. apply wp_bind, wp_assign_output; [done|]. intros s1 H1 <-. apply wp_calloc; [done|]. intros a s2 H2.
  repeat wp_step. eapply wp_insert_node; [eassumption|exact (reverse_Permutation layer_listeners)|]. intros. repeat wp_step. eauto.
Qed.

Lemma launch_log cmds : traces (W := W) (launch cmds) (fun _ _ => True).
Proof. induction cmds as [|c cmds IH]; cbn [launch]; repeat (traces_step || case_match); done. Qed.

(** The start-up attaches the output layout to the scene before it exists. *)
Lemma null_layout_attached :
  traces (W := W) main (fun _ t => (SceneAttachLayout 0) ∈ t.*1).
Proof.
  unfold main. do 19 traces_step. case_match; [traces_step; cbn; do 6 right; left|].
  eapply traces_bind; [apply launch_log|]. intros parent t _.
  destruct parent; repeat traces_step; cbn; do 6 right; left.
Qed.
End theorems.

(** ** Witnesses *)

Definition masks0 : anchors := mk_anchors 1 2 4 8 16.

Lemma layer_position_inside_witness :
  let '(x, y) := layer_position masks0 1280 720 (2 + 8) 300 48 in
  0 <= x /\ x + 300 <= 1280 /\ 0 <= y /\ y + 48 <= 720.
Proof. apply (layer_position_inside masks0 1280 720 (2 + 8) 300 48); lia. Defined.


End Compositor.
