(* ===== verification/Virtio.v ===== *)
(** * VirtIO queues

    Models kernel/drivers/virtio.c and virtio.h: finding a VirtIO function among
    the PCI devices, setting up a queue, and the driver's side of the descriptor
    table and its rings.  The rings live in pages of the physical allocator;
    what those pages held before is a parameter of the setup. *)

From stdpp Require Import base numbers list option tactics.
From S2P Require Import Prelude X86 Pmm Pci.

Module Virtio.

Definition VIRTIO_VENDOR : Z := 0x1AF4.
Definition VIRTIO_PCI_CAP_COMMON_CFG : Z := 1.
Definition VIRTIO_STATUS_ACK : Z := 1.
Definition VIRTIO_STATUS_DRIVER : Z := 2.

Record virtq_desc_t := mk_desc { addr : Z; len : Z; flags : Z; next : Z }.
#[export] Instance desc_inhabited : Inhabited virtq_desc_t := populate (mk_desc 0 0 0 0).

(** The available and the used ring; a used element is an identifier and a length. *)
Record virtq_avail_t := mk_avail { avail_idx : Z; avail_ring : list Z }.
Record virtq_used_t := mk_used { used_idx : Z; used_ring : list (Z * Z) }.

Record virtio_queue_t := mk_queue {
  desc : list virtq_desc_t;
  avail : virtq_avail_t;
  used : virtq_used_t;
  size : Z;           (* uint16_t *)
  free_head : Z;      (* uint16_t *)
  free_count : Z;     (* uint16_t *)
}.

Definition zero_queue : virtio_queue_t := mk_queue [] (mk_avail 0 []) (mk_used 0 []) 0 0 0.
#[export] Instance queue_inhabited : Inhabited virtio_queue_t := populate zero_queue.

(** The fields the driver sets. *)
Record virtio_device_t := mk_vdev {
  common_cfg : Z;
  notify_base : Z;
  notify_off_multiplier : Z;
  vdevice_id : Z;
  vvendor_id : Z;
  virq : Z;
  vstatus : Z;
  queues : list virtio_queue_t;     (* 8 *)
  queue_count : Z;
}.

(** ** Probing *)

Section probe.
Context {D : Type} `{!X86Machine D}.

Fixpoint find_cap_loop (n : nat) (p : Pci.pci_device_t) (cap cap_type : Z) : x86 D Z :=
  match n with
  | O => mret 0
  | S n' =>
      cap_hdr ← Pci.pci_read_config (Pci.bus p) (Pci.slot p) (Pci.func p) cap;
      if Z.land cap_hdr 0xFF =? 0 then mret 0 else
      if Z.land (Z.shiftr cap_hdr 8) 0xFF =? cap_type then mret cap else
      let cap := Z.land (Z.shiftr cap_hdr 20) 0xFF in
      if cap <? 0x40 then mret 0 else find_cap_loop n' p cap cap_type
  end.

Definition virtio_find_cap (p : Pci.pci_device_t) (cap_type : Z) : x86 D Z :=
  find_cap_loop 48 p 0x41 cap_type.

(** The scan of the PCI devices: the first VirtIO function is added to the list
    of devices, as long as there are fewer than eight. *)
Fixpoint virtio_probe_pci (pds : list Pci.pci_device_t) (devs : list virtio_device_t)
    : x86 D (option virtio_device_t * list virtio_device_t) :=
  match pds with
  | [] => mret (None, devs)
  | p :: pds' =>
      if negb (Pci.vendor_id p =? VIRTIO_VENDOR) then virtio_probe_pci pds' devs else
      if 8 <=? Z.of_nat (length devs) then mret (None, devs) else
      cap_off ← virtio_find_cap p VIRTIO_PCI_CAP_COMMON_CFG;
      let bar0 := (Pci.bars p).[0] in
      let cfg := if truthy cap_off && truthy bar0 then u64 (bar0 + bar0) else 0 in
      let dev := mk_vdev cfg 0 0 (Pci.device_id p) (Pci.vendor_id p) (Pci.irq p)
                   (Z.lor VIRTIO_STATUS_ACK VIRTIO_STATUS_DRIVER) (replicate 8 zero_queue) 0 in
      mret (Some dev, devs ++ [dev])
  end.

Definition virtio_notify (dev : virtio_device_t) (qid queue_notify_off : Z) : x86 D unit :=
  if truthy (common_cfg dev)
  then mmio_write32 (notify_base dev + u32 (queue_notify_off * notify_off_multiplier dev)) qid
  else mret tt.

End probe.

(** ** Queues *)

(** [for (int i = 0; i < size - 1; i++) q->desc[i].next = i + 1;] *)
Fixpoint link_descs (n : nat) (i : Z) (l : list virtq_desc_t) : list virtq_desc_t :=
  match n with
  | O => l
  | S n' =>
      let d := l.[i] in
      link_descs n' (i + 1) (l.[i <- mk_desc (addr d) (len d) (flags d) (i + 1)])
  end.

Definition set_next (l : list virtq_desc_t) (i nx : Z) : list virtq_desc_t :=
  let d := l.[i] in l.[i <- mk_desc (addr d) (len d) (flags d) nx].

(** Bytes of the three areas; [sizeof(virtq_desc_t)] is 16, an element of the
    used ring takes 6 and the ring headers 4 each. *)
Definition desc_bytes (n : Z) : Z := n * 16.
Definition avail_bytes (n : Z) : Z := 4 + n * 2.
Definition used_bytes (n : Z) : Z := 4 + n * 6.

(** The writes to the common configuration structure: field and value. *)
Inductive cfg_field := queue_select | queue_size | queue_desc | queue_driver | queue_device | queue_enable.

(** What the pages of the rings held: descriptors, available and used ring. *)
Record ring_pages := mk_pages { p_desc : list virtq_desc_t; p_avail : virtq_avail_t; p_used : virtq_used_t }.

(** [None] is the allocator's order loop not ending, for a size above [2^63]
    pages only. *)
Definition virtio_setup_queue (dev : virtio_device_t) (qid n : Z) (pg : ring_pages) (s : Pmm.pmm_state)
    : option (Z * virtio_device_t * list (cfg_field * Z) * Pmm.pmm_state) :=
  if 8 <=? qid then Some (-1, dev, [], s) else
  let total := desc_bytes n + avail_bytes n + used_bytes n in
  let total := Z.land (total + PAGE_SIZE - 1) (Z.lnot (PAGE_SIZE - 1)) in
  let q0 := (queues dev).[qid] in
  let dev0 := mk_vdev (common_cfg dev) (notify_base dev) (notify_off_multiplier dev) (vdevice_id dev)
                (vvendor_id dev) (virq dev) (vstatus dev)
                ((queues dev).[qid <- mk_queue (desc q0) (avail q0) (used q0) (u16 n) 0 (u16 n)])
                (queue_count dev) in
  match Pmm.pmm_alloc_pages (total / PAGE_SIZE) s with
  | None => None
  | Some (phys, s) =>
      if phys =? 0 then Some (-1, dev0, [], s) else
      let q := mk_queue (set_next (link_descs (Z.to_nat (n - 1)) 0 (p_desc pg)) (n - 1) 0xFFFF)
                 (p_avail pg) (p_used pg) (u16 n) 0 (u16 n) in
      let ws := if truthy (common_cfg dev)
                then [(queue_select, qid); (queue_size, n); (queue_desc, phys);
                      (queue_driver, phys + desc_bytes n);
                      (queue_device, phys + desc_bytes n + avail_bytes n); (queue_enable, 1)]
                else [] in
      Some (0, mk_vdev (common_cfg dev) (notify_base dev) (notify_off_multiplier dev) (vdevice_id dev)
                 (vvendor_id dev) (virq dev) (vstatus dev) ((queues dev).[qid <- q]) (queue_count dev + 1),
            ws, s)
  end.

(** The operations on one queue. *)
Definition virtio_send_desc (a l fl : Z) (q : virtio_queue_t) : Z * virtio_queue_t :=
  if free_count q =? 0 then (-1, q) else
  let idx := free_head q in
  let d := (desc q).[idx] in
  let ai := avail_idx (avail q) in
  (idx,
   mk_queue ((desc q).[idx <- mk_desc a l fl (next d)])
     (mk_avail (u16 (ai + 1)) ((avail_ring (avail q)).[ai mod size q <- idx]))
     (used q) (size q) (next d) (u16 (free_count q - 1))).

(** The return value, what is stored in [*len], and the queue. *)
Definition virtio_recv_used (q : virtio_queue_t) : Z * option Z * virtio_queue_t :=
  let last := 0 in
  if last =? used_idx (used q) then (-1, None, q) else
  let '(id, l) := (used_ring (used q)).[last mod size q] in
  (id, Some l,
   mk_queue (desc q) (avail q) (used q) (size q) id (u16 (free_count q + 1))).

(** ** The free list after setup *)

(** Descriptors from [k] on are free and linked in order; the [k] before them
    were handed out and published in the available ring from index [a0] on. *)
Record queue_inv (n a0 k : Z) (q : virtio_queue_t) : Prop := {
  qi_size : size q = n;
  qi_desc : Z.of_nat (length (desc q)) = n;
  qi_ring : Z.of_nat (length (avail_ring (avail q))) = n;
  qi_head : k < n -> free_head q = k;
  qi_count : free_count q = n - k;
  qi_next : forall i, 0 <= i < n - 1 -> next (desc q).[i] = i + 1;
  qi_idx : avail_idx (avail q) = a0 + k;
  qi_avail : forall j, 0 <= j < k -> (avail_ring (avail q)).[(a0 + j) mod n] = j;
}.

Lemma length_link_descs m : forall i l, length (link_descs m i l) = length l.
Proof. induction m as [|m IH]; intros i l; cbn [link_descs]; [done|]. by rewrite IH, length_aset. Qed.

Lemma link_descs_spec m : forall i l j,
  0 <= i -> 0 <= j -> i + Z.of_nat m <= Z.of_nat (length l) ->
  next (link_descs m i l).[j] = (if (i <=? j) && (j <? i + Z.of_nat m) then j + 1 else next l.[j]).
Proof.
  induction m as [|m IH]; intros i l j Hi Hj Hl; cbn [link_descs].
  { split_cmp; simpl; (done || lia). }
  rewrite IH by (rewrite ?length_aset; lia).
  destruct (decide (j = i)) as [->|Hne].
  - rewrite aget_aset_eq by lia. split_cmp; simpl; lia.
  - rewrite aget_aset_ne by lia. split_cmp; simpl; (done || lia).
Qed.

Lemma setup_queue_inv n pg :
  1 <= n <= 32768 -> Z.of_nat (length (p_desc pg)) = n -> Z.of_nat (length (avail_ring (p_avail pg))) = n ->
  queue_inv n (avail_idx (p_avail pg)) 0
    (mk_queue (set_next (link_descs (Z.to_nat (n - 1)) 0 (p_desc pg)) (n - 1) 0xFFFF)
       (p_avail pg) (p_used pg) (u16 n) 0 (u16 n)).
Proof.
  intros Hn Hd Ha. constructor; cbn [size desc avail free_head free_count].
  - apply wrap_small. lia.
  - unfold set_next. by rewrite length_aset, length_link_descs.
  - done.
  - done.
  - rewrite wrap_small by lia. lia.
  - intros i Hi. unfold set_next. rewrite aget_aset_ne by lia. rewrite link_descs_spec by lia.
    split_cmp; simpl; lia.
  - lia.
  - intros j Hj. lia.
Qed.

Lemma send_desc_inv n a0 k q a l fl :
  1 <= n <= 32768 -> 0 <= a0 -> a0 + n < 65536 -> 0 <= k < n -> queue_inv n a0 k q ->
  let '(r, q') := virtio_send_desc a l fl q in
  r = k /\ queue_inv n a0 (k + 1) q' /\
  (exists nx, (desc q').[k] = mk_desc a l fl nx) /\
  (forall j, 0 <= j -> j <> k -> (desc q').[j] = (desc q).[j]).
Proof.
  intros Hn Ha Han Hk [Hs Hd Hr Hh Hc Hx Hi Hv]. unfold virtio_send_desc.
  rewrite Hc, (proj2 (Z.eqb_neq (n - k) 0)) by lia. rewrite Hh, Hi, Hs by lia.
  split; [done|]. split; [|split].
  - constructor; cbn [size desc avail free_head free_count avail_idx avail_ring].
    + done.
    + by rewrite length_aset.
    + by rewrite length_aset.
    + intros Hlt. apply Hx. lia.
    + rewrite wrap_small by lia. lia.
    + intros i Hir. destruct (decide (i = k)) as [->|].
      * rewrite aget_aset_eq by lia. by apply Hx.
      * rewrite aget_aset_ne by lia. by apply Hx.
    + rewrite wrap_small by lia. lia.
    + intros j Hj. destruct (decide (j = k)) as [->|].
      * apply aget_aset_eq. rewrite Hr. apply Z.mod_pos_bound. lia.
      * rewrite aget_aset_ne; [apply Hv; lia|apply Z.mod_pos_bound; lia|apply Z.mod_pos_bound; lia|].
        intros E.
        assert ((k - j) mod n = 0) as E0.
        { replace (k - j) with ((a0 + k) - (a0 + j)) by lia. rewrite Zminus_mod, E, Z.sub_diag. by apply Z.mod_0_l; lia. }
        rewrite Z.mod_small in E0 by lia. lia.
  - eexists. cbn [desc]. by rewrite aget_aset_eq by lia.
  - intros j Hj Hne. cbn [desc]. by rewrite aget_aset_ne by lia.
Qed.

(** Sending buffers one after the other, without anything coming back. *)
Fixpoint send_all (bufs : list (Z * Z * Z)) (q : virtio_queue_t) : list Z * virtio_queue_t :=
  match bufs with
  | [] => ([], q)
  | (a, l, fl) :: bufs' =>
      let '(r, q1) := virtio_send_desc a l fl q in
      let '(rs, q2) := send_all bufs' q1 in (r :: rs, q2)
  end.

Lemma send_all_inv n a0 bufs : forall k q,
  1 <= n <= 32768 -> 0 <= a0 -> a0 + n < 65536 -> 0 <= k -> k + Z.of_nat (length bufs) <= n ->
  queue_inv n a0 k q ->
  let '(rs, q') := send_all bufs q in
  rs = seqZ k (Z.of_nat (length bufs)) /\ queue_inv n a0 (k + Z.of_nat (length bufs)) q' /\
  (forall i a l fl, bufs !! i = Some (a, l, fl) -> exists nx, (desc q').[k + Z.of_nat i] = mk_desc a l fl nx) /\
  (forall j, 0 <= j < k -> (desc q').[j] = (desc q).[j]).
Proof.
  induction bufs as [|[[a l] fl] bufs IH]; intros k q Hn Ha Han Hk Hl Hq; cbn [send_all length] in *.
  { rewrite Z.add_0_r. done. }
  pose proof (send_desc_inv n a0 k q a l fl Hn Ha Han ltac:(lia) Hq) as H1.
  destruct (virtio_send_desc a l fl q) as [r q1]. destruct H1 as (-> & Hq1 & [nx Hd] & Ho).
  pose proof (IH (k + 1) q1 Hn Ha Han ltac:(lia) ltac:(lia) Hq1) as H2.
  destruct (send_all bufs q1) as [rs q2]. destruct H2 as (-> & Hq2 & Hb & Ho2).
  rewrite Nat2Z.inj_succ, (seqZ_cons k), Z.pred_succ by lia.
  replace (k + Z.succ (Z.of_nat (length bufs))) with (k + 1 + Z.of_nat (length bufs)) by lia.
  split; [done|]. split; [done|]. split.
  - intros [|i] a' l' fl' Hi.
    + injection Hi as <- <- <-. exists nx. rewrite Z.add_0_r, Ho2 by lia. done.
    + destruct (Hb i a' l' fl' Hi) as [nx' E]. exists nx'. rewrite <-E. f_equal. lia.
  - intros j Hj. rewrite Ho2 by lia. apply Ho; lia.
Qed.

(** On a queue that [virtio_setup_queue] has just set up, the first [n]
    buffers are given the descriptors 0, 1, 2 and so on, one each: every
    descriptor handed out still holds its own buffer, the available ring lists
    them in order and its index has advanced by their number, and when all [n]
    are out the next request is refused. *)
Theorem virtio_sends_distinct dev qid n pg s dev' ws s' bufs :
  virtio_setup_queue dev qid n pg s = Some (0, dev', ws, s') ->
  0 <= qid -> length (queues dev) = 8%nat ->
  1 <= n <= 32768 -> Z.of_nat (length (p_desc pg)) = n -> Z.of_nat (length (avail_ring (p_avail pg))) = n ->
  let a0 := avail_idx (p_avail pg) in
  0 <= a0 -> a0 + n < 65536 -> Z.of_nat (length bufs) <= n ->
  let '(rs, q) := send_all bufs (queues dev').[qid] in
  rs = seqZ 0 (Z.of_nat (length bufs)) /\
  (forall i a l fl, bufs !! i = Some (a, l, fl) ->
     (exists nx, (desc q).[Z.of_nat i] = mk_desc a l fl nx) /\
     (avail_ring (avail q)).[(a0 + Z.of_nat i) mod n] = Z.of_nat i) /\
  avail_idx (avail q) = a0 + Z.of_nat (length bufs) /\
  (Z.of_nat (length bufs) = n -> forall a l fl, virtio_send_desc a l fl q = (-1, q)).
Proof.
  intros E Hqid H8 Hn Hd Hr a0 Ha0 Han Hb.
  unfold virtio_setup_queue in E. destruct (Z.leb_spec 8 qid); [done|].
  destruct (Pmm.pmm_alloc_pages _ s) as [[phys s1]|]; [|done].
  destruct (phys =? 0); [done|]. injection E as <- _ _. cbn [queues].
  rewrite aget_aset_eq by lia.
  pose proof (send_all_inv n a0 bufs 0 _ Hn Ha0 Han ltac:(lia) ltac:(lia) (setup_queue_inv n pg Hn Hd Hr)) as H1.
  destruct (send_all bufs _) as [rs q]. destruct H1 as (-> & Hq & Hdesc & _). rewrite Z.add_0_l in Hq.
  split; [done|]. split; [|split].
  - intros i a l fl Hi. split; [exact (Hdesc i a l fl Hi)|]. apply lookup_lt_Some in Hi as Hlt.
    apply (qi_avail n a0 _ q Hq). lia.
  - apply (qi_idx n a0 _ q Hq).
  - intros Hall a l fl. unfold virtio_send_desc. rewrite (qi_count n a0 _ q Hq), Hall, Z.sub_diag. done.
Qed.

(** [virtio_recv_used] starts at index 0 every time: it returns the same element
    again and counts another free descriptor each time. *)
Lemma virtio_recv_used_repeats q id l :
  used_idx (used q) <> 0 -> 0 < size q -> (used_ring (used q)).[0] = (id, l) ->
  let '(id1, _, q1) := virtio_recv_used q in
  let '(id2, _, q2) := virtio_recv_used q1 in
  id1 = id /\ id2 = id /\ free_count q2 = u16 (u16 (free_count q + 1) + 1).
Proof.
  intros Hu Hs Hr. unfold virtio_recv_used. rewrite (proj2 (Z.eqb_neq 0 (used_idx (used q)))) by lia.
  rewrite Z.mod_0_l, Hr by lia. cbn [used size]. rewrite (proj2 (Z.eqb_neq 0 (used_idx (used q)))) by lia.
  rewrite Z.mod_0_l, Hr by lia. done.
Qed.

(** Every call of [virtio_probe_pci] starts over: a second call returns the same
    PCI function again. *)
Lemma virtio_probe_same {D} `{!X86Machine D} p rest devs (m m' : machine D) :
  Pci.vendor_id p = VIRTIO_VENDOR -> (length devs <= 6)%nat ->
  let '((d1, devs1), _) := virtio_probe_pci (p :: rest) devs m in
  let '((d2, devs2), _) := virtio_probe_pci (p :: rest) devs1 m' in
  exists a b, d1 = Some a /\ d2 = Some b /\ vdevice_id a = vdevice_id b /\
    length devs2 = (length devs + 2)%nat.
Proof.
  intros Hv Hl. cbn [virtio_probe_pci]. rewrite Hv. cbn [Z.eqb]. change (VIRTIO_VENDOR =? VIRTIO_VENDOR) with true.
  cbn [negb]. rewrite (proj2 (Z.leb_gt 8 _)) by lia. unfold mbind, mret, x86_bind, x86_ret.
  destruct (virtio_find_cap p _ m) as [c1 m1]. rewrite (proj2 (Z.leb_gt 8 _)) by (rewrite length_app; simpl; lia).
  destruct (virtio_find_cap p _ m') as [c2 m2]. do 2 eexists. rewrite !length_app. simpl. repeat split. lia.
Qed.

(** ** A concrete queue *)

Definition vdev0 : virtio_device_t := mk_vdev 0 0 0 0x1000 VIRTIO_VENDOR 11 3 (replicate 8 zero_queue) 0.
Definition pages4 : ring_pages := mk_pages (replicate 4 (mk_desc 0 0 0 0)) (mk_avail 0 (replicate 4 0)) (mk_used 0 []).

Definition setup4 : option (Z * virtio_device_t * list (cfg_field * Z)) :=
  match virtio_setup_queue vdev0 0 4 pages4 Pmm.four_pages with
  | Some (r, d, w, _) => Some (r, d, w)
  | None => None
  end.

Lemma setup4_result : exists d, setup4 = Some (0, d, []).
Proof. eexists. vm_compute. reflexivity. Qed.

Lemma virtio_sends_distinct_witness :
  exists dev' s', virtio_setup_queue vdev0 0 4 pages4 Pmm.four_pages = Some (0, dev', [], s') /\
    (send_all [(0x1000, 64, 0); (0x2000, 32, 2)] (queues dev').[0]).1 = seqZ 0 2.
Proof.
  destruct setup4_result as [d E]. unfold setup4 in E.
  destruct (virtio_setup_queue vdev0 0 4 pages4 Pmm.four_pages) as [[[[r d'] w] s']|] eqn:Es; [|done].
  injection E as -> -> ->. exists d, s'. split; [done|].
  pose proof (virtio_sends_distinct vdev0 0 4 pages4 Pmm.four_pages d [] s'
    [(0x1000, 64, 0); (0x2000, 32, 2)] Es) as H.
  destruct (send_all _ _) as [rs q].
  destruct H as [H _]; [lia|reflexivity|lia|reflexivity|reflexivity|reflexivity|simpl; lia|simpl; lia|].
  exact H.
Defined.

End Virtio.
