(* ===== verification/Arm64.v ===== *)
(** * ARM64 interrupt controller, timer and user page tables

    Models kernel/arch/arm64/arm64.c.  The tables of a user program are built
    in pages of the physical allocator, which the kernel reaches at their
    physical addresses; their theory is that of PageTree for the format of an
    ARMv8 descriptor.  The interrupt controller is an arbitrary memory-mapped
    device, the system registers are a record. *)

From stdpp Require Import base numbers list option tactics gmap.
From S2P Require Import Prelude Mmio Pmm PageTree.

Module Arm64.

Definition PT_VALID : Z := 1.
Definition PT_TABLE : Z := 2.
Definition PT_AF : Z := Z.shiftl 1 10.
Definition PT_AP_RW_ALL : Z := Z.shiftl 0 6.
Definition PT_AP_RO_ALL : Z := Z.shiftl 1 6.
Definition PT_NS : Z := Z.shiftl 1 5.
Definition PT_UXN : Z := Z.shiftl 1 54.
Definition PT_ADDR_MASK : Z := 0x0000FFFFFFFFF000.

Definition L0_SHIFT : Z := 39.
Definition L1_SHIFT : Z := 30.
Definition L2_SHIFT : Z := 21.
Definition L3_SHIFT : Z := 12.
Definition Lx_INDEX (virt shift : Z) : Z := Z.land (Z.shiftr virt shift) 0x1FF.

(** ** Interrupt controller *)

Definition GICD_BASE : Z := 0x08000000.
Definition GICC_BASE : Z := 0x80100000.
Definition GICD_CTLR : Z := 0x0000.
Definition GICD_TYPER : Z := 0x0004.
Definition GICC_EOIR : Z := 0x0010.
Definition GICC_PMR : Z := 0x0004.

(** [GICC_CTLR] is used by the source but defined nowhere in it. *)
Section gic.
Context {D : Type} `{!MmioDevice D} (GICC_CTLR : Z).

Definition gic_read32 (base reg : Z) : io D Z := read_reg base reg.
Definition gic_write32 (base reg val : Z) : io D unit := write_reg base reg val.

Definition arm64_gic_init : io D unit :=
  gic_write32 GICD_BASE GICD_CTLR 1;;
  gic_write32 GICC_BASE GICC_CTLR 1;;
  gic_write32 GICC_BASE GICC_PMR 0xFF;;
  typer ← gic_read32 GICD_BASE GICD_TYPER;
  mret ().

Definition arm64_gic_eoi (irq : Z) : io D unit := gic_write32 GICC_BASE GICC_EOIR irq.
End gic.

(** ** System registers *)

Record sysregs := mk_sysregs {
  cntfrq : Z;
  cntpct : Z;
  cntp_tval : Z;
  cntp_ctl : Z;
  ttbr0 : Z;
  ttbr1 : Z;
  vbar : Z;
  kernel_pgd : Z;     (* the static variable of the file *)
}.

Definition arm64_read_cntfrq (r : sysregs) : Z := cntfrq r.
Definition arm64_read_cntpct (r : sysregs) : Z := cntpct r.

Definition arm64_write_cntp_tval (val : Z) (r : sysregs) : sysregs :=
  mk_sysregs (cntfrq r) (cntpct r) (u32 val) (cntp_ctl r) (ttbr0 r) (ttbr1 r) (vbar r) (kernel_pgd r).

Definition arm64_write_cntp_ctl (val : Z) (r : sysregs) : sysregs :=
  mk_sysregs (cntfrq r) (cntpct r) (cntp_tval r) (u32 val) (ttbr0 r) (ttbr1 r) (vbar r) (kernel_pgd r).

Definition arm64_timer_init (freq_hz : Z) (r : sysregs) : sysregs :=
  let freq := arm64_read_cntfrq r in
  arm64_write_cntp_ctl 1 (arm64_write_cntp_tval (freq / 100) r).

Definition arm64_set_ttbr0 (pgd : Z) (r : sysregs) : sysregs :=
  mk_sysregs (cntfrq r) (cntpct r) (cntp_tval r) (cntp_ctl r) pgd (ttbr1 r) (vbar r) (kernel_pgd r).

Definition arm64_paging_init (r : sysregs) : sysregs :=
  mk_sysregs (cntfrq r) (cntpct r) (cntp_tval r) (cntp_ctl r) (ttbr0 r) (ttbr1 r) (vbar r) (ttbr1 r).

(** ** Page tables *)

Definition set_pmem (m : Z -> Z) (s : Pmm.pmm_state) : Pmm.pmm_state := Pmm.set_mem m s.

Definition table_desc (pg : Z) : Z := Z.lor (Z.lor (Z.lor (Z.lor pg PT_VALID) PT_TABLE) PT_AF) PT_NS.

Definition pt_lookup_or_create (table index : Z) (s : Pmm.pmm_state) : outcome (Z * Pmm.pmm_state) :=
  let e := table + 8 * index in
  if truthy (Z.land (Pmm.pmem s e) PT_VALID) then Done (Z.land (Pmm.pmem s e) PT_ADDR_MASK, s)
  else
    '(pg, s) ← Pmm.pmm_alloc_page s;
    let s := set_pmem (mem_zero (Pmm.pmem s) pg PAGE_SIZE) s in
    let s := set_pmem (mem_write (Pmm.pmem s) e (table_desc pg)) s in
    Done (pg, s).

Definition page_desc (phys flags : Z) : Z :=
  Z.lor (Z.lor (Z.lor (Z.lor (Z.land phys PT_ADDR_MASK) PT_VALID) PT_AF) PT_NS) flags.

Definition pt_map_page (pgd virt phys flags : Z) (s : Pmm.pmm_state) : outcome Pmm.pmm_state :=
  let l0 := Lx_INDEX virt L0_SHIFT in
  let l1 := Lx_INDEX virt L1_SHIFT in
  let l2 := Lx_INDEX virt L2_SHIFT in
  let l3 := Lx_INDEX virt L3_SHIFT in
  '(t1, s) ← pt_lookup_or_create pgd l0 s;
  '(t2, s) ← pt_lookup_or_create t1 l1 s;
  '(t3, s) ← pt_lookup_or_create t2 l2 s;
  Done (set_pmem (mem_write (Pmm.pmem s) (t3 + 8 * l3) (page_desc phys flags)) s).

Definition arm64_create_user_pgd (s : Pmm.pmm_state) : outcome (Z * Pmm.pmm_state) :=
  '(pgd, s) ← Pmm.pmm_alloc_page s;
  Done (pgd, set_pmem (mem_zero (Pmm.pmem s) pgd PAGE_SIZE) s).

(** The attributes of a user page. *)
Definition user_flags (writable executable : bool) : Z :=
  let flags := PT_AP_RW_ALL in
  let flags := if negb writable then PT_AP_RO_ALL else flags in
  if negb executable then Z.lor flags PT_UXN else flags.

Definition arm64_map_user_page (pgd virt phys : Z) (writable executable : bool) (s : Pmm.pmm_state)
    : outcome Pmm.pmm_state :=
  pt_map_page pgd virt phys (user_flags writable executable) s.

(** [n] rounds of the loop are left, at index [i]. *)
Fixpoint map_user_loop (n : nat) (i pgd virt phys : Z) (writable executable : bool) (s : Pmm.pmm_state)
    : outcome Pmm.pmm_state :=
  match n with
  | O => Done s
  | S n' =>
      s ← arm64_map_user_page pgd (u64 (virt + i * PAGE_SIZE)) (u64 (phys + i * PAGE_SIZE))
            writable executable s;
      map_user_loop n' (i + 1) pgd virt phys writable executable s
  end.

Definition arm64_map_user_pages (pgd virt phys pages : Z) (writable executable : bool) (s : Pmm.pmm_state)
    : outcome Pmm.pmm_state :=
  map_user_loop (Z.to_nat pages) 0 pgd virt phys writable executable s.

(** ** Specification: a map from pages to descriptors *)

Definition arm_frame (p : Z) : Prop := 0 <= p < 2 ^ 48 /\ p mod PAGE_SIZE = 0.

Definition arm_format : format :=
  mk_format (fun x => truthy (Z.land x PT_VALID)) (fun x => Z.land x PT_ADDR_MASK) table_desc arm_frame
    (fun _ => True).

(** The descriptor the tables under [pgd] hold for an address. *)
Definition entry (s : Pmm.pmm_state) (pgd virt : Z) : option Z :=
  lk arm_format (Pmm.pmem s) pgd (path_of virt).

(** The allocator is consistent, the tables are a tree, no table is a free
    page, and free pages have addresses that fit in a descriptor. *)
Record user_inv (s : Pmm.pmm_state) (bl : list (list Z)) (pgd : Z) (own : Z -> option (list Z)) : Prop := {
  ui_pmm : Pmm.pmm_inv 0 s bl;
  ui_tree : tree_inv arm_format (Pmm.pmem s) pgd own;
  ui_sep q : q ∈ Pmm.free_pages bl -> own q = None;
  ui_low q : q ∈ Pmm.free_pages bl -> q < 2 ^ 48;
}.

(** What a step does to the rest of memory: only free pages and tables are
    written, and tables are made of free pages. *)
Definition user_frame (s s' : Pmm.pmm_state) (bl bl' : list (list Z)) (own own' : Z -> option (list Z)) : Prop :=
  Pmm.free_pages bl' ⊆ Pmm.free_pages bl /\
  (forall x, Pmm.page_align_down x ∉ Pmm.free_pages bl -> own (Pmm.page_align_down x) = None ->
     Pmm.pmem s' x = Pmm.pmem s x) /\
  (forall q, own' q <> None -> own q <> None \/ q ∈ Pmm.free_pages bl).

Lemma user_frame_refl s bl own : user_frame s s bl bl own own.
Proof. split_and!; auto. Qed.

Lemma user_frame_trans s1 s2 s3 bl1 bl2 bl3 own1 own2 own3 :
  user_frame s1 s2 bl1 bl2 own1 own2 -> user_frame s2 s3 bl2 bl3 own2 own3 ->
  user_frame s1 s3 bl1 bl3 own1 own3.
Proof.
  intros (A1 & A2 & A3) (B1 & B2 & B3). split_and!.
  - set_solver.
  - intros x Hx Ho. rewrite B2, A2; [done|done|done|set_solver|].
    destruct (own2 (Pmm.page_align_down x)) eqn:E; [|done].
    destruct (A3 (Pmm.page_align_down x)) as [?|?]; congruence || done.
  - intros q Hq. destruct (B3 q Hq) as [?|?]; [auto|]. right. set_solver.
Qed.

(** *** Descriptors *)

Lemma addr_mask x : Z.land x PT_ADDR_MASK = (x mod 2 ^ 48) / 4096 * 4096.
Proof. apply (land_mask x 48 12). lia. Qed.

Lemma valid_odd x : truthy (Z.land x PT_VALID) = Z.odd x.
Proof. change PT_VALID with (2 ^ 0). rewrite truthy_land_bit by done. by rewrite Z.bit0_odd. Qed.

#[export] Instance arm_format_ok : FormatOk arm_format.
Proof.
  split; simpl.
  - by intros c [_ Hc].
  - done.
  - intros c _. rewrite valid_odd, <-Z.bit0_odd. unfold table_desc. rewrite !Z.lor_spec.
    change (Z.testbit PT_VALID 0) with true. by rewrite orb_true_r.
  - intros c [Hc Ha]. unfold table_desc. rewrite !Z.land_lor_distr_l.
    change (Z.land PT_VALID PT_ADDR_MASK) with 0. change (Z.land PT_TABLE PT_ADDR_MASK) with 0.
    change (Z.land PT_AF PT_ADDR_MASK) with 0. change (Z.land PT_NS PT_ADDR_MASK) with 0.
    rewrite !Z.lor_0_r, addr_mask, Z.mod_small by done. unfold PAGE_SIZE in *. lia.
Qed.

Lemma page_desc_valid phys flags : truthy (Z.land (page_desc phys flags) PT_VALID) = true.
Proof.
  rewrite valid_odd, <-Z.bit0_odd. unfold page_desc. rewrite !Z.lor_spec.
  change (Z.testbit PT_VALID 0) with true. by rewrite orb_true_r.
Qed.

(** *** One level of the walk *)

Lemma free_frame s bl p : Pmm.pmm_inv 0 s bl -> p ∈ Pmm.free_pages bl -> 0 < p /\ p mod PAGE_SIZE = 0.
Proof.
  intros [Hl _] Hp. pose proof (Pmm.li_valid _ _ _ Hl) as Hv. rewrite Forall_forall in Hv.
  destruct (Hv p Hp). split; [lia|done].
Qed.

(** The allocator does not see writes outside the free pages. *)
Lemma pmm_inv_write s bl m :
  Pmm.pmm_inv 0 s bl -> (forall a, a ∈ Pmm.free_pages bl -> m a = Pmm.pmem s a) ->
  Pmm.pmm_inv 0 (set_pmem m s) bl.
Proof. intros [Hl Hc] Hm. split; [|done]. by apply Pmm.lists_inv_ext with s. Qed.

(** Taking a page for a table. *)
Lemma take_page s bl pgd own :
  user_inv s bl pgd own -> Pmm.free_pages bl <> [] ->
  exists p s' bl', Pmm.pmm_alloc_page s = Done (p, s') /\ user_inv s' bl' pgd own /\
    Pmm.free_pages bl ≡ₚ p :: Pmm.free_pages bl' /\ arm_frame p /\ (p ∉ Pmm.free_pages bl') /\
    (forall x, Pmm.page_align_down x ∉ Pmm.free_pages bl -> Pmm.pmem s' x = Pmm.pmem s x).
Proof.
  intros [Hpmm Ht Hsep Hlow] Hne.
  destruct (Pmm.pmm_alloc_page_post _ bl Hpmm Hne) as (p & s' & bl' & -> & Hv & Hpmm' & Hperm & Hz & Hfr).
  assert (p ∈ Pmm.free_pages bl) as Hp by (rewrite Hperm; by left).
  exists p, s', bl'. split; [done|]. split_and!.
  - split; [done| | |].
    + apply tree_ext with (Pmm.pmem s); [done|]. intros q pq j Hq _ Hj. apply Hfr.
      rewrite align_entry by (done || by apply (own_aligned _ _ _ _ _ _ Ht Hq)).
      intros Hin. by rewrite (Hsep q Hin) in Hq.
    + intros q Hq. apply Hsep. rewrite Hperm. by right.
    + intros q Hq. apply Hlow. rewrite Hperm. by right.
  - done.
  - destruct Hv as [? ?]. split; [|done]. pose proof (Hlow p Hp). lia.
  - pose proof (Pmm.li_nodup _ _ _ (Pmm.pi_lists _ _ _ Hpmm)) as Hnd.
    rewrite Hperm in Hnd. by inversion Hnd.
  - done.
Qed.

Lemma lookup_or_create_spec s bl pgd own t i path :
  user_inv s bl pgd own -> own t = Some path -> (length path < 3)%nat ->
  good_path arm_format (path ++ [i]) -> Pmm.free_pages bl <> [] ->
  reach arm_format (Pmm.pmem s) pgd path = Some t ->
  exists c s' bl' own', pt_lookup_or_create t i s = Done (c, s') /\
    user_inv s' bl' pgd own' /\ own' c = Some (path ++ [i]) /\
    reach arm_format (Pmm.pmem s') pgd (path ++ [i]) = Some c /\
    (forall v, entry s' pgd v = entry s pgd v) /\
    (length (Pmm.free_pages bl) <= S (length (Pmm.free_pages bl')))%nat /\
    user_frame s s' bl bl' own own'.
Proof.
  intros Hinv Ht Hlen Hg Hne Hr. unfold pt_lookup_or_create.
  destruct (truthy (Z.land (Pmm.pmem s (t + 8 * i)) PT_VALID)) eqn:Hp.
  { eexists _, s, bl, own. split; [done|]. split_and!; [done| | |done|lia|apply user_frame_refl].
    - by apply (tr_child _ _ _ _ (ui_tree _ _ _ _ Hinv)).
    - rewrite reach_snoc, Hr. simpl. by rewrite Hp. }
  pose proof (good_last _ _ _ Hg) as Hi. pose proof (ui_tree _ _ _ _ Hinv) as Htree.
  destruct (take_page s bl pgd own Hinv Hne) as (p & s1 & bl' & -> & Hinv1 & Hperm & Hf & Hnp & Hfr).
  cbn [mbind outcome_bind]. pose proof Hinv1 as [Hpmm1 Htree1 Hsep1 Hlow1].
  assert (forall q pq j, own q = Some pq -> 0 <= j < 512 -> Pmm.pmem s1 (q + 8 * j) = Pmm.pmem s (q + 8 * j)) as Hsame.
  { intros q pq j Hq Hj. apply Hfr. rewrite align_entry by (done || by apply (own_aligned _ _ _ _ _ _ Htree Hq)).
    intros Hin. by rewrite (ui_sep _ _ _ _ Hinv q Hin) in Hq. }
  assert (own p = None) as Hfresh by (apply (ui_sep _ _ _ _ Hinv); rewrite Hperm; by left).
  assert (reach arm_format (Pmm.pmem s1) pgd path = Some t) as Hr1.
  { rewrite <-Hr. apply (reach_ext arm_format (Pmm.pmem s) _ pgd own _ []); [done| |apply (tr_root _ _ _ _ Htree)
      |simpl; lia|by apply good_path_app in Hg]. intros q pq j Hq _. by apply Hsame with pq. }
  assert (f_present arm_format (Pmm.pmem s1 (t + 8 * i)) = false) as Habs
    by (rewrite (Hsame t path i Ht Hi); exact Hp).
  destruct (create_table arm_format (Pmm.pmem s1) pgd own t i p path Htree1 Hf Hfresh Hlen Hg Ht Habs Hr1)
    as (Htree2 & Hc & Hrc & Hlk & Hout).
  set (own' := fun q => if q =? p then Some (path ++ [i]) else own q) in *.
  eexists p, _, bl', own'. split; [reflexivity|]. split_and!; [|exact Hc|exact Hrc| | |].
  - split; [|exact Htree2| |done].
    + apply (pmm_inv_write s1 bl'); [done|]. intros a Ha. apply Hout.
      destruct (free_frame _ _ _ Hpmm1 Ha). rewrite Pmm.page_align_down_id by done.
      unfold own'. destruct (Z.eqb_spec a p) as [->|]; [done|by apply Hsep1].
    + intros q Hq. unfold own'. destruct (Z.eqb_spec q p) as [->|]; [done|by apply Hsep1].
  - intros v. unfold entry. etransitivity; [apply Hlk; [done|by apply path_of_good]|].
    apply (lk_ext arm_format (Pmm.pmem s) _ pgd own _ []);
      [done|exact Hsame|apply (tr_root _ _ _ _ Htree)|done|by apply path_of_good].
  - rewrite Hperm. simpl. lia.
  - split_and!.
    + intros q Hq. rewrite Hperm. by right.
    + intros x Hx Ho. etransitivity; [apply Hout|by apply Hfr]. unfold own'.
      destruct (Z.eqb_spec (Pmm.page_align_down x) p) as [E|]; [|done].
      destruct Hx. rewrite E, Hperm. by left.
    + intros q. unfold own'. destruct (Z.eqb_spec q p) as [->|]; [|auto]. intros _. right. rewrite Hperm. by left.
Qed.

(** *** Mapping one page *)

Lemma pt_map_page_spec s bl pgd own virt phys flags :
  user_inv s bl pgd own -> (3 <= length (Pmm.free_pages bl))%nat ->
  exists s' bl' own', pt_map_page pgd virt phys flags s = Done s' /\ user_inv s' bl' pgd own' /\
    (length (Pmm.free_pages bl) <= 3 + length (Pmm.free_pages bl'))%nat /\
    user_frame s s' bl bl' own own' /\
    forall v, entry s' pgd v =
      if decide (vpage v = vpage virt) then Some (page_desc phys flags) else entry s pgd v.
Proof.
  intros Hinv Hroom. unfold pt_map_page.
  pose proof (path_of_good arm_format virt I) as Hg.
  set (l0 := Lx_INDEX virt L0_SHIFT). set (l1 := Lx_INDEX virt L1_SHIFT).
  set (l2 := Lx_INDEX virt L2_SHIFT). set (l3 := Lx_INDEX virt L3_SHIFT).
  assert (path_of virt = [l0; l1; l2] ++ [l3]) as Ep by done. rewrite Ep in Hg.
  pose proof (good_path_app _ [l0; l1; l2] _ Hg) as Hg3. pose proof (good_path_app _ [l0; l1] [l2] Hg3) as Hg2.
  pose proof (good_path_app _ [l0] [l1] Hg2) as Hg1.
  assert (forall bl : list (list Z), (0 < length (Pmm.free_pages bl))%nat -> Pmm.free_pages bl <> []) as Hnn
    by (intros bl0 H0 E; rewrite E in H0; simpl in H0; lia).
  destruct (lookup_or_create_spec s bl pgd own pgd l0 [] Hinv)
    as (t1 & s1 & bl1 & own1 & -> & Hi1 & Ho1 & Hr1 & E1 & L1 & F1);
    [apply Hinv|simpl; lia|done|apply Hnn; lia|done|]. cbn [mbind outcome_bind].
  destruct (lookup_or_create_spec s1 bl1 pgd own1 t1 l1 [l0] Hi1)
    as (t2 & s2 & bl2 & own2 & -> & Hi2 & Ho2 & Hr2 & E2 & L2 & F2);
    [done|simpl; lia|done|apply Hnn; lia|done|]. cbn [mbind outcome_bind].
  destruct (lookup_or_create_spec s2 bl2 pgd own2 t2 l2 [l0; l1] Hi2)
    as (t3 & s3 & bl3 & own3 & -> & Hi3 & Ho3 & Hr3 & E3 & L3 & F3);
    [done|simpl; lia|done|apply Hnn; lia|done|]. cbn [mbind outcome_bind].
  pose proof Hi3 as [Hp3 Ht3 Hs3 Hl3].
  pose proof (leaf_outside arm_format _ pgd own3 t3 l3 (page_desc phys flags) [l0; l1; l2] Ht3 eq_refl Hg Hr3) as Hout.
  eexists _, bl3, own3. split; [reflexivity|]. split_and!.
  - split; [| |done|done].
    + apply pmm_inv_write; [done|]. intros a Ha. apply Hout.
      destruct (free_frame _ _ _ Hp3 Ha). rewrite Pmm.page_align_down_id by done. by apply Hs3.
    + by apply (leaf_inv arm_format _ pgd own3 t3 l3 _ [l0; l1; l2]).
  - lia.
  - eapply user_frame_trans; [exact F1|]. eapply user_frame_trans; [exact F2|].
    eapply user_frame_trans; [exact F3|]. split_and!; [done| |auto]. intros x _. apply Hout.
  - intros v. rewrite <-E1, <-E2, <-E3. unfold entry.
    pose proof (path_of_good arm_format v I) as Hgv.
    etransitivity; [apply (leaf_lk arm_format _ pgd own3 t3 l3 (page_desc phys flags) [l0; l1; l2]
      Ht3 eq_refl Hg Hr3 (take 3 (path_of v))); done|].
    change (f_present arm_format (page_desc phys flags))
      with (truthy (Z.land (page_desc phys flags) PT_VALID)). rewrite page_desc_valid.
    change (take 3 (path_of v) ++ _) with (path_of v). rewrite <-Ep.
    destruct (decide (path_of v = path_of virt)) as [E|E], (decide (vpage v = vpage virt)) as [E'|E'];
      try done; by rewrite <-path_of_eq in E'.
Qed.

(** *** Runs of pages *)

Lemma map_user_loop_spec n i pgd virt phys w x s bl own :
  user_inv s bl pgd own -> 0 <= i ->
  0 <= virt -> virt mod PAGE_SIZE = 0 -> virt + (i + Z.of_nat n) * PAGE_SIZE <= 2 ^ 48 ->
  0 <= phys -> phys + (i + Z.of_nat n) * PAGE_SIZE <= 2 ^ 64 ->
  (3 * n <= length (Pmm.free_pages bl))%nat ->
  exists s' bl' own', map_user_loop n i pgd virt phys w x s = Done s' /\ user_inv s' bl' pgd own' /\
    (length (Pmm.free_pages bl) <= 3 * n + length (Pmm.free_pages bl'))%nat /\
    user_frame s s' bl bl' own own' /\
    forall v, 0 <= v < 2 ^ 48 -> entry s' pgd v =
      if (virt + i * PAGE_SIZE <=? v) && (v <? virt + (i + Z.of_nat n) * PAGE_SIZE)
      then Some (page_desc (phys + (v - virt) / PAGE_SIZE * PAGE_SIZE) (user_flags w x))
      else entry s pgd v.
Proof.
  revert i s bl own. induction n as [|n IH]; intros i s bl own Hinv Hi Hv0 Hva Hv1 Hp0 Hp1 Hroom; simpl map_user_loop.
  - exists s, bl, own. split; [done|]. split_and!; [done|lia|apply user_frame_refl|]. intros v Hv.
    destruct (Z.leb_spec (virt + i * PAGE_SIZE) v), (Z.ltb_spec v (virt + (i + Z.of_nat 0) * PAGE_SIZE)); simpl; done || lia.
  - unfold PAGE_SIZE in *.
    destruct (pt_map_page_spec s bl pgd own (u64 (virt + i * 4096)) (u64 (phys + i * 4096)) (user_flags w x) Hinv)
      as (s1 & bl1 & own1 & E1 & Hi1 & L1 & F1 & Hl1); [lia|].
    unfold arm64_map_user_page. rewrite E1. cbn [mbind outcome_bind].
    destruct (IH (i + 1) s1 bl1 own1 Hi1) as (s2 & bl2 & own2 & -> & Hi2 & L2 & F2 & Hl2); [lia..|].
    exists s2, bl2, own2. split; [done|]. split_and!; [done|lia|by eapply user_frame_trans|].
    intros v Hv. rewrite Hl2, Hl1 by done. rewrite (wrap_small 64 (phys + _)) by lia.
    rewrite (wrap_small 64 (virt + _)) by lia. unfold vpage, PAGE_SIZE.
    destruct (Z.leb_spec (virt + (i + 1) * 4096) v), (Z.ltb_spec v (virt + (i + 1 + Z.of_nat n) * 4096)); simpl;
      repeat case_decide; destruct (Z.leb_spec (virt + i * 4096) v),
        (Z.ltb_spec v (virt + (i + Z.of_nat (S n)) * 4096)); simpl; try lia; try done; do 2 f_equal; lia.
Qed.

(** A new root table. *)
Definition root_only (pgd q : Z) : option (list Z) := if q =? pgd then Some [] else None.

Lemma create_user_pgd_spec s bl :
  Pmm.pmm_inv 0 s bl -> (forall q, q ∈ Pmm.free_pages bl -> q < 2 ^ 48) -> Pmm.free_pages bl <> [] ->
  exists pgd s' bl', arm64_create_user_pgd s = Done (pgd, s') /\ user_inv s' bl' pgd (root_only pgd) /\
    Pmm.free_pages bl ≡ₚ pgd :: Pmm.free_pages bl' /\ (forall v, entry s' pgd v = None) /\
    (forall x, Pmm.page_align_down x ∉ Pmm.free_pages bl -> Pmm.pmem s' x = Pmm.pmem s x).
Proof.
  intros Hpmm Hlow Hne. unfold arm64_create_user_pgd.
  destruct (Pmm.pmm_alloc_page_post _ bl Hpmm Hne) as (p & s1 & bl' & -> & Hv & Hpmm' & Hperm & Hz & Hfr).
  cbn [mbind outcome_bind]. assert (p ∈ Pmm.free_pages bl) as Hp by (rewrite Hperm; by left).
  assert (p ∉ Pmm.free_pages bl') as Hnp.
  { pose proof (Pmm.li_nodup _ _ _ (Pmm.pi_lists _ _ _ Hpmm)) as Hnd. rewrite Hperm in Hnd. by inversion Hnd. }
  pose proof (Hlow p Hp). destruct Hv as [Hv1 Hv2].
  set (m := mem_zero (Pmm.pmem s1) p PAGE_SIZE).
  assert (forall j, 0 <= j < 512 -> m (p + 8 * j) = 0) as Hzero.
  { intros j Hj. unfold m, mem_zero, PAGE_SIZE.
    destruct (Z.leb_spec p (p + 8 * j)), (Z.ltb_spec (p + 8 * j) (p + 4096)); simpl; done || lia. }
  assert (forall x, Pmm.page_align_down x <> p -> m x = Pmm.pmem s1 x) as Hrest.
  { intros x Hx. unfold m, mem_zero. rewrite Pmm.page_align_down_spec in Hx. unfold PAGE_SIZE in *.
    destruct (Z.leb_spec p x), (Z.ltb_spec x (p + 4096)); simpl; done || lia. }
  exists p, (set_pmem m s1), bl'. split; [done|]. split_and!; [|done| |].
  - split.
    + apply pmm_inv_write; [done|]. intros a Ha. apply Hrest.
      destruct (free_frame _ _ _ Hpmm' Ha). rewrite Pmm.page_align_down_id by done. by intros ->.
    + split; unfold root_only.
      * by rewrite Z.eqb_refl.
      * intros q path. destruct (Z.eqb_spec q p) as [->|]; [|done]. intros _. split; [lia|done].
      * intros q path j. destruct (Z.eqb_spec q p) as [->|]; [|done]. intros _ _ Hg Hpres.
        change (f_present arm_format (m (p + 8 * j)) = true) in Hpres.
        by rewrite Hzero in Hpres by by apply (good_last arm_format path).
    + intros q Hq. unfold root_only. destruct (Z.eqb_spec q p) as [->|]; done.
    + intros q Hq. apply Hlow. rewrite Hperm. by right.
  - intros v. unfold entry. change (Pmm.pmem (set_pmem m s1)) with m. simpl.
    by rewrite Hzero by apply idx_range.
  - intros x Hx. etransitivity; [apply Hrest|by apply Hfr]. by intros E; rewrite E in Hx.
Qed.

(** Taking a block for a stack leaves the tables alone; without a block the
    address is 0. *)
Lemma alloc_stack_spec s bl pgd own :
  user_inv s bl pgd own ->
  exists b s' bl', Pmm.pmm_alloc_pages 4 s = Some (b, s') /\ user_inv s' bl' pgd own /\
    (length (Pmm.free_pages bl) <= 4 + length (Pmm.free_pages bl'))%nat /\
    user_frame s s' bl bl' own own /\ (forall v, entry s' pgd v = entry s pgd v) /\
    0 <= b < 2 ^ 48 /\ (b <> 0 -> forall i, 0 <= i < 4 -> b + i * PAGE_SIZE ∈ Pmm.free_pages bl).
Proof.
  intros Hinv. pose proof Hinv as [Hpmm Ht Hsep Hlow].
  pose proof (Pmm.buddy_alloc_post 0 2 s bl Hpmm ltac:(lia)) as Hpost.
  unfold Pmm.pmm_alloc_pages. change (Pmm.order_of 4) with (Some (Z.of_nat 2)). cbn [mbind option_bind].
  destruct (Pmm.buddy_alloc 0 (Z.of_nat 2) s) as [b s'].
  destruct Hpost as [(-> & -> & _)|(Hv & bl' & Hpmm' & Hp & _ & _ & Hfr)].
  { exists 0, s, bl. split_and!; try done; [lia|apply user_frame_refl]. }
  assert (forall q pq j, own q = Some pq -> 0 <= j < 512 -> Pmm.pmem s' (q + 8 * j) = Pmm.pmem s (q + 8 * j)) as Hsame.
  { intros q pq j Hq Hj. apply Hfr. rewrite align_entry by (done || by apply (own_aligned _ _ _ _ _ _ Ht Hq)).
    intros Hin. by rewrite (Hsep q Hin) in Hq. }
  assert (forall i, 0 <= i < 4 -> b + i * PAGE_SIZE ∈ Pmm.free_pages bl) as Hblock.
  { intros i Hi. rewrite Hp, elem_of_app. left. apply Pmm.elem_of_pages. exists i. split; [done|lia]. }
  exists b, s', bl'. split; [done|]. split_and!.
  - split; [done| | |].
    + apply tree_ext with (Pmm.pmem s); [done|]. intros q pq j Hq _. by apply Hsame with pq.
    + intros q Hq. apply Hsep. rewrite Hp, elem_of_app. by right.
    + intros q Hq. apply Hlow. rewrite Hp, elem_of_app. by right.
  - rewrite Hp, length_app, Pmm.length_pages. simpl. lia.
  - split_and!; [|auto|auto]. intros q Hq. rewrite Hp, elem_of_app. by right.
  - intros v. apply (lk_ext arm_format (Pmm.pmem s) _ pgd own _ []);
      [done|exact Hsame|apply (tr_root _ _ _ _ Ht)|done|by apply path_of_good].
  - destruct Hv. lia.
  - destruct Hv. specialize (Hblock 0). rewrite Z.add_0_r in Hblock. apply Hlow, Hblock. lia.
  - done.
Qed.

(** A write outside the tables changes no entry. *)
Lemma write_outside s bl pgd own x v :
  user_inv s bl pgd own -> own (Pmm.page_align_down x) = None ->
  forall virt, entry (set_pmem (mem_write (Pmm.pmem s) x v) s) pgd virt = entry s pgd virt.
Proof.
  intros [_ Ht _ _] Hx virt. apply (lk_ext arm_format (Pmm.pmem s) _ pgd own _ []);
    [done| |apply (tr_root _ _ _ _ Ht)|done|by apply path_of_good].
  intros q pq j Hq Hj. simpl. unfold mem_write. destruct (Z.eqb_spec (q + 8 * j) x) as [<-|]; [|done].
  rewrite align_entry, Hq in Hx; [done|by apply (own_aligned _ _ _ _ _ _ Ht Hq)|done].
Qed.

(** ** Properties *)

(** C15: Mapping a run of pages in the tables of a user program never runs out of
    memory when three pages are free for each, and then exactly the addresses
    of the run translate to the descriptors of the physical pages at the same
    offset, with the attributes asked for; every other address keeps its
    descriptor, the allocator and the tables stay consistent, and no memory
    outside the tables and the free pages is touched. *)
Theorem arm64_map_user_pages_refines pgd virt phys pages w x s bl own
    (Hinv : user_inv s bl pgd own) (Hpages : 0 <= pages)
    (Hvirt : 0 <= virt /\ virt mod PAGE_SIZE = 0) (Hvend : virt + pages * PAGE_SIZE <= 2 ^ 48)
    (Hphys : 0 <= phys /\ phys + pages * PAGE_SIZE <= 2 ^ 64)
    (Hroom : 3 * pages <= Z.of_nat (length (Pmm.free_pages bl))) :
  exists s' bl' own', arm64_map_user_pages pgd virt phys pages w x s = Done s' /\
    user_inv s' bl' pgd own' /\ user_frame s s' bl bl' own own' /\
    forall v, 0 <= v < 2 ^ 48 -> entry s' pgd v =
      if (virt <=? v) && (v <? virt + pages * PAGE_SIZE)
      then Some (page_desc (phys + (v - virt) / PAGE_SIZE * PAGE_SIZE) (user_flags w x))
      else entry s pgd v.
Proof.
  destruct (map_user_loop_spec (Z.to_nat pages) 0 pgd virt phys w x s bl own Hinv)
    as (s' & bl' & own' & E & Hi & _ & Hf & Hl); [unfold PAGE_SIZE in *; lia..|].
  exists s', bl', own'. split_and!; [done..|]. intros v Hv. rewrite Hl by done.
  by rewrite Z.add_0_r, Z.add_0_l, Z2Nat.id by done.
Qed.

(** A new root maps nothing, in a page that was free. *)
Theorem arm64_create_user_pgd_empty s bl
    (Hpmm : Pmm.pmm_inv 0 s bl) (Hlow : forall q, q ∈ Pmm.free_pages bl -> q < 2 ^ 48)
    (Hne : Pmm.free_pages bl <> []) :
  exists pgd s' bl', arm64_create_user_pgd s = Done (pgd, s') /\ user_inv s' bl' pgd (root_only pgd) /\
    Pmm.free_pages bl ≡ₚ pgd :: Pmm.free_pages bl' /\ (forall v, entry s' pgd v = None).
Proof.
  destruct (create_user_pgd_spec s bl Hpmm Hlow Hne) as (pgd & s' & bl' & ? & ? & ? & ? & _). eauto 7.
Qed.

(** The descriptor of a page has 01 in its two lowest bits.  The architecture
    wants 11 there in the last level and reserves 01, so an access to a page
    mapped this way faults. *)
Lemma page_desc_reserved phys w x : Z.land (page_desc phys (user_flags w x)) 3 = 1.
Proof.
  unfold page_desc. rewrite !Z.land_lor_distr_l, <-Z.land_assoc.
  change (Z.land PT_ADDR_MASK 3) with 0. rewrite Z.land_0_r.
  by destruct w, x.
Qed.

(** Bits 6 and 7 of a descriptor are the access permissions, where the
    architecture gives 00 to the kernel alone and 01 to both for reading and
    writing: a writable page is closed to user programs and a read-only page is
    writable. *)
Lemma user_flags_access x :
  Z.shiftr (Z.land (user_flags true x) 0xC0) 6 = 0 /\ Z.shiftr (Z.land (user_flags false x) 0xC0) 6 = 1.
Proof. by destruct x. Qed.

(** Acknowledging an interrupt writes its number to the end-of-interrupt
    register and nothing else. *)
Lemma gic_eoi_writes {D} `{!MmioDevice D} irq (b : bus D) :
  0 <= irq < 2 ^ 32 -> new_writes (arm64_gic_eoi irq) b = [(GICC_BASE + GICC_EOIR, irq)].
Proof.
  intros Hi. unfold new_writes, arm64_gic_eoi, gic_write32, write_reg. cbn [snd bus_log].
  rewrite drop_app_length. simpl. by rewrite wrap_small.
Qed.

(** *** Witnesses: tables in four free pages *)

Lemma four_low q : q ∈ Pmm.free_pages Pmm.four_blocks -> q < 2 ^ 48.
Proof. unfold Pmm.four_blocks. rewrite Pmm.free_pages_singles. intros Hq. set_unfold in Hq. lia. Qed.

Lemma four_some : Pmm.free_pages Pmm.four_blocks <> [].
Proof. unfold Pmm.four_blocks. by rewrite Pmm.free_pages_singles. Qed.

Lemma arm64_create_user_pgd_empty_witness :
  exists pgd s', arm64_create_user_pgd Pmm.four_pages = Done (pgd, s') /\ entry s' pgd 0x400000 = None.
Proof.
  destruct (arm64_create_user_pgd_empty Pmm.four_pages Pmm.four_blocks Pmm.four_pages_inv four_low four_some)
    as (pgd & s' & bl' & H1 & _ & _ & H2). exists pgd, s'. split; [exact H1|apply H2].
Defined.

Lemma arm64_map_user_pages_refines_witness :
  exists pgd s s', arm64_create_user_pgd Pmm.four_pages = Done (pgd, s) /\
    arm64_map_user_pages pgd 0x400000 0x5000 1 true true s = Done s' /\
    entry s' pgd 0x400123 = Some (page_desc 0x5000 (user_flags true true)).
Proof.
  destruct (create_user_pgd_spec Pmm.four_pages Pmm.four_blocks Pmm.four_pages_inv four_low four_some)
    as (pgd & s & bl & E & Hinv & Hperm & Hnone & _).
  assert (length (Pmm.free_pages bl) = 3%nat) as Hlen.
  { apply Permutation_length in Hperm. unfold Pmm.four_blocks in Hperm.
    rewrite Pmm.free_pages_singles in Hperm. simpl in Hperm. lia. }
  destruct (arm64_map_user_pages_refines pgd 0x400000 0x5000 1 true true s bl (root_only pgd) Hinv)
    as (s' & bl' & own' & E' & _ & _ & Hl); [unfold PAGE_SIZE; lia..|].
  exists pgd, s, s'. split; [exact E|]. split; [exact E'|]. rewrite Hl by lia. reflexivity.
Defined.

End Arm64.
