(* ===== verification/Syscall.v ===== *)
(** * System calls

    Models kernel/syscall.c: the table of system calls, the dispatch and the
    older entry point, over the process, scheduler, initramfs, ELF and, on
    aarch64, user page table components.  User memory is a map from addresses to
    bytes; the console is the list of the characters that this file writes, with
    [printf] for itself and with [putchar] for the programs (the lines that other
    files print on the way, such as elf.c, are not in it).

    [process_get_current], [process_exit] and [sys_brk] are used by the source but
    defined nowhere in it, and are parameters.  Of the two definitions of
    [sys_fork] the later one, which calls [proc_fork], is modelled. *)

From stdpp Require Import base numbers list option tactics sets strings.
From S2P Require Import Prelude Bytes Text Pmm PageTree Paging Vmm ProcTable Sched Process Initramfs Elf Arm64.
Import Text Proc Sched Process.
Open Scope Z_scope.

Module Syscall.

Definition SYSCALL_MAX : Z := 64.

Inductive power_request := PowerOff | Reboot.

Record sysstate (H : Type) := mk_sysstate {
  psys : sys H;
  console : list Z;
  initramfs : option Initramfs.initramfs_t;   (* None until [_initramfs_loaded] *)
  umem : Z -> Z;
  kticks : Z;
  power : list power_request;
  sregs : Arm64.sysregs;
}.
Arguments mk_sysstate {H}.
Arguments psys {H}.
Arguments console {H}.
Arguments initramfs {H}.
Arguments umem {H}.
Arguments kticks {H}.
Arguments power {H}.
Arguments sregs {H}.

(** How a system call ends. *)
Inductive sys_result (H : Type) :=
| Returns (ret : Z) (s : sysstate H)
| Stops (s : sysstate H)                  (* waits for interrupts for ever *)
| Enters (entry : Z) (s : sysstate H)     (* jumps into the loaded program *)
| EntersUser (entry sp pgd : Z) (s : sysstate H)   (* leaves for user mode *)
| Panics (why : panic)
| Faults                                  (* reads outside the file being loaded *)
| OutOfFuel.
Arguments Returns {H}.
Arguments Stops {H}.
Arguments Enters {H}.
Arguments EntersUser {H}.
Arguments Panics {H}.
Arguments Faults {H}.
Arguments OutOfFuel {H}.

Definition set_psys {H} (p : sys H) (s : sysstate H) : sysstate H :=
  mk_sysstate p (console s) (initramfs s) (umem s) (kticks s) (power s) (sregs s).

(** [printf] *)
Definition print {H} (text : list Z) (s : sysstate H) : sysstate H :=
  mk_sysstate (psys s) (console s ++ text) (initramfs s) (umem s) (kticks s) (power s) (sregs s).

(** The string at an address.  No name in an archive is longer than
    [PATH_MAX - 1], so characters after the first [PATH_MAX] never matter for the
    search; a line that prints the string shows these. *)
Definition user_string (m : Z -> Z) (a : Z) : list Z :=
  (fun i => m (a + i)) <$> seqZ 0 Initramfs.PATH_MAX.

(** Rounds of the archive search that are always enough. *)
Definition archive_fuel (fs : Initramfs.initramfs_t) : nat :=
  S (S (Z.to_nat (Initramfs.archive_size fs / 110))).

Definition syscall_set_initramfs {H} (data : list Z) (size : Z) (s : sysstate H) : sysstate H :=
  mk_sysstate (psys s) (console s) (Some (Initramfs.initramfs_init data size)) (umem s) (kticks s) (power s) (sregs s).

(** The lines that the system calls print. *)
Definition exit_line (code : Z) : list Z := chars "[SYSCALL] exit(" ++ dec_signed code ++ line ")".
Definition execve_line (m : Z -> Z) (path : Z) : list Z :=
  chars "[SYSCALL] execve(" ++ cstr (user_string m path) ++ line ")".
Definition not_found_line (m : Z -> Z) (path : Z) : list Z :=
  chars "[SYSCALL] File not found in initramfs: " ++ cstr (user_string m path) ++ [10].
Definition load_failed_line (m : Z -> Z) (path : Z) : list Z :=
  chars "[SYSCALL] ELF load failed: " ++ cstr (user_string m path) ++ [10].
Definition loading_line (m : Z -> Z) (path entry : Z) : list Z :=
  chars "[SYSCALL] Loading " ++ cstr (user_string m path) ++ chars " at entry 0x" ++ hex entry ++ [10].
Definition unknown_line (num : Z) : list Z := chars "[SYSCALL] Unknown syscall " ++ dec num ++ [10].
Definition ready_line : list Z := chars "[SYSCALL] Syscall table ready (" ++ dec SYSCALL_MAX ++ line " entries)".

Section loading.
Context {H : Type}.
Implicit Types (s : sysstate H).

(** The six arguments are a list. *)
Definition arg (i : nat) (args : list Z) : Z := nth i args 0.

(** The part of [execve] both architectures share: the program in memory, or
    how the call ends without it. *)
Definition load_program (args : list Z) s : sys_result H + Elf.elf_loaded_t * sysstate H :=
  let path := arg 0 args in
  match initramfs s with
  | None => inl (Returns (-1) s)
  | Some fs =>
      if path =? 0 then inl (Returns (-1) s) else
      let s := print (execve_line (umem s) path) s in
      match Initramfs.initramfs_find (archive_fuel fs) (user_string (umem s) path) fs with
      | None => inl OutOfFuel
      | Some (r, e, fs') =>
          let s := mk_sysstate (psys s) (console s) (Some fs') (umem s) (kticks s) (power s) (sregs s) in
          if r <=? 0 then inl (Returns (-1) (print (not_found_line (umem s) path) s)) else
          match e with
          | None => inl Faults
          | Some e =>
              let bin := slice (Initramfs.data e) (Initramfs.size e) (Initramfs.archive fs) in
              match Elf.elf_load (Some bin) (Initramfs.size e) true (umem s) with
              | Elf.ElfFault => inl Faults
              | Elf.ElfReturn r out m =>
                  let s := mk_sysstate (psys s) (console s) (initramfs s) m (kticks s) (power s) (sregs s) in
                  if r <? 0 then inl (Returns (-1) (print (load_failed_line (umem s) path) s)) else
                  match out with
                  | Some l => inr (l, print (loading_line (umem s) path (Elf.entry l)) s)
                  | None => inl Faults
                  end
              end
          end
      end
  end.

Definition user_stack_virt : Z := 0x7FFFF0000.

(** The pages between the rounded ends of the image. *)
Definition load_start (l : Elf.elf_loaded_t) : Z := Z.land (Elf.load_base l) (Z.lnot 0xFFF).
Definition load_end (l : Elf.elf_loaded_t) : Z :=
  Z.land (u64 (Elf.load_base l + Elf.lsize l + 0xFFF)) (Z.lnot 0xFFF).
Definition load_pages (l : Elf.elf_loaded_t) : Z := u64 (load_end l - load_start l) / PAGE_SIZE.

Definition kpmm (p : sys H) : Pmm.pmm_state := Paging.pmm (Vmm.pg (vs p)).
Definition set_kpmm (m : Pmm.pmm_state) (p : sys H) : sys H :=
  mk_sys (ks p) (Vmm.set_pg (Paging.set_pmm m (Vmm.pg (vs p))) (vs p)).

(** Page tables and stack of the program, on aarch64. *)
Definition user_tables (l : Elf.elf_loaded_t) (m : Pmm.pmm_state) : outcome (option (Z * Pmm.pmm_state)) :=
  '(user_pgd, m) ← Arm64.arm64_create_user_pgd m;
  match Pmm.pmm_alloc_pages 4 m with
  | None => Done None
  | Some (user_stack_phys, m) =>
      m ← Arm64.map_user_loop (Z.to_nat (load_pages l)) 0 user_pgd (load_start l) (load_start l) true true m;
      m ← Arm64.map_user_loop 4 0 user_pgd user_stack_virt user_stack_phys true false m;
      Done (Some (user_pgd, m))
  end.

Definition enter_user_space (l : Elf.elf_loaded_t) s : sys_result H :=
  match user_tables l (kpmm (psys s)) with
  | Halted w => Panics w
  | Done None => OutOfFuel
  | Done (Some (user_pgd, m)) =>
      let sp := user_stack_virt + 0x10000 - 8 in
      let p := set_kpmm m (psys s) in
      let p := match proc_get_current (ks p) with
               | Some i => (proc_setup_userspace aarch64 (Some i) (Elf.entry l) sp user_pgd p).2
               | None => p
               end in
      let s := mk_sysstate p (console s) (initramfs s) (umem s) (kticks s) (power s)
                 (Arm64.arm64_set_ttbr0 user_pgd (sregs s)) in
      EntersUser (Elf.entry l) sp user_pgd s
  end.

(** ** Loading a program *)

(** The archive has room for a header per round. *)
Lemma archive_rounds files tl :
  Forall Initramfs.file_ok files ->
  let ar := concat (Initramfs.encode <$> files) ++ tl in
  (length files <= Z.to_nat (Z.of_nat (length ar) / 110))%nat.
Proof.
  intros HF ar. assert (110 * Z.of_nat (length files) <= Z.of_nat (length (concat (Initramfs.encode <$> files)))) as Hl.
  { clear ar. induction HF as [|f files Hf HF IH]; [simpl; lia|]. rewrite fmap_cons. cbn [concat length].
    rewrite length_app. pose proof (Initramfs.encode_length f Hf). lia. }
  unfold ar. rewrite length_app.
  assert (Z.of_nat (length files) <= Z.of_nat (length (concat (Initramfs.encode <$> files)) + length tl) / 110)
    by (apply Z.div_le_lower_bound; lia).
  lia.
Qed.

(** A file of the archive that is a well-formed executable loads. *)
Lemma load_program_spec files tl o path args i f ent phoff l s :
  let ar := concat (Initramfs.encode <$> files) ++ tl in
  initramfs s = Some (Initramfs.mk_fs ar (Z.of_nat (length ar)) o) ->
  Forall Initramfs.file_ok files -> Initramfs.tail_ok tl -> Z.of_nat (length ar) < 2 ^ 62 ->
  path <> 0 ->
  first_index (Initramfs.has_name (user_string (umem s) path)) files = Some i -> files !! i = Some f ->
  Elf.elf_ok (Initramfs.fdata f) ent phoff l -> Forall (Elf.seg_ok (Initramfs.fdata f)) (Elf.loads l) ->
  List.ForallOrdPairs Elf.seg_disjoint (Elf.loads l) ->
  exists fs' m', load_program (path :: args) s =
      inr (Elf.mk_loaded (Z.of_nat (length (Initramfs.fdata f))) ent (Elf.lowest (Elf.loads l)),
           mk_sysstate (psys s) (console s ++ execve_line (umem s) path ++ loading_line m' path ent) (Some fs') m'
             (kticks s) (power s) (sregs s)) /\
    Elf.image (Initramfs.fdata f) (Elf.loads l) (umem s) m'.
Proof.
  intros ar Hfs HF Htl Hlen Hp Hi Hf Hok Hsegs Hdis. unfold load_program, arg. cbn [nth].
  rewrite Hfs, (proj2 (Z.eqb_neq path 0)) by done. cbv zeta. change (umem (print _ s)) with (umem s).
  destruct (Initramfs.find_files files tl (user_string (umem s) path) o
    (archive_fuel (Initramfs.mk_fs ar (Z.of_nat (length ar)) o)) HF Htl Hlen) as (r & e & fs' & E & Hm).
  { unfold archive_fuel. cbn [Initramfs.archive_size]. pose proof (archive_rounds files tl HF) as Hr. cbv zeta in Hr. unfold ar. lia. }
  fold ar in E. rewrite E. rewrite Hi in Hm. destruct Hm as (-> & f' & en & Hf' & -> & Hsz & Hd).
  assert (f' = f) as -> by congruence. cbn [Z.leb Z.compare Initramfs.archive umem print].
  fold ar in Hd. rewrite Hd, Hsz.
  destruct (Elf.elf_load_spec (Initramfs.fdata f) ent phoff l (umem s) Hok Hsegs Hdis) as (m' & -> & Him).
  exists fs', m'. split; [|done]. unfold print. cbn. by rewrite <-app_assoc.
Qed.

(** ** The address space of a program on aarch64 *)

(** What the tables hold for an address: the image at its own address, the
    stack at the block taken for it, and nothing else. *)
Definition user_space (l : Elf.elf_loaded_t) (stack v : Z) : option Z :=
  if (user_stack_virt <=? v) && (v <? user_stack_virt + 4 * PAGE_SIZE)
  then Some (Arm64.page_desc (stack + (v - user_stack_virt) / PAGE_SIZE * PAGE_SIZE) (Arm64.user_flags true false))
  else if (load_start l <=? v) && (v <? load_end l)
  then Some (Arm64.page_desc (v / PAGE_SIZE * PAGE_SIZE) (Arm64.user_flags true true))
  else None.

Definition load_ok (l : Elf.elf_loaded_t) : Prop :=
  0 <= Elf.load_base l /\ 0 <= Elf.lsize l /\ Elf.load_base l + Elf.lsize l + PAGE_SIZE <= 2 ^ 48.

Lemma load_range l :
  load_ok l ->
  0 <= load_start l /\ load_start l mod PAGE_SIZE = 0 /\ load_start l + load_pages l * PAGE_SIZE = load_end l /\
  0 <= load_pages l /\ load_end l <= 2 ^ 48 /\
  load_start l <= Elf.load_base l /\ Elf.load_base l + Elf.lsize l <= load_end l.
Proof.
  intros (H1 & H2 & H3). unfold load_pages, load_start, load_end.
  change (Z.lnot 0xFFF) with (Z.lnot (PAGE_SIZE - 1)).
  change (Z.land ?x (Z.lnot (PAGE_SIZE - 1))) with (Pmm.page_align_down x).
  rewrite !Pmm.page_align_down_spec. unfold PAGE_SIZE in *.
  rewrite (wrap_small 64 (Elf.load_base l + _ + _)) by lia. rewrite wrap_small by lia. lia.
Qed.

Lemma user_tables_spec l m bl :
  Pmm.pmm_inv 0 m bl -> (forall q, q ∈ Pmm.free_pages bl -> q < 2 ^ 48) -> load_ok l ->
  17 + 3 * load_pages l <= Z.of_nat (length (Pmm.free_pages bl)) ->
  exists pgd stack m' bl' own', user_tables l m = Done (Some (pgd, m')) /\
    Arm64.user_inv m' bl' pgd own' /\
    (forall q, own' q <> None -> q ∈ Pmm.free_pages bl) /\
    (stack <> 0 -> forall i, 0 <= i < 4 -> stack + i * PAGE_SIZE ∈ Pmm.free_pages bl) /\
    (forall x, Pmm.page_align_down x ∉ Pmm.free_pages bl -> Pmm.pmem m' x = Pmm.pmem m x) /\
    (forall v, 0 <= v < 2 ^ 48 -> Arm64.entry m' pgd v = user_space l stack v).
Proof.
  intros Hpmm Hlow Hl Hroom. destruct (load_range l Hl) as (S1 & S2 & S3 & S4 & S5 & _).
  unfold user_tables. unfold PAGE_SIZE in *.
  destruct (Arm64.create_user_pgd_spec m bl Hpmm Hlow) as (pgd & m1 & bl1 & -> & I1 & P1 & N1 & M1).
  { intros E. rewrite E in Hroom. simpl in Hroom. lia. }
  cbn [mbind outcome_bind]. pose proof (Permutation_length P1) as L1. simpl in L1.
  destruct (Arm64.alloc_stack_spec m1 bl1 pgd _ I1) as (stack & m2 & bl2 & -> & I2 & L2 & F2 & N2 & B2 & K2).
  destruct (Arm64.map_user_loop_spec (Z.to_nat (load_pages l)) 0 pgd (load_start l) (load_start l) true true m2 bl2 _ I2)
    as (m3 & bl3 & own3 & -> & I3 & L3 & F3 & N3); [unfold PAGE_SIZE; lia..|].
  cbn [mbind outcome_bind].
  destruct (Arm64.map_user_loop_spec 4 0 pgd user_stack_virt stack true false m3 bl3 _ I3)
    as (m4 & bl4 & own4 & -> & I4 & L4 & F4 & N4); [unfold user_stack_virt, PAGE_SIZE; lia..|].
  pose proof (Arm64.user_frame_trans _ _ _ _ _ _ _ _ _ F2 (Arm64.user_frame_trans _ _ _ _ _ _ _ _ _ F3 F4))
    as (_ & Hmem & Hown).
  cbn [mbind outcome_bind]. exists pgd, stack, m4, bl4, own4. split; [done|]. split_and!; [done| | | |].
  - intros q Hq. rewrite P1, elem_of_cons. destruct (Hown q Hq) as [Hr|Hr]; [|by right]. left.
    unfold Arm64.root_only in Hr. by destruct (Z.eqb_spec q pgd).
  - intros Hs i Hi. rewrite P1, elem_of_cons. right. by apply K2.
  - intros x Hx. rewrite P1, elem_of_cons in Hx. rewrite Hmem, M1; [done| | |].
    + rewrite P1, elem_of_cons. tauto.
    + tauto.
    + unfold Arm64.root_only. destruct (Z.eqb_spec (Pmm.page_align_down x) pgd); [tauto|done].
  - intros v Hv. rewrite N4, N3, N2, N1 by done. unfold user_space, PAGE_SIZE.
    rewrite !Z.add_0_r, !Z.add_0_l, Z2Nat.id, S3 by done.
    change (Z.of_nat 4) with 4. destruct (_ && _); [done|]. destruct (_ && _); [|done]. do 2 f_equal. lia.
Qed.

(** Where [proc_setup_userspace] writes: into the address space of the current
    process, whose page is not free. *)
Definition space_in_use (bl : list (list Z)) s : Prop :=
  forall i, proc_get_current (ks (psys s)) = Some i ->
    Pmm.page_align_down (Vmm.pml4_phys_ (vm_space (get_proc i (ks (psys s))))) ∉ Pmm.free_pages bl.

Lemma setup_keeps_entries i en sp pgd own bl bl' m (p : sys H) :
  Arm64.user_inv m bl' pgd own -> (forall q, own q <> None -> q ∈ Pmm.free_pages bl) ->
  Pmm.page_align_down (Vmm.pml4_phys_ (vm_space (get_proc i (ks p)))) ∉ Pmm.free_pages bl ->
  forall v, Arm64.entry (kpmm (proc_setup_userspace aarch64 (Some i) en sp pgd (set_kpmm m p)).2) pgd v =
    Arm64.entry m pgd v.
Proof.
  intros Hinv Hown Hsp v. unfold proc_setup_userspace. cbn [ks set_kpmm].
  destruct (negb _); [done|]. cbn [snd kpmm vs].
  destruct (truthy _); [|done].
  apply (Arm64.write_outside m bl' pgd own); [done|].
  destruct (own _) eqn:E; [|done]. destruct Hsp. apply Hown. by rewrite E.
Qed.

(** The page of the current process that [proc_setup_userspace] writes to. *)
Definition space_page s (q : Z) : Prop :=
  exists i, proc_get_current (ks (psys s)) = Some i /\
    q = Pmm.page_align_down (Vmm.pml4_phys_ (vm_space (get_proc i (ks (psys s))))).

Lemma setup_keeps_memory i en sp pgd m (p : sys H) x :
  Pmm.page_align_down x <> Pmm.page_align_down (Vmm.pml4_phys_ (vm_space (get_proc i (ks p)))) ->
  Pmm.pmem (kpmm (proc_setup_userspace aarch64 (Some i) en sp pgd (set_kpmm m p)).2) x = Pmm.pmem m x.
Proof.
  intros Hx. unfold proc_setup_userspace. cbn [ks set_kpmm].
  destruct (negb _); [done|]. cbn [snd kpmm vs].
  destruct (truthy _); [|done]. cbn. unfold mem_write.
  destruct (Z.eqb_spec x (Vmm.pml4_phys_ (vm_space (get_proc i (ks p))))) as [->|]; done.
Qed.

(** The user space a program is entered with. *)
Lemma enter_user_space_spec l s bl :
  Pmm.pmm_inv 0 (kpmm (psys s)) bl -> (forall q, q ∈ Pmm.free_pages bl -> q < 2 ^ 48) -> load_ok l ->
  17 + 3 * load_pages l <= Z.of_nat (length (Pmm.free_pages bl)) -> space_in_use bl s ->
  exists pgd stack s', enter_user_space l s = EntersUser (Elf.entry l) 0x7FFFFFFF8 pgd s' /\
    umem s' = umem s /\ Arm64.ttbr0 (sregs s') = pgd /\
    (stack <> 0 -> forall i, 0 <= i < 4 -> stack + i * PAGE_SIZE ∈ Pmm.free_pages bl) /\
    (forall x, Pmm.page_align_down x ∉ Pmm.free_pages bl -> ~ space_page s (Pmm.page_align_down x) ->
       Pmm.pmem (kpmm (psys s')) x = Pmm.pmem (kpmm (psys s)) x) /\
    (forall v, 0 <= v < 2 ^ 48 -> Arm64.entry (kpmm (psys s')) pgd v = user_space l stack v) /\
    console s' = console s.
Proof.
  intros Hpmm Hlow Hl Hroom Hsp. unfold enter_user_space.
  destruct (user_tables_spec l _ bl Hpmm Hlow Hl Hroom)
    as (pgd & stack & m' & bl' & own' & -> & Hinv & Hown & Hst & Hmem & Hent).
  eexists pgd, stack, _. split; [reflexivity|]. split_and!; [done..| | |done].
  { intros x Hx Hs. rewrite <-(Hmem x Hx). cbn [psys]. change (ks (set_kpmm m' (psys s))) with (ks (psys s)).
    destruct (proc_get_current (ks (psys s))) as [i|] eqn:Ei; [|done].
    apply setup_keeps_memory. intros E. apply Hs. by exists i. }
  intros v Hv.
  rewrite <-(Hent v Hv). cbn [psys]. unfold space_in_use in Hsp.
  change (ks (set_kpmm m' (psys s))) with (ks (psys s)).
  destruct (proc_get_current (ks (psys s))) as [i|] eqn:Ei; [|done].
  by apply (setup_keeps_entries i _ _ pgd own' bl bl'); [| |apply Hsp].
Qed.

(** The stack pointer the program starts with is 48 KB above the four pages
    mapped for the stack: no page is mapped there unless the image covers it. *)
Lemma user_stack_unmapped l stack v :
  0x7FFFFFFF8 - 8 <= v <= 0x7FFFFFFF8 -> v < load_start l \/ load_end l <= v -> user_space l stack v = None.
Proof.
  intros Hv Hl. unfold user_space, user_stack_virt, PAGE_SIZE.
  destruct (Z.leb_spec 0x7FFFF0000 v), (Z.ltb_spec v (0x7FFFF0000 + 4 * 4096)); simpl; try lia.
  destruct (Z.leb_spec (load_start l) v), (Z.ltb_spec v (load_end l)); simpl; done || lia.
Qed.

(** The length mapped is that of the file: the memory of a segment past it, which
    the loader clears, is not mapped. *)
Lemma bss_unmapped l stack v :
  load_end l <= v -> v < user_stack_virt \/ user_stack_virt + 4 * PAGE_SIZE <= v -> user_space l stack v = None.
Proof.
  intros Hv Hs. unfold user_space.
  destruct (Z.leb_spec user_stack_virt v), (Z.ltb_spec v (user_stack_virt + 4 * PAGE_SIZE)); simpl; try lia;
    destruct (Z.leb_spec (load_start l) v), (Z.ltb_spec v (load_end l)); simpl; done || lia.
Qed.

(** An executable of 124 bytes with a segment of three pages at 0x400000. *)
Lemma bss_unmapped_example stack :
  let g := Elf.mk_seg Elf.PT_LOAD 0x400000 0x3000 120 4 in
  Elf.covers g 0x402000 /\ user_space (Elf.mk_loaded 124 0x400000 (Elf.lowest [g])) stack 0x402000 = None.
Proof. by split. Qed.

(** The stack is a block of order 2, so the page tables are always finished. *)
Lemma enter_user_space_ends l s : enter_user_space l s <> OutOfFuel.
Proof.
  unfold enter_user_space, user_tables, Pmm.pmm_alloc_pages.
  change (Pmm.order_of 4) with (Some 2). cbn [mbind option_bind].
  destruct (Arm64.arm64_create_user_pgd _) as [[pgd m]|]; [|done]. cbn [mbind outcome_bind].
  destruct (Pmm.buddy_alloc 0 2 m) as [st m2].
  destruct (Arm64.map_user_loop _ 0 pgd (load_start l) _ _ _ _) as [m3|]; [|done]. cbn [mbind outcome_bind].
  by destruct (Arm64.map_user_loop 4 _ _ _ _ _ _ _).
Qed.

End loading.

Section calls.
Context {H : Type} (a : arch) (cpu : Z).
Variable process_get_current : kstate -> option Z.
Variable process_exit : Z -> Z -> kstate -> kstate.
Variable sys_brk : list Z -> sysstate H -> sys_result H.
Implicit Types (s : sysstate H).

Definition sys_exit (args : list Z) s : sys_result H :=
  let s := print (exit_line (arg 0 args)) s in
  match process_get_current (ks (psys s)) with
  | Some p => Stops (set_psys (set_ks (process_exit p (s32 (arg 0 args)) (ks (psys s))) (psys s)) s)
  | None => Stops s
  end.

Definition sys_write (args : list Z) s : sys_result H :=
  let fd := arg 0 args in
  let buf := arg 1 args in
  let count := arg 2 args in
  if (fd =? 1) || (fd =? 2) then
    let out := (fun i => umem s (buf + i)) <$> seqZ 0 count in
    Returns count (mk_sysstate (psys s) (console s ++ out) (initramfs s) (umem s) (kticks s) (power s) (sregs s))
  else Returns count s.

Definition sys_read (args : list Z) s : sys_result H := Returns 0 s.
Definition sys_open (args : list Z) s : sys_result H := Returns (-1) s.
Definition sys_close (args : list Z) s : sys_result H := Returns 0 s.

Definition sys_sleep (args : list Z) s : sys_result H :=
  Returns 0 (set_psys (set_ks (sched_sleep cpu (u64 (arg 0 args)) (ks (psys s))) (psys s)) s).

Definition sys_getpid (args : list Z) s : sys_result H :=
  match process_get_current (ks (psys s)) with
  | Some p => Returns (pid (get_proc p (ks (psys s)))) s
  | None => Returns (-1) s
  end.

Definition sys_execve (args : list Z) s : sys_result H :=
  match load_program args s with
  | inl r => r
  | inr (l, s) =>
      match a with
      | x86_64 => Enters (Elf.entry l) s
      | aarch64 => enter_user_space l s
      end
  end.

Definition sys_fork (args : list Z) s : sys_result H :=
  match proc_fork a cpu (psys s) with
  | Done (r, p) => Returns r (set_psys p s)
  | Halted w => Panics w
  end.

Definition sys_yield (args : list Z) s : sys_result H :=
  Returns 0 (set_psys (set_ks (sched_yield cpu (ks (psys s))) (psys s)) s).

Definition sys_gettime (args : list Z) s : sys_result H := Returns (s64 (u64 (kticks s * 10))) s.

Definition request_power (r : power_request) s : sysstate H :=
  mk_sysstate (psys s) (console s) (initramfs s) (umem s) (kticks s) (power s ++ [r]) (sregs s).

Definition sys_poweroff (args : list Z) s : sys_result H := Returns 0 (request_power PowerOff s).
Definition sys_reboot (args : list Z) s : sys_result H := Returns 0 (request_power Reboot s).

(** [_syscall_table]; [None] is a NULL entry. *)
Definition syscall_table (num : Z) : option (list Z -> sysstate H -> sys_result H) :=
  if num =? 1 then Some sys_exit
  else if num =? 2 then Some sys_write
  else if num =? 3 then Some sys_read
  else if num =? 4 then Some sys_open
  else if num =? 5 then Some sys_close
  else if num =? 6 then Some sys_sleep
  else if num =? 7 then Some sys_getpid
  else if num =? 8 then Some sys_fork
  else if num =? 9 then Some sys_execve
  else if num =? 10 then Some sys_brk
  else if num =? 11 then Some sys_yield
  else if num =? 12 then Some sys_gettime
  else if num =? 13 then Some sys_poweroff
  else if num =? 14 then Some sys_reboot
  else None.

Definition syscall_dispatch (num : Z) (args : list Z) s : sys_result H :=
  if SYSCALL_MAX <=? num then Returns (-1) (print (unknown_line num) s) else
  match syscall_table num with
  | None => Returns (-1) (print (unknown_line num) s)
  | Some f => f args s
  end.

Definition syscall_init s : Z * sysstate H := (STATUS_SUCCESS, print ready_line s).

(** [*result = syscall_dispatch(...)]; [None] when the call does not come back. *)
Definition arm64_svc_handler (num : Z) (args : list Z) s : option (Z * sysstate H) :=
  match syscall_dispatch num args s with Returns r s' => Some (r, s') | _ => None end.

(** The older interface: 32-bit arguments and a status; [None] is a call that
    does not come back, the status is what is stored in [*result]. *)
Definition syscall_handler (num : Z) (args : list Z) (has_result : bool) s : option (option Z * sysstate H) :=
  if negb has_result then Some (None, s) else
  match syscall_dispatch num args s with
  | Returns r s' => Some (Some (if r <? 0 then s32 r else STATUS_SUCCESS), s')
  | _ => None
  end.

(** ** Executing a program *)

(** C7: System call 9 with the path of a file that the initramfs holds and that is
    a well-formed executable enters the program at its entry point, with exactly
    the program's image written to memory, two lines printed, with the path and the
    entry point, and nothing else of the system changed (x86_64).  The archive and
    the memory of the allocator are apart from the memory the loader writes to. *)
Theorem execve_enters_program files tl o path args i f ent phoff l s :
  let ar := concat (Initramfs.encode <$> files) ++ tl in
  a = x86_64 ->
  initramfs s = Some (Initramfs.mk_fs ar (Z.of_nat (length ar)) o) ->
  Forall Initramfs.file_ok files -> Initramfs.tail_ok tl -> Z.of_nat (length ar) < 2 ^ 62 ->
  path <> 0 ->
  first_index (Initramfs.has_name (user_string (umem s) path)) files = Some i -> files !! i = Some f ->
  Elf.elf_ok (Initramfs.fdata f) ent phoff l -> Forall (Elf.seg_ok (Initramfs.fdata f)) (Elf.loads l) ->
  List.ForallOrdPairs Elf.seg_disjoint (Elf.loads l) ->
  exists s', syscall_dispatch 9 (path :: args) s = Enters ent s' /\
    Elf.image (Initramfs.fdata f) (Elf.loads l) (umem s) (umem s') /\
    psys s' = psys s /\ power s' = power s /\
    console s' = console s ++ execve_line (umem s) path ++ loading_line (umem s') path ent.
Proof.
  intros ar Ha Hfs HF Htl Hlen Hp Hi Hf Hok Hsegs Hdis.
  change (syscall_dispatch 9 (path :: args) s) with (sys_execve (path :: args) s). unfold sys_execve.
  destruct (load_program_spec files tl o path args i f ent phoff l s Hfs HF Htl Hlen Hp Hi Hf Hok Hsegs Hdis)
    as (fs' & m' & -> & Him).
  rewrite Ha. eexists. split; [reflexivity|]. done.
Qed.

(** C12: On aarch64, [execve] of a well-formed executable of the initramfs leaves
    for user mode at its entry point with exactly its image written to memory,
    under a new page table that is installed in TTBR0.  The table maps to
    themselves, writable and executable, exactly the pages of the file's length
    from the lowest address of the image on, which is less than the image when its
    segments are larger in memory than in the file; and the four pages of the stack
    to the block allocated for them, or to physical address 0 when no block is free.
    When no byte of the image is in a free page or in the page of the current
    address space, the words of the image are not touched by the building of the
    table and of the stack, so that one memory can hold both. *)
Theorem execve_user_space files tl o path args i f ent phoff l s bl :
  let ar := concat (Initramfs.encode <$> files) ++ tl in
  let prog := Elf.mk_loaded (Z.of_nat (length (Initramfs.fdata f))) ent (Elf.lowest (Elf.loads l)) in
  a = aarch64 ->
  initramfs s = Some (Initramfs.mk_fs ar (Z.of_nat (length ar)) o) ->
  Forall Initramfs.file_ok files -> Initramfs.tail_ok tl -> Z.of_nat (length ar) < 2 ^ 62 ->
  path <> 0 ->
  first_index (Initramfs.has_name (user_string (umem s) path)) files = Some i -> files !! i = Some f ->
  Elf.elf_ok (Initramfs.fdata f) ent phoff l -> Forall (Elf.seg_ok (Initramfs.fdata f)) (Elf.loads l) ->
  List.ForallOrdPairs Elf.seg_disjoint (Elf.loads l) -> load_ok prog ->
  Pmm.pmm_inv 0 (kpmm (psys s)) bl -> (forall q, q ∈ Pmm.free_pages bl -> q < 2 ^ 48) ->
  17 + 3 * load_pages prog <= Z.of_nat (length (Pmm.free_pages bl)) -> space_in_use bl s ->
  exists pgd stack s', syscall_dispatch 9 (path :: args) s = EntersUser ent 0x7FFFFFFF8 pgd s' /\
    Elf.image (Initramfs.fdata f) (Elf.loads l) (umem s) (umem s') /\
    Arm64.ttbr0 (sregs s') = pgd /\
    (stack <> 0 -> forall i, 0 <= i < 4 -> stack + i * PAGE_SIZE ∈ Pmm.free_pages bl) /\
    (forall v, 0 <= v < 2 ^ 48 -> Arm64.entry (kpmm (psys s')) pgd v = user_space prog stack v) /\
    ((forall g x, g ∈ Elf.loads l -> Elf.covers g x ->
        Pmm.page_align_down x ∉ Pmm.free_pages bl /\ ~ space_page s (Pmm.page_align_down x)) ->
     forall g x, g ∈ Elf.loads l -> Elf.covers g x ->
       Pmm.pmem (kpmm (psys s')) x = Pmm.pmem (kpmm (psys s)) x) /\
    console s' = console s ++ execve_line (umem s) path ++ loading_line (umem s') path ent.
Proof.
  intros ar prog Ha Hfs HF Htl Hlen Hp Hi Hf Hok Hsegs Hdis Hl Hpmm Hlow Hroom Hsp.
  change (syscall_dispatch 9 (path :: args) s) with (sys_execve (path :: args) s). unfold sys_execve.
  destruct (load_program_spec files tl o path args i f ent phoff l s Hfs HF Htl Hlen Hp Hi Hf Hok Hsegs Hdis)
    as (fs' & m' & -> & Him). rewrite Ha.
  set (s1 := mk_sysstate _ _ _ _ _ _ _).
  destruct (enter_user_space_spec prog s1 bl Hpmm Hlow Hl Hroom Hsp)
    as (pgd & stack & s' & E & Hum & Ht & Hst & Hmem & Hent & Hcon).
  exists pgd, stack, s'. split; [exact E|]. rewrite Hum, Hcon. split_and!; [done..| |done].
  intros Hsep g x Hg Hx. destruct (Hsep g x Hg Hx). by apply Hmem.
Qed.

(** ** Calls that fail *)


(** No system call loops: on any archive, well-formed or not, [execve]
    finishes its search within the rounds given, so a dispatch never runs out of
    them. *)
Theorem syscall_dispatch_total num args s :
  (forall fs, initramfs s = Some fs -> 0 <= Initramfs.archive_size fs < 2 ^ 62) ->
  (sys_brk args s <> OutOfFuel) ->
  syscall_dispatch num args s <> OutOfFuel.
Proof.
  intros Hfs Hbrk. unfold syscall_dispatch. case_match; [done|]. unfold syscall_table.
  repeat (case_match; simplify_eq/=); try done.
  - unfold sys_exit. by case_match.
  - unfold sys_write. by case_match.
  - unfold sys_getpid. by case_match.
  - unfold sys_fork. destruct (proc_fork _ _ _) as [[]|]; done.
  - unfold sys_execve, load_program. destruct (initramfs s) as [fs|] eqn:E; [|done].
    destruct (arg 0 args =? 0); [done|].
    specialize (Hfs fs eq_refl). cbv zeta. change (umem (print _ s)) with (umem s).
    assert (exists x, Initramfs.initramfs_find (archive_fuel fs) (user_string (umem s) (arg 0 args)) fs = Some x) as [[[r e] fs'] ->].
    { unfold Initramfs.initramfs_find, archive_fuel.
      destruct (Initramfs.find_loop_ends (S (Z.to_nat (Initramfs.archive_size fs / 110))) (user_string (umem s) (arg 0 args)) None
        (Initramfs.mk_fs (Initramfs.archive fs) (Initramfs.archive_size fs) 0)) as [[[found e] fs'] ->];
        [done|simpl; lia|simpl; lia|]. destruct found; by eexists. }
    repeat (case_match; simplify_eq/=); try done. apply enter_user_space_ends.
Qed.

(** Through [syscall_handler] every result that is not an error reads as success:
    the process identifier of [getpid] is lost. *)
Lemma syscall_handler_loses_result s p :
  process_get_current (ks (psys s)) = Some p -> 0 <= pid (get_proc p (ks (psys s))) ->
  syscall_handler 7 [] true s = Some (Some STATUS_SUCCESS, s).
Proof.
  intros E Hp. unfold syscall_handler. change (syscall_dispatch 7 [] s) with (sys_getpid [] s).
  unfold sys_getpid. rewrite E. by rewrite (proj2 (Z.ltb_ge _ _)) by lia.
Qed.

(** Writing to a descriptor that is not open claims that everything was written. *)
Lemma write_ignores_descriptor s fd buf count :
  fd <> 1 -> fd <> 2 -> syscall_dispatch 2 [fd; buf; count] s = Returns count s.
Proof.
  intros H1 H2. change (syscall_dispatch 2 [fd; buf; count] s) with (sys_write [fd; buf; count] s).
  unfold sys_write, arg. cbn [nth]. by rewrite (proj2 (Z.eqb_neq fd 1)), (proj2 (Z.eqb_neq fd 2)).
Qed.

End calls.

(** ** Witnesses *)

Definition init_file : Initramfs.cfile :=
  Initramfs.mk_file [105; 110; 105; 116] Elf.elf0 (replicate 48 48) (replicate 32 48) (replicate 8 48).

Definition init_archive : list Z := concat (Initramfs.encode <$> [init_file]) ++ [].

(** "init" at address 0x1000. *)
Definition path_memory (x : Z) : Z :=
  if x =? 0x1000 then 105 else if x =? 0x1001 then 110 else if x =? 0x1002 then 105
  else if x =? 0x1003 then 116 else 0.

Definition sys0 : sysstate Z :=
  mk_sysstate (mk_sys Sched.boot Process.vs0) []
    (Some (Initramfs.mk_fs init_archive (Z.of_nat (length init_archive)) 0)) path_memory 0 []
    (Arm64.mk_sysregs 62500000 0 0 0 0 0 0 0).

Lemma init_file_ok : Initramfs.file_ok init_file.
Proof. split; try (by vm_compute). repeat constructor; lia. Qed.

Lemma execve_enters_program_witness :
  exists s', syscall_dispatch x86_64 0 proc_get_current (fun _ _ k => k) (fun _ s => Returns (-1) s)
    9 [0x1000] sys0 = Enters 0x400000 s' /\
    Elf.image (Initramfs.fdata init_file) (Elf.loads [Elf.seg0]) path_memory (umem s') /\
    take 23 (console s') = chars "[SYSCALL] execve(init)" ++ [10].
Proof.
  destruct (execve_enters_program (H := Z) x86_64 0 proc_get_current (fun _ _ k => k) (fun _ s => Returns (-1) s)
    [init_file] [] 0 0x1000 [] 0 init_file 0x400000 64 [Elf.seg0] sys0) as (s' & H1 & H2 & _ & _ & H3).
  - reflexivity.
  - reflexivity.
  - constructor; [apply init_file_ok|constructor].
  - left. simpl. lia.
  - by vm_compute.
  - lia.
  - by vm_compute.
  - reflexivity.
  - split; try (by vm_compute). left. by vm_compute.
  - constructor; [split_and!; by vm_compute|constructor].
  - repeat constructor.
  - exists s'. split; [exact H1|]. split; [exact H2|]. rewrite H3. reflexivity.
Defined.

(** The same with 20 free pages at 16 MB. *)
Definition twenty_regions : list Pmm.memory_region_t := [Pmm.mk_region 0x1000000 0x14000 Pmm.PMM_REGION_USABLE].

Definition sys1 : sysstate Z :=
  set_psys (set_kpmm (Pmm.pmm_init twenty_regions (Pmm.pmm_boot (fun _ => 0))) (psys sys0)) sys0.

Lemma twenty_pages : exists bl, Pmm.pmm_inv 0 (kpmm (psys sys1)) bl /\
  Pmm.free_pages bl ≡ₚ twenty_regions ≫= Pmm.region_pages.
Proof.
  destruct (Pmm.pmm_init_singles (fun _ => 0) twenty_regions) as (l & Hp & Hinv & _).
  - constructor; [by vm_compute|constructor].
  - by apply (bool_decide_unpack _); vm_compute.
  - exists (Pmm.singles l). rewrite Pmm.free_pages_singles. done.
Qed.

Lemma execve_user_space_witness :
  exists pgd stack s', syscall_dispatch aarch64 0 proc_get_current (fun _ _ k => k) (fun _ s => Returns (-1) s)
    9 [0x1000] sys1 = EntersUser 0x400000 0x7FFFFFFF8 pgd s' /\
    Elf.image (Initramfs.fdata init_file) (Elf.loads [Elf.seg0]) path_memory (umem s') /\
    Arm64.entry (kpmm (psys s')) pgd 0x400ABC = Some (Arm64.page_desc 0x400000 (Arm64.user_flags true true)) /\
    Arm64.entry (kpmm (psys s')) pgd 0x7FFFF1000 =
      Some (Arm64.page_desc (stack + 4096) (Arm64.user_flags true false)).
Proof.
  destruct twenty_pages as (bl & Hpmm & Hperm).
  destruct (execve_user_space (H := Z) aarch64 0 proc_get_current (fun _ _ k => k) (fun _ s => Returns (-1) s)
    [init_file] [] 0 0x1000 [] 0 init_file 0x400000 64 [Elf.seg0] sys1 bl) as (pgd & stack & s' & H1 & H2 & _ & _ & H3 & _).
  - reflexivity.
  - reflexivity.
  - constructor; [apply init_file_ok|constructor].
  - left. simpl. lia.
  - by vm_compute.
  - lia.
  - by vm_compute.
  - reflexivity.
  - split; try (by vm_compute). left. by vm_compute.
  - constructor; [split_and!; by vm_compute|constructor].
  - repeat constructor.
  - split_and!; by vm_compute.
  - exact Hpmm.
  - intros q. rewrite Hperm. intros Hq. vm_compute in Hq. set_unfold in Hq. lia.
  - rewrite (Permutation_length Hperm). by vm_compute.
  - intros i Hi. by vm_compute in Hi.
  - exists pgd, stack, s'. split; [exact H1|]. split; [exact H2|].
    split; rewrite H3 by lia; reflexivity.
Defined.

Lemma syscall_dispatch_total_witness :
  syscall_dispatch x86_64 0 proc_get_current (fun _ _ k => k) (fun _ s => Returns (-1) s) 9 [0x1000] sys0 <> OutOfFuel.
Proof.
  apply (syscall_dispatch_total (H := Z) x86_64 0 proc_get_current (fun _ _ k => k) (fun _ s => Returns (-1) s) 9 [0x1000] sys0).
  - intros fs E. injection E as <-. by vm_compute.
  - discriminate.
Defined.


End Syscall.
