(* ===== verification/Exceptions.v ===== *)
(** * Exceptions of the 64-bit ARM kernel

    Models kernel/arch/arm64/exceptions.S and exceptions.c: the vector table, the
    code that saves and restores the interrupted context, the C handler, and the
    entry into user mode.  The assembly is a list of instructions over the
    registers, the system registers and the kernel stack.

    Memory is a map from addresses to 64-bit words, because every access of this
    code is to an aligned word.  What the compiled C handler leaves in the
    registers is a parameter; the words it pushes below the saved context are
    not modelled. *)

From stdpp Require Import base numbers list option tactics sets.
From S2P Require Import Prelude Mmio ProcTable Sched Process Arm64 Syscall.
Import Proc Sched Process.

Module Exceptions.

(** ** The machine *)

Inductive sysreg := SPSR_EL1 | ELR_EL1 | ESR_EL1 | FAR_EL1.
#[export] Instance sysreg_eq_dec : EqDecision sysreg.
Proof. solve_decision. Defined.

Record cpu_regs := mk_regs {
  x : Z -> Z;              (* x0 to x30 *)
  sp : Z;
  sys : sysreg -> Z;
  mem : Z -> Z;            (* the word at an address *)
}.

Definition set_x (r v : Z) (c : cpu_regs) : cpu_regs :=
  mk_regs (fun i => if i =? r then v else x c i) (sp c) (sys c) (mem c).
Definition set_sp (v : Z) (c : cpu_regs) : cpu_regs := mk_regs (x c) v (sys c) (mem c).
Definition set_sys (r : sysreg) (v : Z) (c : cpu_regs) : cpu_regs :=
  mk_regs (x c) (sp c) (fun i => if decide (i = r) then v else sys c i) (mem c).
Definition set_mem (m : Z -> Z) (c : cpu_regs) : cpu_regs := mk_regs (x c) (sp c) (sys c) m.

Definition store (a v : Z) (m : Z -> Z) : Z -> Z := fun b => if b =? a then v else m b.

Inductive instr :=
| SubSp (n : Z)
| AddSp (n : Z)
| Stp (r1 r2 off : Z)
| Str (r off : Z)
| Ldp (r1 r2 off : Z)
| Ldr (r off : Z)
| Mrs (r : Z) (s : sysreg)
| Msr (s : sysreg) (r : Z)
| MovImm (r v : Z)
| MovReg (r r' : Z)
| MovSp (r : Z)
| AndW (r v : Z).         (* the 32-bit form: clears the upper half *)

Definition slot (off : Z) (c : cpu_regs) : Z := u64 (sp c + off).

Definition exec (i : instr) (c : cpu_regs) : cpu_regs :=
  match i with
  | SubSp n => set_sp (u64 (sp c - n)) c
  | AddSp n => set_sp (u64 (sp c + n)) c
  | Stp r1 r2 off => set_mem (store (slot (off + 8) c) (x c r2) (store (slot off c) (x c r1) (mem c))) c
  | Str r off => set_mem (store (slot off c) (x c r) (mem c)) c
  | Ldp r1 r2 off => set_x r2 (mem c (slot (off + 8) c)) (set_x r1 (mem c (slot off c)) c)
  | Ldr r off => set_x r (mem c (slot off c)) c
  | Mrs r s => set_x r (sys c s) c
  | Msr s r => set_sys s (x c r) c
  | MovImm r v => set_x r v c
  | MovReg r r' => set_x r (x c r') c
  | MovSp r => set_x r (sp c) c
  | AndW r v => set_x r (Z.land (u32 (x c r)) v) c
  end.

Definition run (p : list instr) (c : cpu_regs) : cpu_regs := fold_left (fun c i => exec i c) p c.

(** ** Saving and restoring *)

Definition save_context : list instr :=
  [ SubSp 272;
    Stp 0 1 0; Stp 2 3 16; Stp 4 5 32; Stp 6 7 48; Stp 8 9 64; Stp 10 11 80; Stp 12 13 96; Stp 14 15 112;
    Stp 16 17 128; Stp 18 19 144; Stp 20 21 160; Stp 22 23 176; Stp 24 25 192; Stp 26 27 208; Stp 28 29 224;
    Str 30 240;
    Mrs 0 SPSR_EL1; Mrs 1 ELR_EL1; Stp 0 1 248;
    Mrs 0 ESR_EL1; Mrs 1 FAR_EL1; Stp 0 1 264 ].

Definition restore_context : list instr :=
  [ Ldp 0 1 248; Msr SPSR_EL1 0; Msr ELR_EL1 1;
    Ldp 0 1 264; Msr ESR_EL1 0; Msr FAR_EL1 1;
    Ldp 28 29 224; Ldr 30 240;
    Ldp 26 27 208; Ldp 24 25 192; Ldp 22 23 176; Ldp 20 21 160; Ldp 18 19 144; Ldp 16 17 128; Ldp 14 15 112;
    Ldp 12 13 96; Ldp 10 11 80; Ldp 8 9 64; Ldp 6 7 48; Ldp 4 5 32; Ldp 2 3 16; Ldp 0 1 0;
    AddSp 272 ].

(** [exception_context_t]: the offsets of the fields of the packed structure. *)
Definition ctx_regs (i : Z) : Z := 8 * i.
Definition ctx_spsr : Z := 248.
Definition ctx_elr : Z := 256.
Definition ctx_esr : Z := 264.
Definition ctx_far : Z := 272.
Definition sizeof_exception_context : Z := 280.

Definition EXC_SYNC_EL1 : Z := 0.
Definition EXC_IRQ_EL1 : Z := 1.
Definition EXC_FIQ_EL1 : Z := 2.
Definition EXC_SERR_EL1 : Z := 3.
Definition EXC_SVC_EL0 : Z := 4.
Definition EXC_IRQ_EL0 : Z := 5.
Definition EXC_OTHER : Z := 6.

(** ** The vectors *)

Definition sync_el1 : list instr := save_context ++ [MovImm 0 EXC_SYNC_EL1].
Definition irq_el1 : list instr := save_context ++ [MovImm 0 EXC_IRQ_EL1].
Definition fiq_el1 : list instr := save_context ++ [MovImm 0 EXC_FIQ_EL1].
Definition serr_el1 : list instr := save_context ++ [MovImm 0 EXC_SERR_EL1].
Definition sync_el0_64 : list instr :=
  save_context ++ [MovImm 0 EXC_SVC_EL0; Mrs 1 ESR_EL1; AndW 1 0xFFFF; MovSp 2].
Definition irq_el0_64 : list instr := save_context ++ [MovImm 0 EXC_IRQ_EL0].
Definition other_el0 : list instr := save_context ++ [MovImm 0 EXC_OTHER].

(** [arm64_exception_vector]: the code of the [n]th of the sixteen vectors. *)
Definition arm64_exception_vector : list (list instr) :=
  [ sync_el1; irq_el1; fiq_el1; serr_el1;
    sync_el1; irq_el1; fiq_el1; serr_el1;
    sync_el0_64; irq_el0_64; other_el0; other_el0;
    other_el0; other_el0; other_el0; other_el0 ].

(** ** Handling *)

Record user_entry := mk_entry {
  e_ttbr0 : Z;
  e_sp_el0 : Z;
  e_elr : Z;
  e_spsr : Z;
}.

(** The system registers [arm64_enter_el0] sets before its [eret]. *)
Definition arm64_enter_el0 (entry sp ttbr0 : Z) : user_entry := mk_entry ttbr0 sp entry 0x3C0.

(** [vector] is the address of [arm64_exception_vector]. *)
Definition arm64_exception_init (vector : Z) (r : Arm64.sysregs) : Arm64.sysregs :=
  Arm64.mk_sysregs (Arm64.cntfrq r) (Arm64.cntpct r) (Arm64.cntp_tval r) (Arm64.cntp_ctl r) (Arm64.ttbr0 r)
    (Arm64.ttbr1 r) vector (Arm64.kernel_pgd r).

(** [None] on x86_64, where the function does nothing. *)
Definition proc_enter_userspace (a : arch) (entry stack ttbr0 : Z) : option user_entry :=
  match a with aarch64 => Some (arm64_enter_el0 entry stack ttbr0) | x86_64 => None end.

Section handler.
Context {H : Type} (cpu : Z).
Variable process_get_current : kstate -> option Z.
Variable process_exit : Z -> Z -> kstate -> kstate.
Variable sys_brk : list Z -> Syscall.sysstate H -> Syscall.sys_result H.
Variable clobber : Z -> Z.             (* the registers after the C handler *)
Implicit Types (s : Syscall.sysstate H).

Inductive exc_result :=
| Handled (m : Z -> Z) s
| Diverted (r : Syscall.sys_result H).  (* the system call does not return *)

Definition arm64_exception_handler (type esr ctx : Z) (m : Z -> Z) s : exc_result :=
  let reg i := m (u64 (ctx + ctx_regs i)) in
  if type =? EXC_SVC_EL0 then
    let syscall_num := Z.land esr 0xFFFF in
    match Syscall.syscall_dispatch aarch64 cpu process_get_current process_exit sys_brk syscall_num
            [s64 (reg 0); s64 (reg 1); s64 (reg 2); s64 (reg 3); s64 (reg 4); s64 (reg 5)] s with
    | Syscall.Returns result s' => Handled (store (u64 (ctx + ctx_regs 0)) (u64 result) m) s'
    | r => Diverted r
    end
  else if (type =? EXC_IRQ_EL1) || (type =? EXC_IRQ_EL0) then
    Handled m (Syscall.set_psys (set_ks (sched_tick cpu (ks (Syscall.psys s))) (Syscall.psys s)) s)
  else Handled m s.

Inductive exc_outcome :=
| Eret (pc pstate : Z) (c : cpu_regs) s
| NoReturn (r : Syscall.sys_result H).

(** A vector's code, then [exception_handler_common]. *)
Definition take_exception (entry : list instr) (c : cpu_regs) s : exc_outcome :=
  let c := run [MovReg 29 2; MovReg 2 29] (run entry c) in
  match arm64_exception_handler (u32 (x c 0)) (u32 (x c 1)) (x c 2) (mem c) s with
  | Diverted r => NoReturn r
  | Handled m s' =>
      let c := run restore_context (mk_regs clobber (sp c) (sys c) m) in
      Eret (sys c ELR_EL1) (sys c SPSR_EL1) c s'
  end.
End handler.
Arguments Handled {H}.
Arguments Diverted {H}.
Arguments Eret {H}.
Arguments NoReturn {H}.

(** ** The saved context *)

Lemma slot_eqb b o o' :
  0 <= o < 2 ^ 32 -> 0 <= o' < 2 ^ 32 -> (u64 (b + o) =? u64 (b + o')) = (o =? o').
Proof.
  intros Ho Ho'. destruct (Z.eqb_spec o o') as [->|Hne]; [apply Z.eqb_refl|]. apply Z.eqb_neq.
  unfold wrap. intros E. apply Hne.
  assert ((b + o - (b + o')) mod 2 ^ 64 = 0) as Hd.
  { rewrite Zminus_mod, E, Z.sub_diag. done. }
  apply Z.mod_divide in Hd as [k Hk]; [|done]. assert (k = 0); nia.
Qed.

(** Code that leaves the stack pointer alone and whose slots are at offsets that
    a 32-bit number holds runs the same way from every stack pointer: [shifted]
    relates a machine to the same machine with its stack pointer at 0. *)
Definition offsets (i : instr) : list Z :=
  match i with
  | Stp _ _ off | Ldp _ _ off => [off; off + 8]
  | Str _ off | Ldr _ off => [off]
  | _ => []
  end.

Definition in_frame (i : instr) : bool :=
  match i with
  | SubSp _ | AddSp _ | MovSp _ => false
  | _ => forallb (fun o => (0 <=? o) && (o <? 2 ^ 32)) (offsets i)
  end.

Record shifted (c d : cpu_regs) : Prop := mk_shifted {
  sh_x : x c = x d;
  sh_sys : sys c = sys d;
  sh_sp : sp d = 0;
  sh_mem : forall o, 0 <= o < 2 ^ 32 -> mem c (slot o c) = mem d o;
}.

Lemma store_shifted b o' v m f :
  0 <= o' < 2 ^ 32 -> (forall o, 0 <= o < 2 ^ 32 -> m (u64 (b + o)) = f o) ->
  forall o, 0 <= o < 2 ^ 32 -> store (u64 (b + o')) v m (u64 (b + o)) = store (u64 (0 + o')) v f o.
Proof.
  intros Ho' Hm o Ho. unfold store. rewrite slot_eqb, Hm by done.
  by rewrite wrap_small by lia.
Qed.

Lemma in_frame_offset i o : in_frame i = true -> o ∈ offsets i -> 0 <= o < 2 ^ 32.
Proof.
  intros Hi Ho. assert (forallb (fun o => (0 <=? o) && (o <? 2 ^ 32)) (offsets i) = true) as Hf
    by by destruct i.
  rewrite forallb_forall in Hf. apply list_elem_of_In, Hf in Ho. lia.
Qed.

Lemma exec_shifted i c d : in_frame i = true -> shifted c d -> shifted (exec i c) (exec i d).
Proof.
  intros Hi [Hx Hs Hsp Hm]. pose proof (in_frame_offset i) as Ho.
  destruct c as [xc b sc mc], d as [xd b' sd md]. cbn in Hx, Hs, Hsp. subst xd sd b'. unfold slot in Hm. cbn in Hm.
  assert (forall o, o ∈ offsets i -> mc (u64 (b + o)) = md (u64 (0 + o))) as Hld.
  { intros o Hin. rewrite Hm by auto. by rewrite wrap_small by (pose proof (Ho o Hi Hin); lia). }
  destruct i; try done; split; cbn [exec set_x set_mem set_sys x sys sp mem slot]; unfold slot; cbn [sp]; try done.
  - do 2 (apply store_shifted; [apply Ho; [done|set_solver +]|]). done.
  - apply store_shifted; [apply Ho; [done|set_solver +]|]. done.
  - rewrite !Hld by set_solver +. done.
  - rewrite Hld by set_solver +. done.
Qed.

Lemma run_shifted p c d : forallb in_frame p = true -> shifted c d -> shifted (run p c) (run p d).
Proof.
  revert c d. induction p as [|i p IH]; intros c d Hp Hcd; [done|].
  cbn [forallb] in Hp. apply andb_true_iff in Hp as [Hi Hp]. by apply (IH (exec i c)), exec_shifted.
Qed.

Lemma exec_frame i c : in_frame i = true -> sp (exec i c) = sp c.
Proof. by destruct i. Qed.

Lemma run_frame p c : forallb in_frame p = true -> sp (run p c) = sp c.
Proof.
  revert c. induction p as [|i p IH]; intros c Hp; [done|].
  cbn [forallb] in Hp. apply andb_true_iff in Hp as [Hi Hp].
  cbn [run fold_left]. unfold run in IH. rewrite IH by done. by apply exec_frame.
Qed.

Lemma exec_outside i c a :
  in_frame i = true -> (forall o, o ∈ offsets i -> a <> slot o c) -> mem (exec i c) a = mem c a.
Proof.
  intros Hi Ha. destruct i; try done; cbn [exec set_mem mem]; unfold store;
    by rewrite ?(proj2 (Z.eqb_neq _ _)) by (apply Ha; cbn; set_solver +).
Qed.

Lemma run_outside p c a :
  forallb in_frame p = true -> (forall o, o ∈ p ≫= offsets -> a <> slot o c) ->
  mem (run p c) a = mem c a.
Proof.
  revert c. induction p as [|i p IH]; intros c Hp Ha; [done|].
  cbn [forallb] in Hp. apply andb_true_iff in Hp as [Hi Hp].
  cbn [run fold_left]. unfold run in IH. rewrite IH; [|done|].
  2: { intros o Ho. unfold slot. rewrite exec_frame by done. apply Ha, elem_of_app. by right. }
  apply exec_outside; [done|]. intros o Ho. apply Ha, elem_of_app. by left.
Qed.

Definition stores (i : instr) : bool := match i with Stp _ _ _ | Str _ _ => true | _ => false end.

Lemma run_loads_mem p c a : forallb (fun i => negb (stores i)) p = true -> mem (run p c) a = mem c a.
Proof.
  revert c. induction p as [|i p IH]; intros c Hp; [done|].
  cbn [forallb] in Hp. apply andb_true_iff in Hp as [Hi Hp].
  cbn [run fold_left]. unfold run in IH. rewrite IH by done. by destruct i.
Qed.

Lemma reg_cases (P : Z -> Prop) :
  Forall P (seqZ 0 31) -> forall i, 0 <= i < 31 -> P i.
Proof. intros HP i Hi. apply (Forall_lookup_1 _ _ (Z.to_nat i) _ HP), lookup_seqZ. lia. Qed.

Ltac each_reg := apply reg_cases; vm_compute; repeat constructor.

Definition save_stores : list instr := tail save_context.

Lemma save_context_eq c : run save_context c = run save_stores (set_sp (u64 (sp c - 272)) c).
Proof. done. Qed.

(** [c] with its stack pointer at 0. *)
Definition at_zero (c : cpu_regs) : cpu_regs := mk_regs (x c) 0 (sys c) (fun o => mem c (slot o c)).

Lemma run_at_zero p c :
  forallb in_frame p = true -> sp (run p c) = sp c /\ shifted (run p c) (run p (at_zero c)).
Proof. intros Hp. split; [by apply run_frame|]. by apply run_shifted. Qed.

Lemma save_stores_frame d :
  sp d = 0 ->
  let d' := run save_stores d in
  sys d' = sys d /\ (forall i, 0 <= i < 31 -> mem d' (ctx_regs i) = x d i) /\
  mem d' ctx_spsr = sys d SPSR_EL1 /\ mem d' ctx_elr = sys d ELR_EL1 /\
  mem d' ctx_esr = sys d ESR_EL1 /\ mem d' ctx_far = sys d FAR_EL1.
Proof.
  destruct d as [xd b sd md]. cbn [sp sys x]. intros ->.
  split_and!; [by vm_compute| |by vm_compute..]. each_reg.
Qed.

(** What [save_context] leaves at each field of the context. *)
Lemma save_context_saves c :
  let c' := run save_context c in
  let b := u64 (sp c - 272) in
  sp c' = b /\ (forall r, sys c' r = sys c r) /\
  (forall i, 0 <= i < 31 -> mem c' (u64 (b + ctx_regs i)) = x c i) /\
  mem c' (u64 (b + ctx_spsr)) = sys c SPSR_EL1 /\ mem c' (u64 (b + ctx_elr)) = sys c ELR_EL1 /\
  mem c' (u64 (b + ctx_esr)) = sys c ESR_EL1 /\ mem c' (u64 (b + ctx_far)) = sys c FAR_EL1.
Proof.
  cbv zeta. rewrite save_context_eq. set (b := u64 (sp c - 272)). clearbody b.
  destruct (run_at_zero save_stores (set_sp b c)) as (Hb & [_ Hs _ Hm]); [by vm_compute|].
  pose proof (save_stores_frame (at_zero (set_sp b c)) eq_refl) as HF. cbv zeta in HF.
  revert Hs Hm HF Hb. generalize (run save_stores (at_zero (set_sp b c))) as d'.
  generalize (run save_stores (set_sp b c)) as c'. cbn [at_zero set_sp sp sys x].
  intros c' d' Hs Hm (Hsys & Hregs & H1 & H2 & H3 & H4) Hb. unfold slot in Hm. rewrite Hb in Hm. rewrite Hs, Hsys.
  split_and!; [done|done| |by rewrite Hm..]. intros i Hi. rewrite Hm by (unfold ctx_regs; lia). by apply Hregs.
Qed.

Definition restore_loads : list instr := removelast restore_context.

Lemma restore_context_eq c : run restore_context c = exec (AddSp 272) (run restore_loads c).
Proof. done. Qed.

Lemma restore_loads_frame d :
  sp d = 0 ->
  let d' := run restore_loads d in
  (forall i, 0 <= i < 31 -> x d' i = mem d (ctx_regs i)) /\
  sys d' SPSR_EL1 = mem d ctx_spsr /\ sys d' ELR_EL1 = mem d ctx_elr /\
  sys d' ESR_EL1 = mem d ctx_esr /\ sys d' FAR_EL1 = mem d ctx_far.
Proof.
  destruct d as [xd b sd md]. cbn [sp mem]. intros ->.
  split_and!; [|by vm_compute..]. each_reg.
Qed.

(** What [restore_context] takes from each field. *)
Lemma restore_context_restores c :
  let c' := run restore_context c in
  (forall i, 0 <= i < 31 -> x c' i = mem c (slot (ctx_regs i) c)) /\
  sys c' SPSR_EL1 = mem c (slot ctx_spsr c) /\ sys c' ELR_EL1 = mem c (slot ctx_elr c) /\
  sys c' ESR_EL1 = mem c (slot ctx_esr c) /\ sys c' FAR_EL1 = mem c (slot ctx_far c) /\
  sp c' = u64 (sp c + 272) /\ (forall a, mem c' a = mem c a).
Proof.
  cbv zeta. rewrite restore_context_eq.
  destruct (run_at_zero restore_loads c) as (Hb & [Hx Hs _ _]); [by vm_compute|].
  pose proof (restore_loads_frame (at_zero c) eq_refl) as HF. cbv zeta in HF.
  assert (forall a, mem (run restore_loads c) a = mem c a) as Hmem.
  { intros a. apply run_loads_mem. by vm_compute. }
  revert Hx Hs HF Hb Hmem. generalize (run restore_loads (at_zero c)) as d'.
  generalize (run restore_loads c) as c'. cbn [exec set_sp at_zero sp sys x mem].
  intros c' d' Hx Hs (Hregs & H1 & H2 & H3 & H4) Hb Hmem. rewrite Hx, Hs, Hb. done.
Qed.

Lemma run_app p q c : run (p ++ q) c = run q (run p c).
Proof. apply fold_left_app. Qed.

Definition on_stack (c : cpu_regs) : Prop := 272 <= sp c <= 2 ^ 64 - 8.

(** Addresses outside the saved context. *)
Definition outside (c : cpu_regs) (a : Z) : Prop := a < sp c - 272 \/ sp c + 8 <= a.

(** [c'] is [c] with its first register replaced by [v]; memory is the same
    outside the saved context. *)
Definition resumed (c : cpu_regs) (v : Z) (c' : cpu_regs) : Prop :=
  x c' 0 = v /\ (forall i, 1 <= i < 31 -> x c' i = x c i) /\ sp c' = sp c /\ (forall r, sys c' r = sys c r) /\
  (forall a, outside c a -> mem c' a = mem c a).

Lemma save_context_outside c a : on_stack c -> outside c a -> mem (run save_context c) a = mem c a.
Proof.
  intros Hc Ha. rewrite save_context_eq. unfold on_stack, outside in *.
  rewrite run_outside; [done|by vm_compute|]. intros o Ho.
  assert (forallb (fun o => (0 <=? o) && (o <=? 272)) (save_stores ≫= offsets) = true) as Hf by by vm_compute.
  rewrite forallb_forall in Hf. apply list_elem_of_In, Hf in Ho.
  unfold slot. cbn [set_sp sp]. rewrite (wrap_small 64 (sp c - 272)) by lia. rewrite wrap_small by lia. lia.
Qed.

(** Restoring the saved context, with the word of the first register rewritten,
    resumes the interrupted code. *)
Lemma resume c v m xs ss :
  on_stack c ->
  (forall a, m a = store (u64 (u64 (sp c - 272) + ctx_regs 0)) v (mem (run save_context c)) a) ->
  resumed c v (run restore_context (mk_regs xs (u64 (sp c - 272)) ss m)).
Proof.
  intros Hc Hm. destruct (save_context_saves c) as (_ & _ & Hregs & H1 & H2 & H3 & H4).
  destruct (restore_context_restores (mk_regs xs (u64 (sp c - 272)) ss m)) as (Rx & R1 & R2 & R3 & R4 & Rsp & Rm).
  unfold slot in *. cbn [sp mem] in *. set (b := u64 (sp c - 272)) in *.
  assert (forall o, 0 < o < 2 ^ 32 -> m (u64 (b + o)) = mem (run save_context c) (u64 (b + o))) as Hm'.
  { intros o Ho. rewrite Hm. unfold store, ctx_regs. by rewrite slot_eqb, (proj2 (Z.eqb_neq o (8 * 0))) by lia. }
  unfold resumed. split_and!.
  - rewrite Rx, Hm by lia. unfold store. by rewrite Z.eqb_refl.
  - intros i Hi. rewrite Rx, Hm', Hregs by (unfold ctx_regs; lia). done.
  - rewrite Rsp. unfold b, on_stack in *. rewrite (wrap_small 64 (sp c - 272)), wrap_small by lia. lia.
  - intros []; [rewrite R1|rewrite R2|rewrite R3|rewrite R4]; rewrite Hm' by done; done.
  - intros a Ha. rewrite Rm, Hm, <-(save_context_outside c a Hc Ha). unfold store.
    rewrite (proj2 (Z.eqb_neq _ _)); [done|]. unfold b, ctx_regs, on_stack, outside in *.
    rewrite (wrap_small 64 (sp c - 272)), wrap_small by lia. lia.
Qed.

Lemma svc_registers c1 :
  let c2 := run [MovReg 29 2; MovReg 2 29] (run [MovImm 0 EXC_SVC_EL0; Mrs 1 ESR_EL1; AndW 1 0xFFFF; MovSp 2] c1) in
  x c2 0 = 4 /\ x c2 1 = Z.land (u32 (sys c1 ESR_EL1)) 0xFFFF /\ x c2 2 = sp c1 /\
  mem c2 = mem c1 /\ sp c2 = sp c1 /\ sys c2 = sys c1.
Proof. done. Qed.

(** Masking a word to 16 bits twice, with conversions to 32 bits, is masking it once. *)
Lemma mask16 v : Z.land (u32 (Z.land (u32 v) 0xFFFF)) 0xFFFF = Z.land v 0xFFFF.
Proof.
  change 0xFFFF with (Z.ones 16). rewrite !Z.land_ones by done. unfold wrap.
  assert (forall n, (n mod 2 ^ 32) mod 2 ^ 16 = n mod 2 ^ 16) as Hm.
  { intros n. apply Z.mod_mod_divide. by exists (2 ^ 16). }
  by rewrite !Hm, Z.mod_mod.
Qed.

(** ** Exceptions return to the interrupted code *)

Section theorems.
Context {H : Type} (cpu : Z).
Variable process_get_current : kstate -> option Z.
Variable process_exit : Z -> Z -> kstate -> kstate.
Variable sys_brk : list Z -> Syscall.sysstate H -> Syscall.sys_result H.
Variable clobber : Z -> Z.
Implicit Types (s : Syscall.sysstate H).

Definition svc_args (c : cpu_regs) : list Z :=
  [s64 (x c 0); s64 (x c 1); s64 (x c 2); s64 (x c 3); s64 (x c 4); s64 (x c 5)].

(** The system call that an exception asks for. *)
Definition svc (c : cpu_regs) s : Syscall.sys_result H :=
  Syscall.syscall_dispatch aarch64 cpu process_get_current process_exit sys_brk
    (Z.land (sys c ESR_EL1) 0xFFFF) (svc_args c) s.

Lemma svc_entry c s :
  take_exception cpu process_get_current process_exit sys_brk clobber sync_el0_64 c s =
  match svc c s with
  | Syscall.Returns r s' =>
      let b := u64 (sp c - 272) in
      let m := store (u64 (b + ctx_regs 0)) (u64 r) (mem (run save_context c)) in
      let c' := run restore_context (mk_regs clobber b (sys (run save_context c)) m) in
      Eret (sys c' ELR_EL1) (sys c' SPSR_EL1) c' s'
  | r => NoReturn r
  end.
Proof.
  destruct (save_context_saves c) as (Hsp & Hsys & Hregs & _).
  unfold take_exception, sync_el0_64. rewrite run_app. unfold svc, svc_args.
  rewrite <-!Hregs, <-(Hsys ESR_EL1), <-!Hsp by done. clear Hsys Hregs Hsp.
  generalize (run save_context c) as c1. clear c. intros c1.
  destruct (svc_registers c1) as (X0 & X1 & X2 & -> & -> & ->). rewrite X0, X1, X2.
  unfold arm64_exception_handler. change (u32 4 =? EXC_SVC_EL0) with true. cbv iota.
  rewrite mask16. by destruct (Syscall.syscall_dispatch _ _ _ _ _ _ _ _).
Qed.

(** The interrupt entries of both exception levels: the C handler only sees
    the type. *)
Lemma irq_entry entry t c s :
  entry = save_context ++ [MovImm 0 t] -> t = EXC_IRQ_EL1 \/ t = EXC_IRQ_EL0 ->
  take_exception cpu process_get_current process_exit sys_brk clobber entry c s =
  let c' := run restore_context (mk_regs clobber (u64 (sp c - 272)) (sys (run save_context c)) (mem (run save_context c))) in
  Eret (sys c' ELR_EL1) (sys c' SPSR_EL1) c'
    (Syscall.set_psys (set_ks (sched_tick cpu (ks (Syscall.psys s))) (Syscall.psys s)) s).
Proof.
  intros -> Ht. destruct (save_context_saves c) as (Hsp & _). unfold take_exception. rewrite run_app, <-Hsp.
  generalize (run save_context c) as c1. intros c1.
  by destruct Ht as [-> | ->].
Qed.

(** C11: A supervisor call whose system call returns comes back to the instruction
    after it with the result in x0 and with every other register, the stack
    pointer and the system registers as they were, whatever the C handler leaves
    in the registers. *)
Theorem svc_returns c s r s' :
  on_stack c -> svc c s = Syscall.Returns r s' ->
  exists c', take_exception cpu process_get_current process_exit sys_brk clobber sync_el0_64 c s =
      Eret (sys c ELR_EL1) (sys c SPSR_EL1) c' s' /\ resumed c (u64 r) c'.
Proof.
  intros Hc Hr. rewrite svc_entry, Hr. cbv zeta. eexists. 
  pose proof (resume c (u64 r) _ clobber (sys (run save_context c)) Hc (fun a => eq_refl)) as Hres.
  pose proof Hres as (_ & _ & _ & Hs & _). split; [by rewrite !Hs|exact Hres].
Qed.

(** An interrupt taken in user or kernel mode runs the scheduler's tick and
    resumes the interrupted code with every register as it was. *)
Theorem irq_resumes c s :
  on_stack c ->
  Forall (fun entry => exists c', take_exception cpu process_get_current process_exit sys_brk clobber entry c s =
      Eret (sys c ELR_EL1) (sys c SPSR_EL1) c'
        (Syscall.set_psys (set_ks (sched_tick cpu (ks (Syscall.psys s))) (Syscall.psys s)) s) /\
      resumed c (x c 0) c') [irq_el1; irq_el0_64].
Proof.
  intros Hc.
  assert (forall a, mem (run save_context c) a =
    store (u64 (u64 (sp c - 272) + ctx_regs 0)) (x c 0) (mem (run save_context c)) a) as Hst.
  { intros a. unfold store. destruct (Z.eqb_spec a (u64 (u64 (sp c - 272) + ctx_regs 0))) as [->|]; [|done].
    destruct (save_context_saves c) as (_ & _ & Hregs & _). by apply Hregs. }
  pose proof (resume c (x c 0) _ clobber (sys (run save_context c)) Hc Hst) as Hres.
  pose proof Hres as (_ & _ & _ & Hs & _).
  apply Forall_cons_2; [|apply Forall_cons_2; [|apply Forall_nil_2]];
    [rewrite (irq_entry irq_el1 EXC_IRQ_EL1 c s eq_refl (or_introl eq_refl))
    |rewrite (irq_entry irq_el0_64 EXC_IRQ_EL0 c s eq_refl (or_intror eq_refl))];
    cbv zeta; rewrite !Hs; eexists; (split; [reflexivity|exact Hres]).
Qed.

(** The number of a system call is taken from the syndrome register, where the
    hardware puts the immediate of the [svc] instruction.  The init program uses
    [svc #0] and passes the number in x8: each of its calls returns -1, and the
    kernel prints that call 0 is unknown. *)
Lemma svc_zero_refused c s :
  on_stack c -> Z.land (sys c ESR_EL1) 0xFFFF = 0 ->
  exists c', take_exception cpu process_get_current process_exit sys_brk clobber sync_el0_64 c s =
      Eret (sys c ELR_EL1) (sys c SPSR_EL1) c' (Syscall.print (Syscall.unknown_line 0) s) /\ resumed c (2 ^ 64 - 1) c'.
Proof.
  intros Hc Hn. assert (svc c s = Syscall.Returns (-1) (Syscall.print (Syscall.unknown_line 0) s)) as Hr
    by (unfold svc; by rewrite Hn).
  rewrite svc_entry, Hr. cbv zeta. eexists.
  pose proof (resume c (u64 (-1)) _ clobber (sys (run save_context c)) Hc (fun a => eq_refl)) as Hres.
  pose proof Hres as (_ & _ & _ & Hs & _). split; [by rewrite !Hs|exact Hres].
Qed.

(** Entries other than the one for system calls do not set the second and third
    argument of the handler: it gets the fault address as the syndrome and the
    interrupted x2 as the address of the context. *)
Lemma sync_el1_arguments c :
  let c' := run [MovReg 29 2; MovReg 2 29] (run sync_el1 c) in
  x c' 1 = sys c FAR_EL1 /\ x c' 2 = x c 2.
Proof.
  assert (forall c1, let c' := run [MovReg 29 2; MovReg 2 29] (run [MovImm 0 EXC_SYNC_EL1] c1) in
    x c' 1 = x c1 1 /\ x c' 2 = x c1 2) as Ht by done.
  unfold sync_el1. rewrite run_app. destruct (Ht (run save_context c)) as [-> ->]. rewrite save_context_eq.
  destruct (run_at_zero save_stores (set_sp (u64 (sp c - 272)) c)) as (_ & [-> _ _ _]); [by vm_compute|].
  generalize (u64 (sp c - 272)) as b. intros b. split; by vm_compute.
Qed.
End theorems.

(** The context is eight bytes larger than the room made for it: saving it
    overwrites the word at the interrupted stack pointer. *)
Lemma save_context_overwrites c :
  on_stack c -> mem (run save_context c) (sp c) = sys c FAR_EL1.
Proof.
  intros Hc. destruct (save_context_saves c) as (_ & _ & _ & _ & _ & _ & <-). f_equal.
  unfold on_stack, ctx_far in *. rewrite (wrap_small 64 (sp c - 272)), wrap_small by lia. lia.
Qed.

(** User mode is entered with all four kinds of interrupt masked. *)
Lemma enter_el0_masked entry sp ttbr0 :
  Forall (fun bit => Z.testbit (e_spsr (arm64_enter_el0 entry sp ttbr0)) bit = true) [6; 7; 8; 9].
Proof. repeat constructor. Qed.

(** ** Witnesses *)

Definition cpu0 : cpu_regs :=
  mk_regs (fun i => i) 0x80000 (fun r => match r with ESR_EL1 => 0x5600000C | ELR_EL1 => 0x400004 | _ => 0 end)
    (fun _ => 0).

Lemma svc_returns_witness :
  exists c', take_exception 0 proc_get_current (fun _ _ k => k) (fun _ s => Syscall.Returns (-1) s) (fun _ => 77)
      sync_el0_64 cpu0 Syscall.sys0 = Eret 0x400004 0 c' Syscall.sys0 /\ resumed cpu0 0 c'.
Proof.
  apply (svc_returns 0 proc_get_current (fun _ _ k => k) (fun _ s => Syscall.Returns (-1) s) (fun _ => 77)
    cpu0 Syscall.sys0 0 Syscall.sys0); [split; vm_compute; discriminate|reflexivity].
Defined.

Lemma irq_resumes_witness :
  Forall (fun entry => exists c', take_exception 0 proc_get_current (fun _ _ k => k)
      (fun _ s => Syscall.Returns (-1) s) (fun _ => 77) entry cpu0 Syscall.sys0 =
      Eret 0x400004 0 c' (Syscall.set_psys (set_ks (sched_tick 0 (ks (Syscall.psys Syscall.sys0)))
        (Syscall.psys Syscall.sys0)) Syscall.sys0) /\ resumed cpu0 0 c') [irq_el1; irq_el0_64].
Proof.
  apply (irq_resumes 0 proc_get_current (fun _ _ k => k) (fun _ s => Syscall.Returns (-1) s) (fun _ => 77)
    cpu0 Syscall.sys0). split; vm_compute; discriminate.
Defined.

End Exceptions.
