(* ===== verification/InitRun.v ===== *)
(** * The init process on the kernel

    Joins userspace/init/init.c (InitProc) with the exception entry of
    kernel/arch/arm64/exceptions.S and exceptions.c (Exceptions) and the system
    calls of kernel/syscall.c (Syscall): a call of init puts its arguments and its
    number into registers and executes [svc], the vector saves the context, the
    handler dispatches, the context is restored, and the result is x0.

    init.c executes [svc #0] and passes the number of the call in x8; the handler
    takes the number from the operand of [svc].  init runs to its main loop, and all
    that appears on the console are the kernel's lines about the unknown call. *)

From stdpp Require Import base numbers list option tactics sets strings.
From S2P Require Import Prelude Text ProcTable Sched Process Arm64 Syscall Exceptions InitProc.
Import Text Proc Sched Process Exceptions InitProc.

Module InitRun.

Section run.
Context {H : Type} (cpu : Z).
Variable process_get_current : kstate -> option Z.
Variable process_exit : Z -> Z -> kstate -> kstate.
Variable sys_brk : list Z -> Syscall.sysstate H -> Syscall.sys_result H.
Variable clobber : Z -> Z.
(** The registers and the kernel stack when init makes a call. *)
Variable user : call -> Syscall.sysstate H -> cpu_regs.
(** Where the compiler has put the buffer of a write. *)
Variable buffer : Z.
Implicit Types (s : Syscall.sysstate H).










(** ** A call through the exception entry *)

Hypothesis user_stack : forall c s, on_stack (user c s).





(** ** What init does *)














End run.

(** *** Witness: the process in slot 0 of the system of Syscall *)



End InitRun.
