(* ===== verification/ArmBoot.v ===== *)
(** * The ARM64 entry code

    Models kernel/arch/arm64/boot.S: the entry of the first CPU up to its calls of
    [arm64_paging_init] and [kmain], and the entry of the other CPUs.  The code is
    a list of instructions run on registers and memory; a label is the address of
    its instruction. *)

From stdpp Require Import base numbers list option tactics.
From S2P Require Import Prelude.
Open Scope Z_scope.

Module ArmBoot.

Inductive bootreg := CurrentEL | HCR_EL2 | SPSR_EL2 | ELR_EL2 | CPACR_EL1 | MPIDR_EL1.

#[export] Instance bootreg_eq_dec : EqDecision bootreg.
Proof. solve_decision. Defined.

(** Registers, exception level, interrupt masks, the operands of the last
    comparison, memory by addresses of 64-bit words, and the instruction pointer. *)
Record cpu := mk_cpu {
  x : Z -> Z;
  sp : Z;
  el : Z;
  daif : Z;
  compared : Z * Z;
  bootsys : bootreg -> Z;
  mem : Z -> Z;
  pc : Z;
}.

Inductive cfun := Arm64PagingInit | Kmain | Arm64CpuInit.

Inductive instr :=
| Mrs (d : Z) (r : bootreg)
| Msr (r : bootreg) (s : Z)
| MsrDaifClr (n : Z)
| Lsr (d s n : Z)
| AndImm (d s n : Z)
| OrrImm (d s n : Z)
| MovImm (d n : Z)
| MovReg (d s : Z)
| MovSp (s : Z)
| Adr (d label : Z)
| LdrConst (d n : Z)              (* ldr x, =n *)
| LdrIndex (d b i : Z)            (* ldr x, [b, i, lsl #3] *)
| StrZrPost (b n : Z)             (* str xzr, [b], #n *)
| CmpImm (s n : Z)
| CmpReg (s t : Z)
| Bne (label : Z)
| Bge (label : Z)
| B (label : Z)
| Bl (f : cfun)
| Eret
| Wfi.

Definition set_x (d v : Z) (c : cpu) : cpu :=
  mk_cpu (fun r => if r =? d then v else x c r) (sp c) (el c) (daif c) (compared c) (bootsys c) (mem c) (pc c).
Definition set_sp (v : Z) (c : cpu) : cpu := mk_cpu (x c) v (el c) (daif c) (compared c) (bootsys c) (mem c) (pc c).
Definition set_level (e d : Z) (c : cpu) : cpu := mk_cpu (x c) (sp c) e d (compared c) (bootsys c) (mem c) (pc c).
Definition set_compared (p : Z * Z) (c : cpu) : cpu := mk_cpu (x c) (sp c) (el c) (daif c) p (bootsys c) (mem c) (pc c).
Definition set_sys (r : bootreg) (v : Z) (c : cpu) : cpu :=
  mk_cpu (x c) (sp c) (el c) (daif c) (compared c) (fun q => if decide (q = r) then v else bootsys c q) (mem c) (pc c).
Definition set_mem (a v : Z) (c : cpu) : cpu :=
  mk_cpu (x c) (sp c) (el c) (daif c) (compared c) (bootsys c) (fun b => if b =? a then v else mem c b) (pc c).
Definition set_pc (v : Z) (c : cpu) : cpu := mk_cpu (x c) (sp c) (el c) (daif c) (compared c) (bootsys c) (mem c) v.

(** The current level is bits 2 and 3 of [CurrentEL]. *)
Definition read_sys (r : bootreg) (c : cpu) : Z :=
  match r with CurrentEL => el c * 4 | _ => bootsys c r end.

(** What an instruction does to the state; [pc] already points behind it. *)
Definition exec (i : instr) (c : cpu) : cpu :=
  match i with
  | Mrs d r => set_x d (read_sys r c) c
  | Msr r s => set_sys r (x c s) c
  | MsrDaifClr n => set_level (el c) (Z.ldiff (daif c) n) c
  | Lsr d s n => set_x d (Z.shiftr (x c s) n) c
  | AndImm d s n => set_x d (Z.land (x c s) n) c
  | OrrImm d s n => set_x d (Z.lor (x c s) n) c
  | MovImm d n => set_x d n c
  | MovReg d s => set_x d (x c s) c
  | MovSp s => set_sp (x c s) c
  | Adr d l => set_x d l c
  | LdrConst d n => set_x d n c
  | LdrIndex d b i => set_x d (mem c (u64 (x c b + x c i * 8))) c
  | StrZrPost b n => set_x b (u64 (x c b + n)) (set_mem (x c b) 0 c)
  | CmpImm s n => set_compared (x c s, n) c
  | CmpReg s t => set_compared (x c s, x c t) c
  | Bne l => if (compared c).1 =? (compared c).2 then c else set_pc l c
  | Bge l => if s64 (compared c).2 <=? s64 (compared c).1 then set_pc l c else c
  | B l => set_pc l c
  | Eret =>
      (* from EL2: level and masks come from SPSR_EL2 *)
      let s := bootsys c SPSR_EL2 in
      set_pc (bootsys c ELR_EL2) (set_level (Z.land (Z.shiftr s 2) 3) (Z.land (Z.shiftr s 6) 15) c)
  | Bl _ | Wfi => c
  end.

(** Running stops at a call of C code, at [wfi], or when the fuel is spent. *)
Inductive stop := Called (f : cfun) (c : cpu) | Waits (c : cpu) | OutOfFuel | Outside.

Fixpoint run (fuel : nat) (code : list instr) (base : Z) (c : cpu) : stop :=
  match fuel with
  | O => OutOfFuel
  | S fuel' =>
      match code !! Z.to_nat ((pc c - base) / 4) with
      | None => Outside
      | Some i =>
          let c := set_pc (pc c + 4) c in
          match i with
          | Bl f => Called f c
          | Wfi => Waits c
          | _ => run fuel' code base (exec i c)
          end
      end
  end.

Section code.
(** Addresses the linker chooses. *)
Variable base stack_top sbss ebss cpu_stacks : Z.

Definition label (n : Z) : Z := base + 4 * n.

Definition start : list instr := [
  Mrs 0 CurrentEL;
  Lsr 0 0 2;
  CmpImm 0 2;
  Bne (label 11);
  MovImm 0 (Z.shiftl 1 31);
  Msr HCR_EL2 0;
  MovImm 0 0x3C5;
  Msr SPSR_EL2 0;
  Adr 0 (label 11);
  Msr ELR_EL2 0;
  Eret;
  (* 1: *)
  LdrConst 0 stack_top;
  MovSp 0;
  LdrConst 0 sbss;
  LdrConst 1 ebss;
  (* 2: *)
  CmpReg 0 1;
  Bge (label 19);
  StrZrPost 0 8;
  B (label 15);
  (* 3: *)
  MovReg 19 0;
  Mrs 0 CPACR_EL1;
  OrrImm 0 0 (Z.shiftl 3 20);
  Msr CPACR_EL1 0;
  Bl Arm64PagingInit;
  MovReg 0 19;
  Bl Kmain;
  (* .Lhalt: *)
  Wfi;
  B (label 26)].

(** [_secondary_entry], at [base]. *)
Definition secondary_entry (halt : Z) : list instr := [
  Mrs 0 MPIDR_EL1;
  AndImm 0 0 0xFF;
  LdrConst 1 cpu_stacks;
  LdrIndex 2 1 0;
  MovSp 2;
  Bl Arm64CpuInit;
  MsrDaifClr 0xF;
  B halt].

(** ** The entry of the first CPU *)

Lemma run_step fuel code c n i :
  pc c = label n -> 0 <= n -> code !! Z.to_nat n = Some i ->
  run (S fuel) code base c =
    match i with
    | Bl f => Called f (set_pc (label (n + 1)) c)
    | Wfi => Waits (set_pc (label (n + 1)) c)
    | _ => run fuel code base (exec i (set_pc (label (n + 1)) c))
    end.
Proof.
  intros Hpc Hn Hi. cbn [run]. rewrite Hpc. replace ((label n - base) / 4) with n by (unfold label; lia).
  rewrite Hi. replace (label n + 4) with (label (n + 1)) by (unfold label; lia). reflexivity.
Qed.

(** [n] instructions lead from one state to the other. *)
Definition steps (code : list instr) (n : nat) (c c' : cpu) : Prop :=
  forall fuel, run (n + fuel) code base c = run fuel code base c'.

Lemma steps_trans code n m c1 c2 c3 : steps code n c1 c2 -> steps code m c2 c3 -> steps code (n + m) c1 c3.
Proof. intros H1 H2 fuel. by rewrite <-Nat.add_assoc, H1, H2. Qed.

Lemma steps_one code c n i :
  pc c = label n -> 0 <= n -> code !! Z.to_nat n = Some i ->
  match i with Bl _ | Wfi => False | _ => True end ->
  steps code 1 c (exec i (set_pc (label (n + 1)) c)).
Proof. intros Hpc Hn Hi H fuel. cbn [Nat.add]. rewrite (run_step _ _ _ _ _ Hpc Hn Hi). by destruct i. Qed.

(** Follow the instructions from number [n] on, up to the state wanted. *)
Ltac follow n := eapply (steps_trans _ 1);
  [refine (steps_one start _ n _ _ ltac:(lia) eq_refl I); reflexivity|cbn [exec]].

(** The state at the loop that clears the BSS, with everything below [a] done. *)
Record at_loop (c0 c : cpu) (a : Z) : Prop := {
  al_pc : pc c = label 15;
  al_x0 : x c 0 = a;
  al_x1 : x c 1 = ebss;
  al_sp : sp c = stack_top;
  al_el : el c = 1;
  al_daif : daif c = if el c0 =? 2 then 15 else daif c0;
  al_sys : bootsys c CPACR_EL1 = bootsys c0 CPACR_EL1;
  al_mem : forall b, mem c b = if decide (sbss <= b < a /\ (b - sbss) mod 8 = 0) then 0 else mem c0 b;
}.

(** Both levels the firmware may start the kernel at lead to the loop at EL1. *)
Lemma start_to_loop c :
  pc c = label 0 -> el c = 1 \/ el c = 2 ->
  exists n c', (n <= 15)%nat /\ steps start n c c' /\ at_loop c c' sbss.
Proof.
  intros Hpc Hel.
  assert (Z.shiftr (el c * 4) 2 = el c) as Hs by (by rewrite Z.shiftr_div_pow2, Z.div_mul).
  destruct Hel as [He|He].
  - exists 8%nat. eexists. split; [lia|]. split.
    + eapply (steps_trans _ 1); [refine (steps_one start _ 0 _ Hpc ltac:(lia) eq_refl I)|cbn [exec]].
      follow 1. follow 2. eapply (steps_trans _ 1).
      { refine (steps_one start _ 3 _ _ ltac:(lia) eq_refl I). reflexivity. }
      cbn. rewrite Hs, He. cbn. follow 11. follow 12. follow 13.
      refine (steps_one start _ 14 _ _ ltac:(lia) eq_refl I). reflexivity.
    + split; cbn; rewrite ?He; try done. intros b. by rewrite decide_False by lia.
  - exists 15%nat. eexists. split; [lia|]. split.
    + eapply (steps_trans _ 1); [refine (steps_one start _ 0 _ Hpc ltac:(lia) eq_refl I)|cbn [exec]].
      follow 1. follow 2. eapply (steps_trans _ 1).
      { refine (steps_one start _ 3 _ _ ltac:(lia) eq_refl I). reflexivity. }
      cbn. rewrite Hs, He. cbn. follow 4. follow 5. follow 6. follow 7. follow 8. follow 9. follow 10.
      follow 11. follow 12. follow 13.
      refine (steps_one start _ 14 _ _ ltac:(lia) eq_refl I). reflexivity.
    + split; cbn; rewrite ?He; try done. intros b. by rewrite decide_False by lia.
Qed.

(** One round clears one word. *)
Lemma clear_round c0 c a :
  at_loop c0 c a -> s64 a < s64 ebss -> sbss <= a -> (a - sbss) mod 8 = 0 -> 0 <= a < 2 ^ 64 - 8 ->
  exists c', steps start 4 c c' /\ at_loop c0 c' (a + 8).
Proof.
  intros [Hpc H0 H1 Hsp Hel Hd Hsys Hm] Hlt Hs Hmod Ha. eexists. split.
  - eapply (steps_trans _ 1); [refine (steps_one start _ 15 _ Hpc ltac:(lia) eq_refl I)|cbn [exec]].
    eapply (steps_trans _ 1).
    { refine (steps_one start _ 16 _ _ ltac:(lia) eq_refl I). reflexivity. }
    cbn [exec set_pc set_compared compared fst snd x]. rewrite H0, H1, (proj2 (Z.leb_gt _ _)) by done.
    follow 17. refine (steps_one start _ 18 _ _ ltac:(lia) eq_refl I). reflexivity.
  - split; cbn; try done.
    + rewrite H0. apply wrap_small. lia.
    + intros b. rewrite H0, Hm. destruct (Z.eqb_spec b a) as [->|Hne].
      * by rewrite decide_True by lia.
      * destruct (decide (sbss <= b < a + 8 /\ (b - sbss) mod 8 = 0)) as [[H2 H3]|Hn].
        -- rewrite decide_True; [done|]. split; [|done]. lia.
        -- rewrite decide_False; [done|]. intros [? ?]. apply Hn. split; [lia|done].
Qed.

Lemma clear_loop c0 n : forall c a,
  at_loop c0 c a -> ebss = a + 8 * Z.of_nat n -> sbss <= a -> (a - sbss) mod 8 = 0 ->
  (forall b, a <= b < ebss -> s64 b < s64 ebss) -> 0 <= a -> ebss < 2 ^ 64 ->
  exists c', steps start (4 * n) c c' /\ at_loop c0 c' ebss.
Proof.
  induction n as [|n IH]; intros c a Hl He Hs Hmod Hord Ha Hb.
  - exists c. split; [by intros fuel|]. by replace ebss with a by lia.
  - destruct (clear_round c0 c a Hl) as (c1 & S1 & L1); [apply Hord; lia|done|done|lia|].
    destruct (IH c1 (a + 8) L1) as (c' & S' & L'); [lia|lia| | |lia|lia|].
    + replace (a + 8 - sbss) with (a - sbss + 1 * 8) by lia. by rewrite Z.mod_add.
    + intros b Hbr. apply Hord. lia.
    + exists c'. split; [|done]. replace (4 * S n)%nat with (4 + 4 * n)%nat by lia. by eapply steps_trans.
Qed.

(** The rest up to the first call. *)
Lemma loop_to_call c0 c :
  at_loop c0 c ebss ->
  exists c', steps start 6 c c' /\ pc c' = label 23 /\ el c' = 1 /\ sp c' = stack_top /\ daif c' = daif c /\
    bootsys c' CPACR_EL1 = Z.lor (bootsys c0 CPACR_EL1) 0x300000 /\ mem c' = mem c /\ x c' 19 = ebss.
Proof.
  intros [Hpc H0 H1 Hsp Hel Hd Hsys Hm]. eexists. split.
  - eapply (steps_trans _ 1); [refine (steps_one start _ 15 _ Hpc ltac:(lia) eq_refl I)|cbn [exec]].
    eapply (steps_trans _ 1).
    { refine (steps_one start _ 16 _ _ ltac:(lia) eq_refl I). reflexivity. }
    cbn [exec set_pc set_compared compared fst snd x]. rewrite H0, H1, Z.leb_refl.
    follow 19. follow 20. follow 21. refine (steps_one start _ 22 _ _ ltac:(lia) eq_refl I). reflexivity.
  - cbn. by rewrite Hel, Hsp, H0, Hsys.
Qed.

(** C38: Started at EL1 or EL2, the entry code reaches its first C function within
    four instructions per word of the BSS and 22 more, at EL1 on the stack of
    the first CPU, with the floating point unit enabled, the BSS cleared and no
    other memory changed; whatever that function leaves in the registers it need
    not preserve, [kmain] is then called on the same stack. *)
Theorem start_reaches_kmain c n :
  pc c = label 0 -> el c = 1 \/ el c = 2 ->
  0 <= sbss -> ebss = sbss + 8 * Z.of_nat n -> ebss < 2 ^ 64 ->
  (forall b, sbss <= b < ebss -> s64 b < s64 ebss) ->
  exists c1, run (22 + 4 * n) start base c = Called Arm64PagingInit c1 /\
    el c1 = 1 /\ sp c1 = stack_top /\ daif c1 = (if el c =? 2 then 15 else daif c) /\
    bootsys c1 CPACR_EL1 = Z.lor (bootsys c CPACR_EL1) 0x300000 /\
    (forall b, mem c1 b = if decide (sbss <= b < ebss /\ (b - sbss) mod 8 = 0) then 0 else mem c b) /\
    forall c2, x c2 19 = x c1 19 -> sp c2 = sp c1 -> pc c2 = pc c1 ->
      exists c3, run 2 start base c2 = Called Kmain c3 /\ sp c3 = stack_top /\ x c3 0 = ebss.
Proof.
  intros Hpc Hel Hs He Hb Hord.
  destruct (start_to_loop c Hpc Hel) as (n1 & cl & Hn1 & S1 & L1).
  destruct (clear_loop c n cl sbss L1 He ltac:(lia) ltac:(by rewrite Z.sub_diag) Hord Hs Hb) as (ce & S2 & L2).
  pose proof (steps_trans _ _ _ _ _ _ S1 S2) as S12.
  destruct (loop_to_call c ce L2) as (cc & S3 & Pc & El & Sp & Da & Sy & Me & X19).
  exists (set_pc (label 24) cc). split.
  { replace (22 + 4 * n)%nat with ((n1 + 4 * n) + (6 + S (15 - n1)))%nat by lia. rewrite S12, S3.
    by rewrite (run_step _ start _ 23 _ Pc ltac:(lia) eq_refl). }
  split; [done|]. split; [done|]. split; [etransitivity; [exact Da|apply L2]|]. split; [done|].
  split; [intros b; cbn; rewrite Me; apply L2|]. intros c2 X2 P2 C2. eexists. split.
  - rewrite (run_step _ start _ 24 _ C2 ltac:(lia) eq_refl). cbn [exec].
    erewrite (run_step _ start _ 25) by (reflexivity || lia). reflexivity.
  - cbn. rewrite P2, X2. by split.
Qed.

(** ** The entry of the other CPUs *)

(** The table of stacks lies in the BSS and nothing fills it: a secondary CPU
    starts its C code with the stack pointer 0. *)
Lemma secondary_stack_null halt c :
  pc c = label 0 -> 0 <= cpu_stacks < 2 ^ 32 ->
  (forall i, 0 <= i < 256 -> mem c (cpu_stacks + i * 8) = 0) -> 0 <= bootsys c MPIDR_EL1 ->
  exists c', run 6 (secondary_entry halt) base c = Called Arm64CpuInit c' /\ sp c' = 0.
Proof.
  intros Hpc Hc Hm Hmp. eexists. split.
  - rewrite (run_step _ (secondary_entry halt) _ 0 _ Hpc ltac:(lia) eq_refl). cbn [exec].
    erewrite (run_step _ (secondary_entry halt) _ 1) by (reflexivity || lia). cbn [exec].
    erewrite (run_step _ (secondary_entry halt) _ 2) by (reflexivity || lia). cbn [exec].
    erewrite (run_step _ (secondary_entry halt) _ 3) by (reflexivity || lia). cbn [exec].
    erewrite (run_step _ (secondary_entry halt) _ 4) by (reflexivity || lia). cbn [exec].
    erewrite (run_step _ (secondary_entry halt) _ 5) by (reflexivity || lia). reflexivity.
  - cbn. assert (0 <= Z.land (bootsys c MPIDR_EL1) 255 < 256) as Hr.
    { change 255 with (Z.ones 8). rewrite Z.land_ones by lia. apply Z.mod_pos_bound. lia. }
    rewrite wrap_small by lia. by apply Hm.
Qed.
End code.

(** ** Witness *)

(** A CPU that firmware starts at EL2, with memory full of ones. *)
Definition cpu0 : cpu := mk_cpu (fun _ => 0) 0 2 0 (0, 0) (fun _ => 0) (fun _ => 1) 0x40080000.

Lemma start_reaches_kmain_witness :
  exists c1, run (22 + 4 * 4) (start 0x40080000 0x40098000 0x40090000 0x40090020) 0x40080000 cpu0
      = Called Arm64PagingInit c1 /\ el c1 = 1 /\ sp c1 = 0x40098000 /\ mem c1 0x40090018 = 0 /\ mem c1 0x40090020 = 1.
Proof.
  destruct (start_reaches_kmain 0x40080000 0x40098000 0x40090000 0x40090020 cpu0 4) as (c1 & R & He & Hs & _ & _ & Hm & _).
  - reflexivity.
  - by right.
  - lia.
  - lia.
  - lia.
  - intros b Hb. rewrite !swrap_small by lia. lia.
  - exists c1. split; [exact R|]. split; [exact He|]. split; [exact Hs|].
    rewrite (Hm 0x40090018), decide_True by (split; [lia|reflexivity]). rewrite (Hm 0x40090020), decide_False by lia.
    by split.
Defined.
End ArmBoot.
