(* ===== verification/X86Boot.v ===== *)
(** * The x86_64 entry code

    Models kernel/arch/x86_64/boot.S: the entry of the first CPU from the boot
    loader's 32-bit mode to [kmain], and the trampoline of the other CPUs, as the
    changes each instruction makes to the registers.  Segment registers hold the
    same flat segments throughout and are left out, except for the descriptors
    they are loaded from. *)

From stdpp Require Import base numbers list option tactics.
From S2P Require Import Prelude.
Open Scope Z_scope.

Module X86Boot.

(** General, control and model-specific registers the code uses. *)
Record cpu := mk_cpu {
  rax : Z; rbx : Z; rcx : Z; rdx : Z; rsi : Z; rdi : Z; rsp : Z;
  cr0 : Z; cr3 : Z; cr4 : Z; efer : Z;
}.

Definition set_abcd a b c d s := mk_cpu a b c d (rsi s) (rdi s) (rsp s) (cr0 s) (cr3 s) (cr4 s) (efer s).
Definition set_rax v s := set_abcd v (rbx s) (rcx s) (rdx s) s.
Definition set_sidi si di s := mk_cpu (rax s) (rbx s) (rcx s) (rdx s) si di (rsp s) (cr0 s) (cr3 s) (cr4 s) (efer s).
Definition set_rsp v s := mk_cpu (rax s) (rbx s) (rcx s) (rdx s) (rsi s) (rdi s) v (cr0 s) (cr3 s) (cr4 s) (efer s).
Definition set_cr c0 c3 c4 e s := mk_cpu (rax s) (rbx s) (rcx s) (rdx s) (rsi s) (rdi s) (rsp s) c0 c3 c4 e.

Definition EFER : Z := 0xC0000080.

(** ** Translation of addresses with paging on *)

Definition present (e : Z) : bool := Z.testbit e 0.
Definition large (e : Z) : bool := Z.testbit e 7.

(** Whether an address is mapped: [n] levels below the table at [t], whose
    entries are 64-bit words of [mem]; a large page ends the walk early in the
    two middle levels. *)
Fixpoint mapped (n : nat) (mem : Z -> Z) (t v : Z) : bool :=
  match n with
  | O => true
  | S n' =>
      let e := mem (t + 8 * Z.land (Z.shiftr v (12 + 9 * Z.of_nat n')) 0x1FF) in
      present e && (match n' with 1%nat | 2%nat => large e | _ => false end || mapped n' mem (Z.land e 0xFFFFFFFFFF000) v)
  end.

Section code.
(** Leaf of [cpuid] to EAX, EBX, ECX and EDX. *)
Variable cpuid : Z -> Z * Z * Z * Z.
(** Physical address of the page tables; addresses the linker chooses. *)
Variable pml4 sbss ebss stack_top cpu_stacks : Z.

Definition do_cpuid s : cpu :=
  let '(a, b, c, d) := cpuid (rax s) in set_abcd a b c d s.

(** [rdmsr; orl $(1 << 8), %eax; wrmsr] with ECX set to [EFER]. *)
Definition enable_long_mode s : cpu :=
  let s := set_abcd (rax s) (rbx s) EFER (rdx s) s in
  let s := set_abcd (u32 (efer s)) (rbx s) (rcx s) (Z.shiftr (efer s) 32) s in
  let s := set_rax (Z.lor (rax s) (Z.shiftl 1 8)) s in
  set_cr (cr0 s) (cr3 s) (cr4 s) (Z.shiftl (rdx s) 32 + rax s) s.

(** [_start] up to the instruction that switches paging on; [None] when it halts
    because the processor has no long mode. *)
Definition start32 s : option cpu :=
  let s := set_sidi (rbx s) (rax s) s in
  let s := do_cpuid (set_rax 0x80000000 s) in
  if rax s <? 0x80000001 then None else
  let s := do_cpuid (set_rax 0x80000001 s) in
  if negb (Z.testbit (rdx s) 29) then None else
  let s := set_rax (Z.lor (cr4 s) (Z.lor (Z.shiftl 1 5) (Z.shiftl 1 4))) s in
  let s := set_cr (cr0 s) (cr3 s) (rax s) (efer s) s in
  let s := set_rax pml4 s in
  let s := set_cr (cr0 s) (rax s) (cr4 s) (efer s) s in
  let s := enable_long_mode s in
  let s := set_rax (Z.lor (cr0 s) (Z.lor (Z.shiftl 1 31) (Z.shiftl 1 0))) s in
  Some (set_cr (rax s) (cr3 s) (cr4 s) (efer s) s).

(** [rep stosq]: [rcx] words of [rax] from [rdi] on. *)
Definition rep_stosq s (mem : Z -> Z) : cpu * (Z -> Z) :=
  (set_sidi (rsi s) (u64 (rdi s + 8 * rcx s)) (set_abcd (rax s) (rbx s) 0 (rdx s) s),
   fun a => if decide (rdi s <= a < rdi s + 8 * rcx s /\ (a - rdi s) mod 8 = 0) then rax s else mem a).

(** [.Lentry64] up to the call of [kmain], whose arguments are RDI and RSI. *)
Definition entry64 s (mem : Z -> Z) : cpu * (Z -> Z) :=
  let s := set_rax (Z.lor (Z.land (rax s) (Z.lnot 0xFFFF)) 0x10) s in
  let s := set_rax sbss s in
  let s := set_sidi (rsi s) ebss s in
  let s := set_sidi (rsi s) (u64 (rdi s - rax s)) s in
  let s := set_rax 0 s in
  let s := set_abcd (rax s) (rbx s) (Z.shiftr (rcx s) 3) (rdx s) s in
  let '(s, mem) := rep_stosq s mem in
  let s := set_rsp stack_top s in
  (set_sidi (u32 (rsi s)) (u32 (rdi s)) s, mem).

(** The first CPU: the fetch after paging is on goes through the tables; [ip] is
    the address of that instruction. *)
Inductive boot_end := Halts | PageFault (s : cpu) | CallsKmain (s : cpu) (mem : Z -> Z).

Definition start (ip : Z) s (mem : Z -> Z) : boot_end :=
  match start32 s with
  | None => Halts
  | Some s =>
      if mapped 4 mem (cr3 s) ip then let '(s, mem) := entry64 s mem in CallsKmain s mem else PageFault s
  end.

(** The trampoline from [ap_entry32] to paging; CR3 gets the first word of the
    page table. *)
Definition ap_entry32 s (mem : Z -> Z) : cpu :=
  let s := set_rax (Z.lor (Z.land (rax s) (Z.lnot 0xFFFF)) 0x10) s in
  let s := set_rax (Z.lor (cr4 s) (Z.shiftl 1 5)) s in
  let s := set_cr (cr0 s) (cr3 s) (rax s) (efer s) s in
  let s := set_rax (u32 (mem pml4)) s in
  let s := set_cr (cr0 s) (rax s) (cr4 s) (efer s) s in
  let s := enable_long_mode s in
  let s := set_rax (Z.lor (cr0 s) (Z.lor (Z.shiftl 1 31) (Z.shiftl 1 0))) s in
  set_cr (rax s) (cr3 s) (cr4 s) (efer s) s.

(** [ap_entry64] up to the call of [ap_entry]: the stack of the CPU's APIC
    identifier. *)
Definition ap_entry64 s (mem : Z -> Z) : cpu :=
  let s := do_cpuid (set_rax 1 s) in
  let s := set_abcd (rax s) (Z.shiftr (rbx s) 24) (rcx s) (rdx s) s in
  let s := set_sidi cpu_stacks (rbx s) s in
  set_rsp (mem (rsi s + 8 * rdi s)) s.

(** [gdt64] *)
Definition gdt64 : list Z :=
  [0; 0x00209A0000000000; 0x0000920000000000; 0x0020FA0000000000; 0x0000F20000000000; 0; 0].

(** ** Theorems *)

(** Bits of a segment descriptor: present, code, long mode and privilege level. *)
Lemma gdt64_segments :
  (fun d => (Z.testbit d 47, Z.testbit d 43, Z.testbit d 53, Z.land (Z.shiftr d 45) 3)) <$> take 4 (drop 1 gdt64) =
  [(true, true, true, 0); (true, false, false, 0); (true, true, true, 3); (true, false, false, 3)].
Proof. reflexivity. Qed.

(** Whether the processor announces long mode. *)
Definition has_long_mode : bool :=
  let '(a, _, _, _) := cpuid 0x80000000 in
  let '(_, _, _, d) := cpuid 0x80000001 in
  (0x80000001 <=? a) && Z.testbit d 29.

(** What [start32] leaves behind. *)
Record long_mode (s0 s : cpu) : Prop := {
  lm_paging : Z.testbit (cr0 s) 31 = true /\ Z.testbit (cr0 s) 0 = true;
  lm_pae : Z.testbit (cr4 s) 5 = true;
  lm_lme : Z.testbit (efer s) 8 = true;
  lm_cr3 : cr3 s = pml4;
  lm_args : rdi s = rax s0 /\ rsi s = rbx s0;
  lm_rcx : rcx s = EFER;
}.

Lemma start32_spec s :
  match start32 s with
  | Some s' => has_long_mode = true /\ long_mode s s'
  | None => has_long_mode = false
  end.
Proof.
  unfold start32, has_long_mode, do_cpuid. cbn [rax set_rax set_abcd set_sidi].
  destruct (cpuid 0x80000000) as [[[a b] c] d]. cbn [rax set_abcd].
  destruct (cpuid 0x80000001) as [[[a' b'] c'] d'].
  destruct (Z.ltb_spec a 0x80000001) as [Ha|Ha].
  { by rewrite (proj2 (Z.leb_gt _ _)) by lia. }
  rewrite (proj2 (Z.leb_le _ _)) by lia. cbn [rdx set_abcd andb]. destruct (Z.testbit d' 29); cbn [negb]; [|done].
  split; [done|]. split; cbn -[Z.lor Z.shiftl Z.testbit Z.shiftr wrap EFER]; try done.
  - split; rewrite !Z.lor_spec; change (Z.shiftl 1 31) with (2 ^ 31); change (Z.shiftl 1 0) with (2 ^ 0);
      rewrite !Z.pow2_bits_eqb by lia; cbn; by rewrite ?orb_true_r.
  - rewrite !Z.lor_spec. change (Z.shiftl 1 5) with (2 ^ 5). rewrite Z.pow2_bits_true by lia. by rewrite orb_true_r.
  - rewrite <-(Z.mod_pow2_bits_low _ 32) by lia. rewrite Z.shiftl_mul_pow2, Z.add_comm, Z.mod_add by lia.
    rewrite Z.mod_pow2_bits_low, Z.lor_spec by lia. change (Z.shiftl 1 8) with (2 ^ 8).
    rewrite Z.pow2_bits_true by lia. by rewrite orb_true_r.
Qed.

(** With empty tables no address is mapped. *)
Lemma empty_unmapped mem t v :
  (forall i, 0 <= i < 512 -> mem (t + 8 * i) = 0) -> mapped 4 mem t v = false.
Proof.
  intros Hm. cbn [mapped]. rewrite Hm; [done|].
  change 0x1FF with (Z.ones 9). rewrite Z.land_ones by lia. apply Z.mod_pos_bound. lia.
Qed.

(** The code after the switch clears memory from the address that is the size of
    the BSS on, and as many bytes as the number of the EFER register it left in
    RCX, instead of the BSS. *)
Lemma entry64_clears s mem :
  0 <= sbss <= ebss -> ebss < 2 ^ 63 -> rcx s = EFER ->
  let '(s', mem') := entry64 s mem in
  rsp s' = stack_top /\ rdi s' = u32 (ebss - sbss + EFER) /\
  forall a, mem' a = if decide (ebss - sbss <= a < ebss - sbss + EFER /\ (a - (ebss - sbss)) mod 8 = 0) then 0 else mem a.
Proof.
  intros Hb He Hc. unfold entry64, rep_stosq.
  cbn -[wrap Z.shiftr Z.lor Z.land Z.lnot decide EFER]. rewrite Hc, (wrap_small 64 (ebss - sbss)) by lia.
  change (8 * Z.shiftr EFER 3) with EFER. split; [done|]. split; [|done].
  rewrite (wrap_small 64); [done|]. unfold EFER. lia.
Qed.

(** The entry code halts exactly on processors without long mode.  On the
    others it has switched on paging, PAE and long mode with the boot tables, and
    keeps the boot loader's arguments.  It comes to [kmain] when the tables map the
    code; as the file leaves them, without an entry, the next fetch faults. *)
Theorem start_outcome ip s mem :
  match start ip s mem with
  | Halts => has_long_mode = false
  | PageFault s' => has_long_mode = true /\ long_mode s s' /\ mapped 4 mem pml4 ip = false
  | CallsKmain s' mem' => has_long_mode = true /\ mapped 4 mem pml4 ip = true /\ rsp s' = stack_top /\
      ~ (forall i, 0 <= i < 512 -> mem (pml4 + 8 * i) = 0)
  end.
Proof.
  unfold start. pose proof (start32_spec s) as H. destruct (start32 s) as [s1|]; [|done]. destruct H as [Hl Hs].
  pose proof (lm_cr3 _ _ Hs) as ->. destruct (mapped 4 mem pml4 ip) eqn:E; [|by split_and!].
  unfold entry64, rep_stosq. cbn -[wrap mapped Z.shiftr Z.lor Z.land Z.lnot]. split_and!; [done|done|done|].
  intros H0. by rewrite empty_unmapped in E.
Qed.

(** ** The other CPUs *)

(** CR3 gets the contents of the first entry, not the address of the table. *)
Lemma ap_cr3 s mem : cr3 (ap_entry32 s mem) = u32 (mem pml4).
Proof. reflexivity. Qed.

(** The stacks of the other CPUs are never set: with the table in the BSS still
    zero the stack pointer is 0. *)
Lemma ap_stack_null s mem :
  (forall i, mem (cpu_stacks + 8 * i) = 0) -> rsp (ap_entry64 s mem) = 0.
Proof.
  intros Hm. unfold ap_entry64, do_cpuid. cbn [rax set_rax set_abcd]. destruct (cpuid 1) as [[[a b] c] d]. apply Hm.
Qed.
End code.
End X86Boot.
