(* ===== verification/Layout.v ===== *)
(** * Layout of structures and numbering of registers

    The components read structures at fixed offsets.  Here the structures of the
    headers are declared field by field, laid out by the rules of the C ABI of the
    64-bit targets, and the offsets and sizes the components use are proved to be
    the ones of the declarations.  The second part does the same for the numbers
    of the interrupt vectors, the registers of the local APIC and the rights of a
    capability. *)

From stdpp Require Import base numbers list option tactics strings.
From S2P Require Import Prelude Heap Pmm Vmm Initramfs Elf X86 Acpi Gdt Idt Irq Apic Virtio Exceptions CapProtocol.
Import CapProtocol.
Open Scope Z_scope.

Module Layout.

(** ** The rules of the C ABI *)

(** The size and the alignment of a type. *)
Record ctype := mk_type { csize : Z; calign : Z }.

Definition u8_t : ctype := mk_type 1 1.
Definition u16_t : ctype := mk_type 2 2.
Definition u32_t : ctype := mk_type 4 4.
Definition u64_t : ctype := mk_type 8 8.
Definition bool_t : ctype := mk_type 1 1.
Definition ptr_t : ctype := mk_type 8 8.
Definition array_t (n : Z) (t : ctype) : ctype := mk_type (n * csize t) (calign t).

Definition fields : Type := list (string * ctype).

Definition align_up (p a : Z) : Z := (p + a - 1) / a * a.

(** [__attribute__((packed))] makes every alignment 1. *)
Definition packed (l : fields) : fields := (fun f => (f.1, mk_type (csize f.2) 1)) <$> l.

(** The offsets of the fields from position [p] on, and where they end. *)
Fixpoint place (p : Z) (l : fields) : list (string * Z) * Z :=
  match l with
  | [] => ([], p)
  | (n, t) :: l' =>
      let o := align_up p (calign t) in
      let '(os, e) := place (o + csize t) l' in
      ((n, o) :: os, e)
  end.

Definition alignof (l : fields) : Z := foldr (fun f a => Z.max (calign f.2) a) 1 l.
Definition sizeof (l : fields) : Z := align_up (place 0 l).2 (alignof l).
Definition struct_t (l : fields) : ctype := mk_type (sizeof l) (alignof l).

Fixpoint find_field (n : string) (os : list (string * Z)) : option Z :=
  match os with
  | [] => None
  | (m, o) :: os' => if String.eqb n m then Some o else find_field n os'
  end.

Definition offsetof (l : fields) (n : string) : option Z := find_field n (place 0 l).1.

(** *** Fields are aligned, in order, apart, and inside the structure *)

Definition type_ok (t : ctype) : Prop := 0 <= csize t /\ 0 < calign t.

Lemma align_up_spec p a : 0 < a -> p <= align_up p a < p + a /\ align_up p a mod a = 0.
Proof. intros Ha. unfold align_up. rewrite Z.mod_mul by lia. split; [|done]. pose proof (Z.mod_pos_bound (p + a - 1) a Ha).
  pose proof (Z.div_mod (p + a - 1) a). lia. Qed.

Lemma place_spec l : forall p,
  Forall (fun f => type_ok f.2) l ->
  let '(os, e) := place p l in
  p <= e /\ (os.*1 = l.*1) /\
  (forall i o f, os !! i = Some o -> l !! i = Some f -> p <= o.2 /\ o.2 mod calign f.2 = 0 /\ o.2 + csize f.2 <= e) /\
  (forall i j o o' f, os !! i = Some o -> l !! i = Some f -> os !! j = Some o' -> (i < j)%nat -> o.2 + csize f.2 <= o'.2).
Proof.
  induction l as [|[n t] l IH]; intros p Hl; [split_and!; [lia|done|done|done]|]. cbn [place].
  apply Forall_cons in Hl as [[Hs Ha] Hl]. simpl in Hs, Ha. destruct (align_up_spec p (calign t) Ha) as [Hp Hm].
  specialize (IH (align_up p (calign t) + csize t) Hl). destruct (place _ l) as [os e].
  destruct IH as (He & Hn & Hin & Hap). split_and!.
  - lia.
  - cbn [fmap list_fmap]. by rewrite Hn.
  - intros [|i] o f Ho Hf; simpl in Ho, Hf; simplify_eq; simpl; [split_and!; [lia|done|lia]|].
    destruct (Hin i o f Ho Hf) as (? & ? & ?). split_and!; [lia|done|done].
  - intros i j o o' f Ho Hf Ho' Hij. destruct j as [|j]; [lia|]. simpl in Ho'.
    destruct i as [|i]; simpl in Ho, Hf; simplify_eq; simpl; [|eapply Hap; [done..|lia]].
    assert (is_Some (l !! j)) as [f' Hf'].
    { apply lookup_lt_is_Some. apply lookup_lt_Some in Ho'. assert (length os.*1 = length l.*1) as E by by rewrite Hn.
      rewrite !length_fmap in E. lia. }
    destruct (Hin j o' f' Ho' Hf') as (? & _). lia.
Qed.

Lemma align_up_1 p : align_up p 1 = p.
Proof. unfold align_up. rewrite Z.div_1_r. lia. Qed.

(** Any structure of the headers is laid out without overlap. *)
Lemma struct_layout l :
  Forall (fun f => type_ok f.2) l ->
  let os := (place 0 l).1 in
  (forall i o f, os !! i = Some o -> l !! i = Some f ->
     0 <= o.2 /\ o.2 mod calign f.2 = 0 /\ o.2 + csize f.2 <= sizeof l) /\
  (forall i j o o' f, os !! i = Some o -> l !! i = Some f -> os !! j = Some o' -> (i < j)%nat -> o.2 + csize f.2 <= o'.2).
Proof.
  intros Hl os. pose proof (place_spec l 0 Hl) as Hp. unfold sizeof. subst os. destruct (place 0 l) as [os e].
  destruct Hp as (He & _ & Hin & Hap). split; [|exact Hap]. intros i o f Ho Hf.
  destruct (Hin i o f Ho Hf) as (? & ? & ?). split_and!; [done|done|]. cbn [snd].
  assert (0 < alignof l) as Ha. { clear. unfold alignof. induction l as [|f l IH]; simpl; lia. }
  destruct (align_up_spec e _ Ha). lia.
Qed.

(** ** The structures of the headers *)

Definition heap_block_t : fields :=
  [("magic", u32_t); ("size", u64_t); ("free", bool_t); ("next", ptr_t); ("prev", ptr_t)]%string.

Definition pmm_region_t : fields := packed [("base", u64_t); ("length", u64_t); ("type", u32_t)]%string.
Definition pmm_zone_t : fields :=
  [("free_lists", array_t 11 ptr_t); ("free_count", u64_t); ("total_pages", u64_t); ("node_id", u32_t)]%string.

Definition vm_region_t : fields :=
  [("start", u64_t); ("end", u64_t); ("flags", u64_t); ("id", u32_t); ("phys_base", u64_t); ("used", bool_t)]%string.
Definition vm_space_t : fields :=
  [("regions", array_t 1024 (struct_t vm_region_t)); ("heap_start", u64_t); ("heap_end", u64_t); ("mmap_base", u64_t);
   ("region_count", u32_t); ("pml4_phys", u64_t)]%string.

Definition cpio_header_t : fields :=
  packed [("c_magic", array_t 6 u8_t); ("c_ino", array_t 8 u8_t); ("c_mode", array_t 8 u8_t); ("c_uid", array_t 8 u8_t);
    ("c_gid", array_t 8 u8_t); ("c_nlink", array_t 8 u8_t); ("c_mtime", array_t 8 u8_t); ("c_filesize", array_t 8 u8_t);
    ("c_devmajor", array_t 8 u8_t); ("c_devminor", array_t 8 u8_t); ("c_rdevmajor", array_t 8 u8_t);
    ("c_rdevminor", array_t 8 u8_t); ("c_namesize", array_t 8 u8_t); ("c_check", array_t 8 u8_t)]%string.

Definition elf64_header_t : fields :=
  packed [("magic", u32_t); ("_class", u8_t); ("data", u8_t); ("version", u8_t); ("osabi", u8_t); ("abiversion", u8_t);
    ("pad", array_t 7 u8_t); ("type", u16_t); ("machine", u16_t); ("version2", u32_t); ("entry", u64_t); ("phoff", u64_t);
    ("shoff", u64_t); ("flags", u32_t); ("ehsize", u16_t); ("phentsize", u16_t); ("phnum", u16_t); ("shentsize", u16_t);
    ("shnum", u16_t); ("shstrndx", u16_t)]%string.
Definition elf64_phdr_t : fields :=
  packed [("type", u32_t); ("flags", u32_t); ("offset", u64_t); ("vaddr", u64_t); ("paddr", u64_t); ("filesz", u64_t);
    ("memsz", u64_t); ("align", u64_t)]%string.

Definition exception_context_t : fields :=
  packed [("regs", array_t 31 u64_t); ("spsr", u64_t); ("elr", u64_t); ("esr", u64_t); ("far", u64_t)]%string.

Definition rsdp_t : fields :=
  packed [("signature", array_t 8 u8_t); ("checksum", u8_t); ("oem_id", array_t 6 u8_t); ("revision", u8_t);
    ("rsdt_addr", u32_t)]%string.
Definition acpi_sdt_header_t : fields :=
  packed [("signature", array_t 8 u8_t); ("checksum", u8_t); ("oem_id", array_t 6 u8_t); ("oem_table_id", array_t 8 u8_t);
    ("oem_revision", u32_t); ("creator_id", u32_t); ("creator_revision", u32_t)]%string.

(** The tables that start with the header, whose size is a parameter of the
    component. *)
Definition madt_t (header : ctype) : fields :=
  packed [("header", header); ("lapic_addr", u32_t); ("flags", u32_t)]%string.
Definition madt_entry_header_t : fields := packed [("type", u8_t); ("length", u8_t)]%string.
Definition fadt_t (header : ctype) : fields :=
  packed [("header", header); ("facs_addr", u32_t); ("dsdt_addr", u32_t); ("model", u8_t); ("reserved1", u8_t);
    ("sci_int", u16_t); ("smi_cmd", u32_t); ("acpi_enable", u8_t); ("acpi_disable", u8_t); ("s4bios_req", u8_t);
    ("pstate_cnt", u8_t); ("pm1a_evt_blk", u32_t); ("pm1b_evt_blk", u32_t); ("pm1a_cnt_blk", u32_t);
    ("pm1b_cnt_blk", u32_t); ("pm2_cnt_blk", u32_t); ("pm_tmr_blk", u32_t); ("gpe0_blk", u32_t); ("gpe1_blk", u32_t);
    ("pm1_evt_len", u8_t); ("pm1_cnt_len", u8_t); ("pm2_cnt_len", u8_t); ("pm_tmr_len", u8_t); ("gpe0_len", u8_t);
    ("gpe1_len", u8_t); ("gpe1_base", u8_t); ("reserved2", u8_t); ("p_lvl2_lat", u16_t); ("p_lvl3_lat", u16_t);
    ("flush_size", u16_t); ("flush_stride", u16_t); ("duty_offset", u8_t); ("duty_width", u8_t); ("day_alrm", u8_t);
    ("mon_alrm", u8_t); ("century", u8_t); ("iapc_boot_arch", u16_t); ("reserved3", u8_t); ("flags", u32_t)]%string.

Definition tss_t : fields :=
  packed [("reserved0", u32_t); ("rsp0", u64_t); ("rsp1", u64_t); ("rsp2", u64_t); ("reserved1", u64_t);
    ("ist", array_t 7 u64_t); ("reserved2", u64_t); ("reserved3", u16_t); ("iomap_base", u16_t)]%string.
Definition tss_descriptor_t : fields :=
  packed [("limit_low", u16_t); ("base_low", u16_t); ("base_mid", u8_t); ("access", u8_t); ("flags_limit", u8_t);
    ("base_high", u8_t); ("base_upper", u32_t); ("reserved", u32_t)]%string.
Definition idt_gate_t : fields :=
  packed [("offset_low", u16_t); ("selector", u16_t); ("ist", u8_t); ("type_attr", u8_t); ("offset_mid", u16_t);
    ("offset_high", u32_t); ("reserved", u32_t)]%string.

Definition virtq_desc : fields := packed [("addr", u64_t); ("len", u32_t); ("flags", u16_t); ("next", u16_t)]%string.
Definition virtq_avail (n : Z) : fields := packed [("flags", u16_t); ("idx", u16_t); ("ring", array_t n u16_t)]%string.
Definition virtq_used_elem : fields := packed [("id", u16_t); ("len", u32_t)]%string.
Definition virtq_used (n : Z) : fields :=
  packed [("flags", u16_t); ("idx", u16_t); ("ring", array_t n (struct_t virtq_used_elem))]%string.
Definition virtio_pci_common_cfg_t : fields :=
  packed [("device_feature_select", u32_t); ("device_feature", u32_t); ("driver_feature_select", u32_t);
    ("driver_feature", u32_t); ("msix_config", u16_t); ("num_queues", u16_t); ("device_status", u8_t); ("config_gen", u8_t);
    ("queue_select", u16_t); ("queue_size", u16_t); ("queue_msix_vector", u16_t); ("queue_enable", u16_t);
    ("queue_notify_off", u16_t); ("queue_desc", u64_t); ("queue_driver", u64_t); ("queue_device", u64_t)]%string.

Definition cap_bounds : fields := [("start", u64_t); ("end", u64_t)]%string.
Definition cap_token : fields :=
  [("id", u32_t); ("rights", u64_t); ("bounds", struct_t cap_bounds); ("expiry_ns", u64_t); ("owner_pid", u32_t);
   ("label", array_t (Z.of_nat OMNIOS_CAP_LABEL_LEN) u8_t)]%string.
Definition cap_msg : fields :=
  [("msg_type", u32_t); ("seq", u32_t); ("sender_pid", u32_t); ("token", struct_t cap_token); ("token_count", u32_t);
   ("error", array_t 128 u8_t)]%string.

(** ** The offsets the components use *)

(** The address of a field of the structure at [b]. *)
Definition field_at (l : fields) (n : string) (b : Z) : option Z := (fun o => b + o) <$> offsetof l n.

Lemma heap_layout b :
  sizeof heap_block_t = Heap.HDR /\ sizeof heap_block_t mod Heap.ALIGNMENT = 0 /\
  field_at heap_block_t "magic" b = Some (b + 0) /\ field_at heap_block_t "size" b = Some (Heap.size_ b) /\
  field_at heap_block_t "free" b = Some (Heap.free_ b) /\ field_at heap_block_t "next" b = Some (Heap.next_ b) /\
  field_at heap_block_t "prev" b = Some (Heap.prev_ b).
Proof. done. Qed.

Lemma vm_layout space r :
  sizeof vm_region_t = 48 /\ sizeof vm_space_t = Vmm.SIZEOF_VM_SPACE /\ sizeof vm_space_t > PAGE_SIZE /\
  field_at vm_region_t "end" r = Some (Vmm.r_end r) /\ field_at vm_region_t "flags" r = Some (Vmm.r_flags r) /\
  field_at vm_region_t "id" r = Some (Vmm.r_id r) /\ field_at vm_region_t "phys_base" r = Some (Vmm.r_phys_base r) /\
  field_at vm_region_t "used" r = Some (Vmm.r_used r) /\
  field_at vm_space_t "heap_start" space = Some (Vmm.heap_start_ space) /\
  field_at vm_space_t "heap_end" space = Some (Vmm.heap_end_ space) /\
  field_at vm_space_t "mmap_base" space = Some (Vmm.mmap_base_ space) /\
  field_at vm_space_t "region_count" space = Some (Vmm.region_count_ space) /\
  field_at vm_space_t "pml4_phys" space = Some (Vmm.pml4_phys_ space).
Proof. done. Qed.

(** Indexing the table of regions is indexing the array. *)
Lemma vm_region_index space i : Vmm.region space i = space + i * sizeof vm_region_t.
Proof. unfold Vmm.region. change (sizeof vm_region_t) with 48. lia. Qed.

Lemma file_layouts :
  sizeof cpio_header_t = Initramfs.CPIO_HEADER_LEN /\
  offsetof cpio_header_t "c_filesize" = Some Initramfs.c_filesize /\
  offsetof cpio_header_t "c_namesize" = Some Initramfs.c_namesize /\
  sizeof elf64_header_t = Elf.ELF_HEADER_SIZE /\ sizeof elf64_phdr_t = Elf.PHDR_SIZE /\
  offsetof elf64_header_t "magic" = Some Elf.h_magic /\ offsetof elf64_header_t "_class" = Some Elf.h_class /\
  offsetof elf64_header_t "type" = Some Elf.h_type /\ offsetof elf64_header_t "entry" = Some Elf.h_entry /\
  offsetof elf64_header_t "phoff" = Some Elf.h_phoff /\ offsetof elf64_header_t "phentsize" = Some Elf.h_phentsize /\
  offsetof elf64_header_t "phnum" = Some Elf.h_phnum /\
  offsetof elf64_phdr_t "type" = Some Elf.p_type /\ offsetof elf64_phdr_t "offset" = Some Elf.p_offset /\
  offsetof elf64_phdr_t "vaddr" = Some Elf.p_vaddr /\ offsetof elf64_phdr_t "filesz" = Some Elf.p_filesz /\
  offsetof elf64_phdr_t "memsz" = Some Elf.p_memsz.
Proof. done. Qed.

(** The context the C handler of exceptions sees. *)
Lemma exception_layout :
  sizeof exception_context_t = Exceptions.sizeof_exception_context /\
  offsetof exception_context_t "regs" = Some (Exceptions.ctx_regs 0) /\
  offsetof exception_context_t "spsr" = Some Exceptions.ctx_spsr /\ offsetof exception_context_t "elr" = Some Exceptions.ctx_elr /\
  offsetof exception_context_t "esr" = Some Exceptions.ctx_esr /\ offsetof exception_context_t "far" = Some Exceptions.ctx_far.
Proof. done. Qed.

(** The tables of the firmware: whatever the size of the header is, the counts and
    the control block are where the component reads them.  As declared the header
    takes 35 bytes and has no length. *)
Lemma acpi_layout (mem : Z -> Z) n a (Hn : 0 <= n) :
  offsetof rsdp_t "rsdt_addr" = Some 16 /\ Acpi.rsdt_addr mem a = Acpi.read32 mem (a + 16) /\
  sizeof (madt_t (mk_type n 1)) = Acpi.sizeof_madt n /\
  option_map (fun o => Acpi.read32 mem (a + o)) (offsetof (fadt_t (mk_type n 1)) "pm1a_cnt_blk") =
    Some (Acpi.pm1a_cnt_blk mem n a) /\
  sizeof acpi_sdt_header_t = 35 /\ offsetof acpi_sdt_header_t "length" = None.
Proof.
  unfold sizeof, alignof, offsetof, madt_t, fadt_t, packed, Acpi.sizeof_madt, Acpi.pm1a_cnt_blk.
  split_and!; try done.
  - cbn -[align_up]. rewrite !align_up_1. lia.
  - cbn -[align_up]. rewrite !align_up_1. do 2 f_equal. lia.
Qed.

Lemma descriptor_layouts :
  sizeof tss_t = 104 /\ sizeof tss_descriptor_t = 16 /\ sizeof idt_gate_t = 16 /\ offsetof tss_t "ist" = Some 36.
Proof. done. Qed.

Lemma virtio_layouts n : 0 <= n ->
  n * sizeof virtq_desc = Virtio.desc_bytes n /\ sizeof (virtq_avail n) = Virtio.avail_bytes n /\
  sizeof (virtq_used n) = Virtio.used_bytes n /\ offsetof virtio_pci_common_cfg_t "queue_desc" = Some 32 /\
  sizeof virtio_pci_common_cfg_t = 56.
Proof.
  intros Hn. unfold Virtio.desc_bytes, Virtio.avail_bytes, Virtio.used_bytes. split_and!; try done.
  - unfold sizeof. cbn -[align_up]. rewrite !align_up_1. lia.
  - unfold virtq_used. change (struct_t virtq_used_elem) with (mk_type 6 1). unfold sizeof. cbn -[align_up].
    rewrite !align_up_1. lia.
Qed.

(** A message of the capability service fits in one datagram of the protocol. *)
Definition OMNIOS_CAP_MAX_MSG : Z := 4096.

Lemma cap_layout :
  sizeof cap_token = 112 /\ sizeof cap_msg = 264 /\ sizeof cap_msg <= OMNIOS_CAP_MAX_MSG /\
  offsetof cap_msg "token" = Some 16 /\ offsetof cap_msg "error" = Some 132.
Proof. done. Qed.

End Layout.

Module Numbers.
#[local] Existing Instance Idt.gate_inhabited.

(** ** Interrupt vectors *)

Inductive exception :=
| INT_DIVIDE_ERROR | INT_DEBUG | INT_NMI | INT_BREAKPOINT | INT_OVERFLOW | INT_BOUND_RANGE | INT_INVALID_OPCODE
| INT_DEVICE_NA | INT_DOUBLE_FAULT | INT_COPROCESSOR | INT_INVALID_TSS | INT_SEGMENT_NP | INT_STACK_FAULT | INT_GP_FAULT
| INT_PAGE_FAULT | INT_RESERVED | INT_FPU_ERROR | INT_ALIGNMENT | INT_MCE | INT_SIMD_FP | INT_VIRT_ERROR
| INT_CONTROL_PROT | INT_CPL_HV | INT_CPL_VMM | INT_CPL_VMEXIT.

#[export] Instance exception_eq_dec : EqDecision exception.
Proof. solve_decision. Defined.

Definition exception_vector (e : exception) : Z :=
  match e with
  | INT_DIVIDE_ERROR => 0 | INT_DEBUG => 1 | INT_NMI => 2 | INT_BREAKPOINT => 3 | INT_OVERFLOW => 4 | INT_BOUND_RANGE => 5
  | INT_INVALID_OPCODE => 6 | INT_DEVICE_NA => 7 | INT_DOUBLE_FAULT => 8 | INT_COPROCESSOR => 9 | INT_INVALID_TSS => 10
  | INT_SEGMENT_NP => 11 | INT_STACK_FAULT => 12 | INT_GP_FAULT => 13 | INT_PAGE_FAULT => 14 | INT_RESERVED => 15
  | INT_FPU_ERROR => 16 | INT_ALIGNMENT => 17 | INT_MCE => 18 | INT_SIMD_FP => 19 | INT_VIRT_ERROR => 20
  | INT_CONTROL_PROT => 21 | INT_CPL_HV => 22 | INT_CPL_VMM => 23 | INT_CPL_VMEXIT => 24
  end.

Inductive irq :=
| IRQ_PIT | IRQ_KEYBOARD | IRQ_CASCADE | IRQ_COM2 | IRQ_COM1 | IRQ_LPT2 | IRQ_FLOPPY | IRQ_LPT1 | IRQ_CMOS_RTC | IRQ_ACPI
| IRQ_AVAILABLE | IRQ_NIC | IRQ_PS2_MOUSE | IRQ_FPU | IRQ_PRIMARY_ATA | IRQ_SECONDARY_ATA.

Definition IRQ_BASE : Z := 0x20.

(** The vector; IRQ_SCI is another name of IRQ_ACPI. *)
Definition irq_vector (i : irq) : Z :=
  match i with
  | IRQ_PIT => 0x20 | IRQ_KEYBOARD => 0x21 | IRQ_CASCADE => 0x22 | IRQ_COM2 => 0x23 | IRQ_COM1 => 0x24 | IRQ_LPT2 => 0x25
  | IRQ_FLOPPY => 0x26 | IRQ_LPT1 => 0x27 | IRQ_CMOS_RTC => 0x28 | IRQ_ACPI => 0x29 | IRQ_AVAILABLE => 0x2A
  | IRQ_NIC => 0x2B | IRQ_PS2_MOUSE => 0x2C | IRQ_FPU => 0x2D | IRQ_PRIMARY_ATA => 0x2E | IRQ_SECONDARY_ATA => 0x2F
  end.

Inductive local_interrupt := LvtTimer | LvtThermal | LvtPerfmon | LvtLint0 | LvtLint1 | LvtError | Ipi.

(** LVT_TIMER to LVT_ERROR and IPI_VECTOR *)
Definition local_vector (l : local_interrupt) : Z :=
  match l with
  | LvtTimer => 0x32 | LvtThermal => 0x33 | LvtPerfmon => 0x34 | LvtLint0 => 0x35 | LvtLint1 => 0x36 | LvtError => 0x37
  | Ipi => 0x3F
  end.

Inductive source := Exc (e : exception) | Line (i : irq) | Local (l : local_interrupt).

Definition vector_of (s : source) : Z :=
  match s with Exc e => exception_vector e | Line i => irq_vector i | Local l => local_vector l end.

Lemma exception_vectors_small e : 0 <= exception_vector e < IRQ_BASE.
Proof. destruct e; done. Qed.

Lemma irq_vectors_range i : IRQ_BASE <= irq_vector i < IRQ_BASE + 16.
Proof. destruct i; done. Qed.

Lemma local_vectors_range l : IRQ_BASE + 16 <= local_vector l < 64.
Proof. destruct l; done. Qed.

(** No two sources share a vector. *)
Lemma vectors_distinct s s' : vector_of s = vector_of s' -> s = s'.
Proof.
  destruct s as [e|i|l], s' as [e'|i'|l']; cbn [vector_of]; intros E.
  all: try pose proof (exception_vectors_small e); try pose proof (exception_vectors_small e');
    try pose proof (irq_vectors_range i); try pose proof (irq_vectors_range i');
    try pose proof (local_vectors_range l); try pose proof (local_vectors_range l'); unfold IRQ_BASE in *; try lia.
  - f_equal. destruct e, e'; cbn in E; congruence.
  - f_equal. destruct i, i'; cbn in E; congruence.
  - f_equal. destruct l, l'; cbn in E; congruence.
Qed.

(** After [idt_init] every exception has its gate, with a stack of its own exactly
    for the double fault, the NMI and the machine check, and no line and no local
    interrupt has one. *)
Lemma idt_init_sources {D} `{!X86Machine D} h s (m : machine D) (Hh : 0 <= h < 2 ^ 64) :
  let s' := (Idt.idt_init h s m).1 in
  (forall e, Idt.routes s' (exception_vector e) h (Idt.exception_ist (exception_vector e)) false) /\
  (forall e, (Idt.exception_ist (exception_vector e) =? 0) = negb (bool_decide (e ∈ [INT_DOUBLE_FAULT; INT_NMI; INT_MCE]))) /\
  (forall i, Idt.gate_present (Idt.idt s').[irq_vector i] = false) /\
  (forall l, Idt.gate_present (Idt.idt s').[local_vector l] = false).
Proof.
  pose proof (Idt.idt_init_correct h s m Hh) as Hi. destruct (Idt.idt_init h s m) as [s' m'].
  destruct Hi as (_ & _ & Hex & Hno). split_and!.
  - intros e. apply Hex. pose proof (exception_vectors_small e). unfold IRQ_BASE in *. lia.
  - intros e. destruct e; reflexivity.
  - intros i. apply Hno. pose proof (irq_vectors_range i). unfold IRQ_BASE in *. lia.
  - intros l. apply Hno. pose proof (local_vectors_range l). unfold IRQ_BASE in *. lia.
Qed.

(** ** Registers of the local APIC *)

Inductive lapic_reg :=
| ID_REG | VER_REG | TPR | APR | PPR | EOI | LDR | DFR | SPURIOUS | ISR_BASE | TMR_BASE | IRR_BASE | ESR | ICR_LOW | ICR_HIGH
| REG_LVT_TIMER | LVT_THERMAL | LVT_PERFMON | LVT_LINT0 | LVT_LINT1 | LVT_ERROR | TIMER_INIT | TIMER_CUR | TIMER_DIV.

Definition lapic_offset (r : lapic_reg) : Z :=
  match r with
  | ID_REG => 0x020 | VER_REG => 0x030 | TPR => 0x080 | APR => 0x090 | PPR => 0x0A0 | EOI => 0x0B0 | LDR => 0x0D0 | DFR => 0x0E0
  | SPURIOUS => 0x0F0 | ISR_BASE => 0x100 | TMR_BASE => 0x180 | IRR_BASE => 0x200 | ESR => 0x280 | ICR_LOW => 0x300
  | ICR_HIGH => 0x310 | REG_LVT_TIMER => 0x320 | LVT_THERMAL => 0x330 | LVT_PERFMON => 0x340 | LVT_LINT0 => 0x350
  | LVT_LINT1 => 0x360 | LVT_ERROR => 0x370 | TIMER_INIT => 0x380 | TIMER_CUR => 0x390 | TIMER_DIV => 0x3E0
  end.

(** The registers [apic.c] uses are among them. *)
Lemma lapic_offsets_used :
  map lapic_offset [ID_REG; VER_REG; TPR; EOI; SPURIOUS; ESR; ICR_LOW; ICR_HIGH; REG_LVT_TIMER; LVT_LINT0; LVT_LINT1; LVT_ERROR;
    TIMER_INIT; TIMER_CUR; TIMER_DIV] =
  [Apic.LAPIC_ID_REG; Apic.LAPIC_VER_REG; Apic.LAPIC_TPR; Apic.LAPIC_EOI; Apic.LAPIC_SPURIOUS; Apic.LAPIC_ESR;
   Apic.LAPIC_ICR_LOW; Apic.LAPIC_ICR_HIGH; Apic.LAPIC_LVT_TIMER; Apic.LAPIC_LVT_LINT0; Apic.LAPIC_LVT_LINT1;
   Apic.LAPIC_LVT_ERROR; Apic.LAPIC_TIMER_INIT; Apic.LAPIC_TIMER_CUR; Apic.LAPIC_TIMER_DIV].
Proof. reflexivity. Qed.

(** Every register is 16-byte aligned inside the page of the APIC, so that the
    number of its model-specific register in x2APIC mode, its offset over 16,
    identifies it as its address does. *)
Lemma lapic_registers r r' :
  lapic_offset r mod 16 = 0 /\ 0 <= lapic_offset r < PAGE_SIZE /\
  (0x800 + lapic_offset r / 16 = 0x800 + lapic_offset r' / 16 -> r = r').
Proof.
  split_and!; [destruct r; reflexivity|destruct r; done|destruct r; done|].
  intros E. assert (lapic_offset r / 16 = lapic_offset r' / 16) as E' by lia. clear E.
  destruct r; vm_compute in E'; destruct r'; first [reflexivity|discriminate].
Qed.

(** ** Rights of a capability *)

Inductive right :=
| MEMORY_READ | MEMORY_WRITE | MEMORY_EXEC | IPC_SEND | IPC_RECV | FILE_READ | FILE_WRITE | NET_CONNECT | NET_BIND
| DISPLAY_ACCESS | INPUT_ACCESS | AUDIO_PLAYBACK | AUDIO_CAPTURE | SENSOR_ACCESS | NOTIFICATION | VIBRATE | ADMIN.

#[export] Instance right_eq_dec : EqDecision right.
Proof. solve_decision. Defined.

Definition right_bit (r : right) : Z :=
  match r with
  | MEMORY_READ => 0 | MEMORY_WRITE => 1 | MEMORY_EXEC => 2 | IPC_SEND => 3 | IPC_RECV => 4 | FILE_READ => 5 | FILE_WRITE => 6
  | NET_CONNECT => 7 | NET_BIND => 8 | DISPLAY_ACCESS => 9 | INPUT_ACCESS => 10 | AUDIO_PLAYBACK => 11 | AUDIO_CAPTURE => 12
  | SENSOR_ACCESS => 13 | NOTIFICATION => 14 | VIBRATE => 15 | ADMIN => 63
  end.

Definition right_mask (r : right) : Z := Z.shiftl 1 (right_bit r).

(** The rights a preset is meant to give. *)
Definition preset (h : omnios_seccomp_hint) : list right :=
  match h with
  | OMNIOS_CAP_HINT_STRICT => [MEMORY_READ; MEMORY_WRITE]
  | OMNIOS_CAP_HINT_APP =>
      [MEMORY_READ; MEMORY_WRITE; FILE_READ; FILE_WRITE; NET_CONNECT; NOTIFICATION; SENSOR_ACCESS]
  | OMNIOS_CAP_HINT_CONTAINER =>
      [MEMORY_READ; MEMORY_WRITE; MEMORY_EXEC; FILE_READ; FILE_WRITE; NET_CONNECT; NET_BIND; IPC_SEND; IPC_RECV]
  | OMNIOS_CAP_HINT_COMPOSITOR =>
      [MEMORY_READ; MEMORY_WRITE; DISPLAY_ACCESS; INPUT_ACCESS; IPC_SEND; IPC_RECV; AUDIO_PLAYBACK]
  end.

(** A preset, as a bit mask, holds a right exactly when the right is one of its
    list; no other bit is set. *)
Lemma preset_rights h r :
  Z.testbit (omnios_cap_default_rights h) (right_bit r) = bool_decide (r ∈ preset h) /\
  omnios_cap_default_rights h = any_of (right_mask <$> preset h).
Proof. split; [destruct h, r; reflexivity|destruct h; reflexivity]. Qed.

End Numbers.
