(* ===== verification/Boot.v ===== *)
(** * Kernel start-up

    Models kernel/kernel_main.c: the start-up of both architectures as the
    composition of the components' own start-up functions, the two interrupt
    handlers, the init thread up to its sleep loop, power off and reset.

    [sched_create_thread] is a parameter: the source calls it but defines it
    nowhere. *)

From stdpp Require Import base numbers list option tactics gmap strings.
From S2P Require Import Prelude Bytes Mmio Pmm PageTree Paging Vmm ProcTable Sched Process Initramfs Elf X86 Gdt Idt Apic.
From S2P Require Import Irq Smp Cpu Acpi Pci Klog Tty Text Rtc Board Display MobileBoot Devfs Procfs Arm64 Syscall Exceptions.
Import Proc Sched Process.

Module Boot.

(** [build_early_regions]: one region of 512 MB from 1 MB on. *)
Definition build_early_regions : list Pmm.memory_region_t :=
  [Pmm.mk_region 0x100000 (512 * 1024 * 1024) Pmm.PMM_REGION_USABLE].


(** [_ticks++; sched_tick();] *)
Definition pit_handler (cpu ticks : Z) (k : kstate) : Z * kstate := (u64 (ticks + 1), sched_tick cpu k).

Definition keyboard_handler {D} `{!X86Machine D} : x86 D unit := inb 0x60;; mret tt.

Definition kernel_get_ticks (ticks : Z) : Z := ticks.

Definition kernel_get_uptime_ms (ticks : Z) : Z := u64 (ticks * 10).

(** ** The older interface *)

Inductive sched_policy_t := SCHED_FIFO | SCHED_RR | SCHED_PRIORITY | SCHED_MLFQ.

Record kernel_config_t := mk_config {
  max_processes : Z;
  max_threads : Z;
  total_memory_mb : Z;
  heap_size_mb : Z;
  ticks_per_second : Z;
  sched_policy : sched_policy_t;
  quantum_ms : Z;
  hostname : list Z;
  enable_networking : bool;
  enable_mp : bool;
}.

Definition DEFAULT_CONFIG : kernel_config_t :=
  mk_config 256 1024 4096 64 1000 SCHED_MLFQ 10 (Text.chars "omnios"%string ++ replicate 58 0) true false.

(** [_config] and [_kernel_running]. *)
Record legacy := mk_legacy { config : kernel_config_t; kernel_running : bool }.

Definition kernel_init (c : kernel_config_t) (l : legacy) : Z * legacy := (STATUS_SUCCESS, mk_legacy c true).

(** ** Panic *)

(** What [kernel_panic] leaves: interrupts masked, a line printed, and the CPU
    waiting for ever. *)
Record halted := mk_halted { irqs_on : bool; printed : list Z }.

Definition kernel_panic (message : option (list Z)) (out : list Z) : halted :=
  mk_halted false (out ++ [10] ++ Text.chars "=== KERNEL PANIC: "%string ++ default (Text.chars "unknown"%string) message ++
    Text.line " ==="%string).

(** The memory managers, the process table and the scheduler. *)
Definition init_memory {H} (kernel_space : Z) (s : sys H) : sys H :=
  let m := Pmm.pmm_init build_early_regions (Paging.pmm (Vmm.pg (vs s))) in
  let v := Vmm.set_pg (Paging.set_pmm m (Vmm.pg (vs s))) (vs s) in
  mk_sys (ks s) (Vmm.vmm_init kernel_space v).

(** ** x86_64 *)

Record x86_kernel (H : Type) := mk_kernel {
  kgdt : Gdt.gdt_state;
  kidt : Idt.idt_state;
  kirq : Irq.irq_state;
  kcpu : Cpu.cpu_state;
  kacpi : Acpi.acpi_state;
  kpci : list Pci.pci_device_t;
  ksmp : Smp.smp_tables;
  ksys : sys H;
}.
Arguments mk_kernel {H}.
Arguments kgdt {H}.
Arguments kidt {H}.
Arguments kirq {H}.
Arguments kcpu {H}.
Arguments kacpi {H}.
Arguments kpci {H}.
Arguments ksmp {H}.
Arguments ksys {H}.

Section x86_64.
Context {D : Type} `{!X86Machine D} {H : Type}.
Variable PAGE_MASK kernel_space tss_base : Z.
Variable percpu_addr : Z -> Z.
Variable select : option Z -> D -> D.                  (* the hardware seen from a CPU *)
Variable default_handler pit keyboard : Z.             (* addresses of the handlers *)
Variable cpuid : Z -> Z -> Cpu.regs.
Variable msr : Z -> Z.
Variable mem : Z -> Z.                                 (* the firmware's tables *)
Variable sizeof_header off_length : Z.
Variable idle_thread init_thread : Z.                  (* addresses of the threads *)
Variable sched_create_thread : Z -> Z -> Z -> Z -> kstate -> kstate.
Implicit Types (k : x86_kernel H).






(** The init thread up to its loop of [sched_sleep]. *)
Definition init_thread_x86_64 k : x86 D (x86_kernel H) :=
  d ← Pci.pci_init (kpci k);
  mret (mk_kernel (kgdt k) (kidt k) (kirq k) (kcpu k) (kacpi k) d (ksmp k) (ksys k)).

Definition kernel_poweroff_x86_64 k : x86 D unit := Acpi.acpi_poweroff mem sizeof_header (kacpi k).

Definition kernel_reboot_x86_64 k : x86 D unit := Acpi.acpi_reboot (kacpi k).
End x86_64.

(** ** aarch64 *)

Record arm_kernel (H : Type) := mk_arm_kernel {
  alog : Klog.klog_state;
  aregs : Arm64.sysregs;
  asys : sys H;
}.
Arguments mk_arm_kernel {H}.
Arguments alog {H}.
Arguments aregs {H}.
Arguments asys {H}.

Section aarch64.
Context {D : Type} `{!MmioDevice D} {H : Type}.
Variable kernel_space : Z.
Variable idle_thread init_thread : Z.
Variable vector : Z.                                   (* address of the vector table *)
Variable sched_create_thread : Z -> Z -> Z -> Z -> kstate -> kstate.

(** [smp] is the number of CPUs [smp_online_cpus] reports to the scheduler;
    [syscall_init], after the log, only prints a line. *)
Definition kmain_arm64 (smp : Z) (k : arm_kernel H) : io D (arm_kernel H) :=
  let l := Klog.klog_init (alog k) in
  let r := Exceptions.arm64_exception_init vector (Arm64.arm64_paging_init (aregs k)) in
  Board.sm8250_init;;
  let s := init_memory kernel_space (asys k) in
  let s := mk_sys (sched_init smp (proc_init aarch64 (ks s))) (vs s) in
  let r := Arm64.arm64_timer_init (u32 (Arm64.arm64_read_cntfrq r)) r in
  let ks1 := sched_create_thread 0 idle_thread 0 0 (ks s) in
  let ks2 := sched_create_thread 1 init_thread 0 16 ks1 in
  mret (mk_arm_kernel l r (mk_sys ks2 (vs s))).

Definition kernel_poweroff_arm64 : io D unit := Board.sm8250_poweroff.

Definition kernel_reboot_arm64 : io D unit := Board.sm8250_reboot.
End aarch64.

(** The end of the init thread: hand the archive to the system calls and
    execute the file whose name is at address [path]; nothing when no archive is
    linked in. *)
Definition start_init {H} (cpu : Z) (current : kstate -> option Z) (pexit : Z -> Z -> kstate -> kstate)
    (brk : list Z -> Syscall.sysstate H -> Syscall.sys_result H)
    (archive : list Z) (path : Z) (s : Syscall.sysstate H) : option (Syscall.sys_result H) :=
  if 0 <? Z.of_nat (length archive) then
    let s := Syscall.syscall_set_initramfs archive (Z.of_nat (length archive)) s in
    Some (Syscall.syscall_dispatch aarch64 cpu current pexit brk 9 [path; 0; 0; 0; 0; 0] s)
  else None.

(** What the init thread works on besides the state of the system calls. *)
Record services := mk_services {
  mobile : MobileBoot.mobile_state;
  devs : Devfs.devfs;
  procs : Procfs.procfs;
  console : Tty.tty_state;
}.

(** The services the init thread starts before it looks for the archive. *)
Definition init_services {D} `{!MmioDevice D} (fuel : nat) (t0 : Rtc.rtc_time_t) (s : services)
    : io D (option services) :=
  f ← Display.mobile_boot_animation (MobileBoot.fb (mobile s));
  match f with
  | None => mret None
  | Some f =>
      r ← MobileBoot.mobile_boot_init fuel t0 (MobileBoot.set_fb f (mobile s));
      match r with
      | None => mret None
      | Some m =>
          mret (Some (mk_services m (Devfs.devfs_init (devs s)) (Procfs.procfs_init (procs s))
            (Tty.tty_init (console s))))
      end
  end.

(** The init thread up to its loop of [sched_sleep]. *)
Definition init_thread_arm64 {D} `{!MmioDevice D} {H} (fuel : nat) (t0 : Rtc.rtc_time_t) (cpu : Z)
    (current : kstate -> option Z) (pexit : Z -> Z -> kstate -> kstate)
    (brk : list Z -> Syscall.sysstate H -> Syscall.sys_result H)
    (archive : list Z) (path : Z) (s : services) (k : Syscall.sysstate H)
    : io D (option (services * option (Syscall.sys_result H))) :=
  s ← init_services fuel t0 s;
  match s with
  | None => mret None
  | Some s => mret (Some (s, start_init cpu current pexit brk archive path k))
  end.

(** ** The memory the kernel starts with *)

(** The region of [build_early_regions] starts below the 16 MB that [pmm_init]
    leaves to the kernel, so the allocator has no page: whatever happens to
    memory afterwards, the first allocation panics. *)
Lemma early_regions_empty s m :
  Pmm.pmm_alloc_page (Pmm.set_mem m (Pmm.pmm_init build_early_regions s)) = Halted PmmOom.
Proof. reflexivity. Qed.

Lemma init_memory_empty {H} kernel_space (s : sys H) :
  Pmm.pmm_alloc_page (Paging.pmm (Vmm.pg (vs (init_memory kernel_space s)))) = Halted PmmOom.
Proof. apply early_regions_empty. Qed.

(** *** x86_64 *)

Section x86_theorems.
Context {D : Type} `{!X86Machine D} {H : Type}.
Variable PAGE_MASK kernel_space tss_base : Z.
Variable percpu_addr : Z -> Z.
Variable select : option Z -> D -> D.                  (* the hardware seen from a CPU *)
Variable default_handler pit keyboard : Z.
Variable cpuid : Z -> Z -> Cpu.regs.
Variable msr : Z -> Z.
Variable mem : Z -> Z.                                 (* the firmware's tables *)
Variable sizeof_header off_length : Z.
Variable idle_thread init_thread : Z.
Variable sched_create_thread : Z -> Z -> Z -> Z -> kstate -> kstate.
Implicit Types (k : x86_kernel H).





End x86_theorems.

(** *** aarch64 *)

Section arm_theorems.
Context {D : Type} `{!MmioDevice D} {H : Type}.
Variable kernel_space idle_thread init_thread vector : Z.
Variable sched_create_thread : Z -> Z -> Z -> Z -> kstate -> kstate.

Lemma kmain_arm64_oom smp (k : arm_kernel H) (b : bus D) :
  Pmm.pmm_alloc_page (Syscall.kpmm (asys
    (kmain_arm64 kernel_space idle_thread init_thread vector sched_create_thread smp k b).1)) = Halted PmmOom.
Proof.
  unfold kmain_arm64, mbind, io_bind. destruct (Board.sm8250_init b) as [r b1]. cbn [mret io_ret fst].
  apply (init_memory_empty kernel_space (asys k)).
Qed.

(** After [kmain] the timer fires a hundred times a second. *)
Lemma kmain_arm64_state smp (k : arm_kernel H) (b : bus D) :
  0 <= Arm64.cntfrq (aregs k) < 2 ^ 32 ->
  let k' := (kmain_arm64 kernel_space idle_thread init_thread vector sched_create_thread smp k b).1 in
  Arm64.cntp_tval (aregs k') = Arm64.cntfrq (aregs k) / 100 /\ Arm64.cntp_ctl (aregs k') = 1 /\
  Arm64.vbar (aregs k') = vector.
Proof.
  intros Hf. unfold kmain_arm64, mbind, io_bind.
  destruct (Board.sm8250_init b) as [r b1]. cbn [mret io_ret fst]. split_and!.
  - change (u32 (Arm64.cntfrq (aregs k) / 100) = Arm64.cntfrq (aregs k) / 100). apply wrap_small. split; [apply Z.div_pos; lia|]. apply Z.div_lt_upper_bound; lia.
  - reflexivity.
  - reflexivity.
Qed.

(** With an allocator without pages the init program is found and loaded, but
    its page tables cannot be made. *)
Lemma start_init_oom cpu current pexit brk files tl path i f ent phoff l (s : Syscall.sysstate H) :
  let ar := concat (Initramfs.encode <$> files) ++ tl in
  Forall Initramfs.file_ok files -> Initramfs.tail_ok tl -> Z.of_nat (length ar) < 2 ^ 62 ->
  path <> 0 ->
  first_index (Initramfs.has_name (Syscall.user_string (Syscall.umem s) path)) files = Some i ->
  files !! i = Some f ->
  Elf.elf_ok (Initramfs.fdata f) ent phoff l -> Forall (Elf.seg_ok (Initramfs.fdata f)) (Elf.loads l) ->
  List.ForallOrdPairs Elf.seg_disjoint (Elf.loads l) ->
  Pmm.pmm_alloc_page (Syscall.kpmm (Syscall.psys s)) = Halted PmmOom ->
  start_init cpu current pexit brk ar path s = Some (Syscall.Panics PmmOom).
Proof.
  intros ar HF Htl Hlen Hp Hi Hf Hok Hsegs Hdis Hoom. unfold start_init.
  destruct (Z.ltb_spec 0 (Z.of_nat (length ar))) as [_|Hz].
  2:{ assert (length ar <> 0%nat); [|lia]. destruct files as [|g fs]; [done|]. unfold ar. by rewrite !length_app. }
  f_equal. set (s1 := Syscall.syscall_set_initramfs ar (Z.of_nat (length ar)) s).
  change (Syscall.sys_execve aarch64 [path; 0; 0; 0; 0; 0] s1 = Syscall.Panics PmmOom).
  unfold Syscall.sys_execve.
  destruct (Syscall.load_program_spec files tl 0 path [0; 0; 0; 0; 0] i f ent phoff l s1 eq_refl HF Htl Hlen Hp Hi Hf
    Hok Hsegs Hdis) as (fs' & m' & -> & _).
  unfold Syscall.enter_user_space, Syscall.user_tables, Arm64.arm64_create_user_pgd. cbn [Syscall.psys].
  change (Syscall.psys s1) with (Syscall.psys s). by rewrite Hoom.
Qed.

(** The framebuffer driver starts after the animation, which draws nothing. *)
Lemma animation_skipped (f : Display.fb_state) (b : bus D) :
  Display.fb_ready f = 0 -> Display.mobile_boot_animation f b = (Some f, b).
Proof. intros Hf. unfold Display.mobile_boot_animation, Display.display_fb_get_info. by rewrite Hf. Qed.

(** The services come up whatever the devices answer, with a sane clock. *)
Lemma init_services_up fuel t0 sv (b : bus D) :
  MobileBoot.clock_sane (D := D) ->
  2 ^ 55 <= Z.of_nat fuel * (365 * 86400) -> 0 <= Rtc.rtc_offset (MobileBoot.rtc (mobile sv)) < 2 ^ 55 ->
  Display.fb_ready (MobileBoot.fb (mobile sv)) = 0 ->
  exists sv' b', init_services fuel t0 sv b = (Some sv', b') /\
    MobileBoot.parts_up (mobile sv') /\ MobileBoot.mobile_boot_is_complete (mobile sv') = 1 /\
    devs sv' = Devfs.devfs_init (devs sv) /\ procs sv' = Procfs.procfs_init (procs sv) /\
    console sv' = Tty.tty_init (console sv).
Proof.
  intros Hsane Hfuel Hclock Hfb. unfold init_services, mbind, io_bind. rewrite animation_skipped by done.
  unfold mbind, io_bind.
  pose proof (MobileBoot.mobile_boot_result fuel t0
    (MobileBoot.set_fb (MobileBoot.fb (mobile sv)) (mobile sv)) Hsane Hfuel Hclock b) as Hr.
  destruct (MobileBoot.mobile_boot_init _ _ _ b) as [r b']. cbn [fst] in Hr.
  destruct Hr as (m & -> & Hup & _ & Hdone). by do 2 eexists.
Qed.

(** On the allocator [kmain] leaves, the init thread brings up the drivers
    and the kernel's services, finds and loads the init program of every
    well-formed archive, and then panics for want of a page for its tables;
    without an archive it comes to its loop. *)
Theorem init_thread_panics cpu current pexit brk files tl path i f ent phoff l smp fuel t0 sv
    (k : arm_kernel H) (s : Syscall.sysstate H) (b b1 : bus D) :
  let ar := concat (Initramfs.encode <$> files) ++ tl in
  let s1 := Syscall.set_psys (asys
    (kmain_arm64 kernel_space idle_thread init_thread vector sched_create_thread smp k b).1) s in
  MobileBoot.clock_sane (D := D) ->
  2 ^ 55 <= Z.of_nat fuel * (365 * 86400) -> 0 <= Rtc.rtc_offset (MobileBoot.rtc (mobile sv)) < 2 ^ 55 ->
  Display.fb_ready (MobileBoot.fb (mobile sv)) = 0 ->
  Forall Initramfs.file_ok files -> Initramfs.tail_ok tl -> Z.of_nat (length ar) < 2 ^ 62 ->
  path <> 0 ->
  first_index (Initramfs.has_name (Syscall.user_string (Syscall.umem s) path)) files = Some i ->
  files !! i = Some f ->
  Elf.elf_ok (Initramfs.fdata f) ent phoff l -> Forall (Elf.seg_ok (Initramfs.fdata f)) (Elf.loads l) ->
  List.ForallOrdPairs Elf.seg_disjoint (Elf.loads l) ->
  exists sv' b', MobileBoot.parts_up (mobile sv') /\ MobileBoot.mobile_boot_is_complete (mobile sv') = 1 /\
    init_thread_arm64 fuel t0 cpu current pexit brk ar path sv s1 b1 = (Some (sv', Some (Syscall.Panics PmmOom)), b') /\
    init_thread_arm64 fuel t0 cpu current pexit brk [] path sv s1 b1 = (Some (sv', None), b').
Proof.
  intros ar s1 Hsane Hfuel Hclock Hfb HF Htl Hlen Hp Hi Hf Hok Hsegs Hdis.
  destruct (init_services_up fuel t0 sv b1 Hsane Hfuel Hclock Hfb) as (sv' & b' & E & Hup & Hdone & _).
  exists sv', b'. split; [done|]. split; [done|].
  unfold init_thread_arm64, mbind, io_bind. rewrite E. unfold mret, io_ret. split; [|done].
  pose proof (start_init_oom cpu current pexit brk files tl path i f ent phoff l s1 HF Htl Hlen Hp Hi Hf Hok Hsegs Hdis
    (kmain_arm64_oom smp k b)) as Es. cbv zeta in Es. fold ar in Es. by rewrite Es.
Qed.
End arm_theorems.

(** ** Witnesses *)








Definition services0 : services :=
  mk_services MobileBoot.mobile0 Devfs.empty_devfs (Procfs.mk_procfs [] 0 0)
    (Tty.mk_state Tty.zeroed_tty []).

Definition arm_kernel0 : arm_kernel Z :=
  mk_arm_kernel Klog.empty_log (Syscall.sregs Syscall.sys0) (Syscall.psys Syscall.sys0).

(** The archive with one init program. *)
Lemma init_thread_panics_witness :
  exists sv' b', MobileBoot.parts_up (mobile sv') /\ MobileBoot.mobile_boot_is_complete (mobile sv') = 1 /\
    init_thread_arm64 (D := MobileBoot.board) (Z.to_nat (2 ^ 40)) Rtc.date0 0 proc_get_current (fun _ _ k => k)
      (fun _ s => Syscall.Returns (-1) s) Syscall.init_archive 0x1000 services0
      (Syscall.set_psys (asys (kmain_arm64 0x1234000 0 0 0x4000 (fun _ _ _ _ k => k) 1 arm_kernel0
        (mk_bus (MobileBoot.mk_board ∅) [])).1) Syscall.sys0)
      (mk_bus (MobileBoot.mk_board ∅) []) = (Some (sv', Some (Syscall.Panics PmmOom)), b').
Proof.
  destruct (init_thread_panics (D := MobileBoot.board) 0x1234000 0 0 0x4000 (fun _ _ _ _ k => k) 0 proc_get_current (fun _ _ k => k)
    (fun _ s => Syscall.Returns (-1) s) [Syscall.init_file] [] 0x1000 0 Syscall.init_file 0x400000 64 [Elf.seg0]
    1 (Z.to_nat (2 ^ 40)) Rtc.date0 services0 arm_kernel0 Syscall.sys0 (mk_bus (MobileBoot.mk_board ∅) []) (mk_bus (MobileBoot.mk_board ∅) []))
    as (sv' & b' & Hup & Hdone & E & _).
  - exact MobileBoot.board_clock_sane.
  - rewrite Z2Nat.id by done. done.
  - done.
  - done.
  - constructor; [apply Syscall.init_file_ok|constructor].
  - left. simpl. lia.
  - by vm_compute.
  - lia.
  - by vm_compute.
  - reflexivity.
  - split; try (by vm_compute). left. by vm_compute.
  - constructor; [split_and!; by vm_compute|constructor].
  - repeat constructor.
  - exists sv', b'. split; [exact Hup|]. split; [exact Hdone|]. exact E.
Defined.

End Boot.
