(* ===== verification/Tests.v ===== *)
(** * The test programs

    Models the tests of kernel/tests/test_kernel.c and
    userspace/security/test_capability.c that call functions the repository
    defines: each test is the list of its checks with their results, run on the
    models of the components.  The tests of the file system, the device drivers,
    the network and thread creation call functions that are defined nowhere.

    Running them shows that the models do what the tests expect, and which checks
    fail on the code as it is. *)

From stdpp Require Import base numbers list option tactics strings.
From S2P Require Import Prelude Text Heap PageBitmap Ipc Timer ProcTable Sched Process Syscall Boot CapProtocol CapDaemon CapClient.
Import Proc.

Module KernelTests.

Definition VM_READ : Z := 1.
Definition VM_WRITE : Z := 2.

(** [END_TEST]: the name of a check and whether it passes. *)
Abbreviation checks := (list (string * bool)).

Definition passed (l : checks) : nat := length (filter (fun c => c.2 = true) l).
Definition failed (l : checks) : nat := length (filter (fun c => c.2 = false) l).

Definition check (name : string) (ok : bool) : string * bool := (name, ok).

Definition test_kernel_init (l : Boot.legacy) : checks :=
  let d := Boot.DEFAULT_CONFIG in
  let config := Boot.mk_config (Boot.max_processes d) (Boot.max_threads d) 256 (Boot.heap_size_mb d) (Boot.ticks_per_second d)
    (Boot.sched_policy d) (Boot.quantum_ms d) (Boot.hostname d) (Boot.enable_networking d) (Boot.enable_mp d) in
  let '(status, _) := Boot.kernel_init config l in
  [check "Kernel baslatma" (status =? STATUS_SUCCESS)].

Definition mset (p n v : Z) (m : Z -> Z) : Z -> Z := fun x => if (p <=? x) && (x <? p + n) then v else m x.

(** The checks up to the first use of a page, which the code reads through a null
    pointer when none could be allocated; [None] when [fuel] is too small. *)
Definition test_memory (fuel : nat) (heap_buffer : Z) (s : PageBitmap.mm_state) : option (checks * bool) :=
  '(st, s) ← PageBitmap.mm_init fuel heap_buffer 256 s;
  '(p1, h) ← Heap.kmalloc fuel 128 (PageBitmap.heap s);
  '(p2, h) ← Heap.kmalloc fuel 4096 h;
  let h := PageBitmap.set_hmem (mset p1 128 0xAA (Heap.hmem h)) h in
  let written := (Heap.hmem h p1 =? 0xAA) && (Heap.hmem h (p1 + 127) =? 0xAA) in
  let h := Heap.kfree p1 h in
  '(p3, h) ← Heap.kcalloc fuel 10 32 h;
  let zero_ok := forallb (fun i => Heap.hmem h (p3 + i) =? 0) (seqZ 0 320) in
  let h := Heap.kfree p3 (Heap.kfree p2 h) in
  '(pg, s) ← PageBitmap.mm_alloc_page fuel (Z.lor VM_READ VM_WRITE) (PageBitmap.set_heap h s);
  let cs := [check "mm_init" (st =? STATUS_SUCCESS); check "kmalloc 128 bytes" (negb (p1 =? 0)); check "kmalloc 4KB" (negb (p2 =? 0));
     check "Bellek yazma dogru" (written); check "kfree" (true); check "kcalloc 10*32" (negb (p3 =? 0)); check "kcalloc sifirli" (zero_ok);
     check "Sayfa ayirma" (negb (pg =? 0) && (0 <? Heap.hmem (PageBitmap.heap s) (PageBitmap.phys_addr_ pg)))] in
  if pg =? 0 then Some (cs, false) else
  let counted := Heap.hmem (PageBitmap.heap s) (PageBitmap.ref_count_ pg) =? 1 in
  let '(r, _) := PageBitmap.mm_free_page pg s in
  Some (cs ++ [check "Sayfa referans sayisi" (counted); check "Sayfa free" (r =? STATUS_SUCCESS)], true).

Definition test_ipc (s : Ipc.ipc_state) : checks :=
  let '(r1, s) := Ipc.ipc_init s in
  let '(r2, ch, s) := Ipc.ipc_channel_create (Some (Ipc.mk_chan 0 1 1 2 0 false)) s in
  let id := match ch with Some c => Ipc.channel_id c | None => 0 end in
  let '(r3, s) := Ipc.ipc_channel_close id s in
  let '(r4, s) := Ipc.ipc_channel_close 999 s in
  [check "IPC init" (r1 =? STATUS_SUCCESS); check "Kanal olusturma" (r2 =? STATUS_SUCCESS); check "Kanal ID dogru" (0 <? id);
   check "Kanal kapatma" (r3 =? STATUS_SUCCESS); check "Olmayan kanal kapatma" (r4 =? STATUS_NOT_FOUND)].

Definition test_timer {W} (cb : Z) (s : Timer.timer_state W) : checks :=
  let '(r1, s) := Timer.timer_init s in
  let '(tid, s) := Timer.timer_create 100 cb 0 false s in
  let '(r2, s) := Timer.timer_cancel tid s in
  [check "Timer init" (r1 =? STATUS_SUCCESS); check "Timer olusturma" (0 <? tid); check "Timer iptal" (r2 =? STATUS_SUCCESS)].

(** The numbers of the test are the ones of include/omnios_kernel.h. *)
Definition SYS_SLEEP : Z := 3.
Definition SYS_GETPID : Z := 4.
Definition SYS_MAX : Z := 64.

Section syscalls.
Context {H : Type} (a : arch) (cpu : Z).
Variable process_get_current : kstate -> option Z.
Variable process_exit : Z -> Z -> kstate -> kstate.
Variable sys_brk : list Z -> Syscall.sysstate H -> Syscall.sys_result H.

(** [None] when a call does not return. *)
Definition test_syscalls (s : Syscall.sysstate H) : option checks :=
  let handler := Syscall.syscall_handler a cpu process_get_current process_exit sys_brk in
  let '(r0, s) := Syscall.syscall_init s in
  '(r1, s) ← handler SYS_GETPID [0; 0; 0; 0; 0; 0] true s;
  '(r2, s) ← handler SYS_SLEEP [10; 0; 0; 0; 0; 0] true s;
  '(r3, s) ← handler (SYS_MAX + 1) [SYS_MAX + 1; 0; 0; 0; 0; 0] true s;
  Some [check "Syscall init" (r0 =? STATUS_SUCCESS); check "SYS_GETPID" (bool_decide (r1 = Some STATUS_SUCCESS));
    check "SYS_SLEEP" (bool_decide (r2 = Some STATUS_SUCCESS));
    check "Gecersiz syscall" (bool_decide (r3 = Some STATUS_NOT_IMPLEMENTED))].

(** The table numbers its calls differently: the number the test takes for getpid
    is open, which fails, and an unknown call gives -1 and not the status the test
    expects. *)
Lemma test_syscalls_result s :
  (map snd <$> test_syscalls s) = Some [true; false; true; false].
Proof. reflexivity. Qed.
End syscalls.

Lemma test_kernel_init_passes l : failed (test_kernel_init l) = 0%nat.
Proof. reflexivity. Qed.

Lemma test_ipc_passes s : failed (test_ipc s) = 0%nat.
Proof. reflexivity. Qed.

Lemma test_timer_passes {W} cb (s : Timer.timer_state W) : cb <> 0 -> failed (test_timer cb s) = 0%nat.
Proof. intros Hcb. unfold test_timer, Timer.timer_init, Timer.timer_create. by rewrite (proj2 (Z.eqb_neq _ _)). Qed.

(** The heap checks pass; no page can be allocated, and the test goes on to read
    the reference count of a null page. *)
Lemma test_memory_result :
  (fun r => (map snd r.1, r.2)) <$> test_memory 10 0x1000000 (PageBitmap.mm_boot (fun _ => 0)) =
    Some ([true; true; true; true; true; true; true; false], false).
Proof. vm_compute. reflexivity. Qed.
End KernelTests.

Module CapTests.
Import CapProtocol CapClient.

Definition has (rights right : Z) : bool := truthy (Z.land rights right).

(** The last assertion is [READ | (WRITE == 3)], by the precedence of C. *)
Definition test_rights_masks : bool :=
  (OMNIOS_CAP_MEMORY_READ =? 1) && (OMNIOS_CAP_MEMORY_WRITE =? 2) && (OMNIOS_CAP_ADMIN =? Z.shiftl 1 63) &&
  truthy (Z.lor OMNIOS_CAP_MEMORY_READ (of_bool (OMNIOS_CAP_MEMORY_WRITE =? 3))).

Definition test_default_presets : bool :=
  let strict := omnios_cap_default_rights OMNIOS_CAP_HINT_STRICT in
  let app := omnios_cap_default_rights OMNIOS_CAP_HINT_APP in
  let comp := omnios_cap_default_rights OMNIOS_CAP_HINT_COMPOSITOR in
  has strict OMNIOS_CAP_MEMORY_READ && has strict OMNIOS_CAP_MEMORY_WRITE && negb (has strict OMNIOS_CAP_NET_CONNECT) &&
  has app OMNIOS_CAP_NET_CONNECT && has app OMNIOS_CAP_FILE_READ && negb (has app OMNIOS_CAP_ADMIN) &&
  has comp OMNIOS_CAP_DISPLAY_ACCESS && has comp OMNIOS_CAP_INPUT_ACCESS && negb (has comp OMNIOS_CAP_NET_BIND).

Definition test_cap_strerror (strerror : Z -> string) : bool :=
  String.eqb (omnios_cap_strerror strerror 0) "success" &&
  String.eqb (omnios_cap_strerror strerror (- EPERM)) "permission denied" &&
  String.eqb (omnios_cap_strerror strerror (- ENOENT)) "token not found".

(** With a daemon; the text is the one the test prints. *)
Inductive connect_result := Skipped | Asserts (ok : bool).

Definition test_connect_daemon {S} `{!CapService S} (getpid : Z) (ctx : option omnios_cap_ctx) (s : S) : connect_result :=
  match ctx with
  | None => Skipped
  | Some ctx =>
      let '(tid, ctx, s) := omnios_cap_request getpid ctx (Z.lor OMNIOS_CAP_MEMORY_READ OMNIOS_CAP_MEMORY_WRITE)
                              (Some (Text.chars "test"%string ++ [0])) s in
      if tid <? 0 then Skipped else
      let '(ret, tok, _, _) := omnios_cap_verify getpid ctx tid s in
      Asserts ((0 <? tid) && (ret =? 0) &&
        match tok with
        | Some t => (CapProtocol.id t =? u32 tid) && has (CapProtocol.rights t) OMNIOS_CAP_MEMORY_READ
        | None => false
        end)
  end.

Lemma cap_tests_pass strerror : test_rights_masks && test_default_presets && test_cap_strerror strerror = true.
Proof. reflexivity. Qed.

(** Against the daemon just started, for the init process. *)
Lemma test_connect_passes : test_connect_daemon 1 (Some (mk_ctx 4 1)) link0 = Asserts true.
Proof. vm_compute. reflexivity. Qed.
End CapTests.
